(* ===== verification/_CoqProject ===== *)
-Q . S2P
Prelude.v
Memory.v
Layout.v
I8259.v
LibMem.v
LibString.v
Paging.v
CircularBuffer.v
Ece391Fs.v
Fs.v
Pcb.v
KeyboardMap.v
Terminal.v
Screen.v
Printf.v
Console.v
LineInput.v
Machine.v
Rtc.v
Tests.v
Syscall.v
Dispatch.v
FileTable.v
Process.v
Execute.v
Exception.v
Pit.v
Boot.v
Entry.v
Startup.v
Support.v
UserSys.v
Programs.v
Shell.v
SysErr.v
Utility.v
Grep.v
UserKernel.v
UserLevel.v
KernelShell.v
ShellLevel.v
KernelErrors.v
