(* ===== verification/Prelude.v ===== *)
(** * psychOS: a verification of the kernel

    psychOS is a small Unix-like kernel for one 32-bit x86 processor
    ([src/student-distrib]).  It boots from a multiboot loader with a read-only
    file system image in memory, starts a shell on each of three virtual
    terminals and switches between up to six processes on timer interrupts.
    [src/syscalls] has the programs that run on it and their library.

    ** Parts of the program and the files that model them

    - [Prelude], [Memory]: C integers of each width on [Z] (conversions written
      out as [u8], [u32], [s32], ...), byte memory as a finite map from
      addresses to bytes with little-endian loads and stores, C strings.
      A byte that was never written reads as 0.
    - [Layout]: addresses of the kernel's static objects, which the linker
      chooses: a class with the facts the declarations promise, and an
      instance for the examples.
    - [I8259] ([arch/x86/i8259.c], [outportb] of [io.c]): the interrupt
      controllers; the state is the two mask variables and the log of port
      writes.
    - [LibMem], [LibString], [Printf] ([lib/lib.c]): memory routines at the
      level of the string instructions (direction flag included), string
      routines and number conversion, formatted output.
    - [Paging] ([arch/x86/paging.c]): page directories and tables in memory;
      the processor's walk of the tables is the specification side.
    - [CircularBuffer] ([lib/circular_buffer.c]): the ring buffer of the line
      editor.
    - [Ece391Fs], [Fs] ([fs/ece391_fs.c], [fs/fs.c]): the file system image and
      the file and directory operations on descriptors.
    - [Pcb] ([arch/x86/task.c]): process control blocks, kernel stacks, program
      pages, command parsing and program loading.
    - [KeyboardMap], [Terminal] ([tty/keyboard_map.c], [tty/terminal.c]): key
      tables, line editor, screens and terminal switching; [Screen] has the
      theorems on output, [LineInput] those on input.
    - [Machine] ([arch/x86/interrupt.c], [x86_desc.h], [set_kernel_stack]): the
      state of the kernel as one record (terminals and memory, file system
      pointers, descriptor tables, task segment, page directory register, pid
      counter), interrupt gates and segment descriptors.
    - [Console]: calls of [printf] with literals and arguments on the stack,
      the way the kernel prints messages.
    - [Rtc] ([drivers/rtc.c]): the virtualised real-time clock.
    - [Tests] ([kernel/tests.c]): the tests behind Ctrl+1 to Ctrl+5.
    - [Syscall] ([kernel/syscall.c], [halt_program] of [task.c]): the ten
      system calls; [FileTable], [Process], [Execute] have their theorems.
      [Dispatch] ([arch/x86/syscall_wrapper.S]): the jump table of the calls.
    - [Exception] ([arch/x86/interrupt.c]): the exception handler, its report
      and the end of the process.
    - [Pit] ([drivers/pit.c]): timer, scheduler and context switch.
    - [Boot], [Entry], [Startup] ([kernel.c], [kernel_run_first_program]
      of [task.c]): the entry point from the multiboot header to the first
      shell, with the descriptor tables it sets up.
    - [Support] ([syscalls/ece391support.c]): the library of the programs.
    - [UserSys]: the interface between a program and the kernel, the class
      [UserSystem] of the calls and the class [UserSystemOk] of what they
      promise about screen, keyboard, descriptors and files.
    - [Programs] ([ece391cat.c], [ece391ls.c], [ece391hello.c],
      [ece391counter.c], [ece391testprint.c]), [Grep] ([ece391grep.c]), [Shell]
      ([ece391shell.c]), [SysErr] ([ece391syserr.c]): programs, verified
      against the interface.  [Utility] packs a program with its specification,
      so that the shell can run any of them.
    - [UserKernel]: the kernel implements the interface.  [UserLevel],
      [KernelShell], [ShellLevel], [KernelErrors]: the programs on the kernel;
      for the shell the calls of [execute] and [halt] are composed with the run
      of the child between them.

    ** How the code is modelled

    A function of the source is a Rocq function of the same name that takes and
    returns the part of the state it uses; a pointer is an address in the byte
    memory, so aliasing, struct layouts and overlapping copies are what they
    are in the code.  A loop is a fixpoint on fuel (or on its count when the
    source bounds it); where fuel could run out the result is an option, and
    the theorems state that the result is [Some], with fuel that the caller's
    definition fixes: the number of blocks and bytes for [read_data], one more
    than the written bytes of memory for strings (a string ends at the first
    byte that was never written), eight iterations for the scheduler over six
    slots.  The loops of the user programs take their fuel as an argument: more
    than the bytes of the file for [cat] and [grep], more than the entries of the
    directory for [ls] and for a whole run of [grep], one more than the lines typed for the shell,
    the largest bound (100000) for [counter].  Calls that leave for user mode or
    another stack return an [outcome]; stack pointers, locals on the stack, values
    read from ports and interrupts that arrive during a wait are arguments.

    A pointer from user mode is followed through the page tables of the running
    process ([user_addr]).  One they do not map is a page fault: the call has no
    result ([None], or the outcome [Page_fault] of [execute]), and theorems about
    calls assume, or show from the program's page, that their pointers are
    mapped.  The buffer of a read or a write is followed when the operation of the
    descriptor uses it; that an operation which happens to move no byte would not
    fault is not modelled.

    ** What the theorems show

    - Memory protection: after any sequence of paging operations the tables,
      walked as the processor does, implement one address space per slot
      ([paging_refines_spaces]); user mode in a slot reaches only its own page
      and its video window ([process_isolation], [slot_geometry]).
    - Files: reading delivers exactly the bytes of the file across block
      boundaries, terminates, and a program that reads in chunks sees the whole
      file; directory lookup and listing; descriptors are allocated and freed
      as the table says, on every error branch, and a name that is not mapped
      faults ([syscall_open_correct], [syscall_close_correct]).
    - Terminals: output refines an abstract 25 by 80 screen with scrolling,
      switching terminals keeps all three screens, the line editor refines a
      queue of characters, echoes every key but tabs as itself and leaves room for
      Enter, a read delivers one line.  What a tab prints is a finding
      ([tab_misaligned]).  The tests of the keyboard print the directory and files
      of the image, the contents of files on the terminal of the interrupted
      process ([file_tests_correct]).
    - Processes: [execute] starts a program in a fresh address space or fails
      with all other processes as they were, [halt] returns to the caller of [execute], both together
      are a round trip; a timer interrupt switches to the next runnable slot
      and every runnable process gets its turn.
    - Library: [memcpy], [memmove], [memset] against byte-wise
      specifications, [itoa], string comparison, [printf] against a rendering
      of its format; where the library of the programs agrees with the kernel's
      and where its comparison differs ([support_equivalent]).
    - Start: from the multiboot header the kernel reaches the first program in
      a sound state or reports the defect ([entry_correct],
      [kernel_run_first_program_correct]); the descriptor tables decode to what
      [kernel.c] means ([descriptor_tables_correct]).
    - Exceptions: a fault in a child ends the child and wakes its parent with
      256; without a parent the screen shows the report.
    - User level: [cat], [ls] and [counter] print what the image and the typed
      line say, [grep] prints the matching lines of a text file, [syserr] finds
      every bad call refused, and a session of the shell, children included, is
      the session its specification computes ([cat_on_kernel],
      [grep_file_on_kernel], [syserr_on_kernel], [shell_on_kernel]).
    - Devices: masks and initialisation of the interrupt controllers, gates and
      descriptors as the processor decodes them, clock reads that return after
      the right number of ticks.

    Deviations from what comments say, and slips of the code that the proofs
    met, are theorems marked Finding.

    ** Not modelled

    - The assembly stubs that save and restore registers around handlers: their
      effect is the outcome of the C function they call.
    - The translation look-aside buffer: [flush_tlb] has no effect on the model,
      since a walk always reads the tables.
    - Reads from ports ([inportb] and its kin): the values are arguments.
    - Interrupts during a user program: a program runs between two timer
      interrupts, and [Pit] has the switch.  A program sees keys that were typed
      before its read; [LineInput] has the keys that arrive during one.
    - The effect of the tests on the clock inside the keyboard handler: the
      handler of [Terminal] keeps terminals and memory only and takes
      [test_suite] as a parameter; [Tests] models it on the whole kernel.
    - What [grep] prints for entries that are no text files, such as programs,
      whose zero bytes its line buffer mishandles, and for the clock: its loop over
      the directory is proved for runs of text files ([grep_loop_segment],
      [grep_main_segment]).
    - [ece391pingpong.c], which never returns and waits for clock interrupts
      that change the counters of other processes; [ece391sigtest.c], for the
      signals the kernel does not have; [ece391emulate.c], a harness that runs
      the programs on Linux; the fish animation, whose drawing is in assembly. *)

From Stdlib Require Export ZArith Lia.
From stdpp Require Export base numbers functions gmap list_basics list.

#[global] Open Scope Z_scope.

(** * Machine integers

    A [w]-bit C integer is a [Z]; the conversions of C are the reductions
    below.  [int8_t] is [char] in [include/types.h], which is signed on x86. *)

Definition u8 (z : Z) : Z := z mod 0x100.
Definition u16 (z : Z) : Z := z mod 0x10000.
Definition u32 (z : Z) : Z := z mod 0x100000000.
Definition s8 (z : Z) : Z := (z + 0x80) mod 0x100 - 0x80.
Definition s32 (z : Z) : Z := (z + 0x80000000) mod 0x100000000 - 0x80000000.

(** C truth values and the C reading of a condition. *)
Definition c_bool (b : bool) : Z := if b then 1 else 0.
Definition truthy (z : Z) : bool := negb (z =? 0).

(** * Automation *)

(** Case analysis on the boolean comparisons that the C conditions become. *)
Ltac case_zb :=
  match goal with
  | |- context [ (?a <? ?b)%Z ] => destruct (Z.ltb_spec a b)
  | |- context [ (?a <=? ?b)%Z ] => destruct (Z.leb_spec a b)
  | |- context [ (?a =? ?b)%Z ] => destruct (Z.eqb_spec a b)
  | |- context [ (?a >? ?b)%Z ] => rewrite (Z.gtb_ltb a b); destruct (Z.ltb_spec b a)
  | |- context [ (?a >=? ?b)%Z ] => rewrite (Z.geb_leb a b); destruct (Z.leb_spec b a)
  end.

(** The same, in a hypothesis. *)
Ltac case_zb_in H :=
  match type of H with
  | context [ (?a <? ?b)%Z ] => destruct (Z.ltb_spec a b)
  | context [ (?a <=? ?b)%Z ] => destruct (Z.leb_spec a b)
  | context [ (?a =? ?b)%Z ] => destruct (Z.eqb_spec a b)
  | context [ (?a >? ?b)%Z ] => rewrite (Z.gtb_ltb a b) in H; destruct (Z.ltb_spec b a)
  | context [ (?a >=? ?b)%Z ] => rewrite (Z.geb_leb a b) in H; destruct (Z.leb_spec b a)
  end.

(** Goals made of linear arithmetic with division and remainder by
    numerals. *)
Ltac zify_divmod := Z.div_mod_to_equations.
Ltac divlia := zify_divmod; lia.

Create HintDb kword discriminated.
Create Rewrite HintDb kword.

Lemma u8_range z : 0 <= u8 z < 256.
Proof. unfold u8. apply Z.mod_pos_bound. lia. Qed.

Lemma u8_id z : 0 <= z < 256 -> u8 z = z.
Proof. intros. unfold u8. by apply Z.mod_small. Qed.

Lemma u8_u8 z : u8 (u8 z) = u8 z.
Proof. apply u8_id, u8_range. Qed.

Lemma u16_range z : 0 <= u16 z < 65536.
Proof. unfold u16. apply Z.mod_pos_bound. lia. Qed.

Lemma u16_id z : 0 <= z < 65536 -> u16 z = z.
Proof. intros. unfold u16. by apply Z.mod_small. Qed.

Lemma u32_range z : 0 <= u32 z < 4294967296.
Proof. unfold u32. apply Z.mod_pos_bound. lia. Qed.

Lemma u32_id z : 0 <= z < 4294967296 -> u32 z = z.
Proof. intros. unfold u32. by apply Z.mod_small. Qed.

Lemma u32_u32 z : u32 (u32 z) = u32 z.
Proof. apply u32_id, u32_range. Qed.

Lemma s32_range z : -2147483648 <= s32 z < 2147483648.
Proof. unfold s32. divlia. Qed.

Lemma s32_id z : -2147483648 <= z < 2147483648 -> s32 z = z.
Proof. intros. unfold s32. rewrite Z.mod_small; lia. Qed.

Lemma s8_range z : -128 <= s8 z < 128.
Proof. unfold s8. divlia. Qed.

Lemma s8_inj a b : 0 <= a < 256 -> 0 <= b < 256 -> s8 a = s8 b -> a = b.
Proof. unfold s8. intros. divlia. Qed.

Lemma u32_s32 z : u32 (s32 z) = u32 z.
Proof. unfold u32, s32. divlia. Qed.

Lemma s32_u32 z : s32 (u32 z) = s32 z.
Proof. unfold u32, s32. divlia. Qed.

#[export] Hint Resolve u8_range u16_range u32_range s32_range s8_range : kword.
#[export] Hint Rewrite u8_u8 u32_u32 u32_s32 s32_u32 : kword.

(** * Lists *)

(** [length] as an integer, for offsets into memory. *)
Abbreviation zlen l := (Z.of_nat (length l)).

Lemma list_eq_total `{Inhabited A} (l k : list A) :
  length l = length k ->
  (forall i, (i < length l)%nat -> l !!! i = k !!! i) -> l = k.
Proof.
  intros Hlen Hi. apply list_eq_same_length with (length k); [done|done|].
  intros i x y Hlt Hx Hy.
  apply list_lookup_total_correct in Hx, Hy. rewrite <- Hx, <- Hy.
  apply Hi. lia.
Qed.

Lemma lookup_total_fmap_seq {A} `{Inhabited A} (f : nat -> A) n i :
  (i < n)%nat -> (f <$> seq 0 n) !!! i = f i.
Proof.
  intros Hi. apply list_lookup_total_correct.
  rewrite list_lookup_fmap, lookup_seq_lt by lia. done.
Qed.

Lemma lookup_total_app_l' `{Inhabited A} (l k : list A) i :
  (i < length l)%nat -> (l ++ k) !!! i = l !!! i.
Proof. intros. by apply lookup_total_app_l. Qed.

Lemma lookup_total_drop' `{Inhabited A} (l : list A) n i :
  drop n l !!! i = l !!! (n + i)%nat.
Proof. by rewrite !list_lookup_total_alt, lookup_drop. Qed.

Lemma lookup_total_take' `{Inhabited A} (l : list A) n i :
  (i < n)%nat -> take n l !!! i = l !!! i.
Proof. intros. by rewrite !list_lookup_total_alt, lookup_take_lt. Qed.

(** Membership in a list that is written out. *)
Ltac in_list := first [apply list_elem_of_here | apply list_elem_of_further; in_list].

(** What a read takes, and what it leaves. *)
Lemma read_split n pos (bytes : list Z) :
  0 <= pos <= zlen bytes -> let got := take (Z.to_nat n) (drop (Z.to_nat pos) bytes) in
  drop (Z.to_nat pos) bytes = got ++ drop (Z.to_nat (pos + zlen got)) bytes.
Proof.
  intros Hpos got. rewrite Z2Nat.inj_add, Nat2Z.id, <- drop_drop by lia. unfold got. rewrite length_take.
  set (l := drop (Z.to_nat pos) bytes). destruct (Nat.le_ge_cases (Z.to_nat n) (length l)) as [H|H].
  - rewrite Nat.min_l by done. by rewrite take_drop.
  - rewrite Nat.min_r by done. by rewrite take_ge, drop_all, app_nil_r.
Qed.
