(* ===== verification/Memory.v ===== *)
(** Linear memory of the kernel.

    A byte-addressed store with total loads: every address of RAM can be
    read, an address that was never written reads as zero.  Addresses are
    integers; no object of the kernel wraps around the end of the 32-bit
    address space, and pointer arithmetic that would do so is undefined in C.
    Multi-byte accesses are little endian, as on x86. *)

From S2P Require Import Prelude.

Abbreviation mem := (gmap Z Z).

Definition load8 (m : mem) (a : Z) : Z := u8 (default 0 (m !! a)).
Definition store8 (m : mem) (a v : Z) : mem := <[a := u8 v]> m.

(** [n]-byte little-endian accesses. *)
Fixpoint load_le (n : nat) (m : mem) (a : Z) : Z :=
  match n with
  | O => 0
  | S n' => load8 m a + 256 * load_le n' m (a + 1)
  end.

Fixpoint store_le (n : nat) (m : mem) (a v : Z) : mem :=
  match n with
  | O => m
  | S n' => store_le n' (store8 m a v) (a + 1) (v / 256)
  end.

Definition load16 (m : mem) (a : Z) : Z := load_le 2 m a.
Definition load32 (m : mem) (a : Z) : Z := load_le 4 m a.
Definition store16 (m : mem) (a v : Z) : mem := store_le 2 m a v.
Definition store32 (m : mem) (a v : Z) : mem := store_le 4 m a v.

(** Blocks of bytes. *)
Definition load_bytes (m : mem) (a : Z) (n : nat) : list Z :=
  (fun i => load8 m (a + Z.of_nat i)) <$> seq 0 n.

Fixpoint store_bytes (m : mem) (a : Z) (l : list Z) : mem :=
  match l with
  | [] => m
  | b :: l' => store_bytes (store8 m a b) (a + 1) l'
  end.

(** Two memories that no load can tell apart. *)
Definition mem_eqv (m m' : mem) : Prop := forall a, load8 m a = load8 m' a.
Infix "=m=" := mem_eqv (at level 70).

(** [m'] differs from [m] at most in [lo, hi). *)
Definition same_outside (m m' : mem) (lo hi : Z) : Prop :=
  forall x, x < lo \/ hi <= x -> load8 m' x = load8 m x.

Create HintDb kmem discriminated.
Create Rewrite HintDb kmem.

(** * Single bytes *)

Lemma load8_range m a : 0 <= load8 m a < 256.
Proof. apply u8_range. Qed.

Lemma u8_load8 m a : u8 (load8 m a) = load8 m a.
Proof. apply u8_u8. Qed.

Lemma load8_store8 m a b v :
  load8 (store8 m a v) b = if b =? a then u8 v else load8 m b.
Proof.
  unfold load8, store8. case_zb; subst.
  - rewrite lookup_insert_eq. apply u8_u8.
  - by rewrite lookup_insert_ne by lia.
Qed.

Lemma load8_store8_eq m a v : load8 (store8 m a v) a = u8 v.
Proof. by rewrite load8_store8, Z.eqb_refl. Qed.

Lemma load8_store8_ne m a b v : a <> b -> load8 (store8 m a v) b = load8 m b.
Proof. intros. rewrite load8_store8. case_zb; congruence. Qed.

#[export] Hint Resolve load8_range : kmem.
#[export] Hint Rewrite u8_load8 load8_store8_eq : kmem.

(** * Observational equality *)

#[export] Instance mem_eqv_equivalence : Equivalence mem_eqv.
Proof.
  split.
  - by intros m a.
  - intros m m' H a. by rewrite H.
  - intros m1 m2 m3 H H' a. by rewrite H.
Qed.

#[export] Instance load8_proper : Proper (mem_eqv ==> eq ==> eq) load8.
Proof. intros m m' H a ? <-. apply H. Qed.

#[export] Instance store8_proper : Proper (mem_eqv ==> eq ==> eq ==> mem_eqv) store8.
Proof. intros m m' H a ? <- v ? <- x. rewrite !load8_store8. by rewrite (H x). Qed.

#[export] Instance load_le_proper n : Proper (mem_eqv ==> eq ==> eq) (load_le n).
Proof.
  intros m m' H a ? <-. revert a. induction n as [|n IH]; intros a; simpl; [done|].
  by rewrite (H a), IH.
Qed.

#[export] Instance store_bytes_proper :
  Proper (mem_eqv ==> eq ==> eq ==> mem_eqv) store_bytes.
Proof.
  intros m m' H a ? <- l ? <-. revert m m' a H.
  induction l as [|b l IH]; intros m m' a H; simpl; [done|].
  apply IH. by rewrite H.
Qed.

#[export] Instance load_bytes_proper : Proper (mem_eqv ==> eq ==> eq ==> eq) load_bytes.
Proof.
  intros m m' H a ? <- n ? <-. unfold load_bytes. apply list_fmap_ext.
  intros ? i _. apply H.
Qed.

(** * Blocks *)

Lemma length_load_bytes m a n : length (load_bytes m a n) = n.
Proof. unfold load_bytes. by rewrite length_fmap, length_seq. Qed.

Lemma load_bytes_lookup m a n i :
  (i < n)%nat -> load_bytes m a n !!! i = load8 m (a + Z.of_nat i).
Proof. intros. unfold load_bytes. by rewrite lookup_total_fmap_seq. Qed.

Lemma load_bytes_S m a n :
  load_bytes m a (S n) = load8 m a :: load_bytes m (a + 1) n.
Proof.
  unfold load_bytes. simpl. f_equal; [f_equal; lia|].
  rewrite <- fmap_S_seq, <- list_fmap_compose. apply list_fmap_ext.
  intros ? i _. simpl. f_equal. lia.
Qed.

Lemma load_bytes_app m a n k :
  load_bytes m a (n + k) = load_bytes m a n ++ load_bytes m (a + Z.of_nat n) k.
Proof.
  revert a. induction n as [|n IH]; intros a.
  - simpl. by rewrite Z.add_0_r.
  - rewrite Nat.add_succ_l, !load_bytes_S, IH, <- app_comm_cons.
    by replace (a + 1 + Z.of_nat n) with (a + Z.of_nat (S n)) by lia.
Qed.

Lemma load_bytes_snoc m a n :
  load_bytes m a (S n) = load_bytes m a n ++ [load8 m (a + Z.of_nat n)].
Proof.
  rewrite <- Nat.add_1_r, load_bytes_app, load_bytes_S. done.
Qed.

Lemma load_bytes_ext m m' a n :
  (forall x, a <= x < a + Z.of_nat n -> load8 m' x = load8 m x) ->
  load_bytes m' a n = load_bytes m a n.
Proof.
  intros H. apply list_eq_total; rewrite !length_load_bytes; [done|].
  intros i Hi. rewrite !load_bytes_lookup by done. apply H. lia.
Qed.

Lemma load_bytes_range m a n : Forall (fun b => 0 <= b < 256) (load_bytes m a n).
Proof. apply Forall_fmap, Forall_true. intros. apply load8_range. Qed.

Lemma load8_store_bytes m a l x :
  load8 (store_bytes m a l) x =
  if (a <=? x) && (x <? a + zlen l) then u8 (l !!! Z.to_nat (x - a)) else load8 m x.
Proof.
  revert m a. induction l as [|b l IH]; intros m a; simpl.
  - repeat case_zb; simpl; done || lia.
  - rewrite IH, load8_store8. repeat (case_zb; simpl); try done; try lia.
    + replace (Z.to_nat (x - a)) with (S (Z.to_nat (x - (a + 1)))) by lia. done.
    + by replace (Z.to_nat (x - a)) with O by lia.
Qed.

Lemma load8_store_bytes_in m a l x :
  a <= x < a + zlen l ->
  load8 (store_bytes m a l) x = u8 (l !!! Z.to_nat (x - a)).
Proof. intros. rewrite load8_store_bytes. repeat (case_zb; simpl); done || lia. Qed.

Lemma load8_store_bytes_out m a l x :
  x < a \/ a + zlen l <= x -> load8 (store_bytes m a l) x = load8 m x.
Proof. intros. rewrite load8_store_bytes. repeat (case_zb; simpl); done || lia. Qed.

Lemma store_bytes_outside m a l : same_outside m (store_bytes m a l) a (a + zlen l).
Proof. intros x Hx. by apply load8_store_bytes_out. Qed.

Lemma load_store_bytes m a l :
  Forall (fun b => 0 <= b < 256) l -> load_bytes (store_bytes m a l) a (length l) = l.
Proof.
  intros Hl. apply list_eq_total; rewrite ?length_load_bytes; [done|].
  intros i Hi. rewrite load_bytes_lookup, load8_store_bytes_in by lia.
  replace (Z.to_nat (a + Z.of_nat i - a)) with i by lia.
  apply u8_id. rewrite Forall_lookup in Hl. apply (Hl i).
  by apply list_lookup_lookup_total_lt.
Qed.

Lemma store_bytes_app m a l k :
  store_bytes m a (l ++ k) = store_bytes (store_bytes m a l) (a + zlen l) k.
Proof.
  revert m a. induction l as [|b l IH]; intros m a; simpl.
  - by rewrite Z.add_0_r.
  - rewrite IH. f_equal. lia.
Qed.

(** A memory is the original one with block [l] written at [a] as soon as it
    reads that way. *)
Lemma store_bytes_intro m m' a l :
  same_outside m m' a (a + zlen l) ->
  (forall i, (i < length l)%nat -> load8 m' (a + Z.of_nat i) = u8 (l !!! i)) ->
  m' =m= store_bytes m a l.
Proof.
  intros Hout Hin x. rewrite load8_store_bytes. repeat (case_zb; simpl); try (apply Hout; lia).
  rewrite <- Hin by lia. f_equal. lia.
Qed.

(** * Little-endian words *)

Lemma load_le_range n m a : 0 <= load_le n m a < 256 ^ Z.of_nat n.
Proof.
  revert a. induction n as [|n IH]; intros a; [simpl; lia|].
  rewrite Nat2Z.inj_succ, Z.pow_succ_r by lia. simpl load_le.
  pose proof (load8_range m a). specialize (IH (a + 1)). lia.
Qed.

Lemma load_le_shift n m m' a b :
  (forall k, 0 <= k < Z.of_nat n -> load8 m' (a + k) = load8 m (b + k)) ->
  load_le n m' a = load_le n m b.
Proof.
  revert a b. induction n as [|n IH]; intros a b H; simpl; [done|].
  rewrite <- (Z.add_0_r a), <- (Z.add_0_r b), H, !Z.add_0_r by lia. do 2 f_equal.
  apply IH. intros k Hk. rewrite <- !Z.add_assoc. apply H. lia.
Qed.

Lemma load_le_ext n m m' a :
  (forall x, a <= x < a + Z.of_nat n -> load8 m' x = load8 m x) ->
  load_le n m' a = load_le n m a.
Proof. intros H. apply load_le_shift. intros k Hk. apply H. lia. Qed.

Lemma load8_store_le_out n m a v x :
  x < a \/ a + Z.of_nat n <= x -> load8 (store_le n m a v) x = load8 m x.
Proof.
  revert m a v. induction n as [|n IH]; intros m a v H; simpl; [done|].
  rewrite IH, load8_store8_ne by lia. done.
Qed.

Lemma load_le_store_le_eq n m a v :
  load_le n (store_le n m a v) a = v mod 256 ^ Z.of_nat n.
Proof.
  revert m a v. induction n as [|n IH]; intros m a v.
  - simpl. by rewrite Z.mod_1_r.
  - rewrite Nat2Z.inj_succ, Z.pow_succ_r by lia. cbn [load_le store_le].
    rewrite IH, load8_store_le_out, load8_store8_eq by lia.
    unfold u8. rewrite Z.rem_mul_r by lia. lia.
Qed.

Lemma load_le_store_le_ne n k m a b v :
  b + Z.of_nat n <= a \/ a + Z.of_nat k <= b ->
  load_le n (store_le k m a v) b = load_le n m b.
Proof. intros. apply load_le_ext. intros. apply load8_store_le_out. lia. Qed.

Lemma load_le_store8_ne n m a b v :
  b + Z.of_nat n <= a \/ a < b -> load_le n (store8 m a v) b = load_le n m b.
Proof. intros. apply load_le_ext. intros. apply load8_store8_ne. lia. Qed.

Lemma load_le_store_bytes_out n m a l b :
  b + Z.of_nat n <= a \/ a + zlen l <= b ->
  load_le n (store_bytes m a l) b = load_le n m b.
Proof. intros. apply load_le_ext. intros. apply load8_store_bytes_out. lia. Qed.

Lemma load32_range m a : 0 <= load32 m a < 4294967296.
Proof. exact (load_le_range 4 m a). Qed.

Lemma load16_range m a : 0 <= load16 m a < 65536.
Proof. exact (load_le_range 2 m a). Qed.

Lemma load32_store32_eq m a v : load32 (store32 m a v) a = u32 v.
Proof. exact (load_le_store_le_eq 4 m a v). Qed.

Lemma load16_store16_eq m a v : load16 (store16 m a v) a = u16 v.
Proof. exact (load_le_store_le_eq 2 m a v). Qed.

Lemma load32_store32_ne m a b v :
  b + 4 <= a \/ a + 4 <= b -> load32 (store32 m a v) b = load32 m b.
Proof. intros. apply load_le_store_le_ne. simpl. lia. Qed.

Lemma load16_store16_ne m a b v :
  b + 2 <= a \/ a + 2 <= b -> load16 (store16 m a v) b = load16 m b.
Proof. intros. apply load_le_store_le_ne. simpl. lia. Qed.

Lemma load8_store32_ne m a b v :
  b < a \/ a + 4 <= b -> load8 (store32 m a v) b = load8 m b.
Proof. intros. apply load8_store_le_out. simpl. lia. Qed.

Lemma load8_store16_ne m a b v :
  b < a \/ a + 2 <= b -> load8 (store16 m a v) b = load8 m b.
Proof. intros. apply load8_store_le_out. simpl. lia. Qed.

Lemma load32_store8_ne m a b v :
  b + 4 <= a \/ a < b -> load32 (store8 m a v) b = load32 m b.
Proof. intros. apply load_le_store8_ne. simpl. lia. Qed.

#[export] Hint Resolve load32_range load16_range load_bytes_range : kmem.
#[export] Hint Rewrite load32_store32_eq load16_store16_eq length_load_bytes : kmem.

(** * Frames *)

#[export] Instance same_outside_refl lo hi : Reflexive (fun m m' => same_outside m m' lo hi).
Proof. by intros m x _. Qed.

Lemma same_outside_trans m1 m2 m3 lo hi :
  same_outside m1 m2 lo hi -> same_outside m2 m3 lo hi -> same_outside m1 m3 lo hi.
Proof. intros H1 H2 x Hx. rewrite H2, H1; done. Qed.

Lemma same_outside_weaken m m' lo hi lo' hi' :
  same_outside m m' lo hi -> lo' <= lo -> hi <= hi' -> same_outside m m' lo' hi'.
Proof. intros H ? ? x Hx. apply H. lia. Qed.

Lemma same_outside_load_le n m m' lo hi a :
  same_outside m m' lo hi -> a + Z.of_nat n <= lo \/ hi <= a ->
  load_le n m' a = load_le n m a.
Proof. intros H Ha. apply load_le_ext. intros x Hx. apply H. lia. Qed.

Lemma same_outside_load32 m m' lo hi a :
  same_outside m m' lo hi -> a + 4 <= lo \/ hi <= a -> load32 m' a = load32 m a.
Proof. intros. apply (same_outside_load_le 4) with lo hi; [done|simpl; lia]. Qed.

Lemma same_outside_load_bytes m m' lo hi a n :
  same_outside m m' lo hi -> a + Z.of_nat n <= lo \/ hi <= a ->
  load_bytes m' a n = load_bytes m a n.
Proof. intros H Ha. apply load_bytes_ext. intros x Hx. apply H. lia. Qed.

Lemma store_le_outside n m a v : same_outside m (store_le n m a v) a (a + Z.of_nat n).
Proof. intros x Hx. apply load8_store_le_out. lia. Qed.

Lemma store8_outside m a v : same_outside m (store8 m a v) a (a + 1).
Proof. intros x Hx. apply load8_store8_ne. lia. Qed.

#[export] Hint Resolve store8_outside store_bytes_outside : kmem.
