(* ===== verification/Layout.v ===== *)
(** Where the linker puts the kernel's static objects.

    The addresses are not in the sources, so they are a parameter of the
    model: the class [Layout] names the objects whose address the code
    stores or computes with, and [LayoutOk] states what the C declarations
    promise about them (alignment attributes, distinct objects, and the link
    address in the kernel's 4 MB page, below the process stacks). *)

From S2P Require Import Prelude.

Class Layout := {
  vmem_pt : Z;                 (* arch/x86/paging.c *)
  output_buffer : Z;           (* tty/terminal.c: 3 * 4096 words *)
  input_buffer_internal : Z;   (* tty/terminal.c: 3 * 128 bytes *)
  file_fops : Z;               (* kernel/syscall.c *)
  dir_fops : Z;
  rtc_fops : Z;
  stdin_fops : Z;              (* arch/x86/task.c *)
  stdout_fops : Z;
  elf_magic : Z;               (* the literal ELF_MAGIC_HEADER, 5 bytes *)
  tss : Z                      (* arch/x86/x86_desc.S: 104 bytes *)
}.

(** First address above the kernel image that the code uses: the stacks of
    six processes and the boot stack are at the top of the page. *)
Definition KERNEL_PAGE_START : Z := 0x400000.
Definition KERNEL_IMAGE_END : Z := 0x7F0000.

Definition in_image (a n : Z) : Prop := KERNEL_PAGE_START <= a /\ a + n <= KERNEL_IMAGE_END.

Class LayoutOk (L : Layout) : Prop := {
  lay_vmem_pt : in_image vmem_pt 4096 /\ vmem_pt mod 4096 = 0;
  lay_output : in_image output_buffer (3 * 8192) /\ output_buffer mod 4096 = 0;
  lay_input : in_image input_buffer_internal (3 * 128);
  lay_buffers_apart :
    output_buffer + 3 * 8192 <= input_buffer_internal \/
    input_buffer_internal + 3 * 128 <= output_buffer;
  lay_vmem_pt_apart :
    (output_buffer + 3 * 8192 <= vmem_pt \/ vmem_pt + 4096 <= output_buffer) /\
    (input_buffer_internal + 3 * 128 <= vmem_pt \/ vmem_pt + 4096 <= input_buffer_internal);
  lay_fops : Forall (fun a => in_image a 16) [file_fops; dir_fops; rtc_fops; stdin_fops; stdout_fops];
  lay_fops_distinct : NoDup [file_fops; dir_fops; rtc_fops; stdin_fops; stdout_fops];
  lay_elf_magic : in_image elf_magic 5;
  lay_tss : in_image tss 104
}.

(** A layout that satisfies the class, for examples. *)
Definition example_layout : Layout := {|
  vmem_pt := 0x400000;
  output_buffer := 0x401000;
  input_buffer_internal := 0x408000;
  file_fops := 0x409000;
  dir_fops := 0x409010;
  rtc_fops := 0x409020;
  stdin_fops := 0x409030;
  stdout_fops := 0x409040;
  elf_magic := 0x409050;
  tss := 0x409060
|}.

Lemma example_layout_ok : LayoutOk example_layout.
Proof.
  split; unfold in_image, KERNEL_PAGE_START, KERNEL_IMAGE_END; simpl; try (split; done || lia); try lia.
  - repeat (apply Forall_cons; split; [lia|]). constructor.
  - apply (bool_decide_unpack _). vm_compute. exact I.
Qed.
