(* ===== verification/I8259.v ===== *)
(** Port output ([arch/x86/io.c]) and the interrupt controllers
    ([arch/x86/i8259.c]).

    What the kernel sends to the devices is kept as a log of
    [(port, byte)] pairs, newest first. *)

From S2P Require Import Prelude.

Abbreviation port_log := (list (Z * Z)).

(** * The code *)

Definition outportb (log : port_log) (port data : Z) : port_log := (u16 port, u8 data) :: log.

Definition MASTER_8259_PORT_COMMAND : Z := 0x20.
Definition MASTER_8259_PORT_DATA : Z := 0x21.
Definition SLAVE_8259_PORT_COMMAND : Z := 0xA0.
Definition SLAVE_8259_PORT_DATA : Z := 0xA1.
Definition SLAVE_BIT : Z := 8.
Definition IRQ_MASTER_OFFSET : Z := 8.
Definition EIGHT_BIT_MASK : Z := 0xFF.
Definition ICW1 : Z := 0x11.
Definition ICW2_MASTER : Z := 0x20.
Definition ICW2_SLAVE : Z := 0x28.
Definition ICW3_MASTER : Z := 0x04.
Definition ICW3_SLAVE : Z := 0x02.
Definition ICW4 : Z := 0x01.
Definition EOI : Z := 0x60.

Record pic := Pic {
  master_mask : Z;
  slave_mask : Z;
  ports : port_log
}.

Definition pic_out (s : pic) (port data : Z) : pic :=
  Pic (master_mask s) (slave_mask s) (outportb (ports s) port data).

(** The masks as the program is loaded. *)
Definition pic_boot : pic := Pic EIGHT_BIT_MASK EIGHT_BIT_MASK [].

Definition i8259_init (s : pic) : pic :=
  let s := pic_out s MASTER_8259_PORT_DATA (master_mask s) in
  let s := pic_out s SLAVE_8259_PORT_DATA (slave_mask s) in
  let s := pic_out s MASTER_8259_PORT_COMMAND ICW1 in
  let s := pic_out s MASTER_8259_PORT_DATA ICW2_MASTER in
  let s := pic_out s MASTER_8259_PORT_DATA ICW3_SLAVE in
  let s := pic_out s MASTER_8259_PORT_DATA ICW4 in
  let s := pic_out s SLAVE_8259_PORT_COMMAND ICW1 in
  let s := pic_out s SLAVE_8259_PORT_DATA ICW2_SLAVE in
  let s := pic_out s SLAVE_8259_PORT_DATA ICW3_SLAVE in
  let s := pic_out s SLAVE_8259_PORT_DATA ICW4 in
  let s := Pic (u8 (Z.land (master_mask s) (Z.lnot ICW3_MASTER))) (slave_mask s) (ports s) in
  pic_out s MASTER_8259_PORT_DATA (master_mask s).

Definition enable_irq (s : pic) (irq_num : Z) : pic :=
  if truthy (Z.land irq_num SLAVE_BIT) then
    let s := Pic (master_mask s)
               (u8 (Z.land (slave_mask s) (Z.lnot (Z.shiftl 1 (irq_num - IRQ_MASTER_OFFSET)))))
               (ports s) in
    pic_out s SLAVE_8259_PORT_DATA (slave_mask s)
  else
    let s := Pic (u8 (Z.land (master_mask s) (Z.lnot (Z.shiftl 1 irq_num))))
               (slave_mask s) (ports s) in
    pic_out s MASTER_8259_PORT_DATA (master_mask s).

Definition disable_irq (s : pic) (irq_num : Z) : pic :=
  if truthy (Z.land irq_num SLAVE_BIT) then
    let s := Pic (master_mask s)
               (u8 (Z.lor (slave_mask s) (Z.shiftl 1 (irq_num - IRQ_MASTER_OFFSET))))
               (ports s) in
    pic_out s SLAVE_8259_PORT_DATA (slave_mask s)
  else
    let s := Pic (u8 (Z.lor (master_mask s) (Z.shiftl 1 irq_num)))
               (slave_mask s) (ports s) in
    pic_out s MASTER_8259_PORT_DATA (master_mask s).

Definition send_eoi (s : pic) (irq_num : Z) : pic :=
  if truthy (Z.land irq_num SLAVE_BIT) then
    let s := pic_out s SLAVE_8259_PORT_COMMAND (Z.lor EOI (irq_num - IRQ_MASTER_OFFSET)) in
    pic_out s MASTER_8259_PORT_COMMAND (Z.lor EOI 2)
  else pic_out s MASTER_8259_PORT_COMMAND (Z.lor EOI irq_num).

(** * Specification *)

(** IRQ [j] is masked. *)
Definition masked (s : pic) (j : Z) : bool :=
  if j <? 8 then Z.testbit (master_mask s) j else Z.testbit (slave_mask s) (j - 8).

Definition masks (s : pic) : Z * Z := (master_mask s, slave_mask s).

Lemma masks_masked s s' j : masks s' = masks s -> masked s' j = masked s j.
Proof. unfold masks, masked. by intros [= -> ->]. Qed.

(** The last byte sent to a port. *)
Definition last_out (port : Z) (log : port_log) : option Z :=
  snd <$> List.find (fun e => fst e =? port) log.

Record pic_ok (s : pic) : Prop := {
  ok_master : 0 <= master_mask s < 256;
  ok_slave : 0 <= slave_mask s < 256
}.

(** The data port of the controller of line [irq]. *)
Definition data_port (irq : Z) : Z :=
  if irq <? 8 then MASTER_8259_PORT_DATA else SLAVE_8259_PORT_DATA.
Definition mask_of (s : pic) (irq : Z) : Z := if irq <? 8 then master_mask s else slave_mask s.

(** The controller of line [irq] was last given the mask the kernel keeps. *)
Definition in_step (s : pic) (irq : Z) : Prop :=
  last_out (data_port irq) (ports s) = Some (mask_of s irq).

Lemma testbit_u8 z j : 0 <= j < 8 -> Z.testbit (u8 z) j = Z.testbit z j.
Proof. intros. exact (Z.mod_pow2_bits_low z 8 j ltac:(lia)). Qed.

Lemma slave_irq irq :
  0 <= irq < 16 -> truthy (Z.land irq SLAVE_BIT) = negb (irq <? 8).
Proof.
  intros. assert (H' : Forall (fun i => truthy (Z.land i SLAVE_BIT) = negb (i <? 8)) (seqZ 0 16))
    by (apply (bool_decide_unpack _); vm_compute; exact I).
  rewrite Forall_forall in H'. apply H', elem_of_seqZ. lia.
Qed.

Lemma testbit_one k : Z.testbit 1 k = (k =? 0).
Proof. rewrite Z.eqb_sym. exact (Z.pow2_bits_eqb 0 k ltac:(lia)). Qed.

Lemma clear_mask_bit z n j :
  0 <= n < 8 -> 0 <= j < 8 ->
  Z.testbit (u8 (Z.land z (Z.lnot (Z.shiftl 1 n)))) j = Z.testbit z j && negb (j =? n).
Proof.
  intros. rewrite testbit_u8, Z.land_spec, Z.lnot_spec, Z.shiftl_spec by lia.
  do 2 f_equal. rewrite testbit_one. repeat case_zb; done || lia.
Qed.

Lemma set_mask_bit z n j :
  0 <= n < 8 -> 0 <= j < 8 ->
  Z.testbit (u8 (Z.lor z (Z.shiftl 1 n))) j = Z.testbit z j || (j =? n).
Proof.
  intros. rewrite testbit_u8, Z.lor_spec, Z.shiftl_spec by lia. f_equal.
  rewrite testbit_one. repeat case_zb; done || lia.
Qed.

(** The state after a new mask was computed and sent. *)
Definition with_mask (s : pic) (irq x : Z) : pic :=
  if irq <? 8
  then pic_out (Pic (u8 x) (slave_mask s) (ports s)) MASTER_8259_PORT_DATA (u8 x)
  else pic_out (Pic (master_mask s) (u8 x) (ports s)) SLAVE_8259_PORT_DATA (u8 x).

Lemma with_mask_ok s irq x :
  pic_ok s -> pic_ok (with_mask s irq x) /\ in_step (with_mask s irq x) irq /\
  (forall j, data_port j <> data_port irq -> in_step s j -> in_step (with_mask s irq x) j).
Proof.
  intros [Hm Hs]. pose proof (u8_range x). unfold with_mask, in_step, mask_of, data_port.
  destruct (irq <? 8); cbn [master_mask slave_mask ports pic_out];
    (split; [by split|]); (split; [by rewrite <- (u8_u8 x) at 2|]);
    intros j; destruct (j <? 8); done.
Qed.

Lemma enable_irq_mask s irq :
  0 <= irq < 16 ->
  enable_irq s irq = with_mask s irq (Z.land (mask_of s irq) (Z.lnot (Z.shiftl 1 (irq mod 8)))).
Proof.
  intros. unfold enable_irq, with_mask, mask_of. rewrite slave_irq by done.
  case_zb; simpl negb; cbv iota.
  - by rewrite (Z.mod_small irq 8) by lia.
  - by replace (irq mod 8) with (irq - IRQ_MASTER_OFFSET) by (unfold IRQ_MASTER_OFFSET; divlia).
Qed.

Lemma disable_irq_mask s irq :
  0 <= irq < 16 ->
  disable_irq s irq = with_mask s irq (Z.lor (mask_of s irq) (Z.shiftl 1 (irq mod 8))).
Proof.
  intros. unfold disable_irq, with_mask, mask_of. rewrite slave_irq by done.
  case_zb; simpl negb; cbv iota.
  - by rewrite (Z.mod_small irq 8) by lia.
  - by replace (irq mod 8) with (irq - IRQ_MASTER_OFFSET) by (unfold IRQ_MASTER_OFFSET; divlia).
Qed.

(** Lines of a controller whose mask was replaced, and of the other one. *)
Lemma masked_with_mask s irq x j :
  0 <= irq < 16 -> 0 <= j < 16 ->
  masked (with_mask s irq x) j
  = if Bool.eqb (j <? 8) (irq <? 8) then Z.testbit (u8 x) (j mod 8) else masked s j.
Proof.
  intros. unfold with_mask, masked.
  destruct (Z.ltb_spec irq 8), (Z.ltb_spec j 8); simpl; try done; f_equal; divlia.
Qed.

Lemma masked_mask_of s irq j :
  0 <= irq < 16 -> 0 <= j < 16 -> (j <? 8) = (irq <? 8) ->
  masked s j = Z.testbit (mask_of s irq) (j mod 8).
Proof.
  intros ? ? E. unfold masked, mask_of. rewrite <- E. case_zb; f_equal; divlia.
Qed.

Lemma enable_masked s irq j :
  0 <= irq < 16 -> 0 <= j < 16 -> masked (enable_irq s irq) j = masked s j && negb (j =? irq).
Proof.
  intros Hirq Hj. rewrite enable_irq_mask, masked_with_mask by done.
  destruct (Bool.eqb_spec (j <? 8) (irq <? 8)) as [E|E].
  - rewrite clear_mask_bit, <- (masked_mask_of s irq j) by (done || divlia).
    do 2 f_equal. repeat case_zb_in E; repeat case_zb; try done; divlia.
  - destruct (Z.eqb_spec j irq); [by subst|]. by rewrite andb_true_r.
Qed.

(** * Properties *)

(** enabling or disabling an interrupt line changes the mask of that line
    only, sends the new mask to the data port of the line's controller, and
    does not disturb the other controller. *)
Theorem irq_masks_correct (s : pic) (irq j : Z) :
  pic_ok s -> 0 <= irq < 16 -> 0 <= j < 16 ->
  masked (enable_irq s irq) j = masked s j && negb (j =? irq) /\
  masked (disable_irq s irq) j = masked s j || (j =? irq) /\
  forall s', s' = enable_irq s irq \/ s' = disable_irq s irq ->
    pic_ok s' /\ in_step s' irq /\ (in_step s j -> in_step s' j).
Proof.
  intros Hs Hirq Hj. rewrite enable_irq_mask, disable_irq_mask by done.
  assert (Hb : (j <? 8) <> (irq <? 8) -> (j =? irq) = false).
  { intros Hne. case_zb; [subst; done|done]. }
  assert (He : (j <? 8) = (irq <? 8) -> (j mod 8 =? irq mod 8) = (j =? irq)).
  { intros E. repeat case_zb_in E; repeat case_zb; try done; divlia. }
  rewrite !masked_with_mask by done.
  destruct (Bool.eqb (j <? 8) (irq <? 8)) eqn:E; [apply eqb_prop in E|apply eqb_false_iff in E].
  - rewrite clear_mask_bit, set_mask_bit, He, <- (masked_mask_of s irq j) by (done || divlia).
    do 2 (split; [done|]). intros s' [-> | ->];
      (edestruct with_mask_ok as (H1 & H2 & _); [exact Hs|]); (split; [exact H1|]);
      (split; [exact H2|]); intros _; revert H2; unfold in_step, data_port, mask_of; by rewrite E.
  - rewrite (Hb E), andb_true_r, orb_false_r. do 2 (split; [done|]).
    intros s' [-> | ->];
      (edestruct with_mask_ok as (H1 & H2 & H3); [exact Hs|]); (split; [exact H1|]);
      (split; [exact H2|]); apply H3; revert E; unfold data_port;
      destruct (j <? 8), (irq <? 8); done.
Qed.

Lemma irq_masks_correct_witness :
  let s := i8259_init pic_boot in
  masked (enable_irq s 8) 8 = false /\ masked (enable_irq s 8) 1 = true.
Proof.
  intros s.
  assert (Hs : pic_ok s) by (split; cbv; split; congruence).
  split.
  - apply (irq_masks_correct s 8 8 Hs); lia.
  - apply (irq_masks_correct s 8 1 Hs); lia.
Defined.

(** Initialisation leaves every line masked in the kernel's masks except
    line 2, on which the slave is cascaded, and sends the master its mask; an
    end-of-interrupt for a slave line is sent to the slave with the line's
    number there and to the master for line 2. *)
Theorem i8259_init_and_eoi (irq : Z) :
  0 <= irq < 16 ->
  pic_ok (i8259_init pic_boot) /\
  masked (i8259_init pic_boot) irq = negb (irq =? 2) /\
  (irq < 8 -> in_step (i8259_init pic_boot) irq) /\
  ports (send_eoi (i8259_init pic_boot) irq) =
    (if irq <? 8 then [(0x20, 0x60 + irq)] else [(0x20, 0x62); (0xA0, 0x60 + (irq - 8))])
    ++ ports (i8259_init pic_boot).
Proof.
  intros Hirq. split; [split; cbv; split; congruence|].
  assert (H : Forall (fun irq => masked (i8259_init pic_boot) irq = negb (irq =? 2) /\
     ports (send_eoi (i8259_init pic_boot) irq) =
      (if irq <? 8 then [(0x20, 0x60 + irq)] else [(0x20, 0x62); (0xA0, 0x60 + (irq - 8))])
      ++ ports (i8259_init pic_boot)) (seqZ 0 16))
    by (apply (bool_decide_unpack _); vm_compute; exact I).
  rewrite Forall_forall in H. destruct (H irq) as [H1 H2]; [apply elem_of_seqZ; lia|].
  split; [exact H1|]. split; [|exact H2].
  intros Hlt. unfold in_step, data_port, mask_of. case_zb; [reflexivity|lia].
Qed.

Lemma i8259_init_and_eoi_witness :
  masked (i8259_init pic_boot) 2 = false /\
  take 2 (ports (send_eoi (i8259_init pic_boot) 8)) = [(0x20, 0x62); (0xA0, 0x60)].
Proof.
  destruct (i8259_init_and_eoi 2 ltac:(lia)) as (_ & H & _).
  destruct (i8259_init_and_eoi 8 ltac:(lia)) as (_ & _ & _ & H').
  rewrite H, H'. split; reflexivity.
Defined.

(** Finding: two slips of the initialisation sequence.  The third word sent to the
    master is the slave's identity, 2, and not the mask of the line the slave
    is on, 4; and the slave never gets its mask back after the sequence, the
    last byte on its data port being [ICW4]. *)
Theorem i8259_init_slips :
  let sent := reverse (ports (i8259_init pic_boot)) in
  sent !! 2%nat = Some (MASTER_8259_PORT_COMMAND, ICW1) /\
  sent !! 4%nat = Some (MASTER_8259_PORT_DATA, ICW3_SLAVE) /\ ICW3_SLAVE <> ICW3_MASTER /\
  last_out SLAVE_8259_PORT_DATA (ports (i8259_init pic_boot)) = Some ICW4 /\
  ~ in_step (i8259_init pic_boot) 8.
Proof. repeat split; try reflexivity; intros H; vm_compute in H; congruence. Qed.
