(* ===== verification/LibMem.v ===== *)
(** The block-memory routines of [lib/lib.c]: [memset], [memset_word],
    [memset_dword], [memcpy] and [memmove].

    They are inline assembly, so the model is a transcription of the
    instructions: the byte loops that bring [edi] to a 4-byte boundary, the
    [rep stos]/[rep movs] block operations with the direction flag, and the
    byte loops for the remainder. *)

From S2P Require Import Prelude Memory.

(** * The code *)

(** [.memset_top]: bytes until [ecx] is zero or [edi] is aligned.  Three
    iterations reach a multiple of four, so a fuel of four is never used up. *)
Fixpoint memset_top (fuel : nat) (m : mem) (al edi ecx : Z) : mem * Z * Z :=
  if ecx =? 0 then (m, edi, ecx)
  else if Z.land edi 3 =? 0 then (m, edi, ecx)
  else match fuel with
       | O => (m, edi, ecx)
       | S f => memset_top f (store8 m edi al) al (edi + 1) (ecx - 1)
       end.

(** [rep stosb], [rep stosw] and [rep stosl] with the direction flag clear;
    the first is also the loop [.memset_bottom]. *)
Fixpoint stosb (n : nat) (m : mem) (eax edi : Z) : mem :=
  match n with
  | O => m
  | S n' => stosb n' (store8 m edi eax) eax (edi + 1)
  end.

Fixpoint stosw (n : nat) (m : mem) (eax edi : Z) : mem :=
  match n with
  | O => m
  | S n' => stosw n' (store16 m edi eax) eax (edi + 2)
  end.

Fixpoint stosl (n : nat) (m : mem) (eax edi : Z) : mem :=
  match n with
  | O => m
  | S n' => stosl n' (store32 m edi eax) eax (edi + 4)
  end.

Definition memset (m : mem) (s c n : Z) : mem :=
  let c := Z.land c 0xFF in
  let eax := u32 (Z.lor (Z.lor (Z.lor (Z.shiftl c 24) (Z.shiftl c 16)) (Z.shiftl c 8)) c) in
  let '(m, edi, ecx) := memset_top 4 m eax s n in
  if ecx =? 0 then m
  else
    let edx := Z.land ecx 3 in
    let ecx := Z.shiftr ecx 2 in
    let m := stosl (Z.to_nat ecx) m eax edi in
    stosb (Z.to_nat edx) m eax (edi + 4 * ecx).

Definition memset_word (m : mem) (s c n : Z) : mem := stosw (Z.to_nat n) m c s.

Definition memset_dword (m : mem) (s c n : Z) : mem := stosl (Z.to_nat n) m c s.

(** [.memcpy_top], with the same fuel as [.memset_top]. *)
Fixpoint memcpy_top (fuel : nat) (m : mem) (edi esi ecx : Z) : mem * Z * Z * Z :=
  if ecx =? 0 then (m, edi, esi, ecx)
  else if Z.land edi 3 =? 0 then (m, edi, esi, ecx)
  else match fuel with
       | O => (m, edi, esi, ecx)
       | S f => memcpy_top f (store8 m edi (load8 m esi)) (edi + 1) (esi + 1) (ecx - 1)
       end.

(** [rep movsl] with the direction flag clear. *)
Fixpoint movsl (n : nat) (m : mem) (edi esi : Z) : mem :=
  match n with
  | O => m
  | S n' => movsl n' (store32 m edi (load32 m esi)) (edi + 4) (esi + 4)
  end.

(** [rep movsb]; [df] is the direction flag.  With [df] clear this is also the
    loop [.memcpy_bottom]. *)
Fixpoint movsb (df : bool) (n : nat) (m : mem) (edi esi : Z) : mem :=
  match n with
  | O => m
  | S n' =>
      let d := if df then -1 else 1 in
      movsb df n' (store8 m edi (load8 m esi)) (edi + d) (esi + d)
  end.

Definition memcpy (m : mem) (dest src n : Z) : mem :=
  let '(m, edi, esi, ecx) := memcpy_top 4 m dest src n in
  if ecx =? 0 then m
  else
    let edx := Z.land ecx 3 in
    let ecx := Z.shiftr ecx 2 in
    let m := movsl (Z.to_nat ecx) m edi esi in
    movsb false (Z.to_nat edx) m (edi + 4 * ecx) (esi + 4 * ecx).

(** [memmove] returns the memory and the direction flag it leaves set or
    clear: [cld] at the start, [std] on the backward path. *)
Definition memmove (m : mem) (dest src n : Z) : mem * bool :=
  if src >=? dest then (movsb false (Z.to_nat n) m dest src, false)
  else (movsb true (Z.to_nat n) m (dest + n - 1) (src + n - 1), true).

(** * Specifications *)

(** The effect every one of these routines is meant to have. *)
Definition copied (m : mem) (dest src n : Z) : mem :=
  store_bytes m dest (load_bytes m src (Z.to_nat n)).

(** A forward copy may overlap only with the destination below the source. *)
Definition forward_ok (dest src n : Z) : Prop := dest <= src \/ src + n <= dest.

Lemma land3_mod z : Z.land z 3 = z mod 4.
Proof. exact (Z.land_ones z 2 ltac:(lia)). Qed.

Lemma shiftr2_div z : Z.shiftr z 2 = z / 4.
Proof. exact (Z.shiftr_div_pow2 z 2 ltac:(lia)). Qed.

(** A word moved through a register is its bytes moved. *)
Lemma store_le_load_le n m m' d s :
  store_le n m d (load_le n m' s) = store_bytes m d (load_bytes m' s n).
Proof.
  revert m d s. induction n as [|n IH]; intros m d s; [done|].
  rewrite load_bytes_S. cbn [load_le store_le store_bytes].
  pose proof (load8_range m' s).
  replace ((load8 m' s + 256 * load_le n m' (s + 1)) / 256) with (load_le n m' (s + 1)) by divlia.
  replace (store8 m d (load8 m' s + 256 * load_le n m' (s + 1))) with (store8 m d (load8 m' s));
    [apply IH|].
  unfold store8, u8. f_equal. divlia.
Qed.

(** A forward copy in two parts, the second reading what the first left. *)
Lemma store_bytes_split m d s k r :
  forward_ok d s (Z.of_nat (k + r)) ->
  let m1 := store_bytes m d (load_bytes m s k) in
  store_bytes m1 (d + Z.of_nat k) (load_bytes m1 (s + Z.of_nat k) r)
  = store_bytes m d (load_bytes m s (k + r)).
Proof.
  intros Hf m1. unfold forward_ok in Hf.
  rewrite load_bytes_app, store_bytes_app, length_load_bytes. fold m1. f_equal.
  apply load_bytes_ext. intros x Hx. apply load8_store_bytes_out.
  rewrite length_load_bytes. lia.
Qed.

Lemma movsb_forward n m d s :
  forward_ok d s (Z.of_nat n) ->
  movsb false n m d s = store_bytes m d (load_bytes m s n).
Proof.
  revert m d s. induction n as [|n IH]; intros m d s Hf; [done|].
  cbn [movsb]. rewrite IH by (unfold forward_ok in *; lia).
  replace (store8 m d (load8 m s)) with (store_bytes m d (load_bytes m s 1))
    by (by rewrite load_bytes_S).
  exact (store_bytes_split m d s 1 n Hf).
Qed.

Lemma movsl_forward n m d s :
  forward_ok d s (4 * Z.of_nat n) ->
  movsl n m d s = store_bytes m d (load_bytes m s (4 * n)).
Proof.
  revert m d s. induction n as [|n IH]; intros m d s Hf; [done|].
  cbn [movsl]. rewrite IH by (unfold forward_ok in *; lia).
  unfold store32, load32. rewrite store_le_load_le.
  replace (4 * S n)%nat with (4 + 4 * n)%nat by lia.
  apply (store_bytes_split m d s 4 (4 * n)). unfold forward_ok in *. lia.
Qed.

Lemma movsb_backward n m d s :
  s < d ->
  movsb true n m (d + Z.of_nat n - 1) (s + Z.of_nat n - 1)
  =m= store_bytes m d (load_bytes m s n).
Proof.
  revert m. induction n as [|n IH]; intros m Hlt; [done|].
  cbn [movsb].
  replace (d + Z.of_nat (S n) - 1 + -1) with (d + Z.of_nat n - 1) by lia.
  replace (s + Z.of_nat (S n) - 1 + -1) with (s + Z.of_nat n - 1) by lia.
  rewrite IH by done.
  rewrite load_bytes_snoc, store_bytes_app, length_load_bytes.
  replace (s + Z.of_nat (S n) - 1) with (s + Z.of_nat n) by lia.
  replace (d + Z.of_nat (S n) - 1) with (d + Z.of_nat n) by lia.
  rewrite (load_bytes_ext m); [|intros; apply load8_store8_ne; lia].
  intros x. rewrite load8_store_bytes, length_load_bytes.
  cbn [store_bytes]. rewrite !load8_store8, load8_store_bytes, length_load_bytes.
  repeat (case_zb; simpl); done || lia.
Qed.

Lemma memcpy_top_spec fuel m d s n :
  0 <= n -> forward_ok d s n ->
  exists k, 0 <= k <= n /\
    memcpy_top fuel m d s n = (copied m d s k, d + k, s + k, n - k) /\
    (k = Z.of_nat fuel \/ n - k = 0 \/ (d + k) mod 4 = 0).
Proof.
  revert m d s n. induction fuel as [|fuel IH]; intros m d s n Hn Hf; simpl;
    case_zb; try (exists 0; unfold copied; simpl; rewrite !Z.add_0_r, Z.sub_0_r;
                  split; [lia|split; [done|lia]]).
  all: rewrite land3_mod; case_zb;
    try (exists 0; unfold copied; simpl; rewrite !Z.add_0_r, Z.sub_0_r;
         split; [lia|split; [done|lia]]).
  destruct (IH (store8 m d (load8 m s)) (d + 1) (s + 1) (n - 1)) as (k & Hk & E & A);
    [lia|unfold forward_ok in *; lia|].
  exists (k + 1). split; [lia|]. split; [|replace (d + (k + 1)) with (d + 1 + k) by lia; lia].
  rewrite E. clear E A.
  replace (copied m d s (k + 1)) with (copied (store8 m d (load8 m s)) (d + 1) (s + 1) k).
  - f_equal; [f_equal; [f_equal|]|]; lia.
  - unfold copied. replace (store8 m d (load8 m s)) with (store_bytes m d (load_bytes m s 1))
      by (by rewrite load_bytes_S).
    replace (Z.to_nat (k + 1)) with (1 + Z.to_nat k)%nat by lia.
    apply (store_bytes_split m d s 1 (Z.to_nat k)). unfold forward_ok in *. lia.
Qed.

(** The block move starts on a 4-byte boundary: the fuel of the byte loop
    is enough. *)
Lemma memcpy_top_aligned m d s n :
  0 <= n -> forward_ok d s n ->
  let '(_, edi, _, ecx) := memcpy_top 4 m d s n in ecx = 0 \/ edi mod 4 = 0.
Proof.
  revert m d s n. 
  assert (H : forall f m d s n, (-d) mod 4 <= Z.of_nat f ->
    let '(_, edi, _, ecx) := memcpy_top f m d s n in ecx = 0 \/ edi mod 4 = 0).
  { induction f as [|f IH]; intros m d s n Hd; simpl; case_zb; auto;
      rewrite land3_mod; case_zb; auto.
    - right. divlia.
    - apply IH. divlia. }
  intros m d s n _ _. apply H. divlia.
Qed.

Lemma memcpy_spec m d s n :
  0 <= n -> forward_ok d s n -> memcpy m d s n = copied m d s n.
Proof.
  intros Hn Hf. unfold memcpy.
  destruct (memcpy_top_spec 4 m d s n Hn Hf) as (k & Hk & -> & _).
  case_zb; [by replace k with n by lia|].
  rewrite land3_mod, shiftr2_div. unfold copied.
  set (q := (n - k) / 4). set (r := (n - k) mod 4).
  assert (Hqr : n - k = 4 * q + r /\ 0 <= q /\ 0 <= r < 4) by (unfold q, r; divlia).
  clearbody q r. unfold forward_ok in *.
  rewrite movsl_forward, movsb_forward by (unfold forward_ok; lia).
  set (m1 := store_bytes m d (load_bytes m s (Z.to_nat k))).
  replace (d + k + 4 * q) with (d + k + Z.of_nat (4 * Z.to_nat q)) by lia.
  replace (s + k + 4 * q) with (s + k + Z.of_nat (4 * Z.to_nat q)) by lia.
  rewrite store_bytes_split by (unfold forward_ok; lia). unfold m1.
  replace (d + k) with (d + Z.of_nat (Z.to_nat k)) by lia.
  replace (s + k) with (s + Z.of_nat (Z.to_nat k)) by lia.
  rewrite store_bytes_split by (unfold forward_ok; lia). do 2 f_equal. lia.
Qed.

Lemma memmove_spec m d s n : 0 <= n -> fst (memmove m d s n) =m= copied m d s n.
Proof.
  intros Hn. unfold memmove, copied. case_zb; simpl.
  - rewrite movsb_forward by (unfold forward_ok; lia). done.
  - pose proof (movsb_backward (Z.to_nat n) m d s) as P. rewrite Z2Nat.id in P by lia.
    apply P. lia.
Qed.

(** A copy leaves everything but its destination alone. *)
Lemma copied_outside m d s n : 0 <= n -> same_outside m (copied m d s n) d (d + n).
Proof.
  intros Hn x Hx. apply load8_store_bytes_out. rewrite length_load_bytes. lia.
Qed.

Lemma load8_copied m d s n x : 0 <= n ->
  load8 (copied m d s n) x = if (d <=? x) && (x <? d + n) then load8 m (s + (x - d)) else load8 m x.
Proof.
  intros Hn. unfold copied. rewrite load8_store_bytes, length_load_bytes, Z2Nat.id by done.
  repeat (case_zb; simpl); try done. rewrite load_bytes_lookup by lia.
  rewrite u8_load8. f_equal. lia.
Qed.

(** * Filling *)

Lemma stosb_spec n m c d : stosb n m c d = store_bytes m d (replicate n c).
Proof. revert m d. induction n as [|n IH]; intros m d; simpl; [done|]. apply IH. Qed.

Lemma replicate_bytes_app {A} (x : A) n k : replicate (n + k) x = replicate n x ++ replicate k x.
Proof. apply replicate_add. Qed.

(** The four copies of the byte that [memset] builds in [eax]. *)
Lemma memset_pattern c : 0 <= c < 256 ->
  u32 (Z.lor (Z.lor (Z.lor (Z.shiftl c 24) (Z.shiftl c 16)) (Z.shiftl c 8)) c)
  = c * 0x1010101.
Proof.
  intros Hc.
  assert (H : Forall (fun c => u32 (Z.lor (Z.lor (Z.lor (Z.shiftl c 24) (Z.shiftl c 16))
                (Z.shiftl c 8)) c) = c * 0x1010101) (seqZ 0 256)).
  { apply (bool_decide_unpack _). vm_compute. exact I. }
  rewrite Forall_forall in H. apply H, elem_of_seqZ. lia.
Qed.

Lemma store_pattern m d c :
  0 <= c < 256 -> store32 m d (c * 0x1010101) = store_bytes m d (replicate 4 c).
Proof.
  intros Hc. unfold store32. cbn [store_le store_bytes replicate].
  assert (E : u8 (c * 16843009) = u8 c /\ u8 (c * 16843009 / 256) = u8 c /\
              u8 (c * 16843009 / 256 / 256) = u8 c /\
              u8 (c * 16843009 / 256 / 256 / 256) = u8 c) by (unfold u8; divlia).
  unfold store8. by destruct E as (-> & -> & -> & ->).
Qed.

Lemma stosl_spec n m c d : 0 <= c < 256 ->
  stosl n m (c * 0x1010101) d = store_bytes m d (replicate (4 * n) c).
Proof.
  intros Hc. revert m d. induction n as [|n IH]; intros m d; [done|].
  cbn [stosl]. rewrite IH, store_pattern by done.
  replace (4 * S n)%nat with (4 + 4 * n)%nat by lia.
  rewrite replicate_bytes_app, store_bytes_app. by rewrite length_replicate.
Qed.

Lemma store8_pattern m d c : 0 <= c < 256 -> store8 m d (c * 0x1010101) = store8 m d c.
Proof. intros. unfold store8, u8. f_equal. divlia. Qed.

Lemma memset_top_spec fuel m c d n :
  0 <= c < 256 -> 0 <= n ->
  exists k, 0 <= k <= n /\
    memset_top fuel m (c * 0x1010101) d n
    = (store_bytes m d (replicate (Z.to_nat k) c), d + k, n - k).
Proof.
  intros Hc. revert m d n. induction fuel as [|fuel IH]; intros m d n Hn; simpl;
    repeat case_zb; try (exists 0; simpl; rewrite Z.add_0_r, Z.sub_0_r; split; [lia|done]).
  rewrite store8_pattern by done.
  destruct (IH (store8 m d c) (d + 1) (n - 1)) as (k & Hk & ->); [lia|].
  exists (k + 1). split; [lia|]. replace (Z.to_nat (k + 1)) with (S (Z.to_nat k)) by lia.
  cbn [replicate store_bytes]. f_equal; [f_equal|]; lia.
Qed.

Lemma memset_spec m s c n :
  0 <= n -> memset m s c n = store_bytes m s (replicate (Z.to_nat n) (u8 c)).
Proof.
  intros Hn. unfold memset.
  replace (Z.land c 255) with (u8 c) by (symmetry; exact (Z.land_ones c 8 ltac:(lia))).
  pose proof (u8_range c) as Hc. rewrite memset_pattern by done.
  destruct (memset_top_spec 4 m (u8 c) s n Hc Hn) as (k & Hk & ->).
  case_zb; [by replace k with n by lia|].
  rewrite land3_mod, shiftr2_div.
  set (q := (n - k) / 4). set (r := (n - k) mod 4).
  assert (Hqr : n - k = 4 * q + r /\ 0 <= q /\ 0 <= r < 4) by (unfold q, r; divlia).
  clearbody q r. rewrite stosb_spec, stosl_spec by done.
  assert (Er : forall m d, store_bytes m d (replicate (Z.to_nat r) (u8 c * 16843009))
                         = store_bytes m d (replicate (Z.to_nat r) (u8 c))).
  { intros m0 d0. revert m0 d0. induction (Z.to_nat r) as [|j IH]; intros m0 d0; [done|].
    cbn [replicate store_bytes]. by rewrite store8_pattern, IH. }
  rewrite Er. replace (Z.to_nat n) with (Z.to_nat k + (4 * Z.to_nat q + Z.to_nat r))%nat by lia.
  rewrite !replicate_add, !store_bytes_app, !length_replicate.
  f_equal; [f_equal; lia|lia].
Qed.

(** [rep stosw] writes the low 16 bits of the pattern into [n] words. *)
Lemma stosw_outside n m c d : same_outside m (stosw n m c d) d (d + 2 * Z.of_nat n).
Proof.
  revert m d. induction n as [|n IH]; intros m d; [by intros x _|].
  intros x Hx. cbn [stosw]. rewrite IH by lia. apply load8_store16_ne. lia.
Qed.

Lemma stosw_lookup n m c d i :
  (i < n)%nat -> load16 (stosw n m c d) (d + 2 * Z.of_nat i) = u16 c.
Proof.
  revert m d i. induction n as [|n IH]; intros m d i Hi; [lia|].
  cbn [stosw]. destruct i as [|i].
  - rewrite Z.add_0_r. unfold load16. erewrite same_outside_load_le;
      [|apply stosw_outside|simpl; lia]. apply load16_store16_eq.
  - replace (d + 2 * Z.of_nat (S i)) with (d + 2 + 2 * Z.of_nat i) by lia. apply IH. lia.
Qed.

Lemma memset_word_outside m s c n :
  0 <= n -> same_outside m (memset_word m s c n) s (s + 2 * n).
Proof.
  intros Hn. unfold memset_word. rewrite <- (Z2Nat.id n) at 2 by done. apply stosw_outside.
Qed.

Lemma memset_word_lookup m s c n i :
  0 <= i < n -> load16 (memset_word m s c n) (s + 2 * i) = u16 c.
Proof.
  intros Hi. unfold memset_word. rewrite <- (Z2Nat.id i) by lia. apply stosw_lookup. lia.
Qed.

(** * Properties *)

(** C29: [memmove] is correct for every overlap of source and destination: each
    destination byte becomes the source byte of the original memory and no
    other byte changes.  The direction flag comes back set exactly when the
    copy ran backwards, so a copy to a higher address breaks the calling
    convention's promise of a clear flag. *)
Theorem memmove_correct (m : mem) (dest src n : Z) :
  0 <= n ->
  let '(m', df) := memmove m dest src n in
  (forall i, 0 <= i < n -> load8 m' (dest + i) = load8 m (src + i)) /\
  same_outside m m' dest (dest + n) /\
  (df = true <-> src < dest).
Proof.
  intros Hn. pose proof (memmove_spec m dest src n Hn) as P.
  assert (D : snd (memmove m dest src n) = true <-> src < dest).
  { unfold memmove. case_zb; simpl; split; done || lia. }
  destruct (memmove m dest src n) as [m' df]. simpl in P, D. split; [|split; [|done]].
  - intros i Hi. rewrite (P (dest + i)), load8_copied by done.
    repeat (case_zb; simpl); try lia. f_equal. lia.
  - intros x Hx. rewrite (P x). by apply copied_outside.
Qed.

Lemma memmove_correct_witness :
  let m := store_bytes ∅ 100 [1; 2; 3; 4; 5] in
  (forall i, 0 <= i < 5 -> load8 (fst (memmove m 102 100 5)) (102 + i) = load8 m (100 + i))
  /\ load_bytes (fst (memmove m 102 100 5)) 100 7 = [1; 2; 1; 2; 3; 4; 5].
Proof.
  intros m. split; [|reflexivity].
  pose proof (memmove_correct m 102 100 5 ltac:(lia)) as P.
  destruct (memmove m 102 100 5). apply P.
Defined.

(** C28: the word-at-a-time [memcpy] is equivalent to the byte-by-byte copy it
    optimises, at every alignment of the destination, and also when the
    blocks overlap with the destination below the source; the [rep movsl]
    part runs only from a 4-byte boundary. *)
Theorem memcpy_equivalent (m : mem) (dest src n : Z) :
  0 <= n -> dest <= src \/ src + n <= dest ->
  memcpy m dest src n = movsb false (Z.to_nat n) m dest src /\
  load_bytes (memcpy m dest src n) dest (Z.to_nat n) = load_bytes m src (Z.to_nat n) /\
  same_outside m (memcpy m dest src n) dest (dest + n) /\
  (let '(_, edi, _, ecx) := memcpy_top 4 m dest src n in ecx = 0 \/ edi mod 4 = 0).
Proof.
  intros Hn Hf. rewrite memcpy_spec, movsb_forward by (done || unfold forward_ok; lia).
  split; [done|]. split; [|split].
  - unfold copied. rewrite <- (length_load_bytes m src (Z.to_nat n)) at 2.
    apply load_store_bytes, load_bytes_range.
  - by apply copied_outside.
  - by apply memcpy_top_aligned.
Qed.

Lemma memcpy_equivalent_witness :
  let m := store_bytes ∅ 1000 [1; 2; 3; 4; 5; 6; 7; 8; 9; 10; 11] in
  memcpy m 998 1000 11 = movsb false 11 m 998 1000 /\
  load_bytes (memcpy m 998 1000 11) 998 13 = [1; 2; 3; 4; 5; 6; 7; 8; 9; 10; 11; 10; 11].
Proof.
  intros m. split; [|reflexivity]. apply (memcpy_equivalent m 998 1000 11); lia.
Defined.

(** [memset] fills exactly [n] bytes with the low byte of [c], through the
    aligned word stores as well as through the byte loops. *)
Theorem memset_correct (m : mem) (s c n : Z) :
  0 <= n ->
  (forall i, 0 <= i < n -> load8 (memset m s c n) (s + i) = u8 c) /\
  same_outside m (memset m s c n) s (s + n).
Proof.
  intros Hn. rewrite memset_spec by done. split.
  - intros i Hi. rewrite load8_store_bytes_in by (rewrite length_replicate; lia).
    rewrite lookup_total_replicate_2 by lia. apply u8_u8.
  - intros x Hx. apply load8_store_bytes_out. rewrite length_replicate. lia.
Qed.

Lemma memset_correct_witness :
  (forall i, 0 <= i < 9 -> load8 (memset ∅ 33 0x1AB 9) (33 + i) = 0xAB) /\
  load_bytes (memset ∅ 33 0x1AB 9) 32 11 = 0 :: replicate 9 0xAB ++ [0].
Proof. split; [apply (memset_correct ∅ 33 0x1AB 9); lia | reflexivity]. Defined.
