(* ===== verification/LibString.v ===== *)
(** The string routines of [lib/lib.c]: [strlen], [strncmp], [strcpy],
    [strncpy], [strrev] and [itoa].

    A C string is a block of memory up to its first zero byte.  Loops whose
    bound is that zero byte run on fuel: a memory has finitely many non-zero
    bytes, so [S (size m)] steps reach one, which is proved below. *)

From S2P Require Import Prelude Memory.

(** * The code *)

Fixpoint strlen_loop (fuel : nat) (m : mem) (s len : Z) : Z :=
  match fuel with
  | O => len
  | S f => if load8 m (s + len) =? 0 then len else strlen_loop f m s (len + 1)
  end.

Definition strlen (m : mem) (s : Z) : Z := strlen_loop (S (size m)) m s 0.

(** [s1[i] - s2[i]] is computed on [int8_t] values. *)
Fixpoint strncmp_loop (n : nat) (m : mem) (s1 s2 i : Z) : Z :=
  match n with
  | O => 0
  | S n' =>
      let c1 := load8 m (s1 + i) in
      let c2 := load8 m (s2 + i) in
      if negb (c1 =? c2) || (c1 =? 0) then s8 c1 - s8 c2
      else strncmp_loop n' m s1 s2 (i + 1)
  end.

Definition strncmp (m : mem) (s1 s2 n : Z) : Z := strncmp_loop (Z.to_nat n) m s1 s2 0.

(** [strcpy] never ends when the copy overwrites the terminator before it is
    read; that is the result [None]. *)
Fixpoint strcpy_loop (fuel : nat) (m : mem) (dest src i : Z) : option mem :=
  match fuel with
  | O => None
  | S f =>
      if load8 m (src + i) =? 0 then Some (store8 m (dest + i) 0)
      else strcpy_loop f (store8 m (dest + i) (load8 m (src + i))) dest src (i + 1)
  end.

Definition strcpy (m : mem) (dest src : Z) : option mem :=
  strcpy_loop (S (size m)) m dest src 0.

(** The two loops of [strncpy]; [n] counts the iterations left before
    [i < n] fails, and the first loop hands over to the second. *)
Fixpoint strncpy_pad (n : nat) (m : mem) (dest i : Z) : mem :=
  match n with
  | O => m
  | S n' => strncpy_pad n' (store8 m (dest + i) 0) dest (i + 1)
  end.

Fixpoint strncpy_loop (n : nat) (m : mem) (dest src i : Z) : mem :=
  match n with
  | O => m
  | S n' =>
      if load8 m (src + i) =? 0 then strncpy_pad n m dest i
      else strncpy_loop n' (store8 m (dest + i) (load8 m (src + i))) dest src (i + 1)
  end.

Definition strncpy (m : mem) (dest src n : Z) : mem := strncpy_loop (Z.to_nat n) m dest src 0.

Fixpoint strrev_loop (fuel : nat) (m : mem) (s beg end_ : Z) : mem :=
  match fuel with
  | O => m
  | S f =>
      if beg <? end_ then
        let tmp := load8 m (s + end_) in
        let m := store8 m (s + end_) (load8 m (s + beg)) in
        let m := store8 m (s + beg) tmp in
        strrev_loop f m s (beg + 1) (end_ - 1)
      else m
  end.

Definition strrev (m : mem) (s : Z) : mem :=
  let len := strlen m s in
  strrev_loop (Z.to_nat len) m s 0 (len - 1).

(** "0123456789ABCDEFGHIJKLMNOPQRSTUVWXYZ" *)
Definition itoa_lookup (i : Z) : Z := if i <? 10 then 48 + i else 55 + i.

(** The digit loop; a 32-bit value has at most 32 digits in any base from 2
    on, so the fuel of 33 is used up only by bases 0 and 1 ([None]). *)
Fixpoint itoa_loop (fuel : nat) (m : mem) (newbuf newval radix : Z) : option (mem * Z) :=
  match fuel with
  | O => None
  | S f =>
      if newval >? 0 then
        itoa_loop f (store8 m newbuf (itoa_lookup (newval mod radix))) (newbuf + 1)
          (newval / radix) radix
      else Some (m, newbuf)
  end.

Definition itoa (m : mem) (value buf radix : Z) : option mem :=
  if value =? 0 then Some (store8 (store8 m buf 48) (buf + 1) 0)
  else
    match itoa_loop 33 m buf value radix with
    | None => None
    | Some (m, newbuf) => Some (strrev (store8 m newbuf 0) buf)
    end.

(** * C strings *)

(** The bytes [l] stand at [s] and are followed by a zero byte. *)
Definition cstr (m : mem) (s : Z) (l : list Z) : Prop :=
  load_bytes m s (length l) = l /\ Forall (fun b => b <> 0) l /\ load8 m (s + zlen l) = 0.

(** The part of a list before its first zero. *)
Fixpoint cut (l : list Z) : list Z :=
  match l with
  | [] => []
  | b :: l' => if b =? 0 then [] else b :: cut l'
  end.

(** The characters a routine bounded by [n] sees at [s]. *)
Definition chars (m : mem) (s n : Z) : list Z := cut (load_bytes m s (Z.to_nat n)).

Lemma length_cut l : (length (cut l) <= length l)%nat.
Proof. induction l as [|b l IH]; simpl; [done|]. case_zb; simpl; lia. Qed.

Lemma cut_nonzero l : Forall (fun b => b <> 0) (cut l).
Proof. induction l as [|b l IH]; simpl; [constructor|]. case_zb; constructor; done. Qed.

Lemma cut_app_nonzero l k : Forall (fun b => b <> 0) l -> cut (l ++ k) = l ++ cut k.
Proof.
  induction 1 as [|b l Hb _ IH]; simpl; [done|]. case_zb; [done|]. by rewrite IH.
Qed.

Lemma cstr_cut m s l n : cstr m s l -> (length l < n)%nat -> cut (load_bytes m s n) = l.
Proof.
  intros (Hl & Hnz & Hz) Hn. replace n with (length l + S (n - S (length l)))%nat by lia.
  rewrite load_bytes_app, Hl, cut_app_nonzero, load_bytes_S by done. simpl.
  rewrite Hz. simpl. by rewrite app_nil_r.
Qed.

Lemma cstr_lookup m s l i : cstr m s l -> (i < length l)%nat -> load8 m (s + Z.of_nat i) = l !!! i.
Proof. intros (Hl & _ & _) Hi. rewrite <- Hl. by rewrite load_bytes_lookup. Qed.

Lemma cstr_nonzero m s l i : cstr m s l -> 0 <= i < zlen l -> load8 m (s + i) <> 0.
Proof.
  intros (Hl & Hnz & _) Hi. rewrite Forall_lookup in Hnz. apply (Hnz (Z.to_nat i)).
  rewrite <- Hl. unfold load_bytes.
  rewrite list_lookup_fmap, lookup_seq_lt by lia. simpl. do 2 f_equal. lia.
Qed.

Lemma cstr_ext m m' s l :
  (forall x, s <= x <= s + zlen l -> load8 m' x = load8 m x) -> cstr m s l -> cstr m' s l.
Proof.
  intros H (Hl & Hnz & Hz). split; [|split; [done|]].
  - rewrite <- Hl at 2. apply load_bytes_ext. intros. apply H. lia.
  - rewrite H; [done|lia].
Qed.

(** Every string ends: a run of non-zero bytes is no longer than the memory
    has entries. *)
Lemma nonzero_run_bounded (m : mem) s n :
  (forall i, 0 <= i < Z.of_nat n -> load8 m (s + i) <> 0) -> (n <= size m)%nat.
Proof.
  intros H.
  assert (Hsub : list_to_set (seqZ s (Z.of_nat n)) ⊆ dom m).
  { intros x Hx. apply elem_of_list_to_set, elem_of_seqZ in Hx.
    apply elem_of_dom. specialize (H (x - s) ltac:(lia)). unfold load8 in H.
    replace (s + (x - s)) with x in H by lia. destruct (m !! x); [eauto|done]. }
  apply subseteq_size in Hsub. rewrite size_dom in Hsub.
  rewrite size_list_to_set in Hsub by apply NoDup_seqZ.
  rewrite length_seqZ in Hsub. lia.
Qed.

Lemma strlen_loop_spec fuel m s len k :
  0 <= k -> (Z.to_nat k < fuel)%nat ->
  (forall i, 0 <= i < k -> load8 m (s + len + i) <> 0) -> load8 m (s + len + k) = 0 ->
  strlen_loop fuel m s len = len + k.
Proof.
  revert len k. induction fuel as [|f IH]; intros len k Hk Hf Hnz Hz; [lia|]. simpl.
  destruct (Z.eq_dec k 0) as [-> | Hk0].
  - rewrite Z.add_0_r in Hz. rewrite Hz. simpl. lia.
  - specialize (Hnz 0 ltac:(lia)) as H0. rewrite Z.add_0_r in H0. case_zb; [done|].
    rewrite (IH _ (k - 1)); [lia|lia|lia| |].
    + intros i Hi. replace (s + (len + 1) + i) with (s + len + (i + 1)) by lia. apply Hnz. lia.
    + by replace (s + (len + 1) + (k - 1)) with (s + len + k) by lia.
Qed.

Lemma strlen_cstr m s l : cstr m s l -> strlen m s = zlen l.
Proof.
  intros Hc. unfold strlen.
  assert (Hle : (length l <= size m)%nat).
  { apply nonzero_run_bounded with s. intros. by apply (cstr_nonzero m s l). }
  rewrite (strlen_loop_spec _ _ _ _ (zlen l)); [lia|lia|lia| |].
  - intros i Hi. rewrite Z.add_0_r. by apply (cstr_nonzero m s l).
  - rewrite Z.add_0_r. apply Hc.
Qed.

(** There is a string at every address. *)
Lemma cstr_exists m s : exists l, cstr m s l.
Proof.
  exists (cut (load_bytes m s (S (size m)))).
  assert (H : forall n, (exists i, (i < n)%nat /\ load8 m (s + Z.of_nat i) = 0) ->
                cstr m s (cut (load_bytes m s n))).
  { intros n. revert s. induction n as [|n IH]; intros s (i & Hi & Hz); [lia|].
    rewrite load_bytes_S. simpl. case_zb.
    - split; [done|]. split; [constructor|]. by rewrite Z.add_0_r.
    - destruct i as [|i]; [by rewrite Z.add_0_r in Hz|].
      destruct (IH (s + 1)) as (Hl & Hnz & Hend).
      { exists i. split; [lia|]. by replace (s + 1 + Z.of_nat i) with (s + Z.of_nat (S i)) by lia. }
      split; [|split].
      + cbn [length]. by rewrite load_bytes_S, Hl.
      + by constructor.
      + cbn [length]. rewrite <- Hend. f_equal. lia. }
  apply H.
  destruct (decide (Exists (fun i => load8 m (s + Z.of_nat i) = 0) (seq 0 (S (size m))))) as [E|E].
  { apply Exists_exists in E as (i & Hi & Hz). apply elem_of_seq in Hi. exists i. split; [lia|done]. }
  exfalso. assert (S (size m) <= size m)%nat; [|lia].
  apply nonzero_run_bounded with s. intros i Hi Hz. apply E, Exists_exists. exists (Z.to_nat i).
  rewrite elem_of_seq. split; [lia|]. by rewrite Z2Nat.id by lia.
Qed.

(** * Comparison *)

(** Lexicographic order of strings on signed characters, a string that ends
    being padded with zero. *)
Fixpoint str_order (l k : list Z) : Z :=
  match l, k with
  | [], [] => 0
  | a :: l', b :: k' => if a =? b then str_order l' k' else s8 a - s8 b
  | a :: _, [] => s8 a
  | [], b :: _ => - s8 b
  end.

Lemma strncmp_loop_spec n m s1 s2 i :
  strncmp_loop n m s1 s2 i
  = str_order (cut (load_bytes m (s1 + i) n)) (cut (load_bytes m (s2 + i) n)).
Proof.
  revert i. induction n as [|n IH]; intros i; [done|].
  rewrite !load_bytes_S. cbn [strncmp_loop cut].
  replace (s1 + i + 1) with (s1 + (i + 1)) by lia.
  replace (s2 + i + 1) with (s2 + (i + 1)) by lia.
  destruct (Z.eqb_spec (load8 m (s1 + i)) (load8 m (s2 + i))) as [E|E]; simpl.
  - rewrite <- E. case_zb; simpl; [lia|]. rewrite Z.eqb_refl. apply IH.
  - repeat case_zb; simpl; try congruence.
    + rewrite e. done.
    + rewrite e. change (s8 0) with 0. lia.
    + case_zb; done.
Qed.

Lemma strncmp_spec m s1 s2 n : strncmp m s1 s2 n = str_order (chars m s1 n) (chars m s2 n).
Proof. unfold strncmp, chars. rewrite strncmp_loop_spec. by rewrite !Z.add_0_r. Qed.

Lemma s8_zero b : 0 <= b < 256 -> s8 b = 0 -> b = 0.
Proof. intros Hb E. apply s8_inj; [done|lia|done]. Qed.

Lemma str_order_zero l k :
  Forall (fun b => 0 < b < 256) l -> Forall (fun b => 0 < b < 256) k ->
  str_order l k = 0 <-> l = k.
Proof.
  intros Hl. revert k. induction Hl as [|a l Ha _ IH]; intros [|b k] Hk; simpl; try done.
  - inversion Hk; subst. split; [|done]. intros E.
    assert (b = 0) by (apply s8_zero; lia). lia.
  - split; [|done]. intros E. assert (a = 0) by (apply s8_zero; lia). lia.
  - inversion Hk; subst. case_zb.
    + subst. rewrite IH by done. split; [by intros ->|by intros [= ->]].
    + split; [|by intros [= -> ->]]. intros E. exfalso.
      assert (a = b) by (apply s8_inj; lia). done.
Qed.

Lemma chars_range m s n : Forall (fun b => 0 < b < 256) (chars m s n).
Proof.
  unfold chars. pose proof (load_bytes_range m s (Z.to_nat n)) as H.
  induction H as [|b l Hb _ IH]; simpl; [constructor|].
  case_zb; constructor; [lia|done].
Qed.

Lemma strncmp_zero m s1 s2 n : strncmp m s1 s2 n = 0 <-> chars m s1 n = chars m s2 n.
Proof. rewrite strncmp_spec. apply str_order_zero; apply chars_range. Qed.

(** * Copying *)

Definition zero_pad (n : nat) (l : list Z) : list Z := l ++ replicate (n - length l) 0.

Lemma length_zero_pad n l : (length l <= n)%nat -> length (zero_pad n l) = n.
Proof. intros. unfold zero_pad. rewrite length_app, length_replicate. lia. Qed.

Lemma strncpy_pad_spec n m dest i :
  strncpy_pad n m dest i = store_bytes m (dest + i) (replicate n 0).
Proof.
  revert m i. induction n as [|n IH]; intros m i; simpl; [done|].
  rewrite IH. f_equal. lia.
Qed.

Lemma strncpy_loop_spec n m dest src i :
  dest <= src \/ src + i + Z.of_nat n <= dest + i ->
  strncpy_loop n m dest src i
  = store_bytes m (dest + i) (zero_pad n (cut (load_bytes m (src + i) n))).
Proof.
  revert m i. induction n as [|n IH]; intros m i Hd; [done|].
  cbn [strncpy_loop]. rewrite load_bytes_S. cbn [cut]. case_zb.
  - rewrite strncpy_pad_spec. done.
  - rewrite IH by lia. unfold zero_pad. cbn [length Nat.sub app store_bytes].
    replace (dest + (i + 1)) with (dest + i + 1) by lia.
    replace (src + (i + 1)) with (src + i + 1) by lia.
    rewrite (load_bytes_ext m); [done|]. intros x Hx. apply load8_store8_ne. lia.
Qed.

Lemma strncpy_spec m dest src n :
  0 <= n -> dest <= src \/ src + n <= dest ->
  strncpy m dest src n = store_bytes m dest (zero_pad (Z.to_nat n) (chars m src n)).
Proof.
  intros Hn Hd. unfold strncpy, chars. rewrite strncpy_loop_spec by lia.
  by rewrite !Z.add_0_r.
Qed.

Lemma strcpy_loop_spec fuel m dest src i l :
  cstr m (src + i) l -> (length l < fuel)%nat ->
  dest <= src \/ src + i + zlen l < dest + i ->
  strcpy_loop fuel m dest src i = Some (store_bytes m (dest + i) (l ++ [0])).
Proof.
  revert m i l. induction fuel as [|f IH]; intros m i l Hc Hf Hd; [lia|].
  cbn [strcpy_loop]. destruct l as [|b l].
  - destruct Hc as (_ & _ & Hz). simpl in Hz. rewrite Z.add_0_r in Hz. by rewrite Hz.
  - pose proof (cstr_nonzero _ _ _ 0 Hc ltac:(simpl; lia)) as Hnz.
    rewrite Z.add_0_r in Hnz. case_zb; [done|].
    pose proof (cstr_lookup _ _ _ 0%nat Hc ltac:(simpl; lia)) as Hb.
    rewrite Z.add_0_r in Hb. simpl in Hb. rewrite Hb.
    rewrite (IH _ _ l); [|clear IH|simpl in *; lia|simpl in *; lia].
    + cbn [app store_bytes]. by replace (dest + (i + 1)) with (dest + i + 1) by lia.
    + apply cstr_ext with m.
      * intros x Hx. apply load8_store8_ne. simpl in Hd. lia.
      * destruct Hc as (Hl & Hn & Hz). cbn [length] in Hl. rewrite load_bytes_S in Hl.
        replace (src + (i + 1)) with (src + i + 1) by lia. split; [congruence|].
        inversion Hn; subst. split; [done|]. rewrite <- Hz. f_equal. simpl length. lia.
Qed.

Lemma strcpy_spec m dest src l :
  cstr m src l -> dest <= src \/ src + zlen l < dest ->
  strcpy m dest src = Some (store_bytes m dest (l ++ [0])).
Proof.
  intros Hc Hd. unfold strcpy. rewrite <- (Z.add_0_r dest) at 2.
  apply strcpy_loop_spec.
  - by rewrite Z.add_0_r.
  - assert (length l <= size m)%nat; [|lia].
    apply nonzero_run_bounded with src. intros. by apply (cstr_nonzero m src l).
  - lia.
Qed.

(** * Reversal *)

Lemma strrev_loop_spec fuel m s beg end_ x :
  end_ - beg + 1 <= 2 * Z.of_nat fuel ->
  load8 (strrev_loop fuel m s beg end_) (s + x)
  = if (beg <=? x) && (x <=? end_) then load8 m (s + (beg + end_ - x)) else load8 m (s + x).
Proof.
  revert m beg end_. induction fuel as [|f IH]; intros m beg end_ Hf; cbn [strrev_loop].
  - repeat (case_zb; simpl); try done. f_equal. lia.
  - destruct (Z.ltb_spec beg end_) as [Hlt|Hge].
    + rewrite IH by lia. rewrite !load8_store8.
      repeat (case_zb; simpl); try lia; try done; rewrite ?u8_load8; f_equal; lia.
    + repeat (case_zb; simpl); try done. f_equal. lia.
Qed.

Lemma strrev_cstr m s l :
  cstr m s l ->
  cstr (strrev m s) s (reverse l) /\ same_outside m (strrev m s) s (s + zlen l).
Proof.
  intros Hc. unfold strrev. rewrite (strlen_cstr _ _ _ Hc).
  assert (H : forall x, load8 (strrev_loop (Z.to_nat (zlen l)) m s 0 (zlen l - 1)) x
     = if (0 <=? x - s) && (x - s <=? zlen l - 1)
       then load8 m (s + (zlen l - 1 - (x - s))) else load8 m x).
  { intros x. replace x with (s + (x - s)) at 1 by lia.
    rewrite strrev_loop_spec by lia. by replace (s + (x - s)) with x by lia. }
  revert H. generalize (strrev_loop (Z.to_nat (zlen l)) m s 0 (zlen l - 1)). intros m' H.
  split.
  - split; [|split].
    + rewrite length_reverse. apply list_eq_total; rewrite length_load_bytes; [by rewrite length_reverse|].
      intros i Hi. rewrite load_bytes_lookup, H by done. repeat (case_zb; simpl); try lia.
      replace (s + (zlen l - 1 - (s + Z.of_nat i - s))) with (s + Z.of_nat (length l - 1 - i)) by lia.
      rewrite (cstr_lookup _ _ l) by (done || lia).
      rewrite !list_lookup_total_alt, reverse_lookup by lia. do 2 f_equal. lia.
    + apply Forall_reverse, Hc.
    + rewrite length_reverse, H. repeat (case_zb; simpl); try lia. apply Hc.
  - intros x Hx. rewrite H. repeat (case_zb; simpl); done || lia.
Qed.

(** * Number conversion *)

(** Digits of a number, lowest place first. *)
Fixpoint digits (fuel : nat) (v radix : Z) : list Z :=
  match fuel with
  | O => []
  | S f => if v >? 0 then v mod radix :: digits f (v / radix) radix else []
  end.

(** The value a numeral denotes, highest place first. *)
Definition char_value (c : Z) : Z := if c <? 58 then c - 48 else c - 55.
Definition numeral (radix : Z) (l : list Z) : Z :=
  foldl (fun acc c => acc * radix + char_value c) 0 l.

(** The digits [itoa] writes. *)
Definition number (radix v : Z) : list Z :=
  if v =? 0 then [48] else reverse (itoa_lookup <$> digits 32 v radix).

Section itoa.
Context (radix : Z) (Hr : 2 <= radix <= 36).

Lemma char_value_lookup d : 0 <= d < 36 -> char_value (itoa_lookup d) = d.
Proof. intros. unfold char_value, itoa_lookup. repeat case_zb; lia. Qed.

Lemma itoa_lookup_range d : 0 <= d < 36 -> 48 <= itoa_lookup d <= 90.
Proof. intros. unfold itoa_lookup. case_zb; lia. Qed.

Lemma digits_range f v : Forall (fun d => 0 <= d < radix) (digits f v radix).
Proof.
  revert v. induction f as [|f IH]; intros v; simpl; [constructor|].
  case_zb; constructor; [|done]. apply Z.mod_pos_bound. lia.
Qed.

Lemma div_radix_shrinks f v : 0 <= v < 2 ^ Z.of_nat (S f) -> 0 <= v / radix < 2 ^ Z.of_nat f.
Proof.
  intros Hv. rewrite Nat2Z.inj_succ, Z.pow_succ_r in Hv by lia.
  split; [apply Z.div_pos; lia|]. apply Z.div_lt_upper_bound; [lia|]. nia.
Qed.

Lemma digits_value f v :
  0 <= v < 2 ^ Z.of_nat f -> foldr (fun d acc => d + radix * acc) 0 (digits f v radix) = v.
Proof.
  revert v. induction f as [|f IH]; intros v Hv; [simpl in *; lia|].
  cbn [digits]. case_zb; [|simpl; lia]. cbn [foldr].
  rewrite IH by by apply div_radix_shrinks. pose proof (Z.div_mod v radix). lia.
Qed.

Lemma digits_last f v :
  0 < v < 2 ^ Z.of_nat f -> exists d, last (digits f v radix) = Some d /\ 0 < d < radix.
Proof.
  revert v. induction f as [|f IH]; intros v Hv; [simpl in Hv; lia|].
  cbn [digits]. case_zb; [|lia].
  pose proof (div_radix_shrinks f v ltac:(lia)) as Hs.
  destruct (Z.eq_dec (v / radix) 0) as [E|E].
  - rewrite E. exists v. rewrite Z.div_small_iff in E by lia.
    assert (D : digits f 0 radix = []) by (destruct f; done). rewrite D. simpl.
    rewrite Z.mod_small by lia. split; [done|lia].
  - destruct (IH (v / radix)) as (d & Hd & Hrange); [lia|]. exists d. split; [|done].
    rewrite last_cons, Hd. done.
Qed.

Lemma itoa_loop_spec f m newbuf v :
  0 <= v < 2 ^ Z.of_nat f ->
  let ds := itoa_lookup <$> digits f v radix in
  itoa_loop (S f) m newbuf v radix = Some (store_bytes m newbuf ds, newbuf + zlen ds).
Proof.
  revert m newbuf v. induction f as [|f IH]; intros m newbuf v Hv.
  - simpl in *. case_zb; [lia|]. by rewrite Z.add_0_r.
  - pose proof (div_radix_shrinks f v ltac:(lia)) as Hs.
    remember (S f) as g. cbn [itoa_loop]. subst g. cbn [digits]. case_zb.
    + rewrite IH by done. cbn [fmap list_fmap store_bytes length]. do 2 f_equal. lia.
    + cbn [fmap list_fmap store_bytes length]. by rewrite Z.add_0_r.
Qed.

Lemma numeral_digits l :
  Forall (fun d => 0 <= d < radix) l ->
  numeral radix (reverse (itoa_lookup <$> l)) = foldr (fun d acc => d + radix * acc) 0 l.
Proof.
  intros Hl. unfold numeral. induction Hl as [|d l Hd _ IH]; [done|].
  cbn [fmap list_fmap foldr]. rewrite reverse_cons, foldl_snoc.
  rewrite IH, char_value_lookup by lia. lia.
Qed.

Lemma length_digits f v : (length (digits f v radix) <= f)%nat.
Proof. revert v. induction f as [|f IH]; intros v; simpl; [lia|]. case_zb; simpl; [|lia]. specialize (IH (v / radix)). lia. Qed.

Lemma itoa_spec m value buf :
  0 <= value < 2 ^ 32 ->
  exists l m', l = number radix value /\ itoa m value buf radix = Some m' /\ cstr m' buf l /\
    same_outside m m' buf (buf + zlen l + 1) /\ (1 <= length l <= 32)%nat /\
    numeral radix l = value /\ Forall (fun c => 48 <= c <= 90) l /\
    (value <> 0 -> head l <> Some 48).
Proof.
  intros Hv. unfold itoa, number. case_zb.
  - subst. exists [48], (store8 (store8 m buf 48) (buf + 1) 0). split; [done|]. split; [done|]. split; [|split].
    + split; [|split].
      * simpl. rewrite load_bytes_S, load8_store8_ne, load8_store8_eq by lia. done.
      * by repeat constructor.
      * apply load8_store8_eq.
    + intros x Hx. simpl in Hx. rewrite !load8_store8_ne by lia. done.
    + split; [simpl; lia|]. split; [done|]. split; [|done]. repeat constructor; lia.
  - rewrite (itoa_loop_spec 32) by done. pose proof (digits_range 32 value) as Hd.
    pose proof (digits_value 32 value Hv) as Hval. pose proof (length_digits 32 value) as Hlen.
    destruct (digits_last 32 value ltac:(lia)) as (dl & Hlast & Hdl).
    set (ds := digits 32 value radix) in *. clearbody ds.
    set (l := itoa_lookup <$> ds).
    assert (Hbytes : Forall (fun c => 48 <= c <= 90) l).
    { apply Forall_fmap. eapply Forall_impl; [exact Hd|]. intros d Hd'. simpl in *.
      apply itoa_lookup_range. lia. }
    assert (Hc : cstr (store8 (store_bytes m buf l) (buf + zlen l) 0) buf l).
    { split; [|split].
      - rewrite (load_bytes_ext (store_bytes m buf l));
          [|intros; apply load8_store8_ne; lia].
        apply load_store_bytes. eapply Forall_impl; [exact Hbytes|]. simpl. lia.
      - eapply Forall_impl; [exact Hbytes|]. simpl. lia.
      - apply load8_store8_eq. }
    apply strrev_cstr in Hc as Hrev. destruct Hrev as [Hrev Hout].
    eexists (reverse l), _. split; [done|]. split; [done|]. split; [exact Hrev|].
    rewrite length_reverse. split; [|split; [|split; [|split]]].
    + intros x Hx. rewrite Hout, load8_store8_ne, load8_store_bytes_out by lia. done.
    + unfold l. rewrite length_fmap. destruct ds; [done|]. simpl in *. lia.
    + unfold l. rewrite numeral_digits by done. done.
    + by apply Forall_reverse.
    + intros _. unfold l. rewrite head_reverse, fmap_last, Hlast. simpl.
      intros [= E]. revert E. unfold itoa_lookup. case_zb; lia.
Qed.
End itoa.

(** * Properties *)

(** [strncmp] returns zero exactly when the two strings, cut at their
    terminator and at [n] characters, are equal; otherwise it returns the
    signed difference of the first characters that differ, as [str_order]
    says. *)
Theorem strncmp_correct (m : mem) (s1 s2 n : Z) :
  strncmp m s1 s2 n = str_order (chars m s1 n) (chars m s2 n) /\
  (strncmp m s1 s2 n = 0 <-> chars m s1 n = chars m s2 n).
Proof. split; [apply strncmp_spec | apply strncmp_zero]. Qed.

(** C33: number conversion is a round trip.  In every base from 2 to 36,
    [itoa] ends, leaves a terminated string of at most 32 characters without
    leading zeros whose numeral denotes the value, and writes nothing beyond
    the terminator. *)
Theorem itoa_roundtrip (m : mem) (value buf radix : Z) :
  2 <= radix <= 36 -> 0 <= value < 0x100000000 ->
  exists l m', itoa m value buf radix = Some m' /\ cstr m' buf l /\
    numeral radix l = value /\ (1 <= length l <= 32)%nat /\
    (value <> 0 -> head l <> Some 48) /\ same_outside m m' buf (buf + zlen l + 1).
Proof.
  intros Hr Hv. destruct (itoa_spec radix Hr m value buf Hv)
    as (l & m' & _ & E & Hc & Ho & Hl & Hn & _ & Hz).
  exists l, m'. auto 10.
Qed.

Lemma itoa_roundtrip_witness :
  exists l m', itoa ∅ 3735928559 64 16 = Some m' /\ cstr m' 64 l /\ numeral 16 l = 3735928559.
Proof.
  destruct (itoa_roundtrip ∅ 3735928559 64 16) as (l & m' & E & Hc & Hn & _); [lia..|].
  exists l, m'. split; [exact E|]. split; [exact Hc|exact Hn].
Defined.
