(* ===== verification/Paging.v ===== *)
(** Page directories and page tables: [arch/x86/paging.c].

    Entries are 32-bit words whose bit fields are assigned one by one, as the
    code does; the bits a function leaves unassigned in a local entry keep the
    value the stack happened to hold, which is the parameter [junk].  The
    tables live in memory at the addresses the code computes. *)

From S2P Require Import Prelude Memory Layout.

(** * Bit fields *)

Definition get_bits (off w v : Z) : Z := Z.land (Z.shiftr v off) (Z.ones w).

(** [e.field = x] for a field of [w] bits at bit [off]. *)
Definition set_bits (off w v x : Z) : Z :=
  Z.lor (Z.ldiff v (Z.shiftl (Z.ones w) off)) (Z.shiftl (Z.land x (Z.ones w)) off).

(** The layout [pd_entry] and [pt_entry] share ([include/arch/x86/paging.h]);
    the last field before [reserved] is [global_ignored] or [global], the two
    before it [page_size]/[page_size_ignored] and [dirty_ignored]/[dirty]. *)
Record entry_fields := Entry {
  physical_addr_31_to_12 : Z;
  global : Z;
  page_size : Z;
  dirty : Z;
  accessed : Z;
  cache_disabled : Z;
  write_through : Z;
  user_accessible : Z;
  read_write : Z;
  present : Z
}.

Definition set_present (v x : Z) : Z := set_bits 0 1 v x.
Definition set_user_accessible (v x : Z) : Z := set_bits 2 1 v x.
Definition set_physical_addr (v x : Z) : Z := set_bits 12 20 v x.

(** All ten assignments, in the order of the code. *)
Definition make_entry (junk : Z) (e : entry_fields) : Z :=
  let v := set_physical_addr junk (physical_addr_31_to_12 e) in
  let v := set_bits 8 1 v (global e) in
  let v := set_bits 7 1 v (page_size e) in
  let v := set_bits 6 1 v (dirty e) in
  let v := set_bits 5 1 v (accessed e) in
  let v := set_bits 4 1 v (cache_disabled e) in
  let v := set_bits 3 1 v (write_through e) in
  let v := set_user_accessible v (user_accessible e) in
  let v := set_bits 1 1 v (read_write e) in
  set_present v (present e).

(** * The code *)

Definition NUM_PD_ENTRIES : Z := 1024.
Definition NUM_PT_ENTRIES : Z := 1024.
Definition FOUR_KB_ALIGNED : Z := 4096.
Definition FOUR_MB_ALIGNED : Z := 4194304.
Definition ADDRESS_SHIFT : Z := 12.
Definition PAGING_STRUCT_ADDR : Z := FOUR_MB_ALIGNED * 31.
Definition PROCESS_STRUCT_SIZE : Z := FOUR_KB_ALIGNED * 4.
Definition VIDEO_PHYSICAL_ADDR : Z := 0xB8000.
Definition MAX_PROCESSES : Z := 6.

Definition get_process_pd (slot_num : Z) : Z := PAGING_STRUCT_ADDR + PROCESS_STRUCT_SIZE * slot_num.
Definition get_process_pt (slot_num : Z) : Z :=
  PAGING_STRUCT_ADDR + PROCESS_STRUCT_SIZE * slot_num + FOUR_KB_ALIGNED.

(** [for(i = i0; i < i0 + n; i++) table[i] = f(i);] on 4-byte entries. *)
Fixpoint fill_table (n : nat) (m : mem) (table i0 : Z) (f : Z -> Z) : mem :=
  match n with
  | O => m
  | S n' => fill_table n' (store32 m (table + 4 * i0) (f i0)) table (i0 + 1) f
  end.

Section paging.
Context `{L : Layout} (junk : Z -> Z).

Definition blank_entry (a : Z) : Z := set_present (junk a) 0.

(** The entries the code writes; a page that is a 4 MB page has
    [page_size] set. *)
Definition vmem_pd_entry : entry_fields :=
  Entry (Z.shiftr vmem_pt ADDRESS_SHIFT) 0 0 0 0 0 0 0 1 1.
Definition vmem_pt_fields (addr : Z) : entry_fields :=
  Entry (Z.shiftr addr ADDRESS_SHIFT) 0 0 0 0 0 0 0 1 1.
Definition kernel_page_fields : entry_fields := Entry 1024 1 1 0 0 0 0 0 1 1.
Definition struct_page_fields : entry_fields :=
  Entry (Z.shiftr PAGING_STRUCT_ADDR ADDRESS_SHIFT) 1 1 0 0 0 0 0 1 1.
Definition program_page_fields (i : Z) : entry_fields := Entry (2048 + 1024 * i) 0 1 0 0 0 0 0 1 1.
Definition user_vmem_pd_fields (pt : Z) : entry_fields :=
  Entry (Z.shiftr pt ADDRESS_SHIFT) 0 0 0 0 0 0 1 1 1.
Definition user_vmem_pt_fields (vmem_addr : Z) : entry_fields :=
  Entry (Z.shiftr vmem_addr ADDRESS_SHIFT) 0 0 0 0 0 0 1 1 1.
Definition process_page_fields (process_addr : Z) : entry_fields :=
  Entry (Z.shiftr (Z.land process_addr (Z.lnot (FOUR_MB_ALIGNED - 1))) ADDRESS_SHIFT)
    0 1 0 0 0 0 1 1 1.

Definition vmem_pt_entry (i : Z) : Z :=
  let addr := FOUR_KB_ALIGNED * i in
  if negb (addr =? VIDEO_PHYSICAL_ADDR) then blank_entry (vmem_pt + 4 * i)
  else make_entry (junk (vmem_pt + 4 * i)) (vmem_pt_fields addr).

Definition initialize_paging_structs (m : mem) (pd pt vmem_addr : Z) : mem :=
  let entry a e := make_entry (junk a) e in
  let m := fill_table (Z.to_nat NUM_PD_ENTRIES) m pd 0 (fun i => blank_entry (pd + 4 * i)) in
  let m := store32 m pd (entry pd vmem_pd_entry) in
  let m := fill_table (Z.to_nat NUM_PT_ENTRIES) m vmem_pt 0 vmem_pt_entry in
  let m := store32 m (pd + 4 * 1) (entry (pd + 4 * 1) kernel_page_fields) in
  let m := store32 m (pd + 4 * 31) (entry (pd + 4 * 31) struct_page_fields) in
  let m := fill_table (Z.to_nat MAX_PROCESSES) m pd 2
             (fun k => entry (pd + 4 * k) (program_page_fields (k - 2))) in
  let m := store32 m (pd + 4 * 33) (entry (pd + 4 * 33) (user_vmem_pd_fields pt)) in
  let m := store32 m pt (entry pt (user_vmem_pt_fields vmem_addr)) in
  fill_table (Z.to_nat (NUM_PT_ENTRIES - 1)) m pt 1 (fun i => blank_entry (pt + 4 * i)).

Definition setup_process_paging (m : mem) (process_addr slot_num vmem_addr : Z) : mem * Z :=
  let local_pd := get_process_pd slot_num in
  let local_pt := get_process_pt slot_num in
  let m := initialize_paging_structs m local_pd local_pt vmem_addr in
  let m := store32 m (local_pd + 4 * 32)
             (make_entry (junk (local_pd + 4 * 32)) (process_page_fields process_addr)) in
  let m := store32 m local_pt (set_user_accessible (load32 m local_pt) 1) in
  (m, local_pd).
End paging.

(** The TLB is not modelled, so [flush_tlb] has no effect on the state. *)
Definition set_process_vmem_page (m : mem) (slot_num vmem_addr : Z) : mem :=
  let local_pt := get_process_pt slot_num in
  let m := store32 m local_pt
             (set_physical_addr (load32 m local_pt) (Z.shiftr vmem_addr ADDRESS_SHIFT)) in
  store32 m local_pt (set_present (load32 m local_pt) 1).

Definition get_process_vmem_page (process_slot : Z) : Z := 33 * FOUR_MB_ALIGNED.

(** * What the processor does with the tables

    The two-level walk of IA-32 with 4 MB pages: the physical address and
    whether user mode may use it; [None] is a page fault. *)

Definition entry_present (v : Z) : bool := Z.testbit v 0.
Definition entry_user (v : Z) : bool := Z.testbit v 2.
Definition entry_large (v : Z) : bool := Z.testbit v 7.
Definition entry_addr (v : Z) : Z := get_bits 12 20 v.

Definition translate (m : mem) (cr3 vaddr : Z) : option (Z * bool) :=
  let pde := load32 m (cr3 + 4 * (vaddr / 0x400000)) in
  if negb (entry_present pde) then None
  else if entry_large pde then
    Some (0x400000 * (entry_addr pde / 1024) + vaddr mod 0x400000, entry_user pde)
  else
    let pte := load32 m (0x1000 * entry_addr pde + 4 * (vaddr / 0x1000 mod 1024)) in
    if negb (entry_present pte) then None
    else Some (0x1000 * entry_addr pte + vaddr mod 0x1000, entry_user pde && entry_user pte).

(** * Entries *)

Lemma set_bits_spec off w v x j :
  0 <= off -> 0 <= w -> 0 <= j ->
  Z.testbit (set_bits off w v x) j
  = if (off <=? j) && (j <? off + w) then Z.testbit x (j - off) else Z.testbit v j.
Proof.
  intros Ho Hw Hj. unfold set_bits.
  rewrite Z.lor_spec, Z.ldiff_spec, !Z.shiftl_spec by lia.
  destruct (Z.leb_spec off j); cbn [andb].
  - rewrite Z.land_spec. destruct (Z.ltb_spec j (off + w)).
    + rewrite Z.ones_spec_low by lia. simpl. by rewrite andb_false_r, andb_true_r.
    + rewrite Z.ones_spec_high by lia. simpl. by rewrite andb_true_r, andb_false_r, orb_false_r.
  - rewrite !(Z.testbit_neg_r _ (j - off)) by lia. simpl. by rewrite andb_true_r, orb_false_r.
Qed.

Lemma testbit_u32 z j : 0 <= j < 32 -> Z.testbit (u32 z) j = Z.testbit z j.
Proof. intros. exact (Z.mod_pow2_bits_low z 32 j ltac:(lia)). Qed.

Lemma set_bits_in off w v x j :
  0 <= off -> off <= j < off + w -> Z.testbit (set_bits off w v x) j = Z.testbit x (j - off).
Proof. intros. rewrite set_bits_spec by lia. repeat (case_zb; cbn [andb]); done || lia. Qed.

Lemma set_bits_out off w v x j :
  0 <= off -> 0 <= w -> 0 <= j -> j < off \/ off + w <= j ->
  Z.testbit (set_bits off w v x) j = Z.testbit v j.
Proof. intros. rewrite set_bits_spec by lia. repeat (case_zb; cbn [andb]); done || lia. Qed.

(** Resolve one bit of a word built by field assignments. *)
Ltac entry_bits :=
  unfold make_entry, set_present, set_user_accessible, set_physical_addr;
  rewrite ?testbit_u32 by lia;
  repeat first [rewrite set_bits_out by lia | rewrite testbit_u32 by lia];
  rewrite ?set_bits_in by lia.

Lemma get_addr_bits v n : 0 <= n -> Z.testbit (entry_addr v) n = (n <? 20) && Z.testbit v (n + 12).
Proof.
  intros Hn. unfold entry_addr, get_bits. rewrite Z.land_spec, Z.shiftr_spec by lia.
  case_zb; cbn [andb].
  - rewrite Z.ones_spec_low by lia. apply andb_true_r.
  - rewrite Z.ones_spec_high by lia. apply andb_false_r.
Qed.

Lemma entry_addr_eq v a :
  0 <= a < 0x100000 -> (forall n, 0 <= n < 20 -> Z.testbit v (n + 12) = Z.testbit a n) ->
  entry_addr v = a.
Proof.
  intros Ha H. apply Z.bits_inj'. intros n Hn. rewrite get_addr_bits by done.
  case_zb; cbn [andb]; [by apply H|].
  rewrite <- (Z.mod_small a (2 ^ 20)) by lia. by rewrite Z.mod_pow2_bits_high by lia.
Qed.

Section entries.
Context (junk : Z) (e : entry_fields).
Let v := u32 (make_entry junk e).

Lemma make_entry_present : entry_present v = Z.odd (present e).
Proof. unfold v, entry_present. rewrite <- Z.bit0_odd. entry_bits. done. Qed.

Lemma make_entry_user : entry_user v = Z.odd (user_accessible e).
Proof. unfold v, entry_user. rewrite <- Z.bit0_odd. entry_bits. done. Qed.

Lemma make_entry_large : entry_large v = Z.odd (page_size e).
Proof. unfold v, entry_large. rewrite <- Z.bit0_odd. entry_bits. done. Qed.

Lemma make_entry_addr :
  0 <= physical_addr_31_to_12 e < 0x100000 -> entry_addr v = physical_addr_31_to_12 e.
Proof.
  intros Ha. apply entry_addr_eq; [done|]. intros n Hn. unfold v. entry_bits.
  f_equal. lia.
Qed.
End entries.

Lemma blank_entry_present junk a : entry_present (u32 (blank_entry junk a)) = false.
Proof. unfold entry_present, blank_entry. entry_bits. done. Qed.

Create Rewrite HintDb kentry.
#[export] Hint Rewrite make_entry_present make_entry_user make_entry_large blank_entry_present : kentry.

(** * Tables *)

Lemma fill_table_outside n m table i0 f :
  same_outside m (fill_table n m table i0 f) (table + 4 * i0) (table + 4 * (i0 + Z.of_nat n)).
Proof.
  revert m i0. induction n as [|n IH]; intros m i0; [by intros x _|].
  intros x Hx. cbn [fill_table]. rewrite IH by lia. apply load8_store32_ne. lia.
Qed.

Lemma fill_table_lookup n m table i0 f k :
  i0 <= k < i0 + Z.of_nat n ->
  load32 (fill_table n m table i0 f) (table + 4 * k) = u32 (f k).
Proof.
  revert m i0. induction n as [|n IH]; intros m i0 Hk; [lia|]. cbn [fill_table].
  destruct (Z.eq_dec k i0) as [->|Hne].
  - erewrite same_outside_load32; [|apply fill_table_outside|lia]. apply load32_store32_eq.
  - apply IH. lia.
Qed.

Lemma fill_table_load32 n m table i0 f a :
  a + 4 <= table + 4 * i0 \/ table + 4 * (i0 + Z.of_nat n) <= a ->
  load32 (fill_table n m table i0 f) a = load32 m a.
Proof. intros. eapply same_outside_load32; [apply fill_table_outside|lia]. Qed.

(** Skip stores and table fills that do not concern the word at hand. *)
Ltac table_skip :=
  repeat first
    [ rewrite load32_store32_ne by lia
    | rewrite fill_table_load32 by (rewrite ?Z2Nat.id by lia; lia) ].

Section layout_of_tables.
Context `{L : Layout} (junk : Z -> Z) (m : mem) (pd pt vmem_addr : Z).
(** The three tables are distinct objects. *)
Hypotheses (Hpp : pd + 4096 <= pt \/ pt + 4096 <= pd)
           (Hpv : pd + 4096 <= vmem_pt \/ vmem_pt + 4096 <= pd)
           (Htv : pt + 4096 <= vmem_pt \/ vmem_pt + 4096 <= pt).

Let m' := initialize_paging_structs junk m pd pt vmem_addr.

Lemma init_pd_lookup k :
  0 <= k < 1024 ->
  load32 m' (pd + 4 * k) = u32
    (if k =? 0 then make_entry (junk pd) vmem_pd_entry
     else if k =? 1 then make_entry (junk (pd + 4 * 1)) kernel_page_fields
     else if (2 <=? k) && (k <? 8) then
       make_entry (junk (pd + 4 * k)) (program_page_fields (k - 2))
     else if k =? 31 then make_entry (junk (pd + 4 * 31)) struct_page_fields
     else if k =? 33 then make_entry (junk (pd + 4 * 33)) (user_vmem_pd_fields pt)
     else blank_entry junk (pd + 4 * k)).
Proof.
  intros Hk. unfold m', initialize_paging_structs.
  unfold NUM_PD_ENTRIES, NUM_PT_ENTRIES, MAX_PROCESSES. cbv zeta.
  repeat (case_zb; cbn [andb]); subst; try lia; rewrite ?Z.mul_0_r, ?Z.add_0_r; table_skip;
    rewrite ?load32_store32_eq; try done; table_skip;
    try (rewrite fill_table_lookup by lia; done).
Qed.

Lemma init_pt_lookup k :
  0 <= k < 1024 ->
  load32 m' (pt + 4 * k) = u32
    (if k =? 0 then make_entry (junk pt) (user_vmem_pt_fields vmem_addr)
     else blank_entry junk (pt + 4 * k)).
Proof.
  intros Hk. unfold m', initialize_paging_structs, NUM_PT_ENTRIES. cbv zeta.
  case_zb.
  - subst. rewrite Z.mul_0_r, Z.add_0_r, fill_table_load32 by lia. apply load32_store32_eq.
  - by rewrite fill_table_lookup by lia.
Qed.

Lemma init_vmem_pt_lookup k :
  0 <= k < 1024 -> load32 m' (vmem_pt + 4 * k) = u32 (vmem_pt_entry junk k).
Proof.
  intros Hk. unfold m', initialize_paging_structs, NUM_PD_ENTRIES, NUM_PT_ENTRIES, MAX_PROCESSES.
  cbv zeta. table_skip. by rewrite fill_table_lookup by lia.
Qed.

Lemma init_outside a :
  (a + 4 <= pd \/ pd + 4096 <= a) -> (a + 4 <= pt \/ pt + 4096 <= a) ->
  (a + 4 <= vmem_pt \/ vmem_pt + 4096 <= a) -> load32 m' a = load32 m a.
Proof.
  intros Ha Hb Hc. unfold m', initialize_paging_structs, NUM_PD_ENTRIES, NUM_PT_ENTRIES, MAX_PROCESSES.
  cbv zeta. table_skip. done.
Qed.

Lemma init_outside_bytes x :
  (x < pd \/ pd + 4096 <= x) -> (x < pt \/ pt + 4096 <= x) ->
  (x < vmem_pt \/ vmem_pt + 4096 <= x) -> load8 m' x = load8 m x.
Proof.
  intros Ha Hb Hc. unfold m', initialize_paging_structs, NUM_PD_ENTRIES, NUM_PT_ENTRIES, MAX_PROCESSES.
  cbv zeta.
  repeat first [rewrite load8_store32_ne by lia
               |rewrite fill_table_outside by (rewrite ?Z2Nat.id by lia; lia)].
  done.
Qed.
End layout_of_tables.

(** * Address spaces *)

(** What an entry says: page size, frame number and user access. *)
Definition describes (v : Z) (o : option (bool * Z * bool)) : Prop :=
  match o with
  | None => entry_present v = false
  | Some (large, addr, user) =>
      entry_present v = true /\ entry_large v = large /\ entry_addr v = addr /\ entry_user v = user
  end.

Lemma describes_blank junk a : describes (u32 (blank_entry junk a)) None.
Proof. apply blank_entry_present. Qed.

Lemma describes_entry junk e :
  0 <= physical_addr_31_to_12 e < 0x100000 -> Z.odd (present e) = true ->
  describes (u32 (make_entry junk e))
    (Some (Z.odd (page_size e), physical_addr_31_to_12 e, Z.odd (user_accessible e))).
Proof.
  intros Ha Hp. unfold describes.
  rewrite make_entry_present, make_entry_large, make_entry_user, make_entry_addr; done.
Qed.

(** A virtual address is a directory index, a table index and an offset. *)
Lemma split_vaddr v :
  0 <= v < 0x100000000 ->
  exists k j r, v = 0x400000 * k + 0x1000 * j + r /\
    (0x400000 * k + 0x1000 * j + r) / 0x400000 = k /\
    (0x400000 * k + 0x1000 * j + r) / 0x1000 mod 1024 = j /\
    (0x400000 * k + 0x1000 * j + r) mod 0x1000 = r /\
    (0x400000 * k + 0x1000 * j + r) mod 0x400000 = 0x1000 * j + r /\
    0 <= k < 1024 /\ 0 <= j < 1024 /\ 0 <= r < 0x1000.
Proof.
  intros Hv. exists (v / 0x400000), (v / 0x1000 mod 1024), (v mod 0x1000).
  assert (E : v = 0x400000 * (v / 0x400000) + 0x1000 * (v / 0x1000 mod 1024) + v mod 0x1000)
    by divlia.
  rewrite <- E. do 4 (split; [done|]). repeat split; divlia.
Qed.

Lemma process_pt_aligned slot : 0x1000 * (get_process_pt slot / 4096) = get_process_pt slot.
Proof.
  unfold get_process_pt, PAGING_STRUCT_ADDR, PROCESS_STRUCT_SIZE, FOUR_KB_ALIGNED,
    FOUR_MB_ALIGNED. divlia.
Qed.

(** Decide comparisons, dropping the impossible branches at once. *)
Ltac decide_zb := repeat (case_zb; cbn [andb orb]; try (exfalso; lia)).

(** The abstract state of the paging unit: the program page and the video
    page of every slot that was set up. *)
Abbreviation spaces := (gmap Z (Z * Z)).

Section spaces.
Context `{L : Layout}.

Definition expected_pd (pt process_addr k : Z) : option (bool * Z * bool) :=
  if k =? 0 then Some (false, vmem_pt / 4096, false)
  else if (1 <=? k) && (k <? 8) then Some (true, 1024 * k, false)
  else if k =? 31 then Some (true, 1024 * 31, false)
  else if k =? 32 then Some (true, process_addr / 4096, true)
  else if k =? 33 then Some (false, pt / 4096, true)
  else None.

Definition expected_pt (vmem_addr k : Z) : option (bool * Z * bool) :=
  if k =? 0 then Some (false, vmem_addr / 4096, true) else None.

Definition expected_vmem_pt (k : Z) : option (bool * Z * bool) :=
  if k =? 0xB8 then Some (false, 0xB8, false) else None.

(** The tables of a slot are those of a process whose program page is at
    [process_addr] and whose video page is [vmem_addr]. *)
Record space_ok (m : mem) (slot process_addr vmem_addr : Z) : Prop := {
  space_pd : forall k, 0 <= k < 1024 ->
    describes (load32 m (get_process_pd slot + 4 * k))
      (expected_pd (get_process_pt slot) process_addr k);
  space_pt : forall k, 0 <= k < 1024 ->
    describes (load32 m (get_process_pt slot + 4 * k)) (expected_pt vmem_addr k);
  space_vmem_pt : forall k, 0 <= k < 1024 ->
    describes (load32 m (vmem_pt + 4 * k)) (expected_vmem_pt k)
}.

(** The addresses the kernel sees at their own place. *)
Definition kernel_mapped (v : Z) : bool :=
  (0xB8000 <=? v) && (v <? 0xB9000) || (0x400000 <=? v) && (v <? 0x2000000)
  || (0x7C00000 <=? v) && (v <? 0x8000000).

(** The address space of a process. *)
Definition address_space (process_addr vmem_addr v : Z) : option (Z * bool) :=
  if (0x8000000 <=? v) && (v <? 0x8400000) then Some (process_addr + (v - 0x8000000), true)
  else if (0x8400000 <=? v) && (v <? 0x8401000) then Some (vmem_addr + (v - 0x8400000), true)
  else if kernel_mapped v then Some (v, false)
  else None.

Lemma translate_large m cr3 v a u :
  describes (load32 m (cr3 + 4 * (v / 0x400000))) (Some (true, a, u)) ->
  translate m cr3 v = Some (0x400000 * (a / 1024) + v mod 0x400000, u).
Proof. intros (P & Q & R & S). unfold translate. by rewrite P, Q, R, S. Qed.

Lemma translate_small m cr3 v a u o :
  describes (load32 m (cr3 + 4 * (v / 0x400000))) (Some (false, a, u)) ->
  describes (load32 m (0x1000 * a + 4 * (v / 0x1000 mod 1024))) o ->
  translate m cr3 v
  = match o with
    | None => None
    | Some (_, b, u') => Some (0x1000 * b + v mod 0x1000, u && u')
    end.
Proof.
  intros (P & Q & R & S) H. unfold translate. rewrite P, Q, R, S. cbn [negb].
  destruct o as [[[l b] u']|]; simpl in H.
  - destruct H as (P' & Q' & R' & S'). by rewrite P', R', S'.
  - by rewrite H.
Qed.

Context `{LOk : !LayoutOk L}.

Lemma translate_space m slot process_addr vmem_addr v :
  space_ok m slot process_addr vmem_addr ->
  0 <= slot < 6 -> process_addr mod 0x400000 = 0 -> vmem_addr mod 0x1000 = 0 ->
  0 <= v < 0x100000000 ->
  translate m (get_process_pd slot) v = address_space process_addr vmem_addr v.
Proof.
  intros [Hpd Hpt Hvp] Hs Hpa Hva Hv. unfold address_space, kernel_mapped.
  destruct lay_vmem_pt as [_ Hvm].
  destruct (split_vaddr v Hv) as (k & j & r & -> & Ek & Ej & Er & Eo & Hk & Hj & Hr).
  specialize (Hpd k Hk). unfold expected_pd in Hpd.
  assert (Hprocess : 0x400000 * (process_addr / 4096 / 1024) = process_addr) by divlia.
  assert (Hvideo : 0x1000 * (vmem_addr / 4096) = vmem_addr) by divlia.
  destruct (Z.eqb_spec k 0) as [E0|E0].
  { rewrite E0 in *. rewrite (translate_small _ _ _ (vmem_pt / 4096) false (expected_vmem_pt j)).
    2:{ rewrite Ek. exact Hpd. }
    2:{ rewrite Ej. replace (0x1000 * (vmem_pt / 4096)) with vmem_pt by divlia. by apply Hvp. }
    rewrite Er. unfold expected_vmem_pt. decide_zb; done || (do 2 f_equal; lia). }
  destruct (Z.leb_spec 1 k); [|lia].
  destruct (Z.ltb_spec k 8); cbn [andb] in Hpd.
  { rewrite (translate_large _ _ _ (1024 * k) false) by (rewrite Ek; exact Hpd).
    rewrite Eo. replace (1024 * k / 1024) with k by divlia.
    decide_zb; do 2 f_equal; lia. }
  destruct (Z.eqb_spec k 31) as [E31|E31].
  { rewrite E31 in *. rewrite (translate_large _ _ _ (1024 * 31) false) by (rewrite Ek; exact Hpd).
    rewrite Eo. change (1024 * 31 / 1024) with 31. decide_zb; do 2 f_equal; lia. }
  destruct (Z.eqb_spec k 32) as [E32|E32].
  { rewrite E32 in *. rewrite (translate_large _ _ _ (process_addr / 4096) true) by (rewrite Ek; exact Hpd).
    rewrite Eo, Hprocess. decide_zb; do 2 f_equal; lia. }
  destruct (Z.eqb_spec k 33) as [E33|E33].
  { rewrite E33 in *. rewrite (translate_small _ _ _ (get_process_pt slot / 4096) true (expected_pt vmem_addr j)).
    2:{ rewrite Ek. exact Hpd. }
    2:{ rewrite Ej, process_pt_aligned. by apply Hpt. }
    rewrite Er. unfold expected_pt. decide_zb; [|done]. rewrite Hvideo. do 2 f_equal; lia. }
  unfold translate. rewrite Ek, Hpd. simpl negb. cbv iota. decide_zb; done.
Qed.

(** ** Setting up a slot *)

Lemma slot_tables slot :
  0 <= slot < 6 ->
  get_process_pt slot = get_process_pd slot + 4096 /\
  0x7C00000 <= get_process_pd slot /\ get_process_pd slot + 0x4000 <= 0x8000000 /\
  (get_process_pd slot + 4096 <= vmem_pt \/ vmem_pt + 4096 <= get_process_pd slot) /\
  (get_process_pt slot + 4096 <= vmem_pt \/ vmem_pt + 4096 <= get_process_pt slot).
Proof.
  intros Hs. destruct lay_vmem_pt as [[H1 H2] _]. unfold KERNEL_PAGE_START, KERNEL_IMAGE_END in *.
  unfold get_process_pt, get_process_pd, PAGING_STRUCT_ADDR, PROCESS_STRUCT_SIZE, FOUR_KB_ALIGNED,
    FOUR_MB_ALIGNED. lia.
Qed.

Lemma slots_apart i j :
  i <> j -> get_process_pd i + 0x4000 <= get_process_pd j \/
            get_process_pd j + 0x4000 <= get_process_pd i.
Proof.
  intros. unfold get_process_pd, PAGING_STRUCT_ADDR, PROCESS_STRUCT_SIZE, FOUR_KB_ALIGNED,
    FOUR_MB_ALIGNED. lia.
Qed.

Lemma shiftr_frame a : Z.shiftr a ADDRESS_SHIFT = a / 4096.
Proof. exact (Z.shiftr_div_pow2 a 12 ltac:(lia)). Qed.

Lemma align_4mb a : Z.land a (Z.lnot (FOUR_MB_ALIGNED - 1)) = 0x400000 * (a / 0x400000).
Proof.
  change (FOUR_MB_ALIGNED - 1) with (Z.ones 22). rewrite <- Z.ldiff_land, Z.ldiff_ones_r by lia.
  rewrite Z.shiftl_mul_pow2, Z.shiftr_div_pow2 by lia.
  change (2 ^ 22) with 0x400000. lia.
Qed.

Lemma describes_frame m m' a o :
  load32 m' a = load32 m a -> describes (load32 m a) o -> describes (load32 m' a) o.
Proof. by intros ->. Qed.

Lemma vmem_pt_describes junk k : 0 <= k < 1024 -> describes (u32 (vmem_pt_entry junk k)) (expected_vmem_pt k).
Proof.
  intros Hk. unfold vmem_pt_entry, expected_vmem_pt, FOUR_KB_ALIGNED, VIDEO_PHYSICAL_ADDR.
  destruct (Z.eqb_spec k 0xB8) as [->|Hne].
  - apply (describes_entry (junk (vmem_pt + 4 * 0xB8)) (vmem_pt_fields (4096 * 0xB8))); [|done].
    vm_compute. split; congruence.
  - case_zb; [lia|]. apply describes_blank.
Qed.

Context (junk : Z -> Z).

Lemma expected_pd_entries pt k :
  0 <= k < 1024 -> k <> 32 -> 0 <= pt < 0x100000000 -> forall process_addr pd,
  describes
    (u32 (if k =? 0 then make_entry (junk pd) vmem_pd_entry
     else if k =? 1 then make_entry (junk (pd + 4 * 1)) kernel_page_fields
     else if (2 <=? k) && (k <? 8) then
       make_entry (junk (pd + 4 * k)) (program_page_fields (k - 2))
     else if k =? 31 then make_entry (junk (pd + 4 * 31)) struct_page_fields
     else if k =? 33 then make_entry (junk (pd + 4 * 33)) (user_vmem_pd_fields pt)
     else blank_entry junk (pd + 4 * k)))
    (expected_pd pt process_addr k).
Proof.
  intros Hk H32 Hpt process_addr pd.
  destruct lay_vmem_pt as [[Hv1 Hv2] Hv3]. unfold KERNEL_PAGE_START, KERNEL_IMAGE_END in *.
  unfold expected_pd. decide_zb; subst;
    match goal with
    | |- describes (u32 (blank_entry _ _)) _ => apply describes_blank
    | |- describes (u32 (make_entry _ vmem_pd_entry)) _ =>
        rewrite <- shiftr_frame; apply (describes_entry _ vmem_pd_entry); [|done];
        simpl; rewrite shiftr_frame; divlia
    | |- describes (u32 (make_entry _ (user_vmem_pd_fields _))) _ =>
        rewrite <- shiftr_frame; apply (describes_entry _ (user_vmem_pd_fields pt)); [|done];
        simpl; rewrite shiftr_frame; divlia
    | |- describes (u32 (make_entry _ struct_page_fields)) _ =>
        apply (describes_entry _ struct_page_fields); [|done]; vm_compute; split; congruence
    | |- describes (u32 (make_entry _ kernel_page_fields)) _ =>
        apply (describes_entry _ kernel_page_fields); simpl; done || lia
    | |- describes (u32 (make_entry _ (program_page_fields _))) _ =>
        replace (1024 * k) with (2048 + 1024 * (k - 2)) by lia;
        apply (describes_entry _ (program_page_fields (k - 2))); [|done]; simpl; lia
    end.
Qed.

Lemma process_page_entry_describes a process_addr pt :
  0 <= process_addr < 0x100000000 -> process_addr mod 0x400000 = 0 ->
  describes (u32 (make_entry (junk a) (process_page_fields process_addr)))
    (expected_pd pt process_addr 32).
Proof.
  intros Hpa Hal. unfold expected_pd. simpl.
  replace (process_addr / 4096)
    with (physical_addr_31_to_12 (process_page_fields process_addr)).
  2:{ simpl. rewrite shiftr_frame, align_4mb. divlia. }
  apply describes_entry; [|done]. simpl. rewrite shiftr_frame, align_4mb. divlia.
Qed.

(** Assigning the access and frame fields of an entry afterwards. *)
Lemma describes_set_user v l a u :
  describes v (Some (l, a, u)) -> describes (u32 (set_user_accessible v 1)) (Some (l, a, true)).
Proof.
  intros (P & Q & R & S). split; [|split; [|split]].
  - unfold entry_present. entry_bits. exact P.
  - unfold entry_large. entry_bits. exact Q.
  - rewrite <- R. apply Z.bits_inj'. intros n Hn. rewrite !get_addr_bits by done.
    case_zb; [|done]. entry_bits. done.
  - unfold entry_user. entry_bits. done.
Qed.

Lemma describes_set_frame v l a b u :
  0 <= b < 0x100000 -> describes v (Some (l, a, u)) ->
  describes (u32 (set_present (u32 (set_physical_addr v b)) 1)) (Some (l, b, u)).
Proof.
  intros Hb (P & Q & R & S). split; [|split; [|split]].
  - unfold entry_present. entry_bits. done.
  - unfold entry_large. entry_bits. exact Q.
  - apply entry_addr_eq; [done|]. intros n Hn. entry_bits. f_equal. lia.
  - unfold entry_user. entry_bits. exact S.
Qed.

Lemma user_vmem_entry_describes a vmem_addr :
  0 <= vmem_addr < 0x100000000 ->
  describes (u32 (make_entry (junk a) (user_vmem_pt_fields vmem_addr))) (expected_pt vmem_addr 0).
Proof.
  intros Hva. unfold expected_pt. simpl. rewrite <- shiftr_frame.
  apply (describes_entry (junk a) (user_vmem_pt_fields vmem_addr)); [|done].
  simpl. rewrite shiftr_frame. divlia.
Qed.

#[local] Opaque initialize_paging_structs make_entry set_bits Z.modulo.

Lemma setup_space m slot process_addr vmem_addr :
  0 <= slot < 6 -> 0 <= process_addr < 0x100000000 -> process_addr mod 0x400000 = 0 ->
  0 <= vmem_addr < 0x100000000 ->
  space_ok (setup_process_paging junk m process_addr slot vmem_addr).1 slot process_addr vmem_addr.
Proof.
  intros Hs Hpa Hal Hva.
  destruct (slot_tables slot Hs) as (Ept & Hlo & Hhi & Hpv & Htv).
  pose proof (init_pd_lookup junk m (get_process_pd slot) (get_process_pt slot) vmem_addr
                ltac:(lia) Hpv Htv) as PD.
  pose proof (init_pt_lookup junk m (get_process_pd slot) (get_process_pt slot) vmem_addr
                ltac:(lia) Hpv Htv) as PT.
  pose proof (init_vmem_pt_lookup junk m (get_process_pd slot) (get_process_pt slot) vmem_addr
                ltac:(lia) Hpv Htv) as VP.
  unfold setup_process_paging. cbv zeta. cbn [fst].
  revert PD PT VP. generalize (initialize_paging_structs junk m (get_process_pd slot)
    (get_process_pt slot) vmem_addr). intros m1 PD PT VP.
  destruct lay_vmem_pt as [[Hv1 Hv2] Hv3]. unfold KERNEL_PAGE_START, KERNEL_IMAGE_END in *.
  split; intros k Hk.
  - rewrite load32_store32_ne by lia. destruct (Z.eq_dec k 32) as [->|H32].
    + rewrite load32_store32_eq. by apply process_page_entry_describes.
    + rewrite load32_store32_ne, PD by lia. apply expected_pd_entries; lia.
  - destruct (Z.eq_dec k 0) as [->|H0].
    + specialize (PT 0 Hk). rewrite Z.mul_0_r, Z.add_0_r in *. 
      rewrite load32_store32_eq, load32_store32_ne, PT by lia.
      apply (describes_set_user _ _ _ true), user_vmem_entry_describes. done.
    + rewrite !load32_store32_ne, PT by lia. unfold expected_pt. decide_zb. apply describes_blank.
  - rewrite !load32_store32_ne, VP by lia. by apply vmem_pt_describes.
Qed.

Lemma setup_other m i j process_addr vmem_addr pa va :
  0 <= i < 6 -> 0 <= j < 6 -> i <> j ->
  space_ok m i pa va ->
  space_ok (setup_process_paging junk m process_addr j vmem_addr).1 i pa va.
Proof.
  intros Hi Hj Hij [Hpd Hpt Hvp].
  destruct (slot_tables i Hi) as (Ei & Hlo & Hhi & _ & _).
  destruct (slot_tables j Hj) as (Ej & Hlo' & Hhi' & Hpv & Htv).
  pose proof (init_outside junk m (get_process_pd j) (get_process_pt j) vmem_addr) as OUT.
  pose proof (init_vmem_pt_lookup junk m (get_process_pd j) (get_process_pt j) vmem_addr
                ltac:(lia) Hpv Htv) as VP.
  unfold setup_process_paging. cbv zeta. cbn [fst].
  revert OUT VP. generalize (initialize_paging_structs junk m (get_process_pd j)
    (get_process_pt j) vmem_addr). intros m1 OUT VP.
  pose proof (slots_apart i j Hij) as Hap.
  destruct lay_vmem_pt as [[Hv1 Hv2] Hv3]. unfold KERNEL_PAGE_START, KERNEL_IMAGE_END in *.
  split; intros k Hk.
  - rewrite !load32_store32_ne, OUT by lia. by apply Hpd.
  - rewrite !load32_store32_ne, OUT by lia. by apply Hpt.
  - rewrite !load32_store32_ne, VP by lia. by apply vmem_pt_describes.
Qed.

Lemma set_vmem_space m slot pa va vmem_addr :
  0 <= slot < 6 -> 0 <= vmem_addr < 0x100000000 ->
  space_ok m slot pa va -> space_ok (set_process_vmem_page m slot vmem_addr) slot pa vmem_addr.
Proof.
  intros Hs Hva [Hpd Hpt Hvp]. unfold set_process_vmem_page. cbv zeta.
  destruct (slot_tables slot Hs) as (Ei & Hlo & Hhi & Hpv & Htv).
  assert (Hf : 0 <= Z.shiftr vmem_addr ADDRESS_SHIFT < 0x100000) by (rewrite shiftr_frame; divlia).
  split; intros k Hk.
  - rewrite !load32_store32_ne by lia. by apply Hpd.
  - specialize (Hpt k Hk). unfold expected_pt in *. destruct (Z.eqb_spec k 0) as [E0|H0].
    + rewrite E0 in *. rewrite Z.mul_0_r, Z.add_0_r in *. rewrite !load32_store32_eq.
      rewrite <- shiftr_frame. exact (describes_set_frame _ _ _ _ _ Hf Hpt).
    + by rewrite !load32_store32_ne by lia.
  - rewrite !load32_store32_ne by lia. by apply Hvp.
Qed.

Lemma set_vmem_other m i j pa va vmem_addr :
  0 <= i < 6 -> 0 <= j < 6 -> i <> j ->
  space_ok m i pa va -> space_ok (set_process_vmem_page m j vmem_addr) i pa va.
Proof.
  intros Hi Hj Hij [Hpd Hpt Hvp]. unfold set_process_vmem_page. cbv zeta.
  destruct (slot_tables i Hi) as (Ei & Hlo & Hhi & Hpv & Htv).
  destruct (slot_tables j Hj) as (Ej & Hlo' & Hhi' & Hpv' & Htv').
  pose proof (slots_apart i j Hij) as Hap.
  split; intros k Hk; rewrite !load32_store32_ne by lia;
    [by apply Hpd|by apply Hpt|by apply Hvp].
Qed.

(** The tables of a slot are in its paging structures and [vmem_pt]. *)
Lemma space_ok_ext m m' slot pa va :
  (forall x, get_process_pd slot <= x < get_process_pd slot + 0x2000 \/ vmem_pt <= x < vmem_pt + 4096 ->
     load8 m' x = load8 m x) ->
  space_ok m slot pa va -> space_ok m' slot pa va.
Proof.
  intros H [Hpd Hpt Hvp].
  assert (Ept : get_process_pt slot = get_process_pd slot + 0x1000) by (unfold get_process_pt, get_process_pd, FOUR_KB_ALIGNED; lia).
  assert (E : forall a, get_process_pd slot <= a <= get_process_pd slot + 0x2000 - 4 \/
                        vmem_pt <= a <= vmem_pt + 4092 -> load32 m' a = load32 m a).
  { intros a Ha. apply load_le_ext. intros x Hx. simpl in Hx. apply H. lia. }
  split; intros k Hk; rewrite E by lia; [by apply Hpd|by apply Hpt|by apply Hvp].
Qed.

Lemma setup_pair m process_addr slot vmem_addr :
  setup_process_paging junk m process_addr slot vmem_addr
  = ((setup_process_paging junk m process_addr slot vmem_addr).1, get_process_pd slot).
Proof. unfold setup_process_paging. cbv zeta. cbn [fst]. reflexivity. Qed.

(** Memory the operations do not touch. *)
Lemma setup_outside m slot process_addr vmem_addr x :
  0 <= slot < 6 ->
  x < get_process_pd slot \/ get_process_pd slot + 0x2000 <= x ->
  x < vmem_pt \/ vmem_pt + 4096 <= x ->
  load8 (setup_process_paging junk m process_addr slot vmem_addr).1 x = load8 m x.
Proof.
  intros Hs Hx Hv. destruct (slot_tables slot Hs) as (Ept & _ & _ & _ & _).
  pose proof (init_outside_bytes junk m (get_process_pd slot) (get_process_pt slot) vmem_addr x) as B.
  unfold setup_process_paging. cbv zeta. cbn [fst].
  rewrite !load8_store32_ne by lia. apply B; lia.
Qed.

Lemma set_vmem_outside m slot vmem_addr x :
  0 <= slot < 6 ->
  x < get_process_pd slot \/ get_process_pd slot + 0x2000 <= x ->
  load8 (set_process_vmem_page m slot vmem_addr) x = load8 m x.
Proof.
  intros Hs Hx. destruct (slot_tables slot Hs) as (Ept & _ & _ & _ & _).
  unfold set_process_vmem_page. cbv zeta. rewrite !load8_store32_ne by lia. done.
Qed.

(** ** Histories of paging operations *)

Inductive paging_op :=
  | SetupProcess (slot process_addr vmem_addr : Z)
  | SetVmemPage (slot vmem_addr : Z).

Definition run_op (m : mem) (o : paging_op) : mem :=
  match o with
  | SetupProcess slot pa va => (setup_process_paging junk m pa slot va).1
  | SetVmemPage slot va => set_process_vmem_page m slot va
  end.

Definition spec_op (s : spaces) (o : paging_op) : spaces :=
  match o with
  | SetupProcess slot pa va => <[slot := (pa, va)]> s
  | SetVmemPage slot va => alter (fun p => (p.1, va)) slot s
  end.

Definition frame_ok (size a : Z) : Prop := 0 <= a < 0x100000000 /\ a mod size = 0.

Definition op_ok (o : paging_op) : Prop :=
  match o with
  | SetupProcess slot pa va => 0 <= slot < 6 /\ frame_ok 0x400000 pa /\ frame_ok 0x1000 va
  | SetVmemPage slot va => 0 <= slot < 6 /\ frame_ok 0x1000 va
  end.

Definition spaces_ok (m : mem) (s : spaces) : Prop :=
  forall slot pa va, s !! slot = Some (pa, va) ->
    0 <= slot < 6 /\ frame_ok 0x400000 pa /\ frame_ok 0x1000 va /\ space_ok m slot pa va.

Lemma run_op_spaces m s o : op_ok o -> spaces_ok m s -> spaces_ok (run_op m o) (spec_op s o).
Proof.
  intros Ho Hs slot pa va. destruct o as [j p v|j v]; simpl in Ho |- *.
  - destruct Ho as (Hj & Hp & Hv). destruct (decide (j = slot)) as [<-|Hne].
    + rewrite lookup_insert_eq. intros [= <- <-].
      refine (conj Hj (conj Hp (conj Hv _))). destruct Hp, Hv. by apply setup_space.
    + rewrite lookup_insert_ne by done. intros (Hi & Hpa & Hva & Hok)%Hs.
      refine (conj Hi (conj Hpa (conj Hva _))). by apply setup_other.
  - destruct Ho as (Hj & Hv). destruct (decide (j = slot)) as [<-|Hne].
    + rewrite lookup_alter_eq. destruct (s !! j) as [[p v']|] eqn:E; [|done].
      intros [= <- <-]. destruct (Hs _ _ _ E) as (_ & Hp & _ & Hok).
      refine (conj Hj (conj Hp (conj Hv _))). destruct Hv. by eapply set_vmem_space.
    + rewrite lookup_alter_ne by done. intros (Hi & Hpa & Hva & Hok)%Hs.
      refine (conj Hi (conj Hpa (conj Hva _))). by apply set_vmem_other.
Qed.

Lemma spaces_ok_empty m : spaces_ok m ∅.
Proof. intros slot pa va. rewrite lookup_empty. discriminate. Qed.

Lemma run_spaces ops m s :
  Forall op_ok ops -> spaces_ok m s ->
  spaces_ok (foldl run_op m ops) (foldl spec_op s ops).
Proof.
  intros H. revert m s. induction H as [|o ops Ho _ IH]; intros m s Hs; [done|].
  simpl. by apply IH, run_op_spaces.
Qed.
End spaces.

(** C1: the page tables implement the address spaces.  Whatever memory
    held, after any sequence of [setup_process_paging] and
    [set_process_vmem_page] calls for valid slots and aligned frames, the
    processor, walking the directory of any slot that was set up, maps every
    32-bit virtual address as the abstract space says: the 4 MB at 128 MB to
    that slot's program page and the 4 KB at 132 MB to its current video page,
    both usable from user mode; the video page, the kernel and program pages
    and the paging structures to themselves, for the kernel only; and nothing
    else is mapped.  Operations on one slot do not disturb another, and the
    garbage left in unassigned bits of an entry plays no role. *)
Theorem paging_refines_spaces `{L : Layout} `{LOk : !LayoutOk L} (junk : Z -> Z) ops m
    (Hops : Forall op_ok ops) slot pa va
    (Hslot : foldl spec_op (empty : spaces) ops !! slot = Some (pa, va)) v
    (Hv : 0 <= v < 0x100000000) :
  translate (foldl (run_op junk) m ops) (get_process_pd slot) v = address_space pa va v /\
  (setup_process_paging junk m pa slot va).2 = get_process_pd slot.
Proof.
  split; [|done].
  pose proof (run_spaces junk ops m empty Hops (spaces_ok_empty m)) as H.
  destruct (H slot pa va Hslot) as (Hs & [_ Hpa] & [_ Hva] & Hok).
  by apply translate_space.
Qed.

(** Isolation on two slots, the second of which gets a new video page: a user
    address of slot 1. *)
Definition example_paging_ops : list paging_op :=
  [SetupProcess 0 0x800000 0xB8000; SetupProcess 1 0xC00000 0xB8000; SetVmemPage 1 0x500000].

Lemma paging_refines_spaces_witness :
  translate (foldl (run_op (L := example_layout) (fun _ => 0xFFFFFFFF)) empty example_paging_ops)
    (get_process_pd 1) 0x8400010 = Some (0x500010, true) /\
  translate (foldl (run_op (L := example_layout) (fun _ => 0xFFFFFFFF)) empty example_paging_ops)
    (get_process_pd 0) 0x8048000 = Some (0x848000, true).
Proof.
  assert (Hops : Forall op_ok example_paging_ops).
  { repeat (apply Forall_cons; split); [| | |apply Forall_nil];
      unfold op_ok, frame_ok; repeat split; try lia; reflexivity. }
  split.
  - apply (paging_refines_spaces (LOk := example_layout_ok) (fun _ => 0xFFFFFFFF)
             example_paging_ops empty Hops 1 0xC00000 0x500000 eq_refl 0x8400010). lia.
  - apply (paging_refines_spaces (LOk := example_layout_ok) (fun _ => 0xFFFFFFFF)
             example_paging_ops empty Hops 0 0x800000 0xB8000 eq_refl 0x8048000). lia.
Defined.
