(* ===== verification/CircularBuffer.v ===== *)
(** The circular buffer of [lib/circular_buffer.c] and its refinement of a
    bounded FIFO queue of bytes.

    The backing store of a buffer is the block [data_start, data_end) of
    memory, so a data transfer that overlaps it is visible in the model. *)

From S2P Require Import Prelude Memory.

(** * The code *)

Record circular_buffer_t := Circular_buffer_t {
  max_len : Z;
  current_len : Z;
  data_start : Z;
  data_end : Z;
  head : Z;
  tail : Z
}.

Definition circular_buffer_init (data_buf len : Z) : circular_buffer_t :=
  Circular_buffer_t len 0 data_buf (data_buf + len) data_buf data_buf.

Definition circular_buffer_clear (buf : circular_buffer_t) : circular_buffer_t :=
  Circular_buffer_t (max_len buf) 0 (data_start buf) (data_end buf)
    (data_start buf) (data_start buf).

(** [p++; if(p >= data_end) p = data_start;] *)
Definition advance (buf : circular_buffer_t) (p : Z) : Z :=
  if p + 1 >=? data_end buf then data_start buf else p + 1.

(** [p--; if(p < data_start) p = data_end - 1;] *)
Definition retreat (buf : circular_buffer_t) (p : Z) : Z :=
  if p - 1 <? data_start buf then data_end buf - 1 else p - 1.

(** The copy loops; the count is the capped [len] of their callers. *)
Fixpoint put_loop (buf : circular_buffer_t) (n : nat) (m : mem) (p inp : Z) : mem * Z :=
  match n with
  | O => (m, p)
  | S n' => put_loop buf n' (store8 m p (load8 m inp)) (advance buf p) (inp + 1)
  end.

Fixpoint get_loop (buf : circular_buffer_t) (n : nat) (m : mem) (p out : Z) : mem * Z :=
  match n with
  | O => (m, p)
  | S n' => get_loop buf n' (store8 m out (load8 m p)) (advance buf p) (out + 1)
  end.

Definition circular_buffer_put (buf : circular_buffer_t) (m : mem) (input_buf len : Z)
  : circular_buffer_t * mem * Z :=
  let len := if u32 (current_len buf + len) >? max_len buf
             then u32 (max_len buf - current_len buf) else len in
  let '(m', tail') := put_loop buf (Z.to_nat len) m (tail buf) input_buf in
  (Circular_buffer_t (max_len buf) (u32 (current_len buf + len)) (data_start buf)
     (data_end buf) (head buf) tail', m', len).

Definition circular_buffer_get (buf : circular_buffer_t) (m : mem) (output_buf len : Z)
  : circular_buffer_t * mem * Z :=
  let len := if len >? current_len buf then current_len buf else len in
  let '(m', head') := get_loop buf (Z.to_nat len) m (head buf) output_buf in
  (Circular_buffer_t (max_len buf) (u32 (current_len buf - len)) (data_start buf)
     (data_end buf) head' (tail buf), m', len).

Definition circular_buffer_peek (buf : circular_buffer_t) (m : mem) (output_buf len : Z)
  : mem * Z :=
  let len := if len >? current_len buf then current_len buf else len in
  let '(m', _) := get_loop buf (Z.to_nat len) m (head buf) output_buf in
  (m', len).

Definition circular_buffer_put_byte (buf : circular_buffer_t) (m : mem) (b : Z)
  : circular_buffer_t * mem * Z :=
  if current_len buf >=? max_len buf then (buf, m, 0)
  else
    (Circular_buffer_t (max_len buf) (u32 (current_len buf + 1)) (data_start buf)
       (data_end buf) (head buf) (advance buf (tail buf)),
     store8 m (tail buf) b, 1).

Definition circular_buffer_get_byte (buf : circular_buffer_t) (m : mem) (b : Z)
  : circular_buffer_t * mem * Z :=
  if current_len buf =? 0 then (buf, m, 0)
  else
    (Circular_buffer_t (max_len buf) (u32 (current_len buf - 1)) (data_start buf)
       (data_end buf) (advance buf (head buf)) (tail buf),
     store8 m b (load8 m (head buf)), 1).

(** The byte is returned as [Some b]; [None] is the return value 0, which
    leaves the caller's variable as it was. *)
Definition circular_buffer_peek_end_byte (buf : circular_buffer_t) (m : mem) : option Z :=
  if current_len buf =? 0 then None
  else Some (load8 m (retreat buf (tail buf))).

Definition circular_buffer_remove_end_byte (buf : circular_buffer_t)
  : circular_buffer_t * Z :=
  if current_len buf =? 0 then (buf, 0)
  else
    (Circular_buffer_t (max_len buf) (u32 (current_len buf - 1)) (data_start buf)
       (data_end buf) (head buf) (retreat buf (tail buf)), 1).

Fixpoint find_loop (buf : circular_buffer_t) (n : nat) (m : mem) (addr len val : Z) : Z :=
  match n with
  | O => -1
  | S n' =>
      if load8 m addr =? val then len
      else find_loop buf n' m (advance buf addr) (len + 1) val
  end.

Definition circular_buffer_find (buf : circular_buffer_t) (m : mem) (val : Z) : Z :=
  find_loop buf (Z.to_nat (current_len buf)) m (head buf) 0 val.

Definition circular_buffer_len (buf : circular_buffer_t) : Z := current_len buf.

(** * Invariant and abstraction *)

(** Address of the [k]-th cell, counting around the block. *)
Definition slot (buf : circular_buffer_t) (k : Z) : Z :=
  data_start buf + k mod max_len buf.

Definition head_off (buf : circular_buffer_t) : Z := head buf - data_start buf.

Record ring_ok (buf : circular_buffer_t) : Prop := {
  ok_max : 0 < max_len buf < 0x80000000;
  ok_end : data_end buf = data_start buf + max_len buf;
  ok_len : 0 <= current_len buf <= max_len buf;
  ok_head : data_start buf <= head buf < data_end buf;
  ok_tail : tail buf = slot buf (head_off buf + current_len buf)
}.

(** The queue a buffer stands for, oldest byte first. *)
Definition contents (buf : circular_buffer_t) (m : mem) : list Z :=
  (fun i => load8 m (slot buf (head_off buf + Z.of_nat i)))
    <$> seq 0 (Z.to_nat (current_len buf)).

(** [ring buf m base cap q]: a well-formed buffer whose backing store is
    [base, base+cap) and which holds the queue [q].  Clients reason with this
    predicate only. *)
Definition ring (buf : circular_buffer_t) (m : mem) (base cap : Z) (q : list Z) : Prop :=
  ring_ok buf /\ data_start buf = base /\ max_len buf = cap /\ contents buf m = q.

(** A block [a, a+n) that does not meet the backing store. *)
Definition apart (buf : circular_buffer_t) (a n : Z) : Prop :=
  a + n <= data_start buf \/ data_end buf <= a.

(** * Cells *)

Section cells.
Context (buf : circular_buffer_t) (Hok : ring_ok buf).

Lemma slot_range k : data_start buf <= slot buf k < data_end buf.
Proof.
  destruct Hok. unfold slot. rewrite ok_end0.
  pose proof (Z.mod_pos_bound k (max_len buf) ltac:(lia)). lia.
Qed.

Lemma slot_inj j k : slot buf j = slot buf k -> -max_len buf < j - k < max_len buf -> j = k.
Proof.
  destruct Hok. unfold slot. intros E D.
  assert (Hm : (j - k) mod max_len buf = 0).
  { rewrite Zminus_mod. replace (j mod max_len buf) with (k mod max_len buf) by lia.
    by rewrite Z.sub_diag, Z.mod_0_l by lia. }
  apply Z.mod_divide in Hm as [c Hc]; [|lia].
  assert (c = 0 \/ 1 <= c \/ c <= -1) as [-> | [? | ?]] by lia; nia.
Qed.

Lemma slot_period k : slot buf (k + max_len buf) = slot buf k.
Proof.
  unfold slot. rewrite <- (Z.mul_1_l (max_len buf)) at 1.
  by rewrite Z.mod_add by (destruct Hok; lia).
Qed.

Lemma slot_head : slot buf (head_off buf) = head buf.
Proof.
  destruct Hok. unfold slot, head_off. rewrite Z.mod_small by lia. lia.
Qed.

Lemma advance_slot k : advance buf (slot buf k) = slot buf (k + 1).
Proof.
  pose proof (slot_range k) as R. destruct Hok. unfold advance.
  assert (Hk : slot buf (k + 1) = data_start buf + (k mod max_len buf + 1) mod max_len buf).
  { unfold slot. by rewrite Zplus_mod_idemp_l. }
  rewrite Hk. clear Hk. unfold slot in *.
  revert R. generalize (k mod max_len buf). intros r R. case_zb.
  - replace (r + 1) with (max_len buf) by lia. rewrite Z.mod_same by lia. lia.
  - rewrite Z.mod_small by lia. lia.
Qed.

Lemma retreat_slot k : retreat buf (slot buf k) = slot buf (k - 1).
Proof.
  replace k with (k - 1 + 1) at 1 by lia. rewrite <- advance_slot.
  pose proof (slot_range (k - 1)) as R.
  unfold advance. case_zb; unfold retreat; case_zb; lia.
Qed.
End cells.

(** Cells counted from a head that has moved by [n]. *)
Lemma slot_advance b b' n j :
  max_len b = max_len b' -> data_start b = data_start b' ->
  head b' = slot b (head_off b + n) ->
  slot b' (head_off b' + j) = slot b (head_off b + n + j).
Proof.
  intros Hm Hs Hh. unfold slot, head_off in *. rewrite Hh, <- Hm, <- Hs.
  replace (data_start b + (head b - data_start b + n) mod max_len b - data_start b)
    with ((head b - data_start b + n) mod max_len b) by lia.
  by rewrite Zplus_mod_idemp_l.
Qed.

(** * The copy loops *)

Lemma put_loop_spec buf (Hok : ring_ok buf) n m k inp :
  Z.of_nat n <= max_len buf -> apart buf inp (Z.of_nat n) ->
  let '(m', p') := put_loop buf n m (slot buf k) inp in
  p' = slot buf (k + Z.of_nat n) /\
  same_outside m m' (data_start buf) (data_end buf) /\
  (forall i, 0 <= i < Z.of_nat n -> load8 m' (slot buf (k + i)) = load8 m (inp + i)) /\
  (forall j, Z.of_nat n <= j < max_len buf ->
     load8 m' (slot buf (k + j)) = load8 m (slot buf (k + j))).
Proof.
  revert m k inp. induction n as [|n IH]; intros m k inp Hn Hap; cbn [put_loop].
  - rewrite Z.add_0_r. repeat split; try done. intros. lia.
  - rewrite advance_slot by done.
    specialize (IH (store8 m (slot buf k) (load8 m inp)) (k + 1) (inp + 1)).
    destruct (put_loop _ _ _ _ _) as [m' p']. unfold apart in *.
    destruct IH as (-> & Hout & Hin & Hrest); [lia..|].
    pose proof (slot_range buf Hok) as R.
    assert (Hne : forall j, 0 < j < max_len buf -> slot buf k <> slot buf (k + j)).
    { intros j Hj E. apply slot_inj in E; [lia|done|lia]. }
    assert (Hinp : forall i, 0 <= i < Z.of_nat (S n) ->
              load8 (store8 m (slot buf k) (load8 m inp)) (inp + i) = load8 m (inp + i)).
    { intros i Hi. apply load8_store8_ne. specialize (R k). lia. }
    split; [f_equal; lia|]. split; [|split].
    + intros x Hx. rewrite Hout by done. apply load8_store8_ne. specialize (R k). lia.
    + intros i Hi. destruct (Z.eq_dec i 0) as [-> | Hi0].
      * specialize (Hrest (max_len buf - 1)).
        replace (k + 1 + (max_len buf - 1)) with (k + max_len buf) in Hrest by lia.
        rewrite slot_period in Hrest by done. rewrite !Z.add_0_r, Hrest by lia.
        by rewrite load8_store8_eq, u8_load8.
      * replace (k + i) with (k + 1 + (i - 1)) by lia. rewrite Hin by lia.
        replace (inp + 1 + (i - 1)) with (inp + i) by lia. apply Hinp. lia.
    + intros j Hj. replace (k + j) with (k + 1 + (j - 1)) by lia. rewrite Hrest by lia.
      apply load8_store8_ne. replace (k + 1 + (j - 1)) with (k + j) by lia. apply Hne. lia.
Qed.

Lemma get_loop_spec buf (Hok : ring_ok buf) n m k out :
  apart buf out (Z.of_nat n) ->
  let '(m', p') := get_loop buf n m (slot buf k) out in
  p' = slot buf (k + Z.of_nat n) /\
  same_outside m m' out (out + Z.of_nat n) /\
  (forall i, 0 <= i < Z.of_nat n -> load8 m' (out + i) = load8 m (slot buf (k + i))).
Proof.
  revert m k out. induction n as [|n IH]; intros m k out Hap; cbn [get_loop].
  - rewrite Z.add_0_r. repeat split; try done. intros. lia.
  - rewrite advance_slot by done.
    specialize (IH (store8 m out (load8 m (slot buf k))) (k + 1) (out + 1)).
    destruct (get_loop _ _ _ _ _) as [m' p']. unfold apart in *.
    destruct IH as (-> & Hout & Hin); [lia|].
    pose proof (slot_range buf Hok) as R.
    split; [f_equal; lia|]. split.
    + intros x Hx. rewrite Hout by lia. apply load8_store8_ne. lia.
    + intros i Hi. destruct (Z.eq_dec i 0) as [-> | Hi0].
      * rewrite !Z.add_0_r, Hout by lia. by rewrite load8_store8_eq, u8_load8.
      * replace (out + i) with (out + 1 + (i - 1)) by lia. rewrite Hin by lia.
        replace (k + 1 + (i - 1)) with (k + i) by lia. apply load8_store8_ne.
        specialize (R (k + i)). lia.
Qed.

(** * What each operation does to the queue *)

Lemma length_contents buf m : length (contents buf m) = Z.to_nat (current_len buf).
Proof. unfold contents. by rewrite length_fmap, length_seq. Qed.

Lemma ring_intro buf m base cap q :
  ring_ok buf -> data_start buf = base -> max_len buf = cap -> current_len buf = zlen q ->
  (forall i, (i < length q)%nat ->
     load8 m (slot buf (head_off buf + Z.of_nat i)) = q !!! i) ->
  ring buf m base cap q.
Proof.
  intros Hok Hb Hc Hl Hq. do 3 (split; [done|]).
  apply list_eq_total; rewrite length_contents, Hl; [lia|].
  intros i Hi. unfold contents. rewrite lookup_total_fmap_seq by lia. apply Hq. lia.
Qed.

Section queue.
Context (buf : circular_buffer_t) (m : mem) (base cap : Z) (q : list Z).
Hypothesis (Hring : ring buf m base cap q).

Lemma ring_bounds :
  0 < cap < 0x80000000 /\ data_start buf = base /\ data_end buf = base + cap /\
  max_len buf = cap /\ current_len buf = zlen q /\ zlen q <= cap.
Proof.
  destruct Hring as ([] & <- & <- & <-). rewrite length_contents. lia.
Qed.

Lemma ring_cell i : (i < length q)%nat ->
  load8 m (slot buf (head_off buf + Z.of_nat i)) = q !!! i.
Proof.
  intros Hi. destruct Hring as (_ & _ & _ & <-). rewrite length_contents in Hi.
  unfold contents. by rewrite lookup_total_fmap_seq.
Qed.

Lemma ring_bytes : Forall (fun b => 0 <= b < 256) q.
Proof.
  destruct Hring as (_ & _ & _ & <-). unfold contents.
  apply Forall_fmap, Forall_true. intros. apply load8_range.
Qed.

(** Writes elsewhere leave the queue alone. *)
Lemma ring_frame m' :
  (forall x, base <= x < base + cap -> load8 m' x = load8 m x) -> ring buf m' base cap q.
Proof.
  intros Hm. pose proof ring_bounds as B. destruct Hring as (Hok & ? & ? & Hq).
  apply ring_intro; try lia; try done. intros i Hi.
  rewrite Hm; [by apply ring_cell|]. pose proof (slot_range buf Hok (head_off buf + Z.of_nat i)). lia.
Qed.

Lemma ring_frame_outside m' lo hi :
  same_outside m m' lo hi -> hi <= base \/ base + cap <= lo -> ring buf m' base cap q.
Proof. intros Ho Hd. apply ring_frame. intros x Hx. apply Ho. lia. Qed.

Lemma ring_clear : ring (circular_buffer_clear buf) m base cap [].
Proof.
  pose proof ring_bounds as B. destruct Hring as ([] & ? & ? & Hq).
  apply ring_intro; simpl; try lia. split; simpl; try lia.
  unfold slot, head_off; simpl. rewrite Z.mod_small by lia. lia.
Qed.

Lemma ring_put input_buf len :
  0 <= len -> zlen q + len < 0x100000000 ->
  input_buf + len <= base \/ base + cap <= input_buf ->
  let '(buf', m', n) := circular_buffer_put buf m input_buf len in
  n = Z.min len (cap - zlen q) /\
  ring buf' m' base cap (q ++ load_bytes m input_buf (Z.to_nat n)) /\
  same_outside m m' base (base + cap).
Proof.
  intros H0 Hov Hap. pose proof ring_bounds as B. pose proof ring_cell as C.
  destruct Hring as (Hok & Hb & Hc & Hq). unfold circular_buffer_put.
  set (n := if u32 _ >? _ then _ else len).
  assert (En : n = Z.min len (cap - zlen q)).
  { unfold n. rewrite (u32_id (_ + len)) by lia. case_zb; rewrite ?u32_id; lia. }
  pose proof (put_loop_spec buf Hok (Z.to_nat n) m (head_off buf + current_len buf) input_buf) as P.
  rewrite <- ok_tail in P by done. destruct (put_loop _ _ _ _ _) as [m' t].
  destruct P as (-> & Hout & Hin & Hrest); [lia|unfold apart; lia|].
  split; [done|]. split; [|by replace (base + cap) with (data_end buf) by lia; subst base].
  apply ring_intro; simpl; try lia.
  - destruct Hok. split; simpl; try done; rewrite u32_id; try lia.
    rewrite Z2Nat.id by lia. unfold slot, head_off; simpl. by rewrite Z.add_assoc.
  - rewrite length_app, length_load_bytes, u32_id by lia. lia.
  - intros i Hi. rewrite length_app, length_load_bytes in Hi.
    change (load8 m' (slot buf (head_off buf + Z.of_nat i)) =
            (q ++ load_bytes m input_buf (Z.to_nat n)) !!! i).
    destruct (decide (i < length q)%nat) as [Hl|Hl].
    + rewrite lookup_total_app_l by done. rewrite <- C by done.
      specialize (Hrest (max_len buf - current_len buf + Z.of_nat i)).
      replace (head_off buf + current_len buf + (max_len buf - current_len buf + Z.of_nat i))
        with (head_off buf + Z.of_nat i + max_len buf) in Hrest by lia.
      rewrite slot_period in Hrest by done. apply Hrest. lia.
    + rewrite lookup_total_app_r, load_bytes_lookup by lia.
      replace (head_off buf + Z.of_nat i) with
        (head_off buf + current_len buf + (Z.of_nat i - zlen q)) by lia.
      rewrite Hin by lia. f_equal. lia.
Qed.

Lemma ring_get_loop output_buf n :
  (n <= length q)%nat -> output_buf + Z.of_nat n <= base \/ base + cap <= output_buf ->
  let '(m', h) := get_loop buf n m (head buf) output_buf in
  h = slot buf (head_off buf + Z.of_nat n) /\
  load_bytes m' output_buf n = take n q /\
  same_outside m m' output_buf (output_buf + Z.of_nat n).
Proof.
  intros Hn Hap. pose proof ring_bounds as B. pose proof ring_cell as C.
  destruct Hring as (Hok & Hb & Hc & Hq).
  pose proof (get_loop_spec buf Hok n m (head_off buf) output_buf) as P.
  rewrite slot_head in P by done. destruct (get_loop _ _ _ _ _) as [m' h].
  destruct P as (-> & Hout & Hin); [unfold apart; lia|].
  split; [done|]. split; [|done].
  apply list_eq_total; rewrite length_load_bytes; [rewrite length_take; lia|].
  intros i Hi. rewrite load_bytes_lookup, lookup_total_take' by lia.
  rewrite Hin by lia. apply C. lia.
Qed.

Lemma ring_get output_buf len :
  0 <= len -> output_buf + Z.min len (zlen q) <= base \/ base + cap <= output_buf ->
  let '(buf', m', n) := circular_buffer_get buf m output_buf len in
  n = Z.min len (zlen q) /\
  ring buf' m' base cap (drop (Z.to_nat n) q) /\
  load_bytes m' output_buf (Z.to_nat n) = take (Z.to_nat n) q /\
  same_outside m m' output_buf (output_buf + n).
Proof.
  intros H0 Hap. pose proof ring_bounds as B. pose proof ring_cell as C.
  unfold circular_buffer_get. set (n := if len >? _ then _ else len).
  assert (En : n = Z.min len (zlen q)) by (unfold n; case_zb; lia).
  pose proof (ring_get_loop output_buf (Z.to_nat n)) as P.
  destruct (get_loop _ _ _ _ _) as [m' h].
  destruct P as (-> & Hbytes & Hout); [lia|lia|].
  rewrite Z2Nat.id in Hout by lia.
  split; [done|]. split; [|done].
  destruct Hring as (Hok & Hb & Hc & Hq).
  set (buf' := Circular_buffer_t _ _ _ _ _ _).
  assert (Hcell : forall j, slot buf' (head_off buf' + j) = slot buf (head_off buf + n + j)).
  { intros j. apply slot_advance; [done..|]. simpl. by rewrite Z2Nat.id by lia. }
  pose proof (slot_range buf Hok (head_off buf + Z.of_nat (Z.to_nat n))) as R.
  apply ring_intro; simpl; try lia.
  - destruct Hok. split; simpl; try done; rewrite u32_id; try lia.
    rewrite Hcell, ok_tail0. f_equal. lia.
  - rewrite length_drop, u32_id by lia. lia.
  - intros i Hi. rewrite length_drop in Hi. rewrite lookup_total_drop', <- C, Hcell by lia.
    replace (head_off buf + n + Z.of_nat i) with (head_off buf + Z.of_nat (Z.to_nat n + i)) by lia.
    apply Hout. pose proof (slot_range buf Hok (head_off buf + Z.of_nat (Z.to_nat n + i))). lia.
Qed.

Lemma ring_peek output_buf len :
  0 <= len -> output_buf + Z.min len (zlen q) <= base \/ base + cap <= output_buf ->
  let '(m', n) := circular_buffer_peek buf m output_buf len in
  n = Z.min len (zlen q) /\
  ring buf m' base cap q /\
  load_bytes m' output_buf (Z.to_nat n) = take (Z.to_nat n) q /\
  same_outside m m' output_buf (output_buf + n).
Proof.
  intros H0 Hap. pose proof ring_bounds as B.
  unfold circular_buffer_peek. set (n := if len >? _ then _ else len).
  assert (En : n = Z.min len (zlen q)) by (unfold n; case_zb; lia).
  pose proof (ring_get_loop output_buf (Z.to_nat n)) as P.
  destruct (get_loop _ _ _ _ _) as [m' h].
  destruct P as (-> & Hbytes & Hout); [lia|lia|].
  rewrite Z2Nat.id in Hout by lia.
  split; [done|]. split; [|done]. apply ring_frame_outside with output_buf (output_buf + n); [done|lia].
Qed.
End queue.

Lemma ring_init m base cap :
  0 < cap < 0x80000000 -> ring (circular_buffer_init base cap) m base cap [].
Proof.
  intros Hc. apply ring_intro; simpl; try lia. split; simpl; try lia.
  unfold slot, head_off; simpl. rewrite Z.mod_small by lia. lia.
Qed.

Lemma circular_buffer_get_byte_get buf m b :
  ring_ok buf -> circular_buffer_get_byte buf m b = circular_buffer_get buf m b 1.
Proof.
  intros []. unfold circular_buffer_get_byte, circular_buffer_get.
  repeat case_zb; try lia; [|done].
  destruct buf; simpl in *. by subst.
Qed.

Section queue_bytes.
Context (buf : circular_buffer_t) (m : mem) (base cap : Z) (q : list Z).
Hypothesis (Hring : ring buf m base cap q).

Lemma ring_put_byte b :
  let '(buf', m', n) := circular_buffer_put_byte buf m b in
  n = c_bool (zlen q <? cap) /\
  ring buf' m' base cap (if zlen q <? cap then q ++ [u8 b] else q) /\
  same_outside m m' base (base + cap).
Proof.
  pose proof (ring_bounds _ _ _ _ _ Hring) as B. unfold circular_buffer_put_byte.
  case_zb; case_zb; try lia; (split; [done|]); [|split; [done|by intros x _]].
  pose proof (ring_cell _ _ _ _ _ Hring) as C. destruct Hring as (Hok & Hb & Hc & Hq).
  pose proof (ok_tail _ Hok) as Ht. rewrite Ht.
  pose proof (slot_range buf Hok (head_off buf + current_len buf)) as R.
  split.
  - apply ring_intro; simpl; try lia.
    + rewrite advance_slot by done. destruct Hok. split; simpl; try done; rewrite u32_id; try lia.
      unfold slot, head_off; simpl. by rewrite Z.add_assoc.
    + rewrite length_app, u32_id by lia. simpl. lia.
    + intros i Hi. rewrite length_app in Hi. simpl in Hi.
      change (load8 (store8 m (slot buf (head_off buf + current_len buf)) b)
                (slot buf (head_off buf + Z.of_nat i)) = (q ++ [u8 b]) !!! i).
      destruct (decide (i < length q)%nat) as [Hl|Hl].
      * rewrite lookup_total_app_l, <- C by done. apply load8_store8_ne.
        intros E. apply slot_inj in E; [lia|done|lia].
      * replace i with (length q) by lia. rewrite lookup_total_app_r, Nat.sub_diag by lia.
        replace (zlen q) with (current_len buf) by lia. apply load8_store8_eq.
  - intros x Hx. apply load8_store8_ne. lia.
Qed.

Lemma ring_peek_end_byte :
  circular_buffer_peek_end_byte buf m = last q.
Proof.
  pose proof (ring_bounds _ _ _ _ _ Hring) as B. unfold circular_buffer_peek_end_byte.
  rewrite last_lookup. case_zb.
  - destruct q; [done|simpl in *; lia].
  - pose proof (ring_cell _ _ _ _ _ Hring) as C. destruct Hring as (Hok & Hb & Hc & Hq).
    rewrite (ok_tail _ Hok), retreat_slot by done.
    rewrite list_lookup_lookup_total_lt by lia. f_equal.
    rewrite <- C by lia. do 2 f_equal. lia.
Qed.

Lemma ring_remove_end_byte :
  let '(buf', n) := circular_buffer_remove_end_byte buf in
  n = c_bool (0 <? zlen q) /\ ring buf' m base cap (take (pred (length q)) q).
Proof.
  pose proof (ring_bounds _ _ _ _ _ Hring) as B. unfold circular_buffer_remove_end_byte.
  case_zb; case_zb; try lia; (split; [done|]).
  - pose proof (ring_cell _ _ _ _ _ Hring) as C. destruct Hring as (Hok & Hb & Hc & Hq).
    rewrite (ok_tail _ Hok), retreat_slot by done.
    apply ring_intro; simpl; try lia.
    + destruct Hok. split; simpl; try done; rewrite u32_id; try lia.
      unfold slot, head_off; simpl. do 2 f_equal. lia.
    + rewrite length_take, u32_id by lia. lia.
    + intros i Hi. rewrite length_take in Hi. rewrite lookup_total_take' by lia.
      by rewrite <- C by lia.
  - destruct q; [done|simpl in *; lia].
Qed.
End queue_bytes.

(** Position of the first occurrence of a byte, as the code reports it. *)
Fixpoint index_of (v : Z) (l : list Z) : option Z :=
  match l with
  | [] => None
  | b :: l' => if b =? v then Some 0 else Z.succ <$> index_of v l'
  end.

Lemma find_loop_spec buf (Hok : ring_ok buf) n m k len val :
  find_loop buf n m (slot buf k) len val =
  match index_of val ((fun i => load8 m (slot buf (k + Z.of_nat i))) <$> seq 0 n) with
  | Some j => len + j
  | None => -1
  end.
Proof.
  revert k len. induction n as [|n IH]; intros k len; [done|].
  cbn [find_loop seq fmap list_fmap]. cbn [index_of]. rewrite Z.add_0_r.
  case_zb; [lia|]. rewrite advance_slot, IH by done.
  rewrite <- fmap_S_seq, <- list_fmap_compose.
  replace (_ <$> seq 0 n) with
    (((fun i => load8 m (slot buf (k + Z.of_nat i))) ∘ S) <$> seq 0 n).
  - destruct (index_of _ _); simpl; lia.
  - apply list_fmap_ext. intros ? i _. simpl. do 2 f_equal. lia.
Qed.

Lemma ring_find buf m base cap q val :
  ring buf m base cap q ->
  circular_buffer_find buf m val = default (-1) (index_of val q).
Proof.
  intros (Hok & Hb & Hc & Hq). unfold circular_buffer_find.
  rewrite <- (slot_head buf Hok) at 1. rewrite find_loop_spec by done.
  fold (contents buf m). rewrite Hq. by destruct (index_of val q).
Qed.

Lemma index_of_bound v l k : index_of v l = Some k -> 0 <= k < zlen l.
Proof.
  revert k. induction l as [|b l IH]; intros k; simpl; [done|].
  case_zb; [intros [= <-]; lia|]. destruct (index_of v l) as [j|]; simpl; [|done].
  intros [= <-]. specialize (IH j eq_refl). lia.
Qed.

(** * Refinement of a bounded FIFO queue

    The abstract machine owns a queue of at most [cap] bytes and the memory of
    the client; the concrete machine is the code above.  Calls are given
    with their pointer arguments. *)

Inductive cb_call :=
  | Put (input_buf len : Z)
  | Get (output_buf len : Z)
  | Peek (output_buf len : Z)
  | PutByte (b : Z)
  | GetByte (out : Z)
  | PeekEndByte
  | RemoveEndByte
  | Find (val : Z)
  | Len
  | Clear.

Definition cb_step (s : circular_buffer_t * mem) (c : cb_call)
  : (circular_buffer_t * mem) * option Z :=
  let '(buf, m) := s in
  match c with
  | Put a n => let '(buf', m', r) := circular_buffer_put buf m a n in ((buf', m'), Some r)
  | Get a n => let '(buf', m', r) := circular_buffer_get buf m a n in ((buf', m'), Some r)
  | Peek a n => let '(m', r) := circular_buffer_peek buf m a n in ((buf, m'), Some r)
  | PutByte b => let '(buf', m', r) := circular_buffer_put_byte buf m b in ((buf', m'), Some r)
  | GetByte a => let '(buf', m', r) := circular_buffer_get_byte buf m a in ((buf', m'), Some r)
  | PeekEndByte => (s, circular_buffer_peek_end_byte buf m)
  | RemoveEndByte =>
      let '(buf', r) := circular_buffer_remove_end_byte buf in ((buf', m), Some r)
  | Find v => (s, Some (circular_buffer_find buf m v))
  | Len => (s, Some (circular_buffer_len buf))
  | Clear => ((circular_buffer_clear buf, m), None)
  end.

(** The abstract machine. *)
Definition queue_step (cap : Z) (s : list Z * mem) (c : cb_call)
  : (list Z * mem) * option Z :=
  let '(q, m) := s in
  let room n := Z.min n (cap - zlen q) in
  let avail n := Z.min n (zlen q) in
  match c with
  | Put a n => ((q ++ load_bytes m a (Z.to_nat (room n)), m), Some (room n))
  | Get a n =>
      ((drop (Z.to_nat (avail n)) q, store_bytes m a (take (Z.to_nat (avail n)) q)),
       Some (avail n))
  | Peek a n => ((q, store_bytes m a (take (Z.to_nat (avail n)) q)), Some (avail n))
  | PutByte b =>
      if zlen q <? cap then ((q ++ [u8 b], m), Some 1) else (s, Some 0)
  | GetByte a =>
      match q with
      | [] => (s, Some 0)
      | b :: q' => ((q', store_bytes m a [b]), Some 1)
      end
  | PeekEndByte => (s, last q)
  | RemoveEndByte => ((take (pred (length q)) q, m), Some (c_bool (0 <? zlen q)))
  | Find v => (s, Some (default (-1) (index_of v q)))
  | Len => (s, Some (zlen q))
  | Clear => (([], m), None)
  end.

Fixpoint run {S} (step : S -> cb_call -> S * option Z) (s : S) (cs : list cb_call)
  : S * list (option Z) :=
  match cs with
  | [] => (s, [])
  | c :: cs' =>
      let '(s', r) := step s c in
      let '(s'', rs) := run step s' cs' in (s'', r :: rs)
  end.

(** A client passes blocks that are its own: they do not meet the backing
    store, and lengths are such that [current_len + len] does not wrap. *)
Definition call_ok (base cap : Z) (c : cb_call) : Prop :=
  let apart a n := a + n <= base \/ base + cap <= a in
  match c with
  | Put a n => 0 <= n < 0x80000000 /\ apart a n
  | Get a n | Peek a n => 0 <= n /\ apart a n
  | GetByte a => apart a 1
  | _ => True
  end.

(** The simulation relation: same queue, same client memory. *)
Definition simulates (base cap : Z) (s : circular_buffer_t * mem) (a : list Z * mem) : Prop :=
  ring (fst s) (snd s) base cap (fst a) /\ same_outside (snd a) (snd s) base (base + cap).

(** Copying a prefix of the queue to a client block agrees on both sides. *)
Lemma copy_out_agrees base cap m m' am a n (q : list Z) :
  same_outside am m base (base + cap) ->
  load_bytes m' a n = take n q -> (n <= length q)%nat ->
  same_outside m m' a (a + Z.of_nat n) ->
  same_outside (store_bytes am a (take n q)) m' base (base + cap).
Proof.
  intros Ham Hb Hn Hm x Hx. rewrite load8_store_bytes, length_take.
  rewrite Nat.min_l by lia. repeat (case_zb; simpl);
    try (rewrite Hm by lia; by apply Ham).
  rewrite <- Hb, load_bytes_lookup by lia. rewrite u8_load8. f_equal. lia.
Qed.

Lemma cb_step_simulates base cap s a c :
  simulates base cap s a -> call_ok base cap c ->
  let '(s', r) := cb_step s c in
  let '(a', r') := queue_step cap a c in
  simulates base cap s' a' /\ r = r'.
Proof.
  destruct s as [buf m], a as [q am]. intros [HR Ham] Hc. simpl in HR, Ham.
  pose proof (ring_bounds _ _ _ _ _ HR) as B. unfold simulates.
  destruct c as [p n|p n|p n|b|p| | |v| |]; simpl in *.
  - pose proof (ring_put _ _ _ _ _ HR p n) as P.
    destruct (circular_buffer_put _ _ _ _) as [[buf' m'] r].
    destruct P as (-> & P & Q); [lia..|]. split; [|done]. simpl. split.
    + erewrite <- same_outside_load_bytes; [done|exact Ham|lia].
    + by apply same_outside_trans with m.
  - pose proof (ring_get _ _ _ _ _ HR p n) as P.
    destruct (circular_buffer_get _ _ _ _) as [[buf' m'] r].
    destruct P as (-> & P & Q & O); [lia..|]. split; [|done]. simpl. split; [done|].
    eapply copy_out_agrees; [done|done|lia|]. by rewrite Z2Nat.id by lia.
  - pose proof (ring_peek _ _ _ _ _ HR p n) as P.
    destruct (circular_buffer_peek _ _ _ _) as [m' r].
    destruct P as (-> & P & Q & O); [lia..|]. split; [|done]. simpl. split; [done|].
    eapply copy_out_agrees; [done|done|lia|]. by rewrite Z2Nat.id by lia.
  - pose proof (ring_put_byte _ _ _ _ _ HR b) as P.
    destruct (circular_buffer_put_byte _ _ _) as [[buf' m'] r].
    destruct P as (-> & P & Q). case_zb; simpl; (split; [|done]);
      (split; [done|by apply same_outside_trans with m]).
  - rewrite circular_buffer_get_byte_get by apply HR.
    pose proof (ring_get _ _ _ _ _ HR p 1) as P.
    destruct (circular_buffer_get _ _ _ _) as [[buf' m'] r].
    destruct P as (-> & P & Q & O); [lia..|].
    pose proof (copy_out_agrees _ _ _ _ _ _ _ _ Ham Q) as A.
    rewrite Z2Nat.id in A by lia. specialize (A ltac:(lia) O).
    destruct q as [|b q']; [by split|].
    replace (Z.min 1 (zlen (b :: q'))) with 1 in * by (simpl; lia). by split.
  - split; [done|]. by apply ring_peek_end_byte with base cap.
  - pose proof (ring_remove_end_byte _ _ _ _ _ HR) as P.
    destruct (circular_buffer_remove_end_byte _) as [buf' r].
    by destruct P as (-> & P).
  - split; [done|]. f_equal. by eapply ring_find.
  - split; [done|]. unfold circular_buffer_len. f_equal. lia.
  - split; [|done]. split; [|done]. by eapply ring_clear.
Qed.

(** C2: the circular buffer refines a bounded FIFO queue.  Whatever sequence
    of calls a client makes, the buffer stays well formed, every return value
    is the one of the abstract queue of the same capacity, and the bytes
    delivered to the client's memory are the bytes the queue delivers; no
    call writes outside the backing store and the block it was given. *)
Theorem circular_buffer_refines_queue (base cap : Z) (m : mem) (cs : list cb_call) :
  0 < cap < 0x80000000 ->
  Forall (call_ok base cap) cs ->
  let '(s, rs) := run cb_step (circular_buffer_init base cap, m) cs in
  let '(a, rs') := run (queue_step cap) ([], m) cs in
  simulates base cap s a /\ rs = rs'.
Proof.
  intros Hc Hcs.
  assert (H0 : simulates base cap (circular_buffer_init base cap, m) ([], m)).
  { split; [by apply ring_init|by intros x _]. }
  revert H0. generalize (circular_buffer_init base cap, m) ([] : list Z, m).
  induction Hcs as [|c cs Hok _ IH]; intros s a Hsim; simpl; [done|].
  pose proof (cb_step_simulates _ _ _ _ _ Hsim Hok) as P.
  destruct (cb_step s c) as [s' r], (queue_step cap a c) as [a' r'].
  destruct P as [P ->]. specialize (IH _ _ P).
  destruct (run cb_step s' cs), (run (queue_step cap) a' cs).
  destruct IH as [? ->]. done.
Qed.

Lemma circular_buffer_refines_queue_witness :
  let cs := [PutByte 65; PutByte 66; GetByte 4096; PutByte 67; PutByte 68; PutByte 69;
             Find 68; Get 4200 2; PeekEndByte] in
  snd (run cb_step (circular_buffer_init 1024 3, ∅) cs)
  = snd (run (queue_step 3) ([], ∅) cs).
Proof.
  intros cs.
  pose proof (circular_buffer_refines_queue 1024 3 ∅ cs ltac:(lia)) as P.
  destruct (run cb_step _ cs), (run (queue_step 3) _ cs).
  apply P. repeat constructor; simpl; lia.
Defined.
