(* ===== verification/Ece391Fs.v ===== *)
(** The read-only filesystem driver of [fs/ece391_fs.c], on the bytes of the
    filesystem image.

    The packed structs of [include/fs/ece391_fs.h] are read at their offsets:
    a boot block of 4096 bytes (three counts, 52 reserved bytes and 63
    directory entries of 64 bytes), then the inode blocks (a length and 1023
    block numbers) and the data blocks, 4096 bytes each. *)

From S2P Require Import Prelude Memory LibMem LibString.

(** * The code *)

Definition MAX_FILE_NAME_LENGTH : Z := 32.
Definition FS_BLOCK_SIZE : Z := Z.shiftl 1 12.

Record fs_ptrs := Fs_ptrs {
  fs_boot_ptr : Z;
  fs_inode_ptr : Z;
  fs_data_ptr : Z
}.

(** Fields of [boot_block_t]. *)
Definition num_directory_entries (m : mem) (fs : fs_ptrs) : Z := load32 m (fs_boot_ptr fs).
Definition num_inodes (m : mem) (fs : fs_ptrs) : Z := load32 m (fs_boot_ptr fs + 4).
Definition num_data_blocks (m : mem) (fs : fs_ptrs) : Z := load32 m (fs_boot_ptr fs + 8).
Definition directory_entry (fs : fs_ptrs) (i : Z) : Z := fs_boot_ptr fs + 64 + 64 * i.

(** Fields of [inode_block_t]. *)
Definition inode_block (fs : fs_ptrs) (inode : Z) : Z := fs_inode_ptr fs + 4096 * inode.
Definition file_length (m : mem) (fs : fs_ptrs) (inode : Z) : Z :=
  load32 m (inode_block fs inode).
Definition data_blocks (m : mem) (fs : fs_ptrs) (inode k : Z) : Z :=
  load32 m (inode_block fs inode + 4 + 4 * k).

(** Fields of [dentry_t]. *)
Definition dentry_file_type (m : mem) (dentry : Z) : Z := load32 m (dentry + 32).
Definition dentry_inode_num (m : mem) (dentry : Z) : Z := load32 m (dentry + 36).

Definition ece391_fs_init (m : mem) (ptr : Z) : fs_ptrs :=
  let inode_ptr := ptr + 4096 in
  Fs_ptrs ptr inode_ptr (inode_ptr + 4096 * load32 m (ptr + 4)).

(** The field-by-field copy of a directory entry. *)
Definition copy_dentry (m : mem) (dentry dir_entry : Z) : mem :=
  let m := strncpy m dentry dir_entry MAX_FILE_NAME_LENGTH in
  let m := store32 m (dentry + 32) (load32 m (dir_entry + 32)) in
  let m := store32 m (dentry + 36) (load32 m (dir_entry + 36)) in
  memcpy m (dentry + 40) (dir_entry + 40) 24.

Fixpoint read_dentry_loop (n : nat) (m : mem) (fs : fs_ptrs) (fname dentry i : Z) : mem * Z :=
  match n with
  | O => (m, -1)
  | S n' =>
      let dir_entry := directory_entry fs i in
      if strncmp m fname dir_entry MAX_FILE_NAME_LENGTH =? 0
      then (copy_dentry m dentry dir_entry, 0)
      else read_dentry_loop n' m fs fname dentry (i + 1)
  end.

Definition read_dentry_by_name (m : mem) (fs : fs_ptrs) (fname dentry : Z) : mem * Z :=
  read_dentry_loop (Z.to_nat (num_directory_entries m fs)) m fs fname dentry 0.

Definition read_dentry_by_index (m : mem) (fs : fs_ptrs) (index dentry : Z) : mem * Z :=
  if index >=? num_directory_entries m fs then (m, -1)
  else (copy_dentry m dentry (directory_entry fs index), 0).

Definition read_block (m : mem) (fs : fs_ptrs) (block_index offset buf length : Z) : mem * Z :=
  if block_index >=? num_data_blocks m fs then (m, -1)
  else if offset >=? FS_BLOCK_SIZE then (m, -1)
  else
    let length := if length >? FS_BLOCK_SIZE - offset then FS_BLOCK_SIZE - offset else length in
    (memcpy m buf (fs_data_ptr fs + 4096 * block_index + offset) length, length).

(** The loop of [read_data]; [None] is only reached when the fuel runs out,
    which [read_data_loop_total] excludes for the fuel [read_data] gives. *)
Fixpoint read_data_loop (fuel : nat) (m : mem) (fs : fs_ptrs) (inode buf length : Z)
    (block_num file_pos block_pos bytes_written : Z) : option (mem * Z) :=
  match fuel with
  | O => None
  | S f =>
      if (bytes_written <? length) && (file_pos <? file_length m fs inode) then
        let block_index := data_blocks m fs inode block_num in
        let num_bytes_to_copy := FS_BLOCK_SIZE - block_pos in
        let num_bytes_to_copy :=
          if num_bytes_to_copy >? length - bytes_written
          then length - bytes_written else num_bytes_to_copy in
        let '(m, res) :=
          read_block m fs block_index block_pos (buf + bytes_written) num_bytes_to_copy in
        if res <? 0 then Some (m, -1)
        else
          let bytes_written := u32 (bytes_written + res) in
          let file_pos := u32 (file_pos + res) in
          let block_pos := u32 (block_pos + res) in
          if block_pos >=? FS_BLOCK_SIZE
          then read_data_loop f m fs inode buf length (block_num + 1) file_pos
                 (block_pos - FS_BLOCK_SIZE) bytes_written
          else read_data_loop f m fs inode buf length block_num file_pos block_pos bytes_written
      else Some (m, s32 bytes_written)
  end.

Definition read_data (m : mem) (fs : fs_ptrs) (inode offset buf length : Z) : mem * Z :=
  if inode >=? num_inodes m fs then (m, -1)
  else if offset >=? file_length m fs inode then (m, 0)
  else
    let length := if u32 (length + offset) >? file_length m fs inode
                  then file_length m fs inode - offset else length in
    default (m, -1)
      (read_data_loop (3 + Z.to_nat (length / 4096)) m fs inode buf length
         (Z.shiftr offset 12) offset (Z.land offset (FS_BLOCK_SIZE - 1)) 0).

Definition get_file_size (m : mem) (fs : fs_ptrs) (inode : Z) : Z :=
  if inode >=? num_inodes m fs then -1 else s32 (file_length m fs inode).

(** * The filesystem as a specification

    A directory of named entries and a finite sequence of bytes per inode. *)

Definition image_end (m : mem) (fs : fs_ptrs) : Z :=
  fs_data_ptr fs + 4096 * num_data_blocks m fs.

(** The driver's pointers as [ece391_fs_init] leaves them. *)
Record fs_ok (m : mem) (fs : fs_ptrs) : Prop := {
  ok_inode_ptr : fs_inode_ptr fs = fs_boot_ptr fs + 4096;
  ok_data_ptr : fs_data_ptr fs = fs_inode_ptr fs + 4096 * num_inodes m fs;
  ok_entries : num_directory_entries m fs <= 63
}.

(** An inode whose length fits its block table and whose used blocks exist. *)
Record inode_ok (m : mem) (fs : fs_ptrs) (inode : Z) : Prop := {
  ok_inode : 0 <= inode < num_inodes m fs;
  ok_length : file_length m fs inode <= 1023 * 4096;
  ok_blocks : forall k, 0 <= 4096 * k < file_length m fs inode ->
    data_blocks m fs inode k < num_data_blocks m fs
}.

Definition file_byte (m : mem) (fs : fs_ptrs) (inode k : Z) : Z :=
  load8 m (fs_data_ptr fs + 4096 * data_blocks m fs inode (k / 4096) + k mod 4096).

(** The contents of a file. *)
Definition file_bytes (m : mem) (fs : fs_ptrs) (inode : Z) : list Z :=
  (fun i => file_byte m fs inode (Z.of_nat i)) <$> seq 0 (Z.to_nat (file_length m fs inode)).

(** The bytes [off, off+n) of a file. *)
Definition file_slice (m : mem) (fs : fs_ptrs) (inode off n : Z) : list Z :=
  take (Z.to_nat n) (drop (Z.to_nat off) (file_bytes m fs inode)).

Definition dir_name (m : mem) (fs : fs_ptrs) (i : Z) : list Z :=
  chars m (directory_entry fs i) MAX_FILE_NAME_LENGTH.

(** The block [a, a+n) does not meet the filesystem image. *)
Definition off_image (m : mem) (fs : fs_ptrs) (a n : Z) : Prop :=
  a + n <= fs_boot_ptr fs \/ image_end m fs <= a.

(** [m'] has the image of [m]. *)
Definition same_image (m m' : mem) (fs : fs_ptrs) : Prop :=
  forall x, fs_boot_ptr fs <= x < image_end m fs -> load8 m' x = load8 m x.

(** * The image is not disturbed by writes elsewhere *)

Section image.
Context (m : mem) (fs : fs_ptrs) (Hfs : fs_ok m fs).

Lemma image_layout :
  fs_inode_ptr fs = fs_boot_ptr fs + 4096 /\
  fs_data_ptr fs = fs_boot_ptr fs + 4096 + 4096 * num_inodes m fs /\
  image_end m fs = fs_boot_ptr fs + 4096 + 4096 * num_inodes m fs + 4096 * num_data_blocks m fs /\
  0 <= num_inodes m fs /\ 0 <= num_data_blocks m fs /\
  0 <= num_directory_entries m fs <= 63.
Proof.
  destruct Hfs. unfold image_end.
  pose proof (load32_range m (fs_boot_ptr fs)). pose proof (load32_range m (fs_boot_ptr fs + 4)).
  pose proof (load32_range m (fs_boot_ptr fs + 8)).
  unfold num_inodes, num_data_blocks, num_directory_entries in *. lia.
Qed.

Lemma off_image_same a l : off_image m fs a (zlen l) -> same_image m (store_bytes m a l) fs.
Proof. intros Ho x Hx. apply load8_store_bytes_out. unfold off_image in Ho. lia. Qed.

Context (m' : mem) (Hsame : same_image m m' fs).

Lemma image_load32 a :
  fs_boot_ptr fs <= a -> a + 4 <= image_end m fs -> load32 m' a = load32 m a.
Proof. intros. apply load_le_ext. intros x Hx. apply Hsame. simpl in Hx. lia. Qed.

Lemma image_counts :
  num_directory_entries m' fs = num_directory_entries m fs /\
  num_inodes m' fs = num_inodes m fs /\ num_data_blocks m' fs = num_data_blocks m fs.
Proof.
  pose proof image_layout as L.
  unfold num_directory_entries, num_inodes, num_data_blocks in *.
  rewrite !image_load32 by lia. done.
Qed.

Lemma image_end_same : image_end m' fs = image_end m fs.
Proof. unfold image_end. by destruct image_counts as (_ & _ & ->). Qed.

Lemma same_image_fs_ok : fs_ok m' fs.
Proof. destruct image_counts as (H1 & H2 & H3), Hfs. split; rewrite ?H1, ?H2; done. Qed.

Lemma image_file_length inode :
  0 <= inode < num_inodes m fs -> file_length m' fs inode = file_length m fs inode.
Proof.
  intros Hi. pose proof image_layout as L. unfold file_length, inode_block.
  apply image_load32; lia.
Qed.

Lemma image_data_blocks inode k :
  0 <= inode < num_inodes m fs -> 0 <= k < 1023 ->
  data_blocks m' fs inode k = data_blocks m fs inode k.
Proof.
  intros Hi Hk. pose proof image_layout as L. unfold data_blocks, inode_block.
  apply image_load32; lia.
Qed.

Lemma image_file_byte inode k :
  inode_ok m fs inode -> 0 <= k < file_length m fs inode ->
  file_byte m' fs inode k = file_byte m fs inode k.
Proof.
  intros [Hi Hl Hb] Hk. pose proof image_layout as L. unfold file_byte.
  assert (Hq : 0 <= k / 4096 < 1023) by divlia.
  rewrite image_data_blocks by done.
  specialize (Hb (k / 4096) ltac:(divlia)).
  pose proof (load32_range m (inode_block fs inode + 4 + 4 * (k / 4096))).
  pose proof (Z.mod_pos_bound k 4096 ltac:(lia)).
  fold (data_blocks m fs inode (k / 4096)) in *. apply Hsame. lia.
Qed.

Lemma same_image_inode_ok inode : inode_ok m fs inode -> inode_ok m' fs inode.
Proof.
  intros [Hi Hl Hb]. destruct image_counts as (H1 & H2 & H3).
  split; rewrite ?H2, ?H3, ?image_file_length by done; try done.
  intros k Hk. rewrite image_data_blocks by lia. by apply Hb.
Qed.

Lemma image_file_bytes inode :
  inode_ok m fs inode -> file_bytes m' fs inode = file_bytes m fs inode.
Proof.
  intros Hi. unfold file_bytes. rewrite image_file_length by apply Hi.
  apply list_fmap_ext. intros j i Hj. apply lookup_seq in Hj as [-> Hj].
  apply image_file_byte; [done|lia].
Qed.

Lemma image_file_slice inode off n :
  inode_ok m fs inode -> file_slice m' fs inode off n = file_slice m fs inode off n.
Proof. intros Hi. unfold file_slice. by rewrite image_file_bytes. Qed.
End image.

Lemma same_image_trans m1 m2 m3 fs :
  fs_ok m1 fs -> same_image m1 m2 fs -> same_image m2 m3 fs -> same_image m1 m3 fs.
Proof.
  intros Hfs H1 H2 x Hx. rewrite H2, H1; try done. by rewrite (image_end_same m1 fs Hfs m2 H1).
Qed.

(** * Slices of a file *)

Section slices.
Context (m : mem) (fs : fs_ptrs) (inode : Z).

Lemma length_file_bytes : length (file_bytes m fs inode) = Z.to_nat (file_length m fs inode).
Proof. unfold file_bytes. by rewrite length_fmap, length_seq. Qed.

Lemma length_file_slice off n :
  0 <= off -> 0 <= n -> off + n <= file_length m fs inode ->
  zlen (file_slice m fs inode off n) = n.
Proof.
  intros. unfold file_slice. rewrite length_take, length_drop, length_file_bytes. lia.
Qed.

Lemma file_slice_lookup off n i :
  0 <= off -> off + n <= file_length m fs inode -> 0 <= i < n ->
  file_slice m fs inode off n !!! Z.to_nat i = file_byte m fs inode (off + i).
Proof.
  intros. unfold file_slice. rewrite lookup_total_take', lookup_total_drop' by lia.
  unfold file_bytes. rewrite lookup_total_fmap_seq by lia. f_equal. lia.
Qed.

Lemma file_slice_app off n k :
  0 <= off -> 0 <= n -> 0 <= k ->
  file_slice m fs inode off (n + k) = file_slice m fs inode off n ++ file_slice m fs inode (off + n) k.
Proof.
  intros. unfold file_slice. rewrite !Z2Nat.inj_add, <- drop_drop by lia.
  symmetry. apply take_take_drop.
Qed.

(** Part of a slice that lies in one block is a block of memory. *)
Lemma file_slice_block off n k r :
  0 <= n -> off + n <= file_length m fs inode -> off = 4096 * k + r -> 0 <= k -> 0 <= r -> r + n <= 4096 ->
  load_bytes m (fs_data_ptr fs + 4096 * data_blocks m fs inode k + r) (Z.to_nat n)
  = file_slice m fs inode off n.
Proof.
  intros Hn Hl -> Hk Hr Hrn.
  pose proof (length_file_slice (4096 * k + r) n ltac:(lia) Hn Hl) as Hlen.
  apply list_eq_total; rewrite length_load_bytes; [lia|].
  intros i Hi. rewrite load_bytes_lookup by done.
  rewrite <- (Nat2Z.id i) at 2. rewrite file_slice_lookup by lia. unfold file_byte.
  replace ((4096 * k + r + Z.of_nat i) / 4096) with k by divlia.
  replace ((4096 * k + r + Z.of_nat i) mod 4096) with (r + Z.of_nat i) by divlia.
  f_equal. lia.
Qed.
End slices.

(** * Reading data *)

(** Blocks the loop still has to visit. *)
Definition blocks_left (block_pos remaining : Z) : Z :=
  if remaining <=? 0 then 0 else (block_pos + remaining + 4095) / 4096.

Lemma blocks_left_nonneg bp r : 0 <= bp -> 0 <= blocks_left bp r.
Proof. intros. unfold blocks_left. case_zb; divlia. Qed.

Lemma blocks_left_step bp r n f :
  0 <= bp < 4096 -> 0 < n <= r -> n = r \/ n = 4096 - bp -> bp + n <= 4096 ->
  blocks_left bp r < Z.of_nat (S f) ->
  blocks_left (if bp + n >=? 4096 then bp + n - 4096 else bp + n) (r - n) < Z.of_nat f.
Proof. unfold blocks_left. intros. repeat case_zb_in H3; repeat case_zb; divlia. Qed.

Lemma FS_BLOCK_SIZE_eq : FS_BLOCK_SIZE = 4096.
Proof. done. Qed.

Lemma read_block_result m fs bi off buf n :
  0 <= off < 4096 -> 0 < n <= 4096 - off ->
  snd (read_block m fs bi off buf n) = -1 \/ snd (read_block m fs bi off buf n) = n.
Proof.
  intros. unfold read_block. rewrite FS_BLOCK_SIZE_eq. repeat case_zb; simpl; auto; lia.
Qed.

(** The loop ends whatever the image contains. *)
Lemma read_data_loop_total fuel m fs inode buf length bn fp bp w :
  0 <= w <= length -> length < 0x100000000 -> 0 <= bp < 4096 ->
  blocks_left bp (length - w) < Z.of_nat fuel ->
  is_Some (read_data_loop fuel m fs inode buf length bn fp bp w).
Proof.
  revert m bn fp bp w. induction fuel as [|f IH]; intros m bn fp bp w Hw Hlen Hbp Hf.
  - pose proof (blocks_left_nonneg bp (length - w)). lia.
  - cbn [read_data_loop]. destruct (_ && _) eqn:Hc; [|eauto].
    apply andb_prop in Hc as [Hc _]. apply Z.ltb_lt in Hc. rewrite FS_BLOCK_SIZE_eq.
    set (n := if 4096 - bp >? length - w then _ else _).
    assert (Hn : 0 < n <= 4096 - bp /\ n <= length - w /\ (n = length - w \/ n = 4096 - bp))
      by (unfold n; case_zb; lia).
    pose proof (read_block_result m fs (data_blocks m fs inode bn) bp (buf + w) n Hbp ltac:(lia)) as R.
    destruct (read_block _ _ _ _ _ _) as [m' res]. simpl in R. case_zb; [eauto|].
    destruct R as [-> | ->]; [lia|]. rewrite !(u32_id (w + n)), (u32_id (bp + n)) by lia.
    pose proof (blocks_left_step bp (length - w) n f) as S.
    replace (length - w - n) with (length - (w + n)) in S by lia.
    revert S. case_zb; intros S; apply IH; try lia; apply S; lia.
Qed.

Section read_data.
Context (m0 : mem) (fs : fs_ptrs) (inode buf off length : Z).
Hypotheses (Hfs : fs_ok m0 fs) (Hi : inode_ok m0 fs inode).
Hypotheses (Hoff : 0 <= off) (Hlen : 0 <= length)
           (Hend : off + length <= file_length m0 fs inode)
           (Hbuf : off_image m0 fs buf length).

Lemma read_data_loop_spec fuel m bn bp w :
  same_image m0 m fs -> 0 <= w <= length -> 0 <= bp < 4096 -> 4096 * bn + bp = off + w ->
  blocks_left bp (length - w) < Z.of_nat fuel ->
  read_data_loop fuel m fs inode buf length bn (off + w) bp w
  = Some (store_bytes m (buf + w) (file_slice m0 fs inode (off + w) (length - w)), length).
Proof.
  destruct (Hi) as [Hin Hfl Hblk]. unfold off_image in Hbuf.
  pose proof (image_layout m0 fs Hfs) as L.
  revert m bn bp w. induction fuel as [|f IH]; intros m bn bp w Hm Hw Hbp Hpos Hf.
  { pose proof (blocks_left_nonneg bp (length - w)). lia. }
  cbn [read_data_loop]. rewrite (image_file_length m0 fs Hfs m Hm) by done.
  destruct (Z.ltb_spec w length) as [Hlt|Hge]; simpl.
  2:{ replace w with length by lia. rewrite Z.sub_diag. unfold file_slice. simpl.
      rewrite s32_id by lia. done. }
  case_zb; [|lia]. rewrite FS_BLOCK_SIZE_eq.
  set (n := if 4096 - bp >? length - w then _ else _).
  assert (Hn : 0 < n <= 4096 - bp /\ n <= length - w /\ (n = length - w \/ n = 4096 - bp))
    by (unfold n; case_zb; lia).
  clearbody n. rewrite (image_data_blocks m0 fs Hfs m Hm) by lia.
  specialize (Hblk bn ltac:(lia)).
  pose proof (load32_range m0 (inode_block fs inode + 4 + 4 * bn)) as Hr.
  fold (data_blocks m0 fs inode bn) in Hr.
  assert (Hblock : read_block m fs (data_blocks m0 fs inode bn) bp (buf + w) n
    = (store_bytes m (buf + w) (file_slice m0 fs inode (off + w) n), n)).
  { unfold read_block. destruct (image_counts m0 fs Hfs m Hm) as (_ & _ & ->).
    rewrite FS_BLOCK_SIZE_eq. repeat case_zb; try lia.
    rewrite memcpy_spec by (unfold forward_ok; lia). unfold copied.
    rewrite <- (file_slice_block m0 fs inode (off + w) n bn bp) by lia.
    f_equal. f_equal. apply load_bytes_ext. intros x Hx. apply Hm. lia. }
  rewrite Hblock. case_zb; [lia|]. rewrite (u32_id (w + n)), (u32_id (off + w + n)), (u32_id (bp + n)) by lia.
  pose proof (length_file_slice m0 fs inode (off + w) n ltac:(lia) ltac:(lia) ltac:(lia)) as Hsl.
  assert (Hm' : same_image m0 (store_bytes m (buf + w) (file_slice m0 fs inode (off + w) n)) fs).
  { intros x Hx. rewrite load8_store_bytes_out by lia. by apply Hm. }
  replace (length - w) with (n + (length - (w + n))) by lia.
  rewrite file_slice_app, store_bytes_app, Hsl by lia.
  replace (off + w + n) with (off + (w + n)) by lia.
  replace (buf + w + n) with (buf + (w + n)) by lia.
  pose proof (blocks_left_step bp (n + (length - (w + n))) n f) as S.
  replace (n + (length - (w + n)) - n) with (length - (w + n)) in S by lia.
  revert S. case_zb; intros S; apply IH; try done; try lia; apply S; try lia.
  all: by replace (n + (length - (w + n))) with (length - w) by lia.
Qed.
End read_data.

Lemma shiftr12_div z : Z.shiftr z 12 = z / 4096.
Proof. exact (Z.shiftr_div_pow2 z 12 ltac:(lia)). Qed.

Lemma land4095_mod z : Z.land z (FS_BLOCK_SIZE - 1) = z mod 4096.
Proof. exact (Z.land_ones z 12 ltac:(lia)). Qed.

(** Bytes a read of [length] at [offset] delivers. *)
Definition read_count (m : mem) (fs : fs_ptrs) (inode offset length : Z) : Z :=
  Z.max 0 (Z.min length (file_length m fs inode - offset)).

Lemma read_data_spec m fs inode offset buf length :
  fs_ok m fs -> inode_ok m fs inode -> 0 <= offset -> 0 <= length ->
  length + offset < 0x100000000 ->
  let n := read_count m fs inode offset length in
  off_image m fs buf n ->
  read_data m fs inode offset buf length
  = (store_bytes m buf (file_slice m fs inode offset n), n).
Proof.
  intros Hfs Hi Hoff Hlen Hov n Hbuf. destruct (Hi) as [Hin Hfl Hblk].
  unfold off_image in Hbuf. unfold read_data. rewrite !Z.geb_leb, Z.gtb_ltb.
  destruct (Z.leb_spec (num_inodes m fs) inode); [lia|].
  destruct (Z.leb_spec (file_length m fs inode) offset).
  { assert (Hn : n = 0) by (unfold n, read_count; lia). rewrite Hn. done. }
  rewrite u32_id by lia. set (len := if file_length m fs inode <? _ then _ else _).
  assert (Hn : len = n) by (unfold len, n, read_count; case_zb; lia).
  clearbody len. subst len. assert (0 <= n <= file_length m fs inode - offset)
    by (unfold n, read_count; lia). clearbody n.
  rewrite shiftr12_div, land4095_mod.
  rewrite <- (Z.add_0_r offset) at 2.
  rewrite (read_data_loop_spec m fs inode buf offset n); try done; try divlia.
  - simpl. by rewrite !Z.add_0_r, Z.sub_0_r.
  - rewrite Z.sub_0_r, Nat2Z.inj_add, Z2Nat.id by divlia.
    unfold blocks_left. case_zb; divlia.
Qed.

(** * Directory entries *)

(** What a copied directory entry holds: the name padded with zeros, then the
    type, the inode number and the reserved bytes. *)
Definition dentry_bytes (m : mem) (dir_entry : Z) : list Z :=
  zero_pad 32 (chars m dir_entry MAX_FILE_NAME_LENGTH) ++ load_bytes m (dir_entry + 32) 32.

Lemma length_dentry_bytes m e : length (dentry_bytes m e) = 64%nat.
Proof.
  unfold dentry_bytes, chars. rewrite length_app, length_load_bytes, length_zero_pad; [done|].
  pose proof (length_cut (load_bytes m e (Z.to_nat MAX_FILE_NAME_LENGTH))) as H.
  by rewrite length_load_bytes in H.
Qed.

Lemma copy_dentry_spec m d e :
  d + 64 <= e \/ e + 64 <= d -> copy_dentry m d e = store_bytes m d (dentry_bytes m e).
Proof.
  intros Hd. unfold copy_dentry.
  assert (Hpad : length (zero_pad 32 (chars m e MAX_FILE_NAME_LENGTH)) = 32%nat).
  { apply length_zero_pad. unfold chars.
    pose proof (length_cut (load_bytes m e (Z.to_nat MAX_FILE_NAME_LENGTH))) as H.
    by rewrite length_load_bytes in H. }
  rewrite strncpy_spec by (unfold MAX_FILE_NAME_LENGTH; lia).
  change (Z.to_nat MAX_FILE_NAME_LENGTH) with 32%nat.
  unfold dentry_bytes. rewrite store_bytes_app, Hpad. change (Z.of_nat 32) with 32.
  set (m1 := store_bytes m d _).
  assert (Hm1 : forall a n, a = e + 32 \/ a = e + 36 \/ a = e + 40 -> (n <= 32)%nat ->
            a + Z.of_nat n <= e + 64 -> load_bytes m1 a n = load_bytes m a n).
  { intros a n Ha Hn He. apply load_bytes_ext. intros x Hx. apply load8_store_bytes_out. lia. }
  unfold store32, load32. rewrite !store_le_load_le, memcpy_spec by (unfold forward_ok; lia).
  unfold copied. change (Z.to_nat 24) with 24%nat.
  replace (load_bytes m (e + 32) 32) with (load_bytes m1 (e + 32) (4 + (4 + 24))) by (apply Hm1; lia).
  rewrite !load_bytes_app, !store_bytes_app, !length_load_bytes. change (Z.of_nat 4) with 4.
  replace (d + 32 + 4) with (d + 36) by lia. replace (d + 36 + 4) with (d + 40) by lia.
  replace (e + 32 + 4) with (e + 36) by lia. replace (e + 36 + 4) with (e + 40) by lia.
  set (m2 := store_bytes m1 (d + 32) (load_bytes m1 (e + 32) 4)).
  assert (Hm2 : load_bytes m2 (e + 36) 4 = load_bytes m1 (e + 36) 4).
  { apply load_bytes_ext. intros x Hx. apply load8_store_bytes_out. rewrite length_load_bytes. lia. }
  rewrite Hm2. f_equal. apply load_bytes_ext. intros x Hx.
  rewrite load8_store_bytes_out by (rewrite length_load_bytes; lia).
  apply load8_store_bytes_out. rewrite length_load_bytes. lia.
Qed.

(** The fields after the name come through a copy. *)
Lemma dentry_field m d e o :
  32 <= o <= 60 -> load32 (store_bytes m d (dentry_bytes m e)) (d + o) = load32 m (e + o).
Proof.
  intros Ho. apply load_le_shift. intros k Hk. simpl in Hk.
  pose proof (length_dentry_bytes m e) as Hl. rewrite load8_store_bytes_in by lia.
  unfold dentry_bytes in *. rewrite length_app, length_load_bytes in Hl.
  rewrite lookup_total_app_r, load_bytes_lookup by lia. rewrite u8_load8. f_equal. lia.
Qed.

(** The names of the directory, in order. *)
Definition dir_names (m : mem) (fs : fs_ptrs) : list (list Z) :=
  dir_name m fs <$> seqZ 0 (num_directory_entries m fs).

(** Index of the first entry with a given name. *)
Definition dir_lookup (m : mem) (fs : fs_ptrs) (name : list Z) : option Z :=
  Z.of_nat ∘ fst <$> list_find (fun nm => name = nm) (dir_names m fs).

(** The directory of an image that was not disturbed. *)
Lemma image_dir_lookup m m' fs name :
  fs_ok m fs -> same_image m m' fs -> dir_lookup m' fs name = dir_lookup m fs name.
Proof.
  intros Hfs Hs. pose proof (image_layout m fs Hfs) as IL.
  unfold dir_lookup, dir_names. destruct (image_counts m fs Hfs m' Hs) as (-> & _ & _).
  do 2 f_equal. apply list_fmap_ext. intros j i Hj. apply lookup_seqZ in Hj as [-> Hj].
  unfold dir_name, chars. f_equal. apply load_bytes_ext. intros x Hx. apply Hs.
  unfold directory_entry in Hx. change (Z.of_nat (Z.to_nat MAX_FILE_NAME_LENGTH)) with 32 in Hx. lia.
Qed.

Lemma image_dentry_inode m m' fs j :
  fs_ok m fs -> same_image m m' fs -> 0 <= j < num_directory_entries m fs ->
  dentry_inode_num m' (directory_entry fs j) = dentry_inode_num m (directory_entry fs j).
Proof.
  intros Hfs Hs Hj. pose proof (image_layout m fs Hfs) as IL.
  unfold dentry_inode_num. apply (image_load32 m fs m' Hs); unfold directory_entry; lia.
Qed.

Lemma read_dentry_loop_spec n m fs fname dentry i :
  read_dentry_loop n m fs fname dentry i =
  match list_find (fun nm => chars m fname MAX_FILE_NAME_LENGTH = nm)
          (dir_name m fs <$> seqZ i (Z.of_nat n)) with
  | Some (j, _) => (copy_dentry m dentry (directory_entry fs (i + Z.of_nat j)), 0)
  | None => (m, -1)
  end.
Proof.
  revert i. induction n as [|n IH]; intros i; [done|].
  rewrite seqZ_cons by lia. cbn [read_dentry_loop fmap list_fmap list_find].
  replace (Z.pred (Z.of_nat (S n))) with (Z.of_nat n) by lia.
  destruct (Z.eqb_spec (strncmp m fname (directory_entry fs i) MAX_FILE_NAME_LENGTH) 0) as [E|E];
    rewrite strncmp_zero in E.
  - rewrite decide_True by done. by rewrite Z.add_0_r.
  - rewrite decide_False by done. rewrite IH.
    replace (Z.succ i) with (i + 1) by lia.
    destruct (list_find _ _) as [[j nm]|]; simpl; [|done]. do 3 f_equal. lia.
Qed.

Lemma read_dentry_by_name_spec m fs fname dentry :
  read_dentry_by_name m fs fname dentry =
  match dir_lookup m fs (chars m fname MAX_FILE_NAME_LENGTH) with
  | Some i => (copy_dentry m dentry (directory_entry fs i), 0)
  | None => (m, -1)
  end.
Proof.
  unfold read_dentry_by_name, dir_lookup, dir_names. rewrite read_dentry_loop_spec.
  pose proof (load32_range m (fs_boot_ptr fs)).
  rewrite Z2Nat.id by (unfold num_directory_entries; lia).
  destruct (list_find _ _) as [[j nm]|]; simpl; done.
Qed.

Lemma dir_lookup_bounds m fs name i :
  dir_lookup m fs name = Some i ->
  0 <= i < num_directory_entries m fs /\ dir_name m fs i = name /\
  (forall j, 0 <= j < i -> dir_name m fs j <> name).
Proof.
  unfold dir_lookup, dir_names. intros H.
  destruct (list_find _ _) as [[j nm]|] eqn:E; simplify_eq/=.
  apply list_find_Some in E as (Hl & <- & Hfirst).
  rewrite list_lookup_fmap in Hl. apply fmap_Some in Hl as (k & Hk & ->).
  apply lookup_seqZ in Hk as [-> Hk]. rewrite Z.add_0_l. split; [lia|]. split; [done|].
  intros j' Hj' E. apply (Hfirst (Z.to_nat j') (dir_name m fs j')); [|lia|by symmetry].
  rewrite list_lookup_fmap, lookup_seqZ_lt by lia.
  by replace (0 + Z.of_nat (Z.to_nat j')) with j' by lia.
Qed.

(** * Properties *)

(** A filesystem image with one directory entry "a" for inode 0, a regular
    file of ten bytes in data block 1. *)
Definition example_image (ptr : Z) : mem :=
  let m := store32 (store32 (store32 ∅ ptr 1) (ptr + 4) 1) (ptr + 8) 2 in
  let m := store8 m (ptr + 64) 97 in
  let m := store32 (store32 m (ptr + 96) 2) (ptr + 100) 0 in
  let m := store32 (store32 m (ptr + 4096) 10) (ptr + 4100) 1 in
  store_bytes m (ptr + 3 * 4096) [104; 101; 108; 108; 111; 119; 111; 114; 108; 100].

Definition example_fs : fs_ptrs := ece391_fs_init (example_image 0x410000) 0x410000.

Lemma example_fs_ok : fs_ok (example_image 0x410000) example_fs.
Proof. split; [reflexivity|reflexivity|]. apply Z.leb_le. vm_compute. reflexivity. Qed.

Lemma example_inode_ok : inode_ok (example_image 0x410000) example_fs 0.
Proof.
  assert (E : file_length (example_image 0x410000) example_fs 0 = 10) by reflexivity.
  split.
  - split; [lia|]. apply Z.ltb_lt. vm_compute. reflexivity.
  - rewrite E. lia.
  - intros k Hk. rewrite E in Hk. assert (k = 0) as -> by lia.
    apply Z.ltb_lt. vm_compute. reflexivity.
Qed.

(** C3: [read_data] returns the bytes of the file.  For a well-formed inode, a
    buffer outside the image and an end of the request below 2^32 (see
    [read_data_past_eof]) it delivers exactly
    [min length (file_length - offset)] bytes (none at or past the end), the
    bytes it writes are that slice of the file across block boundaries, and
    nothing else in memory changes. *)
Theorem read_data_correct (m : mem) (fs : fs_ptrs) (inode offset buf length : Z) :
  fs_ok m fs -> inode_ok m fs inode -> 0 <= offset -> 0 <= length ->
  length + offset < 0x100000000 ->
  off_image m fs buf (read_count m fs inode offset length) ->
  let n := read_count m fs inode offset length in
  let '(m', r) := read_data m fs inode offset buf length in
  r = n /\ load_bytes m' buf (Z.to_nat n) = file_slice m fs inode offset n /\
  same_outside m m' buf (buf + n) /\ file_bytes m' fs inode = file_bytes m fs inode.
Proof.
  intros Hfs Hi Hoff Hlen Hov Hbuf n. rewrite read_data_spec by done. fold n. fold n in Hbuf.
  destruct (Z.eq_dec n 0) as [Hz|Hz].
  { rewrite Hz. unfold file_slice. simpl. by repeat split. }
  assert (Hl : zlen (file_slice m fs inode offset n) = n).
  { apply length_file_slice; unfold n, read_count in *; lia. }
  split; [done|]. split; [|split].
  - replace (Z.to_nat n) with (base.length (file_slice m fs inode offset n)) by lia.
    apply load_store_bytes. unfold file_slice. apply Forall_take, Forall_drop, Forall_fmap, Forall_true.
    intros. apply load8_range.
  - rewrite <- Hl at 2. apply store_bytes_outside.
  - apply image_file_bytes; [done| |done]. apply off_image_same. by rewrite Hl.
Qed.

Lemma read_data_correct_witness :
  let m := example_image 0x410000 in
  let '(m', r) := read_data m example_fs 0 5 0x8048000 100 in
  r = read_count m example_fs 0 5 100 /\
  load_bytes m' 0x8048000 5 = [119; 111; 114; 108; 100].
Proof.
  intros m.
  pose proof (read_data_correct m example_fs 0 5 0x8048000 100 example_fs_ok example_inode_ok) as P.
  assert (E : read_count m example_fs 0 5 100 = 5) by reflexivity.
  rewrite E in P |- *.
  destruct (read_data m example_fs 0 5 0x8048000 100) as [m' r].
  destruct P as (-> & P & _); [lia..| |].
  - right. apply Z.leb_le. vm_compute. reflexivity.
  - split; [reflexivity|]. transitivity (file_slice m example_fs 0 5 5); [exact P|reflexivity].
Defined.

(** C34: [read_data] terminates on every image: whatever the inode and the
    blocks hold, its loop ends within the fuel that [read_data] gives it,
    because each iteration copies at least one byte and at most two of them
    do not copy a whole block. *)
Theorem read_data_terminates (m : mem) (fs : fs_ptrs) (inode offset buf length : Z) :
  0 <= offset -> 0 <= length < 0x100000000 ->
  is_Some (read_data_loop (3 + Z.to_nat (length / 4096)) m fs inode buf length
             (Z.shiftr offset 12) offset (Z.land offset (FS_BLOCK_SIZE - 1)) 0).
Proof.
  intros Hoff Hlen. rewrite land4095_mod. apply read_data_loop_total; try lia; [divlia|].
  rewrite Z.sub_0_r, Nat2Z.inj_add, Z2Nat.id by divlia. unfold blocks_left. case_zb; divlia.
Qed.

Lemma read_data_terminates_witness :
  is_Some (read_data_loop (3 + Z.to_nat (9000 / 4096)) ∅ (Fs_ptrs 0 4096 8192) 7 4 9000
             (Z.shiftr 5 12) 5 (Z.land 5 (FS_BLOCK_SIZE - 1)) 0).
Proof. apply (read_data_terminates ∅ (Fs_ptrs 0 4096 8192) 7 5 4 9000); lia. Defined.

(** Finding: the cap at the end of the file is computed on a sum that wraps.  With
    [length + offset] past 2^32 the length is not capped, and a read of a
    file of ten bytes from offset 1 delivers 4095 bytes, the rest of the data
    block included. *)
Theorem read_data_past_eof :
  file_length (example_image 0x410000) example_fs 0 = 10 /\
  snd (read_data (example_image 0x410000) example_fs 0 1 0x8048000 0xFFFFFFFF) = 4095.
Proof. split; vm_compute; reflexivity. Qed.

(** C35: looking up a file by name finds the first directory entry whose name,
    cut at 32 characters, is the given one, fills the caller's [dentry_t] with
    that entry and returns 0; with no such entry it returns -1 and writes
    nothing. *)
Theorem read_dentry_by_name_correct (m : mem) (fs : fs_ptrs) (fname dentry : Z) :
  fs_ok m fs -> off_image m fs dentry 64 ->
  let name := chars m fname 32 in
  let '(m', r) := read_dentry_by_name m fs fname dentry in
  (r = 0 /\ exists i, 0 <= i < num_directory_entries m fs /\ dir_name m fs i = name /\
     (forall j, 0 <= j < i -> dir_name m fs j <> name) /\
     m' = store_bytes m dentry (dentry_bytes m (directory_entry fs i)) /\
     dentry_inode_num m' dentry = dentry_inode_num m (directory_entry fs i) /\
     dentry_file_type m' dentry = dentry_file_type m (directory_entry fs i)) \/
  (r = -1 /\ m' = m /\ forall i, 0 <= i < num_directory_entries m fs -> dir_name m fs i <> name).
Proof.
  intros Hfs Hd name. rewrite read_dentry_by_name_spec.
  change (chars m fname MAX_FILE_NAME_LENGTH) with name. unfold off_image in Hd.
  pose proof (image_layout m fs Hfs) as L.
  destruct (dir_lookup m fs name) as [i|] eqn:E; cbv beta iota.
  - left. split; [done|]. exists i. apply dir_lookup_bounds in E as (Hi & Hn & Hf).
    do 3 (split; [done|]).
    rewrite copy_dentry_spec by (unfold directory_entry; lia). split; [done|].
    split; (apply dentry_field; lia).
  - right. do 2 (split; [done|]). intros i Hi Hn. unfold dir_lookup in E.
    clearbody name. destruct (list_find _ _) as [p|] eqn:F in E; [done|].
    apply list_find_None in F. rewrite Forall_forall in F.
    apply (F (dir_name m fs i)); [|by symmetry].
    unfold dir_names. apply list_elem_of_fmap. exists i. split; [done|].
    apply elem_of_seqZ. lia.
Qed.

Lemma read_dentry_by_name_correct_witness :
  let m := store8 (example_image 0x410000) 0x8048000 97 in
  snd (read_dentry_by_name m example_fs 0x8048000 0x7FF000) = 0.
Proof.
  intros m.
  assert (Hs : same_image (example_image 0x410000) m example_fs).
  { intros x Hx. apply load8_store8_ne.
    assert (E : image_end (example_image 0x410000) example_fs = 0x414000) by reflexivity.
    rewrite E in Hx. lia. }
  assert (Hd : off_image m example_fs 0x7FF000 64).
  { unfold off_image. right. apply Z.leb_le. vm_compute. reflexivity. }
  pose proof (read_dentry_by_name_correct m example_fs 0x8048000 0x7FF000
                (same_image_fs_ok _ _ example_fs_ok _ Hs) Hd) as P.
  destruct (read_dentry_by_name m example_fs 0x8048000 0x7FF000) as [m' r].
  destruct P as [[-> _] | (_ & _ & P)].
  - reflexivity.
  - exfalso. apply (P 0); [|reflexivity].
    split; [lia|]. apply Z.ltb_lt. vm_compute. reflexivity.
Defined.
