(* ===== verification/Fs.v ===== *)
(** The file and directory operations of [fs/fs.c], the bridge between the
    system calls and the filesystem driver.

    A [file_t] is read and written at its address: [fops], [file_position],
    [flags] and [inode] are the words at offsets 0, 4, 8 and 12.  Functions
    with a local [dentry_t] take its stack address as the argument
    [local_dentry]. *)

From S2P Require Import Prelude Memory LibMem LibString Ece391Fs.

(** * The code *)

Definition f_fops (m : mem) (f : Z) : Z := load32 m f.
Definition f_position (m : mem) (f : Z) : Z := load32 m (f + 4).
Definition f_flags (m : mem) (f : Z) : Z := load32 m (f + 8).
Definition f_inode (m : mem) (f : Z) : Z := load32 m (f + 12).
Definition sizeof_file_t : Z := 16.

Definition file_open (m : mem) (f filename : Z) : mem * Z := (m, 0).
Definition file_close (m : mem) (f : Z) : mem * Z := (m, 0).

(** [nbytes] is converted to [uint32_t] by the call of [read_data]. *)
Definition file_read (m : mem) (fs : fs_ptrs) (f buf nbytes : Z) : mem * Z :=
  let '(m, res) := read_data m fs (f_inode m f) (f_position m f) buf (u32 nbytes) in
  if res <? 0 then (m, -1)
  else (store32 m (f + 4) (f_position m f + res), res).

Definition file_write (m : mem) (f buf nbytes : Z) : mem * Z := (m, -1).

Definition read_file_by_name (m : mem) (fs : fs_ptrs) (local_dentry filename buf nbytes : Z)
  : mem * Z :=
  let '(m, res) := read_dentry_by_name m fs filename local_dentry in
  if res <? 0 then (m, -1)
  else read_data m fs (dentry_inode_num m local_dentry) 0 buf nbytes.

Definition dir_open (m : mem) (f filename : Z) : mem * Z := (m, 0).
Definition dir_close (m : mem) (f : Z) : mem * Z := (m, 0).

(** The count is an [int] and is converted to [uint32_t] by [memcpy]. *)
Definition dir_read (m : mem) (fs : fs_ptrs) (local_dentry f buf nbytes : Z) : mem * Z :=
  let '(m, res) := read_dentry_by_index m fs (f_position m f) local_dentry in
  if res <? 0 then (m, 0)
  else
    let m := store32 m (f + 4) (f_position m f + 1) in
    let num_bytes_to_copy := MAX_FILE_NAME_LENGTH in
    let num_bytes_to_copy :=
      if num_bytes_to_copy >? nbytes then nbytes else num_bytes_to_copy in
    (memcpy m buf local_dentry (u32 num_bytes_to_copy), num_bytes_to_copy).

Definition dir_write (m : mem) (f buf nbytes : Z) : mem * Z := (m, -1).

(** * Sequential reading *)

(** A client that reads chunks of [n] bytes until a read returns zero or
    fails, and keeps what it got; this is how [cat] and [grep] read a file. *)
Fixpoint read_all (fuel : nat) (m : mem) (fs : fs_ptrs) (f buf n : Z) : option (mem * list Z) :=
  match fuel with
  | O => None
  | S k =>
      let '(m', r) := file_read m fs f buf n in
      if r <=? 0 then Some (m', [])
      else
        match read_all k m' fs f buf n with
        | None => None
        | Some (m'', rest) => Some (m'', load_bytes m' buf (Z.to_nat r) ++ rest)
        end
  end.

(** A client's buffer, file structure and image do not overlap. *)
Record client_ok (m : mem) (fs : fs_ptrs) (f buf n : Z) : Prop := {
  cl_fs : fs_ok m fs;
  cl_inode : inode_ok m fs (f_inode m f);
  cl_f : off_image m fs f sizeof_file_t;
  cl_buf : off_image m fs buf n;
  cl_apart : buf + n <= f \/ f + sizeof_file_t <= buf
}.

Section file_read.
Context (m : mem) (fs : fs_ptrs) (f buf n : Z).
Hypotheses (Hc : client_ok m fs f buf n) (Hn : 0 <= n < 0x80000000).

Let pos := f_position m f.
Let ino := f_inode m f.
Let got := read_count m fs ino pos n.

Hypothesis (Hpos : pos < 0x80000000).

Lemma file_read_spec :
  file_read m fs f buf n
  = (store32 (store_bytes m buf (file_slice m fs ino pos got)) (f + 4) (pos + got), got).
Proof.
  destruct Hc as [Hfs Hi Hf Hb Ha]. unfold file_read.
  pose proof (load32_range m (f + 4)) as Hp0. fold (f_position m f) in Hp0. fold pos in Hp0.
  assert (Hg : 0 <= got <= n) by (unfold got, read_count; lia).
  rewrite u32_id by lia. fold ino pos.
  unfold off_image in Hb.
  rewrite read_data_spec; try done; try lia; [|unfold off_image; fold got; lia]. fold got.
  case_zb; [lia|].
  assert (E : f_position (store_bytes m buf (file_slice m fs ino pos got)) f = pos).
  { apply load_le_store_bytes_out. simpl Z.of_nat. unfold sizeof_file_t in Ha.
    assert (zlen (file_slice m fs ino pos got) <= got); [|lia].
    unfold file_slice. rewrite length_take. lia. }
  by rewrite E.
Qed.

Lemma file_read_memory :
  let '(m', r) := file_read m fs f buf n in
  r = got /\ load_bytes m' buf (Z.to_nat got) = file_slice m fs ino pos got /\
  f_position m' f = pos + got /\ f_inode m' f = ino /\ same_image m m' fs /\
  client_ok m' fs f buf n.
Proof.
  rewrite file_read_spec. destruct (Hc) as [Hfs Hi Hf Hb Ha].
  pose proof (load32_range m (f + 4)) as Hp0. fold (f_position m f) in Hp0. fold pos in Hp0.
  set (l := file_slice m fs ino pos got). unfold off_image, sizeof_file_t in *.
  assert (Hg : 0 <= got <= n) by (unfold got, read_count; lia).
  assert (Hl : zlen l = got).
  { unfold l. destruct (Z.eq_dec got 0) as [->|]; [done|].
    apply length_file_slice; unfold got, read_count in *; fold ino in Hi; lia. }
  set (m' := store32 _ _ _).
  assert (Hsame : same_image m m' fs).
  { intros x Hx. unfold m'. rewrite load8_store32_ne by lia.
    apply load8_store_bytes_out. lia. }
  assert (Hino : f_inode m' f = ino).
  { unfold f_inode, m'. rewrite load32_store32_ne by lia.
    apply load_le_store_bytes_out. simpl Z.of_nat. lia. }
  split; [done|]. split; [|split; [|split; [done|split; [done|]]]].
  - unfold m'. rewrite (load_bytes_ext (store_bytes m buf l)).
    + rewrite <- Hl, Nat2Z.id. apply load_store_bytes.
      apply Forall_take, Forall_drop, Forall_fmap, Forall_true. intros. apply load8_range.
    + intros x Hx. apply load8_store32_ne. lia.
  - unfold f_position, m'. rewrite load32_store32_eq, u32_id; [done|].
    unfold got, read_count. destruct Hi as [_ Hle _]. fold ino in Hle. lia.
  - rewrite <- (image_end_same m fs Hfs m' Hsame) in *.
    split; unfold off_image, sizeof_file_t; try done.
    + by apply same_image_fs_ok with m.
    + rewrite Hino. by apply same_image_inode_ok with m.
Qed.
End file_read.

Lemma read_all_spec fuel m fs f buf n :
  client_ok m fs f buf n -> 0 < n < 0x80000000 ->
  f_position m f <= file_length m fs (f_inode m f) ->
  (Z.to_nat (file_length m fs (f_inode m f) - f_position m f) < fuel)%nat ->
  exists m', read_all fuel m fs f buf n
  = Some (m', drop (Z.to_nat (f_position m f)) (file_bytes m fs (f_inode m f))).
Proof.
  revert m. induction fuel as [|k IH]; intros m Hc Hn Hpos Hfuel; [lia|].
  destruct (Hc) as [Hfs Hi _ _ _]. pose proof (ok_length _ _ _ Hi) as Hlen.
  pose proof (load32_range m (f + 4)) as Hp0. fold (f_position m f) in Hp0.
  pose proof (file_read_memory m fs f buf n Hc ltac:(lia) ltac:(lia)) as P.
  cbn [read_all]. destruct (file_read m fs f buf n) as [m' r].
  destruct P as (-> & Hbytes & Hp & Hino & Hsame & Hc').
  set (ino := f_inode m f) in *. set (pos := f_position m f) in *.
  set (got := read_count m fs ino pos n) in *.
  assert (Hgot : got = Z.min n (file_length m fs ino - pos)) by (unfold got, read_count; lia).
  case_zb.
  - exists m'. rewrite drop_ge; [done|]. rewrite length_file_bytes. lia.
  - assert (Hfl : file_length m' fs ino = file_length m fs ino)
      by apply (image_file_length m fs Hfs m' Hsame), Hi.
    destruct (IH m' Hc' Hn) as (m'' & ->); [rewrite Hino, Hfl, Hp; lia..|].
    exists m''. rewrite Hbytes, Hino, Hp, (image_file_bytes m fs Hfs m' Hsame) by done.
    unfold file_slice. rewrite Z2Nat.inj_add by lia. rewrite <- drop_drop, take_drop. done.
Qed.

(** * Properties *)

(** Reading a whole file by name: the caller's [dentry_t] is filled and the
    first bytes of the file are in the buffer. *)
Lemma read_file_by_name_spec m fs local_dentry filename buf nbytes :
  fs_ok m fs -> off_image m fs local_dentry 64 ->
  0 <= nbytes < 0x100000000 -> off_image m fs buf nbytes ->
  match dir_lookup m fs (chars m filename MAX_FILE_NAME_LENGTH) with
  | None => read_file_by_name m fs local_dentry filename buf nbytes = (m, -1)
  | Some i =>
      let inode := dentry_inode_num m (directory_entry fs i) in
      inode_ok m fs inode ->
      let n := Z.min nbytes (file_length m fs inode) in
      read_file_by_name m fs local_dentry filename buf nbytes
      = (store_bytes
           (store_bytes m local_dentry (dentry_bytes m (directory_entry fs i)))
           buf (take (Z.to_nat n) (file_bytes m fs inode)), n)
  end.
Proof.
  intros Hfs Hd Hnb Hbuf. unfold read_file_by_name. rewrite read_dentry_by_name_spec.
  pose proof (image_layout m fs Hfs) as L.
  destruct (dir_lookup m fs _) as [i|] eqn:E; [|done]. cbv zeta. intros Hi.
  set (inode := dentry_inode_num m (directory_entry fs i)) in *.
  set (n := Z.min nbytes _).
  apply dir_lookup_bounds in E as (Hib & _ & _). cbv iota beta. unfold off_image in Hd, Hbuf.
  rewrite copy_dentry_spec by (unfold directory_entry; lia).
  set (m1 := store_bytes m local_dentry _).
  assert (Hs : same_image m m1 fs).
  { apply off_image_same. rewrite length_dentry_bytes. exact Hd. }
  assert (Ei : dentry_inode_num m1 local_dentry = inode) by (apply dentry_field; lia).
  pose proof (load32_range m (inode_block fs inode)) as Hlen. fold (file_length m fs inode) in Hlen.
  assert (En : read_count m1 fs inode 0 nbytes = n).
  { unfold read_count, n. rewrite (image_file_length m fs Hfs m1 Hs) by apply Hi. lia. }
  destruct (Z.ltb_spec 0 0); [lia|].
  rewrite Ei, read_data_spec; try lia.
  - rewrite En. unfold file_slice. by rewrite (image_file_bytes m fs Hfs m1 Hs).
  - by eapply same_image_fs_ok.
  - by eapply same_image_inode_ok.
  - rewrite En. unfold off_image. rewrite (image_end_same m fs Hfs m1 Hs). lia.
Qed.

(** C30: a client that reads an open file chunk by chunk gets the whole file:
    for every chunk size, reading from position 0 until a read returns zero
    ends, and the concatenation of the chunks is the contents of the file. *)
Theorem sequential_read_complete (m : mem) (fs : fs_ptrs) (f buf n : Z) :
  client_ok m fs f buf n -> 0 < n < 0x80000000 -> f_position m f = 0 ->
  exists m', read_all (S (Z.to_nat (file_length m fs (f_inode m f)))) m fs f buf n
             = Some (m', file_bytes m fs (f_inode m f)).
Proof.
  intros Hc Hn Hp.
  pose proof (read_all_spec (S (Z.to_nat (file_length m fs (f_inode m f)))) m fs f buf n Hc Hn) as P.
  rewrite Hp in P. apply P.
  - apply load32_range.
  - lia.
Qed.

Lemma sequential_read_complete_witness :
  exists m', read_all 11 (example_image 0x410000) example_fs 0x7FE028 0x8048000 4
             = Some (m', [104; 101; 108; 108; 111; 119; 111; 114; 108; 100]).
Proof.
  apply (sequential_read_complete (example_image 0x410000) example_fs 0x7FE028 0x8048000 4).
  - split.
    + exact example_fs_ok.
    + exact example_inode_ok.
    + right. apply Z.leb_le. vm_compute. reflexivity.
    + right. apply Z.leb_le. vm_compute. reflexivity.
    + right. unfold sizeof_file_t. lia.
  - lia.
  - vm_compute. reflexivity.
Defined.

Lemma dir_read_spec (m : mem) (fs : fs_ptrs) (local_dentry f buf nbytes : Z) :
  fs_ok m fs -> off_image m fs local_dentry 64 -> 0 <= nbytes ->
  local_dentry + 64 <= f \/ f + sizeof_file_t <= local_dentry ->
  local_dentry + 64 <= buf \/ buf + 32 <= local_dentry ->
  f + sizeof_file_t <= buf \/ buf + 32 <= f ->
  let i := f_position m f in
  let '(m', r) := dir_read m fs local_dentry f buf nbytes in
  if i <? num_directory_entries m fs then
    r = Z.min 32 nbytes /\ f_position m' f = i + 1 /\
    load_bytes m' buf (Z.to_nat r) = take (Z.to_nat r) (zero_pad 32 (dir_name m fs i)) /\
    (forall x, x < local_dentry \/ local_dentry + 64 <= x -> x < f + 4 \/ f + 8 <= x ->
       x < buf \/ buf + r <= x -> load8 m' x = load8 m x)
  else r = 0 /\ m' = m.
Proof.
  intros Hfs Hd Hn Hdf Hdb Hfb i. unfold dir_read, read_dentry_by_index.
  unfold off_image, sizeof_file_t in *. pose proof (image_layout m fs Hfs) as L.
  pose proof (load32_range m (f + 4)) as Hp0. fold (f_position m f) in Hp0. fold i. fold i in Hp0.
  rewrite Z.geb_leb, Z.leb_antisym.
  destruct (Z.ltb_spec i (num_directory_entries m fs)) as [Hi|Hi]; cbn [negb]; [|by split].
  rewrite copy_dentry_spec by (unfold directory_entry; lia).
  change (0 <? 0) with false. cbv beta iota zeta.
  set (m1 := store_bytes m local_dentry _).
  pose proof (length_dentry_bytes m (directory_entry fs i)) as Hl.
  assert (Hp : f_position m1 f = i).
  { apply load_le_store_bytes_out. simpl Z.of_nat. lia. }
  rewrite Hp. set (n := if MAX_FILE_NAME_LENGTH >? nbytes then _ else _).
  assert (En : n = Z.min 32 nbytes) by (unfold n, MAX_FILE_NAME_LENGTH; case_zb; lia).
  clearbody n. rewrite u32_id, memcpy_spec by (unfold forward_ok; lia).
  set (m2 := store32 m1 _ _). split; [done|]. split; [|split].
  - unfold f_position. erewrite same_outside_load32; [|apply copied_outside; lia|lia].
    unfold m2. rewrite load32_store32_eq. apply u32_id. lia.
  - apply list_eq_total; rewrite length_load_bytes.
    { rewrite length_take. unfold dentry_bytes in Hl.
      rewrite length_app, length_load_bytes in Hl. unfold dir_name. lia. }
    intros j Hj. rewrite load_bytes_lookup, lookup_total_take', load8_copied by lia.
    repeat (case_zb; simpl); try lia.
    unfold m2. rewrite load8_store32_ne by lia. unfold m1.
    rewrite load8_store_bytes_in by lia.
    replace (Z.to_nat _) with j by lia. unfold dentry_bytes. unfold dentry_bytes in Hl.
    rewrite length_app, length_load_bytes in Hl.
    rewrite lookup_total_app_l by lia. apply u8_id.
    assert (F : Forall (fun b => 0 <= b < 256) (zero_pad 32 (chars m (directory_entry fs i) MAX_FILE_NAME_LENGTH))).
    { apply Forall_app. split; [|apply Forall_replicate; lia].
      eapply Forall_impl; [apply chars_range|]. simpl. lia. }
    rewrite Forall_lookup in F. apply (F j).
    apply list_lookup_lookup_total_lt. unfold dir_name. lia.
  - intros x Hx1 Hx2 Hx3. transitivity (load8 m2 x); [apply (copied_outside m2 buf); lia|].
    unfold m2. rewrite load8_store32_ne by lia. apply load8_store_bytes_out. rewrite Hl. lia.
Qed.

(** C36: [dir_read] lists the directory.  At position [i] below the number of
    entries it moves on to [i+1] and delivers the first [min 32 nbytes] bytes
    of entry [i]'s zero-padded name; past the last entry it returns 0 and
    changes nothing. *)
Theorem dir_read_correct (m : mem) (fs : fs_ptrs) (local_dentry f buf nbytes : Z) :
  fs_ok m fs -> off_image m fs local_dentry 64 -> 0 <= nbytes ->
  local_dentry + 64 <= f \/ f + sizeof_file_t <= local_dentry ->
  local_dentry + 64 <= buf \/ buf + 32 <= local_dentry ->
  f + sizeof_file_t <= buf \/ buf + 32 <= f ->
  let i := f_position m f in
  let '(m', r) := dir_read m fs local_dentry f buf nbytes in
  if i <? num_directory_entries m fs then
    r = Z.min 32 nbytes /\ f_position m' f = i + 1 /\
    load_bytes m' buf (Z.to_nat r) = take (Z.to_nat r) (zero_pad 32 (dir_name m fs i))
  else r = 0 /\ m' = m.
Proof.
  intros Hfs Hd Hn Hdf Hdb Hfb i. pose proof (dir_read_spec m fs local_dentry f buf nbytes Hfs Hd Hn Hdf Hdb Hfb) as P.
  cbv zeta in P. fold i in P. destruct (dir_read _ _ _ _ _ _) as [m' r]. destruct (i <? _); [|exact P].
  destruct P as (P1 & P2 & P3 & _). by split_and!.
Qed.

Lemma dir_read_correct_witness :
  let m := example_image 0x410000 in
  let '(m', r) := dir_read m example_fs 0x7FEF00 0x7FE028 0x8048000 32 in
  r = 32 /\ f_position m' 0x7FE028 = 1 /\
  load_bytes m' 0x8048000 32 = 97 :: replicate 31 0.
Proof.
  intros m.
  assert (Hd : off_image m example_fs 0x7FEF00 64)
    by (right; apply Z.leb_le; vm_compute; reflexivity).
  pose proof (dir_read_correct m example_fs 0x7FEF00 0x7FE028 0x8048000 32 example_fs_ok Hd
    ltac:(lia) ltac:(unfold sizeof_file_t; lia) ltac:(lia) ltac:(unfold sizeof_file_t; lia)) as P.
  change (f_position m 0x7FE028) with 0 in P.
  change (num_directory_entries m example_fs) with 1 in P.
  destruct (dir_read m example_fs 0x7FEF00 0x7FE028 0x8048000 32) as [m' r].
  destruct P as (-> & P1 & P2). split; [reflexivity|]. split; [exact P1|].
  transitivity (take (Z.to_nat (Z.min 32 32)) (zero_pad 32 (dir_name m example_fs 0)));
    [exact P2|reflexivity].
Defined.
