(* ===== verification/Pcb.v ===== *)
(** Process control blocks: the structure [pcb_t] ([include/arch/x86/task.h])
    at its address in memory, where slots keep their stack, PCB and program
    page, and the parts of [arch/x86/task.c] that only concern one PCB:
    parsing a command line and loading a program.

    [get_current_pcb] takes the address of a stack variable; that address is
    the argument [esp]. *)

From S2P Require Import Prelude Memory Layout LibMem LibString Ece391Fs Fs Paging.

(** * The structure *)

Record pcb_field := PcbField { pf_offset : Z; pf_width : nat }.

Definition pcb_get (m : mem) (pcb : Z) (f : pcb_field) : Z :=
  load_le (pf_width f) m (pcb + pf_offset f).
Definition pcb_set (m : mem) (pcb : Z) (f : pcb_field) (v : Z) : mem :=
  store_le (pf_width f) m (pcb + pf_offset f) v.

Definition parent := PcbField 0 4.
Definition child := PcbField 4 4.
Definition process_pd_ptr := PcbField 8 4.
Definition regs_esp := PcbField 12 4.
Definition regs_ebp := PcbField 16 4.
(** [iret] (five words at 20) is never used. *)
Definition fa_offset : Z := 40.
Definition program_name_offset : Z := 168.
Definition args_offset : Z := 296.
Definition entrypoint := PcbField 424 4.
Definition slot_num := PcbField 428 4.
Definition pid := PcbField 432 4.
Definition in_use := PcbField 436 1.
Definition terminal_num := PcbField 437 1.
Definition rtc_enabled := PcbField 438 1.
Definition rtc_interval := PcbField 440 4.
Definition remaining_rtc_ticks := PcbField 444 4.
Definition status := PcbField 448 4.
Definition sizeof_pcb_t : Z := 452.

(** [&pcb->fa[i]], [pcb->program_name] and [pcb->args]. *)
Definition fa (pcb i : Z) : Z := pcb + fa_offset + sizeof_file_t * i.
Definition program_name (pcb : Z) : Z := pcb + program_name_offset.
Definition args (pcb : Z) : Z := pcb + args_offset.

Definition MAX_FILE_DESCRIPTORS : Z := 8.
Definition FILE_IN_USE : Z := 1.
Definition PROCESS_NONE : Z := 0.
Definition PROCESS_RUNNING : Z := 1.
Definition PROCESS_BLOCKED : Z := 2.
Definition KERNEL_PAGE_END : Z := 0x800000.
Definition PROCESS_PAGE_SIZE : Z := 0x400000.
Definition KERNEL_STACK_SIZE : Z := 0x2000.
Definition PCB_BITMASK : Z := Z.lnot 0x1FFF.
Definition PROCESS_LINK_OFFSET : Z := 0x48000.
Definition PROCESS_VIRT_PAGE_START : Z := 0x8000000.
Definition PROCESS_LINK_START : Z := PROCESS_VIRT_PAGE_START + PROCESS_LINK_OFFSET.
Definition ELF_MAGIC_HEADER_LEN : Z := 4.
Definition ELF_ENTRYPOINT_OFFSET : Z := 24.

(** * Slots *)

Definition get_pcb_from_esp (process_esp : Z) : Z := Z.land (u32 (process_esp - 1)) (u32 PCB_BITMASK).
Definition get_pcb_from_slot (pcb_slot : Z) : Z :=
  u32 (KERNEL_PAGE_END - KERNEL_STACK_SIZE * (pcb_slot + 1)).
Definition get_current_pcb (esp : Z) : Z := get_pcb_from_esp esp.
Definition get_current_kernel_stack_base (esp : Z) : Z :=
  u32 (Z.land (u32 esp) (u32 PCB_BITMASK) + KERNEL_STACK_SIZE).
Definition get_kernel_stack_base_from_slot (pcb_slot : Z) : Z :=
  u32 (KERNEL_PAGE_END - KERNEL_STACK_SIZE * pcb_slot).
Definition get_process_page_from_slot (task_slot : Z) : Z :=
  u32 (KERNEL_PAGE_END + PROCESS_PAGE_SIZE * task_slot).

(** * Standard streams *)

Definition open_stdin_and_stdout `{L : Layout} (m : mem) (pcb : Z) : mem :=
  let m := store32 m (fa pcb 0 + 8) FILE_IN_USE in
  let m := store32 m (fa pcb 0) stdin_fops in
  let m := store32 m (fa pcb 0 + 4) 0 in
  let m := store32 m (fa pcb 1 + 8) FILE_IN_USE in
  let m := store32 m (fa pcb 1) stdout_fops in
  store32 m (fa pcb 1 + 4) 0.

(** * Command lines *)

(** The scan for a blank or the end: the index it stops at and the character
    there.  It stops within [size m + 1] steps, since a memory holds finitely
    many non-zero bytes. *)
Fixpoint parse_scan (fuel : nat) (m : mem) (command index : Z) : Z * Z :=
  let ch := load8 m (command + index) in
  match fuel with
  | O => (index, ch)
  | S f => if (ch =? 32) || (ch =? 0) then (index, ch) else parse_scan f m command (index + 1)
  end.

Definition parse_command (m : mem) (command buf_name buf_args : Z) : mem * Z :=
  let '(index, ch) := parse_scan (S (size m)) m command 0 in
  let len_name := index in
  let m := strncpy m buf_name command len_name in
  let m := store8 m (buf_name + len_name) 0 in
  let '(m, len_args) :=
    if ch =? 32 then
      let index := index + 1 in
      let len_args := strlen m (command + index) in
      (strncpy m buf_args (command + index) len_args, len_args)
    else (m, 0) in
  (store8 m (buf_args + len_args) 0, len_args).

(** * Programs *)

Definition get_executable_entrypoint `{L : Layout} (m : mem) (executable : Z) : Z :=
  if truthy (strncmp m executable elf_magic ELF_MAGIC_HEADER_LEN) then 0
  else load32 m (executable + ELF_ENTRYPOINT_OFFSET).

Definition load_program_into_slot `{L : Layout} (m : mem) (fs : fs_ptrs)
    (local_dentry filename pcb_slot : Z) : mem * Z :=
  let process_page := get_process_page_from_slot pcb_slot in
  let '(m, retval) :=
    read_file_by_name m fs local_dentry filename (process_page + PROCESS_LINK_OFFSET)
      (PROCESS_PAGE_SIZE - PROCESS_LINK_OFFSET) in
  if retval <? 0 then (m, 0)
  else if retval <=? ELF_MAGIC_HEADER_LEN then (m, 0)
  else (m, get_executable_entrypoint m (process_page + PROCESS_LINK_OFFSET)).

(** * Reading and writing fields *)

Definition fields_apart (f g : pcb_field) : bool :=
  (pf_offset f + Z.of_nat (pf_width f) <=? pf_offset g)
  || (pf_offset g + Z.of_nat (pf_width g) <=? pf_offset f).

Lemma pcb_get_set_eq m p f v : pcb_get (pcb_set m p f v) p f = v mod 256 ^ Z.of_nat (pf_width f).
Proof. apply load_le_store_le_eq. Qed.

Lemma pcb_get_set_ne m p f g v : fields_apart f g = true -> pcb_get (pcb_set m p f v) p g = pcb_get m p g.
Proof.
  unfold fields_apart. intros H. apply load_le_store_le_ne.
  apply orb_true_iff in H as [H%Z.leb_le|H%Z.leb_le]; lia.
Qed.

(** Fields of the structure, as opposed to arbitrary offsets. *)
Definition in_pcb (f : pcb_field) : bool :=
  (0 <=? pf_offset f) && (pf_offset f + Z.of_nat (pf_width f) <=? sizeof_pcb_t).

Lemma in_pcb_bounds f :
  in_pcb f = true -> 0 <= pf_offset f /\ pf_offset f + Z.of_nat (pf_width f) <= 452.
Proof. unfold in_pcb, sizeof_pcb_t. intros (H & H')%andb_true_iff. lia. Qed.

Lemma pcb_get_set_other m p q f g v :
  in_pcb f = true -> in_pcb g = true -> p + 452 <= q \/ q + 452 <= p ->
  pcb_get (pcb_set m p f v) q g = pcb_get m q g.
Proof. intros Hf%in_pcb_bounds Hg%in_pcb_bounds Hpq. apply load_le_store_le_ne. lia. Qed.

Lemma pcb_get_ext m m' p f :
  in_pcb f = true -> (forall x, p <= x < p + 452 -> load8 m' x = load8 m x) ->
  pcb_get m' p f = pcb_get m p f.
Proof. intros Hf%in_pcb_bounds H. apply load_le_ext. intros x Hx. apply H. lia. Qed.

Lemma pcb_set_outside m p f v : in_pcb f = true -> same_outside m (pcb_set m p f v) p (p + 452).
Proof. intros Hf%in_pcb_bounds x Hx. apply load8_store_le_out. lia. Qed.

Lemma pcb_get_range m p f : 0 <= pcb_get m p f < 256 ^ Z.of_nat (pf_width f).
Proof. apply load_le_range. Qed.

Create Rewrite HintDb kpcb.
#[export] Hint Rewrite pcb_get_set_eq : kpcb.
#[export] Hint Rewrite pcb_get_set_ne using reflexivity : kpcb.

(** * Where slots are *)

Lemma mask_pcb a : 0 <= a < 0x100000000 -> Z.land a (u32 PCB_BITMASK) = 0x2000 * (a / 0x2000).
Proof.
  intros Ha. replace (u32 PCB_BITMASK) with (Z.shiftl (Z.ones 19) 13) by reflexivity.
  transitivity (Z.shiftl (Z.land (Z.shiftr a 13) (Z.ones 19)) 13).
  - apply Z.bits_inj'. intros n Hn. rewrite Z.land_spec, !Z.shiftl_spec by lia.
    destruct (Z.ltb_spec n 13).
    + rewrite !(Z.testbit_neg_r _ (n - 13)) by lia. apply andb_false_r.
    + rewrite Z.land_spec, Z.shiftr_spec by lia. by replace (n - 13 + 13) with n by lia.
  - rewrite Z.land_ones, Z.shiftl_mul_pow2, Z.shiftr_div_pow2 by lia.
    change (2 ^ 13) with 0x2000. change (2 ^ 19) with 0x80000. divlia.
Qed.

Section slots.
Context (i : Z) (Hi : 0 <= i < 6).

Lemma pcb_from_slot_eq : get_pcb_from_slot i = 0x7FE000 - 0x2000 * i.
Proof. unfold get_pcb_from_slot, KERNEL_PAGE_END, KERNEL_STACK_SIZE. rewrite u32_id; lia. Qed.

Lemma stack_base_eq : get_kernel_stack_base_from_slot i = get_pcb_from_slot i + 0x2000.
Proof.
  rewrite pcb_from_slot_eq.
  unfold get_kernel_stack_base_from_slot, KERNEL_PAGE_END, KERNEL_STACK_SIZE. rewrite u32_id; lia.
Qed.

Lemma process_page_eq : get_process_page_from_slot i = 0x800000 + 0x400000 * i.
Proof.
  unfold get_process_page_from_slot, KERNEL_PAGE_END, PROCESS_PAGE_SIZE. rewrite u32_id; lia.
Qed.

Lemma pcb_from_esp_eq esp :
  get_pcb_from_slot i < esp <= get_kernel_stack_base_from_slot i ->
  get_pcb_from_esp esp = get_pcb_from_slot i.
Proof.
  rewrite stack_base_eq, pcb_from_slot_eq. intros H. unfold get_pcb_from_esp.
  rewrite u32_id by lia. rewrite mask_pcb by lia. divlia.
Qed.
End slots.

(** * Command lines *)

(** A command is a name and, after the first blank, arguments. *)
Fixpoint split_command (l : list Z) : list Z * option (list Z) :=
  match l with
  | [] => ([], None)
  | b :: l' =>
      if b =? 32 then ([], Some l')
      else let '(name, rest) := split_command l' in (b :: name, rest)
  end.

Definition command_name (l : list Z) : list Z := (split_command l).1.
Definition command_args (l : list Z) : list Z := default [] (split_command l).2.

Lemma split_command_spec l :
  l = command_name l ++ match (split_command l).2 with None => [] | Some r => 32 :: r end /\
  Forall (fun b => b <> 32) (command_name l).
Proof.
  unfold command_name. induction l as [|b l [IH IH']]; simpl; [done|].
  destruct (Z.eqb_spec b 32) as [->|Hb]; simpl; [done|].
  destruct (split_command l) as [n r]. simpl in *. split; [by f_equal|by constructor].
Qed.

Lemma parse_scan_stop fuel m command index k :
  0 <= k -> (Z.to_nat k <= fuel)%nat ->
  (forall i, 0 <= i < k -> load8 m (command + index + i) <> 32 /\ load8 m (command + index + i) <> 0) ->
  load8 m (command + index + k) = 32 \/ load8 m (command + index + k) = 0 ->
  parse_scan fuel m command index = (index + k, load8 m (command + index + k)).
Proof.
  revert index k. induction fuel as [|f IH]; intros index k Hk Hf Hbefore Hstop.
  - replace k with 0 by lia. simpl. by rewrite !Z.add_0_r.
  - cbn [parse_scan]. destruct (Z.eq_dec k 0) as [->|Hne].
    + rewrite !Z.add_0_r in *.
      destruct Hstop as [E|E]; rewrite E; done.
    + destruct (Hbefore 0 ltac:(lia)) as [H1 H2]. rewrite Z.add_0_r in H1, H2.
      destruct (Z.eqb_spec (load8 m (command + index)) 32); [done|].
      destruct (Z.eqb_spec (load8 m (command + index)) 0); [done|]. cbn [orb].
      rewrite (IH (index + 1) (k - 1)); try lia.
      * replace (command + (index + 1) + (k - 1)) with (command + index + k) by lia. f_equal. lia.
      * intros i Hi. replace (command + (index + 1) + i) with (command + index + (i + 1)) by lia.
        apply Hbefore. lia.
      * by replace (command + (index + 1) + (k - 1)) with (command + index + k) by lia.
Qed.

Lemma cstr_app m s l k : cstr m s (l ++ k) -> cstr m (s + zlen l) k.
Proof.
  intros (Hl & Hnz & Hz). rewrite length_app, load_bytes_app in Hl.
  apply app_inj_1 in Hl as [_ Hk]; [|by rewrite length_load_bytes].
  split; [done|]. split; [by apply Forall_app in Hnz as [_ ?]|].
  rewrite length_app in Hz. rewrite <- Hz. f_equal. lia.
Qed.

Lemma cstr_chars_take m s l n : cstr m s l -> 0 <= n -> chars m s n = take (Z.to_nat n) l.
Proof.
  intros Hc Hn. pose proof Hc as (Hl & Hnz & Hz). unfold chars.
  destruct (decide (Z.to_nat n <= length l)%nat) as [H|H].
  - rewrite <- Hl at 1. replace (load_bytes m s (Z.to_nat n)) with (take (Z.to_nat n) l).
    + rewrite Hl. rewrite <- (app_nil_r (take _ l)) at 1. rewrite cut_app_nonzero by by apply Forall_take.
      apply app_nil_r.
    + rewrite <- Hl at 1. replace (length l) with (Z.to_nat n + (length l - Z.to_nat n))%nat by lia.
      rewrite load_bytes_app. apply take_app_length'. symmetry. apply length_load_bytes.
  - replace (Z.to_nat n) with (length l + S (Z.to_nat n - length l - 1))%nat at 1 by lia.
    rewrite load_bytes_app, load_bytes_S, Hz, Hl, cut_app_nonzero by done.
    rewrite take_ge by lia. simpl. apply app_nil_r.
Qed.

Lemma cstr_chars m s l k : cstr m s (l ++ k) -> chars m s (zlen l) = l.
Proof.
  intros (Hl & Hnz & _). unfold chars. rewrite Nat2Z.id.
  rewrite length_app, load_bytes_app in Hl.
  apply app_inj_1 in Hl as [-> _]; [|by rewrite length_load_bytes].
  apply Forall_app in Hnz as [Hnz _]. rewrite <- (app_nil_r l) at 1.
  rewrite cut_app_nonzero by done. apply app_nil_r.
Qed.

(** Copying a prefix of a string and terminating it. *)
Lemma copy_prefix m dest src l k :
  cstr m src (l ++ k) -> dest <= src \/ src + zlen l <= dest ->
  store8 (strncpy m dest src (zlen l)) (dest + zlen l) 0 = store_bytes m dest (l ++ [0]).
Proof.
  intros Hc Hd. rewrite strncpy_spec by lia. rewrite (cstr_chars _ _ _ _ Hc), Nat2Z.id.
  unfold zero_pad. rewrite Nat.sub_diag, app_nil_r, store_bytes_app. done.
Qed.

Section parse.
Context (m : mem) (command buf_name buf_args : Z) (l : list Z).
Let name := command_name l.
Let arg := command_args l.
Hypotheses (Hc : cstr m command l)
           (Hn : buf_name + zlen name < command \/ command + zlen l < buf_name)
           (Ha : buf_args + zlen arg < command \/ command + zlen l < buf_args).

Lemma parse_scan_command :
  parse_scan (S (size m)) m command 0
  = (zlen name, match (split_command l).2 with None => 0 | Some _ => 32 end).
Proof.
  destruct (split_command_spec l) as [E Hsp]. fold name in E, Hsp.
  assert (Hlen : (length name <= length l)%nat) by (rewrite E, length_app; lia).
  assert (Hsize : (length l <= size m)%nat).
  { apply (nonzero_run_bounded m command). intros i Hi. by eapply cstr_nonzero. }
  rewrite (parse_scan_stop _ m command 0 (zlen name)); [|lia|lia| |]; rewrite ?Z.add_0_r.
  - f_equal. destruct (split_command l).2 as [r|].
    + erewrite cstr_lookup; [|done|rewrite E, length_app; simpl; lia].
      rewrite E. by rewrite list_lookup_total_middle.
    + rewrite app_nil_r in E. rewrite <- E. by destruct Hc as (_ & _ & ?).
  - intros i Hi. split; [|eapply cstr_nonzero; [done|lia]].
    replace i with (Z.of_nat (Z.to_nat i)) by lia.
    erewrite cstr_lookup by (done || lia). rewrite E, lookup_total_app_l' by lia.
    rewrite Forall_lookup in Hsp. apply (Hsp (Z.to_nat i)), list_lookup_lookup_total_lt. lia.
  - destruct (split_command l).2 as [r|].
    + left. erewrite cstr_lookup; [|done|rewrite E, length_app; simpl; lia].
      rewrite E. by rewrite list_lookup_total_middle.
    + right. rewrite app_nil_r in E. rewrite <- E. by destruct Hc as (_ & _ & ?).
Qed.

Lemma parse_command_spec :
  parse_command m command buf_name buf_args
  = (store_bytes (store_bytes m buf_name (name ++ [0])) buf_args (arg ++ [0]), zlen arg).
Proof.
  unfold parse_command. rewrite parse_scan_command.
  destruct (split_command_spec l) as [E _]. fold name in E. unfold arg, command_args in *.
  assert (Hle : zlen name <= zlen l) by (rewrite E, length_app; lia).
  destruct (split_command l).2 as [r|]; simpl in *.
  - rewrite (copy_prefix m buf_name command name (32 :: r)); [|by rewrite <- E|lia].
    set (m1 := store_bytes m buf_name (name ++ [0])).
    assert (Hl : zlen l = zlen name + 1 + zlen r) by (rewrite E, length_app; simpl; lia).
    assert (Hr : cstr m1 (command + (zlen name + 1)) r).
    { apply (cstr_ext m).
      - intros x Hx. apply load8_store_bytes_out. rewrite length_app. simpl. lia.
      - rewrite (cons_middle 32 name r), app_assoc in E. rewrite E in Hc. apply cstr_app in Hc.
        rewrite length_app in Hc. simpl in Hc.
        by replace (command + (zlen name + 1)) with (command + Z.of_nat (length name + 1)) by lia. }
    rewrite (strlen_cstr _ _ _ Hr). f_equal.
    apply (copy_prefix m1 buf_args (command + (zlen name + 1)) r []); [by rewrite app_nil_r|lia].
  - rewrite (copy_prefix m buf_name command name []); [|by rewrite <- E|lia].
    by rewrite Z.add_0_r.
Qed.
End parse.

(** * Loading a program *)

Definition le_word (l : list Z) : Z := foldr (fun b acc => b + 256 * acc) 0 l.

Lemma load_le_word n m a : load_le n m a = le_word (load_bytes m a n).
Proof.
  revert a. induction n as [|n IH]; intros a; [done|].
  rewrite load_bytes_S. simpl. by rewrite IH.
Qed.

Definition ELF_MAGIC_HEADER : list Z := [0x7f; 0x45; 0x4c; 0x46].

(** The entry point a file announces, zero if it is not an ELF file. *)
Definition executable_entry (file : list Z) : Z :=
  if decide (take 4 file = ELF_MAGIC_HEADER) then le_word (take 4 (drop 24 file)) else 0.

Lemma cut_full l k : cut l = k -> length k = length l -> l = k.
Proof.
  revert k. induction l as [|b l IH]; intros k; simpl.
  - by intros <-.
  - case_zb; intros <-; simpl; [done|]. intros [= H]. f_equal. by apply IH.
Qed.

Lemma load_bytes_take m a n k : (n <= k)%nat -> load_bytes m a n = take n (load_bytes m a k).
Proof.
  intros H. replace k with (n + (k - n))%nat by lia.
  rewrite load_bytes_app, take_app_length'; [done|by rewrite length_load_bytes].
Qed.

(** A padded name with a zero behind it. *)
Lemma cstr_zero_pad n m a name :
  load_bytes m a n = zero_pad n name -> (length name <= n)%nat -> Forall (fun b => b <> 0) name ->
  load8 m (a + Z.of_nat n) = 0 -> cstr m a name.
Proof.
  intros B Hl Hz V. split; [|split; [done|]].
  - rewrite (load_bytes_take _ _ _ n), B by lia. unfold zero_pad. by rewrite take_app_length.
  - destruct (decide (length name = n)) as [->|Hne]; [exact V|].
    pose proof (f_equal (fun l => l !!! length name) B) as E. cbv beta in E.
    rewrite load_bytes_lookup in E by lia. rewrite E. unfold zero_pad.
    rewrite lookup_total_app_r by lia. apply lookup_total_replicate_2. lia.
Qed.

Section load.
Context `{L : Layout}.

Lemma entrypoint_spec m exe :
  cstr m elf_magic ELF_MAGIC_HEADER ->
  get_executable_entrypoint m exe
  = if decide (load_bytes m exe 4 = ELF_MAGIC_HEADER) then load32 m (exe + 24) else 0.
Proof.
  intros Hmagic. unfold get_executable_entrypoint, truthy.
  destruct (Z.eqb_spec (strncmp m exe elf_magic ELF_MAGIC_HEADER_LEN) 0) as [E|E];
    rewrite strncmp_zero in E; cbn [negb];
    replace (chars m elf_magic ELF_MAGIC_HEADER_LEN) with ELF_MAGIC_HEADER in E
      by (symmetry; apply (cstr_chars m elf_magic ELF_MAGIC_HEADER []); exact Hmagic).
  - rewrite decide_True; [done|]. by apply cut_full in E.
  - rewrite decide_False; [done|]. intros E'. apply E. unfold chars.
    change (Z.to_nat ELF_MAGIC_HEADER_LEN) with 4%nat. by rewrite E'.
Qed.

Context (m : mem) (fs : fs_ptrs) (local_dentry filename slot : Z).
Let base := get_process_page_from_slot slot + PROCESS_LINK_OFFSET.
Let room := PROCESS_PAGE_SIZE - PROCESS_LINK_OFFSET.

(** What a load relies on: the image, the caller's [dentry_t] and the
    string literal are outside the program's page and each other. *)
Record load_ok : Prop := {
  ld_slot : 0 <= slot < 6;
  ld_fs : fs_ok m fs;
  ld_dentry : off_image m fs local_dentry 64;
  ld_page : off_image m fs base room;
  ld_magic : cstr m elf_magic ELF_MAGIC_HEADER;
  ld_magic_apart : (elf_magic + 5 <= local_dentry \/ local_dentry + 64 <= elf_magic) /\
                   elf_magic + 5 <= base
}.

Lemma load_program_spec :
  load_ok ->
  match dir_lookup m fs (chars m filename MAX_FILE_NAME_LENGTH) with
  | None => load_program_into_slot m fs local_dentry filename slot = (m, 0)
  | Some i =>
      let inode := dentry_inode_num m (directory_entry fs i) in
      inode_ok m fs inode ->
      let file := file_bytes m fs inode in
      let n := Z.min room (zlen file) in
      let m' := store_bytes
                  (store_bytes m local_dentry (dentry_bytes m (directory_entry fs i)))
                  base (take (Z.to_nat n) file) in
      load_program_into_slot m fs local_dentry filename slot
      = (m', if (4 <? zlen file) && bool_decide (take 4 file = ELF_MAGIC_HEADER)
             then load32 m' (base + 24) else 0)
  end.
Proof.
  intros [Hs Hfs Hd Hp Hm [Ha Hb]].
  pose proof (read_file_by_name_spec m fs local_dentry filename base room Hfs Hd
                ltac:(unfold room, PROCESS_PAGE_SIZE, PROCESS_LINK_OFFSET; lia) Hp) as R.
  unfold load_program_into_slot. fold base room.
  destruct (dir_lookup m fs _) as [i|]; [|by rewrite R].
  cbv zeta. intros Hi. specialize (R Hi). cbv zeta in R.
  set (inode := dentry_inode_num m (directory_entry fs i)) in *.
  set (file := file_bytes m fs inode) in *. set (n := Z.min room (zlen file)).
  set (m' := store_bytes _ base _).
  pose proof (load32_range m (inode_block fs inode)) as Hlen. fold (file_length m fs inode) in Hlen.
  assert (Hfl : zlen file = file_length m fs inode)
    by (unfold file; rewrite length_file_bytes; lia).
  rewrite <- Hfl in R. fold file in R. fold n in R. fold m' in R. rewrite R.
  assert (Hroom : room = 0x3B8000) by reflexivity.
  destruct (Z.ltb_spec n 0); [lia|]. unfold ELF_MAGIC_HEADER_LEN.
  destruct (Z.leb_spec n 4), (Z.ltb_spec 4 (zlen file)); try lia; [done|]. f_equal. cbn [andb].
  rewrite entrypoint_spec.
  - assert (E4 : load_bytes m' base 4 = take 4 file).
    { assert (Hl : length (take (Z.to_nat n) file) = Z.to_nat n) by (rewrite length_take; lia).
      rewrite (load_bytes_take m' base 4 (Z.to_nat n)) by lia. rewrite <- Hl at 1.
      unfold m'. rewrite load_store_bytes.
      - rewrite take_take. f_equal. lia.
      - apply Forall_take, Forall_fmap, Forall_true. intros. apply load8_range. }
    rewrite E4. by destruct (decide (take 4 file = ELF_MAGIC_HEADER)) as [E|E];
      [rewrite (bool_decide_eq_true_2 _ E)|rewrite (bool_decide_eq_false_2 _ E)].
  - apply (cstr_ext m); [|done]. simpl. intros x Hx. unfold m'.
    rewrite load8_store_bytes_out by (rewrite length_take; lia).
    apply load8_store_bytes_out. rewrite length_dentry_bytes. lia.
Qed.
End load.

(** * Address spaces of the program pages *)

(** Paging operations as the kernel issues them: a slot's program page, and
    video frames below the program pages. *)
Definition kernel_op (o : paging_op) : Prop :=
  match o with
  | SetupProcess slot pa va => pa = get_process_page_from_slot slot /\ va + 0x1000 <= 0x800000
  | SetVmemPage _ va => va + 0x1000 <= 0x800000
  end.

Definition kernel_spaces (s : spaces) : Prop :=
  forall slot pa va, s !! slot = Some (pa, va) ->
    pa = get_process_page_from_slot slot /\ va + 0x1000 <= 0x800000.

Lemma kernel_ops_spaces ops s :
  Forall kernel_op ops -> kernel_spaces s -> kernel_spaces (foldl spec_op s ops).
Proof.
  intros H. revert s. induction H as [|o ops Ho _ IH]; intros s Hs; [done|].
  apply IH. intros slot pa va. destruct o as [j p v|j v]; simpl in *.
  - destruct (decide (j = slot)) as [<-|Hne].
    + rewrite lookup_insert_eq. by intros [= <- <-].
    + rewrite lookup_insert_ne by done. apply Hs.
  - destruct (decide (j = slot)) as [<-|Hne].
    + rewrite lookup_alter_eq. destruct (s !! j) as [[p v']|] eqn:E; [|done].
      intros [= <- <-]. by destruct (Hs _ _ _ E).
    + rewrite lookup_alter_ne by done. apply Hs.
Qed.

(** What user mode can reach in an address space. *)
Lemma address_space_user pa va v a :
  address_space pa va v = Some (a, true) ->
  (0x8000000 <= v < 0x8400000 /\ a = pa + (v - 0x8000000)) \/
  (0x8400000 <= v < 0x8401000 /\ a = va + (v - 0x8400000)).
Proof.
  unfold address_space. repeat (case_zb; cbn [andb]; try lia); try (intros [= <-]; lia);
    destruct (kernel_mapped v); intros [=].
Qed.

(** * Properties *)

(** C38: the layout of slots.  Any stack pointer inside the kernel stack of a
    slot identifies that slot's PCB and stack base; PCB and stack of different
    slots are disjoint and lie in the kernel page above its image; program
    pages are 4 MB aligned, disjoint from each other and from the kernel page,
    and below the paging structures. *)
Theorem slot_geometry (i j esp : Z) :
  0 <= i < 6 -> 0 <= j < 6 ->
  get_pcb_from_slot i < esp < get_kernel_stack_base_from_slot i ->
  get_current_pcb esp = get_pcb_from_slot i /\
  get_current_kernel_stack_base esp = get_kernel_stack_base_from_slot i /\
  get_kernel_stack_base_from_slot i - get_pcb_from_slot i = KERNEL_STACK_SIZE /\
  KERNEL_IMAGE_END <= get_pcb_from_slot i /\ get_kernel_stack_base_from_slot i <= KERNEL_PAGE_END /\
  get_process_page_from_slot i mod PROCESS_PAGE_SIZE = 0 /\
  KERNEL_PAGE_END <= get_process_page_from_slot i /\
  get_process_page_from_slot i + PROCESS_PAGE_SIZE <= PAGING_STRUCT_ADDR /\
  (i < j ->
    get_kernel_stack_base_from_slot j <= get_pcb_from_slot i /\
    get_process_page_from_slot i + PROCESS_PAGE_SIZE <= get_process_page_from_slot j).
Proof.
  intros Hi Hj He. unfold get_current_pcb.
  rewrite (pcb_from_esp_eq i Hi) by lia. split; [done|].
  rewrite !stack_base_eq, !pcb_from_slot_eq in * by done. rewrite !process_page_eq by done.
  unfold get_current_kernel_stack_base, KERNEL_IMAGE_END, KERNEL_PAGE_END, PROCESS_PAGE_SIZE,
    KERNEL_STACK_SIZE, PAGING_STRUCT_ADDR, FOUR_MB_ALIGNED.
  rewrite (u32_id esp), mask_pcb, u32_id by divlia. repeat split; try lia; divlia.
Qed.

Lemma slot_geometry_witness : get_current_pcb 0x7FDFF0 = get_pcb_from_slot 1.
Proof. apply (slot_geometry 1 2 0x7FDFF0); [lia|lia|]. split; reflexivity. Defined.

(** The parts of a command that fits the PCB. *)
Lemma parse_command_parts (m : mem) (command pcb : Z) (l : list Z) :
  cstr m command l ->
  command + zlen l < pcb \/ pcb + sizeof_pcb_t <= command ->
  zlen (command_name l) < 128 -> zlen (command_args l) < 128 ->
  let '(m', r) := parse_command m command (program_name pcb) (args pcb) in
  cstr m' (program_name pcb) (command_name l) /\ cstr m' (args pcb) (command_args l) /\
  r = zlen (command_args l) /\ same_outside m m' (program_name pcb) (args pcb + 128).
Proof.
  intros Hc Ho Hn Ha.
  assert (Hcl : Forall (fun b => b <> 0) l) by apply Hc.
  assert (Hrange : Forall (fun b => 0 <= b < 256) l)
    by (destruct Hc as (Hl & _ & _); rewrite <- Hl; apply load_bytes_range).
  destruct (split_command_spec l) as [E _].
  unfold sizeof_pcb_t, program_name, args, program_name_offset, args_offset in *.
  rewrite (parse_command_spec m command (pcb + 168) (pcb + 296) l); [|done|lia|lia].
  set (name := command_name l) in *. set (arg := command_args l) in *.
  assert (Hparts : Forall (fun b => b <> 0) (name ++ arg) /\
                   Forall (fun b => 0 <= b < 256) (name ++ arg)).
  { unfold arg, command_args. clear -E Hcl Hrange.
    destruct (split_command l).2 as [r|]; rewrite E in Hcl, Hrange; simpl.
    - rewrite Forall_app, Forall_cons in Hcl, Hrange. rewrite !Forall_app. tauto.
    - done. }
  rewrite !Forall_app in Hparts. destruct Hparts as [[N1 N2] [R1 R2]].
  assert (Hstr : forall m0 a k, Forall (fun b => b <> 0) k -> Forall (fun b => 0 <= b < 256) k ->
            cstr (store_bytes m0 a (k ++ [0])) a k).
  { intros m0 a k Hk Hr. split; [|split; [done|]].
    - rewrite store_bytes_app. etransitivity; [|by apply (load_store_bytes m0 a k)].
      apply load_bytes_ext. intros x Hx. apply load8_store_bytes_out. simpl. lia.
    - rewrite store_bytes_app. simpl. rewrite load8_store8_eq. done. }
  split; [|split; [|split; [done|]]].
  - apply (cstr_ext (store_bytes m (pcb + 168) (name ++ [0]))); [|by apply Hstr].
    intros x Hx. apply load8_store_bytes_out. lia.
  - by apply Hstr.
  - intros x Hx. rewrite !load8_store_bytes_out; [done|..]; rewrite length_app; simpl; lia.
Qed.

(** C37: [parse_command] splits a command at its first blank.  For a command
    whose name and arguments are shorter than the 128 bytes of their buffers
    and that lies outside the PCB, the PCB's name and arguments are the two
    parts as C strings, the result is the length of the arguments, and no
    other byte of memory changes. *)
Theorem parse_command_correct (m : mem) (command pcb : Z) (l : list Z) :
  cstr m command l ->
  command + zlen l < pcb \/ pcb + sizeof_pcb_t <= command ->
  zlen (command_name l) < 128 -> zlen (command_args l) < 128 ->
  let '(m', r) := parse_command m command (program_name pcb) (args pcb) in
  cstr m' (program_name pcb) (command_name l) /\ cstr m' (args pcb) (command_args l) /\
  r = zlen (command_args l) /\ same_outside m m' (program_name pcb) (args pcb + 128).
Proof. exact (parse_command_parts m command pcb l). Qed.

Lemma parse_command_correct_witness :
  let m := store_bytes ∅ 0x8048000 [99; 97; 116; 32; 97; 32; 98] in
  let '(m', r) := parse_command m 0x8048000 (program_name 0x7FE000) (args 0x7FE000) in
  cstr m' (program_name 0x7FE000) [99; 97; 116] /\ cstr m' (args 0x7FE000) [97; 32; 98] /\ r = 3.
Proof.
  intros m.
  pose proof (parse_command_correct m 0x8048000 0x7FE000 [99; 97; 116; 32; 97; 32; 98]) as P.
  destruct (parse_command m _ _ _) as [m' r].
  destruct P as (P1 & P2 & P3 & _).
  - split; [reflexivity|]. split; [|reflexivity].
    apply (bool_decide_unpack _). vm_compute. exact I.
  - right. unfold sizeof_pcb_t. lia.
  - reflexivity.
  - reflexivity.
  - exact (conj P1 (conj P2 P3)).
Defined.

(** Finding: neither copy of [parse_command] is bounded by the size of its
    buffer.  Arguments of 136 characters or more run over the fields behind
    [args]: the child's [slot_num], which [syscall_execute] uses next to choose
    the page the program is loaded into, becomes characters 132 to 135 of the
    arguments. *)
Theorem parse_command_overflow (m : mem) (command pcb : Z) (l : list Z) :
  cstr m command l -> pcb + sizeof_pcb_t + zlen l <= command ->
  136 <= zlen (command_args l) ->
  let '(m', _) := parse_command m command (program_name pcb) (args pcb) in
  pcb_get m' pcb slot_num = le_word (take 4 (drop 132 (command_args l))).
Proof.
  intros Hc Ho Ha.
  assert (Hrange : Forall (fun b => 0 <= b < 256) l)
    by (destruct Hc as (Hl & _ & _); rewrite <- Hl; apply load_bytes_range).
  destruct (split_command_spec l) as [E _].
  assert (Hlen : zlen (command_name l) + zlen (command_args l) <= zlen l).
  { unfold command_args. rewrite E at 3. rewrite length_app.
    destruct (split_command l).2; simpl; lia. }
  unfold sizeof_pcb_t, program_name, args, program_name_offset, args_offset in *.
  rewrite (parse_command_spec m command (pcb + 168) (pcb + 296) l); [|done|lia|lia].
  set (m1 := store_bytes m _ _). set (arg := command_args l) in *.
  assert (Hr : Forall (fun b => 0 <= b < 256) (arg ++ [0])).
  { apply Forall_app; split; [|apply Forall_singleton; lia]. unfold arg, command_args.
    destruct (split_command l).2 as [r|]; simpl; [|constructor].
    rewrite E in Hrange. by apply Forall_app in Hrange as [_ [_ ?]%Forall_cons]. }
  unfold pcb_get, slot_num. cbn [pf_width pf_offset]. rewrite load_le_word. f_equal.
  replace (pcb + 428) with (pcb + 296 + Z.of_nat 132) by lia.
  pose proof (load_store_bytes m1 (pcb + 296) (arg ++ [0]) Hr) as B.
  apply list_eq_total.
  { rewrite length_load_bytes, length_take, length_drop. lia. }
  intros k Hk. rewrite length_load_bytes in Hk. rewrite load_bytes_lookup by lia.
  rewrite load8_store_bytes_in by (rewrite length_app; simpl; lia).
  rewrite lookup_total_take', lookup_total_drop' by lia.
  replace (Z.to_nat _) with (132 + k)%nat by lia.
  rewrite lookup_total_app_l' by lia. apply u8_id.
  rewrite Forall_app in Hr. destruct Hr as [Hr _]. rewrite Forall_lookup in Hr.
  apply (Hr (132 + k)%nat), list_lookup_lookup_total_lt. lia.
Qed.

Lemma parse_command_overflow_witness :
  let l := [120; 32] ++ replicate 132 97 ++ [5; 1; 1; 1] in
  let '(m', _) := parse_command (store_bytes ∅ 0x8048000 l) 0x8048000
                    (program_name 0x7FC000) (args 0x7FC000) in
  pcb_get m' 0x7FC000 slot_num = 0x01010105.
Proof.
  intros l. apply (parse_command_overflow (store_bytes ∅ 0x8048000 l) 0x8048000 0x7FC000 l).
  - split; [vm_compute; reflexivity|]. split; [|vm_compute; reflexivity].
    apply (bool_decide_unpack _). vm_compute. exact I.
  - apply Z.leb_le. vm_compute. reflexivity.
  - apply Z.leb_le. vm_compute. reflexivity.
Defined.

(** The effect of a load, found or not. *)
Lemma load_program_effect `{L : Layout} (m : mem) (fs : fs_ptrs)
    (local_dentry filename slot : Z) :
  load_ok m fs local_dentry slot ->
  (forall i, dir_lookup m fs (chars m filename 32) = Some i ->
     inode_ok m fs (dentry_inode_num m (directory_entry fs i))) ->
  let '(m', r) := load_program_into_slot m fs local_dentry filename slot in
  match dir_lookup m fs (chars m filename 32) with
  | None => m' = m /\ r = 0
  | Some i =>
      let file := file_bytes m fs (dentry_inode_num m (directory_entry fs i)) in
      let page := get_process_page_from_slot slot in
      let n := Z.min (PROCESS_PAGE_SIZE - PROCESS_LINK_OFFSET) (zlen file) in
      load_bytes m' (page + PROCESS_LINK_OFFSET) (Z.to_nat n) = take (Z.to_nat n) file /\
      (forall x, (x < page \/ page + PROCESS_PAGE_SIZE <= x) ->
                 (x < local_dentry \/ local_dentry + 64 <= x) -> load8 m' x = load8 m x) /\
      (zlen file <= 4 \/ take 4 file <> ELF_MAGIC_HEADER -> r = 0) /\
      (28 <= zlen file -> r = executable_entry file)
  end.
Proof.
  intros Hok Hino. pose proof (load_program_spec m fs local_dentry filename slot Hok) as P.
  change (chars m filename 32) with (chars m filename MAX_FILE_NAME_LENGTH) in *.
  destruct (dir_lookup m fs _) as [i|]; [|by rewrite P].
  specialize (P (Hino i eq_refl)). cbv zeta in P |- *. rewrite P. clear P.
  set (file := file_bytes _ _ _). set (page := get_process_page_from_slot slot).
  assert (Hroom : PROCESS_PAGE_SIZE - PROCESS_LINK_OFFSET = 0x3B8000) by reflexivity.
  rewrite Hroom. set (n := Z.min 0x3B8000 (zlen file)).
  assert (Hl : length (take (Z.to_nat n) file) = Z.to_nat n) by (rewrite length_take; lia).
  set (m1 := store_bytes m local_dentry _). set (m' := store_bytes m1 _ _).
  assert (HB : load_bytes m' (page + PROCESS_LINK_OFFSET) (Z.to_nat n) = take (Z.to_nat n) file).
  { rewrite <- Hl at 1. unfold m'. apply load_store_bytes.
    apply Forall_take, Forall_fmap, Forall_true. intros. apply load8_range. }
  split; [exact HB|]. split; [|split].
  - intros x Hx Hd. unfold m', PROCESS_PAGE_SIZE, PROCESS_LINK_OFFSET in *.
    rewrite load8_store_bytes_out by (fold page; rewrite Hl; lia).
    apply load8_store_bytes_out. rewrite length_dentry_bytes. lia.
  - intros [H|H].
    + destruct (Z.ltb_spec 4 (zlen file)); [lia|done].
    + rewrite (bool_decide_eq_false_2 _ H). by rewrite andb_false_r.
  - intros H28. destruct (Z.ltb_spec 4 (zlen file)); [|lia]. cbn [andb]. unfold executable_entry.
    case_bool_decide; [rewrite decide_True by done|by rewrite decide_False by done].
    unfold load32. rewrite load_le_word. f_equal.
    apply list_eq_total; rewrite length_load_bytes; [rewrite length_take, length_drop; lia|].
    intros k Hk. rewrite load_bytes_lookup, lookup_total_take', lookup_total_drop' by done.
    fold page. rewrite <- Z.add_assoc, Z.add_assoc.
    replace (page + PROCESS_LINK_OFFSET + 24 + Z.of_nat k)
      with (page + PROCESS_LINK_OFFSET + Z.of_nat (24 + k)) by lia.
    rewrite <- (load_bytes_lookup m' (page + PROCESS_LINK_OFFSET) (Z.to_nat n)), HB by lia.
    by rewrite lookup_total_take' by lia.
Qed.

(** C27: loading a program.  With no directory entry of that name nothing
    changes and the result is 0.  Otherwise the slot's program page holds the
    file from the link offset on (cut at the end of the page, never beyond
    it), only that page and the caller's [dentry_t] change, and the result is
    the entry point the ELF header announces, or 0 for a file of at most four
    bytes or without the ELF magic. *)
Theorem load_program_correct `{L : Layout} (m : mem) (fs : fs_ptrs)
    (local_dentry filename slot : Z) :
  load_ok m fs local_dentry slot ->
  (forall i, dir_lookup m fs (chars m filename 32) = Some i ->
     inode_ok m fs (dentry_inode_num m (directory_entry fs i))) ->
  let '(m', r) := load_program_into_slot m fs local_dentry filename slot in
  match dir_lookup m fs (chars m filename 32) with
  | None => m' = m /\ r = 0
  | Some i =>
      let file := file_bytes m fs (dentry_inode_num m (directory_entry fs i)) in
      let page := get_process_page_from_slot slot in
      let n := Z.min (PROCESS_PAGE_SIZE - PROCESS_LINK_OFFSET) (zlen file) in
      load_bytes m' (page + PROCESS_LINK_OFFSET) (Z.to_nat n) = take (Z.to_nat n) file /\
      (forall x, (x < page \/ page + PROCESS_PAGE_SIZE <= x) ->
                 (x < local_dentry \/ local_dentry + 64 <= x) -> load8 m' x = load8 m x) /\
      (zlen file <= 4 \/ take 4 file <> ELF_MAGIC_HEADER -> r = 0) /\
      (28 <= zlen file -> r = executable_entry file)
  end.
Proof. exact (load_program_effect m fs local_dentry filename slot). Qed.

(** A program image: the file "a" is an ELF header that announces 0x8048094,
    the literal is linked, and the name is in the PCB of slot 0. *)
Definition example_elf : list Z :=
  ELF_MAGIC_HEADER ++ replicate 20 1 ++ [0x94; 0x80; 0x04; 0x08].

Definition example_program : mem :=
  let m := store32 (example_image 0x410000) 0x411000 28 in
  let m := store_bytes m 0x413000 example_elf in
  let m := store_bytes m 0x409050 (ELF_MAGIC_HEADER ++ [0]) in
  store_bytes m (program_name 0x7FE000) [97; 0].

Lemma example_load_ok : load_ok (L := example_layout) example_program example_fs 0x7FDF00 2.
Proof.
  assert (E : image_end example_program example_fs = 0x414000) by reflexivity.
  split.
  - lia.
  - split; [reflexivity|reflexivity|]. apply Z.leb_le. vm_compute. reflexivity.
  - right. rewrite E. lia.
  - right. rewrite E. apply Z.leb_le. vm_compute. reflexivity.
  - split; [vm_compute; reflexivity|]. split; [|vm_compute; reflexivity].
    apply (bool_decide_unpack _). vm_compute. exact I.
  - split; [left|]; apply Z.leb_le; vm_compute; reflexivity.
Qed.

Lemma example_program_inode i :
  dir_lookup example_program example_fs (chars example_program (program_name 0x7FE000) 32) = Some i ->
  i = 0 /\ inode_ok example_program example_fs
             (dentry_inode_num example_program (directory_entry example_fs i)).
Proof.
  replace (dir_lookup _ _ _) with (Some 0) by (vm_compute; reflexivity). intros [= <-].
  split; [done|].
  assert (E0 : dentry_inode_num example_program (directory_entry example_fs 0) = 0)
    by (vm_compute; reflexivity).
  assert (E : file_length example_program example_fs 0 = 28) by (vm_compute; reflexivity).
  rewrite E0. split.
  - split; [lia|]. apply Z.ltb_lt. vm_compute. reflexivity.
  - rewrite E. lia.
  - intros k Hk. rewrite E in Hk. assert (k = 0) as -> by lia.
    apply Z.ltb_lt. vm_compute. reflexivity.
Qed.

Lemma load_program_correct_witness :
  snd (load_program_into_slot (L := example_layout) example_program example_fs 0x7FDF00
         (program_name 0x7FE000) 2) = 0x8048094.
Proof.
  pose proof (load_program_correct (L := example_layout) example_program example_fs 0x7FDF00
                (program_name 0x7FE000) 2 example_load_ok
                (fun i Hi => proj2 (example_program_inode i Hi))) as P.
  destruct (load_program_into_slot _ _ _ _ _) as [m' r].
  assert (E : dir_lookup example_program example_fs
                (chars example_program (program_name 0x7FE000) 32) = Some 0)
    by (vm_compute; reflexivity).
  rewrite E in P. destruct P as (_ & _ & _ & P). cbn [snd].
  transitivity (executable_entry example_elf); [|vm_compute; reflexivity].
  rewrite P.
  - vm_compute. reflexivity.
  - apply Z.leb_le. vm_compute. reflexivity.
Defined.

(** C6: processes are isolated.  After any sequence of paging operations as
    the kernel issues them, user mode in a slot reaches only that slot's
    program page and its video frame, so neither the kernel nor a PCB unless
    the frame lies there, and two slots share physical memory only through
    their video windows. *)
Theorem process_isolation `{L : Layout} `{LOk : !LayoutOk L} (junk : Z -> Z) ops m i j pi vi pj vj v w a
    (Hops : Forall op_ok ops) (Hkernel : Forall kernel_op ops) :
  foldl spec_op (∅ : spaces) ops !! i = Some (pi, vi) ->
  foldl spec_op (∅ : spaces) ops !! j = Some (pj, vj) ->
  i <> j -> 0 <= v < 0x100000000 -> 0 <= w < 0x100000000 ->
  translate (foldl (run_op junk) m ops) (get_process_pd i) v = Some (a, true) ->
  ((get_process_page_from_slot i <= a < get_process_page_from_slot i + PROCESS_PAGE_SIZE) \/
   (vi <= a < vi + 0x1000 /\ get_process_vmem_page i <= v < get_process_vmem_page i + 0x1000)) /\
  (translate (foldl (run_op junk) m ops) (get_process_pd j) w = Some (a, true) ->
   get_process_vmem_page i <= v < get_process_vmem_page i + 0x1000 /\
   get_process_vmem_page j <= w < get_process_vmem_page j + 0x1000).
Proof.
  intros Hsi Hsj Hij Hv Hw.
  pose proof (run_spaces junk ops m ∅ Hops (spaces_ok_empty m)) as R.
  pose proof (kernel_ops_spaces ops ∅ Hkernel ltac:(by intros ???)) as K.
  destruct (R i pi vi Hsi) as (Hi & [_ Ai] & [_ Bi] & Oi), (K _ _ _ Hsi) as [-> Vi].
  destruct (R j pj vj Hsj) as (Hj & [_ Aj] & [_ Bj] & Oj), (K _ _ _ Hsj) as [-> Vj].
  rewrite (translate_space _ i _ vi v), (translate_space _ j _ vj w) by done.
  unfold get_process_vmem_page, FOUR_MB_ALIGNED, PROCESS_PAGE_SIZE.
  rewrite !process_page_eq by done. intros Ti%address_space_user.
  split; [lia|]. intros Tj%address_space_user. lia.
Qed.

Lemma process_isolation_witness :
  ~ exists w, 0 <= w < 0x100000000 /\
    translate (foldl (run_op (L := example_layout) (fun _ => 0)) ∅ example_paging_ops)
      (get_process_pd 1) w = Some (0x848000, true).
Proof.
  intros (w & Hw & T).
  assert (Hops : Forall op_ok example_paging_ops).
  { repeat (apply Forall_cons; split); [| | |apply Forall_nil];
      unfold op_ok, frame_ok; repeat split; try lia; reflexivity. }
  assert (Hk : Forall kernel_op example_paging_ops).
  { repeat (apply Forall_cons; split); [| | |apply Forall_nil];
      unfold kernel_op; repeat split; lia. }
  assert (T0 : translate (foldl (run_op (L := example_layout) (fun _ => 0)) ∅ example_paging_ops)
                 (get_process_pd 0) 0x8048000 = Some (0x848000, true)).
  { pose proof (run_spaces (LOk := example_layout_ok) (fun _ => 0) example_paging_ops ∅ ∅ Hops
                  (spaces_ok_empty ∅)) as R.
    destruct (R 0 0x800000 0xB8000 eq_refl) as (H0 & [_ Ha] & [_ Hb] & Ok).
    transitivity (address_space 0x800000 0xB8000 0x8048000); [|reflexivity].
    apply (translate_space (LOk := example_layout_ok) _ 0 0x800000 0xB8000 0x8048000 Ok H0 Ha Hb).
    lia. }
  destruct (process_isolation (LOk := example_layout_ok) (fun _ => 0) example_paging_ops ∅
              0 1 0x800000 0xB8000 0xC00000 0x500000 0x8048000 w 0x848000 Hops Hk
              eq_refl eq_refl ltac:(lia) ltac:(lia) Hw T0) as [_ P].
  destruct (P T) as [[H _] _]. unfold get_process_vmem_page, FOUR_MB_ALIGNED in H. lia.
Defined.
