(* ===== verification/KeyboardMap.v ===== *)
(** The scan code tables of [tty/keyboard_map.c]: no modifier, shift, caps
    lock, and both.  C zero-fills the rest of each row of 128. *)

From S2P Require Import Prelude.

Definition KEYBOARD_SIZE : Z := 128.

Definition keys_plain : list Z := [
    0; 27; 49; 50; 51; 52; 53; 54; 55; 56; 57; 48; 45; 61; 8; 9; 113; 119; 101; 114; 116; 121;
    117; 105; 111; 112; 91; 93; 10; 0; 97; 115; 100; 102; 103; 104; 106; 107; 108; 59; 39; 96;
    0; 92; 122; 120; 99; 118; 98; 110; 109; 44; 46; 47; 0; 42; 0; 32; 0; 0; 0; 0; 0; 0; 0; 0;
    0; 0; 0; 0; 0; 0; 0; 0; 45; 0; 0; 0; 0; 0; 0; 0; 0; 0; 0; 0; 0; 0; 0; 0
].

Definition keys_shift : list Z := [
    0; 27; 33; 64; 35; 36; 37; 94; 38; 42; 40; 41; 95; 43; 8; 9; 81; 87; 69; 82; 84; 89; 85;
    73; 79; 80; 123; 125; 10; 0; 65; 83; 68; 70; 71; 72; 74; 75; 76; 58; 34; 126; 0; 124; 90;
    88; 67; 86; 66; 78; 77; 60; 62; 63; 0; 42; 0; 32; 0; 0; 0; 0; 0; 0; 0; 0; 0; 0; 0; 0; 0; 0;
    0; 0; 45; 0; 0; 0; 0; 0; 0; 0; 0; 0; 0; 0; 0; 0; 0; 0
].

Definition keys_caps : list Z := [
    0; 27; 49; 50; 51; 52; 53; 54; 55; 56; 57; 48; 45; 61; 8; 9; 81; 87; 69; 82; 84; 89; 85;
    73; 79; 80; 91; 93; 10; 0; 65; 83; 68; 70; 71; 72; 74; 75; 76; 59; 39; 96; 0; 92; 90; 88;
    67; 86; 66; 78; 77; 44; 46; 47; 0; 42; 0; 32; 0; 0; 0; 0; 0; 0; 0; 0; 0; 0; 0; 0; 0; 0; 0;
    0; 45; 0; 0; 0; 0; 0; 0; 0; 0; 0; 0; 0; 0; 0; 0; 0
].

Definition keys_caps_shift : list Z := [
    0; 27; 33; 64; 35; 36; 37; 94; 38; 42; 40; 41; 95; 43; 8; 9; 113; 119; 101; 114; 116; 121;
    117; 105; 111; 112; 123; 125; 10; 0; 97; 115; 100; 102; 103; 104; 106; 107; 108; 58; 34;
    126; 0; 124; 122; 120; 99; 118; 98; 110; 109; 60; 62; 63; 0; 42; 0; 32; 0; 0; 0; 0; 0; 0;
    0; 0; 0; 0; 0; 0; 0; 0; 0; 0; 45; 0; 0; 0; 0; 0; 0; 0; 0; 0; 0; 0; 0; 0; 0; 0
].

Definition keyboard_map (map_index keycode : Z) : Z :=
  match map_index with
  | 0 => keys_plain
  | 1 => keys_shift
  | 2 => keys_caps
  | _ => keys_caps_shift
  end !!! Z.to_nat keycode.

Definition is_letter (c : Z) : bool := ((97 <=? c) && (c <=? 122)) || ((65 <=? c) && (c <=? 90)).

(** The other case of a letter. *)
Definition swap_case (c : Z) : Z :=
  if is_letter c then Z.lxor c 32 else c.

(** the four tables agree with each other on every scan code: caps lock
    swaps the case of letters and nothing else, with and without shift; shift
    swaps letters as well; control characters (backspace, tab, enter) are the
    same in all of them; and no table produces a character outside ASCII. *)
Theorem keyboard_map_consistent (k : Z) :
  0 <= k < KEYBOARD_SIZE ->
  keyboard_map 2 k = swap_case (keyboard_map 0 k) /\
  keyboard_map 3 k = swap_case (keyboard_map 1 k) /\
  (is_letter (keyboard_map 0 k) = true -> keyboard_map 1 k = swap_case (keyboard_map 0 k)) /\
  (keyboard_map 0 k < 32 -> keyboard_map 1 k = keyboard_map 0 k) /\
  0 <= keyboard_map 0 k < 127 /\ 0 <= keyboard_map 1 k < 127.
Proof.
  intros Hk.
  pose (ok k := (keyboard_map 2 k =? swap_case (keyboard_map 0 k))
    && (keyboard_map 3 k =? swap_case (keyboard_map 1 k))
    && implb (is_letter (keyboard_map 0 k)) (keyboard_map 1 k =? swap_case (keyboard_map 0 k))
    && implb (keyboard_map 0 k <? 32) (keyboard_map 1 k =? keyboard_map 0 k)
    && (0 <=? keyboard_map 0 k) && (keyboard_map 0 k <? 127)
    && (0 <=? keyboard_map 1 k) && (keyboard_map 1 k <? 127)).
  assert (H : forallb ok (seqZ 0 128) = true) by (vm_compute; reflexivity).
  rewrite forallb_forall in H. specialize (H k).
  assert (Hin : ok k = true) by (apply H, list_elem_of_In, elem_of_seqZ; unfold KEYBOARD_SIZE in Hk; lia).
  clear H. unfold ok in Hin. rewrite !andb_true_iff, !implb_true_iff in Hin.
  rewrite !Z.eqb_eq, !Z.leb_le, !Z.ltb_lt in Hin. tauto.
Qed.

Lemma keyboard_map_consistent_witness : keyboard_map 1 30 = swap_case 97 /\ keyboard_map 2 2 = 49.
Proof.
  destruct (keyboard_map_consistent 30) as (_ & _ & H & _); [unfold KEYBOARD_SIZE; lia|].
  destruct (keyboard_map_consistent 2) as (H' & _); [unfold KEYBOARD_SIZE; lia|].
  split; [apply H; reflexivity|exact H'].
Defined.
