(* ===== verification/Terminal.v ===== *)
(** Terminals and keyboard: [tty/terminal.c].

    The static arrays of the file become a record per terminal
    ([input_buffer], [new_line_ready], [cursor_location], [video_memory]);
    the video memory, the output buffers and the bytes of the input buffers
    are in [mem].  Saving, disabling and restoring the interrupt flag has no
    effect on this state: the handlers run one after the other. *)

From S2P Require Import Prelude Memory Layout I8259 LibMem CircularBuffer Paging Pcb.
From S2P Require Import KeyboardMap.

(** * State *)

Record terminal := Terminal {
  input_buffer : circular_buffer_t;
  new_line_ready : Z;
  cursor_x : Z;                    (* cursor_location[t][0] *)
  cursor_y : Z;                    (* cursor_location[t][1] *)
  video_memory : Z
}.

Record tty := Tty {
  tmem : mem;
  tpic : pic;
  terms : Z -> terminal;
  active_terminal : Z;
  single_terminal : Z;
  keyboard_state : list Z;
  caps_lock_status : Z
}.

Definition set_tmem (s : tty) (m : mem) : tty :=
  Tty m (tpic s) (terms s) (active_terminal s) (single_terminal s) (keyboard_state s) (caps_lock_status s).
Definition set_tpic (s : tty) (p : pic) : tty :=
  Tty (tmem s) p (terms s) (active_terminal s) (single_terminal s) (keyboard_state s) (caps_lock_status s).
Definition set_term (s : tty) (t : Z) (f : terminal -> terminal) : tty :=
  Tty (tmem s) (tpic s) (alter f t (terms s)) (active_terminal s) (single_terminal s)
    (keyboard_state s) (caps_lock_status s).
Definition set_active (s : tty) (t : Z) : tty :=
  Tty (tmem s) (tpic s) (terms s) t (single_terminal s) (keyboard_state s) (caps_lock_status s).
Definition set_single (s : tty) (v : Z) : tty :=
  Tty (tmem s) (tpic s) (terms s) (active_terminal s) v (keyboard_state s) (caps_lock_status s).
Definition set_key (s : tty) (k v : Z) : tty :=
  Tty (tmem s) (tpic s) (terms s) (active_terminal s) (single_terminal s)
    (<[Z.to_nat k := v]> (keyboard_state s)) (caps_lock_status s).
Definition set_caps (s : tty) (v : Z) : tty :=
  Tty (tmem s) (tpic s) (terms s) (active_terminal s) (single_terminal s) (keyboard_state s) v.

Definition set_input (b : circular_buffer_t) (T : terminal) : terminal :=
  Terminal b (new_line_ready T) (cursor_x T) (cursor_y T) (video_memory T).
Definition set_new_line (v : Z) (T : terminal) : terminal :=
  Terminal (input_buffer T) v (cursor_x T) (cursor_y T) (video_memory T).
Definition set_cursor (x y : Z) (T : terminal) : terminal :=
  Terminal (input_buffer T) (new_line_ready T) x y (video_memory T).
Definition set_video (v : Z) (T : terminal) : terminal :=
  Terminal (input_buffer T) (new_line_ready T) (cursor_x T) (cursor_y T) v.

Definition NUM_TERMINALS : Z := 3.
Definition TERMINAL_COLUMNS : Z := 80.
Definition TERMINAL_ROWS : Z := 25.
Definition TERMINAL_FOREGROUND_COLOR : Z := 0x0F00.
Definition TERMINAL_BACKGROUND_COLOR : Z := 0x0000.
Definition KEYBOARD_BUFFER_SIZE : Z := 128.
Definition VIDEO_PHYS_ADDR : Z := 0xB8000.
Definition VIDEO_VIRT_ADDR : Z := 0x8400000.
Definition SPACES_IN_TAB : Z := 4.
Definition VGA_CRTC_PORT_COMMAND : Z := 0x3D4.
Definition VGA_CRTC_PORT_DATA : Z := 0x3D5.
Definition KEYBOARD_IRQ : Z := 1.
Definition KEYCODE_MASK : Z := 0x7F.
Definition KEYBOARD_ESCAPE_CODE : Z := 0xE1.
Definition KEYBOARD_CTRL : Z := 0x1D.
Definition KEYBOARD_ALT : Z := 0x38.
Definition KEYBOARD_LEFT_SHIFT : Z := 0x2A.
Definition KEYBOARD_RIGHT_SHIFT : Z := 0x36.
Definition KEYBOARD_CAPS_LOCK : Z := 0x3A.
Definition KEYBOARD_F1 : Z := 0x3B.
Definition VIDEO_INDEX (x y : Z) : Z := y * TERMINAL_COLUMNS + x.

(** * Output *)

Section code.
Context `{L : Layout}.

(** [output_buffer[t]]: rows of [FOUR_KB_ALIGNED] 16-bit words. *)
Definition output_row (t : Z) : Z := output_buffer + 2 * FOUR_KB_ALIGNED * t.
Definition input_row (t : Z) : Z := input_buffer_internal + KEYBOARD_BUFFER_SIZE * t.

Definition get_process_terminal (s : tty) (esp : Z) : Z :=
  if truthy (single_terminal s) then 0
  else pcb_get (tmem s) (get_current_pcb esp) terminal_num.

Definition get_terminal_output_buffer (s : tty) (terminal_num : Z) : Z :=
  if terminal_num =? active_terminal s then VIDEO_PHYS_ADDR else output_row terminal_num.

Definition set_hardware_cursor (s : tty) (t x y : Z) : tty :=
  let s := set_term s t (set_cursor x y) in
  if t =? active_terminal s then
    let index := u16 (VIDEO_INDEX x y) in
    let p := tpic s in
    let p := pic_out p VGA_CRTC_PORT_COMMAND 14 in
    let p := pic_out p VGA_CRTC_PORT_DATA (Z.shiftr index 8) in
    let p := pic_out p VGA_CRTC_PORT_COMMAND 15 in
    let p := pic_out p VGA_CRTC_PORT_DATA (Z.land index 0xFF) in
    set_tpic s p
  else s.

Definition switch_active_terminal (s : tty) (new_terminal : Z) : tty :=
  if new_terminal <? NUM_TERMINALS then
    let s := set_tmem s (memcpy (tmem s) (output_row (active_terminal s)) VIDEO_PHYS_ADDR
                           FOUR_KB_ALIGNED) in
    let old_terminal := active_terminal s in
    let s := set_active s new_terminal in
    let s := set_term s old_terminal (set_video (get_terminal_output_buffer s old_terminal)) in
    let s := set_term s new_terminal (set_video (get_terminal_output_buffer s new_terminal)) in
    let s := set_tmem s (memcpy (tmem s) VIDEO_PHYS_ADDR (output_row (active_terminal s))
                           FOUR_KB_ALIGNED) in
    set_hardware_cursor s (active_terminal s) (cursor_x (terms s (active_terminal s)))
      (cursor_y (terms s (active_terminal s)))
  else s.

Definition video_buffer_putc (s : tty) (t x y ch : Z) : tty :=
  let word := u16 (Z.lor ch (Z.lor TERMINAL_FOREGROUND_COLOR TERMINAL_BACKGROUND_COLOR)) in
  let index := u16 (VIDEO_INDEX x y) in
  set_tmem s (store16 (tmem s) (video_memory (terms s t) + 2 * index) word).

(** The word of a blank cell. *)
Definition blank_word : Z :=
  Z.lor 32 (Z.lor TERMINAL_FOREGROUND_COLOR TERMINAL_BACKGROUND_COLOR).

Definition scroll_screen (s : tty) (t : Z) : tty :=
  let video := video_memory (terms s t) in
  let '(m, _) := memmove (tmem s) (video + 2 * VIDEO_INDEX 0 0) (video + 2 * VIDEO_INDEX 0 1)
                   (TERMINAL_COLUMNS * (TERMINAL_ROWS - 1) * 2) in
  set_tmem s (memset_word m (video + 2 * VIDEO_INDEX 0 (TERMINAL_ROWS - 1)) blank_word
                TERMINAL_COLUMNS).

(** Move to column 0 of the next row, scrolling at the bottom: the code the
    branches for a new line and for the right margin share. *)
Definition next_row (s : tty) (t y : Z) : tty * Z :=
  let y := u8 (y + 1) in
  if y >=? TERMINAL_ROWS then (scroll_screen s t, TERMINAL_ROWS - 1) else (s, y).

Definition putc_internal (s : tty) (t ch : Z) : tty :=
  let x := cursor_x (terms s t) in
  let y := cursor_y (terms s t) in
  if ch =? 8 then
    let '(x, y) := if x =? 0 then (TERMINAL_COLUMNS, u8 (y - 1)) else (x, y) in
    let x := u8 (x - 1) in
    let s := video_buffer_putc s t x y 32 in
    set_hardware_cursor s t x y
  else if ch =? 10 then
    let '(s, y) := next_row s t y in
    set_hardware_cursor s t 0 y
  else if ch =? 9 then set_hardware_cursor s t x y
  else
    let s := video_buffer_putc s t x y ch in
    let x := u8 (x + 1) in
    if x >=? TERMINAL_COLUMNS then
      let '(s, y) := next_row s t y in
      set_hardware_cursor s t 0 y
    else set_hardware_cursor s t x y.

Definition putc (s : tty) (ch : Z) : tty := putc_internal s 0 ch.

Definition clear_terminal (s : tty) (t : Z) : tty :=
  let s := set_tmem s (memset_word (tmem s) (video_memory (terms s t)) blank_word
                         (TERMINAL_COLUMNS * TERMINAL_ROWS)) in
  set_hardware_cursor s t 0 0.

(** [n] calls with the same character, the way the fall-through cases of
    the tab handling run. *)
Fixpoint putc_times (n : nat) (s : tty) (t ch : Z) : tty :=
  match n with
  | O => s
  | S n' => putc_times n' (putc_internal s t ch) t ch
  end.

(** The loop of Ctrl+L over bytes in memory; the bytes are read as the loop
    goes. *)
Fixpoint putc_loop (n : nat) (s : tty) (t buf : Z) : tty :=
  match n with
  | O => s
  | S n' => putc_loop n' (putc_internal s t (load8 (tmem s) buf)) t (buf + 1)
  end.

(** * Input *)

(** How many calls the fall-through [switch(pos)] statements make. *)
Definition tab_backspaces (pos : Z) : nat :=
  if pos =? 0 then 4 else if pos =? 3 then 3 else if pos =? 2 then 2
  else if pos =? 1 then 1 else 0.
Definition tab_spaces (pos : Z) : nat :=
  if pos =? 0 then 4 else if pos =? 1 then 3 else if pos =? 2 then 2
  else if pos =? 3 then 1 else 0.

Definition put_input (s : tty) (t ch : Z) : tty :=
  let '(b, m, _) := circular_buffer_put_byte (input_buffer (terms s t)) (tmem s) ch in
  set_term (set_tmem s m) t (set_input b).

Definition keyboard_putc (s : tty) (t ch : Z) : tty * Z :=
  let b := input_buffer (terms s t) in
  if ch =? 8 then
    if circular_buffer_len b =? 0 then (s, 0)
    else
      let last_ch := default 0 (circular_buffer_peek_end_byte b (tmem s)) in
      if last_ch =? 10 then (s, 0)
      else
        let '(b, _) := circular_buffer_remove_end_byte b in
        let s := set_term s t (set_input b) in
        if last_ch =? 9 then
          let pos := u8 (cursor_x (terms s t) - Z.land (cursor_x (terms s t)) SPACES_IN_TAB) in
          (putc_times (tab_backspaces pos) s t 8, 1)
        else (putc_internal s t 8, 1)
  else if ch =? 10 then
    if circular_buffer_len b >=? KEYBOARD_BUFFER_SIZE then (s, 0)
    else
      let s := put_input s t ch in
      let s := putc_internal s t 10 in
      (set_term s t (set_new_line (u8 (new_line_ready (terms s t) + 1))), 1)
  else if ch =? 9 then
    if circular_buffer_len b <? KEYBOARD_BUFFER_SIZE - 1 then
      let s := put_input s t ch in
      let pos := Z.land (cursor_x (terms s t)) SPACES_IN_TAB in
      (putc_times (tab_spaces pos) s t 32, 1)
    else (s, 0)
  else if ch >? 0 then
    if circular_buffer_len b <? KEYBOARD_BUFFER_SIZE - 1 then
      (putc_internal (put_input s t ch) t ch, 1)
    else (s, 0)
  else (s, 1).

(** [test_suite] ([kernel/tests.c], Ctrl+1 to Ctrl+5) is a parameter. *)
Context (test_suite : tty -> Z -> tty).

(** One scan code.  [current_buf] is the address of the local array. *)
Definition keyboard_key (s : tty) (terminal_num current_buf byte : Z) : tty :=
  let keycode := s8 byte in
  if u8 keycode =? KEYBOARD_ESCAPE_CODE then s
  else if keycode <? 0 then set_key s (Z.land keycode KEYCODE_MASK) 0
  else
    let s := set_key s (Z.land keycode KEYCODE_MASK) 1 in
    let key k := keyboard_state s !!! Z.to_nat k in
    let ctrl_pressed := truthy (key KEYBOARD_CTRL) in
    let alt_pressed := truthy (key KEYBOARD_ALT) in
    let shift_pressed := truthy (key KEYBOARD_LEFT_SHIFT) || truthy (key KEYBOARD_RIGHT_SHIFT) in
    let map_index := Z.lor (c_bool shift_pressed) (Z.shiftl (caps_lock_status s) 1) in
    let pressed_char := keyboard_map map_index keycode in
    let s := if keycode =? KEYBOARD_CAPS_LOCK
             then set_caps s (c_bool (negb (truthy (caps_lock_status s)))) else s in
    let s := if ctrl_pressed && (pressed_char >=? 49) && (pressed_char <=? 53)
             then test_suite s (pressed_char - 48) else s in
    let s := if alt_pressed && (keycode >=? KEYBOARD_F1) && (keycode <? KEYBOARD_F1 + NUM_TERMINALS)
             then switch_active_terminal s (keycode - KEYBOARD_F1) else s in
    let s :=
      if ctrl_pressed && (pressed_char =? 108) then
        let '(m, len) := circular_buffer_peek (input_buffer (terms s terminal_num)) (tmem s)
                           current_buf KEYBOARD_BUFFER_SIZE in
        let s := clear_terminal (set_tmem s m) terminal_num in
        putc_loop (Z.to_nat len) s terminal_num current_buf
      else s in
    let pressed_char := if ctrl_pressed || alt_pressed then 0 else pressed_char in
    if pressed_char >? 0 then (keyboard_putc s terminal_num pressed_char).1 else s.

(** The handler reads scan codes until the controller has none left;
    [pending] is what it holds. *)
Definition keyboard_handler (s : tty) (current_buf : Z) (pending : list Z) : tty :=
  let terminal_num := active_terminal s in
  let s := foldl (fun s b => keyboard_key s terminal_num current_buf b) s pending in
  set_tpic s (send_eoi (tpic s) KEYBOARD_IRQ).

(** * Initialisation *)

Definition reset_terminal (s : tty) (t : Z) : tty :=
  let s := set_term s t (set_input (circular_buffer_init (input_row t) KEYBOARD_BUFFER_SIZE)) in
  let s := clear_terminal s t in
  let s := set_term s t (set_new_line 0) in
  set_hardware_cursor s t 0 0.

Definition init_terminal (s : tty) (i : Z) : tty :=
  reset_terminal (set_term s i (set_video (get_terminal_output_buffer s i))) i.

Definition multiple_terminal_init (s : tty) : tty :=
  let s := foldl init_terminal s (seqZ 0 NUM_TERMINALS) in
  let s := set_single s 0 in
  set_tpic s (enable_irq (tpic s) KEYBOARD_IRQ).

(** * The file operations *)

Definition terminal_open (s : tty) (esp f filename : Z) : tty * Z :=
  let t := get_process_terminal s esp in
  let s := set_term s t (set_input (circular_buffer_init (input_row t) KEYBOARD_BUFFER_SIZE)) in
  let s := clear_terminal s t in
  (set_tpic s (enable_irq (tpic s) KEYBOARD_IRQ), 0).

Definition terminal_close (s : tty) (esp f : Z) : tty * Z :=
  let t := get_process_terminal s esp in
  (set_term s t (fun T => set_input (circular_buffer_clear (input_buffer T)) T), 0).

(** The part of [terminal_read] after the wait. *)
Definition terminal_take (s : tty) (t buf nbytes : Z) : tty * Z :=
  let max_len := u32 (circular_buffer_find (input_buffer (terms s t)) (tmem s) 10 + 1) in
  let nbytes := if max_len <? u32 nbytes then max_len else nbytes in
  let '(b, m, retval) :=
    circular_buffer_get (input_buffer (terms s t)) (tmem s) buf (u32 nbytes) in
  let s := set_term (set_tmem s m) t (set_input b) in
  (set_term s t (set_new_line (u8 (new_line_ready (terms s t) - 1))), s32 retval).

(** The wait for a line: each [hlt] ends with one keyboard interrupt, given
    by the scan codes it delivers; [None] when none is left and there is
    still no line. *)
Fixpoint terminal_wait (s : tty) (t local : Z) (interrupts : list (list Z)) : option tty :=
  if truthy (new_line_ready (terms s t)) then Some s
  else match interrupts with
       | [] => None
       | pending :: rest => terminal_wait (keyboard_handler s local pending) t local rest
       end.

Definition terminal_read (s : tty) (esp local f buf nbytes : Z) (interrupts : list (list Z))
  : option (tty * Z) :=
  let t := get_process_terminal s esp in
  s ← terminal_wait s t local interrupts; Some (terminal_take s t buf nbytes).

Fixpoint terminal_write_loop (n : nat) (s : tty) (pcb buf : Z) : tty :=
  match n with
  | O => s
  | S n' =>
      terminal_write_loop n'
        (putc_internal s (pcb_get (tmem s) pcb terminal_num) (load8 (tmem s) buf)) pcb (buf + 1)
  end.

Definition terminal_write (s : tty) (esp f buf nbytes : Z) : tty * Z :=
  let pcb := get_current_pcb esp in
  (terminal_write_loop (Z.to_nat nbytes) s pcb buf, nbytes).
End code.
