(* ===== verification/Screen.v ===== *)
(** Terminal output refines a character screen: 25 rows of 80 cells with a
    cursor, one per terminal ([tty/terminal.c], putc_internal and what it
    calls). *)

From S2P Require Import Prelude Memory Layout I8259 LibMem CircularBuffer Paging Pcb Terminal.

(** * The abstract screen *)

Record screen := Screen { cells : list Z; col : Z; row : Z }.

Definition blank_row : list Z := replicate 80 blank_word.

(** The cell of a character: white on black. *)
Definition char_cell (ch : Z) : Z := 0x0F00 + ch.

Definition scr_scroll (l : list Z) : list Z := drop 80 l ++ blank_row.

Definition scr_next_row (l : list Z) (y : Z) : screen :=
  if y =? 24 then Screen (scr_scroll l) 0 24 else Screen l 0 (y + 1).

(** [None]: a backspace with the cursor in the top left corner. *)
Definition scr_putc (sc : screen) (ch : Z) : option screen :=
  let '(Screen l x y) := sc in
  if ch =? 8 then
    if (x =? 0) && (y =? 0) then None
    else
      let '(x, y) := if x =? 0 then (79, y - 1) else (x - 1, y) in
      Some (Screen (<[Z.to_nat (80 * y + x) := blank_word]> l) x y)
  else if ch =? 10 then Some (scr_next_row l y)
  else if ch =? 9 then Some sc
  else
    let l := <[Z.to_nat (80 * y + x) := char_cell ch]> l in
    if x =? 79 then Some (scr_next_row l y) else Some (Screen l (x + 1) y).

Definition scr_clear : screen := Screen (replicate 2000 blank_word) 0 0.

Record screen_ok (sc : screen) : Prop := {
  ok_cells : length (cells sc) = 2000%nat;
  ok_col : 0 <= col sc < 80;
  ok_row : 0 <= row sc < 25
}.

(** A text on a screen. *)
Fixpoint scr_puts (sc : screen) (l : list Z) : option screen :=
  match l with
  | [] => Some sc
  | ch :: l' => sc ← scr_putc sc ch; scr_puts sc l'
  end.

Lemma scr_next_row_ok l y :
  length l = 2000%nat -> 0 <= y < 25 -> screen_ok (scr_next_row l y).
Proof.
  intros Hl Hy. unfold scr_next_row. case_zb; split; simpl; try lia.
  unfold scr_scroll. rewrite length_app, length_drop, Hl. done.
Qed.

Lemma scr_putc_ok sc ch sc' : screen_ok sc -> scr_putc sc ch = Some sc' -> screen_ok sc'.
Proof.
  destruct sc as [l x y]. intros [Hl Hx Hy]. simpl in *. unfold scr_putc.
  destruct (ch =? 8).
  - repeat (case_zb; cbn [andb]); try done; intros [= <-]; split; simpl; rewrite ?length_insert; lia.
  - destruct (ch =? 10); [intros [= <-]; by apply scr_next_row_ok|].
    destruct (ch =? 9); [intros [= <-]; by split|].
    case_zb; intros [= <-]; [apply scr_next_row_ok|split; simpl]; rewrite ?length_insert; lia.
Qed.

(** Printing is total but for the backspace in the corner. *)
Lemma scr_putc_total sc ch :
  scr_putc sc ch = None <-> ch = 8 /\ col sc = 0 /\ row sc = 0.
Proof.
  destruct sc as [l x y]. unfold scr_putc. simpl.
  destruct (Z.eqb_spec ch 8).
  - repeat (case_zb; cbn [andb]); simpl; split; try done; lia.
  - repeat (case_zb; cbn [andb]); split; try done; lia.
Qed.

(** * Cells in memory *)

Definition screen_cells (m : mem) (base : Z) : list Z :=
  (fun i => load16 m (base + 2 * Z.of_nat i)) <$> seq 0 2000.

Lemma length_screen_cells m base : length (screen_cells m base) = 2000%nat.
Proof. unfold screen_cells. by rewrite length_fmap, length_seq. Qed.

Lemma screen_cells_lookup m base i :
  (i < 2000)%nat -> screen_cells m base !!! i = load16 m (base + 2 * Z.of_nat i).
Proof. intros. unfold screen_cells. by rewrite lookup_total_fmap_seq. Qed.

Lemma screen_cells_ext m m' base base' :
  (forall i, 0 <= i < 2000 -> load16 m' (base' + 2 * i) = load16 m (base + 2 * i)) ->
  screen_cells m' base' = screen_cells m base.
Proof.
  intros H. apply list_eq_total; rewrite !length_screen_cells; [done|].
  intros i Hi. rewrite !screen_cells_lookup by done. apply H. lia.
Qed.

Lemma screen_cells_outside m m' base lo hi :
  same_outside m m' lo hi -> hi <= base \/ base + 4000 <= lo ->
  screen_cells m' base = screen_cells m base.
Proof.
  intros Ho Hd. apply screen_cells_ext. intros i Hi. apply load_le_ext.
  intros x Hx. simpl in Hx. apply Ho. lia.
Qed.

Lemma screen_cells_store m base i w :
  0 <= i < 2000 ->
  screen_cells (store16 m (base + 2 * i) w) base
  = <[Z.to_nat i := u16 w]> (screen_cells m base).
Proof.
  intros Hi. apply list_eq_total.
  { rewrite length_insert. by rewrite !length_screen_cells. }
  intros k Hk. rewrite length_screen_cells in Hk. rewrite screen_cells_lookup by done.
  destruct (Z.eq_dec (Z.of_nat k) i) as [<-|Hne].
  - rewrite load16_store16_eq, Nat2Z.id.
    rewrite list_lookup_total_insert_eq; [done|]. by rewrite length_screen_cells.
  - rewrite list_lookup_total_insert_ne by lia. rewrite screen_cells_lookup by done.
    apply load16_store16_ne. lia.
Qed.

(** A buffer that was filled with blanks. *)
Lemma screen_cells_clear m base :
  screen_cells (memset_word m base blank_word 2000) base = replicate 2000 blank_word.
Proof.
  apply list_eq_total; rewrite length_screen_cells; [by rewrite length_replicate|].
  intros i Hi. rewrite screen_cells_lookup by done.
  rewrite memset_word_lookup, lookup_total_replicate_2 by lia. done.
Qed.

(** * The code on the screen of a terminal *)

Definition screen_of (s : tty) (t : Z) : screen :=
  Screen (screen_cells (tmem s) (video_memory (terms s t)))
    (cursor_x (terms s t)) (cursor_y (terms s t)).

(** What printing on terminal [t] leaves alone. *)
Record only_screen (s s' : tty) (t : Z) : Prop := {
  os_mem : same_outside (tmem s) (tmem s') (video_memory (terms s t)) (video_memory (terms s t) + 4000);
  os_terms : forall j, j <> t -> terms s' j = terms s j;
  os_input : input_buffer (terms s' t) = input_buffer (terms s t);
  os_lines : new_line_ready (terms s' t) = new_line_ready (terms s t);
  os_video : video_memory (terms s' t) = video_memory (terms s t);
  os_active : active_terminal s' = active_terminal s;
  os_single : single_terminal s' = single_terminal s;
  os_keys : keyboard_state s' = keyboard_state s;
  os_caps : caps_lock_status s' = caps_lock_status s;
  os_masks : masks (tpic s') = masks (tpic s)
}.

Lemma only_screen_refl s t : only_screen s s t.
Proof. by split. Qed.

Lemma only_screen_trans s1 s2 s3 t :
  only_screen s1 s2 t -> only_screen s2 s3 t -> only_screen s1 s3 t.
Proof.
  intros [M1 T1 I1 L1 V1 A1 S1 K1 C1 P1] [M2 T2 I2 L2 V2 A2 S2 K2 C2 P2].
  rewrite V1 in M2. split; try congruence.
  - intros x Hx. by rewrite M2, M1.
  - intros j Hj. by rewrite T2, T1.
Qed.

Lemma terms_set_term_eq s t f : terms (set_term s t f) t = f (terms s t).
Proof. apply fn_lookup_alter. Qed.

Lemma terms_set_term_ne s t f j : t <> j -> terms (set_term s t f) j = terms s j.
Proof. intros. by apply fn_lookup_alter_ne. Qed.

#[export] Hint Rewrite terms_set_term_eq : kmem.

Section output.
Context `{L : Layout}.

Lemma set_hardware_cursor_only s t x y : only_screen s (set_hardware_cursor s t x y) t.
Proof.
  unfold set_hardware_cursor. cbv zeta.
  assert (H : only_screen s (set_term s t (set_cursor x y)) t).
  { split; rewrite ?terms_set_term_eq; try done.
    intros j Hj. by apply terms_set_term_ne. }
  destruct (t =? _); [|done]. destruct H. by split.
Qed.

Lemma set_hardware_cursor_screen s t x y :
  screen_of (set_hardware_cursor s t x y) t
  = Screen (cells (screen_of s t)) x y.
Proof.
  unfold set_hardware_cursor, screen_of. cbv zeta.
  destruct (t =? _); simpl; by rewrite fn_lookup_alter.
Qed.

Lemma cell_word ch : 0 <= ch < 256 ->
  u16 (u16 (Z.lor ch (Z.lor TERMINAL_FOREGROUND_COLOR TERMINAL_BACKGROUND_COLOR))) = char_cell ch.
Proof.
  intros Hch.
  assert (H : Forall (fun ch => u16 (u16 (Z.lor ch (Z.lor TERMINAL_FOREGROUND_COLOR
                TERMINAL_BACKGROUND_COLOR))) = char_cell ch) (seqZ 0 256)).
  { apply (bool_decide_unpack _). vm_compute. exact I. }
  rewrite Forall_forall in H. apply H, elem_of_seqZ. lia.
Qed.

Lemma video_buffer_putc_spec s t x y ch :
  0 <= x < 80 -> 0 <= y < 25 -> 0 <= ch < 256 ->
  only_screen s (video_buffer_putc s t x y ch) t /\
  terms (video_buffer_putc s t x y ch) = terms s /\
  cells (screen_of (video_buffer_putc s t x y ch) t)
  = <[Z.to_nat (80 * y + x) := char_cell ch]> (cells (screen_of s t)).
Proof.
  intros Hx Hy Hch. unfold video_buffer_putc, VIDEO_INDEX, TERMINAL_COLUMNS. cbv zeta.
  rewrite (u16_id (y * 80 + x)) by lia. split; [|split; [done|]].
  - split; try done. intros z Hz. simpl. apply load8_store16_ne. lia.
  - unfold screen_of. simpl. rewrite screen_cells_store by lia.
    rewrite cell_word by done. do 2 f_equal. lia.
Qed.

Lemma scroll_screen_spec s t :
  only_screen s (scroll_screen s t) t /\ terms (scroll_screen s t) = terms s /\
  cells (screen_of (scroll_screen s t) t) = scr_scroll (cells (screen_of s t)).
Proof.
  unfold scroll_screen. set (v := video_memory (terms s t)).
  change (TERMINAL_COLUMNS * (TERMINAL_ROWS - 1) * 2) with 3840.
  change (2 * VIDEO_INDEX 0 0) with 0. change (2 * VIDEO_INDEX 0 1) with 160.
  change (2 * VIDEO_INDEX 0 (TERMINAL_ROWS - 1)) with 3840. change TERMINAL_COLUMNS with 80.
  rewrite Z.add_0_r. pose proof (memmove_spec (tmem s) v (v + 160) 3840 ltac:(lia)) as M.
  destruct (memmove (tmem s) v (v + 160) 3840) as [m1 df]. cbn [fst] in M.
  assert (Hrow : same_outside m1 (memset_word m1 (v + 3840) blank_word 80) (v + 3840) (v + 4000)).
  { intros x Hx. apply memset_word_outside; lia. }
  split; [|split; [done|]].
  - split; try done. intros x Hx. fold v in Hx. cbn [tmem set_tmem].
    rewrite Hrow, (M x) by lia. apply copied_outside; lia.
  - unfold screen_of. cbn [cells tmem set_tmem terms]. fold v. unfold scr_scroll, blank_row.
    apply list_eq_total.
    { rewrite length_app, length_drop, !length_screen_cells. done. }
    intros i Hi. rewrite length_screen_cells in Hi. rewrite screen_cells_lookup by done.
    destruct (Z.ltb_spec (Z.of_nat i) 1920).
    + rewrite lookup_total_app_l' by (rewrite length_drop, length_screen_cells; lia).
      rewrite lookup_total_drop', screen_cells_lookup by lia.
      unfold load16. rewrite (load_le_ext 2 m1) by (intros x Hx; simpl in Hx; apply Hrow; lia).
      apply load_le_shift. intros k Hk. simpl in Hk. rewrite (M _), load8_copied by lia.
      repeat (case_zb; cbn [andb]); try lia. f_equal. lia.
    + rewrite lookup_total_app_r by (rewrite length_drop, length_screen_cells; lia).
      rewrite length_drop, length_screen_cells, lookup_total_replicate_2 by lia.
      replace (v + 2 * Z.of_nat i) with (v + 3840 + 2 * (Z.of_nat i - 1920)) by lia.
      by rewrite memset_word_lookup by lia.
Qed.

(** Writing cells and moving the cursor, in one. *)
Lemma place_cursor s s' t x y :
  only_screen s s' t ->
  only_screen s (set_hardware_cursor s' t x y) t /\
  screen_of (set_hardware_cursor s' t x y) t = Screen (cells (screen_of s' t)) x y.
Proof.
  intros H. split; [|apply set_hardware_cursor_screen].
  eapply only_screen_trans; [exact H|apply set_hardware_cursor_only].
Qed.

Lemma next_row_spec s t y :
  0 <= y < 25 ->
  let '(s', y') := next_row s t y in
  only_screen s s' t /\
  Screen (cells (screen_of s' t)) 0 y' = scr_next_row (cells (screen_of s t)) y.
Proof.
  intros Hy. unfold next_row, scr_next_row, TERMINAL_ROWS. rewrite u8_id by lia.
  destruct (scroll_screen_spec s t) as (O & _ & C).
  repeat case_zb; try lia.
  - split; [done|]. by rewrite C.
  - split; [apply only_screen_refl|done].
Qed.

Lemma putc_spec s t ch sc :
  0 <= ch < 256 -> screen_ok (screen_of s t) -> scr_putc (screen_of s t) ch = Some sc ->
  only_screen s (putc_internal s t ch) t /\ screen_of (putc_internal s t ch) t = sc.
Proof.
  intros Hch [Hl Hx Hy]. unfold scr_putc, putc_internal.
  destruct (screen_of s t) as [l x y] eqn:E. injection E as El Ex Ey. simpl in Hx, Hy.
  rewrite Ex, Ey.
  destruct (Z.eqb_spec ch 8) as [->|H8].
  { destruct (Z.eqb_spec x 0) as [->|Hx0].
    - destruct (Z.eqb_spec y 0) as [->|Hy0]; cbn [andb]; [done|]. intros [= <-].
      change (u8 (TERMINAL_COLUMNS - 1)) with 79. rewrite u8_id by lia.
      destruct (video_buffer_putc_spec s t 79 (y - 1) 32) as (O & _ & C); [lia..|].
      rewrite <- El. change (cells (screen_of s t)) with (screen_cells (tmem s) (video_memory (terms s t))) in C.
      change blank_word with (char_cell 32). rewrite <- C. by apply place_cursor.
    - cbn [andb]. intros [= <-]. rewrite u8_id by lia.
      destruct (video_buffer_putc_spec s t (x - 1) y 32) as (O & _ & C); [lia..|].
      rewrite <- El. change (cells (screen_of s t)) with (screen_cells (tmem s) (video_memory (terms s t))) in C.
      change blank_word with (char_cell 32). rewrite <- C. by apply place_cursor. }
  destruct (Z.eqb_spec ch 10) as [->|H10].
  { intros [= <-]. pose proof (next_row_spec s t y Hy) as P. destruct (next_row s t y) as [s' y'].
    destruct P as [O P]. rewrite <- El.
    change (screen_cells (tmem s) _) with (cells (screen_of s t)). rewrite <- P. by apply place_cursor. }
  destruct (Z.eqb_spec ch 9) as [->|H9].
  { intros [= <-]. rewrite <- El. apply place_cursor, only_screen_refl. }
  destruct (video_buffer_putc_spec s t x y ch) as (O & _ & C); [lia..|].
  change (cells (screen_of s t)) with (screen_cells (tmem s) (video_memory (terms s t))) in C.
  rewrite El in C. rewrite <- C, u8_id by lia. unfold TERMINAL_COLUMNS.
  set (s1 := video_buffer_putc s t x y ch) in *.
  repeat case_zb; try lia; intros <-%(inj Some).
  - pose proof (next_row_spec s1 t y Hy) as P. destruct (next_row s1 t y) as [s' y'].
    destruct P as [O' P]. rewrite <- P. apply place_cursor. by eapply only_screen_trans.
  - by apply place_cursor.
Qed.

Lemma clear_terminal_spec s t :
  only_screen s (clear_terminal s t) t /\ screen_of (clear_terminal s t) t = scr_clear.
Proof.
  unfold clear_terminal. change (TERMINAL_COLUMNS * TERMINAL_ROWS) with 2000.
  set (s1 := set_tmem s _).
  assert (O : only_screen s s1 t).
  { split; try done. intros x Hx. apply memset_word_outside; lia. }
  destruct (place_cursor s s1 t 0 0 O) as [O' ->]. split; [done|].
  unfold scr_clear, screen_of, s1. cbn [cells tmem set_tmem terms]. by rewrite screen_cells_clear.
Qed.

(** Printing the bytes of memory; [f] reads the terminal number, which the
    screen does not hold. *)
Lemma terminal_write_loop_spec n s pcb buf t sc :
  let base := video_memory (terms s t) in
  pcb_get (tmem s) pcb terminal_num = t ->
  pcb + 438 <= base \/ base + 4000 <= pcb ->
  buf + Z.of_nat n <= base \/ base + 4000 <= buf ->
  screen_ok (screen_of s t) ->
  scr_puts (screen_of s t) (load_bytes (tmem s) buf n) = Some sc ->
  only_screen s (terminal_write_loop n s pcb buf) t /\
  screen_of (terminal_write_loop n s pcb buf) t = sc.
Proof.
  revert s buf. induction n as [|n IH]; intros s buf base Ht Hp Hb Hok.
  - intros [= <-]. split; [apply only_screen_refl|done].
  - rewrite load_bytes_S. cbn [scr_puts terminal_write_loop].
    destruct (scr_putc _ _) as [sc1|] eqn:E; [|done]. simpl. intros Hrest. rewrite Ht.
    destruct (putc_spec s t (load8 (tmem s) buf) sc1 (load8_range _ _) Hok E) as [O C].
    set (s1 := putc_internal s t _) in *. destruct (O) as [OM _ _ _ OV _ _ _ _]. fold base in OM, OV.
    destruct (IH s1 (buf + 1)) as [O' C'].
    + rewrite <- Ht. apply load_le_ext. intros x Hx. simpl in Hx. apply OM. lia.
    + rewrite OV. lia.
    + rewrite OV. lia.
    + rewrite C. by eapply scr_putc_ok.
    + rewrite C. erewrite load_bytes_ext; [exact Hrest|]. intros x Hx. apply OM. lia.
    + split; [by eapply only_screen_trans|done].
Qed.
End output.

(** * Switching terminals *)

(** The cursor address the display controller was last given. *)
Definition hw_cursor (log : port_log) : option Z :=
  match filter (fun e => e.1 = VGA_CRTC_PORT_COMMAND \/ e.1 = VGA_CRTC_PORT_DATA) log with
  | (_, lo) :: (_, 15) :: (_, hi) :: (_, 14) :: _ => Some (256 * hi + lo)
  | _ => None
  end.

Section switching.
Context `{L : Layout}.

(** Every terminal writes to its own buffer, the active one to the
    display. *)
Record video_ok (s : tty) : Prop := {
  vk_active : 0 <= active_terminal s < 3;
  vk_video : forall t, 0 <= t < 3 -> video_memory (terms s t) = get_terminal_output_buffer s t
}.

Lemma set_hardware_cursor_ports s t x y :
  active_terminal s = t -> 0 <= x < 80 -> 0 <= y < 25 ->
  hw_cursor (ports (tpic (set_hardware_cursor s t x y))) = Some (80 * y + x).
Proof.
  intros Ha Hx Hy. unfold set_hardware_cursor. cbn [active_terminal set_term].
  rewrite Ha, Z.eqb_refl. cbn [tpic set_tpic ports pic_out set_term].
  unfold outportb, hw_cursor. change (u16 VGA_CRTC_PORT_COMMAND) with 0x3D4.
  change (u16 VGA_CRTC_PORT_DATA) with 0x3D5. change (u8 14) with 14. change (u8 15) with 15.
  rewrite !filter_cons_True by (simpl; tauto). f_equal.
  unfold VIDEO_INDEX, TERMINAL_COLUMNS. rewrite (u16_id (y * 80 + x)) by lia.
  rewrite Z.shiftr_div_pow2 by lia. change (Z.land (y * 80 + x) 255) with (Z.land (y * 80 + x) (Z.ones 8)).
  rewrite Z.land_ones by lia. change (2 ^ 8) with 256. unfold u8. divlia.
Qed.

Context `{LOk : !LayoutOk L}.

Lemma output_rows t :
  0 <= t < 3 -> 0x400000 <= output_row t /\ output_row t + 8192 <= 0x7F0000 /\
  (forall j, 0 <= j < 3 -> j <> t ->
     output_row t + 8192 <= output_row j \/ output_row j + 8192 <= output_row t).
Proof.
  intros Ht. destruct lay_output as [[H1 H2] _].
  unfold output_row, FOUR_KB_ALIGNED, KERNEL_PAGE_START, KERNEL_IMAGE_END in *.
  split; [lia|]. split; [lia|]. intros j Hj Hne. lia.
Qed.

(** The two copies of a switch. *)
Section copies.
Context (m : mem) (a n : Z) (Ha : 0 <= a < 3) (Hn : 0 <= n < 3).
Let m1 := memcpy m (output_row a) VIDEO_PHYS_ADDR FOUR_KB_ALIGNED.
Let m2 := memcpy m1 VIDEO_PHYS_ADDR (output_row n) FOUR_KB_ALIGNED.

Lemma switch_copies x :
  load8 m2 x =
  if (0xB8000 <=? x) && (x <? 0xB9000) then
    if n =? a then load8 m x else load8 m (output_row n + (x - 0xB8000))
  else if (output_row a <=? x) && (x <? output_row a + 4096)
       then load8 m (0xB8000 + (x - output_row a))
  else load8 m x.
Proof.
  destruct (output_rows a Ha) as (A1 & A2 & Aj), (output_rows n Hn) as (N1 & N2 & _).
  specialize (Aj n Hn).
  unfold m2, m1, VIDEO_PHYS_ADDR, FOUR_KB_ALIGNED.
  rewrite !memcpy_spec by (unfold forward_ok; lia). rewrite !load8_copied by lia.
  change (0xB8000 + 4096) with 0xB9000.
  destruct (Z.leb_spec 0xB8000 x), (Z.ltb_spec x 0xB9000); cbn [andb]; try done.
  destruct (Z.eqb_spec n a) as [->|Hne].
  - repeat (case_zb; cbn [andb]); try lia. f_equal. lia.
  - repeat (case_zb; cbn [andb]); try lia; done.
Qed.

Lemma switch_screen_cells s s' t :
  0 <= t < 3 -> tmem s = m -> tmem s' = m2 -> active_terminal s = a -> active_terminal s' = n ->
  screen_cells m2 (get_terminal_output_buffer s' t)
  = screen_cells m (get_terminal_output_buffer s t).
Proof.
  intros Ht Em Em2 Ea En. apply screen_cells_ext. intros i Hi. apply load_le_shift.
  intros k Hk. simpl in Hk. rewrite switch_copies.
  unfold get_terminal_output_buffer, VIDEO_PHYS_ADDR. rewrite Ea, En.
  destruct (output_rows a Ha) as (A1 & A2 & Aj), (output_rows t Ht) as (T1 & T2 & Tj).
  pose proof (Tj a Ha) as TA. pose proof (Aj t Ht) as AT.
  destruct (Z.eqb_spec t n) as [->|Htn].
  - destruct (Z.eqb_spec n a) as [->|Hna]; repeat (case_zb; cbn [andb]); try lia; f_equal; lia.
  - destruct (Z.eqb_spec t a) as [->|Hta]; repeat (case_zb; cbn [andb]); try lia; f_equal; lia.
Qed.
End copies.

Lemma set_video_id T : set_video (video_memory T) T = T.
Proof. by destruct T. Qed.

Lemma switch_active s n :
  0 <= n < 3 ->
  active_terminal (switch_active_terminal s n) = n /\
  tmem (switch_active_terminal s n)
  = memcpy (memcpy (tmem s) (output_row (active_terminal s)) VIDEO_PHYS_ADDR FOUR_KB_ALIGNED)
      VIDEO_PHYS_ADDR (output_row n) FOUR_KB_ALIGNED /\
  single_terminal (switch_active_terminal s n) = single_terminal s /\
  keyboard_state (switch_active_terminal s n) = keyboard_state s /\
  caps_lock_status (switch_active_terminal s n) = caps_lock_status s.
Proof.
  intros Hn. unfold switch_active_terminal, NUM_TERMINALS. case_zb; [|lia]. cbv zeta.
  unfold set_hardware_cursor. simpl. rewrite Z.eqb_refl. done.
Qed.

Lemma switch_terms s n j :
  video_ok s -> 0 <= n < 3 -> 0 <= j < 3 ->
  let s' := switch_active_terminal s n in
  terms s' j = set_video (get_terminal_output_buffer s' j) (terms s j).
Proof.
  intros [Ha Hv] Hn Hj. cbv zeta. unfold get_terminal_output_buffer.
  destruct (switch_active s n Hn) as (-> & _).
  unfold switch_active_terminal, NUM_TERMINALS. case_zb; [|lia]. cbv zeta.
  specialize (Hv j Hj). unfold get_terminal_output_buffer in *.
  unfold set_hardware_cursor. simpl. rewrite !Z.eqb_refl. simpl.
  set (a := active_terminal s) in *.
  destruct (decide (n = j)) as [<-|Hnj].
  - rewrite fn_lookup_alter, Z.eqb_refl.
    destruct (decide (a = n)) as [<-|Hna].
    + rewrite !fn_lookup_alter. done.
    + rewrite !fn_lookup_alter, !fn_lookup_alter_ne by done. by destruct (terms s n).
  - rewrite !(fn_lookup_alter_ne _ _ n j) by done.
    destruct (decide (a = j)) as [<-|Haj].
    + rewrite fn_lookup_alter. by destruct (terms s a).
    + rewrite fn_lookup_alter_ne by done.
      revert Hv. repeat case_zb; try congruence. intros <-. by destruct (terms s j).
Qed.

Lemma switch_spec s n :
  video_ok s -> 0 <= n < 3 ->
  let s' := switch_active_terminal s n in
  video_ok s' /\ (forall t, 0 <= t < 3 -> screen_of s' t = screen_of s t) /\
  (forall x, ~ (0xB8000 <= x < 0xB9000) ->
     ~ (output_buffer <= x < output_buffer + 3 * 8192) -> load8 (tmem s') x = load8 (tmem s) x).
Proof.
  intros Hok Hn s'. destruct (switch_active s n Hn) as (Ea & Em & _). fold s' in Ea, Em.
  pose proof (switch_terms s n) as T. cbv zeta in T. fold s' in T.
  destruct (Hok) as [Ha Hv]. split; [|split].
  - split; [lia|]. intros t Ht. by rewrite T.
  - intros t Ht. unfold screen_of. rewrite T by done. cbn [video_memory set_video cursor_x cursor_y].
    rewrite (Hv t Ht), Em. f_equal. by apply switch_screen_cells.
  - intros x Hx Ho. rewrite Em, switch_copies by done.
    destruct lay_output as [[H1 H2] _]. unfold output_row, FOUR_KB_ALIGNED in *.
    repeat (case_zb; cbn [andb]); try lia; done.
Qed.
End switching.

(** * Properties *)

(** C4: writing to the terminal prints on the caller's screen.  For a buffer
    and a PCB outside the screen's 4000 bytes, [terminal_write] leaves the
    caller's terminal exactly as printing the bytes one after the other on a
    25 by 80 screen does (line feeds, the right margin, scrolling and
    backspaces included; a backspace in the top left corner, which leaves the
    screen, is excluded), keeps the cursor on the screen, returns [nbytes] and
    changes neither other terminals nor memory outside that screen. *)
Theorem terminal_write_correct (s : tty) (esp f buf nbytes : Z) (sc : screen) :
  let pcb := get_current_pcb esp in
  let t := pcb_get (tmem s) pcb terminal_num in
  let base := video_memory (terms s t) in
  0 <= nbytes ->
  pcb + sizeof_pcb_t <= base \/ base + 4000 <= pcb ->
  buf + nbytes <= base \/ base + 4000 <= buf ->
  screen_ok (screen_of s t) ->
  scr_puts (screen_of s t) (load_bytes (tmem s) buf (Z.to_nat nbytes)) = Some sc ->
  let '(s', r) := terminal_write s esp f buf nbytes in
  r = nbytes /\ screen_of s' t = sc /\ screen_ok sc /\
  same_outside (tmem s) (tmem s') base (base + 4000) /\
  (forall j, j <> t -> terms s' j = terms s j) /\
  input_buffer (terms s' t) = input_buffer (terms s t) /\
  new_line_ready (terms s' t) = new_line_ready (terms s t).
Proof.
  intros pcb t base Hn Hp Hb Hok Hputs. unfold terminal_write, sizeof_pcb_t in *. fold pcb.
  destruct (terminal_write_loop_spec (Z.to_nat nbytes) s pcb buf t sc) as [[] C]; try done; try lia.
  split; [done|]. split; [done|]. split; [|by split_and!].
  clear -Hok Hputs. revert Hok Hputs. generalize (screen_of s t) as sc0.
  induction (load_bytes (tmem s) buf (Z.to_nat nbytes)) as [|b l IH]; intros sc0 Hok; simpl.
  - by intros [= <-].
  - destruct (scr_putc sc0 b) as [sc1|] eqn:E; [|done]. simpl. apply IH. by eapply scr_putc_ok.
Qed.

(** A terminal on the display with the cursor in the last row, and a caller
    with a text in its page. *)
Definition example_tty : tty :=
  Tty (store_bytes ∅ 0x848000 [104; 105; 10]) pic_boot
    (fun t => Terminal (circular_buffer_init (0x408000 + 128 * t) 128) 0 78 24
                (if t =? 0 then 0xB8000 else 0x401000 + 8192 * t))
    0 0 (replicate 128 0) 0.

Lemma terminal_write_correct_witness :
  let '(s', r) := terminal_write example_tty 0x7FFF00 0 0x848000 3 in
  r = 3 /\ col (screen_of s' 0) = 0 /\ row (screen_of s' 0) = 24.
Proof.
  pose (sc := default scr_clear (scr_puts (screen_of example_tty 0) [104; 105; 10])).
  pose proof (terminal_write_correct example_tty 0x7FFF00 0 0x848000 3 sc) as P.
  assert (Et : pcb_get (tmem example_tty) (get_current_pcb 0x7FFF00) terminal_num = 0)
    by (vm_compute; reflexivity).
  cbv zeta in P. rewrite Et in P.
  destruct (terminal_write _ _ _ _ _) as [s' r].
  destruct P as (-> & -> & _).
  - lia.
  - right. apply Z.leb_le. vm_compute. reflexivity.
  - right. apply Z.leb_le. vm_compute. reflexivity.
  - split; [apply length_screen_cells|split; simpl; lia|split; simpl; lia].
  - vm_compute. reflexivity.
  - split; [reflexivity|]. vm_compute. split; reflexivity.
Defined.

(** Finding: a backspace with the cursor in the top left corner leaves the screen.
    The row wraps to 255, the cursor goes off the screen and a blank is written
    40958 bytes behind the start of the video memory, outside the screen. *)
Theorem putc_backspace_corner (s : tty) (t : Z) :
  cursor_x (terms s t) = 0 -> cursor_y (terms s t) = 0 ->
  let s' := putc_internal s t 8 in
  cursor_x (terms s' t) = 79 /\ cursor_y (terms s' t) = 255 /\
  load16 (tmem s') (video_memory (terms s t) + 40958) = blank_word.
Proof.
  intros Hx Hy. set (s1 := video_buffer_putc s t 79 255 32).
  assert (E0 : putc_internal s t 8 = set_hardware_cursor s1 t 79 255)
    by (unfold putc_internal; rewrite Hx, Hy; reflexivity).
  cbv zeta. rewrite E0. clear E0.
  pose proof (set_hardware_cursor_screen s1 t 79 255) as C.
  split; [exact (f_equal col C)|]. split; [exact (f_equal row C)|].
  assert (E : tmem (set_hardware_cursor s1 t 79 255) = tmem s1)
    by (unfold set_hardware_cursor; cbv zeta; by destruct (t =? _)).
  rewrite E. unfold s1, video_buffer_putc. cbn [tmem set_tmem].
  change (2 * u16 (VIDEO_INDEX 79 255)) with 40958. apply load16_store16_eq.
Qed.

Lemma putc_backspace_corner_witness :
  load16 (tmem (putc_internal (clear_terminal example_tty 1) 1 8))
    (0x403000 + 40958) = 0x0F20.
Proof.
  apply (putc_backspace_corner
           (clear_terminal example_tty 1) 1); vm_compute; reflexivity.
Defined.

(** C25: switching terminals keeps every screen.  Whatever terminal becomes
    active, all three terminals show the same cells and the same cursor
    afterwards, each in the memory it now writes to (the display for the active
    one, its own buffer otherwise); the hardware cursor is that of the new
    terminal; memory other than the display page and the terminal buffers is
    untouched.  A number that is no terminal changes nothing. *)
Theorem switch_preserves_screens `{L : Layout} `{LOk : !LayoutOk L} (s : tty) (n : Z) :
  video_ok s -> screen_ok (screen_of s n) -> 0 <= n ->
  let s' := switch_active_terminal s n in
  video_ok s' /\
  (n < 3 -> active_terminal s' = n /\
     hw_cursor (ports (tpic s')) = Some (80 * cursor_y (terms s n) + cursor_x (terms s n))) /\
  (forall t, 0 <= t < 3 -> screen_of s' t = screen_of s t) /\
  (forall t, 0 <= t < 3 -> input_buffer (terms s' t) = input_buffer (terms s t) /\
     new_line_ready (terms s' t) = new_line_ready (terms s t)) /\
  (forall x, ~ (0xB8000 <= x < 0xB9000) ->
     ~ (output_buffer <= x < output_buffer + 3 * 8192) -> load8 (tmem s') x = load8 (tmem s) x) /\
  (3 <= n -> s' = s).
Proof.
  intros Hok Hsc Hn s'. destruct (Z_lt_le_dec n 3) as [H3|H3].
  - destruct (switch_spec s n Hok ltac:(lia)) as (V & S & M). fold s' in V, S, M.
    split; [exact V|]. split; [|split; [exact S|]].
    + intros _. destruct (switch_active s n ltac:(lia)) as [E _]. fold s' in E. split; [exact E|].
      destruct Hsc as [_ Hx Hy]. simpl in Hx, Hy.
      unfold s', switch_active_terminal, NUM_TERMINALS. destruct (Z.ltb_spec n 3); [|lia]. cbv zeta.
      cbn [active_terminal set_tmem set_term set_active].
      match goal with |- hw_cursor (ports (tpic (set_hardware_cursor ?s1 _ _ _))) = _ => set (s2 := s1) end.
      assert (Ec : cursor_x (terms s2 n) = cursor_x (terms s n) /\ cursor_y (terms s2 n) = cursor_y (terms s n)).
      { unfold s2. simpl. rewrite fn_lookup_alter.
        destruct (decide (active_terminal s = n)) as [->|Hne];
          [by rewrite fn_lookup_alter|by rewrite fn_lookup_alter_ne by done]. }
      destruct Ec as [-> ->]. by apply set_hardware_cursor_ports.
    + split; [|split; [exact M|intros ?; exfalso; lia]].
      intros t Ht. pose proof (switch_terms s n t Hok ltac:(lia) Ht) as T. cbv zeta in T.
      unfold s'. rewrite T. done.
  - assert (E : s' = s).
    { unfold s', switch_active_terminal, NUM_TERMINALS. destruct (Z.ltb_spec n 3); [lia|done]. }
    rewrite E. split_and!; try done. lia.
Qed.

Lemma switch_preserves_screens_witness :
  screen_of (switch_active_terminal (L := example_layout) example_tty 2) 0 = screen_of example_tty 0 /\
  hw_cursor (ports (tpic (switch_active_terminal (L := example_layout) example_tty 2))) = Some 1998.
Proof.
  assert (V : video_ok (L := example_layout) example_tty).
  { split; [simpl; lia|]. intros t Ht.
    assert (t = 0 \/ t = 1 \/ t = 2) as [->|[->| ->]] by lia; reflexivity. }
  destruct (switch_preserves_screens (LOk := example_layout_ok) example_tty 2 V) as (_ & H & S & _).
  - split; [apply length_screen_cells|split; simpl; lia|split; simpl; lia].
  - lia.
  - split; [apply S; lia|apply H; lia].
Defined.
