(* ===== verification/Printf.v ===== *)
(** Formatted output: [printf] and [puts] of [lib/lib.c], which print on
    terminal 0.

    The arguments of [printf] are the words at [esp] on the caller's stack; the
    local buffers [conv_buf] of the conversions live in disjoint scopes and are
    the block of 64 bytes at [conv_buf]. *)

From S2P Require Import Prelude Memory Layout I8259 LibMem LibString CircularBuffer Paging Pcb.
From S2P Require Import Terminal Screen.

(** [None]: no terminating zero within [fuel] bytes. *)
Fixpoint puts_loop (fuel : nat) (s : tty) (a index : Z) : option (tty * Z) :=
  match fuel with
  | O => None
  | S f =>
      if load8 (tmem s) (a + index) =? 0 then Some (s, index)
      else puts_loop f (putc s (load8 (tmem s) (a + index))) a (index + 1)
  end.

Definition puts (s : tty) (a : Z) : option (tty * Z) := puts_loop (S (size (tmem s))) s a 0.

(** [while(i < 8) { conv_buf[i] = '0'; i++; }] *)
Fixpoint zero_fill (n : nat) (m : mem) (conv_buf i : Z) : mem :=
  match n with
  | O => m
  | S n' => if i <? 8 then zero_fill n' (store8 m (conv_buf + i) 48) conv_buf (i + 1) else m
  end.

(** [itoa(value, buf, radix); puts(out);] *)
Definition put_number (s : tty) (value buf radix out : Z) : option tty :=
  m ← itoa (tmem s) value buf radix;
  '(s, _) ← puts (set_tmem s m) out;
  Some s.

(** The switch at [format_char_switch]. *)
Fixpoint format_char (fuel : nat) (s : tty) (buf esp conv_buf : Z) (alternate : bool)
  : option (tty * Z * Z) :=
  match fuel with
  | O => None
  | S f =>
      let c := load8 (tmem s) buf in
      let arg := load32 (tmem s) esp in
      if c =? 37 then Some (putc s 37, buf, esp)
      else if c =? 35 then format_char f s (buf + 1) esp conv_buf true
      else if c =? 120 then
        if negb alternate then
          s ← put_number s arg conv_buf 16 conv_buf; Some (s, buf, esp + 4)
        else
          m ← itoa (tmem s) arg (conv_buf + 8) 16;
          let starting_index := strlen m (conv_buf + 8) in
          let m := zero_fill 8 m conv_buf starting_index in
          '(s, _) ← puts (set_tmem s m) (conv_buf + starting_index);
          Some (s, buf, esp + 4)
      else if c =? 117 then
        s ← put_number s arg conv_buf 10 conv_buf; Some (s, buf, esp + 4)
      else if c =? 100 then
        let value := s32 arg in
        if value <? 0 then
          s ← put_number (set_tmem s (store8 (tmem s) conv_buf 45)) (u32 (- value)) (conv_buf + 1) 10 conv_buf;
          Some (s, buf, esp + 4)
        else
          s ← put_number s (u32 value) conv_buf 10 conv_buf; Some (s, buf, esp + 4)
      else if c =? 99 then Some (putc s (u8 arg), buf, esp + 4)
      else if c =? 115 then '(s, _) ← puts s arg; Some (s, buf, esp + 4)
      else Some (s, buf, esp)
  end.

Fixpoint printf_loop (fuel : nat) (s : tty) (format buf esp conv_buf : Z) : option (tty * Z) :=
  match fuel with
  | O => None
  | S f =>
      let c := load8 (tmem s) buf in
      if c =? 0 then Some (s, buf - format)
      else if c =? 37 then
        '(s, buf, esp) ← format_char fuel s (buf + 1) esp conv_buf false;
        printf_loop f s format (buf + 1) esp conv_buf
      else printf_loop f (putc s c) format (buf + 1) esp conv_buf
  end.

(** Every iteration moves on in the string, which has at most [size]
    non-zero bytes. *)
Definition printf (s : tty) (format esp conv_buf : Z) : option (tty * Z) :=
  printf_loop (S (size (tmem s))) s format format esp conv_buf.

(** * What a format denotes *)

(** The string at an address. *)
Definition string_at (m : mem) (a : Z) : list Z := load_bytes m a (Z.to_nat (strlen m a)).

Definition hex (alternate : bool) (v : Z) : list Z :=
  if alternate then replicate (8 - length (number 16 v)) 48 ++ number 16 v else number 16 v.

Definition decimal (v : Z) : list Z := if v <? 0 then 45 :: number 10 (u32 (- v)) else number 10 v.

(** The output of one conversion, and the number of argument words it takes. *)
Definition conversion (m : mem) (esp c : Z) (alternate : bool) : list Z * Z :=
  let arg := load32 m esp in
  if c =? 37 then ([37], 0)
  else if c =? 120 then (hex alternate arg, 1)
  else if c =? 117 then (number 10 arg, 1)
  else if c =? 100 then (decimal (s32 arg), 1)
  else if c =? 99 then ([u8 arg], 1)
  else if c =? 115 then (string_at m arg, 1)
  else ([], 0).

(** The text [printf] prints; [mode] is [Some alternate] inside a conversion. *)
Fixpoint render (m : mem) (esp : Z) (mode : option bool) (l : list Z) : list Z :=
  match l with
  | [] => []
  | c :: r =>
      match mode with
      | None => if c =? 37 then render m esp (Some false) r else c :: render m esp None r
      | Some alt =>
          if c =? 35 then render m esp (Some true) r
          else let '(out, n) := conversion m esp c alt in out ++ render m (esp + 4 * n) None r
      end
  end.

(** A conversion reads its arguments, and the strings they point to, in memory
    that printing does not touch; the format does not end inside one. *)
Fixpoint render_ok (m : mem) (stable : Z -> Prop) (esp : Z) (mode : option bool) (l : list Z) : Prop :=
  match l with
  | [] => mode = None
  | c :: r =>
      match mode with
      | None => render_ok m stable esp (if c =? 37 then Some false else None) r
      | Some alt =>
          if c =? 35 then render_ok m stable esp (Some true) r
          else
            let n := (conversion m esp c alt).2 in
            (n = 1 -> forall x, esp <= x < esp + 4 -> stable x) /\
            (c = 115 -> forall x, load32 m esp <= x <= load32 m esp + strlen m (load32 m esp) -> stable x) /\
            render_ok m stable (esp + 4 * n) None r
      end
  end.

(** The same as a test, where [ok a n] says that [n] bytes at [a] are stable. *)
Fixpoint render_okb (m : mem) (ok : Z -> Z -> bool) (esp : Z) (mode : option bool) (l : list Z) : bool :=
  match l with
  | [] => match mode with None => true | Some _ => false end
  | c :: r =>
      match mode with
      | None => render_okb m ok esp (if c =? 37 then Some false else None) r
      | Some alt =>
          if c =? 35 then render_okb m ok esp (Some true) r
          else
            let n := (conversion m esp c alt).2 in
            ok esp (4 * n) && (negb (c =? 115) || ok (load32 m esp) (strlen m (load32 m esp) + 1))
            && render_okb m ok (esp + 4 * n) None r
      end
  end.

Lemma render_okb_spec m ok (stable : Z -> Prop) esp mode l :
  (forall a n x, ok a n = true -> a <= x < a + n -> stable x) ->
  render_okb m ok esp mode l = true -> render_ok m stable esp mode l.
Proof.
  intros Hok. revert esp mode. induction l as [|c l IH]; intros esp mode; cbn [render_ok render_okb].
  - by destruct mode.
  - destruct mode as [alt|]; [|apply IH]. destruct (c =? 35); [apply IH|]. cbv zeta.
    rewrite !andb_true_iff, orb_true_iff, negb_true_iff, Z.eqb_neq. intros [[H1 H2] H3].
    split; [|split; [|by apply IH]].
    + intros En x Hx. apply (Hok _ _ _ H1). lia.
    + intros Ec x Hx. destruct H2 as [H2|H2]; [done|]. apply (Hok _ _ _ H2). lia.
Qed.

Lemma scr_puts_app sc l1 l2 :
  scr_puts sc (l1 ++ l2) = (sc ← scr_puts sc l1; scr_puts sc l2).
Proof.
  revert sc. induction l1 as [|c l1 IH]; intros sc; simpl; [done|].
  destruct (scr_putc sc c) as [sc1|]; simpl; [apply IH|done].
Qed.

Lemma scr_puts_ok sc l sc' : screen_ok sc -> scr_puts sc l = Some sc' -> screen_ok sc'.
Proof.
  revert sc. induction l as [|c l IH]; intros sc Hok; cbn [scr_puts]; [by intros [= <-]|].
  destruct (scr_putc sc c) as [sc1|] eqn:E; simpl; [|done].
  apply IH. by eapply scr_putc_ok.
Qed.

(** Numbers. *)
Lemma length_digits_bound f v radix n :
  2 <= radix -> 0 <= v < radix ^ Z.of_nat n -> (length (digits f v radix) <= n)%nat.
Proof.
  intros Hr. revert v n. induction f as [|f IH]; intros v n Hv; simpl; [lia|].
  destruct (Z.gtb_spec v 0); simpl; [|lia]. destruct n as [|n]; [simpl in Hv; lia|].
  apply le_n_S, IH. rewrite Nat2Z.inj_succ, Z.pow_succ_r in Hv by lia.
  split; [apply Z.div_pos; lia|]. apply Z.div_lt_upper_bound; lia.
Qed.

Lemma length_hex v : 0 <= v < 0x100000000 -> (1 <= length (number 16 v) <= 8)%nat.
Proof.
  intros Hv. destruct (itoa_spec 16 ltac:(lia) ∅ v 0 Hv) as (l & m' & -> & _ & _ & _ & Hl & _).
  split; [lia|]. unfold number. destruct (v =? 0); [simpl; lia|].
  rewrite length_reverse, length_fmap. apply length_digits_bound; [lia|]. exact Hv.
Qed.

(** [puts] prints the string, whatever the memory behind it. *)
Lemma puts_loop_spec fuel s a index l sc :
  let base := video_memory (terms s 0) in
  (length l < fuel)%nat -> cstr (tmem s) (a + index) l ->
  a + index + zlen l < base \/ base + 4000 <= a + index ->
  screen_ok (screen_of s 0) -> scr_puts (screen_of s 0) l = Some sc ->
  exists s', puts_loop fuel s a index = Some (s', index + zlen l) /\
             only_screen s s' 0 /\ screen_of s' 0 = sc.
Proof.
  revert s index l sc. induction fuel as [|f IH]; intros s index l sc base Hf Hc Hd Hok Hp; [lia|].
  cbn [puts_loop]. destruct l as [|c l].
  - destruct Hc as (_ & _ & Hz). simpl in Hz. rewrite Z.add_0_r in Hz. rewrite Hz. simpl.
    exists s. rewrite Z.add_0_r. injection Hp as <-. split; [done|]. split; [apply only_screen_refl|done].
  - assert (Ec : load8 (tmem s) (a + index) = c).
    { pose proof (cstr_lookup _ _ _ 0%nat Hc ltac:(simpl; lia)) as E. rewrite Z.add_0_r in E. exact E. }
    assert (Hc0 : c <> 0) by (destruct Hc as (_ & Hnz & _); by apply Forall_cons in Hnz as [? _]).
    rewrite Ec, (proj2 (Z.eqb_neq c 0) Hc0). cbn [scr_puts] in Hp.
    destruct (scr_putc (screen_of s 0) c) as [sc1|] eqn:E1; [|discriminate Hp]. cbn [mbind option_bind] in Hp.
    assert (Rc : 0 <= c < 256) by (rewrite <- Ec; apply load8_range).
    destruct (putc_spec s 0 c sc1 Rc Hok E1) as [O C]. fold (putc s c) in O, C.
    destruct (O) as [OM _ _ _ OV _ _ _ _]. fold base in OM, OV. cbn [length] in *.
    destruct (IH (putc s c) (index + 1) l sc) as (s' & E & O' & C').
    + lia.
    + apply (cstr_ext (tmem s)); [intros x Hx; apply OM; lia|].
      rewrite Z.add_assoc. by apply (cstr_app (tmem s) (a + index) [c] l) in Hc.
    + rewrite OV. lia.
    + rewrite C. by eapply scr_putc_ok.
    + by rewrite C.
    + exists s'. rewrite E. split; [do 2 f_equal; lia|]. split; [by eapply only_screen_trans|done].
Qed.

Lemma puts_spec s a l sc :
  let base := video_memory (terms s 0) in
  cstr (tmem s) a l -> a + zlen l < base \/ base + 4000 <= a ->
  screen_ok (screen_of s 0) -> scr_puts (screen_of s 0) l = Some sc ->
  exists s', puts s a = Some (s', zlen l) /\ only_screen s s' 0 /\ screen_of s' 0 = sc.
Proof.
  intros base Hc Hd Hok Hp. unfold puts.
  destruct (puts_loop_spec (S (size (tmem s))) s a 0 l sc) as (s' & E & R);
    [|by rewrite Z.add_0_r|fold base; lia|done..|by exists s'].
  assert (length l <= size (tmem s))%nat; [|lia].
  apply nonzero_run_bounded with a. intros. by apply (cstr_nonzero (tmem s) a l).
Qed.

Section printing.
Context (base conv : Z).
Hypothesis (Hapart : conv + 64 <= base \/ base + 4000 <= conv).

(** Memory that printing does not touch. *)
Definition stable (x : Z) : Prop := (x < base \/ base + 4000 <= x) /\ (x < conv \/ conv + 64 <= x).

(** What printing on terminal 0 leaves alone. *)
Record printing (s s' : tty) : Prop := {
  pr_mem : forall x, stable x -> load8 (tmem s') x = load8 (tmem s) x;
  pr_terms : forall j, j <> 0 -> terms s' j = terms s j;
  pr_input : input_buffer (terms s' 0) = input_buffer (terms s 0);
  pr_lines : new_line_ready (terms s' 0) = new_line_ready (terms s 0);
  pr_video : video_memory (terms s' 0) = video_memory (terms s 0);
  pr_active : active_terminal s' = active_terminal s;
  pr_single : single_terminal s' = single_terminal s;
  pr_masks : masks (tpic s') = masks (tpic s)
}.

Lemma printing_refl s : printing s s.
Proof. by split. Qed.

Lemma printing_trans s1 s2 s3 : printing s1 s2 -> printing s2 s3 -> printing s1 s3.
Proof.
  intros [M1 T1 I1 N1 V1 A1 S1 P1] [M2 T2 I2 N2 V2 A2 S2 P2]. split; try congruence.
  - intros x Hx. by rewrite M2, M1.
  - intros j Hj. by rewrite T2, T1.
Qed.

Lemma only_screen_printing s s' :
  video_memory (terms s 0) = base -> only_screen s s' 0 -> printing s s'.
Proof.
  intros Hb [M T I N V A S _ _ P]. rewrite Hb in M. split; try done. intros x [Hx _]. by apply M.
Qed.

(** A text in the buffer. *)
Lemma put_text s m' out l sc :
  video_memory (terms s 0) = base -> same_outside (tmem s) m' conv (conv + 64) ->
  cstr m' out l -> conv <= out -> out + zlen l < conv + 64 ->
  screen_ok (screen_of s 0) -> scr_puts (screen_of s 0) l = Some sc ->
  exists s' n, puts (set_tmem s m') out = Some (s', n) /\ printing s s' /\ screen_of s' 0 = sc.
Proof.
  intros Hb M Hc H1 H2 Hok Hp.
  assert (E : screen_of (set_tmem s m') 0 = screen_of s 0).
  { unfold screen_of. cbn [terms tmem set_tmem]. f_equal. rewrite Hb.
    by eapply screen_cells_outside. }
  destruct (puts_spec (set_tmem s m') out l sc) as (s' & E' & O & C);
    [done|cbn [terms set_tmem]; rewrite Hb; lia|by rewrite E|by rewrite E|].
  exists s', (zlen l). split; [done|]. split; [|done].
  apply (printing_trans s (set_tmem s m')); [|by apply only_screen_printing].
  split; try done. intros x [_ Hx]. by apply M.
Qed.

Lemma put_number_spec s value buf radix sc :
  video_memory (terms s 0) = base -> 2 <= radix <= 36 -> 0 <= value < 0x100000000 ->
  conv <= buf -> buf + 33 <= conv + 64 ->
  screen_ok (screen_of s 0) -> scr_puts (screen_of s 0) (number radix value) = Some sc ->
  exists s', put_number s value buf radix buf = Some s' /\ printing s s' /\ screen_of s' 0 = sc.
Proof.
  intros Hb Hr Hv H1 H2 Hok Hp. unfold put_number.
  destruct (itoa_spec radix Hr (tmem s) value buf Hv) as (l & m' & -> & -> & Hc & Ho & Hl & _).
  cbn [mbind option_bind].
  destruct (put_text s m' buf (number radix value) sc) as (s' & n & -> & P & C); [done| |done|lia|lia|done|done|].
  { intros x Hx. apply Ho. lia. }
  exists s'. done.
Qed.

(** A negative number: the sign is in front of the digits. *)
Lemma put_negative_spec s v sc :
  video_memory (terms s 0) = base -> - 0x80000000 <= v < 0 ->
  screen_ok (screen_of s 0) -> scr_puts (screen_of s 0) (decimal v) = Some sc ->
  exists s', put_number (set_tmem s (store8 (tmem s) conv 45)) (u32 (- v)) (conv + 1) 10 conv = Some s' /\
    printing s s' /\ screen_of s' 0 = sc.
Proof.
  intros Hb Hv Hok. unfold decimal, put_number. destruct (Z.ltb_spec v 0); [|lia]. intros Hp.
  set (m1 := store8 (tmem s) conv 45). cbn [tmem set_tmem].
  destruct (itoa_spec 10 ltac:(lia) m1 (u32 (- v)) (conv + 1) ltac:(rewrite u32_id; lia))
    as (l & m' & El & -> & Hc & Ho & Hl & _). rewrite <- El in Hp. cbn [mbind option_bind].
  assert (E45 : load8 m' conv = 45) by (rewrite Ho by lia; apply load8_store8_eq).
  destruct (put_text s m' conv (45 :: l) sc) as (s' & n & E & P & C); [done| | |lia|simpl; lia|done|done|].
  - intros x Hx. rewrite Ho by lia. apply load8_store8_ne. lia.
  - destruct Hc as (B & Z1 & Z2). split; [|split; [by constructor|]].
    + cbn [length]. rewrite load_bytes_S, E45, B. done.
    + rewrite <- Z2. f_equal. simpl. lia.
  - exists s'. change (set_tmem (set_tmem s m1) m') with (set_tmem s m'). rewrite E. done.
Qed.

Lemma zero_fill_spec n m i :
  0 <= i <= 8 -> 8 - i <= Z.of_nat n ->
  zero_fill n m conv i = store_bytes m (conv + i) (replicate (Z.to_nat (8 - i)) 48).
Proof.
  revert m i. induction n as [|n IH]; intros m i Hi Hn; cbn [zero_fill].
  - by replace (8 - i) with 0 by lia.
  - destruct (Z.ltb_spec i 8) as [H|H]; [|by replace (8 - i) with 0 by lia].
    rewrite IH by lia. replace (Z.to_nat (8 - i)) with (S (Z.to_nat (8 - (i + 1)))) by lia.
    cbn [replicate store_bytes]. f_equal. lia.
Qed.

(** The zero-padded form prints eight digits. *)
Lemma put_padded_spec s v sc :
  video_memory (terms s 0) = base -> 0 <= v < 0x100000000 ->
  screen_ok (screen_of s 0) -> scr_puts (screen_of s 0) (hex true v) = Some sc ->
  exists m1, itoa (tmem s) v (conv + 8) 16 = Some m1 /\
  let i := strlen m1 (conv + 8) in
  exists s' n, puts (set_tmem s (zero_fill 8 m1 conv i)) (conv + i) = Some (s', n) /\
    printing s s' /\ screen_of s' 0 = sc.
Proof.
  intros Hb Hv Hok Hp. pose proof (length_hex v Hv) as H8. unfold hex in Hp.
  destruct (itoa_spec 16 ltac:(lia) (tmem s) v (conv + 8) Hv) as (l & m1 & El & E & Hc & Ho & Hl & _).
  rewrite <- El in *. exists m1. split; [exact E|]. cbv zeta. rewrite (strlen_cstr _ _ _ Hc).
  rewrite zero_fill_spec by lia. set (p := replicate (Z.to_nat (8 - zlen l)) 48).
  assert (Hpl : length p = (8 - length l)%nat) by (unfold p; rewrite length_replicate; lia).
  apply (put_text s _ (conv + zlen l) (replicate (8 - length l) 48 ++ l) sc); try done.
  - intros x Hx. rewrite load8_store_bytes_out by lia. apply Ho. lia.
  - replace (replicate (8 - length l) 48) with p by (unfold p; f_equal; lia).
    assert (C' : cstr (store_bytes m1 (conv + zlen l) p) (conv + 8) l).
    { apply (cstr_ext m1); [|done]. intros x Hx. apply load8_store_bytes_out. lia. }
    destruct C' as (B & Z1 & Z2). split; [|split].
    + rewrite length_app, load_bytes_app. f_equal.
      * rewrite load_store_bytes; [done|]. unfold p. apply Forall_replicate. lia.
      * rewrite Hpl. by replace (conv + zlen l + Z.of_nat (8 - length l)) with (conv + 8) by lia.
    + apply Forall_app. split; [|done]. unfold p. apply Forall_replicate. lia.
    + rewrite <- Z2. f_equal. rewrite length_app. lia.
  - lia.
  - rewrite length_app, length_replicate. lia.
Qed.

Lemma cstr_string_at m a : cstr m a (string_at m a) /\ zlen (string_at m a) = strlen m a.
Proof.
  destruct (cstr_exists m a) as [l Hl]. unfold string_at. pose proof Hl as (B & _ & _).
  rewrite (strlen_cstr _ _ _ Hl), Nat2Z.id, B. done.
Qed.

(** One character, in the form of a text. *)
Lemma put_char s c sc :
  video_memory (terms s 0) = base -> 0 <= c < 256 -> screen_ok (screen_of s 0) ->
  scr_puts (screen_of s 0) [c] = Some sc -> printing s (putc s c) /\ screen_of (putc s c) 0 = sc.
Proof.
  intros Hb Hc Hok Hp. cbn [scr_puts] in Hp. destruct (scr_putc (screen_of s 0) c) as [sc1|] eqn:E; [|discriminate Hp].
  cbn [mbind option_bind] in Hp. injection Hp as <-.
  destruct (putc_spec s 0 c sc1 Hc Hok E) as [O C]. split; [by apply only_screen_printing|done].
Qed.

Context (m0 : mem).

(** The state between two steps of the loop. *)
Record ready (s : tty) : Prop := {
  rd_video : video_memory (terms s 0) = base;
  rd_mem : forall x, stable x -> load8 (tmem s) x = load8 m0 x;
  rd_screen : screen_ok (screen_of s 0)
}.

Lemma printing_ready s s' sc l :
  ready s -> printing s s' -> screen_of s' 0 = sc -> scr_puts (screen_of s 0) l = Some sc -> ready s'.
Proof.
  intros [V M S] [M' _ _ _ V' _ _] C Hp. split; [congruence| |].
  - intros x Hx. by rewrite M', M.
  - rewrite C. by eapply scr_puts_ok.
Qed.

Lemma conversion_spec f s buf esp c alt sc :
  let n := (conversion m0 esp c alt).2 in
  ready s -> load8 (tmem s) buf = c -> c <> 35 ->
  (n = 1 -> forall x, esp <= x < esp + 4 -> stable x) ->
  (c = 115 -> forall x, load32 m0 esp <= x <= load32 m0 esp + strlen m0 (load32 m0 esp) -> stable x) ->
  scr_puts (screen_of s 0) (conversion m0 esp c alt).1 = Some sc ->
  exists s', format_char (S f) s buf esp conv alt = Some (s', buf, esp + 4 * n) /\
             printing s s' /\ screen_of s' 0 = sc.
Proof.
  intros n [Hb M Hok] Hc H35 Hst. subst n. cbn [format_char]. cbv zeta. rewrite Hc.
  assert (Ea : (conversion m0 esp c alt).2 = 1 -> load32 (tmem s) esp = load32 m0 esp).
  { intros H1. apply load_le_ext. intros x Hx. simpl in Hx. apply M, Hst; [exact H1|lia]. }
  pose proof (load32_range m0 esp) as Ra. unfold conversion in *.
  destruct (Z.eqb_spec c 37) as [->|_].
  { intros _ Hp. exists (putc s 37). rewrite Z.mul_0_r, Z.add_0_r. split; [done|]. by apply put_char. }
  rewrite (proj2 (Z.eqb_neq c 35) H35).
  destruct (Z.eqb_spec c 120) as [->|_].
  { cbn [fst snd] in *. rewrite Ea by done. rewrite Z.mul_1_r. intros _ Hp. destruct alt; cbn [negb].
    - destruct (put_padded_spec s _ sc Hb Ra Hok Hp) as (m1 & -> & s' & k & E & R).
      cbn [mbind option_bind]. rewrite E. by exists s'.
    - destruct (put_number_spec s _ conv 16 sc Hb ltac:(lia) Ra ltac:(lia) ltac:(lia) Hok Hp) as (s' & -> & R).
      by exists s'. }
  destruct (Z.eqb_spec c 117) as [->|_].
  { cbn [fst snd] in *. rewrite Ea by done. rewrite Z.mul_1_r. intros _ Hp.
    destruct (put_number_spec s _ conv 10 sc Hb ltac:(lia) Ra ltac:(lia) ltac:(lia) Hok Hp) as (s' & -> & R).
    by exists s'. }
  destruct (Z.eqb_spec c 100) as [->|_].
  { cbn [fst snd] in *. rewrite Ea by done. rewrite Z.mul_1_r. intros _ Hp.
    pose proof (s32_range (load32 m0 esp)) as Rs. destruct (Z.ltb_spec (s32 (load32 m0 esp)) 0) as [Hneg|Hpos].
    - destruct (put_negative_spec s (s32 (load32 m0 esp)) sc Hb ltac:(lia) Hok Hp) as (s' & -> & R). by exists s'.
    - unfold decimal in Hp. rewrite (proj2 (Z.ltb_ge _ _) Hpos) in Hp. rewrite u32_id by lia.
      destruct (put_number_spec s (s32 (load32 m0 esp)) conv 10 sc Hb ltac:(lia) ltac:(lia) ltac:(lia) ltac:(lia) Hok Hp) as (s' & -> & R).
      by exists s'. }
  destruct (Z.eqb_spec c 99) as [->|_].
  { cbn [fst snd] in *. rewrite Ea by done. rewrite Z.mul_1_r. intros _ Hp.
    exists (putc s (u8 (load32 m0 esp))). split; [done|]. apply put_char; try done. apply u8_range. }
  destruct (Z.eqb_spec c 115) as [->|_].
  { cbn [fst snd] in *. rewrite Ea by done. rewrite Z.mul_1_r. intros Hstr Hp. specialize (Hstr eq_refl).
    destruct (cstr_string_at m0 (load32 m0 esp)) as [Cs Ls].
    assert (Hn : 0 <= strlen m0 (load32 m0 esp)) by lia.
    destruct (puts_spec s (load32 m0 esp) (string_at m0 (load32 m0 esp)) sc) as (s' & -> & O & C); try done.
    - apply (cstr_ext m0); [|done]. intros x Hx. apply M, Hstr. lia.
    - rewrite Hb, Ls. destruct (Hstr (load32 m0 esp) ltac:(lia)) as [S1 _].
      destruct (decide (base <= load32 m0 esp + strlen m0 (load32 m0 esp) /\ load32 m0 esp < base)) as [[D1 D2]|D]; [|lia].
      destruct (Hstr base ltac:(lia)) as [S2 _]. lia.
    - exists s'. split; [done|]. split; [by apply only_screen_printing|done]. }
  intros _ [= <-]. exists s. cbn [fst snd]. rewrite Z.mul_0_r, Z.add_0_r. split; [done|]. split; [apply printing_refl|done].
Qed.

(** The whole loop, from the start of a conversion or outside one. *)
Lemma format_spec l mode s format buf esp sc g f :
  ready s -> cstr m0 buf l -> (forall x, buf <= x <= buf + zlen l -> stable x) ->
  render_ok m0 stable esp mode l -> scr_puts (screen_of s 0) (render m0 esp mode l) = Some sc ->
  (length l < g)%nat -> (length l <= f)%nat ->
  exists s',
    match mode with
    | None => printf_loop g s format buf esp conv
    | Some alt => '(s, buf, esp) ← format_char g s buf esp conv alt;
                  printf_loop f s format (buf + 1) esp conv
    end = Some (s', buf + zlen l - format) /\ printing s s' /\ screen_of s' 0 = sc.
Proof.
  revert mode s buf esp sc g f. induction l as [|c l IH]; intros mode s buf esp sc g f Hr Hc Hst Hok Hp Hg Hf.
  { cbn [render_ok] in Hok. subst mode. destruct g as [|g]; [lia|]. cbn [printf_loop].
    rewrite (rd_mem s Hr) by (apply Hst; simpl; lia). destruct Hc as (_ & _ & Hz). simpl in Hz.
    rewrite Z.add_0_r in Hz. rewrite Hz. simpl. injection Hp as <-. exists s.
    rewrite Z.add_0_r. split; [done|]. split; [apply printing_refl|done]. }
  assert (Ec : load8 (tmem s) buf = c).
  { rewrite (rd_mem s Hr) by (apply Hst; simpl; lia).
    pose proof (cstr_lookup _ _ _ 0%nat Hc ltac:(simpl; lia)) as E. rewrite Z.add_0_r in E. exact E. }
  assert (Hc' : cstr m0 (buf + 1) l) by (by apply (cstr_app m0 buf [c] l) in Hc).
  assert (Hc0 : c <> 0) by (destruct Hc as (_ & Hnz & _); by apply Forall_cons in Hnz as [? _]).
  assert (Hst' : forall x, buf + 1 <= x <= buf + 1 + zlen l -> stable x) by (intros x Hx; apply Hst; simpl; lia).
  assert (Rc : 0 <= c < 256) by (rewrite <- Ec; apply load8_range).
  cbn [length] in *. destruct g as [|g]; [lia|].
  replace (buf + Z.of_nat (S (length l)) - format) with (buf + 1 + zlen l - format) by lia.
  destruct mode as [alt|].
  - cbn [render render_ok] in Hok, Hp. destruct (Z.eqb_spec c 35) as [->|H35].
    + cbn [format_char]. cbv zeta. rewrite Ec. cbn [Z.eqb]. apply (IH (Some true)); done || lia.
    + destruct Hok as (O1 & O2 & O3). destruct (conversion m0 esp c alt) as [out n] eqn:En. cbn [fst snd] in *.
      rewrite scr_puts_app in Hp. destruct (scr_puts (screen_of s 0) out) as [sc1|] eqn:E1; [|discriminate Hp].
      cbn [mbind option_bind] in Hp.
      destruct (conversion_spec g s buf esp c alt sc1) as (s1 & E & P1 & C1);
        rewrite ?En; cbn [fst snd]; try done.
      rewrite En in E. cbn [snd] in E. rewrite E. cbn [mbind option_bind].
      destruct (IH None s1 (buf + 1) (esp + 4 * n) sc f f) as (s' & E' & P' & C'); try done; try lia.
      * by eapply printing_ready.
      * by rewrite C1.
      * exists s'. split; [done|]. split; [by eapply printing_trans|done].
  - cbn [printf_loop]. cbv zeta. rewrite Ec, (proj2 (Z.eqb_neq c 0) Hc0). cbn [render render_ok] in Hok, Hp.
    destruct (Z.eqb_spec c 37) as [->|H37].
    + apply (IH (Some false) s (buf + 1) esp sc (S g) g); done || lia.
    + cbn [scr_puts] in Hp. destruct (scr_putc (screen_of s 0) c) as [sc1|] eqn:E1; [|discriminate Hp].
      cbn [mbind option_bind] in Hp.
      destruct (put_char s c sc1 (rd_video s Hr) Rc (rd_screen s Hr)) as [P1 C1]; [by cbn [scr_puts]; rewrite E1|].
      destruct (IH None (putc s c) (buf + 1) esp sc g g) as (s' & E' & P' & C'); try done; try lia.
      * eapply (printing_ready s _ sc1 [c]); [done|done|done|]. by cbn [scr_puts]; rewrite E1.
      * by rewrite C1.
      * exists s'. split; [done|]. split; [by eapply printing_trans|done].
Qed.
End printing.

Lemma printf_spec (s : tty) (format esp conv : Z) (fmt : list Z) (sc : screen) :
  let m := tmem s in
  let base := video_memory (terms s 0) in
  conv + 64 <= base \/ base + 4000 <= conv ->
  cstr m format fmt -> (forall x, format <= x <= format + zlen fmt -> stable base conv x) ->
  render_ok m (stable base conv) esp None fmt ->
  screen_ok (screen_of s 0) -> scr_puts (screen_of s 0) (render m esp None fmt) = Some sc ->
  exists s', printf s format esp conv = Some (s', zlen fmt) /\ screen_of s' 0 = sc /\ printing base conv s s'.
Proof.
  intros m base Ha Hc Hst Hok Hs Hp.
  assert (Hl : (length fmt <= size m)%nat).
  { apply nonzero_run_bounded with format. intros. by apply (cstr_nonzero m format fmt). }
  destruct (format_spec base conv Ha m fmt None s format format esp sc (S (size m)) (S (size m)))
    as (s' & E & P & C); [by split|done|done|done|done|lia|lia|].
  exists s'. unfold printf. fold m. rewrite E. split; [do 2 f_equal; lia|]. done.
Qed.

(** * Properties *)

(** C31: [printf] prints what its format denotes.  For a format string that
    does not end inside a conversion, with arguments and strings outside the
    screen and the local buffer, [printf] ends, returns the length of the
    format, and leaves the screen of terminal 0 as printing [render] does: the
    conversions %d, %u, %x, %c, %s and %% with the digits of the arguments, and
    %#x with exactly eight of them.  Nothing else changes. *)
Theorem printf_correct (s : tty) (format esp conv : Z) (fmt : list Z) (sc : screen) :
  let m := tmem s in
  let base := video_memory (terms s 0) in
  conv + 64 <= base \/ base + 4000 <= conv ->
  cstr m format fmt -> (forall x, format <= x <= format + zlen fmt -> stable base conv x) ->
  render_ok m (stable base conv) esp None fmt ->
  screen_ok (screen_of s 0) -> scr_puts (screen_of s 0) (render m esp None fmt) = Some sc ->
  exists s', printf s format esp conv = Some (s', zlen fmt) /\ screen_of s' 0 = sc /\ printing base conv s s'.
Proof. exact (printf_spec s format esp conv fmt sc). Qed.

(** The format "n=%d %#x %s" with the arguments -5, 0xBEEF and "ok". *)
Definition example_format : list Z := [110; 61; 37; 100; 32; 37; 35; 120; 32; 37; 115].
Definition example_text : list Z :=
  [110; 61; 45; 53; 32; 48; 48; 48; 48; 66; 69; 69; 70; 32; 111; 107].

Definition example_printf : tty :=
  let m := store_bytes ∅ 0x500000 (example_format ++ [0]) in
  let m := store_bytes m 0x500100 [111; 107; 0] in
  let m := store32 (store32 (store32 m 0x7FF000 (-5)) 0x7FF004 0xBEEF) 0x7FF008 0x500100 in
  Tty m pic_boot (fun _ => Terminal (circular_buffer_init 0 1) 0 0 0 VIDEO_PHYS_ADDR) 0 0 [] 0.

Lemma printf_correct_witness :
  exists s' sc, printf example_printf 0x500000 0x7FF000 0x7FE800 = Some (s', 11) /\
    scr_puts (screen_of example_printf 0) example_text = Some sc /\ screen_of s' 0 = sc.
Proof.
  assert (E : render (tmem example_printf) 0x7FF000 None example_format = example_text)
    by (vm_compute; reflexivity).
  destruct (scr_puts (screen_of example_printf 0) example_text) as [sc|] eqn:Es.
  2:{ exfalso. revert Es. vm_compute. discriminate. }
  destruct (printf_correct example_printf 0x500000 0x7FF000 0x7FE800 example_format sc)
    as (s' & P & C & _).
  - right. vm_compute. discriminate.
  - split; [vm_compute; reflexivity|]. split; [|vm_compute; reflexivity].
    apply (bool_decide_unpack _). vm_compute. exact I.
  - intros x Hx. change (zlen example_format) with 11 in Hx. unfold stable.
    change (video_memory (terms example_printf 0)) with 0xB8000. lia.
  - apply render_okb_spec with (ok := fun a n => ((0x400000 <=? a) && (a + n <=? 0x7FE800)) || (0x7FE840 <=? a));
      [|vm_compute; reflexivity].
    intros a n x Ha Hx. rewrite orb_true_iff, andb_true_iff, !Z.leb_le in Ha. unfold stable.
    change (video_memory (terms example_printf 0)) with 0xB8000. lia.
  - split; vm_compute; [reflexivity|split; congruence|split; congruence].
  - rewrite E. exact Es.
  - exists s', sc. split; [exact P|]. split; [reflexivity|exact C].
Defined.
