(* ===== verification/Console.v ===== *)
(** Kernel messages: calls of [printf] with string literals.

    A call puts the words of its arguments on the stack at [sp], below which
    the frame of [printf] has its buffer [conv].  Literals are at addresses the
    linker chooses: the parameter [lit]. *)

From Stdlib Require Import String Ascii.
From S2P Require Import Prelude Memory Layout I8259 LibMem LibString CircularBuffer Paging Pcb.
From S2P Require Import Terminal Screen Printf.

#[local] Open Scope Z_scope.

(** The bytes of a literal. *)
Fixpoint bytes_of (s : string) : list Z :=
  match s with
  | EmptyString => []
  | String c r => Z.of_N (N_of_ascii c) :: bytes_of r
  end.

(** The escape [\n]. *)
Definition nl : string := String (ascii_of_N 10) EmptyString.

Fixpoint store_words (m : mem) (a : Z) (l : list Z) : mem :=
  match l with
  | [] => m
  | w :: r => store_words (store32 m a w) (a + 4) r
  end.

Section calls.
Context (lit : string -> Z) (sp conv : Z).

(** [printf(format, ...)] with the words [args]. *)
Definition kprintf (s : tty) (format : string) (args : list Z) : option tty :=
  '(s, _) ← printf (set_tmem s (store_words (tmem s) sp args)) (lit format) sp conv; Some s.

(** Calls in a row. *)
Fixpoint kprintf_all (s : tty) (calls : list (string * list Z)) : option tty :=
  match calls with
  | [] => Some s
  | (format, args) :: rest => s ← kprintf s format args; kprintf_all s rest
  end.
End calls.

(** * The text of a message *)

(** An argument, with the text it points to. *)
Inductive message_arg := Num (v : Z) | Str (a : Z) (text : list Z).

Definition arg_word (p : message_arg) : Z := match p with Num v => v | Str a _ => a end.

(** A number under the conversion [c]; [None] for another conversion. *)
Definition numeral_text (c : Z) (alternate : bool) (v : Z) : option (list Z) :=
  if c =? 120 then Some (hex alternate v)
  else if c =? 117 then Some (number 10 v)
  else if c =? 100 then Some (decimal (s32 v))
  else if c =? 99 then Some [u8 v]
  else None.

(** The text of a format with arguments of the right kinds, [None] if they do
    not fit or the format ends inside a conversion. *)
Fixpoint message (mode : option bool) (l : list Z) (ps : list message_arg) : option (list Z) :=
  match l with
  | [] => match mode with None => Some [] | Some _ => None end
  | c :: r =>
      match mode with
      | None => if c =? 37 then message (Some false) r ps else cons c <$> message None r ps
      | Some alt =>
          if c =? 35 then message (Some true) r ps
          else match numeral_text c alt 0, ps with
               | Some _, Num v :: ps' =>
                   t ← numeral_text c alt v; app t <$> message None r ps'
               | Some _, _ => None
               | None, Str _ t :: ps' => if c =? 115 then app t <$> message None r ps' else None
               | None, _ => if c =? 37 then cons 37 <$> message None r ps else None
               end
      end
  end.

(** The calls with their texts. *)
Fixpoint messages (calls : list (string * list message_arg)) : option (list Z) :=
  match calls with
  | [] => Some []
  | (f, ps) :: rest => t ← message None (bytes_of f) ps; app t <$> messages rest
  end.

Definition call_words (calls : list (string * list message_arg)) : list (string * list Z) :=
  (fun c : string * list message_arg => (c.1, arg_word <$> c.2)) <$> calls.

Lemma plain_message f :
  forallb (fun c => negb (c =? 37)) (bytes_of f) = true -> message None (bytes_of f) [] = Some (bytes_of f).
Proof.
  generalize (bytes_of f). intros l. induction l as [|c l IH]; cbn [forallb message]; [done|].
  rewrite andb_true_iff, negb_true_iff. intros [-> H]. by rewrite IH.
Qed.

Lemma messages_cons f ps rest t t' :
  message None (bytes_of f) ps = Some t -> messages rest = Some t' -> messages ((f, ps) :: rest) = Some (t ++ t').
Proof. intros E E'. cbn [messages]. rewrite E. cbn [mbind option_bind]. by rewrite E'. Qed.

Lemma messages_app c c' t t' :
  messages c = Some t -> messages c' = Some t' -> messages (c ++ c') = Some (t ++ t').
Proof.
  revert t. induction c as [|[f ps] c IH]; intros t; cbn [messages app]; [by intros [= <-]|].
  destruct (message None (bytes_of f) ps) as [t1|]; [|discriminate]. cbn [mbind option_bind].
  destruct (messages c) as [t2|]; [|discriminate]. intros [= <-] E'. rewrite (IH t2 eq_refl E'). simpl.
  by rewrite app_assoc.
Qed.

Lemma messages_if (b : bool) f ps t :
  message None (bytes_of f) ps = Some t ->
  messages (if b then [(f, ps)] else []) = Some (if b then t else []).
Proof. intros E. destruct b; [|done]. rewrite (messages_cons f ps [] t [] E eq_refl). by rewrite app_nil_r. Qed.

(** The arguments are on the stack, and strings are where they point. *)
Fixpoint args_at (m : mem) (quiet : Z -> Prop) (esp : Z) (ps : list message_arg) : Prop :=
  match ps with
  | [] => True
  | p :: r =>
      load32 m esp = arg_word p /\ (forall x, esp <= x < esp + 4 -> quiet x) /\
      match p with
      | Num _ => True
      | Str a t => cstr m a t /\ forall x, a <= x <= a + zlen t -> quiet x
      end /\ args_at m quiet (esp + 4) r
  end.

Lemma numeral_text_conversion m esp c alt v t :
  load32 m esp = v -> numeral_text c alt v = Some t -> conversion m esp c alt = (t, 1) /\ c <> 115 /\ c <> 37.
Proof.
  intros E. unfold numeral_text, conversion. rewrite E.
  destruct (Z.eqb_spec c 37) as [->|]; [discriminate|]. destruct (Z.eqb_spec c 120) as [->|]; [by intros [= <-]|].
  destruct (Z.eqb_spec c 117) as [->|]; [by intros [= <-]|]. destruct (Z.eqb_spec c 100) as [->|]; [by intros [= <-]|].
  destruct (Z.eqb_spec c 99) as [->|]; [by intros [= <-]|]. discriminate.
Qed.

Lemma cstr_inj m a l l' : cstr m a l -> cstr m a l' -> l = l'.
Proof.
  intros H H'. assert (E : length l = length l').
  { apply Nat2Z.inj. by rewrite <- (strlen_cstr _ _ _ H), <- (strlen_cstr _ _ _ H'). }
  destruct H as (<- & _ & _), H' as (<- & _ & _). by rewrite E.
Qed.

Lemma message_render m quiet mode l ps esp t :
  message mode l ps = Some t -> args_at m quiet esp ps ->
  render m esp mode l = t /\ render_ok m quiet esp mode l.
Proof.
  revert mode ps esp t. induction l as [|c l IH]; intros mode ps esp t Hm Ha; cbn [message render render_ok] in *.
  { by destruct mode; inversion Hm. }
  destruct mode as [alt|].
  2:{ destruct (c =? 37); [by apply (IH _ ps)|].
      destruct (message None l ps) as [t'|] eqn:E; simpl in Hm; [|discriminate]. injection Hm as <-.
      destruct (IH None ps esp t' E Ha) as [-> R]. done. }
  destruct (c =? 35); [by apply (IH _ ps)|].
  assert (Hpct : numeral_text c alt 0 = None -> (if c =? 37 then cons 37 <$> message None l ps else None) = Some t ->
    (let '(out, n) := conversion m esp c alt in out ++ render m (esp + 4 * n) None l) = t /\
    let n := (conversion m esp c alt).2 in
    (n = 1 -> forall x, esp <= x < esp + 4 -> quiet x) /\
    (c = 115 -> forall x, load32 m esp <= x <= load32 m esp + strlen m (load32 m esp) -> quiet x) /\
    render_ok m quiet (esp + 4 * n) None l).
  { intros _. unfold conversion. destruct (Z.eqb_spec c 37) as [->|]; [|discriminate]. cbn [fst snd].
    destruct (message None l ps) as [t'|] eqn:E; simpl; [|discriminate]. intros [= <-].
    rewrite Z.add_0_r. destruct (IH None ps esp t' E Ha) as [-> R]. done. }
  destruct (numeral_text c alt 0) as [z|] eqn:Ez.
  - destruct ps as [|[v|a s] ps]; [discriminate| |discriminate].
    destruct (numeral_text c alt v) as [tv|] eqn:Ev; [|discriminate]. cbn [mbind option_bind] in Hm.
    destruct (message None l ps) as [t'|] eqn:E; simpl in Hm; [|discriminate]. injection Hm as <-.
    destruct Ha as (W & Q & _ & Ha). destruct (numeral_text_conversion m esp c alt v tv W Ev) as (-> & Hs & Hp).
    cbn [fst snd]. rewrite Z.mul_1_r. destruct (IH None ps (esp + 4) t' E Ha) as [-> R].
    split; [done|]. split; [by intros _|]. by split.
  - destruct ps as [|[v|a s] ps]; [by apply Hpct| |].
    + by apply Hpct.
    + destruct (Z.eqb_spec c 115) as [->|]; [|discriminate].
      destruct (message None l ps) as [t'|] eqn:E; simpl in Hm; [|discriminate]. injection Hm as <-.
      destruct Ha as (W & Q & [Hc Hq] & Ha). cbn [arg_word] in W. unfold conversion. cbn [Z.eqb Pos.eqb fst snd].
      rewrite Z.mul_1_r, W. destruct (IH None ps (esp + 4) t' E Ha) as [-> R].
      destruct (cstr_string_at m a) as [Cs _]. rewrite (cstr_inj _ _ _ _ Cs Hc), (strlen_cstr _ _ _ Hc).
      split; [done|]. split; [by intros _|]. split; [intros _; exact Hq|exact R].
Qed.

(** * Calls *)

Lemma store_words_outside l m a x : x < a \/ a + 4 * zlen l <= x -> load8 (store_words m a l) x = load8 m x.
Proof.
  revert m a. induction l as [|w l IH]; intros m a Hx; simpl; [done|]. simpl length in Hx.
  rewrite IH, load8_store32_ne by lia. done.
Qed.

Section messages.
Context (lit : string -> Z) (base sp conv : Z) (m0 : mem).
Hypotheses (Hconv : conv + 64 <= base \/ base + 4000 <= conv)
           (Hsp : forall x, sp <= x < sp + 64 -> stable base conv x).

(** Memory that no call touches. *)
Definition quiet (x : Z) : Prop := stable base conv x /\ (x < sp \/ sp + 64 <= x).

Definition literal_ok (f : string) : Prop :=
  cstr m0 (lit f) (bytes_of f) /\ forall x, lit f <= x <= lit f + zlen (bytes_of f) -> quiet x.

Definition arg_ok (p : message_arg) : Prop :=
  0 <= arg_word p < 0x100000000 /\
  match p with
  | Num _ => True
  | Str a t => cstr m0 a t /\ forall x, a <= x <= a + zlen t -> quiet x
  end.

(** The state between two calls. *)
Record calm (s : tty) : Prop := {
  cm_video : video_memory (terms s 0) = base;
  cm_mem : forall x, quiet x -> load8 (tmem s) x = load8 m0 x;
  cm_screen : screen_ok (screen_of s 0)
}.

(** What the calls leave alone. *)
Record messaging (s s' : tty) : Prop := {
  ms_mem : forall x, quiet x -> load8 (tmem s') x = load8 (tmem s) x;
  ms_terms : forall j, j <> 0 -> terms s' j = terms s j;
  ms_input : input_buffer (terms s' 0) = input_buffer (terms s 0);
  ms_lines : new_line_ready (terms s' 0) = new_line_ready (terms s 0);
  ms_video : video_memory (terms s' 0) = video_memory (terms s 0);
  ms_active : active_terminal s' = active_terminal s;
  ms_single : single_terminal s' = single_terminal s;
  ms_masks : masks (tpic s') = masks (tpic s)
}.

Lemma messaging_refl s : messaging s s.
Proof. by split. Qed.

Lemma messaging_trans s1 s2 s3 : messaging s1 s2 -> messaging s2 s3 -> messaging s1 s3.
Proof.
  intros [M1 T1 I1 N1 V1 A1 S1 P1] [M2 T2 I2 N2 V2 A2 S2 P2]. split; try congruence.
  - intros x Hx. by rewrite M2, M1.
  - intros j Hj. by rewrite T2, T1.
Qed.

Lemma args_at_stack ps m esp :
  Forall arg_ok ps -> (forall x, quiet x -> load8 m x = load8 m0 x) ->
  sp <= esp -> esp + 4 * zlen ps <= sp + 64 ->
  args_at (store_words m esp (arg_word <$> ps)) (stable base conv) esp ps.
Proof.
  intros Hok. revert m esp. induction Hok as [|p ps [Hw Hp] Hps IH]; intros m esp M Hlo Hhi; cbn [args_at fmap list_fmap store_words]; [done|].
  simpl length in Hhi. set (m1 := store32 m esp (arg_word p)).
  assert (M1 : forall x, quiet x -> load8 m1 x = load8 m0 x).
  { intros x Hx. unfold m1. rewrite load8_store32_ne by (destruct Hx; lia). by apply M. }
  assert (L : zlen (arg_word <$> ps) = zlen ps) by (by rewrite length_fmap).
  split; [|split; [|split]].
  - transitivity (load32 m1 esp); [|unfold m1; by rewrite load32_store32_eq, u32_id].
    apply load_le_ext. intros x Hx. simpl in Hx. apply store_words_outside. lia.
  - intros x Hx. apply Hsp. lia.
  - destruct p as [v|a t]; [done|]. destruct Hp as [Hc Hq]. split; [|intros x Hx; by apply Hq].
    apply (cstr_ext m0); [|exact Hc]. intros x Hx. destruct (Hq x Hx) as [Hs Ho].
    rewrite store_words_outside by (rewrite L; lia). by apply M1, Hq.
  - apply IH; [exact M1|lia|lia].
Qed.

Lemma kprintf_spec s f ps t sc :
  calm s -> literal_ok f -> Forall arg_ok ps -> (length ps <= 16)%nat ->
  message None (bytes_of f) ps = Some t -> scr_puts (screen_of s 0) t = Some sc ->
  exists s', kprintf lit sp conv s f (arg_word <$> ps) = Some s' /\ screen_of s' 0 = sc /\
    messaging s s' /\ calm s'.
Proof.
  intros [V M S] [Hc Hq] Hps Hlen Hm Hp. unfold kprintf.
  set (m1 := store_words (tmem s) sp (arg_word <$> ps)).
  assert (L : 4 * zlen (arg_word <$> ps) <= 64) by (rewrite length_fmap; lia).
  assert (M1 : forall x, x < sp \/ sp + 64 <= x -> load8 m1 x = load8 (tmem s) x)
    by (intros x Hx; apply store_words_outside; lia).
  destruct (message_render m1 (stable base conv) None (bytes_of f) ps sp t Hm) as [Er Rok].
  { apply args_at_stack; [done|exact M|lia|lia]. }
  assert (Es : screen_of (set_tmem s m1) 0 = screen_of s 0).
  { unfold screen_of. cbn [terms set_tmem tmem]. f_equal. rewrite V. apply screen_cells_ext. intros i Hi.
    apply load_le_ext. intros x Hx. simpl in Hx. apply M1.
    destruct (Z_lt_dec x sp); [by left|]. destruct (Z_lt_dec x (sp + 64)); [|right; lia].
    destruct (Hsp x ltac:(lia)). lia. }
  destruct (printf_spec (set_tmem s m1) (lit f) sp conv (bytes_of f) sc) as (s' & -> & C & P);
    cbn [terms set_tmem tmem]; rewrite ?V.
  - exact Hconv.
  - apply (cstr_ext m0); [|exact Hc]. intros x Hx. destruct (Hq x Hx) as [_ Ho]. rewrite M1 by exact Ho. by apply M, Hq.
  - intros x Hx. by apply Hq.
  - exact Rok.
  - by rewrite Es.
  - by rewrite Es, Er.
  - cbn [mbind option_bind]. exists s'. split; [done|]. split; [exact C|]. cbn [terms set_tmem] in P. rewrite V in P.
    destruct P as [PM PT PI PN PV PA PS PP].
    assert (MS : messaging s s').
    { split; try done. intros x [Hx Ho]. rewrite PM by exact Hx. by apply M1. }
    split; [exact MS|]. split; [by rewrite PV| |rewrite C; by eapply scr_puts_ok].
    intros x Hx. rewrite (ms_mem _ _ MS x Hx). by apply M.
Qed.

Lemma kprintf_all_spec calls s t sc :
  calm s -> Forall (fun c => literal_ok c.1 /\ Forall arg_ok c.2 /\ (length c.2 <= 16)%nat) calls ->
  messages calls = Some t -> scr_puts (screen_of s 0) t = Some sc ->
  exists s', kprintf_all lit sp conv s (call_words calls) = Some s' /\ screen_of s' 0 = sc /\
    messaging s s' /\ calm s'.
Proof.
  intros Hs Hc. revert s t sc Hs. induction Hc as [|[f ps] calls (Hf & Hps & Hlen) Hc IH]; intros s t sc Hs Hm Hp.
  { cbn [messages] in Hm. injection Hm as <-. injection Hp as <-. exists s. split; [done|]. split; [done|]. split; [apply messaging_refl|exact Hs]. }
  cbn [messages] in Hm. destruct (message None (bytes_of f) ps) as [t1|] eqn:E1; [|discriminate].
  cbn [mbind option_bind] in Hm. destruct (messages calls) as [t2|]; simpl in Hm; [|discriminate]. injection Hm as <-.
  rewrite scr_puts_app in Hp. destruct (scr_puts (screen_of s 0) t1) as [sc1|] eqn:Ep; [|discriminate].
  cbn [mbind option_bind] in Hp.
  destruct (kprintf_spec s f ps t1 sc1 Hs Hf Hps Hlen E1 Ep) as (s1 & E & C1 & M1 & Hs1).
  destruct (IH s1 t2 sc Hs1 eq_refl) as (s' & E' & C & M & Hs'); [by rewrite C1|].
  exists s'. cbn [call_words fmap list_fmap kprintf_all fst snd] in *. rewrite E. cbn [mbind option_bind].
  split; [exact E'|]. split; [exact C|]. split; [by apply (messaging_trans s s1)|exact Hs'].
Qed.
End messages.

(** * Texts that can always be printed *)

Lemma scr_clear_ok : screen_ok scr_clear.
Proof. by split. Qed.

Lemma scr_puts_total sc l : Forall (fun c => c <> 8) l -> is_Some (scr_puts sc l).
Proof.
  intros Hl. revert sc. induction Hl as [|c l Hc _ IH]; intros sc; cbn [scr_puts]; [by eexists|].
  destruct (scr_putc sc c) as [sc'|] eqn:E; [apply IH|]. by apply scr_putc_total in E as [? _].
Qed.

Lemma number_no_backspace radix v : 2 <= radix <= 36 -> Forall (fun c => c <> 8) (number radix v).
Proof.
  intros Hr. unfold number. destruct (v =? 0); [by repeat constructor|]. apply Forall_reverse, Forall_fmap.
  eapply Forall_impl; [apply digits_range; lia|]. intros d Hd. simpl in *.
  pose proof (itoa_lookup_range d ltac:(lia)). lia.
Qed.

Lemma hex_no_backspace alt v : Forall (fun c => c <> 8) (hex alt v).
Proof.
  unfold hex. destruct alt; [|apply number_no_backspace; lia].
  apply Forall_app. split; [by apply Forall_replicate|apply number_no_backspace; lia].
Qed.

(** Whether a format fits the kinds of its arguments and prints no backspace
    of its own. *)
Fixpoint fits (in_conversion : bool) (l : list Z) (ps : list message_arg) : bool :=
  match l with
  | [] => negb in_conversion
  | c :: r =>
      if negb in_conversion then if c =? 37 then fits true r ps else negb (c =? 8) && fits false r ps
      else if c =? 35 then fits true r ps
      else match ps with
           | Num _ :: ps' => ((c =? 120) || (c =? 117) || (c =? 100)) && fits false r ps'
           | Str _ _ :: ps' => (c =? 115) && fits false r ps'
           | [] => false
           end
  end.

Definition no_backspace (p : message_arg) : Prop :=
  match p with Num _ => True | Str _ t => Forall (fun c => c <> 8) t end.

Lemma numeral_text_fits c alt v :
  (c =? 120) || (c =? 117) || (c =? 100) = true ->
  exists t, numeral_text c alt v = Some t /\ Forall (fun c => c <> 8) t.
Proof.
  unfold numeral_text. intros Hc. destruct (c =? 120); [eexists; split; [done|apply hex_no_backspace]|].
  destruct (c =? 117); [eexists; split; [done|apply number_no_backspace; lia]|].
  destruct (c =? 100); [|discriminate Hc]. eexists. split; [done|]. unfold decimal.
  destruct (_ <? 0); [apply Forall_cons; split; [lia|]|]; apply number_no_backspace; lia.
Qed.

Lemma fits_message (mode : option bool) l ps :
  fits (bool_decide (is_Some mode)) l ps = true -> Forall no_backspace ps ->
  exists t, message mode l ps = Some t /\ Forall (fun c => c <> 8) t.
Proof.
  revert mode ps. induction l as [|c l IH]; intros mode ps Hf Hp; cbn [fits message] in *.
  { destruct mode; [discriminate|]. exists (@nil Z). by split. }
  destruct mode as [alt|]; cbn [negb] in Hf.
  - destruct (c =? 35); [by apply (IH (Some true))|]. destruct ps as [|[v|a t] ps]; [discriminate| |];
      apply andb_true_iff in Hf as [Hc Hf]; apply Forall_cons in Hp as [Hq Hp];
      destruct (IH None ps Hf Hp) as (t' & E & B).
    + destruct (numeral_text_fits c alt 0 Hc) as (z & -> & _). destruct (numeral_text_fits c alt v Hc) as (tv & -> & Bv).
      cbn [mbind option_bind]. rewrite E. simpl. eexists. split; [done|]. by apply Forall_app.
    + apply Z.eqb_eq in Hc as ->. cbn [numeral_text Z.eqb Pos.eqb]. rewrite E. simpl. eexists.
      split; [done|]. by apply Forall_app.
  - destruct (c =? 37); [by apply (IH (Some false))|]. apply andb_true_iff in Hf as [Hc Hf].
    destruct (IH None ps Hf Hp) as (t & -> & B). simpl. eexists. split; [done|].
    apply Forall_cons. split; [|exact B]. rewrite negb_true_iff, Z.eqb_neq in Hc. exact Hc.
Qed.

(** A layout of literals: the place of one in a list. *)
Fixpoint literal_index (f : string) (l : list string) : Z :=
  match l with
  | [] => 0
  | g :: r => if String.eqb f g then 0 else 1 + literal_index f r
  end.
