(* ===== verification/LineInput.v ===== *)
(** Keyboard input refines a line editor: the queue of typed characters of a
    terminal, what is echoed, and the lines [terminal_read] hands out
    ([tty/terminal.c]). *)

From S2P Require Import Prelude Memory Layout I8259 LibMem CircularBuffer Paging Pcb Terminal.
From S2P Require Import Screen.

(** * The abstract line editor *)

Definition newlines (q : list Z) : Z := zlen (filter (fun b => b = 10) q).

(** Typed characters wait in a queue of at most 128; the last place is kept
    for a line feed, and completed lines cannot be edited. *)
Definition edit (q : list Z) (ch : Z) : list Z :=
  if ch =? 8 then
    match last q with
    | None => q
    | Some b => if b =? 10 then q else take (pred (length q)) q
    end
  else if ch =? 10 then if zlen q <? 128 then q ++ [10] else q
  else if ch >? 0 then if zlen q <? 127 then q ++ [ch] else q
  else q.

(** What the terminal prints for a key when a tab stands for [n] blanks: the
    blanks for Tab, as many backspaces when the last typed character is a tab
    and is taken back, and the key itself otherwise. *)
Definition echo (q : list Z) (ch : Z) (n : nat) : list Z :=
  if ch =? 8 then
    match last q with
    | None => []
    | Some b => if b =? 10 then [] else if b =? 9 then replicate n 8 else [8]
    end
  else if ch =? 10 then if zlen q <? 128 then [10] else []
  else if ch =? 9 then if zlen q <? 127 then replicate n 32 else []
  else if ch >? 0 then if zlen q <? 127 then [ch] else []
  else [].

(** The keys that print or take back a tab. *)
Definition tab_key (q : list Z) (ch : Z) : Prop := ch = 9 \/ (ch = 8 /\ last q = Some 9).

(** For any other key the width of a tab does not matter. *)
Lemma echo_width q ch n n' : ~ tab_key q ch -> echo q ch n = echo q ch n'.
Proof.
  unfold tab_key, echo. intros H. destruct (Z.eqb_spec ch 8) as [->|].
  - destruct (last q) as [b|]; [|done]. destruct (b =? 10); [done|].
    destruct (Z.eqb_spec b 9) as [->|]; [|done]. destruct H. by right.
  - destruct (Z.eqb_spec ch 9); [destruct H; by left|done].
Qed.

(** Whether the key is accepted. *)
Definition accepts (q : list Z) (ch : Z) : bool :=
  if ch =? 8 then match last q with None => false | Some b => negb (b =? 10) end
  else if ch =? 10 then zlen q <? 128
  else if ch >? 0 then zlen q <? 127
  else true.

(** An accepted key other than a tab echoes one character, a refused one
    none. *)
Lemma echo_length q ch n :
  0 < ch -> ~ tab_key q ch -> zlen (echo q ch n) = c_bool (accepts q ch).
Proof.
  unfold tab_key, echo, accepts. intros Hch H. destruct (Z.eqb_spec ch 8) as [->|].
  - destruct (last q) as [b|]; [|done]. destruct (b =? 10); [done|].
    destruct (Z.eqb_spec b 9) as [->|]; [|done]. destruct H. by right.
  - destruct (Z.eqb_spec ch 9); [destruct H; by left|]. rewrite Z.gtb_ltb.
    repeat case_zb; done || lia.
Qed.

(** The queue is full only when it ends in a completed line. *)
Definition queue_ok (q : list Z) : Prop := zlen q <= 128 /\ (zlen q = 128 -> last q = Some 10).

Lemma newlines_app q k : newlines (q ++ k) = newlines q + newlines k.
Proof. unfold newlines. rewrite filter_app, length_app. lia. Qed.

Lemma newlines_snoc q b : newlines (q ++ [b]) = newlines q + (if b =? 10 then 1 else 0).
Proof.
  rewrite newlines_app. unfold newlines at 2. case_zb; subst.
  - done.
  - by rewrite filter_cons_False.
Qed.

Lemma newlines_range q : 0 <= newlines q <= zlen q.
Proof.
  unfold newlines. split; [lia|].
  pose proof (length_filter (fun b => b = 10) q). lia.
Qed.

Lemma removelast_snoc (q : list Z) b : last q = Some b -> q = take (pred (length q)) q ++ [b].
Proof.
  intros H. apply last_Some in H as [k ->].
  rewrite length_app. simpl. rewrite Nat.add_1_r. simpl. by rewrite take_app_length.
Qed.

Lemma edit_ok q ch : queue_ok q -> queue_ok (edit q ch).
Proof.
  intros [H1 H2]. unfold edit, queue_ok.
  destruct (Z.eqb_spec ch 8).
  - destruct (last q) as [b|] eqn:E; [|by rewrite E]. case_zb; [by rewrite E|].
    rewrite length_take. split; [lia|]. intros Hf.
    destruct q; simpl in *; [done|lia].
  - repeat case_zb; subst; rewrite ?length_app, ?last_snoc; simpl; split; done || lia.
Qed.

(** A full queue holds a completed line: typing never gets stuck. *)
Lemma queue_ok_progress q : queue_ok q -> zlen q < 128 \/ 0 < newlines q.
Proof.
  intros [H1 H2]. destruct (Z.eq_dec (zlen q) 128) as [E|]; [|lia]. right.
  rewrite (removelast_snoc q 10) by auto. rewrite newlines_snoc.
  pose proof (newlines_range (take (pred (length q)) q)). simpl. lia.
Qed.

(** * The input state of a terminal *)

Section input.
Context `{L : Layout}.

(** Terminal [t] is set up, its queue is [q] and its line count is
    right. *)
Record input_ok (s : tty) (t : Z) (q : list Z) : Prop := {
  in_video : video_ok s;
  in_term : 0 <= t < 3;
  in_screen : screen_ok (screen_of s t);
  in_ring : ring (input_buffer (terms s t)) (tmem s) (input_row t) 128 q;
  in_lines : new_line_ready (terms s t) = newlines q
}.

Context `{LOk : !LayoutOk L}.

(** The input buffers are neither on the display nor in the output
    buffers. *)
Lemma input_apart s t j :
  video_ok s -> 0 <= t < 3 -> 0 <= j < 3 ->
  input_row t + 128 <= video_memory (terms s j) \/ video_memory (terms s j) + 4000 <= input_row t.
Proof.
  intros [Ha Hv] Ht Hj. rewrite (Hv j Hj). unfold get_terminal_output_buffer.
  destruct lay_input as [I1 I2], lay_output as [[O1 O2] _]. pose proof lay_buffers_apart as A.
  unfold input_row, output_row, VIDEO_PHYS_ADDR, KEYBOARD_BUFFER_SIZE, FOUR_KB_ALIGNED,
    KERNEL_PAGE_START, KERNEL_IMAGE_END in *.
  case_zb; lia.
Qed.

Lemma input_rows_apart t j :
  0 <= t < 3 -> 0 <= j < 3 -> t <> j ->
  input_row t + 128 <= input_row j \/ input_row j + 128 <= input_row t.
Proof. intros. unfold input_row, KEYBOARD_BUFFER_SIZE. lia. Qed.

Lemma only_screen_video s s' t : only_screen s s' t -> video_ok s -> video_ok s'.
Proof.
  intros [M T I L' V A S K C] [Ha Hv]. split; [by rewrite A|].
  intros j Hj. unfold get_terminal_output_buffer in *. rewrite A.
  destruct (decide (j = t)) as [->|Hne]; [rewrite V|rewrite T by done]; by apply Hv.
Qed.

(** Printing on a terminal leaves its queue alone. *)
Lemma only_screen_input s s' t q :
  only_screen s s' t -> screen_ok (screen_of s' t) -> input_ok s t q -> input_ok s' t q.
Proof.
  intros O Hsc [Hv Ht _ Hr Hl]. destruct (O) as [M T I L' V A S K C].
  split; [by eapply only_screen_video|done|done| |congruence].
  rewrite I. eapply ring_frame_outside; [exact Hr|exact M|].
  pose proof (input_apart s t t Hv Ht Ht). lia.
Qed.

Lemma putc_times_spec n s t ch sc :
  0 <= ch < 256 -> screen_ok (screen_of s t) ->
  scr_puts (screen_of s t) (replicate n ch) = Some sc ->
  only_screen s (putc_times n s t ch) t /\ screen_of (putc_times n s t ch) t = sc /\ screen_ok sc.
Proof.
  intros Hch. revert s. induction n as [|n IH]; intros s Hok; cbn [replicate scr_puts putc_times].
  - intros <-%(inj Some). by split; [apply only_screen_refl|].
  - destruct (scr_putc _ _) as [sc1|] eqn:E; [|done]. intros Hrest.
    destruct (putc_spec s t ch sc1 Hch Hok E) as [O C].
    destruct (IH (putc_internal s t ch)) as (O' & C' & K).
    + rewrite C. by eapply scr_putc_ok.
    + by rewrite C.
    + split; [by eapply only_screen_trans|done].
Qed.

(** Printing characters whose queue effect is already done. *)
Lemma echo_spec n s t q ch sc :
  0 <= ch < 256 -> input_ok s t q ->
  scr_puts (screen_of s t) (replicate n ch) = Some sc ->
  input_ok (putc_times n s t ch) t q /\ screen_of (putc_times n s t ch) t = sc.
Proof.
  intros Hch Hin Hp.
  destruct (putc_times_spec n s t ch sc Hch (in_screen _ _ _ Hin) Hp) as (O & C & K).
  split; [|done]. eapply only_screen_input; [exact O|by rewrite C|done].
Qed.

Lemma put_input_spec s t q ch :
  input_ok s t q -> zlen q < 128 ->
  let s' := put_input s t ch in
  ring (input_buffer (terms s' t)) (tmem s') (input_row t) 128 (q ++ [u8 ch]) /\
  video_ok s' /\ screen_of s' t = screen_of s t /\
  new_line_ready (terms s' t) = new_line_ready (terms s t).
Proof.
  intros [Hv Ht Hsc Hr Hl] Hlen. cbv zeta. unfold put_input.
  pose proof (ring_put_byte _ _ _ _ _ Hr ch) as P.
  destruct (circular_buffer_put_byte _ _ _) as [[b m'] r]. destruct P as (_ & R & M).
  destruct (Z.ltb_spec (zlen q) 128); [|lia].
  rewrite !terms_set_term_eq. split; [done|].
  assert (Hsame : forall j, video_memory (terms (set_term (set_tmem s m') t (set_input b)) j)
                            = video_memory (terms s j)).
  { intros j. destruct (decide (t = j)) as [<-|]; [by rewrite terms_set_term_eq|].
    by rewrite terms_set_term_ne. }
  split; [|split; [|done]].
  - destruct Hv as [Ha Hvm]. split; [done|]. intros j Hj. rewrite Hsame. by apply Hvm.
  - unfold screen_of. rewrite Hsame, terms_set_term_eq. f_equal.
    eapply screen_cells_outside; [exact M|]. pose proof (input_apart s t t Hv Ht Ht). lia.
Qed.

(** What a key may change: the screen and the queue of its terminal. *)
Record only_terminal (s s' : tty) (t : Z) : Prop := {
  ot_terms : forall j, j <> t -> terms s' j = terms s j;
  ot_mem : forall x, ~ (video_memory (terms s t) <= x < video_memory (terms s t) + 4000) ->
    ~ (input_row t <= x < input_row t + 128) -> load8 (tmem s') x = load8 (tmem s) x;
  ot_video : video_memory (terms s' t) = video_memory (terms s t);
  ot_active : active_terminal s' = active_terminal s
}.

Lemma only_terminal_refl s t : only_terminal s s t.
Proof. by split. Qed.

Lemma only_terminal_trans s1 s2 s3 t :
  only_terminal s1 s2 t -> only_terminal s2 s3 t -> only_terminal s1 s3 t.
Proof.
  intros [T1 M1 V1 A1] [T2 M2 V2 A2]. split; try congruence.
  - intros j Hj. by rewrite T2, T1.
  - intros x Hx Hi. rewrite M2, M1; try done. by rewrite V1.
Qed.

Lemma only_screen_terminal s s' t : only_screen s s' t -> only_terminal s s' t.
Proof.
  intros [M T I N V A S K C]. split; [exact T| |exact V|exact A].
  intros x Hx _. apply M. lia.
Qed.

Lemma put_input_only s t q ch : input_ok s t q -> only_terminal s (put_input s t ch) t.
Proof.
  intros [Hv Ht Hsc Hr Hl]. unfold put_input.
  pose proof (ring_put_byte _ _ _ _ _ Hr ch) as P.
  destruct (circular_buffer_put_byte _ _ _) as [[b m'] r]. destruct P as (_ & _ & M).
  split; rewrite ?terms_set_term_eq; try done.
  - intros j Hj. by rewrite terms_set_term_ne.
  - intros x _ Hx. simpl. apply M. lia.
Qed.

Lemma set_term_only s t f :
  (forall T, video_memory (f T) = video_memory T) -> only_terminal s (set_term s t f) t.
Proof.
  intros Hf. split; rewrite ?terms_set_term_eq; try done.
  intros j Hj. by rewrite terms_set_term_ne.
Qed.

(** Accepting an ordinary character: queue it, then print. *)
Lemma put_char_spec s t q ch n e sc :
  input_ok s t q -> 0 < ch < 256 -> ch <> 10 -> zlen q < 128 -> 0 <= e < 256 ->
  scr_puts (screen_of s t) (replicate n e) = Some sc ->
  let s' := putc_times n (put_input s t ch) t e in
  input_ok s' t (q ++ [ch]) /\ screen_of s' t = sc /\ only_terminal s s' t.
Proof.
  intros Hin Hch H10 Hlen He Hp. cbv zeta.
  destruct (put_input_spec s t q ch Hin Hlen) as (R & V & S & N).
  pose proof (put_input_only s t q ch Hin) as O.
  rewrite u8_id in R by lia. destruct (Hin) as [Hv Ht Hsc Hr Hl].
  assert (Hin' : input_ok (put_input s t ch) t (q ++ [ch])).
  { split; [exact V|exact Ht|by rewrite S|exact R|].
    rewrite N, newlines_snoc, Hl. destruct (Z.eqb_spec ch 10); [done|lia]. }
  destruct (echo_spec n _ t _ e sc He Hin') as [I C]; [by rewrite S|].
  split; [done|]. split; [done|].
  eapply only_terminal_trans; [exact O|]. apply only_screen_terminal.
  eapply putc_times_spec; [done|by rewrite S|by rewrite S].
Qed.

Lemma put_newline_spec s t q sc :
  input_ok s t q -> zlen q < 128 -> scr_putc (screen_of s t) 10 = Some sc ->
  let s' := putc_internal (put_input s t 10) t 10 in
  let s' := set_term s' t (set_new_line (u8 (new_line_ready (terms s' t) + 1))) in
  input_ok s' t (q ++ [10]) /\ screen_of s' t = sc /\ only_terminal s s' t.
Proof.
  intros Hin Hlen Hp. cbv zeta.
  destruct (put_input_spec s t q 10 Hin Hlen) as (R & V & S & N).
  pose proof (put_input_only s t q 10 Hin) as O. destruct (Hin) as [Hv Ht Hsc Hr Hl].
  set (s1 := put_input s t 10) in *.
  assert (Hsc1 : screen_ok (screen_of s1 t)) by (by rewrite S).
  destruct (putc_spec s1 t 10 sc ltac:(lia) Hsc1 ltac:(by rewrite S)) as [O2 C].
  set (s2 := putc_internal s1 t 10) in *. destruct (O2) as [M T I L' V2 A Sg K C2].
  set (s3 := set_term s2 t _).
  assert (C3 : screen_of s3 t = sc).
  { rewrite <- C. unfold s3, screen_of. by rewrite terms_set_term_eq. }
  split; [|split; [exact C3|]].
  - split; [|done| | |].
    + destruct (only_screen_video s1 s2 t O2 V) as [Ha Hvm]. split; [done|].
      intros j Hj. unfold s3. destruct (decide (t = j)) as [<-|Hne].
      * rewrite terms_set_term_eq. by apply Hvm.
      * rewrite terms_set_term_ne by done. by apply Hvm.
    + rewrite C3. eapply scr_putc_ok; [exact Hsc|done].
    + unfold s3. rewrite terms_set_term_eq. cbn [input_buffer set_new_line]. rewrite I.
      eapply ring_frame_outside; [exact R|exact M|].
      pose proof (input_apart s1 t t V Ht Ht). lia.
    + unfold s3. rewrite terms_set_term_eq, newlines_snoc. cbn [new_line_ready set_new_line Z.eqb].
      rewrite L', N, Hl. pose proof (newlines_range q). rewrite u8_id by lia. done.
  - eapply only_terminal_trans; [exact O|].
    eapply only_terminal_trans; [by apply only_screen_terminal|].
    by apply set_term_only.
Qed.

(** Taking the last character back. *)
Lemma erase_spec s t q b n sc :
  input_ok s t q -> last q = Some b -> b <> 10 ->
  scr_puts (screen_of s t) (replicate n 8) = Some sc ->
  let s' := putc_times n (set_term s t (set_input (circular_buffer_remove_end_byte
              (input_buffer (terms s t))).1)) t 8 in
  input_ok s' t (take (pred (length q)) q) /\ screen_of s' t = sc /\ only_terminal s s' t.
Proof.
  intros Hin Hb H10 Hp. cbv zeta. destruct (Hin) as [Hv Ht Hsc Hr Hl].
  pose proof (ring_remove_end_byte _ _ _ _ _ Hr) as P.
  destruct (circular_buffer_remove_end_byte _) as [b' r]. destruct P as [_ R]. cbn [fst].
  set (s1 := set_term s t (set_input b')).
  assert (S : screen_of s1 t = screen_of s t)
    by (unfold s1, screen_of; by rewrite terms_set_term_eq).
  assert (Hin' : input_ok s1 t (take (pred (length q)) q)).
  { split; [|done|by rewrite S| |].
    - destruct Hv as [Ha Hvm]. split; [done|]. intros j Hj. unfold s1.
      destruct (decide (t = j)) as [<-|Hne]; [rewrite terms_set_term_eq|rewrite terms_set_term_ne by done];
        by apply Hvm.
    - unfold s1. by rewrite terms_set_term_eq.
    - unfold s1. rewrite terms_set_term_eq. cbn [new_line_ready set_input]. rewrite Hl.
      rewrite (removelast_snoc q b Hb) at 1. rewrite newlines_snoc. destruct (Z.eqb_spec b 10); [done|lia]. }
  destruct (echo_spec n _ t _ 8 sc ltac:(lia) Hin') as [I C]; [by rewrite S|].
  split; [done|]. split; [done|].
  eapply only_terminal_trans; [by apply (set_term_only s t (set_input b'))|].
  apply only_screen_terminal. eapply putc_times_spec; [lia|by rewrite S|by rewrite S].
Qed.

(** The width the code gives a tab at the cursor's column: what its two
    [switch] statements print. *)
Definition code_width (ch x : Z) : nat :=
  if ch =? 8 then tab_backspaces (u8 (x - Z.land x SPACES_IN_TAB))
  else tab_spaces (Z.land x SPACES_IN_TAB).

Lemma code_width_bound ch x : (code_width ch x <= 4)%nat.
Proof. unfold code_width, tab_backspaces, tab_spaces. repeat case_zb; lia. Qed.

Lemma keyboard_putc_spec s t q ch sc :
  input_ok s t q -> 0 <= ch < 256 ->
  scr_puts (screen_of s t) (echo q ch (code_width ch (cursor_x (terms s t)))) = Some sc ->
  let '(s', r) := keyboard_putc s t ch in
  input_ok s' t (edit q ch) /\ screen_of s' t = sc /\ only_terminal s s' t /\
  r = c_bool (accepts q ch).
Proof.
  intros Hin Hch. destruct (Hin) as [Hv Ht Hsc Hr Hl].
  destruct (ring_bounds _ _ _ _ _ Hr) as (_ & _ & _ & _ & Hlen & Hcap).
  assert (Hnop : scr_puts (screen_of s t) [] = Some sc ->
            input_ok s t q /\ screen_of s t = sc /\ only_terminal s s t).
  { cbn [scr_puts]. intros <-%(inj Some). by split_and!; [| |apply only_terminal_refl]. }
  unfold keyboard_putc, code_width, echo, edit, accepts, circular_buffer_len, KEYBOARD_BUFFER_SIZE. cbv zeta.
  rewrite Hlen.
  destruct (Z.eqb_spec ch 8) as [->|H8].
  { rewrite (ring_peek_end_byte _ _ _ _ _ Hr).
    pose proof (erase_spec s t q) as E.
    destruct (circular_buffer_remove_end_byte _) as [b' r']. cbn [fst] in E.
    destruct (last q) as [b|] eqn:Eb.
    - change (default 0 (Some b)) with b. destruct (Z.eqb_spec (zlen q) 0) as [E0|_].
      { apply last_Some in Eb as [k ->]. rewrite length_app in E0. simpl in E0. lia. }
      destruct (Z.eqb_spec b 10) as [->|Hb10]; [intros (I & C & O)%Hnop; exact (conj I (conj C (conj O eq_refl)))|].
      rewrite terms_set_term_eq. cbn [cursor_x set_input].
      destruct (Z.eqb_spec b 9) as [->|Hb9]; intros Hp.
      + destruct (E 9 _ sc Hin eq_refl ltac:(lia) Hp) as (I & C & O). exact (conj I (conj C (conj O eq_refl))).
      + destruct (E b 1%nat sc Hin eq_refl Hb10 Hp) as (I & C & O). exact (conj I (conj C (conj O eq_refl))).
    - apply last_None in Eb as ->. cbn [length Z.of_nat Z.eqb]. intros (I & C & O)%Hnop; exact (conj I (conj C (conj O eq_refl))). }
  destruct (Z.eqb_spec ch 10) as [->|H10].
  { rewrite Z.geb_leb. destruct (Z.ltb_spec (zlen q) 128), (Z.leb_spec 128 (zlen q)); try lia.
    - cbn [scr_puts]. destruct (scr_putc (screen_of s t) 10) as [sc1|] eqn:E; [|done].
      intros <-%(inj Some).
      destruct (put_newline_spec s t q sc1 Hin ltac:(lia) E) as (I & C & O). exact (conj I (conj C (conj O eq_refl))).
    - intros (I & C & O)%Hnop; exact (conj I (conj C (conj O eq_refl))). }
  rewrite Z.gtb_ltb. change (128 - 1) with 127.
  destruct (Z.eqb_spec ch 9) as [->|H9].
  { change (0 <? 9) with true. cbv iota.
    assert (Hx : cursor_x (terms (put_input s t 9) t) = cursor_x (terms s t)).
    { unfold put_input. destruct (circular_buffer_put_byte _ _ _) as [[b m'] r].
      by rewrite terms_set_term_eq. }
    rewrite Hx. destruct (Z.ltb_spec (zlen q) 127); [|intros (I & C & O)%Hnop; exact (conj I (conj C (conj O eq_refl)))].
    intros Hp. destruct (put_char_spec s t q 9 _ 32 sc Hin ltac:(lia) ltac:(lia) ltac:(lia) ltac:(lia) Hp)
      as (I & C & O). exact (conj I (conj C (conj O eq_refl))). }
  destruct (Z.ltb_spec 0 ch); [|intros (I & C & O)%Hnop; exact (conj I (conj C (conj O eq_refl)))].
  destruct (Z.ltb_spec (zlen q) 127); [|intros (I & C & O)%Hnop; exact (conj I (conj C (conj O eq_refl)))].
  intros Hp. destruct (put_char_spec s t q ch 1 ch sc Hin ltac:(lia) H10 ltac:(lia) Hch Hp)
    as (I & C & O). exact (conj I (conj C (conj O eq_refl))).
Qed.

(** The first line of a queue, its line feed included. *)
Definition first_line (q : list Z) : list Z :=
  match index_of 10 q with None => [] | Some k => take (Z.to_nat (k + 1)) q end.

Lemma index_of_newline q k :
  index_of 10 q = Some k -> newlines (take (Z.to_nat (k + 1)) q) = 1 /\ q !! Z.to_nat k = Some 10 /\
  (forall n, 0 <= n <= k -> newlines (take (Z.to_nat n) q) = 0).
Proof.
  revert k. induction q as [|b q IH]; intros k; simpl; [done|].
  destruct (Z.eqb_spec b 10) as [->|Hb].
  - intros [= <-]. split; [done|]. split; [done|]. intros n Hn. by replace n with 0 by lia.
  - destruct (index_of 10 q) as [j|] eqn:E; simpl; [|done]. intros [= <-].
    pose proof (index_of_bound _ _ _ E). destruct (IH j eq_refl) as (H1 & H2 & H3).
    assert (Hcons : forall l, newlines (b :: l) = newlines l)
      by (intros l; unfold newlines; by rewrite filter_cons_False).
    replace (Z.to_nat (Z.succ j + 1)) with (S (Z.to_nat (j + 1))) by lia. rewrite firstn_cons, Hcons.
    split; [done|]. split.
    + by replace (Z.to_nat (Z.succ j)) with (S (Z.to_nat j)) by lia.
    + intros n Hn. destruct (Z.eq_dec n 0) as [->|]; [done|].
      replace (Z.to_nat n) with (S (Z.to_nat (n - 1))) by lia. rewrite firstn_cons, Hcons. apply H3. lia.
Qed.

Lemma index_of_some q : 0 < newlines q -> exists k, index_of 10 q = Some k.
Proof.
  induction q as [|b q IH]; simpl; [by unfold newlines; simpl|].
  case_zb; [by eexists|]. unfold newlines in *. rewrite filter_cons_False by done.
  intros [k ->]%IH. by eexists.
Qed.

Lemma terminal_take_spec s t q buf nbytes k :
  input_ok s t q -> index_of 10 q = Some k ->
  -0x80000000 <= nbytes < 0x80000000 ->
  let n := if (0 <=? nbytes) && (nbytes <=? k) then nbytes else k + 1 in
  buf + n <= input_row t \/ input_row t + 128 <= buf ->
  let '(s', r) := terminal_take s t buf nbytes in
  r = n /\ load_bytes (tmem s') buf (Z.to_nat n) = take (Z.to_nat n) q /\
  ring (input_buffer (terms s' t)) (tmem s') (input_row t) 128 (drop (Z.to_nat n) q) /\
  new_line_ready (terms s' t) = newlines q - 1 /\
  same_outside (tmem s) (tmem s') buf (buf + n) /\
  (forall j, j <> t -> terms s' j = terms s j) /\
  active_terminal s' = active_terminal s /\
  video_memory (terms s' t) = video_memory (terms s t) /\
  cursor_x (terms s' t) = cursor_x (terms s t) /\ cursor_y (terms s' t) = cursor_y (terms s t).
Proof.
  intros [Hv Ht Hsc Hr Hl] Hk Hnb n Hb.
  destruct (ring_bounds _ _ _ _ _ Hr) as (_ & _ & _ & _ & _ & Hcap).
  pose proof (index_of_bound _ _ _ Hk) as Hkb.
  destruct (index_of_newline q k Hk) as (N1 & _ & _).
  pose proof (newlines_range q). pose proof (newlines_app (take (Z.to_nat (k+1)) q) (drop (Z.to_nat (k+1)) q)) as A.
  rewrite take_drop in A. pose proof (newlines_range (drop (Z.to_nat (k + 1)) q)).
  unfold terminal_take. rewrite (ring_find _ _ _ _ _ 10 Hr), Hk. change (default (-1) (Some k)) with k.
  rewrite (u32_id (k + 1)) by lia.
  assert (E : u32 (if k + 1 <? u32 nbytes then k + 1 else nbytes) = n).
  { unfold n. destruct (Z.leb_spec 0 nbytes); cbn [andb].
    - rewrite (u32_id nbytes) by lia. repeat case_zb; rewrite u32_id; lia.
    - assert (k + 1 < u32 nbytes) by (unfold u32; divlia).
      destruct (Z.ltb_spec (k + 1) (u32 nbytes)); [|lia]. apply u32_id. lia. }
  rewrite E. assert (Hn : 0 <= n <= k + 1).
  { unfold n. repeat (case_zb; cbn [andb]); lia. }
  pose proof (ring_get _ _ _ _ _ Hr buf n ltac:(lia)) as P.
  destruct (circular_buffer_get _ _ _ _) as [[b m'] r].
  destruct P as (-> & R & B & M); [rewrite Z.min_l by lia; done|].
  rewrite Z.min_l in * by lia. cbv beta iota zeta. rewrite !terms_set_term_eq.
  cbn [new_line_ready input_buffer video_memory cursor_x cursor_y set_new_line set_input].
  change (terms (set_tmem s m') t) with (terms s t).
  rewrite Hl, s32_id, u8_id by lia. cbn [tmem set_term set_tmem active_terminal].
  split_and!; try done.
  intros j Hj. by rewrite !terms_set_term_ne.
Qed.
End input.

(** A terminal does not depend on memory outside its screen and its row of the
    input buffer. *)
Lemma input_ok_set_tmem `{L : Layout} s m t q :
  input_ok s t q ->
  (forall x, video_memory (terms s t) <= x < video_memory (terms s t) + 4000 \/
             input_row t <= x < input_row t + 128 -> load8 m x = load8 (tmem s) x) ->
  input_ok (set_tmem s m) t q /\ screen_of (set_tmem s m) t = screen_of s t.
Proof.
  intros [Hv Ht Hs Hr Hl] M.
  assert (E : screen_of (set_tmem s m) t = screen_of s t).
  { unfold screen_of. cbn [terms set_tmem tmem]. f_equal. apply screen_cells_ext. intros i Hi.
    apply load_le_ext. intros x Hx. simpl in Hx. apply M. lia. }
  split; [|exact E]. destruct Hv as [Ha Hv]. split; [by split|done|by rewrite E| |exact Hl].
  apply (ring_frame _ (tmem s)); [exact Hr|]. intros x Hx. apply M. by right.
Qed.

(** * Initialisation *)

Section init.
Context `{L : Layout}.

Lemma init_terminal_spec s i :
  let base := get_terminal_output_buffer s i in
  let s' := init_terminal s i in
  active_terminal s' = active_terminal s /\
  (forall j, j <> i -> terms s' j = terms s j) /\
  terms s' i = Terminal (circular_buffer_init (input_row i) 128) 0 0 0 base /\
  same_outside (tmem s) (tmem s') base (base + 4000) /\
  screen_of s' i = scr_clear /\
  master_mask (tpic s') = master_mask (tpic s) /\ slave_mask (tpic s') = slave_mask (tpic s).
Proof.
  cbv zeta. set (base := get_terminal_output_buffer s i). unfold init_terminal, reset_terminal.
  fold base. cbv zeta. change KEYBOARD_BUFFER_SIZE with 128.
  set (s0 := set_term (set_term s i _) i _).
  assert (V0 : video_memory (terms s0 i) = base) by (unfold s0; by rewrite !terms_set_term_eq).
  destruct (clear_terminal_spec s0 i) as [O C]. set (s1 := clear_terminal s0 i) in *.
  assert (P1 : master_mask (tpic s1) = master_mask (tpic s) /\ slave_mask (tpic s1) = slave_mask (tpic s)).
  { unfold s1, clear_terminal, set_hardware_cursor. cbv zeta. by destruct (i =? _). }
  destruct O as [M T I N V A Sg K Cp]. rewrite V0 in *.
  set (s2 := set_term s1 i (set_new_line 0)).
  destruct (set_hardware_cursor_only s2 i 0 0) as [M' T' I' N' V' A' _ _ _].
  pose proof (set_hardware_cursor_screen s2 i 0 0) as C'.
  assert (P3 : forall p, p = master_mask \/ p = slave_mask ->
            p (tpic (set_hardware_cursor s2 i 0 0)) = p (tpic s2)).
  { intros p [-> | ->]; unfold set_hardware_cursor; cbv zeta; by destruct (i =? _). }
  assert (M3 : tmem (set_hardware_cursor s2 i 0 0) = tmem s1).
  { unfold set_hardware_cursor. cbv zeta. by destruct (i =? _). }
  set (s3 := set_hardware_cursor s2 i 0 0) in *.
  assert (C3 : screen_of s3 i = scr_clear).
  { rewrite C'. unfold s2, screen_of. rewrite terms_set_term_eq. cbn [video_memory set_new_line cells].
    exact (f_equal (fun sc => Screen (cells sc) 0 0) C). }
  split; [by transitivity (active_terminal s1)|].
  split; [|split; [|split; [|split; [exact C3|]]]].
  - intros j Hj. rewrite T' by done. unfold s2. rewrite terms_set_term_ne by done.
    rewrite T by done. unfold s0. by rewrite !terms_set_term_ne.
  - assert (Ex : cursor_x (terms s3 i) = 0) by exact (f_equal col C').
    assert (Ey : cursor_y (terms s3 i) = 0) by exact (f_equal row C').
    unfold s2 in I', N', V'. rewrite terms_set_term_eq in I', N', V'.
    cbn [input_buffer new_line_ready video_memory set_new_line] in I', N', V'.
    rewrite I in I'. rewrite V in V'. unfold s0 in I'. rewrite !terms_set_term_eq in I'.
    destruct (terms s3 i) as [b n x y v]. simpl in *. by subst.
  - rewrite M3. exact M.
  - rewrite !P3 by tauto. exact P1.
Qed.
Context `{LOk : !LayoutOk L}.

(** The screens of the three terminals do not overlap. *)
Lemma screens_apart s t j :
  0 <= t < 3 -> 0 <= j < 3 -> t <> j ->
  get_terminal_output_buffer s t + 4000 <= get_terminal_output_buffer s j \/
  get_terminal_output_buffer s j + 4000 <= get_terminal_output_buffer s t.
Proof.
  intros Ht Hj Hne. destruct (output_rows t Ht) as (B1 & B2 & B3), (output_rows j Hj) as (D1 & D2 & _).
  specialize (B3 j Hj). unfold get_terminal_output_buffer, VIDEO_PHYS_ADDR. repeat case_zb; lia.
Qed.

(** Outside the three screens. *)
Definition off_screens (s : tty) (x : Z) : Prop :=
  forall t, 0 <= t < 3 -> x < get_terminal_output_buffer s t \/ get_terminal_output_buffer s t + 4000 <= x.

(** The loop of [multiple_terminal_init]. *)
Lemma init_terminals_spec s :
  let s' := foldl init_terminal s (seqZ 0 NUM_TERMINALS) in
  active_terminal s' = active_terminal s /\
  (forall t, 0 <= t < 3 ->
     terms s' t = Terminal (circular_buffer_init (input_row t) 128) 0 0 0 (get_terminal_output_buffer s t) /\
     screen_cells (tmem s') (get_terminal_output_buffer s t) = replicate 2000 blank_word) /\
  master_mask (tpic s') = master_mask (tpic s) /\ slave_mask (tpic s') = slave_mask (tpic s) /\
  (forall x, off_screens s x -> load8 (tmem s') x = load8 (tmem s) x).
Proof.
  change (seqZ 0 NUM_TERMINALS) with [0; 1; 2]. cbn [foldl].
  destruct (init_terminal_spec s 0) as (A0 & T0 & E0 & M0 & C0 & P0 & Q0).
  set (s0 := init_terminal s 0) in *.
  destruct (init_terminal_spec s0 1) as (A1 & T1 & E1 & M1 & C1 & P1 & Q1).
  set (s1 := init_terminal s0 1) in *.
  destruct (init_terminal_spec s1 2) as (A2 & T2 & E2 & M2 & C2 & P2 & Q2).
  set (s2 := init_terminal s1 2) in *.
  assert (G : forall u t, active_terminal u = active_terminal s ->
            get_terminal_output_buffer u t = get_terminal_output_buffer s t)
    by (intros u t E; unfold get_terminal_output_buffer; by rewrite E).
  rewrite (G s0), (G s1) in * by congruence.
  split; [congruence|]. split; [|split; [congruence|split; [congruence|]]].
  - assert (F : forall u t, terms u t = Terminal (circular_buffer_init (input_row t) 128) 0 0 0
                                (get_terminal_output_buffer s t) -> screen_of u t = scr_clear ->
              screen_cells (tmem u) (get_terminal_output_buffer s t) = replicate 2000 blank_word).
    { intros u t Et C. pose proof (f_equal cells C) as Cc. unfold screen_of in Cc. rewrite Et in Cc. exact Cc. }
    intros t Ht. pose proof (screens_apart s 1 0) as H10. pose proof (screens_apart s 2 0) as H20.
    pose proof (screens_apart s 2 1) as H21. assert (t = 0 \/ t = 1 \/ t = 2) as [->|[->| ->]] by lia.
    + rewrite T2, T1 by lia. split; [exact E0|].
      rewrite (screen_cells_outside _ _ _ _ _ M2), (screen_cells_outside _ _ _ _ _ M1) by lia. by apply F.
    + rewrite T2 by lia. split; [exact E1|].
      rewrite (screen_cells_outside _ _ _ _ _ M2) by lia. by apply F.
    + split; [exact E2|by apply F].
  - intros x Hx. pose proof (Hx 0). pose proof (Hx 1). pose proof (Hx 2).
    rewrite M2, M1, M0 by lia. done.
Qed.

Lemma multiple_terminal_init_spec s :
  0 <= active_terminal s < 3 ->
  let s' := multiple_terminal_init s in
  (forall t, 0 <= t < 3 -> input_ok s' t [] /\ screen_of s' t = scr_clear) /\
  single_terminal s' = 0 /\ active_terminal s' = active_terminal s /\
  (forall j, 0 <= j < 16 -> masked (tpic s') j = masked (tpic s) j && negb (j =? 1)) /\
  (forall x, off_screens s x -> load8 (tmem s') x = load8 (tmem s) x).
Proof.
  intros Ha. unfold multiple_terminal_init. cbv zeta.
  generalize (init_terminals_spec s). cbv zeta. generalize (foldl init_terminal s (seqZ 0 NUM_TERMINALS)).
  intros s2 (A & T & P & Q & M).
  set (s3 := set_tpic _ _). change (active_terminal s3) with (active_terminal s2).
  change (tmem s3) with (tmem s2).
  assert (Hscr : forall t, 0 <= t < 3 -> screen_of s3 t = scr_clear).
  { intros t Ht. unfold screen_of. change (terms s3) with (terms s2). change (tmem s3) with (tmem s2).
    destruct (T t Ht) as [-> E]. cbn [video_memory cursor_x cursor_y]. rewrite E. reflexivity. }
  split; [|split; [done|split; [exact A|split; [|exact M]]]].
  - intros t Ht. split; [|by apply Hscr]. split.
    + split; [change (0 <= active_terminal s2 < 3); by rewrite A|]. intros j Hj.
      change (terms s3) with (terms s2). destruct (T j Hj) as [-> _].
      cbn [video_memory]. unfold get_terminal_output_buffer. change (active_terminal s3) with (active_terminal s2).
      by rewrite A.
    + done.
    + rewrite Hscr by done. by split.
    + change (terms s3) with (terms s2). destruct (T t Ht) as [-> _]. apply ring_init. lia.
    + change (terms s3) with (terms s2). by destruct (T t Ht) as [-> _].
  - intros j Hj. unfold s3. cbn [tpic set_tpic set_single]. change KEYBOARD_IRQ with 1. rewrite enable_masked by lia.
    unfold masked. by rewrite P, Q.
Qed.
End init.

(** * Properties *)

(** C5: [keyboard_putc] is the line editor.  Each key changes the queue of the
    active terminal as [edit] says (a backspace takes back the last character
    of the unfinished line only, the last of the 128 places is kept for Enter),
    keeps the count of complete lines right, reports whether the key was
    accepted and touches no other terminal.  It prints exactly the [echo].  For
    every key that is not a tab and takes none back this is the key itself, one
    character when the key is accepted and none when it is refused, and the
    result is the number of characters echoed.  For a tab the claim is only
    that some number of blanks, at most four, is printed, and some number of
    backspaces, at most four, when it is taken back: these numbers do not align
    as the comments say ([tab_misaligned]).  A full queue always holds a
    complete line, so typing cannot get stuck.  Excluded is an echo that
    backspaces over the top left corner. *)
Theorem keyboard_putc_correct `{L : Layout} `{LOk : !LayoutOk L} (s : tty) (t : Z) (q : list Z)
    (ch : Z) :
  input_ok s t q -> queue_ok q -> 0 < ch < 256 ->
  (forall n, (n <= 4)%nat -> is_Some (scr_puts (screen_of s t) (echo q ch n))) ->
  let '(s', r) := keyboard_putc s t ch in
  input_ok s' t (edit q ch) /\ queue_ok (edit q ch) /\
  (exists n, (n <= 4)%nat /\ scr_puts (screen_of s t) (echo q ch n) = Some (screen_of s' t)) /\
  r = c_bool (accepts q ch) /\
  (~ tab_key q ch -> forall n, scr_puts (screen_of s t) (echo q ch n) = Some (screen_of s' t) /\
                               r = zlen (echo q ch n)) /\
  only_terminal s s' t /\
  (zlen (edit q ch) < 128 \/ 0 < new_line_ready (terms s' t)).
Proof.
  intros Hin Hq Hch Hp. set (w := code_width ch (cursor_x (terms s t))).
  pose proof (code_width_bound ch (cursor_x (terms s t)) : (w <= 4)%nat) as Hw.
  destruct (Hp w Hw) as [sc E].
  pose proof (keyboard_putc_spec s t q ch sc Hin ltac:(lia) E) as P.
  destruct (keyboard_putc s t ch) as [s' r]. destruct P as (I & <- & O & R).
  split; [exact I|]. split; [by apply edit_ok|]. split; [by exists w|]. split; [exact R|].
  split; [|split; [exact O|rewrite (in_lines _ _ _ I); by apply queue_ok_progress, edit_ok]].
  intros Ht n. rewrite (echo_width q ch n w Ht). split; [exact E|].
  rewrite R. symmetry. apply echo_length; [lia|exact Ht].
Qed.

(** Finding: the tab stops of the comments are not those of the code.  A tab prints
    four blanks where bit 2 of the column is clear and none where it is set, so
    it ends on a multiple of four only if it started on one; after the keys
    "a", Tab, Backspace three of the four blanks are left; and the result is 1
    whatever was printed. *)
Theorem tab_misaligned :
  (forall x, 0 <= x < 80 ->
     code_width 9 x = (if x mod 8 <? 4 then 4%nat else 0%nat) /\
     ((x + Z.of_nat (code_width 9 x)) mod 4 = 0 <-> x mod 4 = 0)) /\
  (let run keys := foldl (fun s ch => (keyboard_putc s 1 ch).1) example_tty (10 :: keys) in
   cursor_x (terms (run [97; 9]) 1) = 5 /\
   cursor_x (terms (run [97; 9; 8]) 1) = 4 /\
   cursor_x (terms (run [97; 98; 99; 100; 9]) 1) = 4 /\
   (keyboard_putc (run [97; 98; 99; 100]) 1 9).2 = 1).
Proof.
  split; [|vm_compute; by split_and!]. intros x Hx.
  assert (W : code_width 9 x = (if x mod 8 <? 4 then 4%nat else 0%nat)).
  { assert (F : forallb (fun i => let x := Z.of_nat i in
              Nat.eqb (code_width 9 x) (if x mod 8 <? 4 then 4%nat else 0%nat)) (seq 0 80) = true)
      by (vm_compute; done).
    rewrite forallb_forall in F. specialize (F (Z.to_nat x)). cbv zeta beta in F.
    rewrite Z2Nat.id in F by lia. apply Nat.eqb_eq, F, in_seq. lia. }
  split; [exact W|]. rewrite W. case_zb; Z.to_euclidean_division_equations; lia.
Qed.

(** Terminal 1 of the example, in the background, with an empty queue. *)
Lemma example_input_ok : input_ok (L := example_layout) example_tty 1 [].
Proof.
  split.
  - split; [simpl; lia|]. intros t Ht.
    assert (t = 0 \/ t = 1 \/ t = 2) as [->|[->| ->]] by lia; reflexivity.
  - lia.
  - split; [apply length_screen_cells|split; simpl; lia|split; simpl; lia].
  - apply ring_init. lia.
  - reflexivity.
Qed.

Lemma keyboard_putc_correct_witness :
  snd (keyboard_putc example_tty 1 97) = 1 /\
  new_line_ready (terms (keyboard_putc example_tty 1 97).1 1) = 0.
Proof.
  pose proof (keyboard_putc_correct (LOk := example_layout_ok) example_tty 1 [] 97
                example_input_ok) as P.
  destruct (keyboard_putc example_tty 1 97) as [s' r].
  destruct P as (I & _ & _ & R & _).
  - split; [simpl; lia|]. simpl. lia.
  - lia.
  - intros n _. eexists. vm_compute. reflexivity.
  - split; [exact R|]. exact (in_lines _ _ _ I).
Defined.

Lemma terminal_read_spec `{L : Layout} `{LOk : !LayoutOk L} test_suite (s : tty)
    (esp local f buf nbytes : Z) (interrupts : list (list Z)) (q : list Z) :
  let t := get_process_terminal s esp in
  let line := first_line q in
  input_ok s t q -> 0 < newlines q -> zlen line <= nbytes < 0x80000000 ->
  buf + zlen line <= input_row t \/ input_row t + 128 <= buf ->
  exists s', terminal_read test_suite s esp local f buf nbytes interrupts = Some (s', zlen line) /\
    load_bytes (tmem s') buf (length line) = line /\
    line ++ drop (length line) q = q /\ newlines line = 1 /\
    input_ok s' t (drop (length line) q) /\
    same_outside (tmem s) (tmem s') buf (buf + zlen line) /\
    (forall j, j <> t -> terms s' j = terms s j) /\ active_terminal s' = active_terminal s /\
    video_memory (terms s' t) = video_memory (terms s t) /\
    cursor_x (terms s' t) = cursor_x (terms s t) /\ cursor_y (terms s' t) = cursor_y (terms s t).
Proof.
  intros t line Hin Hnl Hnb Hb. destruct (index_of_some q Hnl) as [k Hk].
  pose proof (index_of_bound _ _ _ Hk) as Hkb. destruct (index_of_newline q k Hk) as (N1 & _ & _).
  assert (El : line = take (Z.to_nat (k + 1)) q) by (unfold line, first_line; by rewrite Hk).
  assert (Ell : length line = Z.to_nat (k + 1)) by (rewrite El, length_take; lia).
  assert (Hwait : terminal_read test_suite s esp local f buf nbytes interrupts
                  = Some (terminal_take s t buf nbytes)).
  { unfold terminal_read. fold t. destruct interrupts; cbn [terminal_wait];
      rewrite (in_lines _ _ _ Hin); unfold truthy; destruct (Z.eqb_spec (newlines q) 0); done || lia. }
  rewrite Hwait. pose proof (terminal_take_spec s t q buf nbytes k Hin Hk ltac:(lia)) as P.
  destruct (Z.leb_spec 0 nbytes); [|lia]. cbn [andb] in P.
  destruct (Z.leb_spec nbytes k); [lia|]. cbv zeta in P.
  replace (k + 1) with (zlen line) in P by lia.
  destruct (terminal_take s t buf nbytes) as [s' r].
  destruct P as (-> & B & R & N & M & T & A & V & X & Y); [lia|]. rewrite Nat2Z.id in *.
  exists s'. split; [done|]. split; [by rewrite B, Ell, El|].
  assert (Hsplit : line ++ drop (length line) q = q) by (rewrite Ell, El; apply take_drop).
  split; [exact Hsplit|]. split; [by rewrite El|]. split; [|by split_and!].
  destruct Hin as [[Ha Hv] Ht Hsc Hr Hl]. split.
  - split; [by rewrite A|]. intros j Hj. unfold get_terminal_output_buffer in *. rewrite A.
    destruct (decide (j = t)) as [->|]; [rewrite V|rewrite T by done]; by apply Hv.
  - done.
  - destruct Hsc as [_ Hx Hy]. split; [apply length_screen_cells|simpl; rewrite X; exact Hx|].
    simpl. rewrite Y. exact Hy.
  - exact R.
  - rewrite N, Ell. pose proof (newlines_app (take (Z.to_nat (k + 1)) q) (drop (Z.to_nat (k + 1)) q)) as Ap.
    rewrite take_drop in Ap. lia.
Qed.

(** C26: [terminal_read] hands out the first line.  When the caller's terminal
    has a complete line, the read does not wait; with room for the line it
    delivers exactly that line, line feed included, removes it from the queue
    and leaves the other typed characters and the line count as they should
    be. *)
Theorem terminal_read_correct `{L : Layout} `{LOk : !LayoutOk L} test_suite (s : tty)
    (esp local f buf nbytes : Z) (interrupts : list (list Z)) (q : list Z) :
  let t := get_process_terminal s esp in
  let line := first_line q in
  input_ok s t q -> 0 < newlines q -> zlen line <= nbytes < 0x80000000 ->
  buf + zlen line <= input_row t \/ input_row t + 128 <= buf ->
  exists s', terminal_read test_suite s esp local f buf nbytes interrupts = Some (s', zlen line) /\
    load_bytes (tmem s') buf (length line) = line /\
    line ++ drop (length line) q = q /\ newlines line = 1 /\
    input_ok s' t (drop (length line) q) /\
    same_outside (tmem s) (tmem s') buf (buf + zlen line).
Proof.
  intros t line Hin Hnl Hnb Hb.
  destruct (terminal_read_spec test_suite s esp local f buf nbytes interrupts q Hin Hnl Hnb Hb)
    as (s' & E & B & S & N & I & M & _). exists s'. by split_and!.
Qed.

(** Terminal 1 after the keys "a", Enter, "b", and a caller on it. *)
Definition example_typed : tty :=
  let s := foldl (fun s ch => (keyboard_putc s 1 ch).1) example_tty [97; 10; 98] in
  set_tmem s (pcb_set (tmem s) 0x7FE000 terminal_num 1).

Lemma example_typed_ok : input_ok (L := example_layout) example_typed 1 [97; 10; 98].
Proof.
  split.
  - split; [vm_compute; split; congruence|]. intros t Ht.
    assert (t = 0 \/ t = 1 \/ t = 2) as [->|[->| ->]] by lia; vm_compute; reflexivity.
  - lia.
  - split; [apply length_screen_cells|split; vm_compute; congruence|split; vm_compute; congruence].
  - apply ring_intro; [split; vm_compute; split_and?; congruence|vm_compute; reflexivity..|].
    intros i Hi. cbn [length] in Hi.
    assert (i = 0 \/ i = 1 \/ i = 2)%nat as [->|[->| ->]] by lia; vm_compute; reflexivity.
  - vm_compute. reflexivity.
Qed.

Lemma terminal_read_correct_witness :
  exists s', terminal_read (L := example_layout) (fun s _ => s) example_typed 0x7FFF00 0 0 0x848000 100 []
             = Some (s', 2) /\ load_bytes (tmem s') 0x848000 2 = [97; 10].
Proof.
  assert (Et : get_process_terminal example_typed 0x7FFF00 = 1) by (vm_compute; reflexivity).
  pose proof (terminal_read_correct (LOk := example_layout_ok) (fun s _ => s) example_typed
                0x7FFF00 0 0 0x848000 100 [] [97; 10; 98]) as P.
  cbv zeta in P. rewrite Et in P.
  destruct (P example_typed_ok) as (s' & E & B & _).
  - vm_compute. reflexivity.
  - split; [vm_compute; congruence|lia].
  - right. vm_compute. congruence.
  - exists s'. split; [exact E|exact B].
Defined.

(** Finding: a read that is too short for the line miscounts.  It delivers the
    first [nbytes] characters and leaves the line feed in the queue, but the
    line count goes down, so it is one less than the lines that are left; if
    there was only one line, the rest of it cannot be read until another line
    is typed. *)
Theorem terminal_read_short `{L : Layout} `{LOk : !LayoutOk L} test_suite (s : tty)
    (esp local f buf nbytes : Z) (q : list Z) :
  let t := get_process_terminal s esp in
  input_ok s t q -> 0 <= nbytes < zlen (first_line q) ->
  buf + nbytes <= input_row t \/ input_row t + 128 <= buf ->
  exists s', terminal_read test_suite s esp local f buf nbytes [] = Some (s', nbytes) /\
    new_line_ready (terms s' t) = newlines (drop (Z.to_nat nbytes) q) - 1 /\
    (newlines q = 1 -> terminal_wait test_suite s' t local [] = None).
Proof.
  intros t Hin Hnb Hb. unfold first_line in Hnb.
  destruct (index_of 10 q) as [k|] eqn:Hk; [|simpl in Hnb; lia].
  pose proof (index_of_bound _ _ _ Hk) as Hkb. rewrite length_take in Hnb.
  destruct (index_of_newline q k Hk) as (N1 & _ & N3). specialize (N3 nbytes ltac:(lia)).
  destruct (ring_bounds _ _ _ _ _ (in_ring _ _ _ Hin)) as (_ & _ & _ & _ & _ & Hcap).
  pose proof (newlines_app (take (Z.to_nat (k+1)) q) (drop (Z.to_nat (k+1)) q)) as A1.
  pose proof (newlines_app (take (Z.to_nat nbytes) q) (drop (Z.to_nat nbytes) q)) as A2.
  rewrite take_drop in A1, A2. pose proof (newlines_range (drop (Z.to_nat (k + 1)) q)).
  assert (Hwait : terminal_read test_suite s esp local f buf nbytes []
                  = Some (terminal_take s t buf nbytes)).
  { unfold terminal_read. fold t. cbn [terminal_wait].
    rewrite (in_lines _ _ _ Hin); unfold truthy; destruct (Z.eqb_spec (newlines q) 0); done || lia. }
  rewrite Hwait. pose proof (terminal_take_spec s t q buf nbytes k Hin Hk ltac:(lia)) as P.
  destruct (Z.leb_spec 0 nbytes); [|lia]. cbn [andb] in P.
  destruct (Z.leb_spec nbytes k); [|lia]. cbv zeta in P.
  destruct (terminal_take s t buf nbytes) as [s' r].
  destruct P as (-> & _ & _ & N & _); [done|].
  exists s'. split; [done|]. split; [lia|]. intros Hone.
  cbn [terminal_wait]. rewrite N, Hone. done.
Qed.

Lemma terminal_read_short_witness :
  exists s', terminal_read (L := example_layout) (fun s _ => s) example_typed 0x7FFF00 0 0 0x848000 1 []
             = Some (s', 1) /\ terminal_wait (L := example_layout) (fun s _ => s) s' 1 0 [] = None.
Proof.
  assert (Et : get_process_terminal example_typed 0x7FFF00 = 1) by (vm_compute; reflexivity).
  pose proof (terminal_read_short (LOk := example_layout_ok) (fun s _ => s) example_typed
                0x7FFF00 0 0 0x848000 1 [97; 10; 98]) as P.
  cbv zeta in P. rewrite Et in P.
  destruct (P example_typed_ok) as (s' & E & _ & W).
  - split; [lia|vm_compute; reflexivity].
  - right. vm_compute. congruence.
  - exists s'. split; [exact E|]. apply W. vm_compute. reflexivity.
Defined.

(** Initialisation.  Whatever the state before, [multiple_terminal_init]
    leaves all three terminals with a blank screen and the cursor at its top
    left, each on its own memory, an empty queue and no line; the keyboard
    line is unmasked and the other lines keep their masks. *)
Theorem multiple_terminal_init_correct `{L : Layout} `{LOk : !LayoutOk L} (s : tty) :
  0 <= active_terminal s < 3 ->
  let s' := multiple_terminal_init s in
  (forall t, 0 <= t < 3 -> input_ok s' t [] /\ screen_of s' t = scr_clear) /\
  single_terminal s' = 0 /\ active_terminal s' = active_terminal s /\
  (forall j, 0 <= j < 16 -> masked (tpic s') j = masked (tpic s) j && negb (j =? 1)).
Proof.
  intros Ha s'. destruct (multiple_terminal_init_spec s Ha) as (I & Sg & A & M & _). auto.
Qed.

Lemma multiple_terminal_init_correct_witness :
  screen_of (multiple_terminal_init (L := example_layout) example_tty) 2 = scr_clear.
Proof.
  destruct (multiple_terminal_init_correct (LOk := example_layout_ok) example_tty) as (H & _).
  - simpl. lia.
  - apply (H 2). lia.
Defined.
