(* ===== verification/Machine.v ===== *)
(** The state of the kernel outside single components, and the operations on
    descriptor tables: [install_interrupt_handler] and [interpret_exception]
    ([arch/x86/interrupt.c]), [set_kernel_stack] ([arch/x86/task.c]) and
    [enable_paging] ([arch/x86/paging_asm.S]). *)

From Stdlib Require Import String.
From S2P Require Import Prelude Memory Layout I8259 Ece391Fs Terminal.

#[local] Open Scope Z_scope.

(** * Descriptors *)

(** [idt_desc_t] of [include/arch/x86/x86_desc.h]. *)
Record idt_desc := IdtDesc {
  offset_15_00 : Z;
  seg_selector : Z;
  reserved4 : Z;
  reserved3 : Z;
  reserved2 : Z;
  reserved1 : Z;
  size_bit : Z;
  reserved0 : Z;
  idt_dpl : Z;
  idt_present : Z;
  offset_31_16 : Z
}.

(** [seg_desc_t]. *)
Record seg_desc := SegDesc {
  seg_lim_15_00 : Z;
  base_15_00 : Z;
  base_23_16 : Z;
  seg_type : Z;
  seg_sys : Z;
  seg_dpl : Z;
  seg_present : Z;
  seg_lim_19_16 : Z;
  seg_avail : Z;
  seg_reserved : Z;
  seg_opsize : Z;
  seg_granularity : Z;
  base_31_24 : Z
}.

(** * State *)

Record kernel := Kernel {
  ktty : tty;                (* memory, ports and terminals *)
  kfs : fs_ptrs;             (* fs/ece391_fs.c *)
  idt : Z -> idt_desc;
  tss_ss0 : Z;
  tss_esp0 : Z;
  tss_desc : seg_desc;       (* tss_desc_ptr, what [ltr] loads *)
  cr3 : Z;
  next_pid : Z;              (* get_next_pid *)
  rtc_test_enabled : Z;      (* drivers/rtc.c *)
  system_ticks : Z;          (* drivers/pit.c *)
  ldt_desc : seg_desc;       (* ldt_desc_ptr, what [lldt] loads *)
  tss_ldt : Z                (* tss.ldt_segment_selector *)
}.

Definition kmem (k : kernel) : mem := tmem (ktty k).
Definition kpic (k : kernel) : pic := tpic (ktty k).

Definition set_ktty (k : kernel) (t : tty) : kernel :=
  Kernel t (kfs k) (idt k) (tss_ss0 k) (tss_esp0 k) (tss_desc k) (cr3 k) (next_pid k)
    (rtc_test_enabled k) (system_ticks k) (ldt_desc k) (tss_ldt k).
Definition set_idt (k : kernel) (t : Z -> idt_desc) : kernel :=
  Kernel (ktty k) (kfs k) t (tss_ss0 k) (tss_esp0 k) (tss_desc k) (cr3 k) (next_pid k)
    (rtc_test_enabled k) (system_ticks k) (ldt_desc k) (tss_ldt k).
Definition set_tss (k : kernel) (ss0 esp0 : Z) (d : seg_desc) : kernel :=
  Kernel (ktty k) (kfs k) (idt k) ss0 esp0 d (cr3 k) (next_pid k)
    (rtc_test_enabled k) (system_ticks k) (ldt_desc k) (tss_ldt k).
Definition set_cr3 (k : kernel) (v : Z) : kernel :=
  Kernel (ktty k) (kfs k) (idt k) (tss_ss0 k) (tss_esp0 k) (tss_desc k) v (next_pid k)
    (rtc_test_enabled k) (system_ticks k) (ldt_desc k) (tss_ldt k).
Definition set_next_pid (k : kernel) (v : Z) : kernel :=
  Kernel (ktty k) (kfs k) (idt k) (tss_ss0 k) (tss_esp0 k) (tss_desc k) (cr3 k) v
    (rtc_test_enabled k) (system_ticks k) (ldt_desc k) (tss_ldt k).
Definition set_rtc_test (k : kernel) (v : Z) : kernel :=
  Kernel (ktty k) (kfs k) (idt k) (tss_ss0 k) (tss_esp0 k) (tss_desc k) (cr3 k) (next_pid k)
    v (system_ticks k) (ldt_desc k) (tss_ldt k).
Definition set_ticks (k : kernel) (v : Z) : kernel :=
  Kernel (ktty k) (kfs k) (idt k) (tss_ss0 k) (tss_esp0 k) (tss_desc k) (cr3 k) (next_pid k)
    (rtc_test_enabled k) v (ldt_desc k) (tss_ldt k).
Definition set_ldt (k : kernel) (d : seg_desc) : kernel :=
  Kernel (ktty k) (kfs k) (idt k) (tss_ss0 k) (tss_esp0 k) (tss_desc k) (cr3 k) (next_pid k)
    (rtc_test_enabled k) (system_ticks k) d (tss_ldt k).
Definition set_tss_ldt (k : kernel) (v : Z) : kernel :=
  Kernel (ktty k) (kfs k) (idt k) (tss_ss0 k) (tss_esp0 k) (tss_desc k) (cr3 k) (next_pid k)
    (rtc_test_enabled k) (system_ticks k) (ldt_desc k) v.
Definition set_kfs (k : kernel) (f : fs_ptrs) : kernel :=
  Kernel (ktty k) f (idt k) (tss_ss0 k) (tss_esp0 k) (tss_desc k) (cr3 k) (next_pid k)
    (rtc_test_enabled k) (system_ticks k) (ldt_desc k) (tss_ldt k).
Definition set_kmem (k : kernel) (m : mem) : kernel := set_ktty k (set_tmem (ktty k) m).
Definition set_kpic (k : kernel) (p : pic) : kernel := set_ktty k (set_tpic (ktty k) p).

Definition KERNEL_CS : Z := 0x10.
Definition KERNEL_DS : Z := 0x18.
Definition TSS_SIZE : Z := 104.
Definition tss_size : Z := 103.   (* tss_bottom - tss - 1 in x86_desc.S *)
Definition PRIVILEGE_KERNEL : Z := 0.
Definition PRIVILEGE_USER : Z := 3.
Definition NUM_RESERVED_VEC : Z := 32.
Definition IRQ_INT_NUM (num : Z) : Z := 0x20 + num.

(** * Interrupt handlers *)

Definition install_interrupt_handler (k : kernel) (interrupt_num handler selector dpl : Z) : kernel :=
  let desc := IdtDesc
    (Z.land handler 0xFFFF)                          (* SET_IDT_ENTRY *)
    selector 0 0 1 1 1 0 (Z.land dpl 3) 1
    (Z.shiftr (Z.land handler 0xFFFF0000) 16) in
  set_idt k (<[interrupt_num := desc]> (idt k)).

Definition human_readable_errors : list string :=
  ["Divide-by-zero"; "Debug"; "Non-maskable interrupt"; "Breakpoint"; "Overflow";
   "Bound range exceeded"; "Invalid opcode"; "Device not available"; "Double fault";
   "Coprocessor segment overrun"; "Invalid TSS"; "Segment not present"; "Stack-segment fault";
   "General protection fault"; "Page fault"; "Reserved"; "x87 Floating point exception";
   "Alignment check"; "Machine check"; "SIMD Floating point exception";
   "Virtualization exception"; "Reserved"; "Reserved"; "Reserved"; "Reserved"; "Reserved";
   "Reserved"; "Reserved"; "Reserved"; "Reserved"; "Reserved"; "Security Exception";
   "Triple fault"]%string.

Definition has_error_code : list Z :=
  [0; 0; 0; 0; 0; 0; 0; 0;
   1; 0; 1; 1; 1; 1; 1; 0;
   0; 1; 0; 0; 0; 0; 0; 0;
   0; 0; 0; 0; 0; 0; 1; 0].

Definition interpret_exception (int_num : Z) : string :=
  if int_num >=? NUM_RESERVED_VEC then "Unknown"%string
  else nth (Z.to_nat int_num) human_readable_errors EmptyString.

(** * The task state segment and paging *)

Definition set_kernel_stack `{L : Layout} (k : kernel) (stack : Z) : kernel :=
  let addr := u32 tss in
  let lim := tss_size in
  let d := SegDesc (Z.land lim 0xFFFF) (Z.land addr 0xFFFF)
             (Z.shiftr (Z.land addr 0xFF0000) 16)
             9 0 3 1
             (Z.shiftr (Z.land lim 0xF0000) 16)
             0 0 0 0
             (Z.shiftr (Z.land addr 0xFF000000) 24) in
  set_tss k KERNEL_DS (u32 stack) d.

(** [cr4] and [cr0] get the same bits on every call. *)
Definition enable_paging (k : kernel) (pd_address : Z) : kernel := set_cr3 k pd_address.

(** The counter wraps like any [uint32_t]. *)
Definition get_next_pid (k : kernel) : kernel * Z :=
  (set_next_pid k (u32 (next_pid k + 1)), next_pid k).

(** * What the processor reads in a descriptor *)

(** The two words of a gate, by the layout of the structure. *)
Definition idt_word0 (d : idt_desc) : Z := offset_15_00 d + 0x10000 * seg_selector d.
Definition idt_word1 (d : idt_desc) : Z :=
  reserved4 d + 0x100 * reserved3 d + 0x200 * reserved2 d + 0x400 * reserved1 d
  + 0x800 * size_bit d + 0x1000 * reserved0 d + 0x2000 * idt_dpl d + 0x8000 * idt_present d
  + 0x10000 * offset_31_16 d.

(** The fields IA-32 defines for an interrupt gate. *)
Definition gate_offset (w0 w1 : Z) : Z := w0 mod 0x10000 + 0x10000 * (w1 / 0x10000).
Definition gate_selector (w0 : Z) : Z := w0 / 0x10000.
Definition gate_type (w1 : Z) : Z := w1 / 0x100 mod 32.
Definition gate_dpl (w1 : Z) : Z := w1 / 0x2000 mod 4.
Definition gate_present (w1 : Z) : Z := w1 / 0x8000 mod 2.

(** The base and limit of a segment descriptor. *)
Definition seg_base (d : seg_desc) : Z := base_15_00 d + 0x10000 * base_23_16 d + 0x1000000 * base_31_24 d.
Definition seg_limit (d : seg_desc) : Z := seg_lim_15_00 d + 0x10000 * seg_lim_19_16 d.

Lemma land_field a n k :
  0 <= n -> 0 <= k -> Z.shiftr (Z.land a (Z.shiftl (Z.ones k) n)) n = a / 2 ^ n mod 2 ^ k.
Proof.
  intros Hn Hk. rewrite Z.shiftr_land, Z.shiftr_shiftl_l by lia. rewrite Z.sub_diag, Z.shiftl_0_r.
  rewrite Z.land_ones, Z.shiftr_div_pow2 by lia. done.
Qed.

Lemma land_low16 a : Z.land a 0xFFFF = a mod 0x10000.
Proof. exact (Z.land_ones a 16 ltac:(lia)). Qed.

Lemma land_high16 a : Z.shiftr (Z.land a 0xFFFF0000) 16 = a / 0x10000 mod 0x10000.
Proof. exact (land_field a 16 16 ltac:(lia) ltac:(lia)). Qed.

(** A present 32-bit interrupt gate for a handler, as the processor decodes
    it. *)
Record gate (d : idt_desc) (handler selector dpl : Z) : Prop := {
  gt_offset : gate_offset (idt_word0 d) (idt_word1 d) = handler;
  gt_selector : gate_selector (idt_word0 d) = selector;
  gt_type : gate_type (idt_word1 d) = 0xE;
  gt_dpl : gate_dpl (idt_word1 d) = dpl;
  gt_present : gate_present (idt_word1 d) = 1
}.

Lemma install_gate k n handler selector dpl :
  0 <= handler < 0x100000000 -> 0 <= selector < 256 -> 0 <= dpl < 4 ->
  gate (idt (install_interrupt_handler k n handler selector dpl) n) handler selector dpl.
Proof.
  intros Hh Hs Hd. unfold install_interrupt_handler. cbn [idt set_idt].
  rewrite fn_lookup_insert. pose proof (Z.mod_pos_bound handler 0x10000 ltac:(lia)).
  assert (Eh : handler = handler mod 0x10000 + 0x10000 * (handler / 0x10000)) by divlia.
  assert (0 <= handler / 0x10000 < 0x10000) by divlia.
  rewrite land_low16, land_high16, (Z.mod_small (handler / 0x10000)) by divlia.
  replace (Z.land dpl 3) with dpl
    by (rewrite <- (Z.mod_small dpl 4) at 1 by lia; symmetry; exact (Z.land_ones dpl 2 ltac:(lia))).
  split; unfold idt_word0, idt_word1; cbn [offset_15_00 seg_selector reserved4
    reserved3 reserved2 reserved1 size_bit reserved0 idt_dpl idt_present offset_31_16];
    unfold gate_offset, gate_selector, gate_type, gate_dpl, gate_present; [|divlia..].
  rewrite Eh at 3. generalize dependent (handler / 0x10000). generalize dependent (handler mod 0x10000).
  intros lo Hlo hi _ Hhi. divlia.
Qed.

Lemma install_other k n handler selector dpl j :
  j <> n -> idt (install_interrupt_handler k n handler selector dpl) j = idt k j.
Proof. intros Hj. unfold install_interrupt_handler. cbn [idt set_idt]. by rewrite fn_lookup_insert_ne. Qed.

(** The base and the limit the macros put together. *)
Lemma segment_fields addr lim type sys dpl present avail reserved opsize granularity :
  0 <= addr < 0x100000000 -> 0 <= lim < 0x10000 ->
  let d := SegDesc (Z.land lim 0xFFFF) (Z.land addr 0xFFFF) (Z.shiftr (Z.land addr 0xFF0000) 16)
             type sys dpl present (Z.shiftr (Z.land lim 0xF0000) 16) avail reserved opsize granularity
             (Z.shiftr (Z.land addr 0xFF000000) 24) in
  seg_base d = addr /\ seg_limit d = lim.
Proof.
  intros Ha Hl. unfold seg_base, seg_limit.
  cbn [base_15_00 base_23_16 base_31_24 seg_lim_15_00 seg_lim_19_16].
  change (Z.land addr 0xFF0000) with (Z.land addr (Z.shiftl (Z.ones 8) 16)).
  change (Z.land addr 0xFF000000) with (Z.land addr (Z.shiftl (Z.ones 8) 24)).
  change (Z.land lim 0xF0000) with (Z.land lim (Z.shiftl (Z.ones 4) 16)).
  rewrite !land_field, !land_low16 by lia. change (2 ^ 16) with 0x10000. change (2 ^ 24) with 0x1000000.
  change (2 ^ 8) with 256. change (2 ^ 4) with 16. split; divlia.
Qed.

(** gates and the task segment decode to what was asked for.
    [install_interrupt_handler] puts a present 32-bit interrupt gate (type 0xE)
    for the handler, selector and privilege level at its vector and leaves the
    others alone; [set_kernel_stack] makes the kernel stack of the next system
    call the given one in the kernel's data segment, with a descriptor whose
    base and limit are those of the TSS. *)
Theorem descriptors_correct `{L : Layout} (k : kernel) (n handler selector dpl stack : Z) :
  0 <= handler < 0x100000000 -> 0 <= selector < 256 -> 0 <= dpl < 4 ->
  0 <= tss < 0x100000000 -> 0 <= stack < 0x100000000 ->
  let k' := install_interrupt_handler k n handler selector dpl in
  let w0 := idt_word0 (idt k' n) in
  let w1 := idt_word1 (idt k' n) in
  gate_offset w0 w1 = handler /\ gate_selector w0 = selector /\ gate_type w1 = 0xE /\
  gate_dpl w1 = dpl /\ gate_present w1 = 1 /\
  (forall j, j <> n -> idt k' j = idt k j) /\
  let k'' := set_kernel_stack k stack in
  tss_esp0 k'' = stack /\ tss_ss0 k'' = KERNEL_DS /\
  seg_base (tss_desc k'') = tss /\ seg_limit (tss_desc k'') = TSS_SIZE - 1 /\
  seg_present (tss_desc k'') = 1 /\ seg_type (tss_desc k'') = 9.
Proof.
  intros Hh Hs Hd Ht Hst. cbv zeta. destruct (install_gate k n handler selector dpl Hh Hs Hd) as [G1 G2 G3 G4 G5].
  do 5 (split; [assumption|]). split; [intros j; apply install_other|].
  destruct (segment_fields tss 103 9 0 3 1 0 0 0 0 Ht ltac:(lia)) as [B E].
  unfold set_kernel_stack. cbn [tss_esp0 tss_ss0 tss_desc set_tss seg_present seg_type].
  rewrite !u32_id by lia. split_and!; done.
Qed.

(** A kernel for examples. *)
Definition example_kernel (t : tty) : kernel :=
  Kernel t (Fs_ptrs 0x410000 0x411000 0x412000) (fun _ => IdtDesc 0 0 0 0 0 0 0 0 0 0 0) 0 0
    (SegDesc 0 0 0 0 0 0 0 0 0 0 0 0 0) 0 0 0 0 (SegDesc 0 0 0 0 0 0 0 0 0 0 0 0 0) 0.

Lemma descriptors_correct_witness :
  let k := example_kernel (Tty ∅ pic_boot (fun _ => Terminal (CircularBuffer.circular_buffer_init 0 1) 0 0 0 0)
                             0 0 [] 0) in
  let k' := install_interrupt_handler k 0x80 0x401234 KERNEL_CS PRIVILEGE_USER in
  gate_offset (idt_word0 (idt k' 0x80)) (idt_word1 (idt k' 0x80)) = 0x401234.
Proof.
  intros k. apply (descriptors_correct (L := example_layout) k 0x80 0x401234 KERNEL_CS PRIVILEGE_USER 0x800000);
    unfold KERNEL_CS, PRIVILEGE_USER; simpl; lia.
Defined.

(** Finding: the table of exception names is shifted against the table of error
    codes.  Vector 30, the only one above 17 for which the processor pushes an
    error code, is reported as "Reserved", and "Security Exception" is the
    name given to vector 31; "Triple fault" is never reported. *)
Theorem exception_names_shifted :
  has_error_code !! 30%nat = Some 1 /\ interpret_exception 30 = "Reserved"%string /\
  interpret_exception 31 = "Security Exception"%string /\ has_error_code !! 31%nat = Some 0 /\
  forall n, interpret_exception n <> "Triple fault"%string.
Proof.
  split_and!; try reflexivity. intros n. unfold interpret_exception, NUM_RESERVED_VEC.
  case_zb; [discriminate|].
  assert (H' : Forall (fun i => nth i human_readable_errors EmptyString <> "Triple fault"%string) (seq 0 32)).
  { apply (bool_decide_unpack _). vm_compute. exact I. }
  rewrite Forall_forall in H'. apply (H' (Z.to_nat n)), elem_of_seq. lia.
Qed.
