(* ===== verification/Rtc.v ===== *)
(** The real-time clock driver, [drivers/rtc.c]: one clock interrupt at 1024 Hz
    from which every process gets a virtual clock of its own rate.

    What [inportb] returns from the clock's registers is an argument. *)

From S2P Require Import Prelude Memory Layout I8259 Paging Pcb Terminal Machine.

Definition RTC_IRQ : Z := 8.
Definition RTC_STATUS_PORT : Z := 0x70.
Definition RTC_DATA_PORT : Z := 0x71.
Definition RTC_DISABLE_NMI : Z := 0x80.
Definition RTC_ENABLE_INTERRUPTS : Z := 0x40.
Definition RTC_REG_A : Z := 0xA.
Definition RTC_REG_B : Z := 0xB.
Definition RTC_REG_C : Z := 0xC.
Definition MIN_FREQ : Z := 2.
Definition MAX_FREQ : Z := 1024.

(** * The code *)

Definition kout (k : kernel) (port data : Z) : kernel := set_kpic k (pic_out (kpic k) port data).

Definition set_rtc_test_enabled (k : kernel) (enabled : Z) : kernel := set_rtc_test k enabled.

Definition test_rtc (k : kernel) : kernel := set_ktty k (putc (ktty k) 49).

(** One round of the loop over the PCBs. *)
Definition rtc_tick (m : mem) (i : Z) : mem :=
  let pcb := get_pcb_from_slot i in
  if truthy (pcb_get m pcb in_use) && truthy (pcb_get m pcb rtc_enabled)
     && (pcb_get m pcb remaining_rtc_ticks >? 0)
  then pcb_set m pcb remaining_rtc_ticks (pcb_get m pcb remaining_rtc_ticks - 1)
  else m.

Definition rtc_handler (k : kernel) : kernel :=
  let k := kout k RTC_STATUS_PORT RTC_REG_C in
  let k := if truthy (rtc_test_enabled k) then test_rtc k else k in
  let k := set_kmem k (foldl rtc_tick (kmem k) (seqZ 0 MAX_PROCESSES)) in
  set_kpic k (send_eoi (kpic k) RTC_IRQ).

(** [while(htz != MIN_FREQ) { htz >>= 1; rate--; }]; [None] if it does not end
    within the fuel. *)
Fixpoint rate_loop (fuel : nat) (htz rate : Z) : option Z :=
  if htz =? MIN_FREQ then Some rate
  else match fuel with
       | O => None
       | S f => rate_loop f (Z.shiftr htz 1) (u8 (rate - 1))
       end.

Definition rtc_init (k : kernel) (reg_a : Z) : kernel :=
  let rate := default 15 (rate_loop 16 MAX_FREQ 15) in
  let k := kout k RTC_STATUS_PORT (Z.lor RTC_DISABLE_NMI RTC_REG_A) in
  let prev := s8 reg_a in
  let k := kout k RTC_STATUS_PORT (Z.lor RTC_DISABLE_NMI RTC_REG_A) in
  kout k RTC_DATA_PORT (Z.lor (Z.land prev 0xF0) rate).

Section file_operations.
(** The assembly entry that calls [rtc_handler]. *)
Context (rtc_handler_wrapper : Z).

Definition rtc_open (k : kernel) (esp reg_a reg_b f filename : Z) : kernel * Z :=
  let k := kout k RTC_STATUS_PORT (Z.lor RTC_DISABLE_NMI RTC_REG_B) in
  let prev := s8 reg_b in
  let k := kout k RTC_STATUS_PORT (Z.lor RTC_DISABLE_NMI RTC_REG_B) in
  let k := kout k RTC_DATA_PORT (Z.lor prev RTC_ENABLE_INTERRUPTS) in
  let k := install_interrupt_handler k (IRQ_INT_NUM RTC_IRQ) rtc_handler_wrapper
             KERNEL_CS PRIVILEGE_KERNEL in
  let k := set_kpic k (enable_irq (kpic k) RTC_IRQ) in
  let k := rtc_init k reg_a in
  let pcb := get_current_pcb esp in
  let m := pcb_set (kmem k) pcb rtc_enabled 1 in
  let m := pcb_set m pcb rtc_interval (MAX_FREQ / 2) in
  let m := pcb_set m pcb remaining_rtc_ticks (pcb_get m pcb rtc_interval) in
  (set_kmem k m, 0).

Definition rtc_close (k : kernel) (esp f : Z) : kernel * Z :=
  (set_kmem k (pcb_set (kmem k) (get_current_pcb esp) rtc_enabled 0), 0).

(** The busy wait with interrupts enabled, as far as clock interrupts go:
    [ticks] of them arrive. *)
Fixpoint rtc_wait (ticks : nat) (k : kernel) (pcb : Z) : option kernel :=
  if truthy (pcb_get (kmem k) pcb remaining_rtc_ticks) then
    match ticks with
    | O => None
    | S n => rtc_wait n (rtc_handler k) pcb
    end
  else Some k.

(** [None]: still waiting after the given interrupts. *)
Definition rtc_read (ticks : nat) (k : kernel) (esp f buf nbytes : Z) : option (kernel * Z) :=
  let pcb := get_current_pcb esp in
  if pcb_get (kmem k) pcb rtc_enabled =? 0 then Some (k, -1)
  else
    k ← rtc_wait ticks k pcb;
    Some (set_kmem k (pcb_set (kmem k) pcb remaining_rtc_ticks (pcb_get (kmem k) pcb rtc_interval)), 0).

Definition rtc_write (k : kernel) (esp f buf nbytes : Z) : kernel * Z :=
  let hertz := load32 (kmem k) buf in
  if (hertz <? MIN_FREQ) || (hertz >? MAX_FREQ) then (k, -1)
  else if negb (Z.land hertz (hertz - 1) =? 0) then (k, -1)
  else
    let pcb := get_current_pcb esp in
    (set_kmem k (pcb_set (kmem k) pcb rtc_interval (MAX_FREQ / hertz)), 0).
End file_operations.

(** * Ticks *)

(** The virtual clock of a slot runs. *)
Definition clock_on (m : mem) (i : Z) : bool :=
  truthy (pcb_get m (get_pcb_from_slot i) in_use)
  && truthy (pcb_get m (get_pcb_from_slot i) rtc_enabled).

Definition ticks_left (m : mem) (i : Z) : Z :=
  pcb_get m (get_pcb_from_slot i) remaining_rtc_ticks.

(** A field of another slot, or another field, does not see a tick. *)
Lemma rtc_tick_frame m i j f :
  0 <= i < 6 -> 0 <= j < 6 -> in_pcb f = true ->
  i <> j \/ fields_apart remaining_rtc_ticks f = true ->
  pcb_get (rtc_tick m i) (get_pcb_from_slot j) f = pcb_get m (get_pcb_from_slot j) f.
Proof.
  intros Hi Hj Hf Hd. unfold rtc_tick. cbv zeta. destruct (_ && _); [|done].
  destruct (Z.eq_dec i j) as [<-|Hne].
  - destruct Hd as [?|Hd]; [done|]. by apply pcb_get_set_ne.
  - apply pcb_get_set_other; [done|done|]. rewrite !pcb_from_slot_eq by done. lia.
Qed.

Lemma rtc_tick_self m i :
  0 <= i < 6 ->
  ticks_left (rtc_tick m i) i
  = if clock_on m i && (ticks_left m i >? 0) then ticks_left m i - 1 else ticks_left m i.
Proof.
  intros Hi. unfold ticks_left, rtc_tick, clock_on. cbv zeta.
  destruct (_ && _ && _) eqn:E; [|done].
  rewrite pcb_get_set_eq.
  apply andb_true_iff in E as [_ E]. rewrite Z.gtb_ltb, Z.ltb_lt in E.
  pose proof (pcb_get_range m (get_pcb_from_slot i) remaining_rtc_ticks) as R.
  apply Z.mod_small. simpl in *. lia.
Qed.

Definition tick_all (m : mem) : mem := foldl rtc_tick m (seqZ 0 6).

Lemma ticks_of l m j f :
  Forall (fun i => 0 <= i < 6) l -> 0 <= j < 6 -> in_pcb f = true ->
  fields_apart remaining_rtc_ticks f = true ->
  pcb_get (foldl rtc_tick m l) (get_pcb_from_slot j) f = pcb_get m (get_pcb_from_slot j) f.
Proof.
  intros Hl Hj Hf Hd. revert m. induction Hl as [|i l Hi _ IH]; intros m; simpl; [done|].
  rewrite IH. apply rtc_tick_frame; auto.
Qed.

Lemma ticks_left_skip l m j :
  Forall (fun i => 0 <= i < 6) l -> 0 <= j < 6 -> j ∉ l ->
  ticks_left (foldl rtc_tick m l) j = ticks_left m j.
Proof.
  intros Hl Hj. revert m. induction Hl as [|i l Hi _ IH]; intros m Hnin; simpl; [done|].
  apply not_elem_of_cons in Hnin as [Hne Hnin]. rewrite IH by done.
  apply rtc_tick_frame; auto.
Qed.

Lemma slots_in_range : Forall (fun i => 0 <= i < 6) (seqZ 0 6).
Proof. apply Forall_forall. intros i Hi%elem_of_seqZ. lia. Qed.

(** Every running clock loses one tick, and only clocks change. *)
Lemma tick_all_spec m j :
  0 <= j < 6 ->
  ticks_left (tick_all m) j
  = (if clock_on m j && (ticks_left m j >? 0) then ticks_left m j - 1 else ticks_left m j) /\
  (forall f, in_pcb f = true -> fields_apart remaining_rtc_ticks f = true ->
     pcb_get (tick_all m) (get_pcb_from_slot j) f = pcb_get m (get_pcb_from_slot j) f).
Proof.
  intros Hj. split; [|intros; by apply ticks_of; [apply slots_in_range|..]].
  unfold tick_all.
  assert (Hs : seqZ 0 6 = seqZ 0 j ++ j :: seqZ (j + 1) (5 - j)).
  { replace 6 with (j + (6 - j)) at 1 by lia. rewrite seqZ_app by lia. f_equal.
    rewrite seqZ_cons by lia. rewrite Z.add_0_l. do 2 f_equal; lia. }
  assert (Hlo : Forall (fun i => 0 <= i < 6) (seqZ 0 j))
    by (apply Forall_forall; intros i Hi%elem_of_seqZ; lia).
  assert (Hhi : Forall (fun i => 0 <= i < 6) (seqZ (j + 1) (5 - j)))
    by (apply Forall_forall; intros i Hi%elem_of_seqZ; lia).
  rewrite Hs, foldl_app. cbn [foldl].
  rewrite (ticks_left_skip _ _ _ Hhi Hj) by (rewrite elem_of_seqZ; lia).
  set (m1 := foldl rtc_tick m (seqZ 0 j)).
  assert (E : ticks_left m1 j = ticks_left m j)
    by (apply ticks_left_skip; [done|done|rewrite elem_of_seqZ; lia]).
  assert (C : clock_on m1 j = clock_on m j)
    by (unfold clock_on, m1; rewrite !ticks_of by done; done).
  by rewrite rtc_tick_self, E, C by done.
Qed.

Lemma rtc_handler_mem k :
  rtc_test_enabled k = 0 ->
  kmem (rtc_handler k) = tick_all (kmem k) /\ rtc_test_enabled (rtc_handler k) = 0.
Proof.
  intros Ht. unfold rtc_handler. change (rtc_test_enabled (kout k _ _)) with (rtc_test_enabled k).
  rewrite Ht. done.
Qed.

(** Waiting for a running clock takes exactly its remaining ticks. *)
Lemma rtc_wait_spec n k i :
  0 <= i < 6 -> rtc_test_enabled k = 0 -> clock_on (kmem k) i = true ->
  if Z.of_nat n <? ticks_left (kmem k) i
  then rtc_wait n k (get_pcb_from_slot i) = None
  else exists k', rtc_wait n k (get_pcb_from_slot i) = Some k' /\
         (forall j f, 0 <= j < 6 -> in_pcb f = true -> fields_apart remaining_rtc_ticks f = true ->
            pcb_get (kmem k') (get_pcb_from_slot j) f = pcb_get (kmem k) (get_pcb_from_slot j) f).
Proof.
  intros Hi. revert k. induction n as [|n IH]; intros k Ht Hc;
    cbn [rtc_wait]; unfold truthy; fold (ticks_left (kmem k) i);
    pose proof (pcb_get_range (kmem k) (get_pcb_from_slot i) remaining_rtc_ticks) as R;
    fold (ticks_left (kmem k) i) in R; simpl in R.
  - destruct (Z.eqb_spec (ticks_left (kmem k) i) 0); cbn [negb]; case_zb; try lia; [by eexists|done].
  - destruct (Z.eqb_spec (ticks_left (kmem k) i) 0) as [E|E]; cbn [negb].
    { rewrite E. case_zb; [lia|by eexists]. }
    destruct (rtc_handler_mem k Ht) as [Em Et].
    destruct (tick_all_spec (kmem k) i Hi) as [Tl Tf].
    rewrite Hc in Tl. cbn [andb] in Tl. rewrite Z.gtb_ltb in Tl.
    destruct (Z.ltb_spec 0 (ticks_left (kmem k) i)); [|lia].
    specialize (IH (rtc_handler k) Et). rewrite Em, Tl in IH.
    assert (Hc' : clock_on (tick_all (kmem k)) i = true).
    { rewrite <- Hc. unfold clock_on. by rewrite !Tf. }
    specialize (IH Hc').
    destruct (Z.ltb_spec (Z.of_nat n) (ticks_left (kmem k) i - 1)),
      (Z.ltb_spec (Z.of_nat (S n)) (ticks_left (kmem k) i)); try lia; [done|].
    destruct IH as (k' & E' & F'). exists k'. split; [done|]. intros j f Hj Hf Hd.
    rewrite F' by done. destruct (tick_all_spec (kmem k) j Hj) as [_ Tj]. by apply Tj.
Qed.

(** * Properties *)

Lemma power_of_two_test h :
  2 <= h <= 1024 ->
  Z.land h (h - 1) = 0 <-> exists n, 1 <= n <= 10 /\ h = 2 ^ n.
Proof.
  intros Hh.
  assert (H : Forall (fun h => (Z.land h (h - 1) =? 0) = bool_decide (h ∈ (Z.pow 2 <$> seqZ 1 10)))
                (seqZ 2 1023)) by (apply (bool_decide_unpack _); vm_compute; exact I).
  rewrite Forall_forall in H. rewrite <- Z.eqb_eq, H by (apply elem_of_seqZ; lia).
  rewrite bool_decide_eq_true, list_elem_of_fmap. split; intros (n & A & B); exists n.
  - apply elem_of_seqZ in B. split; [lia|done].
  - split; [done|]. apply elem_of_seqZ. lia.
Qed.

(** [rtc_write] accepts exactly the rates 2, 4, ..., 1024.  It returns 0
    for those, and the caller's interval becomes the number of 1024 Hz ticks of
    one period; for every other value it returns -1 and changes nothing. *)
Theorem rtc_write_correct (k : kernel) (esp f buf nbytes : Z) :
  let hertz := load32 (kmem k) buf in
  let pcb := get_current_pcb esp in
  let '(k', r) := rtc_write k esp f buf nbytes in
  ((exists n, 1 <= n <= 10 /\ hertz = 2 ^ n) /\ r = 0 /\
     pcb_get (kmem k') pcb rtc_interval * hertz = MAX_FREQ /\
     same_outside (kmem k) (kmem k') (pcb + 440) (pcb + 444)) \/
  (~ (exists n, 1 <= n <= 10 /\ hertz = 2 ^ n) /\ r = -1 /\ k' = k).
Proof.
  cbv zeta. unfold rtc_write, MIN_FREQ, MAX_FREQ. set (h := load32 (kmem k) buf).
  rewrite Z.gtb_ltb.
  destruct (Z.ltb_spec h 2) as [Hlo|Hlo]; cbn [orb].
  { right. split; [|done]. intros (n & Hn & E). assert (2 ^ 1 <= 2 ^ n) by (apply Z.pow_le_mono_r; lia). lia. }
  destruct (Z.ltb_spec 1024 h) as [Hhi|Hhi].
  { right. split; [|done]. intros (n & Hn & E).
    assert (2 ^ n <= 2 ^ 10) by (apply Z.pow_le_mono_r; lia). lia. }
  destruct (Z.eqb_spec (Z.land h (h - 1)) 0) as [Hp|Hp]; cbn [negb];
    rewrite power_of_two_test in Hp by lia; [left|by right].
  split; [done|]. split; [done|]. split.
  - change (kmem (set_kmem k ?m)) with m. rewrite pcb_get_set_eq.
    destruct Hp as (n & Hn & ->).
    assert (n = 1 \/ n = 2 \/ n = 3 \/ n = 4 \/ n = 5 \/ n = 6 \/ n = 7 \/ n = 8 \/ n = 9 \/ n = 10)
      as Hc by lia.
    repeat (destruct Hc as [->|Hc]; [reflexivity|]). by subst n.
  - intros x Hx. apply load8_store_le_out. simpl. lia.
Qed.

(** C39: reading the clock waits for one period.  For a process whose virtual
    clock runs, [rtc_read] returns 0 once exactly the remaining number of clock
    interrupts has arrived, not before, whatever the other processes do with
    their clocks; it then starts the next period, so reads are [rtc_interval]
    ticks apart.  With the clock closed it returns -1 at once. *)
Theorem rtc_read_correct (k : kernel) (i esp f buf nbytes : Z) (ticks : nat) :
  0 <= i < 6 -> get_pcb_from_slot i < esp <= get_kernel_stack_base_from_slot i ->
  rtc_test_enabled k = 0 -> truthy (pcb_get (kmem k) (get_pcb_from_slot i) in_use) = true ->
  let pcb := get_pcb_from_slot i in
  if pcb_get (kmem k) pcb rtc_enabled =? 0
  then rtc_read ticks k esp f buf nbytes = Some (k, -1)
  else if Z.of_nat ticks <? pcb_get (kmem k) pcb remaining_rtc_ticks
  then rtc_read ticks k esp f buf nbytes = None
  else exists k', rtc_read ticks k esp f buf nbytes = Some (k', 0) /\
         pcb_get (kmem k') pcb remaining_rtc_ticks = pcb_get (kmem k) pcb rtc_interval /\
         pcb_get (kmem k') pcb rtc_interval = pcb_get (kmem k) pcb rtc_interval.
Proof.
  intros Hi Hesp Ht Huse. cbv zeta. unfold rtc_read, get_current_pcb.
  rewrite (pcb_from_esp_eq i Hi esp Hesp). cbv zeta.
  destruct (Z.eqb_spec (pcb_get (kmem k) (get_pcb_from_slot i) rtc_enabled) 0) as [E|E]; [done|].
  assert (Hc : clock_on (kmem k) i = true).
  { unfold clock_on. rewrite Huse. unfold truthy. cbn [andb].
    destruct (Z.eqb_spec (pcb_get (kmem k) (get_pcb_from_slot i) rtc_enabled) 0); done. }
  pose proof (rtc_wait_spec ticks k i Hi Ht Hc) as W. unfold ticks_left in W.
  destruct (Z.of_nat ticks <? _); [by rewrite W|]. destruct W as (k' & -> & F). simpl.
  eexists. split; [done|]. change (kmem (set_kmem k' ?m)) with m.
  pose proof (pcb_get_range (kmem k) (get_pcb_from_slot i) rtc_interval) as R.
  rewrite pcb_get_set_eq, pcb_get_set_ne, F by done. split; [|done].
  apply Z.mod_small. exact R.
Qed.

(** Slot 1 with a clock of 2 Hz, three ticks before the end of a period. *)
Definition example_clock : kernel :=
  let p := get_pcb_from_slot 1 in
  let m := pcb_set (pcb_set ∅ p in_use 1) p rtc_enabled 1 in
  example_kernel (Tty (pcb_set (pcb_set m p rtc_interval 512) p remaining_rtc_ticks 3) pic_boot
    (fun _ => Terminal (CircularBuffer.circular_buffer_init 0 1) 0 0 0 0) 0 0 [] 0).

Lemma rtc_read_correct_witness :
  rtc_read 2 example_clock 0x7FDF00 0 0 4 = None /\
  exists k', rtc_read 3 example_clock 0x7FDF00 0 0 4 = Some (k', 0) /\
             pcb_get (kmem k') (get_pcb_from_slot 1) remaining_rtc_ticks = 512.
Proof.
  assert (Hesp : get_pcb_from_slot 1 < 0x7FDF00 <= get_kernel_stack_base_from_slot 1)
    by (split; vm_compute; congruence).
  split.
  - exact (rtc_read_correct example_clock 1 0x7FDF00 0 0 4 2 ltac:(lia) Hesp eq_refl eq_refl).
  - destruct (rtc_read_correct example_clock 1 0x7FDF00 0 0 4 3 ltac:(lia) Hesp eq_refl eq_refl)
      as (k' & E & R & _).
    exists k'. split; [exact E|exact R].
Defined.
