(* ===== verification/Tests.v ===== *)
(** The interactive tests, [kernel/tests.c], which Ctrl+1 to Ctrl+5 start: the
    listing of the directory, the printing of files, and the clock test.

    The locals [dentry], [file_name], [buf] and [temp_htz] are at addresses of
    the stack; [sp] and [conv] are those of the calls of [printf].  The static
    variables of the file are the record [tests].  The loop over the entries
    runs on fuel from the directory, the one over a file on fuel from its
    length; both are enough.  [read_file_by_index] need not end, and its loop
    runs on a fuel argument.

    [clear_terminal] and [printf] act on terminal 0, but the contents of a file
    go through [terminal_write], which prints on the terminal of the process
    that the keyboard interrupted; the specifications follow both screens. *)

From Stdlib Require Import String Ascii.
From S2P Require Import Prelude Memory Layout I8259 LibMem LibString CircularBuffer Paging Ece391Fs Pcb.
From S2P Require Import Terminal Screen Printf Console Machine Rtc.

#[local] Open Scope Z_scope.
#[local] Notation "a +++ b" := (String.append a b) (at level 60, right associativity).

Create HintDb ktests.

(** * The code *)

Definition FILE_NAME_LIMIT : Z := 32.
Definition BUFFER_4K : Z := 4096.

(** The escape of the quotation mark. *)
Definition quote : string := String (ascii_of_N 34) EmptyString.

Definition dashes : string :=
  "--------------------------------------------------------------------------------".

Record tests := Tests { htz : Z; index_num : Z }.

Section code.
Context (rtc_handler_wrapper : Z) (lit : string -> Z) (sp conv esp : Z).
Context (dentry file_name buf temp_htz : Z).

(** [memset(file_name, 0, sizeof(file_name)); memcpy(file_name, dentry.file_name, sizeof(dentry.file_name));] *)
Definition copy_name (m : mem) : mem :=
  memcpy (memset m file_name 0 (FILE_NAME_LIMIT + 1)) file_name dentry FILE_NAME_LIMIT.

(** The comparison with [50 - strlen(file_name)] is unsigned. *)
Fixpoint pad_loop (fuel : nat) (s : tty) (j : Z) : option tty :=
  match fuel with
  | O => None
  | S f => if j <? u32 (50 - strlen (tmem s) file_name) then pad_loop f (putc s 32) (j + 1) else Some s
  end.

Fixpoint list_loop (fuel : nat) (s : tty) (fs : fs_ptrs) (i : Z) : option tty :=
  match fuel with
  | O => None
  | S f =>
      let '(m, res) := read_dentry_by_index (tmem s) fs i dentry in
      let s := set_tmem s m in
      if res >=? 0 then
        let s := set_tmem s (copy_name (tmem s)) in
        s ← kprintf lit sp conv s (" name " +++ quote +++ "%s" +++ quote)%string [file_name];
        s ← pad_loop 51 s 0;
        let file_size := get_file_size (tmem s) fs (dentry_inode_num (tmem s) dentry) in
        s ← kprintf lit sp conv s (" type %u - size %d" +++ nl)%string [dentry_file_type (tmem s) dentry; u32 file_size];
        list_loop f s fs (i + 1)
      else Some s
  end.

Definition list_all_files (s : tty) (fs : fs_ptrs) : option tty :=
  list_loop (S (Z.to_nat (num_directory_entries (tmem s) fs))) (clear_terminal s 0) fs 0.

(** [do { res = read_data(...); terminal_write(0, buf, res); num_read += res; } while(res > 0);] *)
Fixpoint print_loop (fuel : nat) (s : tty) (fs : fs_ptrs) (inode num_read : Z) : option (tty * Z) :=
  match fuel with
  | O => None
  | S f =>
      let '(m, res) := read_data (tmem s) fs inode num_read buf BUFFER_4K in
      let '(s, _) := terminal_write (set_tmem s m) esp 0 buf res in
      let num_read := num_read + res in
      if res >? 0 then print_loop f s fs inode num_read else Some (s, res)
  end.

Definition print_fuel (m : mem) (fs : fs_ptrs) (inode : Z) : nat := 2 + Z.to_nat (file_length m fs inode / 4096).

(** The name and the size of the entry in [dentry]. *)
Definition print_entry (s : tty) (fs : fs_ptrs) : option tty :=
  let s := set_tmem s (copy_name (tmem s)) in
  let file_size := get_file_size (tmem s) fs (dentry_inode_num (tmem s) dentry) in
  kprintf lit sp conv s (nl +++ dashes +++ "file name: " +++ quote +++ "%s" +++ quote +++ nl +++ "file size: %d" +++ nl)%string
    [file_name; u32 file_size].

Definition read_files_by_name (s : tty) (fs : fs_ptrs) : option tty :=
  let s := clear_terminal s 0 in
  let '(m, res) := read_dentry_by_name (tmem s) fs (lit "frame0.txt"%string) dentry in
  let s := set_tmem s m in
  s ← (if res >=? 0 then
         let inode := dentry_inode_num m dentry in
         '(s, _) ← print_loop (print_fuel m fs inode) s fs inode 0; Some s
       else Some s);
  print_entry s fs.

(** The outer loop; it returns the index of the file it printed. *)
Fixpoint index_loop (fuel : nat) (s : tty) (fs : fs_ptrs) (index : Z) : option (tty * Z) :=
  match fuel with
  | O => None
  | S f =>
      let '(m, res) := read_dentry_by_index (tmem s) fs index dentry in
      let s := set_tmem s m in
      '(s, index, res) ←
        (if res >=? 0 then
           let inode := dentry_inode_num m dentry in
           '(s, res) ← print_loop (print_fuel m fs inode) s fs inode 0; Some (s, index, res)
         else Some (s, 0, res));
      if res =? -1 then index_loop f s fs index else Some (s, index)
  end.

Definition read_file_by_index (fuel : nat) (t : tests) (s : tty) (fs : fs_ptrs) : option (tests * tty) :=
  '(s, index) ← index_loop fuel (clear_terminal s 0) fs (index_num t);
  s ← print_entry s fs;
  s ← kprintf lit sp conv s ("file index: %u" +++ nl)%string [index];
  Some (Tests (htz t) (u16 (index + 1)), s).

(** [reg_a] and [reg_b] are the registers [rtc_open] reads. *)
Definition start_rtc_test (t : tests) (k : kernel) (reg_a reg_b : Z) : tests * kernel :=
  let '(k, _) := rtc_open rtc_handler_wrapper k esp reg_a reg_b 0 (lit "rtc"%string) in
  let h := u16 (Z.shiftl (htz t) 1) in
  let h := if h >? MAX_FREQ then MIN_FREQ else h in
  let k := set_kmem k (store32 (kmem k) temp_htz h) in
  let '(k, _) := rtc_write k esp 0 temp_htz 4 in
  (Tests h (index_num t), set_rtc_test_enabled k 1).

Definition stop_rtc_test (t : tests) (k : kernel) : tests * kernel :=
  let '(s, _) := terminal_close (ktty k) esp 0 in
  let '(k, _) := rtc_close (set_ktty k s) esp 0 in
  (Tests 1 (index_num t), set_rtc_test_enabled k 0).

Definition test_suite (fuel : nat) (t : tests) (k : kernel) (reg_a reg_b test_num : Z) : option (tests * kernel) :=
  if test_num =? 1 then s ← list_all_files (ktty k) (kfs k); Some (t, set_ktty k s)
  else if test_num =? 2 then s ← read_files_by_name (ktty k) (kfs k); Some (t, set_ktty k s)
  else if test_num =? 3 then '(t, s) ← read_file_by_index fuel t (ktty k) (kfs k); Some (t, set_ktty k s)
  else if test_num =? 4 then Some (start_rtc_test t k reg_a reg_b)
  else if test_num =? 5 then Some (stop_rtc_test t k)
  else Some (t, k).
End code.

(** * What the tests leave alone *)

(** Everything but the memory and the screens of terminal 0 and of terminal
    [tn]. *)
Record undisturbed (tn : Z) (s s' : tty) : Prop := {
  ud_terms : forall j, j <> 0 -> j <> tn -> terms s' j = terms s j;
  ud_input : forall j, input_buffer (terms s' j) = input_buffer (terms s j);
  ud_lines : forall j, new_line_ready (terms s' j) = new_line_ready (terms s j);
  ud_video : forall j, video_memory (terms s' j) = video_memory (terms s j);
  ud_active : active_terminal s' = active_terminal s;
  ud_single : single_terminal s' = single_terminal s;
  ud_masks : masks (tpic s') = masks (tpic s)
}.

Lemma undisturbed_refl tn s : undisturbed tn s s.
Proof. by split. Qed.

Lemma undisturbed_trans tn s1 s2 s3 : undisturbed tn s1 s2 -> undisturbed tn s2 s3 -> undisturbed tn s1 s3.
Proof.
  intros [T1 I1 N1 V1 A1 S1 M1] [T2 I2 N2 V2 A2 S2 M2]. split; try congruence.
  intros j Hj Hn. by rewrite T2, T1.
Qed.

Lemma undisturbed_mem tn s m : undisturbed tn s (set_tmem s m).
Proof. by split. Qed.

Lemma undisturbed_screen tn n s s' : n = 0 \/ n = tn -> only_screen s s' n -> undisturbed tn s s'.
Proof.
  intros Hn [M T I N V A S K C P]. split; try done.
  - intros j Hj Hjn. apply T. by destruct Hn as [->| ->].
  - intros j. destruct (decide (j = n)) as [->|]; [done|by rewrite T].
  - intros j. destruct (decide (j = n)) as [->|]; [done|by rewrite T].
  - intros j. destruct (decide (j = n)) as [->|]; [done|by rewrite T].
Qed.

Lemma undisturbed_message tn base sp conv s s' : messaging base sp conv s s' -> undisturbed tn s s'.
Proof.
  intros [M T I N V A S P]. split; try done.
  - intros j Hj _. by apply T.
  - intros j. destruct (decide (j = 0)) as [->|]; [done|by rewrite T].
  - intros j. destruct (decide (j = 0)) as [->|]; [done|by rewrite T].
  - intros j. destruct (decide (j = 0)) as [->|]; [done|by rewrite T].
Qed.

(** A step that prints on terminal 0 only: the screen of terminal [tn] stays,
    unless that is terminal 0. *)
Definition beside (tn : Z) (s s' : tty) : Prop :=
  undisturbed tn s s' /\ (tn <> 0 -> screen_of s' tn = screen_of s tn).

Lemma beside_refl tn s : beside tn s s.
Proof. by split; [apply undisturbed_refl|]. Qed.

Lemma beside_trans tn s1 s2 s3 : beside tn s1 s2 -> beside tn s2 s3 -> beside tn s1 s3.
Proof.
  intros [U1 E1] [U2 E2]. split; [by eapply undisturbed_trans|]. intros Hn. by rewrite E2, E1.
Qed.

#[export] Hint Resolve undisturbed_refl undisturbed_mem undisturbed_message beside_refl : ktests.

(** * Specifications *)

Section specs.
Context (lit : string -> Z) (tn base tbase sp conv dentry file_name buf nbuf : Z) (m0 : mem) (fs : fs_ptrs).

(** The stack of the test, the screens of terminal 0, at [base], and of
    terminal [tn], at [tbase], and the image do not meet. *)
Definition frame_byte (x : Z) : Prop :=
  dentry <= x < dentry + 64 \/ file_name <= x < file_name + 33 \/ buf <= x < buf + nbuf.

Definition settled (x : Z) : Prop :=
  quiet base sp conv x /\ ~ frame_byte x /\ (x < tbase \/ tbase + 4000 <= x).

Hypotheses (Hconv : conv + 64 <= base \/ base + 4000 <= conv)
           (Hsp : forall x, sp <= x < sp + 64 -> stable base conv x)
           (Hframe : forall x, frame_byte x -> quiet base sp conv x)
           (Happart : dentry + 64 <= file_name \/ file_name + 33 <= dentry)
           (Hbuf_dentry : dentry + 64 <= buf \/ buf + nbuf <= dentry)
           (Hbuf_name : file_name + 33 <= buf \/ buf + nbuf <= file_name)
           (Hword : 0 <= file_name < 0x100000000)
           (Hsame : tn = 0 -> tbase = base)
           (Hother : tn <> 0 -> forall x, tbase <= x < tbase + 4000 -> quiet base sp conv x /\ ~ frame_byte x).
Hypotheses (Hfs : fs_ok m0 fs) (Himage : forall x, fs_boot_ptr fs <= x < image_end m0 fs -> settled x).

Definition text_ok (f : string) : Prop :=
  cstr m0 (lit f) (bytes_of f) /\ forall x, lit f <= x <= lit f + zlen (bytes_of f) -> settled x.

(** The state between two steps. *)
Record testing (s : tty) : Prop := {
  ts_video : video_memory (terms s 0) = base;
  ts_term_video : video_memory (terms s tn) = tbase;
  ts_mem : forall x, settled x -> load8 (tmem s) x = load8 m0 x;
  ts_screen : screen_ok (screen_of s 0);
  ts_term_screen : screen_ok (screen_of s tn)
}.

(** The frame is off both screens. *)
Lemma frame_off_term x : frame_byte x -> x < tbase \/ tbase + 4000 <= x.
Proof.
  intros Hx. destruct (Z.eq_dec tn 0) as [E|Hn].
  - rewrite (Hsame E). apply (Hframe x Hx).
  - destruct (Z_lt_dec x tbase) as [|H1]; [by left|]. destruct (Z_le_dec (tbase + 4000) x) as [|H2]; [by right|].
    destruct (Hother Hn x) as [_ []]; [lia|exact Hx].
Qed.

Lemma testing_image s : testing s -> same_image m0 (tmem s) fs.
Proof. intros [_ _ M _ _] x Hx. by apply M, Himage. Qed.

(** A screen depends on its bytes and on its terminal's pointer and cursor. *)
Lemma screen_of_kept s s' n :
  terms s' n = terms s n ->
  (forall x, video_memory (terms s n) <= x < video_memory (terms s n) + 4000 -> load8 (tmem s') x = load8 (tmem s) x) ->
  screen_of s' n = screen_of s n.
Proof.
  intros E H. unfold screen_of. rewrite E. f_equal. apply screen_cells_ext.
  intros i Hi. apply load_le_ext. intros x Hx. simpl in Hx. apply H. lia.
Qed.

(** A step that changes, of the terminals, terminal 0 only, and memory that is
    not quiet. *)
Lemma testing_step s s' :
  testing s -> undisturbed tn s s' -> (forall j, j <> 0 -> terms s' j = terms s j) ->
  (forall x, quiet base sp conv x -> load8 (tmem s') x = load8 (tmem s) x) -> screen_ok (screen_of s' 0) ->
  testing s' /\ beside tn s s'.
Proof.
  intros [V TV M S TS] U T Q S'.
  assert (B : tn <> 0 -> screen_of s' tn = screen_of s tn).
  { intros Hn. apply screen_of_kept; [by apply T|]. rewrite TV. intros x Hx. apply Q. by apply Hother. }
  split; [|by split]. split.
  - by rewrite (ud_video _ _ _ U).
  - by rewrite (ud_video _ _ _ U).
  - intros x Hx. rewrite Q by apply Hx. by apply M.
  - exact S'.
  - destruct (Z.eq_dec tn 0) as [->|Hn]; [exact S'|by rewrite B].
Qed.

(** A store to the frame. *)
Lemma testing_store s m :
  testing s -> (forall x, ~ frame_byte x -> load8 m x = load8 (tmem s) x) ->
  testing (set_tmem s m) /\ screen_of (set_tmem s m) 0 = screen_of s 0 /\
  screen_of (set_tmem s m) tn = screen_of s tn /\ beside tn s (set_tmem s m).
Proof.
  intros [V TV M S TS] H.
  assert (E : screen_of (set_tmem s m) 0 = screen_of s 0).
  { apply screen_of_kept; [done|]. rewrite V. intros x Hx. apply H. intros F. destruct (Hframe x F) as [[Hb _] _]. lia. }
  assert (E' : screen_of (set_tmem s m) tn = screen_of s tn).
  { apply screen_of_kept; [done|]. rewrite TV. intros x Hx. apply H. intros F. pose proof (frame_off_term x F). lia. }
  split; [|split; [exact E|split; [exact E'|split; [apply undisturbed_mem|done]]]].
  split; [exact V|exact TV| |by rewrite E|by rewrite E'].
  intros x Hx. cbn [tmem set_tmem]. rewrite H by apply Hx. by apply M.
Qed.

(** A message during a test. *)
Lemma test_message s f ps t sc :
  testing s -> text_ok f -> Forall (arg_ok base sp conv (tmem s)) ps -> (length ps <= 16)%nat ->
  message None (bytes_of f) ps = Some t -> scr_puts (screen_of s 0) t = Some sc ->
  exists s', kprintf lit sp conv s f (arg_word <$> ps) = Some s' /\ screen_of s' 0 = sc /\ beside tn s s' /\ testing s' /\
    forall x, quiet base sp conv x -> load8 (tmem s') x = load8 (tmem s) x.
Proof.
  intros T [Hc Hq] Ha Hl Hm Hs.
  destruct (kprintf_spec lit base sp conv (tmem s) Hconv Hsp s f ps t sc) as (s' & E & C & M & K); try done.
  - split; [apply T|done|apply T].
  - split; [|intros x Hx; by apply Hq]. apply (cstr_ext m0); [|exact Hc]. intros x Hx. by apply T, Hq.
  - destruct (testing_step s s' T) as [T' B]; [eauto with ktests|apply M|apply M|apply K|].
    exists s'. split; [exact E|]. split; [exact C|]. split; [exact B|]. split; [exact T'|exact (ms_mem _ _ _ _ _ M)].
Qed.

(** * The name *)

Lemma copy_name_spec m name :
  load_bytes m dentry 32 = zero_pad 32 name -> (length name <= 32)%nat -> Forall (fun b => b <> 0) name ->
  cstr (copy_name dentry file_name m) file_name name /\
  same_outside m (copy_name dentry file_name m) file_name (file_name + 33).
Proof.
  intros B Hl Hz. unfold copy_name, FILE_NAME_LIMIT. change (32 + 1) with 33. rewrite memset_spec by lia.
  set (m1 := store_bytes m file_name _).
  assert (O1 : same_outside m m1 file_name (file_name + 33)).
  { intros x Hx. apply load8_store_bytes_out. rewrite length_replicate. lia. }
  rewrite memcpy_spec by (unfold forward_ok; lia). unfold copied. change (Z.to_nat 32) with 32%nat.
  assert (B1 : load_bytes m1 dentry 32 = zero_pad 32 name).
  { rewrite <- B. apply load_bytes_ext. intros x Hx. apply O1. lia. }
  rewrite B1. assert (Lz : length (zero_pad 32 name) = 32%nat) by by apply length_zero_pad.
  split.
  - apply (cstr_zero_pad 32); [|done|done|].
    + rewrite <- Lz at 2. apply load_store_bytes. rewrite <- B1. apply load_bytes_range.
    + rewrite load8_store_bytes_out by (rewrite Lz; lia). unfold m1.
      rewrite load8_store_bytes_in by (rewrite length_replicate; lia). rewrite lookup_total_replicate_2 by lia. done.
  - intros x Hx. rewrite load8_store_bytes_out by (rewrite Lz; lia). by apply O1.
Qed.

(** * The listing *)

(** A line of the listing: the name, then the type and the size. *)
Definition name_part (m : mem) (i : Z) : list Z :=
  let name := dir_name m fs i in
  bytes_of (" name " +++ quote) ++ name ++ bytes_of quote ++ replicate (50 - length name) 32.

Definition size_part (m : mem) (i : Z) : list Z :=
  let e := directory_entry fs i in
  bytes_of " type " ++ number 10 (dentry_file_type m e) ++ bytes_of " - size " ++
  decimal (get_file_size m fs (dentry_inode_num m e)) ++ bytes_of nl.

Definition entry_line (m : mem) (i : Z) : list Z := name_part m i ++ size_part m i.

Lemma pad_loop_spec fuel s name j sc :
  testing s -> cstr (tmem s) file_name name -> (length name <= 32)%nat -> 0 <= j <= 50 - zlen name ->
  50 - zlen name - j < Z.of_nat fuel ->
  scr_puts (screen_of s 0) (replicate (Z.to_nat (50 - zlen name - j)) 32) = Some sc ->
  exists s', pad_loop file_name fuel s j = Some s' /\ screen_of s' 0 = sc /\ beside tn s s' /\ testing s' /\
    forall x, quiet base sp conv x -> load8 (tmem s') x = load8 (tmem s) x.
Proof.
  revert s j. induction fuel as [|f IH]; intros s j T Hc Hl Hj Hf Hs; [lia|]. cbn [pad_loop].
  rewrite (strlen_cstr _ _ _ Hc), u32_id by lia. destruct (Z.ltb_spec j (50 - zlen name)) as [Hlt|Hge].
  - replace (Z.to_nat (50 - zlen name - j)) with (S (Z.to_nat (50 - zlen name - (j + 1)))) in Hs by lia.
    cbn [replicate scr_puts] in Hs. destruct (scr_putc (screen_of s 0) 32) as [sc1|] eqn:E1; [|discriminate].
    cbn [mbind option_bind] in Hs. destruct (putc_spec s 0 32 sc1) as [O C]; [lia|apply T|exact E1|].
    fold (putc s 32) in O, C. pose proof O as [OM _ _ _ OV _ _ _ _ _]. rewrite (ts_video s T) in OM, OV.
    assert (Q : forall x, quiet base sp conv x -> load8 (tmem (putc s 32)) x = load8 (tmem s) x).
    { intros x [[Hx _] _]. apply OM. lia. }
    destruct (testing_step s (putc s 32) T) as [T1 B1];
      [apply (undisturbed_screen tn 0); [by left|exact O]|apply O|exact Q|rewrite C; eapply scr_putc_ok; [apply T|exact E1]|].
    destruct (IH (putc s 32) (j + 1)) as (s' & E & C' & U & T' & Q').
    + exact T1.
    + apply (cstr_ext (tmem s)); [|exact Hc]. intros x Hx. apply Q, Hframe. right. left. lia.
    + exact Hl.
    + lia.
    + lia.
    + by rewrite C.
    + exists s'. split; [exact E|]. split; [exact C'|].
      split; [by eapply beside_trans|]. split; [exact T'|].
      intros x Hx. by rewrite Q', Q.
  - replace (Z.to_nat (50 - zlen name - j)) with 0%nat in Hs by lia. injection Hs as <-. exists s.
    split; [done|]. split; [done|]. split; [apply beside_refl|]. by split.
Qed.

Lemma number_messages ty size :
  message None (bytes_of (" type %u - size %d" +++ nl)) [Num ty; Num size] =
  Some (bytes_of " type " ++ number 10 ty ++ bytes_of " - size " ++ decimal (s32 size) ++ bytes_of nl).
Proof. reflexivity. Qed.

Lemma listing_message name :
  message None (bytes_of (" name " +++ quote +++ "%s" +++ quote)) [Str file_name name] =
  Some (bytes_of (" name " +++ quote) ++ name ++ bytes_of quote).
Proof. reflexivity. Qed.

(** The local [dentry] holds the entry [i]. *)
Record entry_loaded (m : mem) (i : Z) : Prop := {
  el_name : load_bytes m dentry 32 = zero_pad 32 (dir_name m0 fs i);
  el_type : dentry_file_type m dentry = dentry_file_type m0 (directory_entry fs i);
  el_inode : dentry_inode_num m dentry = dentry_inode_num m0 (directory_entry fs i)
}.

Lemma entry_loaded_kept m m' i :
  (forall x, dentry <= x < dentry + 64 -> load8 m' x = load8 m x) -> entry_loaded m i -> entry_loaded m' i.
Proof.
  intros H [N T I]. split.
  - rewrite <- N. apply load_bytes_ext. intros x Hx. apply H. lia.
  - rewrite <- T. apply load_le_ext. intros x Hx. simpl in Hx. apply H. lia.
  - rewrite <- I. apply load_le_ext. intros x Hx. simpl in Hx. apply H. lia.
Qed.

Lemma dir_name_bounds m i : (length (dir_name m fs i) <= 32)%nat /\ Forall (fun b => b <> 0) (dir_name m fs i).
Proof.
  unfold dir_name, chars. split; [|apply cut_nonzero].
  etransitivity; [apply length_cut|]. by rewrite length_load_bytes.
Qed.

Lemma frame_off_image a n : 0 < n -> (forall x, a <= x < a + n -> frame_byte x) -> off_image m0 fs a n.
Proof.
  intros Hn Hx. pose proof (image_layout m0 fs Hfs) as IL. unfold off_image.
  assert (P : forall x, a <= x < a + n -> ~ (fs_boot_ptr fs <= x < image_end m0 fs)).
  { intros x Ha Hi. apply (proj1 (proj2 (Himage x Hi))), Hx, Ha. }
  destruct (Z_le_dec (a + n) (fs_boot_ptr fs)) as [|H1]; [by left|].
  destruct (Z_le_dec (image_end m0 fs) a) as [|H2]; [by right|]. exfalso.
  apply (P (Z.max a (fs_boot_ptr fs))); lia.
Qed.

Lemma load_entry s i :
  testing s -> 0 <= i < num_directory_entries m0 fs ->
  let m := copy_dentry (tmem s) dentry (directory_entry fs i) in
  testing (set_tmem s m) /\ screen_of (set_tmem s m) 0 = screen_of s 0 /\
  screen_of (set_tmem s m) tn = screen_of s tn /\ beside tn s (set_tmem s m) /\ entry_loaded m i.
Proof.
  intros T Hi m. pose proof (image_layout m0 fs Hfs) as IL. pose proof (testing_image s T) as Si.
  pose proof (frame_off_image dentry 64 ltac:(lia) (fun x Hx => or_introl Hx)) as Fo. unfold off_image in Fo. set (e := directory_entry fs i) in *.
  assert (Em : m = store_bytes (tmem s) dentry (dentry_bytes (tmem s) e)).
  { apply copy_dentry_spec. unfold e, directory_entry. lia. }
  assert (Ee : forall x, e <= x < e + 64 -> load8 (tmem s) x = load8 m0 x).
  { intros x Hx. apply Si. unfold e, directory_entry in Hx. lia. }
  pose proof (length_dentry_bytes (tmem s) e) as Ld.
  destruct (testing_store s m T) as (T' & Es & Et & Bs).
  { intros x Hx. rewrite Em. apply load8_store_bytes_out. rewrite Ld. unfold frame_byte in Hx. lia. }
  split; [exact T'|]. split; [exact Es|]. split; [exact Et|]. split; [exact Bs|]. rewrite Em. split.
  - rewrite (load_bytes_take _ _ _ (length (dentry_bytes (tmem s) e))) by lia. rewrite load_store_bytes.
    + unfold dentry_bytes. rewrite take_app_le by (rewrite length_zero_pad; [lia|apply (dir_name_bounds (tmem s) i)]).
      rewrite take_ge by (rewrite length_zero_pad; [lia|apply (dir_name_bounds (tmem s) i)]). f_equal. unfold dir_name, chars. f_equal.
      apply load_bytes_ext. intros x Hx. apply Ee. change (Z.of_nat (Z.to_nat MAX_FILE_NAME_LENGTH)) with 32 in Hx. lia.
    + apply Forall_app. split; [|apply load_bytes_range]. unfold zero_pad. apply Forall_app. split; [|by apply Forall_replicate].
      eapply Forall_impl; [apply chars_range|]. simpl. lia.
  - unfold dentry_file_type. rewrite dentry_field by lia. apply load_le_ext. intros x Hx. simpl in Hx. apply Ee. lia.
  - unfold dentry_inode_num. rewrite dentry_field by lia. apply load_le_ext. intros x Hx. simpl in Hx. apply Ee. lia.
Qed.

Lemma load_name s i :
  testing s -> entry_loaded (tmem s) i ->
  let m := copy_name dentry file_name (tmem s) in
  testing (set_tmem s m) /\ screen_of (set_tmem s m) 0 = screen_of s 0 /\ beside tn s (set_tmem s m) /\
  entry_loaded m i /\ cstr m file_name (dir_name m0 fs i).
Proof.
  intros T El m. destruct (dir_name_bounds m0 i) as [Hl Hz].
  destruct (copy_name_spec (tmem s) (dir_name m0 fs i) (el_name _ _ El) Hl Hz) as [Hc Ho]. fold m in Hc, Ho.
  destruct (testing_store s m T) as (T' & Es & _ & Bs); [intros x Hx; apply Ho; unfold frame_byte in Hx; lia|].
  split; [exact T'|]. split; [exact Es|]. split; [exact Bs|]. split; [|exact Hc].
  apply (entry_loaded_kept (tmem s)); [|exact El]. intros x Hx. apply Ho. lia.
Qed.

Lemma file_size_same s inode :
  testing s -> 0 <= inode -> get_file_size (tmem s) fs inode = get_file_size m0 fs inode.
Proof.
  intros T Hi. pose proof (testing_image s T) as Si. unfold get_file_size.
  destruct (image_counts m0 fs Hfs (tmem s) Si) as (_ & -> & _). rewrite Z.geb_leb.
  destruct (Z.leb_spec (num_inodes m0 fs) inode); [done|]. by rewrite (image_file_length m0 fs Hfs (tmem s) Si inode).
Qed.

Lemma file_size_word m inode : s32 (u32 (get_file_size m fs inode)) = get_file_size m fs inode.
Proof. unfold get_file_size. destruct (_ >=? _); [done|]. by rewrite u32_s32, s32_u32. Qed.

(** The name, padded to 50 columns. *)
Lemma print_name s i sc :
  let name := dir_name m0 fs i in
  let f := (" name " +++ quote +++ "%s" +++ quote)%string in
  testing s -> entry_loaded (tmem s) i -> text_ok f ->
  scr_puts (screen_of s 0) (name_part m0 i) = Some sc ->
  exists s', (s ← kprintf lit sp conv (set_tmem s (copy_name dentry file_name (tmem s))) f [file_name]; pad_loop file_name 51 s 0)
             = Some s' /\ screen_of s' 0 = sc /\ beside tn s s' /\ testing s' /\ entry_loaded (tmem s') i.
Proof.
  intros name f T El Hf Hs. unfold name_part in Hs. cbv zeta in Hs. fold name in Hs. destruct (dir_name_bounds m0 i) as [Hl Hz]. fold name in Hl, Hz.
  destruct (load_name s i T El) as (T1 & E1 & B1 & El1 & C1). set (s1 := set_tmem s _) in *. fold name in C1.
  rewrite !app_assoc, scr_puts_app in Hs. destruct (scr_puts (screen_of s 0) _) as [sc1|] eqn:Ep; [|discriminate].
  cbn [mbind option_bind] in Hs. rewrite <- !app_assoc in Ep.
  assert (A1 : Forall (arg_ok base sp conv (tmem s1)) [Str file_name name]).
  { constructor; [|constructor]. split; [exact Hword|]. split; [exact C1|]. intros x Hx. apply Hframe. right. left. lia. }
  destruct (test_message s1 f [Str file_name name] _ sc1 T1 Hf A1 ltac:(simpl; lia) (listing_message name))
    as (s2 & E2 & C2 & U2 & T2 & Q2); [by rewrite E1|]. cbn [fmap list_fmap arg_word] in E2. rewrite E2. cbn [mbind option_bind].
  destruct (pad_loop_spec 51 s2 name 0 sc T2) as (s3 & E3 & C3 & U3 & T3 & Q3).
  - apply (cstr_ext (tmem s1)); [|exact C1]. intros x Hx. apply Q2, Hframe. right. left. lia.
  - exact Hl.
  - lia.
  - lia.
  - rewrite C2. by replace (Z.to_nat (50 - zlen name - 0)) with (50 - length name)%nat by lia.
  - exists s3. split; [exact E3|]. split; [exact C3|].
    split; [exact (beside_trans _ _ _ _ B1 (beside_trans _ _ _ _ U2 U3))|]. split; [exact T3|].
    apply (entry_loaded_kept (tmem s1)); [|exact El1]. intros x Hx. rewrite Q3, Q2; [done|apply Hframe; by left..].
Qed.

Lemma print_size s i sc :
  testing s -> entry_loaded (tmem s) i -> text_ok (" type %u - size %d" +++ nl) ->
  scr_puts (screen_of s 0) (size_part m0 i) = Some sc ->
  exists s', kprintf lit sp conv s (" type %u - size %d" +++ nl)
               [dentry_file_type (tmem s) dentry; u32 (get_file_size (tmem s) fs (dentry_inode_num (tmem s) dentry))] = Some s' /\
    screen_of s' 0 = sc /\ beside tn s s' /\ testing s'.
Proof.
  intros T [_ Et Ei] Hf Hs. rewrite Et, Ei, (file_size_same s) by (done || apply load32_range).
  set (ty := dentry_file_type m0 _) in *. set (size := get_file_size m0 fs _) in *.
  assert (A : Forall (arg_ok base sp conv (tmem s)) [Num ty; Num (u32 size)]).
  { constructor; [split; [apply load32_range|done]|]. constructor; [|constructor]. split; [apply u32_range|done]. }
  destruct (test_message s _ [Num ty; Num (u32 size)] _ sc T Hf A ltac:(simpl; lia) (number_messages ty (u32 size)))
    as (s' & E & C & U & T' & _).
  - unfold size in *. rewrite file_size_word. exact Hs.
  - exists s'. by split_and!.
Qed.

Lemma list_loop_spec fuel s i sc :
  testing s -> text_ok (" name " +++ quote +++ "%s" +++ quote) -> text_ok (" type %u - size %d" +++ nl) ->
  0 <= i <= num_directory_entries m0 fs -> num_directory_entries m0 fs - i < Z.of_nat fuel ->
  scr_puts (screen_of s 0) (concat (entry_line m0 <$> seqZ i (num_directory_entries m0 fs - i))) = Some sc ->
  exists s', list_loop lit sp conv dentry file_name fuel s fs i = Some s' /\ screen_of s' 0 = sc /\ beside tn s s' /\ testing s'.
Proof.
  intros T Hf1 Hf2. revert s i T. induction fuel as [|f IH]; intros s i T Hi Hf Hs; [lia|]. cbn [list_loop].
  unfold read_dentry_by_index.
  destruct (image_counts m0 fs Hfs (tmem s) (testing_image s T)) as (-> & _ & _). rewrite Z.geb_leb.
  destruct (Z.leb_spec (num_directory_entries m0 fs) i) as [Hge|Hlt].
  - change (-1 >=? 0) with false. cbv iota. replace (num_directory_entries m0 fs - i) with 0 in Hs by lia.
    injection Hs as <-. destruct (testing_store s (tmem s) T) as (T' & E' & _ & B'); [done|].
    exists (set_tmem s (tmem s)). by split_and!.
  - change (0 >=? 0) with true. cbv iota.
    rewrite seqZ_cons in Hs by lia. cbn [fmap list_fmap concat] in Hs. unfold entry_line at 1 in Hs.
    rewrite <- app_assoc, scr_puts_app in Hs.
    destruct (scr_puts (screen_of s 0) (name_part m0 i)) as [sc1|] eqn:Ep1; [|discriminate]. cbn [mbind option_bind] in Hs.
    rewrite scr_puts_app in Hs. destruct (scr_puts sc1 (size_part m0 i)) as [sc2|] eqn:Ep2; [|discriminate].
    cbn [mbind option_bind] in Hs.
    destruct (load_entry s i T ltac:(lia)) as (T1 & E1 & _ & B1 & L1). set (s1 := set_tmem s _) in *.
    destruct (print_name s1 i sc1 T1 L1 Hf1) as (s2 & E2 & C2 & U2 & T2 & L2); [by rewrite E1|].
    destruct (kprintf lit sp conv (set_tmem s1 _) _ _) as [s1'|]; [|discriminate E2]. cbn [mbind option_bind] in E2 |- *.
    rewrite E2. cbn [mbind option_bind].
    destruct (print_size s2 i sc2 T2 L2 Hf2) as (s3 & E3 & C3 & U3 & T3); [by rewrite C2|]. rewrite E3. cbn [mbind option_bind].
    destruct (IH s3 (i + 1) T3) as (s4 & E4 & C4 & U4 & T4); [lia|lia| |].
    + rewrite C3. by replace (num_directory_entries m0 fs - (i + 1)) with (Z.pred (num_directory_entries m0 fs - i)) by lia.
    + exists s4. split; [exact E4|]. split; [exact C4|]. split; [|exact T4].
      exact (beside_trans _ _ _ _ B1 (beside_trans _ _ _ _ U2 (beside_trans _ _ _ _ U3 U4))).
Qed.

(** Clearing the screen. *)
Lemma testing_clear s :
  video_memory (terms s 0) = base -> video_memory (terms s tn) = tbase -> m0 = tmem s ->
  (tn <> 0 -> screen_ok (screen_of s tn)) ->
  testing (clear_terminal s 0) /\ screen_of (clear_terminal s 0) 0 = scr_clear /\ beside tn s (clear_terminal s 0).
Proof.
  intros V TV E Ht. destruct (clear_terminal_spec s 0) as [O C]. pose proof O as [M T _ _ V' _ _ _ _ _]. rewrite V in M, V'.
  assert (Q : forall x, quiet base sp conv x -> load8 (tmem (clear_terminal s 0)) x = load8 (tmem s) x)
    by (intros x [[Hx _] _]; apply M; lia).
  assert (B : tn <> 0 -> screen_of (clear_terminal s 0) tn = screen_of s tn).
  { intros Hn. apply screen_of_kept; [by apply T|]. rewrite TV. intros x Hx. apply Q. by apply Hother. }
  split; [|split; [exact C|split; [apply (undisturbed_screen tn 0); [by left|exact O]|exact B]]].
  split; [exact V'| | |rewrite C; apply scr_clear_ok|].
  - destruct (Z.eq_dec tn 0) as [->|Hn]; [rewrite V'; symmetry; by apply Hsame|by rewrite T].
  - intros x Hx. rewrite E. apply Q, Hx.
  - destruct (Z.eq_dec tn 0) as [->|Hn]; [rewrite C; apply scr_clear_ok|]. rewrite B by done. by apply Ht.
Qed.

(** * Printing a file *)

Section printing_file.
Context (esp inode : Z) (Hnbuf : nbuf = 4096).
Hypotheses (Hpcb : forall x, get_current_pcb esp <= x < get_current_pcb esp + 438 -> settled x)
           (Hterm : pcb_get m0 (get_current_pcb esp) terminal_num = tn) (Hinode : inode_ok m0 fs inode).

Lemma off_term a n :
  0 < n -> (forall x, a <= x < a + n -> x < tbase \/ tbase + 4000 <= x) -> a + n <= tbase \/ tbase + 4000 <= a.
Proof.
  intros Hn H. destruct (Z_le_dec (a + n) tbase) as [|H1]; [by left|].
  destruct (Z_le_dec (tbase + 4000) a) as [|H2]; [by right|]. exfalso.
  destruct (H (Z.max a tbase)); lia.
Qed.

(** One block, on the terminal of the process. *)
Lemma print_block s n sc :
  testing s -> 0 <= n <= 4096 -> scr_puts (screen_of s tn) (load_bytes (tmem s) buf (Z.to_nat n)) = Some sc ->
  let s' := (terminal_write s esp 0 buf n).1 in
  screen_of s' tn = sc /\ (tn <> 0 -> screen_of s' 0 = screen_of s 0) /\ undisturbed tn s s' /\ testing s' /\
  forall x, x < tbase \/ tbase + 4000 <= x -> load8 (tmem s') x = load8 (tmem s) x.
Proof.
  intros T Hn Hs s'. unfold s', terminal_write. cbn [fst].
  destruct (terminal_write_loop_spec (Z.to_nat n) s (get_current_pcb esp) buf tn sc) as [O C].
  - rewrite <- Hterm. apply load_le_ext. intros x Hx. simpl in Hx. apply T, Hpcb. lia.
  - rewrite (ts_term_video s T). apply off_term; [lia|]. intros x Hx. by apply Hpcb.
  - rewrite (ts_term_video s T). destruct (off_term buf nbuf) as [|]; [lia| |left; lia|by right].
    intros x Hx. apply frame_off_term. right. by right.
  - apply T.
  - exact Hs.
  - pose proof O as [M TT _ _ V _ _ _ _ _]. rewrite (ts_term_video s T) in M, V.
    set (s1 := terminal_write_loop _ _ _ _) in *.
    assert (U : undisturbed tn s s1) by (apply (undisturbed_screen tn tn); [by right|exact O]).
    assert (Q : forall x, x < tbase \/ tbase + 4000 <= x -> load8 (tmem s1) x = load8 (tmem s) x)
      by (intros x Hx; apply M; lia).
    assert (K : screen_ok sc) by (eapply scr_puts_ok; [exact (ts_term_screen s T)|exact Hs]).
    assert (B : tn <> 0 -> screen_of s1 0 = screen_of s 0).
    { intros Ht. apply screen_of_kept; [apply TT; lia|]. rewrite (ts_video s T). intros x Hx. apply Q.
      destruct (Z_lt_dec x tbase) as [|H1]; [by left|]. destruct (Z_le_dec (tbase + 4000) x) as [|H2]; [by right|].
      destruct (Hother Ht x) as [[[Hb _] _] _]; lia. }
    split; [exact C|]. split; [exact B|]. split; [exact U|]. split; [|exact Q]. split.
    + rewrite (ud_video _ _ _ U). apply T.
    + exact V.
    + intros x Hx. rewrite Q by apply Hx. by apply T.
    + destruct (Z.eq_dec tn 0) as [E0|Ht]; [|rewrite B by done; apply T].
      rewrite (eq_trans (f_equal (screen_of s1) (eq_sym E0)) C). exact K.
    + by rewrite C.
Qed.

Lemma print_loop_spec fuel s num_read sc :
  testing s -> 0 <= num_read <= file_length m0 fs inode ->
  (file_length m0 fs inode - num_read + 4095) / 4096 < Z.of_nat fuel ->
  scr_puts (screen_of s tn) (drop (Z.to_nat num_read) (file_bytes m0 fs inode)) = Some sc ->
  exists s', print_loop esp buf fuel s fs inode num_read = Some (s', 0) /\ screen_of s' tn = sc /\
    (tn <> 0 -> screen_of s' 0 = screen_of s 0) /\ undisturbed tn s s' /\ testing s' /\
    forall x, x < tbase \/ tbase + 4000 <= x -> x < buf \/ buf + nbuf <= x -> load8 (tmem s') x = load8 (tmem s) x.
Proof.
  revert s num_read. induction fuel as [|f IH]; intros s off T Hoff Hf Hs; [divlia|]. cbn [print_loop].
  pose proof (testing_image s T) as Si. pose proof (same_image_fs_ok m0 fs Hfs (tmem s) Si) as Hfs'.
  pose proof (same_image_inode_ok m0 fs Hfs (tmem s) Si inode Hinode) as Hi'.
  pose proof (image_file_length m0 fs Hfs (tmem s) Si inode (ok_inode _ _ _ Hinode)) as El.
  pose proof (ok_length _ _ _ Hinode) as Hlen. set (len := file_length m0 fs inode) in *.
  assert (En : read_count (tmem s) fs inode off 4096 = Z.min 4096 (len - off)) by (unfold read_count; rewrite El; lia).
  assert (Ho : off_image (tmem s) fs buf (Z.min 4096 (len - off))).
  { pose proof (frame_off_image buf nbuf ltac:(lia)) as P. unfold off_image in *.
    rewrite (image_end_same m0 fs Hfs (tmem s) Si). destruct P; [intros x Hx; right; by right|lia|lia]. }
  unfold BUFFER_4K. rewrite read_data_spec by (done || lia || by rewrite En). rewrite En.
  set (n := Z.min 4096 (len - off)) in *.
  rewrite (image_file_slice m0 fs Hfs (tmem s) Si inode off n Hinode). set (got := file_slice m0 fs inode off n) in *.
  assert (Lg : zlen got = n) by (apply length_file_slice; [lia|lia|fold len; lia]).
  pose proof (read_split n off (file_bytes m0 fs inode)) as Es. cbv zeta in Es. fold (file_slice m0 fs inode off n) got in Es.
  rewrite Es, Lg, scr_puts_app in Hs by (rewrite length_file_bytes; fold len; lia).
  destruct (scr_puts (screen_of s tn) got) as [sc1|] eqn:E1; [|discriminate]. cbn [mbind option_bind] in Hs.
  set (m := store_bytes (tmem s) buf got).
  assert (Om : forall x, x < buf \/ buf + nbuf <= x -> load8 m x = load8 (tmem s) x).
  { intros x Hx. unfold m. apply load8_store_bytes_out. lia. }
  destruct (testing_store s m T) as (T1 & C0 & C1 & _); [intros x Hx; apply Om; unfold frame_byte in Hx; lia|].
  assert (Bg : load_bytes m buf (Z.to_nat n) = got).
  { replace (Z.to_nat n) with (length got) by lia. apply load_store_bytes. unfold got, file_slice.
    apply Forall_take, Forall_drop. unfold file_bytes. apply Forall_fmap, Forall_true. intros k. apply load8_range. }
  destruct (print_block (set_tmem s m) n sc1 T1 ltac:(lia)) as (C2 & D2 & U2 & T2 & Q2); [cbn [tmem set_tmem]; by rewrite Bg, C1|].
  destruct (terminal_write (set_tmem s m) esp 0 buf n) as [s2 r2] eqn:Ew. cbn [fst] in C2, D2, U2, T2, Q2. rewrite C0 in D2.
  assert (U : undisturbed tn s s2) by (eapply undisturbed_trans; [apply undisturbed_mem|exact U2]).
  assert (Q : forall x, x < tbase \/ tbase + 4000 <= x -> x < buf \/ buf + nbuf <= x -> load8 (tmem s2) x = load8 (tmem s) x).
  { intros x Hx Ho'. rewrite Q2 by done. by apply Om. }
  rewrite Z.gtb_ltb. destruct (Z.ltb_spec 0 n) as [Hpos|Hz].
  - destruct (IH s2 (off + n) T2) as (s3 & E3 & C3 & D3 & U3 & T3 & Q3); [lia|unfold n in *; divlia|by rewrite C2|].
    exists s3. split; [exact E3|]. split; [exact C3|]. split; [intros Ht; by rewrite D3, D2|].
    split; [by eapply undisturbed_trans|]. split; [exact T3|]. intros x Hx Hx'. by rewrite Q3, Q.
  - exists s2. split; [f_equal; f_equal; unfold n in *; lia|]. split; [|by split].
    rewrite drop_ge in Hs by (rewrite length_file_bytes; fold len; unfold n in *; lia). injection Hs as <-. exact C2.
Qed.

(** With the fuel of the tests, from the start. *)
Lemma print_file s sc :
  testing s -> scr_puts (screen_of s tn) (file_bytes m0 fs inode) = Some sc ->
  exists s', print_loop esp buf (print_fuel (tmem s) fs inode) s fs inode 0 = Some (s', 0) /\ screen_of s' tn = sc /\
    (tn <> 0 -> screen_of s' 0 = screen_of s 0) /\ undisturbed tn s s' /\ testing s' /\
    forall x, x < tbase \/ tbase + 4000 <= x -> x < buf \/ buf + nbuf <= x -> load8 (tmem s') x = load8 (tmem s) x.
Proof.
  intros T Hs. pose proof (load32_range m0 (inode_block fs inode)) as R. fold (file_length m0 fs inode) in R.
  apply print_loop_spec; [exact T|lia| |exact Hs]. unfold print_fuel.
  rewrite (image_file_length m0 fs Hfs (tmem s) (testing_image s T) inode (ok_inode _ _ _ Hinode)).
  rewrite Nat2Z.inj_add, Z2Nat.id by divlia. divlia.
Qed.
End printing_file.

(** The name and the size behind a file. *)
Definition entry_footer (m : mem) (i : Z) : list Z :=
  bytes_of (nl +++ dashes +++ "file name: " +++ quote) ++ dir_name m fs i ++ bytes_of (quote +++ nl +++ "file size: ") ++
  decimal (get_file_size m fs (dentry_inode_num m (directory_entry fs i))) ++ bytes_of nl.

Definition footer_format : string :=
  nl +++ dashes +++ "file name: " +++ quote +++ "%s" +++ quote +++ nl +++ "file size: %d" +++ nl.

Lemma footer_message name size :
  message None (bytes_of footer_format) [Str file_name name; Num size] =
  Some (bytes_of (nl +++ dashes +++ "file name: " +++ quote) ++ name ++ bytes_of (quote +++ nl +++ "file size: ") ++
        decimal (s32 size) ++ bytes_of nl).
Proof. reflexivity. Qed.

Lemma print_entry_spec s i sc :
  testing s -> entry_loaded (tmem s) i -> text_ok footer_format ->
  scr_puts (screen_of s 0) (entry_footer m0 i) = Some sc ->
  exists s', print_entry lit sp conv dentry file_name s fs = Some s' /\ screen_of s' 0 = sc /\ beside tn s s' /\ testing s'.
Proof.
  intros T El Hf Hs. destruct (load_name s i T El) as (T1 & E1 & B1 & [_ _ Ei] & C1). unfold print_entry.
  set (s1 := set_tmem s _) in *. change (copy_name dentry file_name (tmem s)) with (tmem s1) in Ei, C1.
  rewrite Ei, (file_size_same s1) by (done || apply load32_range).
  set (size := get_file_size m0 fs _). set (name := dir_name m0 fs i) in *.
  destruct (dir_name_bounds m0 i) as [Hl _]. fold name in Hl.
  assert (A : Forall (arg_ok base sp conv (tmem s1)) [Str file_name name; Num (u32 size)]).
  { constructor; [|constructor; [split; [apply u32_range|done]|constructor]].
    split; [exact Hword|]. split; [exact C1|]. intros x Hx. apply Hframe. right. left. lia. }
  destruct (test_message s1 footer_format _ _ sc T1 Hf A ltac:(simpl; lia) (footer_message name (u32 size)))
    as (s2 & E2 & C2 & U2 & T2 & _).
  - unfold size. rewrite file_size_word, E1. exact Hs.
  - exists s2. split; [exact E2|]. split; [exact C2|]. split; [|exact T2].
    exact (beside_trans _ _ _ _ B1 U2).
Qed.

(** * The tests *)

(** What terminal 0 and terminal [tn] show when a file is printed on the latter
    and a text on the former; they are the same terminal when [tn] is 0. *)
Definition puts_both (sc0 sct : screen) (file text : list Z) : option (screen * screen) :=
  if tn =? 0 then sc ← scr_puts sc0 (file ++ text); Some (sc, sc)
  else sct ← scr_puts sct file; sc0 ← scr_puts sc0 text; Some (sc0, sct).

Lemma puts_both_other sc0 sct sct' file text :
  (tn <> 0 -> sct' = sct) -> puts_both sc0 sct' file text = puts_both sc0 sct file text.
Proof. intros H. unfold puts_both. destruct (Z.eqb_spec tn 0); [done|by rewrite H]. Qed.

Definition both_show (s : tty) (scs : screen * screen) : Prop := screen_of s 0 = scs.1 /\ screen_of s tn = scs.2.

Lemma puts_both_app sc0 sct file t1 t2 scs :
  puts_both sc0 sct file (t1 ++ t2) = Some scs ->
  exists scs1, puts_both sc0 sct file t1 = Some scs1 /\ puts_both scs1.1 scs1.2 [] t2 = Some scs.
Proof.
  unfold puts_both. destruct (tn =? 0).
  - rewrite app_assoc, scr_puts_app. destruct (scr_puts sc0 (file ++ t1)) as [sc1|]; [|done].
    cbn [mbind option_bind]. intros H. by exists (sc1, sc1).
  - destruct (scr_puts sct file) as [sc1|]; [|done]. cbn [mbind option_bind]. rewrite scr_puts_app.
    destruct (scr_puts sc0 t1) as [sc2|]; [|done]. cbn [mbind option_bind]. intros H. by exists (sc2, sc1).
Qed.

(** A text on terminal 0. *)
Lemma both_show_text s scs1 text scs :
  both_show s scs1 -> puts_both scs1.1 scs1.2 [] text = Some scs ->
  scr_puts (screen_of s 0) text = Some scs.1 /\
  forall s', screen_of s' 0 = scs.1 -> beside tn s s' -> both_show s' scs.
Proof.
  intros [E0 Et]. unfold puts_both, both_show. rewrite <- E0, <- Et.
  destruct (Z.eqb_spec tn 0) as [Hz|Hn]; cbn [app scr_puts mbind option_bind];
    (destruct (scr_puts (screen_of s 0) text) as [sc|]; [|done]); intros [= <-]; cbn [fst snd mbind option_bind];
    (split; [done|]); intros s' E [_ B]; (split; [exact E|]); [|by apply B].
  by rewrite (f_equal (screen_of s') Hz).
Qed.

Section by_name.
Context (esp : Z) (Hnbuf : nbuf = 4096).
Hypotheses (Hpcb : forall x, get_current_pcb esp <= x < get_current_pcb esp + 438 -> settled x)
           (Hterm : pcb_get m0 (get_current_pcb esp) terminal_num = tn).

(** An entry, its file and its name. *)
Lemma show_file s i scs :
  let inode := dentry_inode_num m0 (directory_entry fs i) in
  testing s -> entry_loaded (tmem s) i -> inode_ok m0 fs inode -> text_ok footer_format ->
  puts_both (screen_of s 0) (screen_of s tn) (file_bytes m0 fs inode) (entry_footer m0 i) = Some scs ->
  exists s1 s2, print_loop esp buf (print_fuel (tmem s) fs inode) s fs inode 0 = Some (s1, 0) /\
    print_entry lit sp conv dentry file_name s1 fs = Some s2 /\ both_show s2 scs /\ undisturbed tn s s2 /\ testing s2.
Proof.
  intros inode T El Hi Hf Hs. unfold puts_both in Hs.
  assert (P : exists sc1 sc2, scr_puts (screen_of s tn) (file_bytes m0 fs inode) = Some sc1 /\
    scr_puts (if tn =? 0 then sc1 else screen_of s 0) (entry_footer m0 i) = Some sc2 /\
    scs = (sc2, if tn =? 0 then sc2 else sc1)).
  { destruct (Z.eqb_spec tn 0) as [E0|Ht].
    - rewrite (f_equal (screen_of s) E0). rewrite scr_puts_app in Hs.
      destruct (scr_puts (screen_of s 0) (file_bytes m0 fs inode)) as [sc1|]; [|discriminate]. cbn [mbind option_bind] in Hs.
      destruct (scr_puts sc1 _) as [sc2|] eqn:E2; [|discriminate]. injection Hs as <-. by exists sc1, sc2.
    - destruct (scr_puts (screen_of s tn) _) as [sc1|]; [|discriminate]. cbn [mbind option_bind] in Hs.
      destruct (scr_puts (screen_of s 0) _) as [sc2|] eqn:E2; [|discriminate]. injection Hs as <-. by exists sc1, sc2. }
  destruct P as (sc1 & sc2 & F1 & F2 & ->).
  destruct (print_file esp inode Hnbuf Hpcb Hterm Hi s sc1 T F1) as (s1 & P1 & C1 & D1 & U1 & T1 & Q1).
  assert (C0 : screen_of s1 0 = if tn =? 0 then sc1 else screen_of s 0).
  { destruct (Z.eqb_spec tn 0) as [E0|Ht]; [exact (eq_trans (f_equal (screen_of s1) (eq_sym E0)) C1)|by apply D1]. }
  destruct (print_entry_spec s1 i sc2 T1) as (s2 & P2 & C2 & [U2 B2] & T2); [|exact Hf|by rewrite C0|].
  - apply (entry_loaded_kept (tmem s)); [|exact El]. intros x Hx. apply Q1; [apply frame_off_term; by left|lia].
  - exists s1, s2. split; [exact P1|]. split; [exact P2|]. split; [|split; [by eapply undisturbed_trans|exact T2]].
    split; [exact C2|]. cbn [snd]. destruct (Z.eqb_spec tn 0) as [E0|Ht]; [by rewrite (f_equal (screen_of s2) E0)|].
    rewrite B2 by done. exact C1.
Qed.

Lemma read_files_by_name_spec s i scs :
  let inode := dentry_inode_num m0 (directory_entry fs i) in
  video_memory (terms s 0) = base -> video_memory (terms s tn) = tbase -> m0 = tmem s ->
  (tn <> 0 -> screen_ok (screen_of s tn)) -> dir_lookup m0 fs (bytes_of "frame0.txt") = Some i ->
  inode_ok m0 fs inode -> text_ok "frame0.txt" -> text_ok footer_format ->
  puts_both scr_clear (screen_of s tn) (file_bytes m0 fs inode) (entry_footer m0 i) = Some scs ->
  exists s', read_files_by_name lit sp conv esp dentry file_name buf s fs = Some s' /\
    both_show s' scs /\ undisturbed tn s s' /\ testing s'.
Proof.
  intros inode V TV E Ht Hd Hi [Hc Hq] Hf Hs. unfold read_files_by_name.
  destruct (testing_clear s V TV E Ht) as (T0 & C0 & [U0 B0]). set (s0 := clear_terminal s 0) in *. rewrite read_dentry_by_name_spec.
  assert (Ec : chars (tmem s0) (lit "frame0.txt"%string) MAX_FILE_NAME_LENGTH = bytes_of "frame0.txt").
  { rewrite (cstr_chars_take _ _ (bytes_of "frame0.txt")); [reflexivity| |unfold MAX_FILE_NAME_LENGTH; lia].
    apply (cstr_ext m0); [|exact Hc]. intros x Hx. by apply T0, Hq. }
  rewrite Ec, (image_dir_lookup m0 (tmem s0) fs _ Hfs (testing_image s0 T0)), Hd. cbv iota beta zeta.
  destruct (load_entry s0 i T0) as (T1 & C1 & D1 & [U1 _] & L1); [exact (proj1 (dir_lookup_bounds _ _ _ _ Hd))|]. set (s1 := set_tmem s0 _) in *.
  change (copy_dentry (tmem s0) dentry (directory_entry fs i)) with (tmem s1) in L1 |- *. change (0 >=? 0) with true. cbv iota.
  rewrite (el_inode _ _ L1). fold inode.
  destruct (show_file s1 i scs T1 L1 Hi Hf) as (s2 & s3 & P2 & P3 & C3 & U3 & T3).
  { rewrite C1, C0, D1. by rewrite (puts_both_other _ (screen_of s tn)). }
  fold inode in P2. rewrite P2. cbn [mbind option_bind]. exists s3. split; [exact P3|]. split; [exact C3|]. split; [|exact T3].
  exact (undisturbed_trans _ _ _ _ U0 (undisturbed_trans _ _ _ _ U1 U3)).
Qed.

(** The entry that is shown for an index: the first one behind the last. *)
Definition shown_index (index : Z) : Z := if index <? num_directory_entries m0 fs then index else 0.

Lemma index_loop_spec fuel s index scs :
  let i := shown_index index in
  let inode := dentry_inode_num m0 (directory_entry fs i) in
  (2 <= fuel)%nat -> testing s -> 0 <= index -> 0 < num_directory_entries m0 fs -> inode_ok m0 fs inode -> text_ok footer_format ->
  puts_both (screen_of s 0) (screen_of s tn) (file_bytes m0 fs inode) (entry_footer m0 i) = Some scs ->
  exists s1 s2, index_loop esp dentry buf fuel s fs index = Some (s1, i) /\
    print_entry lit sp conv dentry file_name s1 fs = Some s2 /\ both_show s2 scs /\ undisturbed tn s s2 /\ testing s2.
Proof.
  intros i inode Hfuel T H0 Hn Hi Hf Hs.
  assert (once : forall f s, (1 <= f)%nat -> testing s -> 0 <= i < num_directory_entries m0 fs ->
    puts_both (screen_of s 0) (screen_of s tn) (file_bytes m0 fs inode) (entry_footer m0 i) = Some scs ->
    exists s1 s2, index_loop esp dentry buf f s fs i = Some (s1, i) /\
      print_entry lit sp conv dentry file_name s1 fs = Some s2 /\ both_show s2 scs /\ undisturbed tn s s2 /\ testing s2).
  { clear s T Hs. intros f s Hf1 T Hr Hs. destruct f as [|f]; [lia|]. cbn [index_loop]. unfold read_dentry_by_index.
    destruct (image_counts m0 fs Hfs (tmem s) (testing_image s T)) as (-> & _ & _). rewrite Z.geb_leb.
    destruct (Z.leb_spec (num_directory_entries m0 fs) i); [lia|]. change (0 >=? 0) with true. cbv iota.
    destruct (load_entry s i T Hr) as (T1 & C1 & D1 & [U1 _] & L1). set (s1 := set_tmem s _) in *.
    change (copy_dentry (tmem s) dentry (directory_entry fs i)) with (tmem s1) in L1 |- *. rewrite (el_inode _ _ L1). fold inode.
    destruct (show_file s1 i scs T1 L1 Hi Hf) as (s2 & s3 & P2 & P3 & C3 & U3 & T3); [by rewrite C1, D1|].
    fold inode in P2. cbv zeta. rewrite P2. cbn [mbind option_bind]. change (0 =? -1) with false. cbv iota.
    exists s2, s3. split; [done|]. split; [exact P3|]. split; [exact C3|]. split; [|exact T3].
    exact (undisturbed_trans _ _ _ _ U1 U3). }
  unfold shown_index in i. destruct (Z.ltb_spec index (num_directory_entries m0 fs)) as [Hlt|Hge].
  - apply once; [lia|exact T|unfold i; lia|exact Hs].
  - destruct fuel as [|f]; [lia|]. cbn [index_loop]. unfold read_dentry_by_index at 1.
    destruct (image_counts m0 fs Hfs (tmem s) (testing_image s T)) as (-> & _ & _). rewrite Z.geb_leb.
    destruct (Z.leb_spec (num_directory_entries m0 fs) index); [|lia]. change (-1 >=? 0) with false. cbv iota zeta.
    cbn [mbind option_bind]. change (-1 =? -1) with true. cbv iota. destruct (testing_store s (tmem s) T) as (T' & C' & D' & [U' _]); [done|].
    destruct (once f (set_tmem s (tmem s))) as (s1 & s2 & P1 & P2 & C2 & U2 & T2); [lia|exact T'|unfold i; lia|by rewrite C', D'|].
    exists s1, s2. split; [exact P1|]. split; [exact P2|]. split; [exact C2|]. split; [|exact T2].
    exact (undisturbed_trans _ _ _ _ U' U2).
Qed.
End by_name.
End specs.

(** * Properties *)

Definition name_format : string := " name " +++ quote +++ "%s" +++ quote.
Definition size_format : string := " type %u - size %d" +++ nl.
Definition index_format : string := "file index: %u" +++ nl.

(** The memory of a test: its stack, the screens of terminal 0, at [base], and of
    the terminal [tn] of the interrupted process, at [tbase], the literals, the
    image and the PCB of that process do not meet, except that [tn] may be
    terminal 0. *)
Record test_frame (lit : string -> Z) (tn base tbase sp conv esp dentry file_name buf : Z) (m : mem) (fs : fs_ptrs) : Prop := {
  tf_conv : conv + 64 <= base \/ base + 4000 <= conv;
  tf_sp : forall x, sp <= x < sp + 64 -> stable base conv x;
  tf_frame : forall x, frame_byte dentry file_name buf 4096 x -> quiet base sp conv x;
  tf_dentry_name : dentry + 64 <= file_name \/ file_name + 33 <= dentry;
  tf_dentry_buf : dentry + 64 <= buf \/ buf + 4096 <= dentry;
  tf_name_buf : file_name + 33 <= buf \/ buf + 4096 <= file_name;
  tf_word : 0 <= file_name < 0x100000000;
  tf_other : tn <> 0 -> forall x, tbase <= x < tbase + 4000 ->
               quiet base sp conv x /\ ~ frame_byte dentry file_name buf 4096 x;
  tf_fs : fs_ok m fs;
  tf_image : forall x, fs_boot_ptr fs <= x < image_end m fs -> settled base tbase sp conv dentry file_name buf 4096 x;
  tf_texts : Forall (text_ok lit base tbase sp conv dentry file_name buf 4096 m)
               [name_format; size_format; "frame0.txt"%string; footer_format; index_format];
  tf_pcb : forall x, get_current_pcb esp <= x < get_current_pcb esp + 438 ->
             settled base tbase sp conv dentry file_name buf 4096 x
}.

(** The test returned with [t']; terminal 0 and the process's terminal show
    [scs]; the other terminals, the input and the memory off those screens and
    the stack are unchanged. *)
Definition test_shows (tn base tbase sp conv dentry file_name buf : Z) (k : kernel) (r : option (tests * kernel))
    (t' : tests) (scs : screen * screen) : Prop :=
  exists s', r = Some (t', set_ktty k s') /\ both_show tn s' scs /\ undisturbed tn (ktty k) s' /\
    forall x, settled base tbase sp conv dentry file_name buf 4096 x -> load8 (tmem s') x = load8 (kmem k) x.

Section running.
Context (wrapper : Z) (lit : string -> Z) (sp conv esp dentry file_name buf temp_htz : Z).
Context (fuel : nat) (t : tests) (k : kernel) (reg_a reg_b : Z).

#[local] Abbreviation tn := (pcb_get (kmem k) (get_current_pcb esp) terminal_num).
#[local] Abbreviation base := (video_memory (terms (ktty k) 0)).
#[local] Abbreviation tbase := (video_memory (terms (ktty k) tn)).
#[local] Abbreviation shows := (test_shows tn base tbase sp conv dentry file_name buf k).
#[local] Abbreviation run := (test_suite wrapper lit sp conv esp dentry file_name buf temp_htz fuel t k reg_a reg_b).
#[local] Abbreviation m := (kmem k).
#[local] Abbreviation fs := (kfs k).

Hypothesis (F : test_frame lit tn base tbase sp conv esp dentry file_name buf m fs).
Hypothesis (Hok : tn <> 0 -> screen_ok (screen_of (ktty k) tn)).

Lemma same_base : tn = 0 -> tbase = base.
Proof. by intros ->. Qed.

(** The screen is cleared first. *)
Lemma test_cleared :
  testing tn base tbase sp conv dentry file_name buf 4096 m (clear_terminal (ktty k) 0) /\
  both_show tn (clear_terminal (ktty k) 0) (scr_clear, if tn =? 0 then scr_clear else screen_of (ktty k) tn) /\
  beside tn (ktty k) (clear_terminal (ktty k) 0).
Proof.
  destruct (testing_clear tn base tbase sp conv dentry file_name buf 4096 m same_base (tf_other _ _ _ _ _ _ _ _ _ _ _ _ F)
              (ktty k) eq_refl eq_refl eq_refl Hok) as (T0 & C0 & B0).
  split; [exact T0|]. split; [|exact B0]. split; [exact C0|]. cbn [snd].
  destruct (Z.eqb_spec tn 0) as [E|Hn]; [by rewrite (f_equal (screen_of _) E)|by apply B0].
Qed.

Lemma run_listing scs :
  puts_both tn scr_clear (screen_of (ktty k) tn) []
    (concat (entry_line fs m <$> seqZ 0 (num_directory_entries m fs))) = Some scs -> shows (run 1) t scs.
Proof.
  intros Hs. destruct test_cleared as (T0 & C0 & U0). destruct F as [F1 F2 F3 F4 F5 F6 F7 FT F8 F9 F10 F11].
  apply Forall_cons_1 in F10 as [X1 F10]. apply Forall_cons_1 in F10 as [X2 _].
  destruct (both_show_text tn _ _ (concat (entry_line fs m <$> seqZ 0 (num_directory_entries m fs))) scs C0) as [Hs' Hb].
  { cbn [fst snd]. rewrite <- Hs. apply puts_both_other. intros Hn. by rewrite (proj2 (Z.eqb_neq _ _) Hn). }
  destruct (list_loop_spec lit tn base tbase sp conv dentry file_name buf 4096 m fs) with
    (fuel := S (Z.to_nat (num_directory_entries m fs))) (s := clear_terminal (ktty k) 0) (i := 0) (sc := scs.1)
    as (s' & E & C & U & T); try done.
  - exact same_base.
  - pose proof (load32_range m (fs_boot_ptr fs)). unfold num_directory_entries. lia.
  - pose proof (load32_range m (fs_boot_ptr fs)). unfold num_directory_entries. lia.
  - by rewrite Z.sub_0_r.
  - exists s'. unfold test_suite, list_all_files. cbn [Z.eqb Pos.eqb]. change (tmem (ktty k)) with m. rewrite E.
    split; [done|]. split; [by apply Hb|]. split; [exact (proj1 (beside_trans _ _ _ _ U0 U))|]. apply T.
Qed.

Lemma run_named i scs :
  let inode := dentry_inode_num m (directory_entry fs i) in
  dir_lookup m fs (bytes_of "frame0.txt") = Some i -> inode_ok m fs inode ->
  puts_both tn scr_clear (screen_of (ktty k) tn) (file_bytes m fs inode) (entry_footer fs m i) = Some scs ->
  shows (run 2) t scs.
Proof.
  intros inode Hd Hi Hs. destruct F as [F1 F2 F3 F4 F5 F6 F7 FT F8 F9 F10 F11].
  do 2 apply Forall_cons_1 in F10 as [_ F10]. apply Forall_cons_1 in F10 as [X3 F10]. apply Forall_cons_1 in F10 as [X4 _].
  destruct (read_files_by_name_spec lit tn base tbase sp conv dentry file_name buf 4096 m fs) with
    (esp := esp) (s := ktty k) (i := i) (scs := scs) as (s' & E & C & U & T); try done; [exact same_base|].
  exists s'. unfold test_suite. cbn [Z.eqb Pos.eqb]. rewrite E.
  split; [done|]. split; [exact C|]. split; [exact U|]. apply T.
Qed.

Lemma run_indexed scs :
  let i := shown_index m fs (index_num t) in
  let inode := dentry_inode_num m (directory_entry fs i) in
  (2 <= fuel)%nat -> 0 <= index_num t -> 0 < num_directory_entries m fs -> inode_ok m fs inode ->
  puts_both tn scr_clear (screen_of (ktty k) tn) (file_bytes m fs inode)
    (entry_footer fs m i ++ bytes_of "file index: " ++ number 10 i ++ bytes_of nl) = Some scs ->
  shows (run 3) (Tests (htz t) (i + 1)) scs.
Proof.
  intros i inode Hfuel H0 Hn Hi Hs. destruct test_cleared as (T0 & C0 & [U0 _]).
  destruct F as [F1 F2 F3 F4 F5 F6 F7 FT F8 F9 F10 F11].
  do 3 apply Forall_cons_1 in F10 as [_ F10]. apply Forall_cons_1 in F10 as [X4 F10]. apply Forall_cons_1 in F10 as [X5 _].
  assert (Hr : 0 <= i < 63).
  { pose proof (ok_entries _ _ F8). unfold i, shown_index. destruct (Z.ltb_spec (index_num t) (num_directory_entries m fs)); lia. }
  destruct (puts_both_app _ _ _ _ _ _ _ Hs) as (scs1 & Hs1 & Hs2).
  destruct (index_loop_spec lit tn base tbase sp conv dentry file_name buf 4096 m fs) with
    (esp := esp) (fuel := fuel) (s := clear_terminal (ktty k) 0) (index := index_num t) (scs := scs1)
    as (s1 & s2 & P1 & P2 & C2 & U2 & T2); try done; [exact same_base| |].
  { destruct C0 as [-> ->]. cbn [fst snd]. rewrite <- Hs1. apply puts_both_other. intros Ht. by rewrite (proj2 (Z.eqb_neq _ _) Ht). }
  fold i in P1. destruct (both_show_text tn s2 scs1 _ scs C2 Hs2) as [Hp Hb].
  destruct (test_message lit tn base tbase sp conv dentry file_name buf 4096 m) with
    (s := s2) (f := index_format) (ps := [Num i]) (t := bytes_of "file index: " ++ number 10 i ++ bytes_of nl) (sc := scs.1)
    as (s3 & E3 & C3 & U3 & T3 & _); try done.
  - exact same_base.
  - constructor; [split; [simpl; lia|done]|constructor].
  - simpl. lia.
  - exists s3. unfold test_suite, read_file_by_index. cbn [Z.eqb Pos.eqb]. rewrite P1. cbn [mbind option_bind]. rewrite P2.
    cbn [mbind option_bind]. cbn [fmap list_fmap arg_word] in E3. fold index_format. rewrite E3. cbn [mbind option_bind].
    rewrite u16_id by lia. split; [done|]. split; [by apply Hb|]. split; [|apply T3].
    exact (undisturbed_trans _ _ _ _ U0 (undisturbed_trans _ _ _ _ U2 (proj1 U3))).
Qed.
End running.

(** C22: the file system tests, Ctrl+1 to Ctrl+3, on a readable image, whatever
    process the keyboard interrupted.  Each clears terminal 0 and ends.  The
    first lists the directory on terminal 0, a line per entry with the name in 50
    columns, the type and the size.  The second prints the file "frame0.txt" and
    then its name and size; the third the file at the current index, or at index
    0 behind the last entry, and then its name, size and index, and the index
    moves on by one.  The contents of a file go to the terminal of the
    interrupted process, everything else to terminal 0 ([puts_both]): with that
    process on terminal 0 both are one text, otherwise the contents are written
    onto what the other terminal shows.  Nothing but these screens and the stack
    of the test changes. *)
Theorem file_tests_correct (wrapper : Z) (lit : string -> Z) (sp conv esp dentry file_name buf temp_htz : Z)
    (fuel : nat) (t : tests) (k : kernel) (reg_a reg_b : Z) :
  let m := kmem k in
  let fs := kfs k in
  let tn := pcb_get m (get_current_pcb esp) terminal_num in
  let base := video_memory (terms (ktty k) 0) in
  let tbase := video_memory (terms (ktty k) tn) in
  let before := screen_of (ktty k) tn in
  let run := test_suite wrapper lit sp conv esp dentry file_name buf temp_htz fuel t k reg_a reg_b in
  let shows := test_shows tn base tbase sp conv dentry file_name buf k in
  test_frame lit tn base tbase sp conv esp dentry file_name buf m fs -> (tn <> 0 -> screen_ok before) ->
  (2 <= fuel)%nat -> 0 <= index_num t ->
  (forall scs, let listing := concat (entry_line fs m <$> seqZ 0 (num_directory_entries m fs)) in
     puts_both tn scr_clear before [] listing = Some scs -> shows (run 1) t scs) /\
  (forall i scs, let inode := dentry_inode_num m (directory_entry fs i) in
     dir_lookup m fs (bytes_of "frame0.txt") = Some i -> inode_ok m fs inode ->
     puts_both tn scr_clear before (file_bytes m fs inode) (entry_footer fs m i) = Some scs -> shows (run 2) t scs) /\
  (forall scs, let i := shown_index m fs (index_num t) in let inode := dentry_inode_num m (directory_entry fs i) in
     0 < num_directory_entries m fs -> inode_ok m fs inode ->
     puts_both tn scr_clear before (file_bytes m fs inode)
       (entry_footer fs m i ++ bytes_of "file index: " ++ number 10 i ++ bytes_of nl) = Some scs ->
     shows (run 3) (Tests (htz t) (i + 1)) scs).
Proof.
  intros m fs tn base tbase before run shows F Hok Hfuel Hi. split; [|split].
  - intros scs. by apply run_listing.
  - intros i scs inode. by apply run_named.
  - intros scs i inode Hn Hino. by apply run_indexed.
Qed.

(** Finding: when the interrupted process is not on terminal 0, test 2 does not
    show the file there.  Terminal 0 is cleared and gets the name and the size
    only; the contents are written over what the process's own terminal
    shows. *)
Theorem file_test_other_terminal (wrapper : Z) (lit : string -> Z) (sp conv esp dentry file_name buf temp_htz : Z)
    (fuel : nat) (t : tests) (k : kernel) (reg_a reg_b i : Z) (sc0 sct : screen) :
  let m := kmem k in
  let fs := kfs k in
  let tn := pcb_get m (get_current_pcb esp) terminal_num in
  let inode := dentry_inode_num m (directory_entry fs i) in
  test_frame lit tn (video_memory (terms (ktty k) 0)) (video_memory (terms (ktty k) tn)) sp conv esp dentry file_name buf m fs ->
  tn <> 0 -> screen_ok (screen_of (ktty k) tn) ->
  dir_lookup m fs (bytes_of "frame0.txt") = Some i -> inode_ok m fs inode ->
  scr_puts (screen_of (ktty k) tn) (file_bytes m fs inode) = Some sct ->
  scr_puts scr_clear (entry_footer fs m i) = Some sc0 ->
  exists s', test_suite wrapper lit sp conv esp dentry file_name buf temp_htz fuel t k reg_a reg_b 2
             = Some (t, set_ktty k s') /\ screen_of s' 0 = sc0 /\ screen_of s' tn = sct.
Proof.
  intros m fs tn inode F Hn Hok Hd Hi Ht H0.
  destruct (run_named wrapper lit sp conv esp dentry file_name buf temp_htz fuel t k reg_a reg_b F (fun _ => Hok)
              i (sc0, sct) Hd Hi) as (s' & E & [B0 Bt] & _).
  - unfold puts_both. fold m tn. rewrite (proj2 (Z.eqb_neq _ _) Hn). fold fs inode. rewrite Ht. cbn [mbind option_bind].
    by rewrite H0.
  - by exists s'.
Qed.

(** The clock test, Ctrl+4 and Ctrl+5.  Starting it doubles the rate, from 1024
    back to 2, gives the process a clock of that rate and has the handler print
    a character per tick; the first period is still that of 2 Hz.  Stopping it
    starts over at 1 and stops both. *)
Theorem clock_test_correct (wrapper : Z) (lit : string -> Z) (esp temp_htz : Z) (t : tests) (k : kernel)
    (reg_a reg_b j : Z) :
  let pcb := get_current_pcb esp in
  htz t = 2 ^ j -> 0 <= j <= 10 -> temp_htz + 4 <= pcb \/ pcb + sizeof_pcb_t <= temp_htz ->
  let '(t1, k1) := start_rtc_test wrapper lit esp temp_htz t k reg_a reg_b in
  let '(t2, k2) := stop_rtc_test esp t1 k1 in
  htz t1 = (if j =? 10 then 2 else 2 ^ (j + 1)) /\ rtc_test_enabled k1 = 1 /\
  pcb_get (kmem k1) pcb rtc_enabled = 1 /\ pcb_get (kmem k1) pcb rtc_interval * htz t1 = MAX_FREQ /\
  pcb_get (kmem k1) pcb remaining_rtc_ticks = MAX_FREQ / 2 /\
  htz t2 = 1 /\ rtc_test_enabled k2 = 0 /\ pcb_get (kmem k2) pcb rtc_enabled = 0 /\
  index_num t2 = index_num t.
Proof.
  intros pcb Hh Hj Ht. unfold start_rtc_test, rtc_open. cbv zeta.
  set (k0 := rtc_init _ _). rewrite Hh. set (h := if u16 (Z.shiftl (2 ^ j) 1) >? MAX_FREQ then MIN_FREQ else u16 (Z.shiftl (2 ^ j) 1)).
  assert (Eh : h = (if j =? 10 then 2 else 2 ^ (j + 1)) /\ 2 <= h <= 1024 /\ Z.land h (h - 1) = 0 /\ (MAX_FREQ / h) mod 256 ^ 4 * h = MAX_FREQ).
  { assert (j = 0 \/ j = 1 \/ j = 2 \/ j = 3 \/ j = 4 \/ j = 5 \/ j = 6 \/ j = 7 \/ j = 8 \/ j = 9 \/ j = 10) as Hc by lia.
    unfold h. clear -Hc. repeat (destruct Hc as [->|Hc]; [vm_compute; split_and!; congruence|]). subst j. vm_compute. split_and!; congruence. }
  clearbody h. destruct Eh as (Eh & Rh & Lh & Ih).
  set (m1 := pcb_set (pcb_set (pcb_set (kmem k0) (get_current_pcb esp) rtc_enabled 1) _ _ _) _ _ _).
  change (kmem (set_kmem k0 m1)) with m1. set (k1 := set_kmem (set_kmem k0 m1) (store32 m1 temp_htz h)).
  unfold rtc_write. change (kmem k1) with (store32 m1 temp_htz h). rewrite load32_store32_eq, u32_id by lia.
  destruct (Z.ltb_spec h MIN_FREQ); [unfold MIN_FREQ in *; lia|]. rewrite Z.gtb_ltb.
  destruct (Z.ltb_spec MAX_FREQ h); [unfold MAX_FREQ in *; lia|]. cbn [orb]. rewrite Lh. cbn [Z.eqb negb].
  fold pcb. set (m2 := pcb_set (store32 m1 temp_htz h) pcb rtc_interval (MAX_FREQ / h)).
  unfold stop_rtc_test, terminal_close, rtc_close. cbn [htz index_num rtc_test_enabled set_rtc_test_enabled set_rtc_test].
  assert (Ext : forall f, in_pcb f = true -> pcb_get (store32 m1 temp_htz h) pcb f = pcb_get m1 pcb f).
  { intros f Hf. apply pcb_get_ext; [exact Hf|]. intros x Hx. apply load8_store32_ne. unfold sizeof_pcb_t in Ht. lia. }
  split; [exact Eh|]. split; [done|].
  change (kmem (set_rtc_test_enabled (set_kmem k1 m2) 1)) with m2. unfold m2.
  split; [rewrite pcb_get_set_ne, Ext by done; unfold m1; fold pcb; rewrite !pcb_get_set_ne, pcb_get_set_eq by done; reflexivity|].
  split; [rewrite pcb_get_set_eq; exact Ih|].
  split; [rewrite pcb_get_set_ne, Ext by done; unfold m1; fold pcb; rewrite !pcb_get_set_eq by done; reflexivity|].
  split; [done|]. split; [done|]. split; [|done].
  change (kmem (set_rtc_test_enabled (set_kmem ?k ?m) 0)) with m. fold pcb. by rewrite pcb_get_set_eq.
Qed.

(** Finding: stopping the clock test does not erase the screen, as its comment
    says; every screen is kept. *)
Theorem stop_keeps_screens (esp : Z) (t : tests) (k : kernel) (n : Z) :
  let pcb := get_current_pcb esp in
  let base := video_memory (terms (ktty k) n) in
  pcb + sizeof_pcb_t <= base \/ base + 4000 <= pcb ->
  screen_of (ktty (stop_rtc_test esp t k).2) n = screen_of (ktty k) n.
Proof.
  intros pcb base Hb. unfold stop_rtc_test, terminal_close, rtc_close. cbv zeta. cbn [snd].
  set (q := get_process_terminal (ktty k) esp). unfold screen_of.
  change (terms (ktty (set_rtc_test_enabled (set_kmem (set_ktty k ?s) ?m) 0))) with (terms s).
  change (tmem (ktty (set_rtc_test_enabled (set_kmem (set_ktty k ?s) ?m) 0))) with m.
  assert (E : forall {A} (f : terminal -> A), (forall T b, f (set_input b T) = f T) ->
    f (terms (set_term (ktty k) q (fun T => set_input (circular_buffer_clear (input_buffer T)) T)) n) = f (terms (ktty k) n)).
  { intros A f Hf. cbn [terms set_term]. destruct (decide (n = q)) as [->|]; [rewrite fn_lookup_alter; apply Hf|by rewrite fn_lookup_alter_ne]. }
  rewrite !E by done. f_equal. apply screen_cells_ext. intros i Hi. apply load_le_ext. intros x Hx. simpl in Hx.
  apply (pcb_set_outside _ pcb rtc_enabled 0); [done|]. fold base in Hx. unfold sizeof_pcb_t in Hb. lia.
Qed.

(** * An example *)

Definition test_texts : list string := [name_format; size_format; "frame0.txt"%string; footer_format; index_format].
Definition test_lit (f : string) : Z := 0x420000 + 0x100 * literal_index f test_texts.

(** The image with one file, renamed "frame0.txt"; the process in slot 0, on
    terminal [n]. *)
Definition test_kernel (n : Z) : kernel :=
  let m := store_bytes (example_image 0x410000) 0x410040 (bytes_of "frame0.txt" ++ [0]) in
  let m := foldl (fun m f => store_bytes m (test_lit f) (bytes_of f ++ [0])) m test_texts in
  set_kmem (example_kernel example_tty) (pcb_set m 0x7FE000 terminal_num n).

Definition test_textb (n : Z) (f : string) : bool :=
  let m := kmem (test_kernel n) in
  let a := test_lit f in
  bool_decide (load_bytes m a (length (bytes_of f)) = bytes_of f) && bool_decide (Forall (fun b => b <> 0) (bytes_of f)) &&
  (load8 m (a + zlen (bytes_of f)) =? 0) && (0x420000 <=? a) && (a + zlen (bytes_of f) <? 0x430000).

#[local] Abbreviation example_run n :=
  (test_suite 0 test_lit 0x7FF980 0x7FF900 0x7FFF00 0x7FF800 0x7FF880 0x7FE400 0x7FF8C0 2 (Tests 1 5)
     (test_kernel n) 0 0).

(** Nothing of the example is on a screen. *)
Lemma test_kernel_frame n tbase :
  n = 0 \/ n = 1 -> video_memory (terms (ktty (test_kernel n)) n) = tbase ->
  test_frame test_lit n 0xB8000 tbase 0x7FF980 0x7FF900 0x7FFF00 0x7FF800 0x7FF880 0x7FE400
    (kmem (test_kernel n)) (kfs (test_kernel n)).
Proof.
  intros Hn Hv.
  assert (Hb : n = 0 /\ tbase = 0xB8000 \/ n = 1 /\ tbase = 0x403000)
    by (destruct Hn as [->| ->]; [left|right]; by split; [|rewrite <- Hv; vm_compute]).
  assert (E : image_end (kmem (test_kernel n)) (kfs (test_kernel n)) = 0x414000)
    by (destruct Hn as [->| ->]; vm_compute; reflexivity).
  assert (P : get_current_pcb 0x7FFF00 = 0x7FE000) by reflexivity.
  clear Hv. split; try (unfold settled, frame_byte, quiet, stable; intros; lia).
  - destruct Hn as [->| ->]; (split; [reflexivity|vm_compute; reflexivity|vm_compute; congruence]).
  - rewrite E. change (fs_boot_ptr (kfs (test_kernel n))) with 0x410000. unfold settled, frame_byte, quiet, stable. lia.
  - assert (B : forallb (test_textb n) test_texts = true) by (destruct Hn as [->| ->]; vm_compute; reflexivity).
    fold test_texts. apply Forall_forall. intros f Hf%list_elem_of_In. rewrite forallb_forall in B. specialize (B f Hf).
    unfold test_textb in B. cbv zeta in B. rewrite !andb_true_iff, !bool_decide_eq_true, Z.eqb_eq, Z.leb_le, Z.ltb_lt in B.
    destruct B as ((((B1 & B2) & B3) & B4) & B5).
    split; [exact (conj B1 (conj B2 B3))|]. unfold settled, frame_byte, quiet, stable. lia.
Qed.

Lemma test_kernel_inode n : n = 0 \/ n = 1 -> inode_ok (kmem (test_kernel n)) (kfs (test_kernel n)) 0.
Proof.
  intros Hn. split; [destruct Hn as [->| ->]; vm_compute; split; congruence|destruct Hn as [->| ->]; vm_compute; congruence|].
  intros q Hq. assert (q = 0) as ->; [|destruct Hn as [->| ->]; vm_compute; reflexivity].
  replace (file_length (kmem (test_kernel n)) (kfs (test_kernel n)) 0) with 10 in Hq
    by (destruct Hn as [->| ->]; vm_compute; reflexivity). lia.
Qed.

Lemma puts_both_total tn sc0 sct file text :
  Forall (fun c => c <> 8) (file ++ text) -> exists scs, puts_both tn sc0 sct file text = Some scs.
Proof.
  intros H. unfold puts_both. destruct (tn =? 0).
  - destruct (scr_puts_total sc0 (file ++ text) H) as [sc ->]. by eexists.
  - apply Forall_app in H as [H1 H2]. destruct (scr_puts_total sct file H1) as [sc1 ->].
    cbn [mbind option_bind]. destruct (scr_puts_total sc0 text H2) as [sc2 ->]. by eexists.
Qed.

(** Test 1 and 2 for a process on terminal 0, and test 3 for one on terminal
    1. *)
Lemma file_tests_correct_witness :
  (exists k, example_run 0 1 = Some (Tests 1 5, k)) /\ (exists k, example_run 0 2 = Some (Tests 1 5, k)) /\
  exists k, example_run 1 3 = Some (Tests 1 1, k).
Proof.
  assert (I0 : 0 = 0 \/ 0 = 1) by (left; reflexivity). assert (I1 : 1 = 0 \/ 1 = 1) by (right; reflexivity).
  assert (E0 : pcb_get (kmem (test_kernel 0)) (get_current_pcb 0x7FFF00) terminal_num = 0) by (vm_compute; reflexivity).
  assert (E1 : pcb_get (kmem (test_kernel 1)) (get_current_pcb 0x7FFF00) terminal_num = 1) by (vm_compute; reflexivity).
  pose proof (file_tests_correct 0 test_lit 0x7FF980 0x7FF900 0x7FFF00 0x7FF800 0x7FF880 0x7FE400 0x7FF8C0 2
                (Tests 1 5) (test_kernel 0) 0 0) as P. cbv zeta in P. rewrite E0 in P.
  destruct (P (test_kernel_frame 0 _ I0 eq_refl)) as (P1 & P2 & _);
    [intros H; destruct H; reflexivity|lia|simpl; lia|]. clear P.
  pose proof (file_tests_correct 0 test_lit 0x7FF980 0x7FF900 0x7FFF00 0x7FF800 0x7FF880 0x7FE400 0x7FF8C0 2
                (Tests 1 5) (test_kernel 1) 0 0) as P. cbv zeta in P. rewrite E1 in P.
  destruct (P (test_kernel_frame 1 _ I1 eq_refl)) as (_ & _ & P3);
    [intros _; split; [apply length_screen_cells|vm_compute; split; congruence|vm_compute; split; congruence]|lia|simpl; lia|]. clear P.
  assert (Ei : shown_index (kmem (test_kernel 1)) (kfs (test_kernel 1)) (index_num (Tests 1 5)) = 0) by (vm_compute; reflexivity).
  rewrite Ei in P3.
  assert (N0 : dentry_inode_num (kmem (test_kernel 0)) (directory_entry (kfs (test_kernel 0)) 0) = 0) by (vm_compute; reflexivity).
  assert (N1 : dentry_inode_num (kmem (test_kernel 1)) (directory_entry (kfs (test_kernel 1)) 0) = 0) by (vm_compute; reflexivity).
  specialize (P2 0). rewrite N0 in P2. rewrite N1 in P3. split; [|split].
  - edestruct puts_both_total as [scs Hs]; [|destruct (P1 scs Hs) as (s' & E & _); exists (set_ktty (test_kernel 0) s'); exact E].
    apply (bool_decide_unpack _). vm_compute. exact I.
  - edestruct puts_both_total as [scs Hs]; [|destruct (P2 scs) as (s' & E & _);
      [vm_compute; reflexivity|exact (test_kernel_inode 0 I0)|exact Hs|exists (set_ktty (test_kernel 0) s'); exact E]].
    apply (bool_decide_unpack _). vm_compute. exact I.
  - edestruct puts_both_total as [scs Hs]; [|destruct (P3 scs) as (s' & E & _);
      [vm_compute; reflexivity|exact (test_kernel_inode 1 I1)|exact Hs|exists (set_ktty (test_kernel 1) s'); exact E]].
    apply (bool_decide_unpack _). vm_compute. exact I.
Defined.
