(* ===== verification/Syscall.v ===== *)
(** System calls ([kernel/syscall.c]) and the life of a process
    ([arch/x86/task.c]: halt_program, kernel_run_first_program).

    A call either returns a value or leaves for user mode or for another
    kernel stack; the stack pointers of the caller are arguments.  A pointer
    into user memory is followed through the page tables of the running
    process at its start; the rest of the object lies behind it, as it does in
    the single 4 MB page of a program.  A pointer the tables do not map has no
    value: the call ends in a page fault and never returns to its caller. *)

From S2P Require Import Prelude Memory Layout I8259 LibMem LibString CircularBuffer Paging.
From S2P Require Import Ece391Fs Fs Pcb KeyboardMap Terminal Machine Rtc.

(** * How a call ends *)

Inductive outcome :=
  | Return (eax : Z)
  | Enter_user (esp eip : Z)                (* switch_to_ring_3 *)
  | Resume_kernel (esp ebp eax : Z)         (* leave; ret on another stack *)
  | Page_fault (cr2 : Z).                   (* exception 14 inside the call *)

(** What a call takes from outside: addresses of locals on the kernel stack,
    keyboard interrupts and clock ticks that arrive while it waits, and values
    of clock registers. *)
Record env := Env {
  e_local : Z;
  e_keys : list (list Z);
  e_ticks : nat;
  e_reg_a : Z;
  e_reg_b : Z
}.

(** * File operation tables *)

Inductive fops := File_fops | Dir_fops | Rtc_fops | Stdin_fops | Stdout_fops.

Section syscalls.
Context `{L : Layout} (junk : Z -> Z) (test_suite : tty -> Z -> tty) (rtc_handler_wrapper : Z).

(** The table a pointer designates. *)
Definition fops_at (a : Z) : option fops :=
  if a =? file_fops then Some File_fops
  else if a =? dir_fops then Some Dir_fops
  else if a =? rtc_fops then Some Rtc_fops
  else if a =? stdin_fops then Some Stdin_fops
  else if a =? stdout_fops then Some Stdout_fops
  else None.

Definition RTC_FT : Z := 0.
Definition DIRECTORY_FT : Z := 1.
Definition FILE_FT : Z := 2.

Definition fops_table (file_type : Z) : Z :=
  if file_type =? RTC_FT then rtc_fops
  else if file_type =? DIRECTORY_FT then dir_fops
  else file_fops.

(** Where the pointer [a] of the running process leads; [None]: to a page
    fault. *)
Definition user_addr (k : kernel) (a : Z) : option Z := fst <$> translate (kmem k) (cr3 k) a.

Definition flags_in_use (m : mem) (f : Z) : bool := truthy (Z.land (f_flags m f) FILE_IN_USE).

(** * open and close *)

Fixpoint find_fd (n : nat) (m : mem) (pcb idx : Z) : Z :=
  match n with
  | O => -1
  | S n' => if negb (flags_in_use m (fa pcb idx)) then idx else find_fd n' m pcb (idx + 1)
  end.

(** [fops->open]. *)
Definition call_open (k : kernel) (esp : Z) (e : env) (ops : option fops) (f filename : Z)
  : option (kernel * Z) :=
  match ops with
  | Some File_fops => let '(m, r) := file_open (kmem k) f filename in Some (set_kmem k m, r)
  | Some Dir_fops => let '(m, r) := dir_open (kmem k) f filename in Some (set_kmem k m, r)
  | Some Rtc_fops => Some (rtc_open rtc_handler_wrapper k esp (e_reg_a e) (e_reg_b e) f filename)
  | _ => None
  end.

(** [None]: the name is not mapped and reading it faults, or a call through a
    pointer that designates no table; the tables of the directory types exclude
    the latter. *)
Definition syscall_open (k : kernel) (esp : Z) (e : env) (filename : Z) : option (kernel * Z) :=
  let pcb := get_current_pcb esp in
  let fd := find_fd (Z.to_nat MAX_FILE_DESCRIPTORS) (kmem k) pcb 0 in
  if fd =? -1 then Some (k, -1)
  else
    a ← user_addr k filename;
    let '(m, res) := read_dentry_by_name (kmem k) (kfs k) a (e_local e) in
    let k := set_kmem k m in
    if res <? 0 then Some (k, -1)
    else if dentry_file_type (kmem k) (e_local e) >? FILE_FT then Some (k, -1)
    else
      let f := fa pcb fd in
      let k := set_kmem k (store32 (kmem k) f (fops_table (dentry_file_type (kmem k) (e_local e)))) in
      match call_open k esp e (fops_at (f_fops (kmem k) f)) f filename with
      | None => None
      | Some (k, retval) =>
          if retval <? 0 then Some (k, retval)
          else
            let m := store32 (kmem k) (f + 8) FILE_IN_USE in
            let m := store32 m (f + 12) (dentry_inode_num m (e_local e)) in
            let m := store32 m (f + 4) 0 in
            Some (set_kmem k m, fd)
      end.

(** [fops->close]; the terminal has none. *)
Definition has_close (o : fops) : bool :=
  match o with Stdin_fops | Stdout_fops => false | _ => true end.

Definition call_close (k : kernel) (esp : Z) (ops : fops) (f : Z) : kernel * Z :=
  match ops with
  | File_fops => let '(m, r) := file_close (kmem k) f in (set_kmem k m, r)
  | Dir_fops => let '(m, r) := dir_close (kmem k) f in (set_kmem k m, r)
  | Rtc_fops => rtc_close k esp f
  | _ => (k, -1)
  end.

Definition bad_fd (fd : Z) : bool := (fd <? 0) || (fd >=? MAX_FILE_DESCRIPTORS).

Definition syscall_close (k : kernel) (esp fd : Z) : option (kernel * Z) :=
  if bad_fd fd then Some (k, -1)
  else
    let f := fa (get_current_pcb esp) fd in
    if negb (flags_in_use (kmem k) f) then Some (k, -1)
    else if f_fops (kmem k) f =? 0 then Some (k, -1)
    else
      match fops_at (f_fops (kmem k) f) with
      | None => None
      | Some o =>
          if negb (has_close o) then Some (k, -1)
          else
            let k := set_kmem k (store32 (kmem k) (f + 8)
                                   (Z.land (f_flags (kmem k) f) (Z.lnot FILE_IN_USE))) in
            Some (call_close k esp o f)
      end.

(** * read and write *)

(** The check of a user pointer the calls share. *)
Definition in_target_page (target_addr nbytes : Z) : bool :=
  (PROCESS_VIRT_PAGE_START <=? target_addr)
  && (target_addr <? u32 (PROCESS_VIRT_PAGE_START + PROCESS_PAGE_SIZE + nbytes)).

Definition has_read (o : fops) : bool := match o with Stdout_fops => false | _ => true end.
Definition has_write (o : fops) : bool := match o with Stdin_fops => false | _ => true end.

(** [None] in the next four definitions: the call still waits after the given
    interrupts, or the user's buffer is not mapped, where the first access to it
    faults.  The clock's read and the two writes of the file system do not look
    at their buffer. *)
Definition call_read (k : kernel) (esp : Z) (e : env) (ops : fops) (f buf nbytes : Z)
  : option (kernel * Z) :=
  match ops with
  | File_fops =>
      buf ← user_addr k buf;
      let '(m, r) := file_read (kmem k) (kfs k) f buf nbytes in Some (set_kmem k m, r)
  | Dir_fops =>
      buf ← user_addr k buf;
      let '(m, r) := dir_read (kmem k) (kfs k) (e_local e) f buf nbytes in Some (set_kmem k m, r)
  | Rtc_fops => rtc_read (e_ticks e) k esp f buf nbytes
  | Stdin_fops =>
      buf ← user_addr k buf;
      '(t, r) ← terminal_read test_suite (ktty k) esp (e_local e) f buf nbytes (e_keys e);
      Some (set_ktty k t, r)
  | Stdout_fops => None
  end.

Definition call_write (k : kernel) (esp : Z) (ops : fops) (f buf nbytes : Z) : option (kernel * Z) :=
  match ops with
  | File_fops => let '(m, r) := file_write (kmem k) f buf nbytes in Some (set_kmem k m, r)
  | Dir_fops => let '(m, r) := dir_write (kmem k) f buf nbytes in Some (set_kmem k m, r)
  | Rtc_fops => buf ← user_addr k buf; Some (rtc_write k esp f buf nbytes)
  | Stdout_fops =>
      buf ← user_addr k buf;
      let '(t, r) := terminal_write (ktty k) esp f buf nbytes in Some (set_ktty k t, r)
  | Stdin_fops => None
  end.

Definition syscall_read (k : kernel) (esp : Z) (e : env) (fd buf nbytes : Z) : option (kernel * Z) :=
  if negb (in_target_page (u32 buf) nbytes) then Some (k, -1)
  else if bad_fd fd then Some (k, -1)
  else
    let f := fa (get_current_pcb esp) fd in
    if negb (flags_in_use (kmem k) f) then Some (k, -1)
    else if f_fops (kmem k) f =? 0 then Some (k, -1)
    else
      match fops_at (f_fops (kmem k) f) with
      | None => None
      | Some o =>
          if negb (has_read o) then Some (k, -1)
          else call_read k esp e o f buf nbytes
      end.

Definition syscall_write (k : kernel) (esp fd buf nbytes : Z) : option (kernel * Z) :=
  if negb (in_target_page (u32 buf) nbytes) then Some (k, -1)
  else if bad_fd fd then Some (k, -1)
  else
    let f := fa (get_current_pcb esp) fd in
    if negb (flags_in_use (kmem k) f) then Some (k, -1)
    else if f_fops (kmem k) f =? 0 then Some (k, -1)
    else
      match fops_at (f_fops (kmem k) f) with
      | None => None
      | Some o =>
          if negb (has_write o) then Some (k, -1)
          else call_write k esp o f buf nbytes
      end.

(** * getargs, vidmap and the unimplemented calls *)

Definition syscall_getargs (k : kernel) (esp buf nbytes : Z) : option (kernel * Z) :=
  if negb (in_target_page (u32 buf) nbytes) then Some (k, -1)
  else
    let pcb := get_current_pcb esp in
    let args_length := u32 (strlen (kmem k) (args pcb) + 1) in
    if u32 nbytes <? args_length then Some (k, -1)
    else
      a ← user_addr k buf;
      m ← strcpy (kmem k) a (args pcb);
      Some (set_kmem k m, 0).

Definition syscall_vidmap (k : kernel) (esp screen_start : Z) : option (kernel * Z) :=
  let pcb := get_current_pcb esp in
  if negb (in_target_page (u32 screen_start) 4) then Some (k, -1)
  else
    a ← user_addr k screen_start;
    Some (set_kmem k (store32 (kmem k) a
                        (get_process_vmem_page (pcb_get (kmem k) pcb slot_num))), 0).

Definition syscall_set_handler (k : kernel) (signum handler_address : Z) : kernel * Z := (k, -1).
Definition syscall_sigreturn (k : kernel) : kernel * Z := (k, -1).

(** * execute *)

(** The search for a free PCB, which also numbers it. *)
Fixpoint find_slot (n : nat) (m : mem) (i : Z) : option (mem * Z) :=
  match n with
  | O => None
  | S n' =>
      let pcb := get_pcb_from_slot i in
      if negb (truthy (pcb_get m pcb in_use)) then Some (pcb_set m pcb slot_num i, pcb)
      else find_slot n' m (i + 1)
  end.

(** The steps after the program was loaded, up to the saving of the
    registers. *)
Definition start_child (k : kernel) (parent_pcb child_pcb entry esp ebp : Z) : kernel :=
  let k := set_kmem k (pcb_set (kmem k) child_pcb entrypoint entry) in
  let vmem_ptr := get_terminal_output_buffer (ktty k) (pcb_get (kmem k) parent_pcb terminal_num) in
  let slot := pcb_get (kmem k) child_pcb slot_num in
  let '(m, pd) := setup_process_paging junk (kmem k) (get_process_page_from_slot slot) slot vmem_ptr in
  let m := pcb_set m child_pcb process_pd_ptr pd in
  let m := set_process_vmem_page m (pcb_get m child_pcb slot_num) vmem_ptr in
  let k := enable_paging (set_kmem k m) (pcb_get m child_pcb process_pd_ptr) in
  let m := pcb_set m child_pcb parent parent_pcb in
  let m := pcb_set m child_pcb child 0 in
  let m := pcb_set m parent_pcb child child_pcb in
  let m := pcb_set m child_pcb in_use 1 in
  let '(k, new_pid) := get_next_pid k in
  let m := pcb_set m child_pcb pid new_pid in
  let m := pcb_set m child_pcb terminal_num (pcb_get m parent_pcb terminal_num) in
  let m := pcb_set m child_pcb status PROCESS_RUNNING in
  let m := pcb_set m parent_pcb status PROCESS_BLOCKED in
  let m := open_stdin_and_stdout m child_pcb in
  let k := set_kernel_stack (set_kmem k m)
             (get_kernel_stack_base_from_slot (pcb_get m child_pcb slot_num)) in
  let m := pcb_set (kmem k) parent_pcb regs_esp esp in
  let m := pcb_set m parent_pcb regs_ebp ebp in
  set_kmem k m.

Definition syscall_execute (k : kernel) (esp ebp : Z) (e : env) (command : Z) : kernel * outcome :=
  let parent_pcb := get_current_pcb esp in
  match find_slot (Z.to_nat MAX_PROCESSES) (kmem k) 0 with
  | None => (k, Return (-1))
  | Some (m, child_pcb) =>
      let k := set_kmem k m in
      match user_addr k command with
      | None => (k, Page_fault command)
      | Some a =>
          let '(m, _) := parse_command (kmem k) a (program_name child_pcb) (args child_pcb) in
          let k := set_kmem k m in
          let '(m, entry) := load_program_into_slot (kmem k) (kfs k) (e_local e)
                               (program_name child_pcb) (pcb_get (kmem k) child_pcb slot_num) in
          let k := set_kmem k m in
          if entry =? 0 then (k, Return (-1))
          else
            let k := start_child k parent_pcb child_pcb entry esp ebp in
            (k, Enter_user PROCESS_LINK_START (pcb_get (kmem k) child_pcb entrypoint))
      end
  end.

(** * halt *)

(** [for(i = 0; i < MAX_FILE_DESCRIPTORS; i++) syscall_close(i);] *)
Fixpoint close_all (n : nat) (k : kernel) (esp i : Z) : option kernel :=
  match n with
  | O => Some k
  | S n' => '(k, _) ← syscall_close k esp i; close_all n' k esp (i + 1)
  end.

Definition restart_program (k : kernel) (child_pcb : Z) : kernel * outcome :=
  let k := set_ktty k (reset_terminal (ktty k) (pcb_get (kmem k) child_pcb terminal_num)) in
  let m := pcb_set (kmem k) child_pcb parent 0 in
  let m := pcb_set m child_pcb child 0 in
  let m := pcb_set m child_pcb in_use 1 in
  let '(k, new_pid) := get_next_pid k in
  let m := pcb_set m child_pcb pid new_pid in
  let m := pcb_set m child_pcb status PROCESS_RUNNING in
  let m := open_stdin_and_stdout m child_pcb in
  let k := set_kernel_stack (set_kmem k m)
             (get_kernel_stack_base_from_slot (pcb_get m child_pcb slot_num)) in
  (k, Enter_user PROCESS_LINK_START (pcb_get (kmem k) child_pcb entrypoint)).

Definition halt_program (k : kernel) (esp exit_status : Z) : option (kernel * outcome) :=
  let child_pcb := get_current_pcb esp in
  let k := set_kmem k (pcb_set (kmem k) child_pcb in_use 0) in
  k ← close_all (Z.to_nat MAX_FILE_DESCRIPTORS) k esp 0;
  let parent_pcb := pcb_get (kmem k) child_pcb parent in
  if parent_pcb =? 0 then Some (restart_program k child_pcb)
  else
    let m := pcb_set (kmem k) child_pcb status PROCESS_NONE in
    let m := pcb_set m parent_pcb status PROCESS_RUNNING in
    let k := enable_paging (set_kmem k m) (pcb_get m parent_pcb process_pd_ptr) in
    let k := set_kernel_stack k (get_kernel_stack_base_from_slot (pcb_get m parent_pcb slot_num)) in
    Some (k, Resume_kernel (pcb_get m parent_pcb regs_esp) (pcb_get m parent_pcb regs_ebp) exit_status).

Definition syscall_halt (k : kernel) (esp exit_status : Z) : option (kernel * outcome) :=
  halt_program k esp (Z.land exit_status 0xFF).
End syscalls.
