(* ===== verification/Dispatch.v ===== *)
(** The entry of system calls: [arch/x86/syscall_wrapper.S], and the wrappers
    of user programs in [syscalls/ece391syscall.S]. *)

From S2P Require Import Prelude Memory Layout Paging Ece391Fs Fs Pcb Terminal Machine Rtc Syscall.

Definition SYSCALL_MIN_NUM : Z := 1.
Definition SYSCALL_MAX_NUM : Z := 10.

Definition SYS_HALT : Z := 1.
Definition SYS_EXECUTE : Z := 2.
Definition SYS_READ : Z := 3.
Definition SYS_WRITE : Z := 4.
Definition SYS_OPEN : Z := 5.
Definition SYS_CLOSE : Z := 6.
Definition SYS_GETARGS : Z := 7.
Definition SYS_VIDMAP : Z := 8.
Definition SYS_SET_HANDLER : Z := 9.
Definition SYS_SIGRETURN : Z := 10.

Section dispatch.
Context `{L : Layout} (test_suite : tty -> Z -> tty) (rtc_handler_wrapper : Z) (junk : Z -> Z).

(** A handler that returns to its caller. *)
Definition returns (r : option (kernel * Z)) : option (kernel * outcome) := '(k, v) ← r; Some (k, Return v).

(** The jump table; place 0 is never used. *)
Definition syscall_jump_table (eax : Z) (k : kernel) (esp ebp : Z) (e : env) (ebx ecx edx : Z) :
    option (kernel * outcome) :=
  if eax =? 1 then syscall_halt k esp ebx
  else if eax =? 2 then Some (syscall_execute junk k esp ebp e ebx)
  else if eax =? 3 then returns (syscall_read test_suite k esp e ebx ecx edx)
  else if eax =? 4 then returns (syscall_write k esp ebx ecx edx)
  else if eax =? 5 then returns (syscall_open rtc_handler_wrapper k esp e ebx)
  else if eax =? 6 then returns (syscall_close k esp ebx)
  else if eax =? 7 then returns (syscall_getargs k esp ebx ecx)
  else if eax =? 8 then returns (syscall_vidmap k esp ebx)
  else if eax =? 9 then returns (Some (syscall_set_handler k ebx ecx))
  else if eax =? 10 then returns (Some (syscall_sigreturn k))
  else None.

(** The number is compared as a signed word. *)
Definition syscall_handler_wrapper (k : kernel) (esp ebp : Z) (e : env) (eax ebx ecx edx : Z) :
    option (kernel * outcome) :=
  if s32 eax <? SYSCALL_MIN_NUM then Some (k, Return (-1))
  else if s32 eax >? SYSCALL_MAX_NUM then Some (k, Return (-1))
  else syscall_jump_table (s32 eax) k esp ebp e ebx ecx edx.

(** Numbers outside the table change nothing. *)
Lemma wrapper_refuses k esp ebp e eax ebx ecx edx :
  - 0x80000000 <= eax < 0x80000000 -> eax < 1 \/ 10 < eax ->
  syscall_handler_wrapper k esp ebp e eax ebx ecx edx = Some (k, Return (-1)).
Proof.
  intros Hr Hn. unfold syscall_handler_wrapper, SYSCALL_MIN_NUM, SYSCALL_MAX_NUM. rewrite s32_id by lia.
  destruct (Z.ltb_spec eax 1); [done|]. rewrite Z.gtb_ltb. destruct (Z.ltb_spec 10 eax); [done|lia].
Qed.

(** The wrappers of user programs reach the handlers of the same name. *)
Lemma wrapper_calls k esp ebp e ebx ecx edx :
  let call n := syscall_handler_wrapper k esp ebp e n ebx ecx edx in
  call SYS_HALT = syscall_halt k esp ebx /\ call SYS_EXECUTE = Some (syscall_execute junk k esp ebp e ebx) /\
  call SYS_READ = returns (syscall_read test_suite k esp e ebx ecx edx) /\
  call SYS_WRITE = returns (syscall_write k esp ebx ecx edx) /\
  call SYS_OPEN = returns (syscall_open rtc_handler_wrapper k esp e ebx) /\
  call SYS_CLOSE = returns (syscall_close k esp ebx) /\ call SYS_GETARGS = returns (syscall_getargs k esp ebx ecx) /\
  call SYS_VIDMAP = returns (syscall_vidmap k esp ebx) /\
  call SYS_SET_HANDLER = Some (k, Return (-1)) /\ call SYS_SIGRETURN = Some (k, Return (-1)).
Proof. cbv zeta. split_and!; reflexivity. Qed.
End dispatch.
