(* ===== verification/FileTable.v ===== *)
(** The file descriptors of a process: open, close and the checks in front of
    read and write ([kernel/syscall.c]). *)

From S2P Require Import Prelude Memory Layout I8259 LibMem LibString CircularBuffer Paging.
From S2P Require Import Ece391Fs Fs Pcb Terminal Machine Rtc Syscall.

(** Descriptor [i] of a PCB is in use. *)
Definition fd_used (m : mem) (pcb i : Z) : bool := flags_in_use m (fa pcb i).

Lemma kmem_set_kmem k m : kmem (set_kmem k m) = m.
Proof. done. Qed.
Lemma kfs_set_kmem k m : kfs (set_kmem k m) = kfs k.
Proof. done. Qed.
Lemma set_kmem_twice k m m' : set_kmem (set_kmem k m) m' = set_kmem k m'.
Proof. done. Qed.
Lemma set_kmem_id k : set_kmem k (kmem k) = k.
Proof. by destruct k as [[] ? ? ? ? ? ? ? ? ? ? ?]. Qed.
#[export] Hint Rewrite kmem_set_kmem kfs_set_kmem : kpcb.

Lemma find_fd_spec n m pcb idx :
  let r := find_fd n m pcb idx in
  (r = -1 /\ forall j, idx <= j < idx + Z.of_nat n -> fd_used m pcb j = true) \/
  (idx <= r < idx + Z.of_nat n /\ fd_used m pcb r = false /\
   forall j, idx <= j < r -> fd_used m pcb j = true).
Proof.
  cbv zeta. revert idx. induction n as [|n IH]; intros idx; cbn [find_fd].
  - left. split; [done|]. lia.
  - fold (fd_used m pcb idx). destruct (fd_used m pcb idx) eqn:E; cbn [negb].
    + destruct (IH (idx + 1)) as [[-> H]|(Hr & Hf & H)].
      * left. split; [done|]. intros j Hj. destruct (Z.eq_dec j idx) as [->|]; [done|]. apply H. lia.
      * right. split; [lia|]. split; [done|]. intros j Hj.
        destruct (Z.eq_dec j idx) as [->|]; [done|]. apply H. lia.
    + right. split; [lia|]. split; [done|]. lia.
Qed.

(** Nothing but memory, masks and gates differs. *)
Record same_tty (k k' : kernel) : Prop := {
  sm_fs : kfs k' = kfs k;
  sm_cr3 : cr3 k' = cr3 k;
  sm_terms : terms (ktty k') = terms (ktty k);
  sm_active : active_terminal (ktty k') = active_terminal (ktty k);
  sm_single : single_terminal (ktty k') = single_terminal (ktty k)
}.

Lemma same_tty_set_kmem k m : same_tty k (set_kmem k m).
Proof. by split. Qed.

Lemma same_tty_trans k1 k2 k3 : same_tty k1 k2 -> same_tty k2 k3 -> same_tty k1 k3.
Proof. intros [] []. split; congruence. Qed.

Section fops.
Context `{L : Layout} `{LOk : !LayoutOk L}.

Lemma fops_distinct :
  file_fops <> dir_fops /\ file_fops <> rtc_fops /\ file_fops <> stdin_fops /\
  file_fops <> stdout_fops /\ dir_fops <> rtc_fops /\ dir_fops <> stdin_fops /\
  dir_fops <> stdout_fops /\ rtc_fops <> stdin_fops /\ rtc_fops <> stdout_fops /\
  stdin_fops <> stdout_fops.
Proof.
  pose proof lay_fops_distinct as H. rewrite !NoDup_cons, !not_elem_of_cons in H. tauto.
Qed.

Lemma fops_range a :
  a ∈ [file_fops; dir_fops; rtc_fops; stdin_fops; stdout_fops] -> 0x400000 <= a < 0x7F0000.
Proof.
  intros Ha. pose proof lay_fops as H. rewrite Forall_forall in H. specialize (H a Ha).
  unfold in_image, KERNEL_PAGE_START, KERNEL_IMAGE_END in H. lia.
Qed.

(** The table for each directory type. *)
Lemma fops_at_std : fops_at stdin_fops = Some Stdin_fops /\ fops_at stdout_fops = Some Stdout_fops.
Proof.
  destruct fops_distinct as (D1 & D2 & D3 & D4 & D5 & D6 & D7 & D8 & D9 & D10).
  unfold fops_at. split; repeat case_zb; congruence.
Qed.

Lemma fops_at_table ft :
  0 <= ft <= 2 ->
  fops_at (fops_table ft)
  = Some (if ft =? 0 then Rtc_fops else if ft =? 1 then Dir_fops else File_fops) /\
  0x400000 <= fops_table ft < 0x7F0000.
Proof.
  intros Hft. destruct fops_distinct as (D1 & D2 & D3 & D4 & D5 & D6 & D7 & D8 & D9 & D10).
  unfold fops_at, fops_table, RTC_FT, DIRECTORY_FT.
  destruct (Z.eqb_spec ft 0); [|destruct (Z.eqb_spec ft 1)];
    (split; [repeat case_zb; congruence|apply fops_range; rewrite !elem_of_cons; tauto]).
Qed.

Context (rtc_handler_wrapper : Z).

(** Opening changes the PCB's clock fields at most. *)
Lemma call_open_spec k esp e ft f filename :
  0 <= ft <= 2 ->
  exists k', call_open rtc_handler_wrapper k esp e (fops_at (fops_table ft)) f filename = Some (k', 0) /\
    same_tty k k' /\
    same_outside (kmem k) (kmem k') (get_current_pcb esp + 438) (get_current_pcb esp + 448).
Proof.
  intros Hft. destruct (fops_at_table ft Hft) as [-> _].
  destruct (Z.eqb_spec ft 0); [|destruct (Z.eqb_spec ft 1)]; cbn [call_open].
  - unfold rtc_open. cbv zeta. eexists. split; [reflexivity|]. split; [by split|].
    rewrite kmem_set_kmem. intros x Hx. unfold pcb_set, rtc_enabled, rtc_interval, remaining_rtc_ticks.
    cbn [pf_width pf_offset]. rewrite !load8_store_le_out by (simpl; lia). done.
  - eexists. split; [reflexivity|]. split; [by split|]. by intros x _.
  - eexists. split; [reflexivity|]. split; [by split|]. by intros x _.
Qed.
End fops.

(** * Opening *)

(** What [open] relies on: the caller runs on the stack of slot [i], its local
    [dentry_t] is on that stack, and the filesystem image is elsewhere. *)
Record open_ok (k : kernel) (i esp : Z) (e : env) : Prop := {
  oo_slot : 0 <= i < 6;
  oo_esp : get_pcb_from_slot i < esp <= get_kernel_stack_base_from_slot i;
  oo_fs : fs_ok (kmem k) (kfs k);
  oo_local : get_pcb_from_slot i + sizeof_pcb_t <= e_local e /\
             e_local e + 64 <= get_kernel_stack_base_from_slot i;
  oo_image : off_image (kmem k) (kfs k) (get_pcb_from_slot i) KERNEL_STACK_SIZE
}.

(** The last assignments of [open]. *)
Lemma fill_descriptor m f inode :
  0 <= inode < 0x100000000 ->
  let m' := store32 (store32 (store32 m (f + 8) FILE_IN_USE) (f + 12) inode) (f + 4) 0 in
  flags_in_use m' f = true /\ f_position m' f = 0 /\ f_inode m' f = inode /\
  f_fops m' f = f_fops m f /\ (forall x, x < f + 4 \/ f + 16 <= x -> load8 m' x = load8 m x).
Proof.
  intros Hi m'. unfold m', flags_in_use, f_flags, f_position, f_inode, f_fops. split_and!.
  - rewrite !load32_store32_ne, load32_store32_eq by lia. done.
  - apply load32_store32_eq.
  - rewrite load32_store32_ne, load32_store32_eq by lia. by apply u32_id.
  - by rewrite !load32_store32_ne by lia.
  - intros x Hx. by rewrite !load8_store32_ne by lia.
Qed.

(** Descriptor [r] of a PCB was the first free one and is now open on the
    directory entry at [d]; outside the stack page only. *)
Record opened `{L : Layout} (m m' : mem) (pcb r d : Z) : Prop := {
  op_range : 0 <= r < 8;
  op_free : fd_used m pcb r = false;
  op_lowest : forall n, 0 <= n < r -> fd_used m pcb n = true;
  op_used : fd_used m' pcb r = true;
  op_position : f_position m' (fa pcb r) = 0;
  op_inode : f_inode m' (fa pcb r) = dentry_inode_num m d;
  op_fops : f_fops m' (fa pcb r) = fops_table (dentry_file_type m d);
  op_others : forall n, 0 <= n < 8 -> n <> r ->
    load_bytes m' (fa pcb n) 16 = load_bytes m (fa pcb n) 16;
  op_outside : forall x, x < pcb \/ pcb + KERNEL_STACK_SIZE <= x -> load8 m' x = load8 m x;
  op_pcb : forall x, pcb <= x < pcb + sizeof_pcb_t -> x < fa pcb r \/ fa pcb r + 16 <= x ->
    x < pcb + 438 \/ pcb + 448 <= x -> load8 m' x = load8 m x
}.

Section opening.
Context `{L : Layout} `{LOk : !LayoutOk L} (wrapper : Z).
Context (k : kernel) (i esp : Z) (e : env).
Hypothesis (ok : open_ok k i esp e).
Let pcb := get_pcb_from_slot i.
Let m := kmem k.

(** The steps after the directory entry [d] was copied to the local one. *)
Lemma open_entry m1 d fd filename :
  0 <= fd < 8 -> fd_used m pcb fd = false -> (forall n, 0 <= n < fd -> fd_used m pcb n = true) ->
  same_outside m m1 (e_local e) (e_local e + 64) ->
  dentry_file_type m1 (e_local e) = dentry_file_type m d ->
  dentry_inode_num m1 (e_local e) = dentry_inode_num m d ->
  let ft := dentry_file_type m d in
  ft <= FILE_FT ->
  let f := fa pcb fd in
  let m2 := store32 m1 f (fops_table ft) in
  exists k3, call_open wrapper (set_kmem k m2) esp e (fops_at (f_fops m2 f)) f filename = Some (k3, 0) /\
    let m4 := store32 (kmem k3) (f + 8) FILE_IN_USE in
    let m5 := store32 m4 (f + 12) (dentry_inode_num m4 (e_local e)) in
    same_tty k k3 /\ opened m (store32 m5 (f + 4) 0) pcb fd d.
Proof.
  intros Hfd Hfree Hlow M1 Eft Ein ft Hft f m2. destruct ok as [Hi He Hfs [Hl1 Hl2] Himg].
  rewrite stack_base_eq in Hl2 by done. unfold sizeof_pcb_t, FILE_FT in *. fold pcb in Hl1, Hl2.
  pose proof (load32_range m (d + 32)) as Rft. fold (dentry_file_type m d) in Rft. fold ft in Rft.
  destruct (fops_at_table ft ltac:(lia)) as [_ Rt].
  assert (Ef : f_fops m2 f = fops_table ft)
    by (unfold f_fops, m2; rewrite load32_store32_eq; apply u32_id; lia).
  rewrite Ef.
  destruct (call_open_spec wrapper (set_kmem k m2) esp e ft f filename ltac:(lia)) as (k3 & -> & T3 & M3).
  exists k3. split; [reflexivity|]. cbv zeta.
  split; [by apply (same_tty_trans k (set_kmem k m2)); [apply same_tty_set_kmem|]|].
  unfold get_current_pcb in M3. rewrite (pcb_from_esp_eq i Hi esp He), kmem_set_kmem in M3. fold pcb in M3.
  assert (Hf : pcb + 40 <= f /\ f + 16 <= pcb + 168) by (unfold f, fa, fa_offset, sizeof_file_t; lia).
  assert (M2 : forall x, x < f \/ f + 4 <= x -> load8 m2 x = load8 m1 x)
    by (intros x Hx; apply load8_store32_ne; lia).
  assert (Ein3 : dentry_inode_num (store32 (kmem k3) (f + 8) FILE_IN_USE) (e_local e) = dentry_inode_num m d).
  { rewrite <- Ein. unfold dentry_inode_num. rewrite load32_store32_ne by lia. apply load_le_ext.
    intros x Hx. simpl in Hx. rewrite M3, M2 by lia. done. }
  rewrite Ein3. destruct (fill_descriptor (kmem k3) f (dentry_inode_num m d)) as (F1 & F2 & F3 & F4 & M5);
    [apply load32_range|].
  set (m5 := store32 _ (f + 4) 0) in *. split; [done..|exact F2|exact F3| | | |].
  - fold f. rewrite F4. transitivity (f_fops m2 f); [|exact Ef]. apply load_le_ext. intros x Hx. simpl in Hx. apply M3. lia.
  - intros n Hn Hne. apply load_bytes_ext. intros x Hx.
    unfold f, fa, fa_offset, sizeof_file_t in *. rewrite M5, M3, M2, M1 by lia. done.
  - intros x Hx. unfold KERNEL_STACK_SIZE in Hx. rewrite M5, M3, M2, M1 by lia. done.
  - intros x Hx Hf1 Hc. fold f in Hf1. unfold sizeof_pcb_t in Hx. rewrite M5, M3, M2, M1 by lia. done.
Qed.

(** A full table is found out before the name is looked at. *)
Lemma syscall_open_full filename :
  (forall n, 0 <= n < 8 -> fd_used m pcb n = true) -> syscall_open wrapper k esp e filename = Some (k, -1).
Proof.
  intros Hall. unfold syscall_open, get_current_pcb.
  rewrite (pcb_from_esp_eq i (oo_slot _ _ _ _ ok) esp (oo_esp _ _ _ _ ok)). cbv zeta. fold pcb m.
  pose proof (find_fd_spec (Z.to_nat MAX_FILE_DESCRIPTORS) m pcb 0) as F. cbv zeta in F.
  set (fd := find_fd _ _ _ _) in *. change (Z.of_nat (Z.to_nat MAX_FILE_DESCRIPTORS)) with 8 in F.
  destruct F as [[-> _]|(Hfd & Hfree & _)]; [done|].
  rewrite (Hall fd) in Hfree by lia. discriminate Hfree.
Qed.

(** Otherwise a name that is not mapped faults. *)
Lemma syscall_open_fault filename n :
  0 <= n < 8 -> fd_used m pcb n = false -> user_addr k filename = None ->
  syscall_open wrapper k esp e filename = None.
Proof.
  intros Hn Hfree Ha. unfold syscall_open, get_current_pcb.
  rewrite (pcb_from_esp_eq i (oo_slot _ _ _ _ ok) esp (oo_esp _ _ _ _ ok)). cbv zeta. fold pcb m.
  pose proof (find_fd_spec (Z.to_nat MAX_FILE_DESCRIPTORS) m pcb 0) as F. cbv zeta in F.
  set (fd := find_fd _ _ _ _) in *. change (Z.of_nat (Z.to_nat MAX_FILE_DESCRIPTORS)) with 8 in F.
  destruct F as [[_ Hfull]|(Hfd & _ & _)]; [rewrite (Hfull n) in Hfree by lia; discriminate Hfree|].
  destruct (Z.eqb_spec fd (-1)); [lia|]. by rewrite Ha.
Qed.

Lemma syscall_open_spec filename a :
  user_addr k filename = Some a ->
  exists k' r, syscall_open wrapper k esp e filename = Some (k', r) /\ same_tty k k' /\
  ((r = -1 /\ same_outside m (kmem k') (e_local e) (e_local e + 64) /\
     ((forall n, 0 <= n < 8 -> fd_used m pcb n = true) \/
      match dir_lookup m (kfs k) (chars m a 32) with
      | None => True
      | Some j => FILE_FT < dentry_file_type m (directory_entry (kfs k) j)
      end)) \/
   (exists j, dir_lookup m (kfs k) (chars m a 32) = Some j /\
      dentry_file_type m (directory_entry (kfs k) j) <= FILE_FT /\
      opened m (kmem k') pcb r (directory_entry (kfs k) j))).
Proof.
  intros Ea. pose proof ok as [Hi He Hfs [Hl1 Hl2] Himg].
  rewrite stack_base_eq in Hl2 by done. unfold sizeof_pcb_t in Hl1.
  unfold syscall_open, get_current_pcb. rewrite (pcb_from_esp_eq i Hi esp He). cbv zeta.
  fold pcb m in Hl1, Hl2, Hfs, Himg |- *.
  pose proof (find_fd_spec (Z.to_nat MAX_FILE_DESCRIPTORS) m pcb 0) as F. cbv zeta in F.
  set (fd := find_fd _ _ _ _) in *. change (Z.of_nat (Z.to_nat MAX_FILE_DESCRIPTORS)) with 8 in F.
  destruct F as [[E Hfull]|(Hfd & Hfree & Hlow)].
  { rewrite E. exists k, (-1). split; [done|]. split; [by split|]. left. split; [done|].
    split; [by intros x _|by left]. }
  destruct (Z.eqb_spec fd (-1)); [lia|]. rewrite Ea. cbn [mbind option_bind].
  rewrite read_dentry_by_name_spec. change MAX_FILE_NAME_LENGTH with 32.
  destruct (dir_lookup m (kfs k) _) as [j|] eqn:Ej.
  2:{ exists (set_kmem k m), (-1). split; [done|]. split; [by split|]. left. split; [done|].
      split; [by intros x _|by right]. }
  destruct (dir_lookup_bounds _ _ _ _ Ej) as (Hj & _ & _).
  pose proof (image_layout m (kfs k) Hfs) as IL. unfold off_image, KERNEL_STACK_SIZE in Himg.
  set (d := directory_entry (kfs k) j) in *.
  assert (Hd : d + 64 <= e_local e \/ e_local e + 64 <= d) by (unfold d, directory_entry; lia).
  rewrite copy_dentry_spec by lia. set (m1 := store_bytes m (e_local e) _).
  assert (M1 : same_outside m m1 (e_local e) (e_local e + 64)).
  { intros x Hx. apply load8_store_bytes_out. rewrite length_dentry_bytes. lia. }
  destruct (Z.ltb_spec 0 0); [lia|]. rewrite kmem_set_kmem.
  assert (Eft : dentry_file_type m1 (e_local e) = dentry_file_type m d) by (apply dentry_field; lia).
  assert (Ein : dentry_inode_num m1 (e_local e) = dentry_inode_num m d) by (apply dentry_field; lia).
  rewrite Eft, Z.gtb_ltb. destruct (Z.ltb_spec FILE_FT (dentry_file_type m d)) as [Hft|Hft].
  { exists (set_kmem k m1), (-1). split; [done|]. split; [by split|]. left. split; [done|].
    split; [exact M1|by right]. }
  rewrite kmem_set_kmem, set_kmem_twice.
  destruct (open_entry m1 d fd filename Hfd Hfree Hlow M1 Eft Ein Hft) as (k3 & -> & T3 & O).
  destruct (Z.ltb_spec 0 0); [lia|]. eexists _, fd. split; [reflexivity|].
  split; [by apply (same_tty_trans k k3), same_tty_set_kmem|].
  right. exists j. split; [done|]. split; [exact Hft|exact O].
Qed.
End opening.

(** * Properties *)

(** The name at the user address [v], up to its zero or its 32nd byte, is
    mapped to consecutive bytes from [a] on. *)
Definition maps_name (k : kernel) (v a : Z) : Prop :=
  forall n, 0 <= n <= zlen (chars (kmem k) a 32) -> n < 32 -> user_addr k (v + n) = Some (a + n).

(** C14: [open] hands out the lowest free descriptor.  With all eight in use it
    returns -1 and changes nothing, whatever the name.  Otherwise a name the
    page tables do not map ends the call in a page fault (no result), and for a
    name mapped to [a]: with no such file or with an unknown type it returns -1,
    and at most its local variable changed; else it returns the first descriptor
    that was free, which now is in use at position 0 with the inode of the
    directory entry and the operations of its type; the other descriptors and
    all memory outside the caller's stack page are as before. *)
Theorem syscall_open_correct `{L : Layout} `{LOk : !LayoutOk L} wrapper (k : kernel) (i esp : Z) (e : env)
    (filename : Z) :
  open_ok k i esp e ->
  let pcb := get_pcb_from_slot i in
  let m := kmem k in
  let full := forall n, 0 <= n < 8 -> fd_used m pcb n = true in
  (full -> syscall_open wrapper k esp e filename = Some (k, -1)) /\
  (forall n, 0 <= n < 8 -> fd_used m pcb n = false -> user_addr k filename = None ->
     syscall_open wrapper k esp e filename = None) /\
  (forall a, maps_name k filename a ->
   exists k' r, syscall_open wrapper k esp e filename = Some (k', r) /\ same_tty k k' /\
   ((r = -1 /\ same_outside m (kmem k') (e_local e) (e_local e + 64) /\
      (full \/
       match dir_lookup m (kfs k) (chars m a 32) with
       | None => True
       | Some j => FILE_FT < dentry_file_type m (directory_entry (kfs k) j)
       end)) \/
    (exists j, dir_lookup m (kfs k) (chars m a 32) = Some j /\
       dentry_file_type m (directory_entry (kfs k) j) <= FILE_FT /\
       opened m (kmem k') pcb r (directory_entry (kfs k) j)))).
Proof.
  intros ok. cbv zeta. split; [exact (syscall_open_full wrapper k i esp e ok filename)|].
  split; [exact (syscall_open_fault wrapper k i esp e ok filename)|].
  intros a Ha. apply (syscall_open_spec wrapper k i esp e ok filename a).
  specialize (Ha 0). rewrite !Z.add_0_r in Ha. apply Ha; lia.
Qed.

(** A process in slot 0 whose page tables are set up, with the name "a" in its
    page at 0x8048000. *)
Definition example_tables : mem :=
  (setup_process_paging (L := example_layout) (fun _ => 0) (example_image 0x410000)
     (get_process_page_from_slot 0) 0 0xB8000).1.

Definition example_open : kernel :=
  set_cr3 (example_kernel (Tty (store_bytes example_tables 0x848000 [97; 0]) pic_boot
    (fun _ => Terminal (circular_buffer_init 0 1) 0 0 0 0) 0 0 [] 0))
    (get_process_pd 0).

Lemma syscall_open_correct_witness :
  exists k' r, syscall_open (L := example_layout) 0 example_open 0x7FFF00 (Env 0x7FF000 [] 0 0 0) 0x8048000
               = Some (k', r) /\ fd_used (kmem k') (get_pcb_from_slot 0) r = true.
Proof.
  destruct (syscall_open_correct (LOk := example_layout_ok) 0 example_open 0 0x7FFF00
              (Env 0x7FF000 [] 0 0 0) 0x8048000) as (_ & _ & T).
  - split.
    + lia.
    + split; vm_compute; congruence.
    + split; [vm_compute; reflexivity|vm_compute; reflexivity|]. vm_compute. congruence.
    + split; vm_compute; congruence.
    + right. vm_compute. congruence.
  - destruct (T (get_process_page_from_slot 0 + 0x48000)) as (k' & r & E & _ & P).
    { intros n Hn _.
      replace (chars (kmem example_open) (get_process_page_from_slot 0 + 0x48000) 32) with [97] in Hn
        by (vm_compute; reflexivity).
      cbn [length] in Hn. assert (n = 0 \/ n = 1) as [->| ->] by lia; vm_compute; reflexivity. }
    exists k', r. split; [exact E|].
    destruct P as [(_ & _ & [H|H])|(j & _ & _ & O)]; [| |exact (op_used _ _ _ _ _ O)]; exfalso.
    + specialize (H 0 ltac:(lia)). vm_compute in H. discriminate.
    + vm_compute in H. discriminate.
Defined.

Lemma clear_in_use v : 0 <= v < 4294967296 -> truthy (Z.land (u32 (Z.land v (Z.lnot FILE_IN_USE))) FILE_IN_USE) = false.
Proof.
  intros Hv. unfold truthy.
  replace (Z.land (u32 (Z.land v (Z.lnot FILE_IN_USE))) FILE_IN_USE) with 0; [done|].
  symmetry. apply Z.bits_inj'. intros n Hn. rewrite Z.land_spec, Z.bits_0. unfold FILE_IN_USE.
  rewrite (testbit_one n). destruct (Z.eqb_spec n 0) as [->|]; [|apply andb_false_r].
  rewrite testbit_u32, Z.land_spec, Z.lnot_spec by lia. cbn. by rewrite andb_false_r.
Qed.

(** The operations behind descriptor [fd], when it is open. *)
Definition fd_ops `{L : Layout} (m : mem) (pcb fd : Z) : option fops :=
  if negb (bad_fd fd) && fd_used m pcb fd then fops_at (f_fops m (fa pcb fd)) else None.

(** Closing [fd] does something. *)
Definition closes `{L : Layout} (m : mem) (pcb fd : Z) : bool :=
  match fd_ops m pcb fd with Some o => has_close o | None => false end.

Lemma bad_fd_range fd : bad_fd fd = false <-> 0 <= fd < 8.
Proof.
  unfold bad_fd, MAX_FILE_DESCRIPTORS. rewrite orb_false_iff, Z.ltb_ge, Z.geb_leb, Z.leb_gt. lia.
Qed.

Lemma fops_nonzero `{L : Layout} `{LOk : !LayoutOk L} a o : fops_at a = Some o -> a <> 0.
Proof.
  unfold fops_at. intros Ha ->.
  assert (R : forall x, x ∈ [file_fops; dir_fops; rtc_fops; stdin_fops; stdout_fops] -> 0 <> x)
    by (intros x Hx; pose proof (fops_range x Hx); lia).
  rewrite !(proj2 (Z.eqb_neq _ _)) in Ha by (apply R; rewrite !elem_of_cons; tauto). discriminate.
Qed.

(** [close] on any descriptor whose operations are known or missing (NULL).  It
    touches the flags of the descriptor and the [rtc_enabled] byte. *)
Lemma syscall_close_spec `{L : Layout} `{LOk : !LayoutOk L} (k : kernel) (i esp fd : Z) :
  0 <= i < 6 -> get_pcb_from_slot i < esp <= get_kernel_stack_base_from_slot i ->
  let pcb := get_pcb_from_slot i in
  (bad_fd fd = false -> fd_used (kmem k) pcb fd = true -> f_fops (kmem k) (fa pcb fd) <> 0 ->
   is_Some (fops_at (f_fops (kmem k) (fa pcb fd)))) ->
  exists m', syscall_close k esp fd = Some (set_kmem k m', if closes (kmem k) pcb fd then 0 else -1) /\
  if closes (kmem k) pcb fd
  then fd_used m' pcb fd = false /\
       forall x, (x < fa pcb fd + 8 \/ fa pcb fd + 12 <= x) -> x <> pcb + 438 ->
                 load8 m' x = load8 (kmem k) x
  else m' = kmem k.
Proof.
  intros Hi He. cbv zeta. unfold syscall_close, get_current_pcb, closes, fd_ops.
  rewrite (pcb_from_esp_eq i Hi esp He). cbv zeta. set (pcb := get_pcb_from_slot i) in *. intros Ho.
  assert (Same : exists m', Some (k, -1) = Some (set_kmem k m', -1) /\ m' = kmem k)
    by (exists (kmem k); by rewrite set_kmem_id).
  destruct (bad_fd fd) eqn:Eb; [exact Same|]. fold (fd_used (kmem k) pcb fd). cbn [negb andb].
  destruct (fd_used (kmem k) pcb fd) eqn:Eu; cbn [negb]; [|exact Same].
  destruct (Z.eqb_spec (f_fops (kmem k) (fa pcb fd)) 0) as [E0|E0].
  { rewrite E0. destruct (fops_at 0) as [o|] eqn:Eo; [by destruct (fops_nonzero _ _ Eo)|exact Same]. }
  destruct (Ho eq_refl eq_refl E0) as [o Eo]. rewrite Eo.
  destruct (has_close o) eqn:Ec; cbn [negb]; [|exact Same].
  apply bad_fd_range in Eb. set (v := Z.land _ (Z.lnot FILE_IN_USE)).
  set (m1 := store32 (kmem k) (fa pcb fd + 8) v).
  assert (Hcall : exists m', call_close (set_kmem k m1) esp o (fa pcb fd) = (set_kmem k m', 0) /\
            forall x, x <> pcb + 438 -> load8 m' x = load8 m1 x).
  { destruct o; try discriminate; cbn [call_close].
    - by exists m1.
    - by exists m1.
    - exists (pcb_set m1 pcb rtc_enabled 0). unfold rtc_close, get_current_pcb.
      rewrite (pcb_from_esp_eq i Hi esp He). split; [done|].
      intros x Hx. apply load8_store_le_out. simpl. lia. }
  destruct Hcall as (m' & -> & M'). exists m'. split; [done|].
  unfold fa, fa_offset, sizeof_file_t in *. split.
  - unfold fd_used, flags_in_use, f_flags, load32, fa, fa_offset, sizeof_file_t.
    rewrite (load_le_ext 4 m1) by (intros x Hx; simpl in Hx; apply M'; lia).
    change (load_le 4 m1 ?a) with (load32 m1 a). unfold m1. rewrite load32_store32_eq.
    apply clear_in_use, load32_range.
  - intros x Hx Hne. rewrite M' by lia. apply load8_store32_ne. lia.
Qed.

(** C15: [close] frees exactly the descriptor it is given.  A number outside
    0..7, a descriptor that is not in use, one whose operation table is NULL and
    the terminal's two, whose tables have no close operation, give -1 and change
    nothing; an open descriptor on a regular file, the directory or the clock is
    free afterwards with result 0, the other descriptors are as before, and
    memory outside the PCB does not change.  What is left out is a pointer that
    is neither NULL nor the address of one of the five tables. *)
Theorem syscall_close_correct `{L : Layout} `{LOk : !LayoutOk L} (k : kernel) (i esp fd : Z) :
  0 <= i < 6 -> get_pcb_from_slot i < esp <= get_kernel_stack_base_from_slot i ->
  let pcb := get_pcb_from_slot i in
  let table := f_fops (kmem k) (fa pcb fd) in
  (fd < 0 \/ 8 <= fd \/ fd_used (kmem k) pcb fd = false \/
   table = 0 \/ table = stdin_fops \/ table = stdout_fops ->
   syscall_close k esp fd = Some (k, -1)) /\
  (0 <= fd < 8 -> fd_used (kmem k) pcb fd = true ->
   table = file_fops \/ table = dir_fops \/ table = rtc_fops ->
   exists k', syscall_close k esp fd = Some (k', 0) /\
     fd_used (kmem k') pcb fd = false /\
     (forall n, 0 <= n < 8 -> n <> fd ->
        load_bytes (kmem k') (fa pcb n) 16 = load_bytes (kmem k) (fa pcb n) 16) /\
     same_outside (kmem k) (kmem k') pcb (pcb + sizeof_pcb_t)).
Proof.
  intros Hi He. cbv zeta. set (pcb := get_pcb_from_slot i). set (table := f_fops (kmem k) (fa pcb fd)).
  pose proof (syscall_close_spec k i esp fd Hi He) as P. cbv zeta in P. fold pcb table in P.
  assert (R : forall x, x ∈ [file_fops; dir_fops; rtc_fops; stdin_fops; stdout_fops] -> 0 <> x)
    by (intros x Hx; pose proof (fops_range x Hx); lia).
  split.
  - intros H. destruct P as (m' & -> & P).
    { intros Hb%bad_fd_range Hu Ht. destruct H as [H|[H|[H|[H|[E|E]]]]]; try lia; try congruence;
        rewrite E; [rewrite (proj1 fops_at_std)|rewrite (proj2 fops_at_std)]; by eexists. }
    assert (C : closes (kmem k) pcb fd = false).
    { unfold closes, fd_ops. fold table. destruct (bad_fd fd) eqn:Hb; [done|]. apply bad_fd_range in Hb.
      destruct (fd_used (kmem k) pcb fd) eqn:Hu; [|done]. cbn [negb andb].
      destruct H as [H|[H|[H|[E|[E|E]]]]]; try lia; try discriminate H; rewrite E.
      - destruct (fops_at 0) eqn:Eo; [by destruct (fops_nonzero _ _ Eo)|done].
      - by rewrite (proj1 fops_at_std).
      - by rewrite (proj2 fops_at_std). }
    rewrite C in P |- *. by rewrite P, set_kmem_id.
  - intros Hfd Hu Ht.
    assert (Eo : exists o, fops_at table = Some o /\ has_close o = true).
    { destruct (fops_at_table 2 ltac:(lia)) as [T2 _], (fops_at_table 1 ltac:(lia)) as [T1 _],
        (fops_at_table 0 ltac:(lia)) as [T0 _].
      destruct Ht as [E|[E|E]]; rewrite E; eexists; (split; [eassumption|done]). }
    destruct Eo as (o & Eo & Hc). destruct P as (m' & -> & P); [by rewrite Eo|].
    assert (C : closes (kmem k) pcb fd = true)
      by (unfold closes, fd_ops; fold table; by rewrite Hu, (proj2 (bad_fd_range fd) Hfd), Eo).
    rewrite C in P |- *. destruct P as [F M]. exists (set_kmem k m'). split; [done|]. split; [exact F|].
    unfold fa, fa_offset, sizeof_file_t, sizeof_pcb_t in *. rewrite kmem_set_kmem. split.
    + intros n Hn Hne. apply load_bytes_ext. intros x Hx. apply M; lia.
    + intros x Hx. apply M; lia.
Qed.

(** Slot 0 with a regular file on descriptor 2. *)
Definition example_opened : kernel :=
  let f := fa (get_pcb_from_slot 0) 2 in
  set_kmem example_open (store32 (store32 (kmem example_open) f 0x409000) (f + 8) 1).

Lemma syscall_close_correct_witness :
  (exists k', syscall_close (L := example_layout) example_opened 0x7FFF00 2 = Some (k', 0) /\
              fd_used (kmem k') (get_pcb_from_slot 0) 2 = false) /\
  syscall_close (L := example_layout) example_opened 0x7FFF00 3 = Some (example_opened, -1).
Proof.
  destruct (syscall_close_correct (LOk := example_layout_ok) example_opened 0 0x7FFF00 2) as [_ T].
  { lia. }
  { split; vm_compute; congruence. }
  destruct T as (k' & E & F & _); [lia|vm_compute; reflexivity|left; vm_compute; reflexivity|].
  split; [exists k'; split; [exact E|exact F]|].
  destruct (syscall_close_correct (LOk := example_layout_ok) example_opened 0 0x7FFF00 3) as [T' _].
  { lia. }
  { split; vm_compute; congruence. }
  apply T'. right. right. left. vm_compute. reflexivity.
Defined.

(** Finding: the check of user pointers adds the length to the end of the page
    instead of subtracting it.  It accepts every buffer that lies in the
    program page, but also every buffer that starts in it and runs over its
    end, and buffers that start up to [nbytes] behind it: [vidmap] then stores
    through a pointer at 0x8400000, outside the page, where the page tables
    lead it (the process's video page) or into a page fault. *)
Theorem target_page_check (a n : Z) :
  0 <= n < 0x70000000 ->
  (in_target_page a n = true <-> 0x8000000 <= a < 0x8400000 + n) /\
  (0x8000000 <= a /\ a + n <= 0x8400000 /\ 0 < n -> in_target_page a n = true) /\
  (forall (k : kernel) esp,
     match user_addr k 0x8400000 with
     | Some p => exists k', syscall_vidmap k esp 0x8400000 = Some (k', 0) /\ load32 (kmem k') p = 0x8400000
     | None => syscall_vidmap k esp 0x8400000 = None
     end).
Proof.
  intros Hn. unfold in_target_page, PROCESS_VIRT_PAGE_START, PROCESS_PAGE_SIZE.
  rewrite u32_id by lia. rewrite andb_true_iff, Z.leb_le, Z.ltb_lt.
  split; [lia|]. split; [lia|]. intros k esp.
  unfold syscall_vidmap. change (negb (in_target_page (u32 0x8400000) 4)) with false. cbv iota zeta.
  destruct (user_addr k 0x8400000) as [p|]; [|done]. eexists. split; [reflexivity|].
  rewrite kmem_set_kmem, load32_store32_eq. reflexivity.
Qed.

Lemma target_page_check_witness : in_target_page 0x83FFFFF 100 = true /\ in_target_page 0x8400063 100 = true.
Proof.
  split; [apply (proj2 (proj1 (target_page_check 0x83FFFFF 100 ltac:(lia))))
         |apply (proj2 (proj1 (target_page_check 0x8400063 100 ltac:(lia))))]; lia.
Defined.
