(* ===== verification/Process.v ===== *)
(** The life of a process: execute, halt and the first programs
    ([kernel/syscall.c], [arch/x86/task.c]). *)

From S2P Require Import Prelude Memory Layout I8259 LibMem LibString CircularBuffer Paging.
From S2P Require Import Ece391Fs Fs Pcb Terminal Machine Rtc Syscall FileTable.

(** * Fields and frames *)

Lemma pcb_get_outside m m' p f lo hi :
  same_outside m m' lo hi ->
  p + pf_offset f + Z.of_nat (pf_width f) <= lo \/ hi <= p + pf_offset f ->
  pcb_get m' p f = pcb_get m p f.
Proof. intros H Hd. apply load_le_ext. intros x Hx. apply H. lia. Qed.

Lemma pcb_get_agree m m' p f :
  (forall x, p + pf_offset f <= x < p + pf_offset f + Z.of_nat (pf_width f) -> load8 m' x = load8 m x) ->
  pcb_get m' p f = pcb_get m p f.
Proof. apply load_le_ext. Qed.

Lemma load8_pcb_set m p f v x :
  x < p + pf_offset f \/ p + pf_offset f + Z.of_nat (pf_width f) <= x -> load8 (pcb_set m p f v) x = load8 m x.
Proof. apply load8_store_le_out. Qed.

Lemma open_std_outside `{L : Layout} m pcb :
  same_outside m (open_stdin_and_stdout m pcb) (pcb + 40) (pcb + 72).
Proof.
  intros x Hx. unfold open_stdin_and_stdout, fa, fa_offset, sizeof_file_t. cbv zeta.
  rewrite !load8_store32_ne by lia. done.
Qed.

(** Descriptors 0 and 1 are the terminal. *)
Definition fd_std `{L : Layout} (m : mem) (pcb : Z) : Prop :=
  f_fops m (fa pcb 0) = stdin_fops /\ f_flags m (fa pcb 0) = 1 /\
  f_fops m (fa pcb 1) = stdout_fops /\ f_flags m (fa pcb 1) = 1.

Lemma fd_std_same `{L : Layout} m m' pcb :
  fd_std m pcb -> (forall x, pcb + 40 <= x < pcb + 72 -> load8 m' x = load8 m x) -> fd_std m' pcb.
Proof.
  intros H M. unfold fd_std, f_fops, f_flags, fa, fa_offset, sizeof_file_t in *.
  assert (E : forall a, pcb + 40 <= a <= pcb + 68 -> load32 m' a = load32 m a)
    by (intros a Ha; apply load_le_ext; intros x Hx; simpl in Hx; apply M; lia).
  rewrite !E by lia. exact H.
Qed.

Lemma open_std_spec `{L : Layout} `{LOk : !LayoutOk L} m pcb : fd_std (open_stdin_and_stdout m pcb) pcb.
Proof.
  unfold fd_std, open_stdin_and_stdout, f_fops, f_flags, fa, fa_offset, sizeof_file_t. cbv zeta.
  pose proof lay_fops as F. rewrite !Forall_cons in F.
  destruct F as (_ & _ & _ & [I1 I2] & [O1 O2] & _). unfold KERNEL_PAGE_START, KERNEL_IMAGE_END in *.
  split_and!; rewrite ?load32_store32_ne by lia; rewrite load32_store32_eq; apply u32_id; lia.
Qed.

(** Resolve a field through assignments to the PCBs of two slots. *)
Ltac pcb_step :=
  first
    [ rewrite pcb_get_set_eq
    | rewrite pcb_get_set_ne by reflexivity
    | rewrite pcb_get_set_other by (reflexivity || lia) ].

(** Closed conditions on fields, and bounds on their offsets. *)
Ltac side := first [reflexivity | assumption | simpl; lia].

(** Everything in the PCB of [p] is the same. *)
Definition same_pcb (m m' : mem) (p : Z) : Prop :=
  forall x, p <= x < p + 452 -> load8 m' x = load8 m x.

Lemma same_pcb_get m m' p f : same_pcb m m' p -> in_pcb f = true -> pcb_get m' p f = pcb_get m p f.
Proof. intros H Hf. by apply pcb_get_ext. Qed.

Lemma same_pcb_trans m1 m2 m3 p : same_pcb m1 m2 p -> same_pcb m2 m3 p -> same_pcb m1 m3 p.
Proof. intros H H' x Hx. by rewrite H', H. Qed.

Lemma same_pcb_set m p q f v :
  in_pcb f = true -> p + 452 <= q \/ q + 452 <= p -> same_pcb m (pcb_set m q f v) p.
Proof. intros Hf Hd x Hx. apply (pcb_set_outside m q f v Hf). lia. Qed.

Lemma slot_pcbs_apart i j :
  0 <= i < 6 -> 0 <= j < 6 -> i <> j ->
  get_pcb_from_slot i + 8192 <= get_pcb_from_slot j \/ get_pcb_from_slot j + 8192 <= get_pcb_from_slot i.
Proof. intros. rewrite !pcb_from_slot_eq by done. lia. Qed.

Lemma slot_pcb_range i : 0 <= i < 6 -> 0x7F4000 <= get_pcb_from_slot i /\ get_pcb_from_slot i + 8192 <= 0x800000.
Proof. intros. rewrite pcb_from_slot_eq by done. lia. Qed.

(** * Free slots *)

Definition slot_used (m : mem) (i : Z) : bool := truthy (pcb_get m (get_pcb_from_slot i) in_use).

Lemma find_slot_spec n m i :
  match find_slot n m i with
  | None => forall j, i <= j < i + Z.of_nat n -> slot_used m j = true
  | Some (m', pcb) => exists j, i <= j < i + Z.of_nat n /\ slot_used m j = false /\
      pcb = get_pcb_from_slot j /\ m' = pcb_set m pcb slot_num j /\
      (forall j', i <= j' < j -> slot_used m j' = true)
  end.
Proof.
  revert i. induction n as [|n IH]; intros i; cbn [find_slot]; [lia|]. cbv zeta. fold (slot_used m i).
  destruct (slot_used m i) eqn:E; cbn [negb].
  - specialize (IH (i + 1)). destruct (find_slot n m (i + 1)) as [[m' pcb]|].
    + destruct IH as (j & Hj & F & -> & -> & H). exists j. split; [lia|]. split; [done|].
      split; [done|]. split; [done|]. intros j' Hj'.
      destruct (Z.eq_dec j' i) as [->|]; [done|]. apply H. lia.
    + intros j Hj. destruct (Z.eq_dec j i) as [->|]; [done|]. apply IH. lia.
  - exists i. split; [lia|]. split; [done|]. split; [done|]. split; [done|]. lia.
Qed.

Lemma find_slot_first m j :
  0 <= j < 6 -> slot_used m j = false -> (forall q, 0 <= q < j -> slot_used m q = true) ->
  find_slot (Z.to_nat MAX_PROCESSES) m 0
  = Some (pcb_set m (get_pcb_from_slot j) slot_num j, get_pcb_from_slot j).
Proof.
  intros Hj Hf Hlow. pose proof (find_slot_spec (Z.to_nat MAX_PROCESSES) m 0) as F.
  change (Z.of_nat (Z.to_nat MAX_PROCESSES)) with 6 in F.
  destruct (find_slot _ m 0) as [[m' pcb]|]; [|rewrite (F j) in Hf by lia; discriminate].
  destruct F as (j' & Hj' & Hf' & -> & -> & Hlow').
  destruct (Z.lt_trichotomy j j') as [H|[->|H]]; [|done|].
  - rewrite (Hlow' j) in Hf by lia. discriminate.
  - rewrite (Hlow j') in Hf' by lia. discriminate.
Qed.

Lemma find_slot_full m :
  (forall q, 0 <= q < 6 -> slot_used m q = true) -> find_slot (Z.to_nat MAX_PROCESSES) m 0 = None.
Proof.
  intros H. pose proof (find_slot_spec (Z.to_nat MAX_PROCESSES) m 0) as F.
  destruct (find_slot _ m 0) as [[m' pcb]|]; [|done].
  destruct F as (j & Hj & Hf & _). change (Z.of_nat (Z.to_nat MAX_PROCESSES)) with 6 in Hj.
  rewrite (H j) in Hf by lia. discriminate.
Qed.

(** * Starting a child *)

(** The fields of a process that its own call of [execute] leaves alone. *)
Definition kept_fields : list pcb_field :=
  [parent; process_pd_ptr; entrypoint; slot_num; pid; in_use; terminal_num;
   rtc_enabled; rtc_interval; remaining_rtc_ticks].

Lemma kept_fields_in_pcb f : f ∈ kept_fields -> in_pcb f = true.
Proof.
  unfold kept_fields. rewrite !elem_of_cons. intros Hf.
  repeat (destruct Hf as [->|Hf]; [reflexivity|]). by apply elem_of_nil in Hf.
Qed.


#[local] Opaque setup_process_paging set_process_vmem_page pcb_set pcb_get open_stdin_and_stdout.

Section start.
Context `{L : Layout} `{LOk : !LayoutOk L} (junk : Z -> Z).
Context (k : kernel) (i j entry esp ebp : Z).
Hypotheses (Hi : 0 <= i < 6) (Hj : 0 <= j < 6) (Hij : i <> j)
           (Hslot : pcb_get (kmem k) (get_pcb_from_slot j) slot_num = j)
           (Hentry : 0 <= entry < 0x100000000) (Hesp : 0 <= esp < 0x100000000)
           (Hebp : 0 <= ebp < 0x100000000).
Let P := get_pcb_from_slot i.
Let C := get_pcb_from_slot j.
Let k' := start_child junk k P C entry esp ebp.
Let vmem := get_terminal_output_buffer (ktty k) (pcb_get (kmem k) P terminal_num).

(** The memory after each stage: page tables, video page, fields. *)
Let m1 := pcb_set (kmem k) C entrypoint entry.
Let m2 := (setup_process_paging junk m1 (get_process_page_from_slot j) j vmem).1.
Let m3 := pcb_set m2 C process_pd_ptr (get_process_pd j).
Let m4 := set_process_vmem_page m3 j vmem.
Let m5 := pcb_set (pcb_set (pcb_set (pcb_set m4 C parent P) C child 0) P child C) C in_use 1.
Let m6 := pcb_set m5 C pid (next_pid k).
Let m7 := pcb_set m6 C terminal_num (pcb_get m6 P terminal_num).
Let m8 := pcb_set (pcb_set m7 C status PROCESS_RUNNING) P status PROCESS_BLOCKED.
Let m9 := open_stdin_and_stdout m8 C.

Lemma pcbs_apart : P + 8192 <= C \/ C + 8192 <= P.
Proof. by apply slot_pcbs_apart. Qed.

Lemma tables_apart q x :
  0 <= q < 6 -> get_pcb_from_slot q <= x < get_pcb_from_slot q + 8192 ->
  (x < get_process_pd j \/ get_process_pd j + 0x2000 <= x) /\ (x < vmem_pt \/ vmem_pt + 4096 <= x).
Proof.
  intros Hq Hx. pose proof (slot_pcb_range q Hq). destruct (slot_tables j Hj) as (_ & Hlo & Hhi & _).
  destruct lay_vmem_pt as [[_ Hv] _]. unfold KERNEL_IMAGE_END in Hv. lia.
Qed.

(** Page tables do not meet PCBs. *)
Lemma paging_pcb q f :
  0 <= q < 6 -> in_pcb f = true ->
  pcb_get m2 (get_pcb_from_slot q) f = pcb_get m1 (get_pcb_from_slot q) f /\
  pcb_get m4 (get_pcb_from_slot q) f = pcb_get m3 (get_pcb_from_slot q) f.
Proof.
  intros Hq Hf. split; (apply pcb_get_ext; [done|]); intros x Hx;
    destruct (tables_apart q x Hq ltac:(lia)) as [T V].
  - by apply setup_outside.
  - by apply set_vmem_outside.
Qed.

Lemma slot_num_kept :
  pcb_get m1 C slot_num = j /\ pcb_get m3 C slot_num = j /\ pcb_get m9 C slot_num = j.
Proof.
  pose proof pcbs_apart as A.
  assert (E1 : pcb_get m1 C slot_num = j) by (unfold m1; rewrite pcb_get_set_ne by reflexivity; exact Hslot).
  assert (E3 : pcb_get m3 C slot_num = j).
  { unfold m3. rewrite pcb_get_set_ne by reflexivity.
    destruct (paging_pcb j slot_num Hj eq_refl) as [E _]. fold C in E. by rewrite E. }
  split; [done|]. split; [done|].
  rewrite (pcb_get_outside m8 m9 C slot_num _ _ (open_std_outside m8 C)) by (simpl; lia).
  unfold m8, m7, m6, m5. repeat pcb_step.
  destruct (paging_pcb j slot_num Hj eq_refl) as [_ E]. fold C in E. by rewrite E.
Qed.

Lemma start_child_eq :
  kmem k' = pcb_set (pcb_set m9 P regs_esp esp) P regs_ebp ebp /\
  cr3 k' = get_process_pd j /\ tss_esp0 k' = get_kernel_stack_base_from_slot j /\
  tss_ss0 k' = KERNEL_DS /\ next_pid k' = u32 (next_pid k + 1) /\ kfs k' = kfs k.
Proof.
  destruct slot_num_kept as (E1 & E3 & E9).
  assert (Hterm : pcb_get m1 P terminal_num = pcb_get (kmem k) P terminal_num).
  { pose proof pcbs_apart. unfold m1. by rewrite pcb_get_set_other by (reflexivity || lia). }
  assert (Hpd : pcb_get m4 C process_pd_ptr = get_process_pd j).
  { destruct (paging_pcb j process_pd_ptr Hj eq_refl) as [_ E]. fold C in E. rewrite E.
    unfold m3. rewrite pcb_get_set_eq. apply Z.mod_small.
    destruct (slot_tables j Hj) as (_ & Hlo & Hhi & _). simpl. lia. }
  unfold k', start_child. cbv zeta.
  rewrite !kmem_set_kmem. fold m1. rewrite Hterm, E1.
  change (get_terminal_output_buffer (ktty (set_kmem k m1))) with (get_terminal_output_buffer (ktty k)).
  fold vmem.
  rewrite setup_pair. fold m2. cbv beta iota. fold m3. rewrite E3. fold m4. fold m5. rewrite Hpd.
  cbn [get_next_pid next_pid]. cbv beta iota.
  change (next_pid (enable_paging (set_kmem (set_kmem k m1) m4) (get_process_pd j))) with (next_pid k).
  fold m6. fold m7. fold m8. fold m9. rewrite E9.
  assert (Hb : u32 (get_kernel_stack_base_from_slot j) = get_kernel_stack_base_from_slot j)
    by (unfold get_kernel_stack_base_from_slot; apply u32_u32).
  unfold set_kernel_stack. cbv zeta. rewrite Hb.
  split; [reflexivity|]. split; [reflexivity|]. split; [reflexivity|]. split; [reflexivity|].
  split; reflexivity.
Qed.

(** A field outside the standard streams, before the descriptors were
    opened; and before the page tables were written. *)
Lemma field_m9 q f :
  0 <= q < 6 -> in_pcb f = true ->
  pf_offset f + Z.of_nat (pf_width f) <= 40 \/ 72 <= pf_offset f ->
  pcb_get m9 (get_pcb_from_slot q) f = pcb_get m8 (get_pcb_from_slot q) f.
Proof.
  intros Hq Hf%in_pcb_bounds Ho. apply (pcb_get_outside m8 m9 _ f _ _ (open_std_outside m8 C)).
  unfold C. destruct (Z.eq_dec q j) as [->|Hne]; [lia|].
  pose proof (slot_pcbs_apart q j Hq Hj Hne). lia.
Qed.

Lemma field_m4 q f :
  0 <= q < 6 -> in_pcb f = true -> q <> j \/ fields_apart process_pd_ptr f = true ->
  q <> j \/ fields_apart entrypoint f = true ->
  pcb_get m4 (get_pcb_from_slot q) f = pcb_get (kmem k) (get_pcb_from_slot q) f.
Proof.
  intros Hq Hf H1 H2. destruct (paging_pcb q f Hq Hf) as [E2 E4]. rewrite E4. unfold m3, C.
  destruct (Z.eq_dec q j) as [->|Hne].
  - destruct H1 as [?|H1]; [congruence|]. destruct H2 as [?|H2]; [congruence|].
    rewrite pcb_get_set_ne, E2 by assumption. unfold m1, C. apply pcb_get_set_ne. assumption.
  - pose proof (slot_pcbs_apart q j Hq Hj Hne).
    rewrite pcb_get_set_other, E2 by side. unfold m1, C. apply pcb_get_set_other; side.
Qed.

(** The child is set up. *)
Lemma start_child_child :
  pcb_get (kmem k') C parent = P /\ pcb_get (kmem k') C child = 0 /\
  pcb_get (kmem k') C in_use = 1 /\ pcb_get (kmem k') C status = PROCESS_RUNNING /\
  pcb_get (kmem k') C terminal_num = pcb_get (kmem k) P terminal_num /\
  pcb_get (kmem k') C entrypoint = entry /\ pcb_get (kmem k') C slot_num = j /\
  pcb_get (kmem k') C process_pd_ptr = get_process_pd j /\
  pcb_get (kmem k') C pid = u32 (next_pid k).
Proof.
  pose proof pcbs_apart as A. destruct start_child_eq as (EM & _).
  destruct slot_num_kept as (_ & _ & E9).
  pose proof (slot_pcb_range i Hi) as RP. fold P in RP.
  destruct (slot_tables j Hj) as (_ & Tlo & Thi & _).
  pose proof (pcb_get_range (kmem k) P terminal_num) as RT.
  assert (ET : pcb_get m6 P terminal_num = pcb_get (kmem k) P terminal_num).
  { unfold m6, m5. repeat pcb_step. apply (field_m4 i); auto. }
  pose proof (fun f => field_m9 j f Hj) as F9. fold C in F9.
  rewrite EM. clear EM. split_and!; rewrite !pcb_get_set_other by (reflexivity || lia).
  - rewrite (F9 parent) by side. unfold m8, m7, m6, m5. fold C. repeat pcb_step.
    apply Z.mod_small. simpl. lia.
  - rewrite (F9 child) by side. unfold m8, m7, m6, m5. fold C. repeat pcb_step. reflexivity.
  - rewrite (F9 in_use) by side. unfold m8, m7, m6, m5. fold C. repeat pcb_step. reflexivity.
  - rewrite (F9 status) by side. unfold m8, m7, m6, m5. fold C. repeat pcb_step. reflexivity.
  - rewrite (F9 terminal_num) by side. unfold m8, m7. fold C. repeat pcb_step.
    rewrite ET. apply Z.mod_small. exact RT.
  - rewrite (F9 entrypoint) by side. unfold m8, m7, m6, m5. fold C. repeat pcb_step.
    destruct (paging_pcb j entrypoint Hj eq_refl) as [E2 E4]. fold C in E2, E4. rewrite E4. unfold m3.
    pcb_step. rewrite E2. unfold m1. pcb_step. apply Z.mod_small. simpl. lia.
  - exact E9.
  - rewrite (F9 process_pd_ptr) by side. unfold m8, m7, m6, m5. fold C.
    repeat pcb_step. destruct (paging_pcb j process_pd_ptr Hj eq_refl) as [_ E4]. fold C in E4.
    rewrite E4. unfold m3. pcb_step. apply Z.mod_small. simpl. lia.
  - rewrite (F9 pid) by side. unfold m8, m7, m6. fold C. repeat pcb_step. reflexivity.
Qed.

(** The parent waits for it. *)
Lemma start_child_parent :
  pcb_get (kmem k') P child = C /\ pcb_get (kmem k') P status = PROCESS_BLOCKED /\
  pcb_get (kmem k') P regs_esp = esp /\ pcb_get (kmem k') P regs_ebp = ebp /\
  (forall f, f ∈ kept_fields ->
     pcb_get (kmem k') P f = pcb_get (kmem k) P f).
Proof.
  pose proof pcbs_apart as A. destruct start_child_eq as (EM & _).
  pose proof (slot_pcb_range j Hj) as RC. fold C in RC. rewrite EM. clear EM.
  pose proof (fun f => field_m9 i f Hi) as F9. pose proof (fun f => field_m4 i f Hi) as F4.
  fold P in F9, F4. split_and!.
  - repeat pcb_step. rewrite (F9 child) by side. unfold m8, m7, m6, m5. fold P.
    repeat pcb_step. apply Z.mod_small. simpl. lia.
  - repeat pcb_step. rewrite (F9 status) by side. unfold m8. fold P.
    repeat pcb_step. reflexivity.
  - repeat pcb_step. apply Z.mod_small. simpl. lia.
  - repeat pcb_step. apply Z.mod_small. simpl. lia.
  - intros f Hf. unfold kept_fields in Hf. rewrite !elem_of_cons in Hf.
    repeat (destruct Hf as [->|Hf]; [repeat pcb_step;
      rewrite F9 by side; unfold m8, m7, m6, m5; repeat pcb_step;
      apply F4; auto|]). by apply elem_of_nil in Hf.
Qed.

(** Nothing else in memory changes, so other slots are not affected, and the
    child's page tables are right. *)
Lemma start_child_outside x :
  (x < P \/ P + 452 <= x) -> (x < C \/ C + 452 <= x) ->
  (x < get_process_pd j \/ get_process_pd j + 0x2000 <= x) -> (x < vmem_pt \/ vmem_pt + 4096 <= x) ->
  load8 (kmem k') x = load8 (kmem k) x.
Proof.
  intros XP XC T V. destruct start_child_eq as (EM & _). rewrite EM.
  assert (S : forall m p f v, in_pcb f = true -> p = P \/ p = C -> load8 (pcb_set m p f v) x = load8 m x).
  { intros m p f v Hf Hp. apply (pcb_set_outside m p f v Hf). destruct Hp; subst p; lia. }
  rewrite !S by auto. unfold m9. rewrite open_std_outside by lia.
  unfold m8, m7, m6, m5. rewrite !S by auto. unfold m4. rewrite set_vmem_outside by assumption.
  unfold m3. rewrite S by auto. unfold m2. rewrite setup_outside by assumption. unfold m1.
  rewrite S by auto. reflexivity.
Qed.

(** The name and the arguments of the child stay. *)
Lemma start_child_strings x : C + 72 <= x < C + 424 -> load8 (kmem k') x = load8 (kmem k) x.
Proof.
  intros Hx. destruct start_child_eq as (EM & _). rewrite EM. pose proof pcbs_apart as A.
  destruct (tables_apart j x Hj ltac:(fold C; lia)) as [T V].
  rewrite !load8_pcb_set by (simpl; lia). unfold m9. rewrite open_std_outside by lia.
  unfold m8, m7, m6, m5. rewrite !load8_pcb_set by (simpl; lia). unfold m4. rewrite set_vmem_outside by assumption.
  unfold m3. rewrite load8_pcb_set by (simpl; lia). unfold m2. rewrite setup_outside by assumption.
  unfold m1. rewrite load8_pcb_set by (simpl; lia). reflexivity.
Qed.

Lemma start_child_tty :
  terms (ktty k') = terms (ktty k) /\ active_terminal (ktty k') = active_terminal (ktty k) /\
  single_terminal (ktty k') = single_terminal (ktty k).
Proof.
  unfold k', start_child. cbv zeta. destruct (setup_process_paging _ _ _ _ _) as [m pd].
  split; [reflexivity|]. split; reflexivity.
Qed.

(** The descriptors and most fields of the parent stay. *)
Lemma start_child_parent_bytes x : P + 20 <= x < P + 448 -> load8 (kmem k') x = load8 (kmem k) x.
Proof.
  intros Hx. destruct start_child_eq as (EM & _). rewrite EM. pose proof pcbs_apart as A.
  destruct (tables_apart i x Hi ltac:(fold P; lia)) as [T V].
  rewrite !load8_pcb_set by (simpl; lia). unfold m9. rewrite open_std_outside by lia.
  unfold m8, m7, m6, m5. rewrite !load8_pcb_set by (simpl; lia). unfold m4. rewrite set_vmem_outside by assumption.
  unfold m3. rewrite load8_pcb_set by (simpl; lia). unfold m2. rewrite setup_outside by assumption.
  unfold m1. rewrite load8_pcb_set by (simpl; lia). reflexivity.
Qed.

(** The child's standard descriptors. *)
Lemma start_child_std :
  fd_std (kmem k') C.
Proof.
  destruct start_child_eq as (EM & _). rewrite EM. pose proof pcbs_apart as A.
  apply (fd_std_same m9); [apply open_std_spec|]. intros x Hx. rewrite !load8_pcb_set by (simpl; lia). reflexivity.
Qed.

Lemma start_child_others q :
  0 <= q < 6 -> q <> i -> q <> j -> same_pcb (kmem k) (kmem k') (get_pcb_from_slot q).
Proof.
  intros Hq Hqi Hqj x Hx.
  pose proof (slot_pcbs_apart q i Hq Hi Hqi) as AP. pose proof (slot_pcbs_apart q j Hq Hj Hqj) as AC.
  fold P in AP. fold C in AC. destruct (tables_apart q x Hq ltac:(lia)) as [T V].
  apply start_child_outside; lia.
Qed.

(** The assignments to PCBs keep page tables. *)
Lemma pcb_sets_space q pa va :
  0 <= q < 6 -> space_ok m4 q pa va -> space_ok (kmem k') q pa va.
Proof.
  intros Hq. destruct start_child_eq as (EM & _). rewrite EM. apply space_ok_ext. intros x Hx.
  pose proof (slot_pcb_range j Hj) as RC. fold C in RC. pose proof (slot_pcb_range i Hi) as RP. fold P in RP.
  destruct (slot_tables q Hq) as (_ & Tlo & Thi & _), lay_vmem_pt as [[V1 V2] _].
  unfold KERNEL_IMAGE_END in V2.
  assert (S : forall m p f v, in_pcb f = true -> p = P \/ p = C -> load8 (pcb_set m p f v) x = load8 m x).
  { intros m p f v Hf Hp. apply (pcb_set_outside m p f v Hf). destruct Hp; subst p; lia. }
  rewrite !S by auto. unfold m9. rewrite open_std_outside by lia.
  unfold m8, m7, m6, m5. rewrite !S by auto. reflexivity.
Qed.

Lemma child_pcb_space m f v q pa va :
  0 <= q < 6 -> in_pcb f = true -> space_ok m q pa va -> space_ok (pcb_set m C f v) q pa va.
Proof.
  intros Hq Hf. apply space_ok_ext. intros x Hx. apply (pcb_set_outside m C f v Hf).
  pose proof (slot_pcb_range j Hj) as RC. fold C in RC.
  destruct (slot_tables q Hq) as (_ & Tlo & Thi & _), lay_vmem_pt as [[V1 V2] _].
  unfold KERNEL_IMAGE_END in V2. lia.
Qed.

Lemma start_child_other_space q pa va :
  0 <= q < 6 -> q <> j -> space_ok (kmem k) q pa va -> space_ok (kmem k') q pa va.
Proof.
  intros Hq Hne S. apply pcb_sets_space; [done|]. apply set_vmem_other; [done..|].
  apply child_pcb_space; [done..|]. apply setup_other; [done..|]. by apply child_pcb_space.
Qed.

Lemma start_child_space :
  0 <= vmem < 0x100000000 ->
  space_ok (kmem k') j (get_process_page_from_slot j) vmem.
Proof.
  intros Hv. apply pcb_sets_space; [done|].
  apply (set_vmem_space junk m3 j (get_process_page_from_slot j) vmem vmem Hj Hv).
  apply child_pcb_space; [done..|]. pose proof (process_page_eq j Hj) as Ep.
  assert (Hal : get_process_page_from_slot j mod 0x400000 = 0) by (rewrite Ep; divlia).
  exact (setup_space junk m1 j (get_process_page_from_slot j) vmem Hj ltac:(lia) Hal Hv).
Qed.
End start.

#[local] Transparent pcb_set pcb_get.

(** * Closing all descriptors *)

(** Every open descriptor has one of the kernel's tables of operations. *)
Definition fds_ok `{L : Layout} (m : mem) (pcb : Z) : Prop :=
  forall n, 0 <= n < 8 -> fd_used m pcb n = true -> is_Some (fops_at (f_fops m (fa pcb n))).

Definition fds_okb `{L : Layout} (m : mem) (pcb : Z) : bool :=
  forallb (fun n => negb (fd_used m pcb n) || bool_decide (is_Some (fops_at (f_fops m (fa pcb n)))))
    (seqZ 0 8).

Lemma fds_okb_spec `{L : Layout} m pcb : fds_okb m pcb = true -> fds_ok m pcb.
Proof.
  intros H n Hn Hu. unfold fds_okb in H. rewrite forallb_forall in H. specialize (H n).
  rewrite <- list_elem_of_In, elem_of_seqZ in H. specialize (H ltac:(lia)).
  rewrite Hu in H. by apply bool_decide_eq_true_1 in H.
Qed.

(** Outside the descriptors and the [rtc_enabled] byte. *)
Definition off_files (pcb x : Z) : Prop := (x < pcb + 40 \/ pcb + 168 <= x) /\ x <> pcb + 438.

Lemma closes_same `{L : Layout} m m' pcb q :
  f_fops m' (fa pcb q) = f_fops m (fa pcb q) -> fd_used m' pcb q = fd_used m pcb q ->
  closes m' pcb q = closes m pcb q.
Proof. intros Ef Eu. unfold closes, fd_ops. by rewrite Ef, Eu. Qed.

(** One close, seen from all descriptors. *)
Lemma close_one `{L : Layout} `{LOk : !LayoutOk L} k i esp j :
  0 <= i < 6 -> get_pcb_from_slot i < esp <= get_kernel_stack_base_from_slot i ->
  let pcb := get_pcb_from_slot i in
  let m := kmem k in
  fds_ok m pcb -> 0 <= j < 8 ->
  exists m' r, syscall_close k esp j = Some (set_kmem k m', r) /\
    (forall x, off_files pcb x -> load8 m' x = load8 m x) /\
    (forall q, 0 <= q < 8 -> f_fops m' (fa pcb q) = f_fops m (fa pcb q) /\
       fd_used m' pcb q = fd_used m pcb q && negb ((q =? j) && closes m pcb q)).
Proof.
  intros Hi He pcb m Hok Hj. destruct (syscall_close_spec k i esp j Hi He) as (m' & E & P).
  { intros _ Hu _. by apply Hok. }
  fold pcb m in E, P. exists m', (if closes m pcb j then 0 else -1). split; [exact E|].
  destruct (closes m pcb j) eqn:Ec.
  - destruct P as [F M]. unfold off_files, fd_used, flags_in_use, f_flags, f_fops, load32, fa,
      fa_offset, sizeof_file_t in *. split; [intros x [? ?]; apply M; lia|].
    intros q Hq. split.
    + apply load_le_ext. intros x Hx. simpl in Hx. apply M; lia.
    + destruct (Z.eqb_spec q j) as [->|Hne]; cbn [negb andb].
      * rewrite Ec, F. by rewrite andb_false_r.
      * rewrite andb_true_r. do 2 f_equal. apply load_le_ext. intros x Hx. simpl in Hx. apply M; lia.
  - subst m'. split; [done|]. intros q Hq. split; [done|].
    destruct (Z.eqb_spec q j) as [->|]; cbn [negb andb]; [rewrite Ec|]; by rewrite andb_true_r.
Qed.

Lemma close_all_spec `{L : Layout} `{LOk : !LayoutOk L} n k i esp j :
  0 <= i < 6 -> get_pcb_from_slot i < esp <= get_kernel_stack_base_from_slot i ->
  let pcb := get_pcb_from_slot i in
  let m := kmem k in
  fds_ok m pcb -> 0 <= j -> j + Z.of_nat n <= 8 ->
  exists m', close_all n k esp j = Some (set_kmem k m') /\
    (forall x, off_files pcb x -> load8 m' x = load8 m x) /\
    (forall q, 0 <= q < 8 -> f_fops m' (fa pcb q) = f_fops m (fa pcb q) /\
       fd_used m' pcb q
       = fd_used m pcb q && negb ((j <=? q) && (q <? j + Z.of_nat n) && closes m pcb q)).
Proof.
  intros Hi He pcb. revert k j. induction n as [|n IH]; intros k j m Hok Hj Hn; cbn [close_all].
  - exists m. unfold m. rewrite set_kmem_id. split; [done|]. split; [done|]. intros q Hq. split; [done|].
    destruct (Z.leb_spec j q); [|cbn; by rewrite andb_true_r].
    destruct (Z.ltb_spec q (j + Z.of_nat 0)); [lia|]. cbn. by rewrite andb_true_r.
  - destruct (close_one k i esp j Hi He Hok ltac:(lia)) as (m1 & r & -> & M1 & D1).
    cbn [mbind option_bind]. fold pcb m in M1, D1.
    destruct (IH (set_kmem k m1) (j + 1)) as (m' & -> & M' & D'); try lia.
    { rewrite kmem_set_kmem. intros q Hq Hu. destruct (D1 q Hq) as [-> E]. apply Hok; [done|].
      fold m. rewrite E in Hu. apply andb_true_iff in Hu as [Hu _]. exact Hu. }
    rewrite kmem_set_kmem in M', D'. exists m'. split; [done|].
    split; [intros x Hx; rewrite M' by exact Hx; by apply M1|].
    intros q Hq. destruct (D1 q Hq) as [F1 U1], (D' q Hq) as [F' U']. split; [by rewrite F'|].
    rewrite U', U1. destruct (Z.eqb_spec q j) as [->|Hne]; cbn [andb].
    + destruct (Z.leb_spec (j + 1) j), (Z.leb_spec j j), (Z.ltb_spec j (j + Z.of_nat (S n))); try lia.
      cbn [andb negb]. by rewrite andb_true_r.
    + cbn [negb]. rewrite andb_true_r. rewrite (closes_same m m1 pcb q F1)
        by (rewrite U1; apply andb_true_r).
      destruct (Z.leb_spec (j + 1) q), (Z.leb_spec j q), (Z.ltb_spec q (j + 1 + Z.of_nat n)),
        (Z.ltb_spec q (j + Z.of_nat (S n))); try lia; done.
Qed.

(** * Halting *)

(** Fields that closing descriptors does not touch. *)
Definition kept_field (f : pcb_field) : bool :=
  in_pcb f && ((pf_offset f + Z.of_nat (pf_width f) <=? 40) || (168 <=? pf_offset f))
  && fields_apart rtc_enabled f.

Lemma kept_field_get m m' pcb f :
  (forall x, off_files pcb x -> load8 m' x = load8 m x) -> kept_field f = true ->
  pcb_get m' pcb f = pcb_get m pcb f.
Proof.
  intros M Hf. unfold kept_field in Hf. rewrite !andb_true_iff, orb_true_iff, !Z.leb_le in Hf.
  destruct Hf as [[Hb Ho] Ha]. apply load_le_ext. intros x Hx. apply M. unfold off_files.
  unfold fields_apart in Ha. apply orb_true_iff in Ha. rewrite !Z.leb_le in Ha. simpl in Ha. lia.
Qed.

Section halting.
Context `{L : Layout} `{LOk : !LayoutOk L}.
Context (k : kernel) (i j esp exit_status : Z).
Hypotheses (Hi : 0 <= i < 6) (Hj : 0 <= j < 6) (Hij : i <> j)
           (He : get_pcb_from_slot j < esp <= get_kernel_stack_base_from_slot j)
           (Hparent : pcb_get (kmem k) (get_pcb_from_slot j) parent = get_pcb_from_slot i)
           (Hslot : pcb_get (kmem k) (get_pcb_from_slot i) slot_num = i)
           (Hfds : fds_ok (kmem k) (get_pcb_from_slot j)).
Let P := get_pcb_from_slot i.
Let C := get_pcb_from_slot j.

(** The descriptors of [C] in a memory that agrees outside [in_use]. *)
Lemma in_use_files m v q :
  0 <= q < 8 -> f_fops (pcb_set m C in_use v) (fa C q) = f_fops m (fa C q) /\
  fd_used (pcb_set m C in_use v) C q = fd_used m C q.
Proof.
  intros Hq. unfold fd_used, flags_in_use, f_flags, f_fops, pcb_set, load32, fa, fa_offset, sizeof_file_t.
  cbn [pf_offset pf_width in_use]. rewrite !load_le_store_le_ne by (simpl; lia). done.
Qed.

Lemma halt_program_spec :
  exists m', halt_program k esp exit_status
    = Some (set_kernel_stack (enable_paging (set_kmem k m') (pcb_get (kmem k) P process_pd_ptr))
              (get_kernel_stack_base_from_slot i),
            Resume_kernel (pcb_get (kmem k) P regs_esp) (pcb_get (kmem k) P regs_ebp) exit_status) /\
    pcb_get m' C in_use = 0 /\ pcb_get m' C status = PROCESS_NONE /\
    pcb_get m' P status = PROCESS_RUNNING /\
    (forall x, x < C \/ C + sizeof_pcb_t <= x -> x < P + 448 \/ P + 452 <= x ->
       load8 m' x = load8 (kmem k) x) /\
    (forall q, 0 <= q < 8 -> fd_used m' C q = fd_used (kmem k) C q && negb (closes (kmem k) C q)).
Proof.
  pose proof (slot_pcbs_apart i j Hi Hj Hij) as A. fold P C in A.
  unfold halt_program, get_current_pcb. rewrite (pcb_from_esp_eq j Hj esp He). cbv zeta. fold C.
  set (m1 := pcb_set (kmem k) C in_use 0).
  destruct (close_all_spec 8 (set_kmem k m1) j esp 0 Hj He) as (m2 & E & M2 & D2);
    [|lia|simpl; lia|].
  { rewrite kmem_set_kmem. intros q Hq. fold C. destruct (in_use_files (kmem k) 0 q Hq) as [Ef Eu].
    fold m1 in Ef, Eu. rewrite Ef, Eu. by apply Hfds. }
  change (Z.to_nat MAX_FILE_DESCRIPTORS) with 8%nat. rewrite E. cbn [mbind option_bind].
  rewrite !kmem_set_kmem in *. fold C in M2, D2.
  assert (M1 : forall x, x < C \/ C + 452 <= x -> load8 m1 x = load8 (kmem k) x).
  { intros x Hx. by apply (pcb_set_outside (kmem k) C in_use 0 eq_refl). }
  assert (Eparent : pcb_get m2 C parent = P).
  { rewrite (kept_field_get m1) by done. unfold m1. rewrite pcb_get_set_ne by reflexivity. exact Hparent. }
  rewrite Eparent. pose proof (slot_pcb_range i Hi) as RP. fold P in RP.
  rewrite (proj2 (Z.eqb_neq P 0)) by lia. cbv zeta.
  set (m3 := pcb_set m2 C status PROCESS_NONE). set (m4 := pcb_set m3 P status PROCESS_RUNNING).
  assert (EP : forall f, in_pcb f = true -> fields_apart status f = true ->
             pcb_get m4 P f = pcb_get (kmem k) P f).
  { intros f Hf Ha. unfold m4, m3. rewrite pcb_get_set_ne, pcb_get_set_other by side.
    apply pcb_get_ext; [done|]. intros x Hx. rewrite M2, M1 by (unfold off_files; lia). done. }
  rewrite !EP by reflexivity. fold P in Hslot. rewrite Hslot. exists m4. split; [reflexivity|].
  split_and!.
  - unfold m4, m3. rewrite pcb_get_set_other, pcb_get_set_ne by side.
    rewrite (kept_field_get m1) by done. unfold m1. rewrite pcb_get_set_eq. reflexivity.
  - unfold m4. rewrite pcb_get_set_other by side. unfold m3. rewrite pcb_get_set_eq. reflexivity.
  - unfold m4. rewrite pcb_get_set_eq. reflexivity.
  - intros x Hx Hx'. unfold sizeof_pcb_t in Hx. unfold m4, m3, pcb_set.
    rewrite !load8_store_le_out by (simpl; lia). rewrite M2, M1 by (unfold off_files; lia). done.
  - intros q Hq. destruct (D2 q Hq) as [_ U2], (in_use_files (kmem k) 0 q Hq) as [F1 U1].
    fold m1 in F1, U1. rewrite (closes_same (kmem k) m1 C q F1 U1), U1 in U2.
    destruct (Z.leb_spec 0 q), (Z.ltb_spec q (0 + Z.of_nat 8)); try lia. cbn [andb] in U2. rewrite <- U2.
    unfold fd_used, flags_in_use, f_flags, load32, fa, fa_offset, sizeof_file_t.
    do 2 f_equal. apply load_le_ext. intros x Hx. simpl in Hx. unfold m4, m3, pcb_set.
    rewrite !load8_store_le_out by (simpl; lia). done.
Qed.
End halting.
