(* ===== verification/Execute.v ===== *)
(** Running programs: [syscall_execute] and [syscall_halt], and the two
    together ([kernel/syscall.c], [arch/x86/task.c]). *)

From S2P Require Import Prelude Memory Layout I8259 LibMem LibString CircularBuffer Paging.
From S2P Require Import Ece391Fs Fs Pcb Terminal Machine Rtc Syscall FileTable Process.

(** The contents of the file with a given name. *)
Definition find_file (m : mem) (fs : fs_ptrs) (name : list Z) : option (list Z) :=
  (fun d => file_bytes m fs (dentry_inode_num m (directory_entry fs d))) <$> dir_lookup m fs name.

(** What [entry] may be for a file: no program, or its entry point. *)
Definition entry_of (file : option (list Z)) (entry : Z) : Prop :=
  match file with
  | None => entry = 0
  | Some file =>
      (zlen file <= 4 \/ take 4 file <> ELF_MAGIC_HEADER -> entry = 0) /\
      (28 <= zlen file -> entry = executable_entry file)
  end.

Lemma load_program_range `{L : Layout} m fs local filename slot :
  0 <= (load_program_into_slot m fs local filename slot).2 < 0x100000000.
Proof.
  unfold load_program_into_slot. destruct (read_file_by_name _ _ _ _ _ _) as [m' r].
  destruct (r <? 0); [simpl; lia|]. destruct (r <=? _); [simpl; lia|]. unfold snd, get_executable_entrypoint.
  destruct (truthy _); [lia|]. apply load32_range.
Qed.

Lemma image_find_file m m' fs name :
  fs_ok m fs -> same_image m m' fs ->
  (forall d, dir_lookup m fs name = Some d ->
     inode_ok m fs (dentry_inode_num m (directory_entry fs d))) ->
  find_file m' fs name = find_file m fs name /\
  (forall d, dir_lookup m' fs name = Some d ->
     inode_ok m' fs (dentry_inode_num m' (directory_entry fs d))).
Proof.
  intros Hfs Hs Hino. unfold find_file. rewrite (image_dir_lookup m m' fs name Hfs Hs).
  destruct (dir_lookup m fs name) as [d|] eqn:Ed; [|done].
  destruct (dir_lookup_bounds _ _ _ _ Ed) as (Hd & _ & _). specialize (Hino d eq_refl).
  cbn [fmap option_fmap option_map]. rewrite (image_dentry_inode m m' fs d Hfs Hs Hd). split.
  - f_equal. by apply image_file_bytes.
  - intros d' [= <-]. rewrite (image_dentry_inode m m' fs d Hfs Hs Hd). by apply (same_image_inode_ok m).
Qed.

(** * Parsing a command and loading its program into a slot *)

Section loading.
Context `{L : Layout} `{LOk : !LayoutOk L}.
Context (m : mem) (fs : fs_ptrs) (local command j : Z) (l : list Z).
Let C := get_pcb_from_slot j.

(** The command is a string outside the PCB whose parts fit it; the image is
    apart from stacks and programs, the local [dentry_t] is on a stack. *)
Record loadable : Prop := {
  lo_slot : 0 <= j < 6;
  lo_fs : fs_ok m fs;
  lo_string : cstr m command l;
  lo_apart : command + zlen l < C \/ C + sizeof_pcb_t <= command;
  lo_name : zlen (command_name l) < 128;
  lo_args : zlen (command_args l) < 128;
  lo_local : 0x7F4000 <= local /\ local + 64 <= 0x800000;
  lo_local_pcb : local + 64 <= C \/ C + sizeof_pcb_t <= local;
  lo_stacks : off_image m fs 0x7F4000 0xC000;
  lo_pages : off_image m fs 0x800000 0x1800000;
  lo_magic : cstr m elf_magic ELF_MAGIC_HEADER;
  lo_inode : forall d, dir_lookup m fs (take 32 (command_name l)) = Some d ->
    inode_ok m fs (dentry_inode_num m (directory_entry fs d))
}.

(** Outside the PCB's strings, the program page and the local [dentry_t]. *)
Definition off_load (x : Z) : Prop :=
  (x < program_name C \/ args C + 128 <= x) /\
  (x < get_process_page_from_slot j \/ get_process_page_from_slot j + PROCESS_PAGE_SIZE <= x) /\
  (x < local \/ local + 64 <= x).

Hypothesis (ok : loadable).

Lemma loadable_load m1 :
  same_image m m1 fs -> (forall x, x < 0x7F0000 -> load8 m1 x = load8 m x) -> load_ok m1 fs local j.
Proof.
  intros I1 Hlow. destruct ok as [Hj Hfs _ _ _ _ [Hl1 Hl2] _ Hs Hp Hm _].
  pose proof (process_page_eq j Hj) as Ej. destruct lay_elf_magic as [_ He]. unfold KERNEL_IMAGE_END in *.
  pose proof (image_end_same m fs Hfs m1 I1) as Ee.
  unfold off_image, PROCESS_PAGE_SIZE, PROCESS_LINK_OFFSET in *.
  split; unfold off_image, PROCESS_PAGE_SIZE, PROCESS_LINK_OFFSET; try lia.
  - by apply (same_image_fs_ok m).
  - apply (cstr_ext m); [|exact Hm]. intros x Hx. apply Hlow. simpl in Hx. lia.
Qed.

(** What loading makes of the directory entry. *)
Lemma load_file m1 filename :
  same_image m m1 fs -> (forall x, x < 0x7F0000 -> load8 m1 x = load8 m x) ->
  chars m1 filename 32 = take 32 (command_name l) ->
  let '(m', entry) := load_program_into_slot m1 fs local filename j in
  let file := find_file m fs (take 32 (command_name l)) in
  entry_of file entry /\ 0 <= entry < 0x100000000 /\
  (forall x, x < get_process_page_from_slot j \/ get_process_page_from_slot j + PROCESS_PAGE_SIZE <= x ->
             x < local \/ local + 64 <= x -> load8 m' x = load8 m1 x) /\
  (forall bytes, file = Some bytes ->
     let n := Z.to_nat (Z.min (PROCESS_PAGE_SIZE - PROCESS_LINK_OFFSET) (zlen bytes)) in
     load_bytes m' (get_process_page_from_slot j + PROCESS_LINK_OFFSET) n = take n bytes).
Proof.
  intros I1 Hlow Ch.
  destruct (image_find_file m m1 fs (take 32 (command_name l)) (lo_fs ok) I1 (lo_inode ok)) as [<- Ino1].
  pose proof (load_program_effect m1 fs local filename j) as LP.
  pose proof (load_program_range m1 fs local filename j) as LR. rewrite Ch in LP.
  destruct (load_program_into_slot m1 fs local filename j) as [m' entry]. cbn [snd] in LR.
  specialize (LP ltac:(by apply loadable_load) Ino1). cbv zeta. unfold find_file.
  destruct (dir_lookup m1 _ _) as [d|]; cbn [fmap option_fmap option_map entry_of].
  - destruct LP as (B & M & Z1 & Z2). split; [exact (conj Z1 Z2)|]. split; [exact LR|]. split; [exact M|].
    intros bytes [= <-]. exact B.
  - destruct LP as [-> ->]. split; [reflexivity|]. split; [lia|]. split; [reflexivity|discriminate].
Qed.

Lemma load_command :
  exists m1 r m' entry,
    parse_command m command (program_name C) (args C) = (m1, r) /\
    load_program_into_slot m1 fs local (program_name C) j = (m', entry) /\
    entry_of (find_file m fs (take 32 (command_name l))) entry /\ 0 <= entry < 0x100000000 /\
    (forall x, x < program_name C \/ args C + 128 <= x -> load8 m1 x = load8 m x) /\
    (forall x, off_load x -> load8 m' x = load8 m x) /\
    cstr m' (program_name C) (command_name l) /\ cstr m' (args C) (command_args l) /\
    (forall bytes, find_file m fs (take 32 (command_name l)) = Some bytes ->
       let n := Z.to_nat (Z.min (PROCESS_PAGE_SIZE - PROCESS_LINK_OFFSET) (zlen bytes)) in
       load_bytes m' (get_process_page_from_slot j + PROCESS_LINK_OFFSET) n = take n bytes).
Proof.
  pose proof ok as [Hj Hfs Hstr Hap Hn Ha [Hl1 Hl2] Hlp Hst Hpg _ _].
  pose proof (slot_pcb_range j Hj) as RC. fold C in RC. pose proof (process_page_eq j Hj) as Ej.
  pose proof (parse_command_parts m command C l Hstr Hap Hn Ha) as PC.
  destruct (parse_command m command _ _) as [m1 r]. destruct PC as (N1 & A1 & _ & M1).
  unfold off_load, program_name, program_name_offset, args, args_offset, sizeof_pcb_t, PROCESS_PAGE_SIZE in *.
  assert (I1 : same_image m m1 fs) by (intros x Hx; unfold off_image in Hst; apply M1; lia).
  pose proof (load_file m1 (C + 168) I1) as LF.
  destruct (load_program_into_slot m1 fs local (C + 168) j) as [m' entry] eqn:El.
  destruct LF as (R1 & R2 & M' & R4);
    [intros x Hx; apply M1; lia|by apply cstr_chars_take|].
  unfold PROCESS_PAGE_SIZE in M', R4.
  exists m1, r, m', entry. split; [reflexivity|]. split; [exact El|]. split; [exact R1|]. split; [exact R2|].
  split; [exact M1|]. split; [|split; [|split; [|exact R4]]].
  - intros x (X1 & X2 & X3). rewrite M', M1 by assumption. done.
  - apply (cstr_ext m1); [|exact N1]. intros x Hx. apply M'; lia.
  - apply (cstr_ext m1); [|exact A1]. intros x Hx. apply M'; lia.
Qed.
End loading.

(** * The state in which a process calls execute *)

Section execute.
Context `{L : Layout} `{LOk : !LayoutOk L} (junk : Z -> Z).
Context (k : kernel) (i esp ebp : Z) (e : env) (command : Z) (l : list Z) (va : Z).
Let m := kmem k.

(** The caller runs in slot [i] on its own stack and page tables, its local
    [dentry_t] is on that stack, the command is a string in its program page
    whose parts fit the PCB, and the image is apart from stacks and programs. *)
Record exec_ok : Prop := {
  ex_slot : 0 <= i < 6;
  ex_esp : get_pcb_from_slot i < esp <= get_kernel_stack_base_from_slot i;
  ex_ebp : 0 <= ebp < 0x100000000;
  ex_used : slot_used m i = true;
  ex_cr3 : cr3 k = get_process_pd i;
  ex_va : va mod 0x1000 = 0;
  ex_space : space_ok m i (get_process_page_from_slot i) va;
  ex_fs : fs_ok m (kfs k);
  ex_local : get_pcb_from_slot i + sizeof_pcb_t <= e_local e /\
             e_local e + 64 <= get_kernel_stack_base_from_slot i;
  ex_stacks : off_image m (kfs k) 0x7F4000 0xC000;
  ex_pages : off_image m (kfs k) 0x800000 0x1800000;
  ex_magic : cstr m elf_magic ELF_MAGIC_HEADER;
  ex_command : PROCESS_VIRT_PAGE_START <= command < PROCESS_VIRT_PAGE_START + PROCESS_PAGE_SIZE;
  ex_string : cstr m (get_process_page_from_slot i + (command - PROCESS_VIRT_PAGE_START)) l;
  ex_name : zlen (command_name l) < 128;
  ex_args : zlen (command_args l) < 128;
  ex_inode : forall d, dir_lookup m (kfs k) (take 32 (command_name l)) = Some d ->
    inode_ok m (kfs k) (dentry_inode_num m (directory_entry (kfs k) d))
}.

Hypothesis (ok : exec_ok).
Let P := get_pcb_from_slot i.

Lemma command_addr m' :
  (forall x, get_process_pd i <= x < get_process_pd i + 0x2000 \/ vmem_pt <= x < vmem_pt + 4096 ->
     load8 m' x = load8 m x) ->
  user_addr (set_kmem k m') command = Some (get_process_page_from_slot i + (command - PROCESS_VIRT_PAGE_START)).
Proof.
  intros Hm. pose proof (ex_slot ok) as Hi. pose proof (ex_command ok) as Hc.
  pose proof (process_page_eq i Hi) as Ep.
  unfold user_addr. rewrite kmem_set_kmem. cbn [cr3 set_kmem set_ktty]. rewrite (ex_cr3 ok).
  unfold PROCESS_VIRT_PAGE_START, PROCESS_PAGE_SIZE in *.
  rewrite (translate_space m' i (get_process_page_from_slot i) va);
    [|by apply (space_ok_ext m), (ex_space ok)|done|rewrite Ep; divlia|apply (ex_va ok)|lia].
  unfold address_space. destruct (Z.leb_spec 0x8000000 command), (Z.ltb_spec command 0x8400000); try lia. done.
Qed.

(** The memory [execute] may touch before it commits: the new PCB, the new
    program page and the local [dentry_t]. *)
Definition untouched (j x : Z) : Prop :=
  (x < get_pcb_from_slot j \/ get_pcb_from_slot j + sizeof_pcb_t <= x) /\
  (x < get_process_page_from_slot j \/ get_process_page_from_slot j + PROCESS_PAGE_SIZE <= x) /\
  (x < e_local e \/ e_local e + 64 <= x).

(** The slot is numbered first; then the command can be loaded. *)
Lemma exec_loadable j :
  0 <= j < 6 -> i <> j ->
  loadable (pcb_set m (get_pcb_from_slot j) slot_num j) (kfs k) (e_local e)
    (get_process_page_from_slot i + (command - PROCESS_VIRT_PAGE_START)) j l.
Proof.
  intros Hj Hij. pose proof ok as [Hi _ _ _ _ _ _ Hfs [Hl1 Hl2] Hst Hpg Hm Hc Hs Hn Ha Hino].
  pose proof (slot_pcb_range j Hj) as RC. pose proof (slot_pcb_range i Hi) as RP.
  pose proof (slot_pcbs_apart i j Hi Hj Hij) as A.
  pose proof (process_page_eq i Hi) as Ei. rewrite stack_base_eq in Hl2 by done.
  set (m0 := pcb_set m _ slot_num j).
  assert (M0 : forall x, x < 0x7F4000 \/ 0x800000 <= x -> load8 m0 x = load8 m x)
    by (intros x Hx; apply load8_pcb_set; simpl; lia).
  assert (I0 : same_image m m0 (kfs k)) by (intros x Hx; unfold off_image in Hst; apply M0; lia).
  pose proof (image_end_same m (kfs k) Hfs m0 I0) as Ee.
  destruct lay_elf_magic as [_ He]. unfold KERNEL_IMAGE_END in He.
  unfold sizeof_pcb_t, PROCESS_VIRT_PAGE_START, PROCESS_PAGE_SIZE in *.
  split; unfold off_image, sizeof_pcb_t in *; try lia.
  - by apply (same_image_fs_ok m).
  - apply (cstr_ext m); [|exact Hs]. intros x Hx. apply M0. lia.
  - apply (cstr_ext m); [|exact Hm]. intros x Hx. simpl in Hx. apply M0. lia.
  - by apply (image_find_file m m0).
Qed.

(** Everything up to the check of the entry point. *)
Lemma execute_load j :
  0 <= j < 6 -> slot_used m j = false -> (forall q, 0 <= q < j -> slot_used m q = true) ->
  let C := get_pcb_from_slot j in
  exists m' entry,
    syscall_execute junk k esp ebp e command
    = (if entry =? 0 then (set_kmem k m', Return (-1))
       else let k' := start_child junk (set_kmem k m') P C entry esp ebp in
            (k', Enter_user PROCESS_LINK_START (pcb_get (kmem k') C entrypoint))) /\
    entry_of (find_file m (kfs k) (take 32 (command_name l))) entry /\ 0 <= entry < 0x100000000 /\
    (forall x, untouched j x -> load8 m' x = load8 m x) /\
    pcb_get m' C slot_num = j /\ pcb_get m' C in_use = pcb_get m C in_use /\
    cstr m' (program_name C) (command_name l) /\ cstr m' (args C) (command_args l) /\
    (forall file, find_file m (kfs k) (take 32 (command_name l)) = Some file ->
       let n := Z.to_nat (Z.min (PROCESS_PAGE_SIZE - PROCESS_LINK_OFFSET) (zlen file)) in
       load_bytes m' (get_process_page_from_slot j + PROCESS_LINK_OFFSET) n = take n file) /\
    (forall x, C <= x < C + 168 -> load8 m' x = load8 m x).
Proof.
  intros Hj Hfree Hlow. cbv zeta. set (C := get_pcb_from_slot j).
  pose proof (ex_slot ok) as Hi. pose proof (slot_pcb_range j Hj) as RC. fold C in RC.
  assert (Hij : i <> j) by (intros <-; rewrite (ex_used ok) in Hfree; discriminate).
  unfold syscall_execute. cbv zeta. fold m. rewrite (find_slot_first m j Hj Hfree Hlow). fold C.
  pose proof (exec_loadable j Hj Hij) as LO. fold C in LO. set (m0 := pcb_set m C slot_num j) in *.
  assert (M0 : forall x, x < C + 428 \/ C + 432 <= x -> load8 m0 x = load8 m x)
    by (intros x Hx; apply load8_pcb_set; simpl; lia).
  rewrite kmem_set_kmem, (command_addr m0).
  2:{ intros x Hx. apply M0. destruct (slot_tables i Hi) as (_ & Tlo & Thi & _), lay_vmem_pt as [[V1 V2] _].
      unfold KERNEL_IMAGE_END in V2. lia. }
  destruct (load_command _ _ _ _ _ _ LO) as (m1 & r & m' & entry & Hp & Hload & E & R & M1 & M' & N & A & F).
  fold C in Hp, Hload, M1, N, A. rewrite Hp. rewrite !kmem_set_kmem. change (kfs (set_kmem (set_kmem k m0) m1)) with (kfs k).
  unfold off_load in M'. fold C in M'.
  unfold program_name, program_name_offset, args, args_offset, PROCESS_PAGE_SIZE in M1, M'.
  pose proof (process_page_eq j Hj) as Ej. pose proof (lo_local_pcb _ _ _ _ _ _ LO) as Hlp. fold C in Hlp.
  assert (S0 : pcb_get m0 C slot_num = j) by (unfold m0; rewrite pcb_get_set_eq; apply Z.mod_small; simpl; lia).
  assert (S1 : pcb_get m1 C slot_num = j)
    by (rewrite (pcb_get_outside m0 m1 C slot_num _ _ M1) by (simpl; lia); exact S0).
  assert (F' : forall f, in_pcb f = true -> 424 <= pf_offset f -> pcb_get m' C f = pcb_get m0 C f).
  { intros f Hf Ho. apply in_pcb_bounds in Hf. unfold sizeof_pcb_t in Hlp. apply load_le_ext. intros x Hx.
    apply M'. lia. }
  rewrite S1, Hload. rewrite !set_kmem_twice. unfold get_current_pcb. rewrite (pcb_from_esp_eq i Hi esp (ex_esp ok)).
  assert (Ef : find_file m0 (kfs k) (take 32 (command_name l)) = find_file m (kfs k) (take 32 (command_name l))).
  { apply image_find_file; [apply (ex_fs ok)| |apply (ex_inode ok)].
    intros x Hx. pose proof (ex_stacks ok) as H. unfold off_image in H. apply M0. lia. }
  rewrite Ef in E, F. exists m', entry. fold P. split; [reflexivity|]. split; [exact E|]. split; [exact R|]. split_and!.
  - intros x (X1 & X2 & X3). unfold sizeof_pcb_t, PROCESS_PAGE_SIZE in *. fold C in X1.
    rewrite M', M0 by lia. done.
  - rewrite F' by (reflexivity || (simpl; lia)). exact S0.
  - rewrite F' by (reflexivity || (simpl; lia)). apply pcb_get_set_ne. reflexivity.
  - exact N.
  - exact A.
  - exact F.
  - intros x Hx. unfold sizeof_pcb_t in *. rewrite M', M0 by lia. done.
Qed.
End execute.

(** Either all slots are used, or there is a first free one. *)
Lemma first_free_slot m :
  (forall q, 0 <= q < 6 -> slot_used m q = true) \/
  exists j, 0 <= j < 6 /\ slot_used m j = false /\ (forall q, 0 <= q < j -> slot_used m q = true).
Proof.
  pose proof (find_slot_spec (Z.to_nat MAX_PROCESSES) m 0) as F.
  change (Z.of_nat (Z.to_nat MAX_PROCESSES)) with 6 in F.
  destruct (find_slot _ m 0) as [[m' pcb]|]; [right|left; exact F].
  destruct F as (j & Hj & Hf & _ & _ & Hlow). by exists j.
Qed.

(** The PCB of a process that [execute] has just started in slot [j]. *)
Record started (m : mem) (i j term new_pid entry : Z) (l : list Z) : Prop := {
  st_parent : pcb_get m (get_pcb_from_slot j) parent = get_pcb_from_slot i;
  st_child : pcb_get m (get_pcb_from_slot j) child = 0;
  st_in_use : pcb_get m (get_pcb_from_slot j) in_use = 1;
  st_status : pcb_get m (get_pcb_from_slot j) status = PROCESS_RUNNING;
  st_term : pcb_get m (get_pcb_from_slot j) terminal_num = term;
  st_entry : pcb_get m (get_pcb_from_slot j) entrypoint = entry;
  st_slot : pcb_get m (get_pcb_from_slot j) slot_num = j;
  st_pd : pcb_get m (get_pcb_from_slot j) process_pd_ptr = get_process_pd j;
  st_pid : pcb_get m (get_pcb_from_slot j) pid = u32 new_pid;
  st_name : cstr m (program_name (get_pcb_from_slot j)) (command_name l);
  st_args : cstr m (args (get_pcb_from_slot j)) (command_args l)
}.

(** The PCB of the process in slot [i] that waits for the one in slot [j];
    [m0] is the memory before the call. *)
Record waiting (m0 m : mem) (i j esp ebp : Z) : Prop := {
  wt_child : pcb_get m (get_pcb_from_slot i) child = get_pcb_from_slot j;
  wt_status : pcb_get m (get_pcb_from_slot i) status = PROCESS_BLOCKED;
  wt_esp : pcb_get m (get_pcb_from_slot i) regs_esp = esp;
  wt_ebp : pcb_get m (get_pcb_from_slot i) regs_ebp = ebp;
  wt_rest : forall f, f ∈ kept_fields ->
    pcb_get m (get_pcb_from_slot i) f = pcb_get m0 (get_pcb_from_slot i) f
}.

Section outcomes.
Context `{L : Layout} `{LOk : !LayoutOk L} (junk : Z -> Z).
Context (k : kernel) (i esp ebp : Z) (e : env) (command : Z) (l : list Z) (va : Z).
Hypothesis (ok : exec_ok k i esp ebp e command l va).
Let m := kmem k.

(** The frame of the work before the check of the entry point, for the
    things the kernel keeps about other processes. *)
Lemma untouched_pcb m' j q :
  0 <= j < 6 -> 0 <= q < 6 -> q <> j -> (forall x, untouched e j x -> load8 m' x = load8 m x) ->
  same_pcb m m' (get_pcb_from_slot q).
Proof.
  intros Hj Hq Hne M x Hx. apply M. pose proof (slot_pcb_range q Hq). pose proof (process_page_eq j Hj).
  pose proof (slot_pcbs_apart q j Hq Hj Hne). destruct (ex_local _ _ _ _ _ _ _ _ ok) as [Hl1 Hl2].
  pose proof (ex_slot _ _ _ _ _ _ _ _ ok) as Hi. rewrite stack_base_eq in Hl2 by done.
  unfold untouched, sizeof_pcb_t, PROCESS_PAGE_SIZE in *. split; [lia|]. split; [lia|].
  destruct (Z.eq_dec q i) as [->|Hqi]; [lia|]. pose proof (slot_pcbs_apart q i Hq Hi Hqi). lia.
Qed.

Lemma untouched_space m' j q pa va' :
  0 <= j < 6 -> 0 <= q < 6 -> (forall x, untouched e j x -> load8 m' x = load8 m x) ->
  space_ok m q pa va' -> space_ok m' q pa va'.
Proof.
  intros Hj Hq M. apply space_ok_ext. intros x Hx. apply M.
  pose proof (slot_pcb_range j Hj). pose proof (process_page_eq j Hj).
  destruct (ex_local _ _ _ _ _ _ _ _ ok) as [Hl1 Hl2].
  pose proof (ex_slot _ _ _ _ _ _ _ _ ok) as Hi. pose proof (slot_pcb_range i Hi).
  rewrite stack_base_eq in Hl2 by done.
  destruct (slot_tables q Hq) as (_ & Tlo & Thi & _), lay_vmem_pt as [[V1 V2] _].
  unfold untouched, KERNEL_IMAGE_END, sizeof_pcb_t, PROCESS_PAGE_SIZE in *. lia.
Qed.

Lemma output_buffer_range t : 0 <= t < 256 -> 0 <= get_terminal_output_buffer (ktty k) t < 0x100000000.
Proof.
  intros Ht. unfold get_terminal_output_buffer, output_row, VIDEO_PHYS_ADDR, FOUR_KB_ALIGNED.
  destruct lay_output as [[O1 O2] _]. unfold KERNEL_PAGE_START, KERNEL_IMAGE_END in *.
  destruct (t =? _); lia.
Qed.

#[local] Opaque start_child.

(** A program that could be loaded is started. *)
Lemma execute_started m' j entry :
  0 <= j < 6 -> i <> j -> 0 <= entry < 0x100000000 ->
  (forall x, untouched e j x -> load8 m' x = load8 m x) ->
  pcb_get m' (get_pcb_from_slot j) slot_num = j ->
  cstr m' (program_name (get_pcb_from_slot j)) (command_name l) ->
  cstr m' (args (get_pcb_from_slot j)) (command_args l) ->
  let term := pcb_get m (get_pcb_from_slot i) terminal_num in
  let k' := start_child junk (set_kmem k m') (get_pcb_from_slot i) (get_pcb_from_slot j) entry esp ebp in
  started (kmem k') i j term (next_pid k) entry l /\ waiting m (kmem k') i j esp ebp /\
  cr3 k' = get_process_pd j /\ tss_esp0 k' = get_kernel_stack_base_from_slot j /\
  space_ok (kmem k') j (get_process_page_from_slot j) (get_terminal_output_buffer (ktty k) term) /\
  (forall q, 0 <= q < 6 -> q <> i -> q <> j -> same_pcb m (kmem k') (get_pcb_from_slot q)) /\
  (forall q pa va', 0 <= q < 6 -> q <> j -> space_ok m q pa va' -> space_ok (kmem k') q pa va') /\
  (forall x, get_process_page_from_slot j <= x < get_process_page_from_slot j + PROCESS_PAGE_SIZE ->
     load8 (kmem k') x = load8 m' x).
Proof.
  intros Hj Hij Hen M Hs Hn Ha. cbv zeta. set (k1 := set_kmem k m').
  pose proof (ex_slot _ _ _ _ _ _ _ _ ok) as Hi. pose proof (ex_ebp _ _ _ _ _ _ _ _ ok) as Hb.
  pose proof (ex_esp _ _ _ _ _ _ _ _ ok) as He.
  pose proof (slot_pcb_range i Hi) as RP. pose proof (slot_pcb_range j Hj) as RC. rewrite stack_base_eq in He by done.
  assert (Hesp : 0 <= esp < 0x100000000) by lia. assert (Hs1 : pcb_get (kmem k1) (get_pcb_from_slot j) slot_num = j) by exact Hs.
  pose proof (untouched_pcb m' j i Hj Hi Hij M) as SP.
  assert (Eterm : pcb_get m' (get_pcb_from_slot i) terminal_num = pcb_get m (get_pcb_from_slot i) terminal_num)
    by (by apply same_pcb_get).
  set (k' := start_child junk k1 _ _ _ _ _).
  destruct (start_child_child junk k1 i j entry esp ebp) as (C1 & C2 & C3 & C4 & C5 & C6 & C7 & C8 & C9);
    [assumption..|].
  destruct (start_child_parent junk k1 i j entry esp ebp) as (P1 & P2 & P3 & P4 & P5); [assumption..|].
  destruct (start_child_eq junk k1 i j entry esp ebp) as (_ & X1 & X2 & _); [assumption..|].
  fold k' in C1, C2, C3, C4, C5, C6, C7, C8, C9, P1, P2, P3, P4, P5, X1, X2.
  change (kmem k1) with m' in C5, P5. rewrite Eterm in C5.
  assert (STR : forall x, get_pcb_from_slot j + 72 <= x < get_pcb_from_slot j + 424 ->
                  load8 (kmem k') x = load8 m' x).
  { intros x Hx. pose proof (start_child_strings junk k1 i j entry esp ebp Hi Hj Hij Hs1 x Hx) as E. exact E. }
  split; [|split; [|split; [exact X1|split; [exact X2|split; [|split; [|split]]]]]].
  - split; [assumption..| |];
      (eapply cstr_ext; [|eassumption]); intros x Hx; apply STR;
      pose proof (ex_name _ _ _ _ _ _ _ _ ok); pose proof (ex_args _ _ _ _ _ _ _ _ ok);
      unfold program_name, program_name_offset, args, args_offset in Hx; lia.
  - split; [assumption..|]. intros f Hf. rewrite P5 by assumption. apply same_pcb_get; [exact SP|].
    exact (kept_fields_in_pcb f Hf).
  - pose proof (start_child_space junk k1 i j entry esp ebp) as SS. change (kmem k1) with m' in SS.
    rewrite Eterm in SS. apply SS; try assumption. apply output_buffer_range, pcb_get_range.
  - intros q Hq Hqi Hqj. apply (same_pcb_trans m m'); [by apply (untouched_pcb m' j)|].
    exact (start_child_others junk k1 i j entry esp ebp Hi Hj Hij Hs1 q Hq Hqi Hqj).
  - intros q pa va' Hq Hqj S. 
    refine (start_child_other_space junk k1 i j entry esp ebp Hi Hj Hij Hs1 q pa va' Hq Hqj _).
    exact (untouched_space m' j q pa va' Hj Hq M S).
  - intros x Hx. refine (start_child_outside junk k1 i j entry esp ebp Hi Hj Hij Hs1 x _ _ _ _);
      pose proof (process_page_eq j Hj); destruct (slot_tables j Hj) as (_ & Tlo & Thi & _), lay_vmem_pt as [[V1 V2] _];
      unfold KERNEL_IMAGE_END, PROCESS_PAGE_SIZE in *; lia.
Qed.
End outcomes.

(** An [execute] that enters user mode, in terms of the slot it took. *)
Lemma execute_enters `{L : Layout} `{LOk : !LayoutOk L} junk k k1 i esp ebp e command l va entry :
  exec_ok k i esp ebp e command l va ->
  syscall_execute junk k esp ebp e command = (k1, Enter_user PROCESS_LINK_START entry) ->
  exists j, 0 <= j < 6 /\ i <> j /\ slot_used (kmem k) j = false /\
    (forall q, 0 <= q < 6 -> q <> j -> slot_used (kmem k1) q = slot_used (kmem k) q) /\
    started (kmem k1) i j (pcb_get (kmem k) (get_pcb_from_slot i) terminal_num) (next_pid k) entry l /\
    waiting (kmem k) (kmem k1) i j esp ebp /\ cr3 k1 = get_process_pd j.
Proof.
  intros ok Hex. destruct (first_free_slot (kmem k)) as [Hfull|(j & Hj & Hf & Hlow)].
  { unfold syscall_execute in Hex. cbv zeta in Hex. rewrite (find_slot_full _ Hfull) in Hex. discriminate Hex. }
  destruct (execute_load junk k i esp ebp e command l va ok j Hj Hf Hlow)
    as (m' & entry' & E & _ & R & M & S & _ & N & A & _). rewrite E in Hex. clear E.
  assert (Hij : i <> j) by (intros <-; rewrite (ex_used _ _ _ _ _ _ _ _ ok) in Hf; discriminate Hf).
  destruct (entry' =? 0); [discriminate Hex|]. cbv zeta in Hex.
  destruct (execute_started junk k i esp ebp e command l va ok m' j entry' Hj Hij R M S N A)
    as (X1 & X2 & X3 & _ & _ & X6 & _ & _).
  set (k' := start_child _ _ _ _ _ _ _) in *. rewrite (st_entry _ _ _ _ _ _ _ X1) in Hex.
  assert (Ek : k' = k1) by exact (f_equal fst Hex).
  assert (Ee : entry' = entry) by (pose proof (f_equal snd Hex) as H; cbn [snd] in H; congruence).
  subst entry'. rewrite Ek in *. clear Hex Ek k'. exists j. do 3 (split; [assumption|]).
  split; [|split; [assumption|split; assumption]].
  intros q Hq Hqj. unfold slot_used. f_equal. destruct (Z.eq_dec q i) as [->|Hqi].
  - apply (wt_rest _ _ _ _ _ _ X2). unfold kept_fields. in_list.
  - apply (same_pcb_get _ _ _ in_use (X6 q Hq Hqi Hqj)). reflexivity.
Qed.

(** * Properties *)

(** C9: [execute] starts a program or fails cleanly.  With all six slots in
    use it returns -1 and changes nothing.  Otherwise it takes the first free
    slot; if there is no such file, or it is no ELF file, it returns -1 with
    the slot still free (its number, program name and arguments are already
    overwritten then), every other PCB and all page tables as before.  If there is, the new process enters user mode at the program's entry point in
    its own address space, with the file loaded at 0x48000 of its page, on its
    own kernel stack and on the terminal of its parent; the parent is blocked
    with its registers saved, and no other process is affected. *)
Theorem syscall_execute_correct `{L : Layout} `{LOk : !LayoutOk L} (junk : Z -> Z) (k : kernel)
    (i esp ebp : Z) (e : env) (command : Z) (l : list Z) (va : Z) :
  exec_ok k i esp ebp e command l va ->
  let m := kmem k in
  let '(k', out) := syscall_execute junk k esp ebp e command in
  ((forall q, 0 <= q < 6 -> slot_used m q = true) /\ k' = k /\ out = Return (-1)) \/
  exists j entry, 0 <= j < 6 /\ slot_used m j = false /\ (forall q, 0 <= q < j -> slot_used m q = true) /\
    entry_of (find_file m (kfs k) (take 32 (command_name l))) entry /\
    if entry =? 0 then
      out = Return (-1) /\ cr3 k' = cr3 k /\ tss_esp0 k' = tss_esp0 k /\ next_pid k' = next_pid k /\
      (forall q, 0 <= q < 6 -> slot_used (kmem k') q = slot_used m q) /\
      (forall q, 0 <= q < 6 -> q <> j -> same_pcb m (kmem k') (get_pcb_from_slot q)) /\
      (forall q pa va', 0 <= q < 6 -> space_ok m q pa va' -> space_ok (kmem k') q pa va')
    else
      let term := pcb_get m (get_pcb_from_slot i) terminal_num in
      out = Enter_user PROCESS_LINK_START entry /\
      started (kmem k') i j term (next_pid k) entry l /\ waiting m (kmem k') i j esp ebp /\
      cr3 k' = get_process_pd j /\ tss_esp0 k' = get_kernel_stack_base_from_slot j /\
      space_ok (kmem k') j (get_process_page_from_slot j) (get_terminal_output_buffer (ktty k) term) /\
      (exists file, find_file m (kfs k) (take 32 (command_name l)) = Some file /\
         let n := Z.to_nat (Z.min (PROCESS_PAGE_SIZE - PROCESS_LINK_OFFSET) (zlen file)) in
         load_bytes (kmem k') (get_process_page_from_slot j + PROCESS_LINK_OFFSET) n = take n file) /\
      (forall q, 0 <= q < 6 -> q <> i -> q <> j -> same_pcb m (kmem k') (get_pcb_from_slot q)) /\
      (forall q pa va', 0 <= q < 6 -> q <> j -> space_ok m q pa va' -> space_ok (kmem k') q pa va').
Proof.
  intros ok. cbv zeta. destruct (first_free_slot (kmem k)) as [Hfull|(j & Hj & Hf & Hlow)].
  { unfold syscall_execute. cbv zeta. rewrite (find_slot_full _ Hfull). left. auto. }
  destruct (execute_load junk k i esp ebp e command l va ok j Hj Hf Hlow)
    as (m' & entry & -> & E & R & M & S & U & N & A & F & _).
  assert (Hij : i <> j) by (intros <-; rewrite (ex_used _ _ _ _ _ _ _ _ ok) in Hf; discriminate).
  destruct (Z.eqb_spec entry 0) as [->|Hnz]; right.
  - exists j, 0. split; [exact Hj|]. split; [exact Hf|]. split; [exact Hlow|]. split; [exact E|].
    rewrite Z.eqb_refl, kmem_set_kmem. do 4 (split; [reflexivity|]). split; [|split].
    + intros q Hq. unfold slot_used. destruct (Z.eq_dec q j) as [->|Hne]; [by rewrite U|].
      by rewrite (same_pcb_get _ _ _ in_use (untouched_pcb k i esp ebp e command l va ok m' j q Hj Hq Hne M)).
    + intros q Hq Hne. exact (untouched_pcb k i esp ebp e command l va ok m' j q Hj Hq Hne M).
    + intros q pa va' Hq. exact (untouched_space k i esp ebp e command l va ok m' j q pa va' Hj Hq M).
  - destruct (execute_started junk k i esp ebp e command l va ok m' j entry Hj Hij R M S N A)
      as (X1 & X2 & X3 & X4 & X5 & X6 & X7 & X8).
    exists j, entry. split; [exact Hj|]. split; [exact Hf|]. split; [exact Hlow|]. split; [exact E|].
    rewrite (proj2 (Z.eqb_neq _ _) Hnz). cbv zeta.
    split; [f_equal; exact (st_entry _ _ _ _ _ _ _ X1)|]. do 5 (split; [assumption|]). split; [|split; assumption].
    unfold entry_of in E. destruct (find_file _ _ _) as [file|]; [|congruence].
    exists file. split; [reflexivity|]. rewrite <- (F file eq_refl). apply load_bytes_ext. intros x Hx. apply X8.
    unfold PROCESS_PAGE_SIZE, PROCESS_LINK_OFFSET in *. lia.
Qed.

(** Slot 0 runs and calls execute with the command "a"; the image holds an ELF
    file of that name. *)
Definition example_running : mem :=
  let m := (setup_process_paging (L := example_layout) (fun _ => 0) example_program
              (get_process_page_from_slot 0) 0 0xB8000).1 in
  let m := pcb_set (store_bytes m 0x848000 [97; 0]) (get_pcb_from_slot 0) in_use 1 in
  let m := pcb_set m (get_pcb_from_slot 0) process_pd_ptr (get_process_pd 0) in
  pcb_set m (get_pcb_from_slot 0) slot_num 0.

Definition example_exec : kernel :=
  set_cr3 (example_kernel (Tty example_running pic_boot
    (fun _ => Terminal (circular_buffer_init 0 1) 0 0 0 0) 0 0 [] 0)) (get_process_pd 0).

Lemma example_exec_ok :
  exec_ok (L := example_layout) example_exec 0 0x7FFF00 0x7FFF80 (Env 0x7FF000 [] 0 0 0) 0x8048000 [97] 0xB8000.
Proof.
  pose proof example_layout_ok as OK.
  assert (E : image_end example_running example_fs = 0x414000) by (vm_compute; reflexivity).
  split.
  - lia.
  - split; vm_compute; congruence.
  - lia.
  - vm_compute. reflexivity.
  - reflexivity.
  - reflexivity.
  - change (kmem example_exec) with example_running. unfold example_running. cbv zeta.
    eapply space_ok_ext.
    2:{ apply (setup_space (fun _ => 0) example_program 0 (get_process_page_from_slot 0) 0xB8000);
          [lia| |reflexivity|lia]. rewrite process_page_eq; lia. }
    intros x Hx. destruct (slot_tables (LOk := OK) 0 ltac:(lia)) as (_ & Tlo & Thi & _), (lay_vmem_pt (LayoutOk := OK)) as [[V1 V2] _].
    unfold KERNEL_IMAGE_END in V2. pose proof (slot_pcb_range 0 ltac:(lia)) as R.
    rewrite !load8_pcb_set by (simpl pf_offset; simpl pf_width; lia). apply load8_store_bytes_out. simpl length. lia.
  - split; [reflexivity|vm_compute; reflexivity|]. vm_compute. congruence.
  - split; vm_compute; congruence.
  - right. change (image_end _ _) with (image_end example_running example_fs). rewrite E. lia.
  - right. change (image_end _ _) with (image_end example_running example_fs). rewrite E. lia.
  - split; [vm_compute; reflexivity|]. split; [|vm_compute; reflexivity].
    apply (bool_decide_unpack _). vm_compute. exact I.
  - split; vm_compute; congruence.
  - split; [vm_compute; reflexivity|]. split; [|vm_compute; reflexivity].
    apply (bool_decide_unpack _). vm_compute. exact I.
  - reflexivity.
  - reflexivity.
  - intros d.
    replace (dir_lookup _ _ _) with (Some 0) by (vm_compute; reflexivity). intros [= <-].
    assert (E0 : dentry_inode_num (kmem example_exec) (directory_entry (kfs example_exec) 0) = 0)
      by (vm_compute; reflexivity).
    assert (E1 : file_length (kmem example_exec) (kfs example_exec) 0 = 28) by (vm_compute; reflexivity).
    rewrite E0. split.
    + split; [lia|]. apply Z.ltb_lt. vm_compute. reflexivity.
    + rewrite E1. lia.
    + intros q Hq. rewrite E1 in Hq. assert (q = 0) as -> by lia. apply Z.ltb_lt. vm_compute. reflexivity.
Qed.

Lemma syscall_execute_correct_witness :
  exists k', syscall_execute (L := example_layout) (fun _ => 0) example_exec 0x7FFF00 0x7FFF80
               (Env 0x7FF000 [] 0 0 0) 0x8048000 = (k', Enter_user PROCESS_LINK_START 0x8048094) /\
             slot_used (kmem k') 1 = true /\ cr3 k' = get_process_pd 1.
Proof.
  pose proof (syscall_execute_correct (LOk := example_layout_ok) (fun _ => 0) example_exec 0 0x7FFF00 0x7FFF80
                (Env 0x7FF000 [] 0 0 0) 0x8048000 [97] 0xB8000 example_exec_ok) as T. cbv zeta in T.
  destruct (syscall_execute _ _ _ _ _ _) as [k' out].
  assert (U0 : slot_used (kmem example_exec) 0 = true) by (vm_compute; reflexivity).
  assert (U1 : slot_used (kmem example_exec) 1 = false) by (vm_compute; reflexivity).
  destruct T as [(F & _)|(j & entry & Hj & Hf & Hlow & E & T)].
  { rewrite (F 1) in U1 by lia. discriminate U1. }
  assert (j = 1) as ->.
  { destruct (Z.lt_trichotomy j 1) as [H|[H|H]]; [|exact H|rewrite (Hlow 1) in U1 by lia; discriminate U1].
    assert (j = 0) as -> by lia. rewrite U0 in Hf. discriminate Hf. }
  assert (EF : find_file (kmem example_exec) (kfs example_exec) (take 32 (command_name [97])) = Some example_elf)
    by (vm_compute; reflexivity).
  rewrite EF in E.
  destruct E as [_ E]. rewrite E in T by (apply Z.leb_le; vm_compute; reflexivity).
  change (executable_entry example_elf) with 0x8048094 in T. cbn [Z.eqb] in T.
  destruct T as (-> & S & _ & C & _). exists k'. split; [reflexivity|]. split; [|exact C].
  unfold slot_used. rewrite (st_in_use _ _ _ _ _ _ _ S). reflexivity.
Defined.

(** C13: [halt] returns to the parent.  A process with a parent gives up its
    slot and its descriptors (all but the terminal's, which have no close
    operation); the parent runs again, on its own page tables and kernel stack,
    where it left off, with the low byte of the status as the result of its
    [execute].  Nothing else in memory changes. *)
Theorem syscall_halt_correct `{L : Layout} `{LOk : !LayoutOk L} (k : kernel) (i j esp exit_status : Z) :
  let P := get_pcb_from_slot i in
  let C := get_pcb_from_slot j in
  0 <= i < 6 -> 0 <= j < 6 -> i <> j ->
  C < esp <= get_kernel_stack_base_from_slot j ->
  pcb_get (kmem k) C parent = P -> pcb_get (kmem k) P slot_num = i -> fds_ok (kmem k) C ->
  exists k', syscall_halt k esp exit_status
    = Some (k', Resume_kernel (pcb_get (kmem k) P regs_esp) (pcb_get (kmem k) P regs_ebp)
                  (exit_status mod 256)) /\
    slot_used (kmem k') j = false /\ pcb_get (kmem k') C status = PROCESS_NONE /\
    pcb_get (kmem k') P status = PROCESS_RUNNING /\
    cr3 k' = pcb_get (kmem k) P process_pd_ptr /\ tss_esp0 k' = get_kernel_stack_base_from_slot i /\
    (forall q, 0 <= q < 8 -> fd_used (kmem k') C q = fd_used (kmem k) C q && negb (closes (kmem k) C q)) /\
    (forall x, x < C \/ C + sizeof_pcb_t <= x -> x < P + 448 \/ P + 452 <= x ->
       load8 (kmem k') x = load8 (kmem k) x).
Proof.
  intros P C Hi Hj Hij He Hp Hs Hf. unfold syscall_halt.
  change (Z.land exit_status 0xFF) with (Z.land exit_status (Z.ones 8)). rewrite Z.land_ones by lia.
  change (2 ^ 8) with 256.
  destruct (halt_program_spec k i j esp (exit_status mod 256) Hi Hj Hij He Hp Hs Hf)
    as (m' & E & U & S1 & S2 & M & D).
  eexists. split; [exact E|]. split; [exact (f_equal truthy U)|]. split; [exact S1|]. split; [exact S2|].
  split; [reflexivity|]. split; [|split; [exact D|exact M]].
  unfold get_kernel_stack_base_from_slot. apply u32_u32.
Qed.

(** The process in slot 1 was started by slot 0; its terminal descriptors are
    open. *)
Definition example_child : kernel :=
  let m := open_stdin_and_stdout (L := example_layout) (kmem example_exec) (get_pcb_from_slot 1) in
  let m := pcb_set m (get_pcb_from_slot 1) parent (get_pcb_from_slot 0) in
  let m := pcb_set m (get_pcb_from_slot 0) regs_esp 0x7FFE00 in
  let m := pcb_set m (get_pcb_from_slot 0) regs_ebp 0x7FFE10 in
  set_kmem example_exec (pcb_set m (get_pcb_from_slot 1) in_use 1).

Lemma example_child_fds : fds_ok (L := example_layout) (kmem example_child) (get_pcb_from_slot 1).
Proof. apply fds_okb_spec. vm_compute. reflexivity. Qed.

Lemma syscall_halt_correct_witness :
  exists k', syscall_halt (L := example_layout) example_child 0x7FD000 0x1FF
             = Some (k', Resume_kernel 0x7FFE00 0x7FFE10 255) /\ slot_used (kmem k') 1 = false.
Proof.
  destruct (syscall_halt_correct (LOk := example_layout_ok) example_child 0 1 0x7FD000 0x1FF) as (k' & E & U & _).
  - lia.
  - lia.
  - lia.
  - split; vm_compute; congruence.
  - vm_compute. reflexivity.
  - vm_compute. reflexivity.
  - exact example_child_fds.
  - exists k'. split; [rewrite E|exact U]. do 3 f_equal; vm_compute; reflexivity.
Defined.

(** What the kernel relies on while a child runs: the links between the PCBs
    stay.  The child may open and close files, use the clock and so on. *)
Definition links : list pcb_field := [parent; process_pd_ptr; regs_esp; regs_ebp; slot_num; in_use].
Definition same_links (m m' : mem) : Prop :=
  forall q f, 0 <= q < 6 -> f ∈ links ->
    pcb_get m' (get_pcb_from_slot q) f = pcb_get m (get_pcb_from_slot q) f.

(** C10: execute and halt are a call and its return.  Whatever program
    [execute] starts, and whatever it does that keeps the links between the
    PCBs, when it halts the caller resumes on the stack pointers it had, with
    its page tables and kernel stack, the exit status in 0..255 as its result,
    runnable, and the same slots in use as before the call. *)
Theorem execute_halt_roundtrip `{L : Layout} `{LOk : !LayoutOk L} (junk : Z -> Z) (k k1 k2 : kernel)
    (i esp ebp : Z) (e : env) (command : Z) (l : list Z) (va entry j esp2 exit_status : Z) :
  exec_ok k i esp ebp e command l va ->
  pcb_get (kmem k) (get_pcb_from_slot i) slot_num = i ->
  pcb_get (kmem k) (get_pcb_from_slot i) process_pd_ptr = cr3 k ->
  syscall_execute junk k esp ebp e command = (k1, Enter_user PROCESS_LINK_START entry) ->
  cr3 k1 = get_process_pd j -> 0 <= j < 6 ->
  same_links (kmem k1) (kmem k2) -> fds_ok (kmem k2) (get_pcb_from_slot j) ->
  get_pcb_from_slot j < esp2 <= get_kernel_stack_base_from_slot j ->
  exists k3, syscall_halt k2 esp2 exit_status
             = Some (k3, Resume_kernel esp ebp (exit_status mod 256)) /\
    cr3 k3 = cr3 k /\ tss_esp0 k3 = get_kernel_stack_base_from_slot i /\
    pcb_get (kmem k3) (get_pcb_from_slot i) status = PROCESS_RUNNING /\
    (forall q, 0 <= q < 6 -> slot_used (kmem k3) q = slot_used (kmem k) q).
Proof.
  intros ok Hsl Hpd Hex Hcr Hj Hlinks Hfds He2. pose proof (ex_slot _ _ _ _ _ _ _ _ ok) as Hi.
  destruct (execute_enters junk k k1 i esp ebp e command l va entry ok Hex)
    as (j' & Hj' & Hij & Hfree & Hused & St & Wt & Hcr').
  assert (j' = j) as ->.
  { rewrite Hcr' in Hcr. unfold get_process_pd, PROCESS_STRUCT_SIZE, FOUR_KB_ALIGNED in Hcr. lia. }
  assert (LK : forall q f, 0 <= q < 6 -> f ∈ links ->
    pcb_get (kmem k2) (get_pcb_from_slot q) f = pcb_get (kmem k1) (get_pcb_from_slot q) f) by exact Hlinks.
  assert (WR : forall f, f ∈ links -> f ∈ kept_fields ->
    pcb_get (kmem k2) (get_pcb_from_slot i) f = pcb_get (kmem k) (get_pcb_from_slot i) f).
  { intros f Hf Hf'. rewrite LK by assumption. exact (wt_rest _ _ _ _ _ _ Wt f Hf'). }
  unfold links, kept_fields in LK, WR.
  destruct (halt_program_spec k2 i j esp2 (exit_status mod 256) Hi Hj Hij He2)
    as (m3 & E & U & S1 & S2 & M & D); [| |exact Hfds|].
  { rewrite LK by (assumption || in_list). exact (st_parent _ _ _ _ _ _ _ St). }
  { rewrite WR by in_list. exact Hsl. }
  rewrite !(LK i), (wt_esp _ _ _ _ _ _ Wt), (wt_ebp _ _ _ _ _ _ Wt) in E by (assumption || in_list).
  rewrite (wt_rest _ _ _ _ _ _ Wt), Hpd in E by (unfold kept_fields; in_list).
  unfold syscall_halt. change (Z.land exit_status 0xFF) with (Z.land exit_status (Z.ones 8)).
  rewrite Z.land_ones by lia. change (2 ^ 8) with 256.
  eexists. split; [exact E|]. split; [reflexivity|].
  split; [unfold get_kernel_stack_base_from_slot; apply u32_u32|]. split; [exact S2|].
  intros q Hq. destruct (Z.eq_dec q j) as [->|Hqj]; [rewrite Hfree; exact (f_equal truthy U)|].
  rewrite <- (Hused q Hq Hqj). unfold slot_used. f_equal.
  transitivity (pcb_get (kmem k2) (get_pcb_from_slot q) in_use); [|apply LK; [exact Hq|in_list]].
  apply load_le_ext. intros x Hx. simpl in Hx. pose proof (slot_pcbs_apart q j Hq Hj Hqj).
  apply M; unfold sizeof_pcb_t; [lia|]. destruct (Z.eq_dec q i) as [->|Hqi]; [lia|].
  pose proof (slot_pcbs_apart q i Hq Hi Hqi). lia.
Qed.

Lemma execute_halt_roundtrip_witness :
  let k1 := (syscall_execute (L := example_layout) (fun _ => 0) example_exec 0x7FFF00 0x7FFF80
               (Env 0x7FF000 [] 0 0 0) 0x8048000).1 in
  exists k3, syscall_halt (L := example_layout) k1 0x7FD000 7 = Some (k3, Resume_kernel 0x7FFF00 0x7FFF80 7).
Proof.
  cbv zeta.
  assert (E : (syscall_execute (L := example_layout) (fun _ => 0) example_exec 0x7FFF00 0x7FFF80
               (Env 0x7FF000 [] 0 0 0) 0x8048000).2 = Enter_user PROCESS_LINK_START 0x8048094)
    by (vm_compute; reflexivity).
  assert (C : cr3 (syscall_execute (L := example_layout) (fun _ => 0) example_exec 0x7FFF00 0x7FFF80
               (Env 0x7FF000 [] 0 0 0) 0x8048000).1 = get_process_pd 1) by (vm_compute; reflexivity).
  assert (F : fds_okb (L := example_layout) (kmem (syscall_execute (L := example_layout) (fun _ => 0) example_exec
               0x7FFF00 0x7FFF80 (Env 0x7FF000 [] 0 0 0) 0x8048000).1) (get_pcb_from_slot 1) = true)
    by (vm_compute; reflexivity).
  destruct (syscall_execute _ _ _ _ _ _) as [k1 out] eqn:Ex. cbn [fst snd] in E, C, F |- *. subst out.
  destruct (execute_halt_roundtrip (LOk := example_layout_ok) (fun _ => 0) example_exec k1 k1 0 0x7FFF00 0x7FFF80
              (Env 0x7FF000 [] 0 0 0) 0x8048000 [97] 0xB8000 0x8048094 1 0x7FD000 7) as (k3 & H & _).
  - exact example_exec_ok.
  - vm_compute. reflexivity.
  - vm_compute. reflexivity.
  - exact Ex.
  - exact C.
  - lia.
  - intros q f _ _. reflexivity.
  - exact (fds_okb_spec _ _ F).
  - split; vm_compute; congruence.
  - exists k3. exact H.
Defined.
