(* ===== verification/Exception.v ===== *)
(** Exceptions: [exception_handler] of [arch/x86/interrupt.c].  A process with
    a parent is killed; otherwise the kernel prints the registers on terminal
    0 and hangs. *)

From Stdlib Require Import String.
From S2P Require Import Prelude Memory Layout I8259 LibMem LibString CircularBuffer Paging Pcb.
From S2P Require Import Terminal Screen Printf Console LineInput Machine Syscall FileTable Process Execute.

#[local] Open Scope Z_scope.
#[local] Notation "a +++ b" := (String.append a b) (at level 60, right associativity).

(** How the handler ends: on the stack of the parent, or in the endless loop
    of [hlt]. *)
Inductive exception_end := Killed (o : outcome) | Hang.

(** The saved registers, in the order of the arguments. *)
Record registers := Registers {
  r_eax : Z; r_ebx : Z; r_ecx : Z; r_edx : Z;
  r_esi : Z; r_edi : Z; r_ebp : Z; r_esp : Z;
  r_int_num : Z; r_error : Z; r_eip : Z; r_cs : Z; r_eflags : Z
}.

Section code.
Context `{L : Layout} (lit : string -> Z) (sp conv : Z).

(** The calls of [printf], in order. *)
Definition exception_calls (r : registers) (cr2 : Z) : list (string * list message_arg) :=
  let name := interpret_exception (r_int_num r) in
  [("---------------------------AN EXCEPTION HAS OCCURRED----------------------------" +++ nl +++ nl, [])%string;
   (" An exception has occurred: %s (0x%x)" +++ nl, [Str (lit name) (bytes_of name); Num (r_int_num r)])%string] ++
  (if truthy (nth (Z.to_nat (r_int_num r)) has_error_code 0)
   then [(" The associated error code is: 0x%#x" +++ nl, [Num (r_error r)])%string] else []) ++
  [(nl, [])] ++
  (if r_int_num r =? 0xE
   then [(" An attempt was made to access the following virtual address: 0x%#x" +++ nl +++ nl, [Num cr2])%string]
   else []) ++
  [(" REGISTERS:" +++ nl, [])%string;
   (" eax: 0x%#x    ebx:    0x%#x" +++ nl, [Num (r_eax r); Num (r_ebx r)])%string;
   (" ecx: 0x%#x    edx:    0x%#x" +++ nl, [Num (r_ecx r); Num (r_edx r)])%string;
   (" esi: 0x%#x    edi:    0x%#x" +++ nl, [Num (r_esi r); Num (r_edi r)])%string;
   (" esp: 0x%#x    ebp:    0x%#x" +++ nl, [Num (r_esp r); Num (r_ebp r)])%string;
   (nl, []);
   (" eip: 0x%#x    eflags: 0x%#x" +++ nl, [Num (r_eip r); Num (r_eflags r)])%string].

(** [stack_var] is the address [get_current_pcb] takes. *)
Definition exception_handler (k : kernel) (stack_var : Z) (r : registers) (cr2 : Z)
  : option (kernel * exception_end) :=
  let child_pcb := get_current_pcb stack_var in
  let parent_pcb := pcb_get (kmem k) child_pcb parent in
  if negb (parent_pcb =? 0) then
    '(k, o) ← halt_program k stack_var 256; Some (k, Killed o)
  else
    let s := clear_terminal (ktty k) 0 in
    let s := switch_active_terminal s 0 in
    s ← kprintf_all lit sp conv s (call_words (exception_calls r cr2));
    Some (set_ktty k s, Hang).
End code.

(** * The report *)

#[local] Opaque hex.

(** Each format, with any numbers. *)
Lemma name_message a name n :
  message None (bytes_of (" An exception has occurred: %s (0x%x)" +++ nl)) [Str a name; Num n]
  = Some (bytes_of " An exception has occurred: " ++ name ++ bytes_of " (0x" ++ hex false n ++ bytes_of (")" +++ nl)).
Proof. reflexivity. Qed.

Lemma error_message e :
  message None (bytes_of (" The associated error code is: 0x%#x" +++ nl)) [Num e]
  = Some (bytes_of " The associated error code is: 0x" ++ hex true e ++ [10]).
Proof. reflexivity. Qed.

Lemma fault_message v :
  message None (bytes_of (" An attempt was made to access the following virtual address: 0x%#x" +++ nl +++ nl)) [Num v]
  = Some (bytes_of " An attempt was made to access the following virtual address: 0x" ++ hex true v ++ [10; 10]).
Proof. reflexivity. Qed.

(** A line with two registers. *)
Lemma pair_messages x y :
  message None (bytes_of (" eax: 0x%#x    ebx:    0x%#x" +++ nl)) [Num x; Num y]
  = Some (bytes_of " eax: 0x" ++ hex true x ++ bytes_of "    ebx:    0x" ++ hex true y ++ [10]) /\
  message None (bytes_of (" ecx: 0x%#x    edx:    0x%#x" +++ nl)) [Num x; Num y]
  = Some (bytes_of " ecx: 0x" ++ hex true x ++ bytes_of "    edx:    0x" ++ hex true y ++ [10]) /\
  message None (bytes_of (" esi: 0x%#x    edi:    0x%#x" +++ nl)) [Num x; Num y]
  = Some (bytes_of " esi: 0x" ++ hex true x ++ bytes_of "    edi:    0x" ++ hex true y ++ [10]) /\
  message None (bytes_of (" esp: 0x%#x    ebp:    0x%#x" +++ nl)) [Num x; Num y]
  = Some (bytes_of " esp: 0x" ++ hex true x ++ bytes_of "    ebp:    0x" ++ hex true y ++ [10]) /\
  message None (bytes_of (" eip: 0x%#x    eflags: 0x%#x" +++ nl)) [Num x; Num y]
  = Some (bytes_of " eip: 0x" ++ hex true x ++ bytes_of "    eflags: 0x" ++ hex true y ++ [10]).
Proof. split_and!; reflexivity. Qed.

(** The exceptions of the IA-32 architecture that have a name, by vector, and
    the vectors that push an error code. *)
Definition vector_names : list (Z * string) :=
  [(0, "Divide-by-zero"); (1, "Debug"); (2, "Non-maskable interrupt"); (3, "Breakpoint"); (4, "Overflow");
   (5, "Bound range exceeded"); (6, "Invalid opcode"); (7, "Device not available"); (8, "Double fault");
   (9, "Coprocessor segment overrun"); (10, "Invalid TSS"); (11, "Segment not present");
   (12, "Stack-segment fault"); (13, "General protection fault"); (14, "Page fault");
   (16, "x87 Floating point exception"); (17, "Alignment check"); (18, "Machine check");
   (19, "SIMD Floating point exception"); (20, "Virtualization exception"); (30, "Security Exception")]%string.

Definition error_vectors : list Z := [8; 10; 11; 12; 13; 14; 17; 30].

(** The name in the report: that of the vector, "Reserved" for vectors without
    one; but the security exception is named at 31, one vector late
    ([exception_names_shifted]). *)
Definition shown_name (v : Z) : string :=
  let v := if v =? 30 then 31 else if v =? 31 then 30 else v in
  default "Reserved"%string (snd <$> List.find (fun '(n, _) => n =? v) vector_names).

(** The tables of the code say so. *)
Lemma exception_tables v :
  0 <= v < 32 ->
  interpret_exception v = shown_name v /\
  truthy (nth (Z.to_nat v) has_error_code 0) = bool_decide (v ∈ error_vectors).
Proof.
  intros Hv.
  assert (H : Forall (fun v => interpret_exception v = shown_name v /\
              truthy (nth (Z.to_nat v) has_error_code 0) = bool_decide (v ∈ error_vectors)) (seqZ 0 32))
    by (apply (bool_decide_unpack _); vm_compute; exact I).
  rewrite Forall_forall in H. apply H, elem_of_seqZ. lia.
Qed.

(** The banner and the name of the exception. *)
Definition report_head (r : registers) : list Z :=
  bytes_of ("---------------------------AN EXCEPTION HAS OCCURRED----------------------------" +++ nl +++ nl) ++
  bytes_of " An exception has occurred: " ++ bytes_of (shown_name (r_int_num r)) ++
  bytes_of " (0x" ++ hex false (r_int_num r) ++ bytes_of (")" +++ nl).

(** The registers. *)
Definition report_registers (r : registers) : list Z :=
  let pair a x b y := bytes_of a ++ hex true x ++ bytes_of b ++ hex true y ++ [10] in
  bytes_of (" REGISTERS:" +++ nl) ++
  pair " eax: 0x"%string (r_eax r) "    ebx:    0x"%string (r_ebx r) ++
  pair " ecx: 0x"%string (r_ecx r) "    edx:    0x"%string (r_edx r) ++
  pair " esi: 0x"%string (r_esi r) "    edi:    0x"%string (r_edi r) ++
  pair " esp: 0x"%string (r_esp r) "    ebp:    0x"%string (r_ebp r) ++
  bytes_of nl ++
  pair " eip: 0x"%string (r_eip r) "    eflags: 0x"%string (r_eflags r).

(** The text of the report. *)
Definition exception_text (r : registers) (cr2 : Z) : list Z :=
  report_head r ++
  (if bool_decide (r_int_num r ∈ error_vectors)
   then bytes_of " The associated error code is: 0x" ++ hex true (r_error r) ++ [10] else []) ++
  bytes_of nl ++
  (if r_int_num r =? 0xE
   then bytes_of " An attempt was made to access the following virtual address: 0x" ++ hex true cr2 ++ [10; 10]
   else []) ++
  report_registers r.

Lemma exception_messages lit r cr2 :
  0 <= r_int_num r < 32 -> messages (exception_calls lit r cr2) = Some (exception_text r cr2).
Proof.
  intros Hr. destruct (exception_tables _ Hr) as [En Ee]. unfold exception_text, report_head. rewrite <- En, <- Ee.
  destruct (pair_messages (r_eax r) (r_ebx r)) as (E1 & _), (pair_messages (r_ecx r) (r_edx r)) as (_ & E2 & _),
    (pair_messages (r_esi r) (r_edi r)) as (_ & _ & E3 & _), (pair_messages (r_esp r) (r_ebp r)) as (_ & _ & _ & E4 & _),
    (pair_messages (r_eip r) (r_eflags r)) as (_ & _ & _ & _ & E5).
  apply messages_app; [|apply messages_app; [|apply messages_app; [|apply messages_app]]].
  - apply messages_cons; [by apply plain_message|].
    rewrite (messages_cons _ _ [] _ [] (name_message _ _ _) eq_refl). by rewrite app_nil_r.
  - apply messages_if, error_message.
  - rewrite (messages_cons nl [] [] _ [] (plain_message nl eq_refl) eq_refl). by rewrite app_nil_r.
  - apply messages_if, fault_message.
  - apply messages_cons; [by apply plain_message|]. apply messages_cons; [exact E1|].
    apply messages_cons; [exact E2|]. apply messages_cons; [exact E3|]. apply messages_cons; [exact E4|].
    apply messages_cons; [by apply plain_message|].
    rewrite (messages_cons _ _ [] _ [] E5 eq_refl). by rewrite app_nil_r.
Qed.

Lemma exception_text_no_backspace r cr2 :
  0 <= r_int_num r < 32 -> Forall (fun c => c <> 8) (exception_text r cr2).
Proof.
  intros Hn.
  assert (N : Forall (fun c => c <> 8) (bytes_of (shown_name (r_int_num r)))).
  { assert (H : forallb (fun n => forallb (fun c => negb (c =? 8)) (bytes_of (shown_name n))) (seqZ 0 32) = true)
      by (vm_compute; reflexivity).
    rewrite forallb_forall in H. specialize (H (r_int_num r)). rewrite <- list_elem_of_In, elem_of_seqZ in H.
    specialize (H ltac:(lia)). rewrite forallb_forall in H. apply Forall_forall. intros c Hc.
    apply list_elem_of_In, H, negb_true_iff, Z.eqb_neq in Hc. exact Hc. }
  assert (B : forall f, forallb (fun c => negb (c =? 8)) (bytes_of f) = true -> Forall (fun c => c <> 8) (bytes_of f)).
  { intros f H. rewrite forallb_forall in H. apply Forall_forall. intros c Hc.
    apply list_elem_of_In, H, negb_true_iff, Z.eqb_neq in Hc. exact Hc. }
  unfold exception_text, report_head, report_registers. cbv zeta.
  repeat (apply Forall_app; split);
    first [exact N | apply hex_no_backspace | by apply B | by repeat constructor | idtac].
  - destruct (bool_decide _); [|constructor].
    repeat (apply Forall_app; split); first [apply hex_no_backspace | by apply B | by repeat constructor].
  - destruct (r_int_num r =? 14); [|constructor].
    repeat (apply Forall_app; split); first [apply hex_no_backspace | by apply B | by repeat constructor].
Qed.

(** What the calls print: the name, the number and the registers. *)
Definition report_words (r : registers) (cr2 : Z) : list Z :=
  [r_int_num r; r_eax r; r_ebx r; r_ecx r; r_edx r; r_esi r; r_edi r; r_ebp r; r_esp r; r_error r; r_eip r;
   r_eflags r; cr2].

Lemma exception_args (P : message_arg -> Prop) lit r cr2 :
  P (Str (lit (interpret_exception (r_int_num r))) (bytes_of (interpret_exception (r_int_num r)))) ->
  Forall (fun v => P (Num v)) (report_words r cr2) ->
  Forall (fun c => Forall P c.2 /\ (length c.2 <= 16)%nat) (exception_calls lit r cr2).
Proof.
  unfold report_words. rewrite !Forall_cons. intros Hn (W & W1 & W2 & W3 & W4 & W5 & W6 & W7 & W8 & W9 & W10 & W11 & W12 & _).
  unfold exception_calls. cbv zeta.
  assert (H0 : forall f : string, Forall P (f, @nil message_arg).2 /\ (length (f, @nil message_arg).2 <= 16)%nat)
    by (intros f; split; [constructor|simpl; lia]).
  assert (H1 : forall (f : string) x, P x -> Forall P (f, [x]).2 /\ (length (f, [x]).2 <= 16)%nat)
    by (intros f x Hx; split; [by repeat constructor|simpl; lia]).
  assert (H2 : forall (f : string) x y, P x -> P y -> Forall P (f, [x; y]).2 /\ (length (f, [x; y]).2 <= 16)%nat)
    by (intros f x y Hx Hy; split; [by repeat constructor|simpl; lia]).
  destruct (truthy (nth (Z.to_nat (r_int_num r)) has_error_code 0)), (r_int_num r =? 14); cbn [app];
    repeat (apply Forall_cons; split; [first [apply H0 | by apply H1 | by apply H2]|]); by constructor.
Qed.

(** * Hanging *)

#[local] Opaque switch_active_terminal clear_terminal.

Section report.
Context `{L : Layout} `{LOk : !LayoutOk L} (lit : string -> Z) (sp conv : Z).
Context (k : kernel) (stack_var : Z) (r : registers) (cr2 : Z).
Let m := kmem k.

(** Memory that the terminals do not use, in the kernel image. *)
Definition literal_at (f : string) : Prop :=
  cstr m (lit f) (bytes_of f) /\
  forall x, lit f <= x <= lit f + zlen (bytes_of f) ->
    0x400000 <= x < 0x7F0000 /\ (x < output_buffer \/ output_buffer + 3 * 8192 <= x).

Record report_ok : Prop := {
  rp_video : video_ok (ktty k);
  rp_stack : 0x7F0000 <= sp /\ sp + 64 <= 0x800000 /\ 0x7F0000 <= conv /\ conv + 64 <= 0x800000;
  rp_frames : conv + 64 <= sp \/ sp + 64 <= conv;
  rp_formats : Forall (fun c => literal_at c.1) (exception_calls lit r cr2);
  rp_name : literal_at (interpret_exception (r_int_num r));
  rp_int : 0 <= r_int_num r < 32;
  rp_words : Forall (fun v => 0 <= v < 0x100000000) (report_words r cr2)
}.

Hypothesis (ok : report_ok).

(** The screen before the first message. *)
Let s1 := clear_terminal (ktty k) 0.
Let s2 := switch_active_terminal s1 0.

Lemma report_screen :
  video_ok s2 /\ active_terminal s2 = 0 /\ screen_of s2 0 = scr_clear /\
  (forall t, 0 < t < 3 -> screen_of s2 t = screen_of (ktty k) t) /\
  (forall x, 0x400000 <= x -> x < output_buffer \/ output_buffer + 3 * 8192 <= x -> load8 (tmem s2) x = load8 m x).
Proof.
  destruct (clear_terminal_spec (ktty k) 0) as [O C]. fold s1 in O, C.
  pose proof (only_screen_video _ _ _ O (rp_video ok)) as V1.
  destruct (switch_spec s1 0 V1 ltac:(lia)) as (V2 & Sc & M). destruct (switch_active s1 0 ltac:(lia)) as (A & _).
  fold s2 in V2, Sc, M, A. pose proof (rp_video ok) as Vk. destruct O as [OM OT _ _ _ OA _ _ _ _].
  pose proof (vk_video _ Vk) as Hv. destruct lay_output as [[O1 O2] _]. unfold KERNEL_PAGE_START, KERNEL_IMAGE_END in *.
  split; [exact V2|]. split; [exact A|]. split; [rewrite Sc by lia; exact C|]. split.
  - intros t Ht. rewrite Sc by lia. unfold screen_of. rewrite OT by lia. f_equal.
    rewrite Hv by lia. rewrite Hv in OM by lia. apply (screen_cells_outside _ _ _ _ _ OM).
    pose proof (screens_apart (ktty k) 0 t ltac:(lia) ltac:(lia) ltac:(lia)). lia.
  - intros x Hx Ho. rewrite M by lia. apply OM. rewrite Hv by lia.
    unfold get_terminal_output_buffer, VIDEO_PHYS_ADDR, output_row, FOUR_KB_ALIGNED. destruct (0 =? _); lia.
Qed.

Lemma report_prints :
  exists s' sc, kprintf_all lit sp conv s2 (call_words (exception_calls lit r cr2)) = Some s' /\
    scr_puts scr_clear (exception_text r cr2) = Some sc /\ screen_of s' 0 = sc /\
    messaging 0xB8000 sp conv s2 s'.
Proof.
  destruct report_screen as (V & A & C & _ & M). pose proof ok as [_ (P1 & P2 & P3 & P4) Pf Hf Hn Hi Hw].
  destruct (scr_puts_total scr_clear _ (exception_text_no_backspace r cr2 Hi)) as [sc Hsc].
  assert (Hb : video_memory (terms s2 0) = 0xB8000).
  { rewrite (vk_video _ V 0) by lia. unfold get_terminal_output_buffer. by rewrite A. }
  assert (Q : forall x, 0x400000 <= x < 0x7F0000 -> quiet 0xB8000 sp conv x)
    by (intros x Hx; unfold quiet, stable; lia).
  assert (LL : forall f, literal_at f -> literal_ok lit 0xB8000 sp conv (tmem s2) f /\
                                       arg_ok 0xB8000 sp conv (tmem s2) (Str (lit f) (bytes_of f))).
  { intros f [Hc Ha].
    assert (Hc2 : cstr (tmem s2) (lit f) (bytes_of f)).
    { apply (cstr_ext m); [|exact Hc]. intros x Hx. destruct (Ha x Hx) as [H1 H2]. apply M; [lia|exact H2]. }
    assert (Hq : forall x, lit f <= x <= lit f + zlen (bytes_of f) -> quiet 0xB8000 sp conv x)
      by (intros x Hx; apply Q, Ha, Hx).
    split; [by split|]. split; [|by split]. destruct (Ha (lit f) ltac:(lia)) as [H1 _]. simpl. lia. }
  destruct (kprintf_all_spec lit 0xB8000 sp conv (tmem s2)) with (calls := exception_calls lit r cr2)
      (s := s2) (t := exception_text r cr2) (sc := sc) as (s' & E & C' & MS & _).
  - lia.
  - intros x Hx. unfold stable. lia.
  - split; [exact Hb|reflexivity|]. rewrite C. exact scr_clear_ok.
  - pose proof (exception_args (arg_ok 0xB8000 sp conv (tmem s2)) lit r cr2 (proj2 (LL _ Hn))) as HA.
    apply Forall_and. split; [|apply HA].
    + eapply Forall_impl; [exact Hf|]. intros c Hc. exact (proj1 (LL _ Hc)).
    + eapply Forall_impl; [exact Hw|]. intros v Hv. by split.
  - by apply exception_messages.
  - rewrite C. exact Hsc.
  - exists s', sc. split; [exact E|]. split; [exact Hsc|]. split; [exact C'|exact MS].
Qed.
End report.

(** A halt gives its parent at most a byte. *)
Lemma halt_result `{L : Layout} k esp exit_status k1 a b v :
  syscall_halt k esp exit_status = Some (k1, Resume_kernel a b v) -> 0 <= v < 256.
Proof.
  unfold syscall_halt, halt_program. cbv zeta. destruct (close_all _ _ _ _) as [k2|]; [|discriminate].
  cbn [mbind option_bind]. destruct (_ =? 0).
  - unfold restart_program. cbv zeta. destruct (get_next_pid _). intros H.
    pose proof (f_equal (option_map snd) H) as H'. discriminate H'.
  - intros H. pose proof (f_equal (option_map snd) H) as H'. injection H' as _ _ <-.
    change 0xFF with (Z.ones 8). rewrite Z.land_ones by lia. apply Z.mod_pos_bound. lia.
Qed.

(** * Properties *)

(** C23: an exception kills the process.  If the process that caused it was
    started by another one, its slot and descriptors are freed and the parent
    continues on its own page tables and stack with 256 as the result of its
    [execute], a value [halt] cannot produce; nothing else in memory changes. *)
Theorem exception_kills_child `{L : Layout} `{LOk : !LayoutOk L} (lit : string -> Z) (sp conv : Z) (k : kernel)
    (i j stack_var : Z) (r : registers) (cr2 : Z) :
  let P := get_pcb_from_slot i in
  let C := get_pcb_from_slot j in
  0 <= i < 6 -> 0 <= j < 6 -> i <> j ->
  C < stack_var <= get_kernel_stack_base_from_slot j ->
  pcb_get (kmem k) C parent = P -> pcb_get (kmem k) P slot_num = i -> fds_ok (kmem k) C ->
  exists k', exception_handler lit sp conv k stack_var r cr2
    = Some (k', Killed (Resume_kernel (pcb_get (kmem k) P regs_esp) (pcb_get (kmem k) P regs_ebp) 256)) /\
    slot_used (kmem k') j = false /\ pcb_get (kmem k') P status = PROCESS_RUNNING /\
    cr3 k' = pcb_get (kmem k) P process_pd_ptr /\ tss_esp0 k' = get_kernel_stack_base_from_slot i /\
    (forall q, 0 <= q < 8 -> fd_used (kmem k') C q = fd_used (kmem k) C q && negb (closes (kmem k) C q)) /\
    (forall x, x < C \/ C + sizeof_pcb_t <= x -> x < P + 448 \/ P + 452 <= x ->
       load8 (kmem k') x = load8 (kmem k) x) /\
    (forall k0 esp status k1 a b v, syscall_halt k0 esp status = Some (k1, Resume_kernel a b v) -> v <> 256).
Proof.
  intros P C Hi Hj Hij He Hp Hs Hf. unfold exception_handler, get_current_pcb. cbv zeta.
  rewrite (pcb_from_esp_eq j Hj stack_var He). fold C. rewrite Hp.
  pose proof (slot_pcb_range i Hi) as R. fold P in R. rewrite (proj2 (Z.eqb_neq P 0)) by lia. cbn [negb].
  destruct (halt_program_spec k i j stack_var 256 Hi Hj Hij He Hp Hs Hf) as (m' & E & U & _ & S2 & M & D).
  rewrite E. cbn [mbind option_bind]. eexists. split; [reflexivity|].
  split; [exact (f_equal truthy U)|]. split; [exact S2|]. split; [reflexivity|].
  split; [unfold get_kernel_stack_base_from_slot; apply u32_u32|]. split; [exact D|]. split; [exact M|].
  intros k0 esp status k1 a b v H. apply halt_result in H. lia.
Qed.

Lemma exception_kills_child_witness :
  exists k', exception_handler (L := example_layout) (fun _ => 0) 0 0 example_child 0x7FD000
               (Registers 0 0 0 0 0 0 0 0 14 0 0 0 0) 0
             = Some (k', Killed (Resume_kernel 0x7FFE00 0x7FFE10 256)) /\ slot_used (kmem k') 1 = false.
Proof.
  destruct (exception_kills_child (LOk := example_layout_ok) (fun _ => 0) 0 0 example_child 0 1 0x7FD000
              (Registers 0 0 0 0 0 0 0 0 14 0 0 0 0) 0) as (k' & E & U & _).
  - lia.
  - lia.
  - lia.
  - split; vm_compute; congruence.
  - vm_compute. reflexivity.
  - vm_compute. reflexivity.
  - exact example_child_fds.
  - exists k'. split; [|exact U]. rewrite E. vm_compute. reflexivity.
Defined.

(** C24: the report of an exception without a parent.  The kernel switches to
    terminal 0, whose screen then shows exactly the report on a blank screen:
    the name and number of the exception (the architecture's name of the vector,
    except that the names of vectors 30 and 31 are swapped), its error code if
    the vector has one, the address of a page fault, and the registers with eight digits each; the
    screens of the other terminals stay, and the kernel hangs. *)
Theorem exception_report `{L : Layout} `{LOk : !LayoutOk L} (lit : string -> Z) (sp conv : Z) (k : kernel)
    (stack_var : Z) (r : registers) (cr2 : Z) :
  report_ok lit sp conv k r cr2 -> pcb_get (kmem k) (get_current_pcb stack_var) parent = 0 ->
  exists k' sc, exception_handler lit sp conv k stack_var r cr2 = Some (k', Hang) /\
    active_terminal (ktty k') = 0 /\ scr_puts scr_clear (exception_text r cr2) = Some sc /\
    screen_of (ktty k') 0 = sc /\
    (forall t, 0 < t < 3 -> screen_of (ktty k') t = screen_of (ktty k) t).
Proof.
  intros ok Hp. destruct (report_prints lit sp conv k r cr2 ok) as (s' & sc & E & Hsc & C & MS).
  destruct (report_screen lit sp conv k r cr2 ok) as (V & A & _ & Ho & _).
  unfold exception_handler. cbv zeta. rewrite Hp. cbn [Z.eqb negb]. rewrite E. cbn [mbind option_bind].
  exists (set_ktty k s'), sc. split; [reflexivity|]. split; [rewrite <- A; apply (ms_active _ _ _ _ _ MS)|].
  split; [exact Hsc|]. split; [exact C|]. intros t Ht. rewrite <- Ho by exact Ht.
  change (ktty (set_ktty k s')) with s'. unfold screen_of.
  rewrite (ms_terms _ _ _ _ _ MS t) by lia. f_equal. apply screen_cells_ext. intros i Hi.
  apply load_le_ext. intros x Hx. simpl in Hx. apply (ms_mem _ _ _ _ _ MS).
  rewrite (vk_video _ V t) in Hx by lia. unfold get_terminal_output_buffer in Hx. rewrite A in Hx.
  rewrite (proj2 (Z.eqb_neq t 0)) in Hx by lia. destruct (output_rows t ltac:(lia)) as (O1 & O2 & _).
  destruct (rp_stack _ _ _ _ _ _ ok) as (P1 & P2 & P3 & P4). unfold quiet, stable. lia.
Qed.

(** The literals of the report of a page fault, 256 bytes apart. *)
Definition example_registers : registers := Registers 1 2 3 4 5 6 7 8 14 2 0x8048094 0x23 0x202.
Definition example_literals : list string :=
  interpret_exception 14 :: map fst (exception_calls (fun _ => 0) example_registers 0).

Definition example_lit (f : string) : Z := 0x420000 + 0x100 * literal_index f example_literals.

Definition example_panic : kernel :=
  set_kmem (example_kernel example_tty)
    (foldl (fun m f => store_bytes m (example_lit f) (bytes_of f ++ [0])) (tmem example_tty) example_literals).

(** The literals are in place. *)
Definition literal_atb (f : string) : bool :=
  bool_decide (load_bytes (kmem example_panic) (example_lit f) (length (bytes_of f)) = bytes_of f) &&
  bool_decide (Forall (fun b => b <> 0) (bytes_of f)) &&
  (load8 (kmem example_panic) (example_lit f + zlen (bytes_of f)) =? 0) &&
  (0x420000 <=? example_lit f) && (example_lit f + zlen (bytes_of f) <? 0x430000).

Lemma literal_atb_spec f : literal_atb f = true -> literal_at (L := example_layout) example_lit example_panic f.
Proof.
  unfold literal_atb. rewrite !andb_true_iff, !bool_decide_eq_true, Z.eqb_eq, Z.leb_le, Z.ltb_lt.
  intros ((((H1 & H2) & H3) & H4) & H5). split; [by split|]. intros x Hx.
  change (@output_buffer example_layout) with 0x401000. lia.
Qed.

Lemma exception_report_witness :
  exists k' sc, exception_handler (L := example_layout) example_lit 0x7FF800 0x7FF700 example_panic 0x7FFF00
                  example_registers 0x1234 = Some (k', Hang) /\
    scr_puts scr_clear (exception_text example_registers 0x1234) = Some sc /\ screen_of (ktty k') 0 = sc.
Proof.
  destruct (exception_report (LOk := example_layout_ok) example_lit 0x7FF800 0x7FF700 example_panic 0x7FFF00
              example_registers 0x1234) as (k' & sc & E & _ & S & C & _).
  - split.
    + split; [simpl; lia|]. intros t Ht. assert (t = 0 \/ t = 1 \/ t = 2) as [->|[->| ->]] by lia; reflexivity.
    + lia.
    + lia.
    + apply Forall_forall. intros c Hc. apply literal_atb_spec.
      assert (H : forallb (fun c => literal_atb c.1) (exception_calls example_lit example_registers 0x1234) = true)
        by (vm_compute; reflexivity).
      rewrite forallb_forall in H. apply H, list_elem_of_In, Hc.
    + apply literal_atb_spec. vm_compute. reflexivity.
    + simpl. lia.
    + unfold report_words. simpl. repeat constructor; lia.
  - vm_compute. reflexivity.
  - exists k', sc. split; [exact E|]. split; [exact S|exact C].
Defined.
