(* ===== verification/Pit.v ===== *)
(** The timer and the scheduler, [drivers/pit.c].

    The stack pointers of the interrupted process are arguments; a switch
    ends in user mode for a process that has not run yet, and otherwise on the
    kernel stack where the process was interrupted before. *)

From S2P Require Import Prelude Memory Layout I8259 LibMem LibString CircularBuffer Paging.
From S2P Require Import Ece391Fs Fs Pcb Terminal Machine Rtc Syscall FileTable Process.

Definition PIT_IRQ : Z := 0.
Definition PIT_CH0_DATA_PORT : Z := 0x40.
Definition PIT_CMD_REG_PORT : Z := 0x43.
Definition PIT_BINARY_VAL : Z := 0x00.
Definition PIT_CMD_MODE3 : Z := 0x06.
Definition PIT_CMD_RW_BOTH : Z := 0x30.
Definition PIT_CMD_COUNTER0 : Z := 0x00.
Definition PIT_FREQUENCY : Z := 1193182.
Definition LOW_EIGHT_BIT_BITMASK : Z := 0xFF.

(** Where the processor is after an interrupt of the timer. *)
Inductive switch :=
  | Stay                       (* back to the interrupted process *)
  | To_user (esp eip : Z)      (* switch_to_ring_3 *)
  | To_kernel (esp ebp : Z).   (* on the stack of another process *)

Section code.
Context `{L : Layout}.

Definition context_switch (k : kernel) (last_pcb pcb esp ebp : Z) : kernel * switch :=
  let m := kmem k in
  let k := set_kmem k (set_process_vmem_page m (pcb_get m pcb slot_num)
             (get_terminal_output_buffer (ktty k) (pcb_get m pcb terminal_num))) in
  let k := enable_paging k (pcb_get (kmem k) pcb process_pd_ptr) in
  let m := pcb_set (kmem k) last_pcb regs_esp esp in
  let m := pcb_set m last_pcb regs_ebp ebp in
  let k := set_kmem k m in
  let k := set_kernel_stack k (get_kernel_stack_base_from_slot (pcb_get (kmem k) pcb slot_num)) in
  if pcb_get (kmem k) pcb regs_esp =? 0 then
    let k := set_kpic k (send_eoi (kpic k) PIT_IRQ) in
    (k, To_user PROCESS_LINK_START (pcb_get (kmem k) pcb entrypoint))
  else (k, To_kernel (pcb_get (kmem k) pcb regs_esp) (pcb_get (kmem k) pcb regs_ebp)).

(** The search; [None] when [fuel] is not enough, [Some None] when it ends
    without a candidate. *)
Fixpoint scheduler_loop (fuel : nat) (m : mem) (i last_slot_checked : Z) : option (option Z) :=
  match fuel with
  | O => None
  | S f =>
      if i =? last_slot_checked then Some None
      else
        let current_pcb := get_pcb_from_slot i in
        if truthy (pcb_get m current_pcb in_use) && (pcb_get m current_pcb status =? PROCESS_RUNNING)
        then Some (Some current_pcb)
        else scheduler_loop f m (Z.rem (i + 1) MAX_PROCESSES) last_slot_checked
  end.

(** After a switch to a kernel stack the code after the loop runs on that
    stack; after one to user mode it does not run. *)
Definition scheduler (k : kernel) (esp ebp : Z) : option (kernel * switch) :=
  let former_pcb := get_current_pcb esp in
  let slot := pcb_get (kmem k) former_pcb slot_num in
  let last_slot_checked := s32 (slot - 1) in
  let last_slot_checked :=
    if last_slot_checked <? 0 then last_slot_checked + MAX_PROCESSES else last_slot_checked in
  found ← scheduler_loop 8 (kmem k) (s32 (slot + 1)) last_slot_checked;
  let '(k, sw) := match found with
                  | Some current_pcb => context_switch k former_pcb current_pcb esp ebp
                  | None => (k, Stay)
                  end in
  Some (match sw with
        | To_user _ _ => k
        | _ => set_kpic k (send_eoi (kpic k) PIT_IRQ)
        end, sw).

Definition pit_init (k : kernel) (hertz : Z) : kernel :=
  let hertz := 100 in
  let divisor := u16 (PIT_FREQUENCY / hertz) in
  let out k port data := set_kpic k (pic_out (kpic k) port data) in
  let k := out k PIT_CMD_REG_PORT
             (Z.lor (Z.lor (Z.lor PIT_BINARY_VAL PIT_CMD_MODE3) PIT_CMD_RW_BOTH) PIT_CMD_COUNTER0) in
  let k := out k PIT_CH0_DATA_PORT (u8 (Z.land divisor LOW_EIGHT_BIT_BITMASK)) in
  out k PIT_CH0_DATA_PORT (u8 (Z.land (Z.shiftr divisor 8) LOW_EIGHT_BIT_BITMASK)).

Definition pit_handler (k : kernel) (esp ebp : Z) : option (kernel * switch) :=
  scheduler (set_ticks k (u32 (system_ticks k + 1))) esp ebp.
End code.

(** * The order of the search *)

(** A process that could run. *)
Definition runnable (m : mem) (i : Z) : bool :=
  truthy (pcb_get m (get_pcb_from_slot i) in_use)
  && (pcb_get m (get_pcb_from_slot i) status =? PROCESS_RUNNING).

(** The slots the loop looks at, from each slot: the slot itself and the one
    before it are left out, and the search from slot 5 starts at 6, behind the
    last slot, and misses slot 0. *)
Definition candidates (s : Z) : list Z :=
  if s =? 5 then [6; 1; 2; 3] else (fun d => (s + d) mod 6) <$> [1; 2; 3; 4].

Definition next_slot (R : Z -> bool) (s : Z) : option Z := List.find R (candidates s).

Lemma next_slot_loop m s :
  0 <= s < 6 ->
  scheduler_loop 8 m (s + 1) (if s =? 0 then 5 else s - 1)
  = Some (get_pcb_from_slot <$> next_slot (runnable m) s).
Proof.
  intros Hs. assert (H : s = 0 \/ s = 1 \/ s = 2 \/ s = 3 \/ s = 4 \/ s = 5) by lia.
  assert (E : forall f i last, scheduler_loop (S f) m i last
    = if i =? last then Some None else if runnable m i then Some (Some (get_pcb_from_slot i))
      else scheduler_loop f m (Z.rem (i + 1) MAX_PROCESSES) last) by reflexivity.
  rewrite !E. clear E. cbn [scheduler_loop].
  destruct H as [->|[->|[->|[->|[->| ->]]]]]; cbv -[get_pcb_from_slot runnable];
    repeat match goal with |- context [runnable m ?c] => destruct (runnable m c) end; reflexivity.
Qed.

Lemma next_slot_spec R s c :
  0 <= s < 6 -> next_slot R s = Some c -> R c = true /\ c <> s /\ 0 <= c <= 6.
Proof.
  intros Hs H. apply List.find_some in H as [Hin HR]. split; [done|]. unfold candidates in Hin.
  destruct (Z.eqb_spec s 5) as [->|]; simpl in Hin; [lia|].
  destruct Hin as [<-|[<-|[<-|[<-|[]]]]]; divlia.
Qed.

(** What the scheduler relies on: the memory behind the last PCB does not look
    like a runnable process, and the PCBs in use know their slot and page
    directory. *)
Record sched_ok (m : mem) : Prop := {
  sc_end : runnable m 6 = false;
  sc_slots : forall q, 0 <= q < 6 -> slot_used m q = true ->
    pcb_get m (get_pcb_from_slot q) slot_num = q /\
    pcb_get m (get_pcb_from_slot q) process_pd_ptr = get_process_pd q
}.

Lemma runnable_used m q : runnable m q = true -> slot_used m q = true.
Proof. unfold runnable, slot_used. by destruct (truthy _). Qed.

Section switching.
Context `{L : Layout} `{LOk : !LayoutOk L}.
Context (k : kernel) (s c esp ebp : Z).
Hypotheses (Hs : 0 <= s < 6) (Hc : 0 <= c < 6) (Hsc : s <> c)
           (Hesp : 0 <= esp < 0x100000000) (Hebp : 0 <= ebp < 0x100000000)
           (Hslot : pcb_get (kmem k) (get_pcb_from_slot c) slot_num = c)
           (Hpd : pcb_get (kmem k) (get_pcb_from_slot c) process_pd_ptr = get_process_pd c).
Let S := get_pcb_from_slot s.
Let C := get_pcb_from_slot c.
Let m := kmem k.
Let vmem := get_terminal_output_buffer (ktty k) (pcb_get m C terminal_num).
Let m1 := set_process_vmem_page m c vmem.
Let m' := pcb_set (pcb_set m1 S regs_esp esp) S regs_ebp ebp.

(** Only the registers of the process that is left change. *)
Lemma switch_fields q f :
  0 <= q < 6 -> in_pcb f = true ->
  q <> s \/ (fields_apart regs_esp f = true /\ fields_apart regs_ebp f = true) ->
  pcb_get m' (get_pcb_from_slot q) f = pcb_get m (get_pcb_from_slot q) f.
Proof.
  intros Hq Hf Hd. transitivity (pcb_get m1 (get_pcb_from_slot q) f).
  - unfold m', S. destruct (Z.eq_dec q s) as [->|Hne].
    + destruct Hd as [?|[D1 D2]]; [congruence|]. by rewrite !pcb_get_set_ne.
    + pose proof (slot_pcbs_apart q s Hq Hs Hne). rewrite !pcb_get_set_other by side. done.
  - apply pcb_get_ext; [done|]. intros x Hx. apply set_vmem_outside; [done|].
    pose proof (slot_pcb_range q Hq). destruct (slot_tables c Hc) as (_ & Tlo & Thi & _). lia.
Qed.

Lemma switch_end : runnable m' 6 = runnable m 6.
Proof.
  assert (H : forall x, 0x7F2000 <= x < 0x7F4000 -> load8 m' x = load8 m x).
  { intros x Hx. unfold m', S. pose proof (slot_pcb_range s Hs). destruct (slot_tables c Hc) as (_ & Tlo & Thi & _).
    rewrite !load8_pcb_set by (simpl pf_offset; simpl pf_width; lia). apply set_vmem_outside; [done|lia]. }
  unfold runnable. change (get_pcb_from_slot 6) with 0x7F2000.
  rewrite !(pcb_get_ext m m') by (reflexivity || (intros x Hx; apply H; lia)). done.
Qed.

Lemma switch_saved : pcb_get m' S regs_esp = esp /\ pcb_get m' S regs_ebp = ebp.
Proof.
  unfold m'. rewrite pcb_get_set_ne by done. rewrite !pcb_get_set_eq.
  split; apply Z.mod_small; simpl; lia.
Qed.

(** The video window of the new process is its terminal's. *)
Lemma switch_space (junk : Z -> Z) q pa va :
  0 <= q < 6 -> space_ok m q pa va -> space_ok m' q pa (if q =? c then vmem else va).
Proof.
  intros Hq Hsp. apply (space_ok_ext m1).
  - intros x Hx. unfold m', S. pose proof (slot_pcb_range s Hs).
    destruct (slot_tables q Hq) as (_ & Tlo & Thi & _), lay_vmem_pt as [[V1 V2] _].
    unfold KERNEL_IMAGE_END in V2. rewrite !load8_pcb_set by (simpl pf_offset; simpl pf_width; lia). done.
  - unfold m1. destruct (Z.eqb_spec q c) as [->|Hne]; [|by apply set_vmem_other].
    apply (set_vmem_space junk m c pa va vmem Hc); [|done].
    unfold vmem, get_terminal_output_buffer, output_row, VIDEO_PHYS_ADDR, FOUR_KB_ALIGNED.
    destruct lay_output as [[O1 O2] _]. unfold KERNEL_PAGE_START, KERNEL_IMAGE_END in *.
    pose proof (pcb_get_range m C terminal_num) as R. simpl in R. destruct (_ =? _); lia.
Qed.

Lemma context_switch_eq :
  let k1 := set_kernel_stack (enable_paging (set_kmem k m') (get_process_pd c))
              (get_kernel_stack_base_from_slot c) in
  context_switch k S C esp ebp
  = if pcb_get m C regs_esp =? 0
    then (set_kpic k1 (send_eoi (kpic k) PIT_IRQ), To_user PROCESS_LINK_START (pcb_get m C entrypoint))
    else (k1, To_kernel (pcb_get m C regs_esp) (pcb_get m C regs_ebp)).
Proof.
  cbv zeta. unfold context_switch. cbv zeta. fold m C in Hslot, Hpd. fold m. rewrite Hslot. fold vmem m1.
  rewrite !kmem_set_kmem.
  assert (Epd : pcb_get m1 C process_pd_ptr = get_process_pd c).
  { rewrite <- Hpd. unfold C. apply pcb_get_ext; [done|]. intros x Hx. apply set_vmem_outside; [done|].
    pose proof (slot_pcb_range c Hc). destruct (slot_tables c Hc) as (_ & Tlo & Thi & _). lia. }
  rewrite Epd. fold m'.
  assert (F : forall f, in_pcb f = true -> pcb_get m' C f = pcb_get m C f)
    by (intros f Hf; apply (switch_fields c f); auto).
  change (kmem (enable_paging (set_kmem k m1) (get_process_pd c))) with m1. fold m'.
  change (kmem (set_kernel_stack ?a ?b)) with (kmem a). rewrite !kmem_set_kmem.
  change (kmem (set_kpic ?a ?b)) with (kmem a).
  change (kmem (set_kernel_stack ?a ?b)) with (kmem a). rewrite !kmem_set_kmem.
  rewrite !F by reflexivity. rewrite Hslot. reflexivity.
Qed.
End switching.

(** A process with nobody to switch to, and the state after a switch from slot
    [s] to slot [c]. *)
Record switched `{L : Layout} (k k' : kernel) (s c esp ebp : Z) (sw : switch) : Prop := {
  sw_cr3 : cr3 k' = get_process_pd c;
  sw_stack : tss_esp0 k' = get_kernel_stack_base_from_slot c;
  sw_target : sw = if pcb_get (kmem k) (get_pcb_from_slot c) regs_esp =? 0
                   then To_user PROCESS_LINK_START (pcb_get (kmem k) (get_pcb_from_slot c) entrypoint)
                   else To_kernel (pcb_get (kmem k) (get_pcb_from_slot c) regs_esp)
                          (pcb_get (kmem k) (get_pcb_from_slot c) regs_ebp);
  sw_esp : pcb_get (kmem k') (get_pcb_from_slot s) regs_esp = esp;
  sw_ebp : pcb_get (kmem k') (get_pcb_from_slot s) regs_ebp = ebp;
  sw_eoi : kpic k' = send_eoi (kpic k) PIT_IRQ;
  sw_fields : forall q f, 0 <= q < 6 -> in_pcb f = true ->
    q <> s \/ (fields_apart regs_esp f = true /\ fields_apart regs_ebp f = true) ->
    pcb_get (kmem k') (get_pcb_from_slot q) f = pcb_get (kmem k) (get_pcb_from_slot q) f;
  sw_end : runnable (kmem k') 6 = runnable (kmem k) 6;
  sw_spaces : forall q pa va, 0 <= q < 6 -> space_ok (kmem k) q pa va ->
    space_ok (kmem k') q pa
      (if q =? c then get_terminal_output_buffer (ktty k) (pcb_get (kmem k) (get_pcb_from_slot c) terminal_num)
       else va)
}.

Section scheduling.
Context `{L : Layout} `{LOk : !LayoutOk L}.
Context (k : kernel) (s esp ebp : Z).
Hypotheses (Hs : 0 <= s < 6) (Hused : slot_used (kmem k) s = true) (ok : sched_ok (kmem k))
           (Hesp : get_pcb_from_slot s < esp <= get_kernel_stack_base_from_slot s)
           (Hebp : 0 <= ebp < 0x100000000).

Lemma scheduler_unfold :
  scheduler k esp ebp
  = let '(k, sw) := match next_slot (runnable (kmem k)) s with
                    | Some c => context_switch k (get_pcb_from_slot s) (get_pcb_from_slot c) esp ebp
                    | None => (k, Stay)
                    end in
    Some (match sw with To_user _ _ => k | _ => set_kpic k (send_eoi (kpic k) PIT_IRQ) end, sw).
Proof.
  destruct (sc_slots _ ok s Hs Hused) as [Es _].
  unfold scheduler, get_current_pcb. rewrite (pcb_from_esp_eq s Hs esp Hesp), Es. cbv zeta.
  rewrite !s32_id by lia.
  replace (if s - 1 <? 0 then s - 1 + MAX_PROCESSES else s - 1) with (if s =? 0 then 5 else s - 1)
    by (unfold MAX_PROCESSES; destruct (Z.ltb_spec (s - 1) 0), (Z.eqb_spec s 0); lia).
  rewrite next_slot_loop by done. cbn [mbind option_bind].
  by destruct (next_slot _ s).
Qed.

Lemma scheduler_stays :
  next_slot (runnable (kmem k)) s = None ->
  scheduler k esp ebp = Some (set_kpic k (send_eoi (kpic k) PIT_IRQ), Stay).
Proof. intros E. by rewrite scheduler_unfold, E. Qed.

Lemma scheduler_switches (junk : Z -> Z) c :
  next_slot (runnable (kmem k)) s = Some c ->
  0 <= c < 6 /\ c <> s /\ runnable (kmem k) c = true /\
  exists k' sw, scheduler k esp ebp = Some (k', sw) /\ switched k k' s c esp ebp sw.
Proof.
  intros E. destruct (next_slot_spec _ _ _ Hs E) as (HR & Hne & Hc6).
  assert (Hc : 0 <= c < 6) by (destruct (Z.eq_dec c 6) as [->|]; [rewrite (sc_end _ ok) in HR; discriminate HR|lia]).
  split; [done|]. split; [done|]. split; [done|].
  destruct (sc_slots _ ok c Hc (runnable_used _ _ HR)) as [Ec Epd].
  pose proof (slot_pcb_range s Hs) as RS. pose proof Hesp as He'. rewrite stack_base_eq in He' by done.
  assert (He : 0 <= esp < 0x100000000) by lia. assert (Hsc : s <> c) by done.
  pose proof (switch_saved k s c esp ebp He Hebp) as [V1 V2].
  assert (Hb : u32 (get_kernel_stack_base_from_slot c) = get_kernel_stack_base_from_slot c)
    by (unfold get_kernel_stack_base_from_slot; apply u32_u32).
  rewrite scheduler_unfold, E, (context_switch_eq k s c esp ebp Hs Hc Hsc Ec Epd).
  destruct (pcb_get (kmem k) (get_pcb_from_slot c) regs_esp =? 0) eqn:E0;
    (do 2 eexists; split; [reflexivity|]; split;
     [reflexivity|exact Hb|by rewrite E0|exact V1|exact V2|reflexivity
     |exact (switch_fields k s c esp ebp Hs Hc)
     |exact (switch_end k s c esp ebp Hs Hc)
     |exact (switch_space k s c esp ebp Hs Hc junk)]).
Qed.
End scheduling.

(** * Histories of timer interrupts *)

(** One interrupt of the timer: the process in slot [s] is interrupted
    somewhere on its kernel stack, afterwards slot [s'] runs. *)
Inductive tick `{L : Layout} : kernel -> Z -> kernel -> Z -> Prop :=
  | tick_stay k s esp ebp k' :
      get_pcb_from_slot s < esp <= get_kernel_stack_base_from_slot s -> 0 <= ebp < 0x100000000 ->
      pit_handler k esp ebp = Some (k', Stay) -> tick k s k' s
  | tick_switch k s esp ebp k' sw s' :
      get_pcb_from_slot s < esp <= get_kernel_stack_base_from_slot s -> 0 <= ebp < 0x100000000 ->
      pit_handler k esp ebp = Some (k', sw) -> sw <> Stay ->
      0 <= s' < 6 -> cr3 k' = get_process_pd s' -> tick k s k' s'.

(** Interrupts in a row, and the slots that run after each. *)
Inductive visits `{L : Layout} : kernel -> Z -> list Z -> kernel -> Prop :=
  | visits_nil k s : visits k s [] k
  | visits_cons k s k1 s1 l k2 : tick k s k1 s1 -> visits k1 s1 l k2 -> visits k s (s1 :: l) k2.

Definition step (R : Z -> bool) (s : Z) : Z := default s (next_slot R s).

Lemma tick_next `{L : Layout} `{LOk : !LayoutOk L} k s k' s' :
  0 <= s < 6 -> slot_used (kmem k) s = true -> sched_ok (kmem k) -> tick k s k' s' ->
  s' = step (runnable (kmem k)) s /\ (forall q, 0 <= q <= 6 -> runnable (kmem k') q = runnable (kmem k) q) /\
  sched_ok (kmem k') /\ 0 <= s' < 6 /\ slot_used (kmem k') s' = true.
Proof.
  intros Hs Hu ok T.
  assert (H : exists esp ebp sw, get_pcb_from_slot s < esp <= get_kernel_stack_base_from_slot s /\
            0 <= ebp < 0x100000000 /\ pit_handler k esp ebp = Some (k', sw) /\
            (sw = Stay /\ s' = s \/ sw <> Stay /\ 0 <= s' < 6 /\ cr3 k' = get_process_pd s')).
  { inversion T; subst; eauto 10. }
  clear T. destruct H as (esp & ebp & sw & He & Hb & E & Hsw). unfold pit_handler in E. unfold step.
  set (k0 := set_ticks k (u32 (system_ticks k + 1))) in E.
  change (kmem k) with (kmem k0) in *. clearbody k0. clear k.
  destruct (next_slot (runnable (kmem k0)) s) as [c|] eqn:En.
  - destruct (scheduler_switches k0 s esp ebp Hs Hu ok He Hb (fun _ => 0) c En) as (Hc & Hne & HR & k1 & sw1 & E1 & W).
    rewrite E1 in E. injection E as -> ->. destruct W as [Wcr _ Wtgt _ _ _ Wf We _]. rewrite Wtgt in Hsw.
    assert (s' = c) as ->.
    { destruct (pcb_get _ _ regs_esp =? 0), Hsw as [[? _]|(_ & _ & Hcr)]; try congruence;
        rewrite Hcr in Wcr; unfold get_process_pd, PROCESS_STRUCT_SIZE, FOUR_KB_ALIGNED in Wcr; lia. }
    assert (R' : forall q, 0 <= q <= 6 -> runnable (kmem k') q = runnable (kmem k0) q).
    { intros q Hq. destruct (Z.eq_dec q 6) as [->|]; [done|]. unfold runnable.
      rewrite !Wf by (lia || done || (right; done)). done. }
    assert (U' : forall q, 0 <= q < 6 -> slot_used (kmem k') q = slot_used (kmem k0) q).
    { intros q Hq. unfold slot_used. by rewrite Wf by (lia || done || (right; done)). }
    split; [done|]. split; [exact R'|]. split; [|split; [done|rewrite U' by done; by apply runnable_used]].
    split; [rewrite R' by lia; apply ok|]. intros q Hq. rewrite U' by done. intros Hq'.
    rewrite !Wf by (lia || done || (right; done)). by apply ok.
  - rewrite (scheduler_stays k0 s esp ebp Hs Hu ok He En) in E. injection E as <- <-.
    destruct Hsw as [[_ ->]|[? _]]; [|congruence]. done.
Qed.

(** The runnable slots among the first five, and the slots after [n] steps. *)
Definition runnable_slots (R : Z -> bool) : list Z := List.filter R [0; 1; 2; 3; 4].

Fixpoint steps (n : nat) (R : Z -> bool) (s : Z) : list Z :=
  match n with
  | O => []
  | S n' => step R s :: steps n' R (step R s)
  end.

Lemma step_ext R R' s : (forall q, 0 <= q <= 6 -> R' q = R q) -> 0 <= s < 6 -> step R' s = step R s.
Proof.
  intros H Hs. unfold step, next_slot. f_equal.
  assert (Hc : forall q, List.In q (candidates s) -> R' q = R q).
  { intros q Hq. apply H. unfold candidates in Hq.
    destruct (Z.eqb_spec s 5); simpl in Hq; [lia|]. destruct Hq as [<-|[<-|[<-|[<-|[]]]]]; divlia. }
  induction (candidates s) as [|c l IH]; [done|]. cbn [List.find].
  rewrite Hc by (by left). destruct (R c); [done|]. apply IH. intros q Hq. apply Hc. by right.
Qed.

Lemma step_range R s : R 6 = false -> 0 <= s < 6 -> 0 <= step R s < 6.
Proof.
  intros H6 Hs. unfold step. destruct (next_slot R s) as [c|] eqn:E; simpl; [|done].
  destruct (next_slot_spec _ _ _ Hs E) as (HR & _ & Hc).
  destruct (Z.eq_dec c 6) as [->|]; [congruence|lia].
Qed.

Lemma steps_ext n R R' s :
  (forall q, 0 <= q <= 6 -> R' q = R q) -> R 6 = false -> 0 <= s < 6 -> steps n R' s = steps n R s.
Proof.
  intros H H6. revert s. induction n as [|n IH]; intros s Hs; [done|]. cbn [steps].
  rewrite (step_ext R R') by done. f_equal. apply IH. by apply step_range.
Qed.

Lemma visits_steps `{L : Layout} `{LOk : !LayoutOk L} k s l k' :
  visits k s l k' -> 0 <= s < 6 -> slot_used (kmem k) s = true -> sched_ok (kmem k) ->
  l = steps (length l) (runnable (kmem k)) s.
Proof.
  induction 1 as [|k s k1 s1 l k2 T V IH]; intros Hs Hu ok; [done|].
  destruct (tick_next k s k1 s1 Hs Hu ok T) as (-> & R' & ok' & Hs' & Hu').
  cbn [length steps]. f_equal. rewrite (IH Hs' Hu' ok') at 1. apply steps_ext; [exact R'|apply ok|done].
Qed.

(** Interrupts can always be taken, wherever they find the process. *)
Lemma tick_total `{L : Layout} `{LOk : !LayoutOk L} k s :
  0 <= s < 6 -> slot_used (kmem k) s = true -> sched_ok (kmem k) -> exists k' s', tick k s k' s'.
Proof.
  intros Hs Hu ok.
  assert (He : get_pcb_from_slot s < get_kernel_stack_base_from_slot s <= get_kernel_stack_base_from_slot s)
    by (rewrite stack_base_eq by done; lia).
  set (k0 := set_ticks k (u32 (system_ticks k + 1))).
  destruct (next_slot (runnable (kmem k)) s) as [c|] eqn:En.
  - destruct (scheduler_switches k0 s _ 0 Hs Hu ok He ltac:(lia) (fun _ => 0) c En)
      as (Hc & _ & _ & k' & sw & E & W).
    exists k', c. apply (tick_switch k s _ 0 k' sw c He ltac:(lia) E); [|done|apply W].
    rewrite (sw_target _ _ _ _ _ _ _ W). by destruct (_ =? 0).
  - eexists _, s. eapply (tick_stay k s _ 0 _ He ltac:(lia)). exact (scheduler_stays k0 s _ 0 Hs Hu ok He En).
Qed.

Lemma visits_total `{L : Layout} `{LOk : !LayoutOk L} n k s :
  0 <= s < 6 -> slot_used (kmem k) s = true -> sched_ok (kmem k) ->
  exists l k', visits k s l k' /\ length l = n.
Proof.
  revert k s. induction n as [|n IH]; intros k s Hs Hu ok; [exists [], k; split; [constructor|done]|].
  destruct (tick_total k s Hs Hu ok) as (k1 & s1 & T).
  destruct (tick_next k s k1 s1 Hs Hu ok T) as (_ & _ & ok1 & Hs1 & Hu1).
  destruct (IH k1 s1 Hs1 Hu1 ok1) as (l & k' & V & <-). exists (s1 :: l), k'. split; [by econstructor|done].
Qed.

(** With at least three runnable processes in the first five slots and none
    in the last, every one of them gets its turn; by cases on which slots are
    runnable. *)
Definition table (b : list bool) (q : Z) : bool := nth (Z.to_nat q) b false.

Definition fair (R : Z -> bool) : bool :=
  let rs := runnable_slots R in
  (length rs <? 3)%nat
  || forallb (fun s => forallb (fun t => bool_decide (t ∈ steps (length rs) R s)) rs) rs.

Lemma fair_tables b0 b1 b2 b3 b4 : fair (table [b0; b1; b2; b3; b4; false; false]) = true.
Proof. destruct b0, b1, b2, b3, b4; vm_compute; reflexivity. Qed.

Lemma round_robin (R : Z -> bool) s t :
  R 5 = false -> R 6 = false -> (3 <= length (runnable_slots R))%nat ->
  s ∈ runnable_slots R -> t ∈ runnable_slots R -> t ∈ steps (length (runnable_slots R)) R s.
Proof.
  intros H5 H6 Hn Hs Ht. set (T := table [R 0; R 1; R 2; R 3; R 4; false; false]).
  assert (ET : forall q, 0 <= q <= 6 -> T q = R q).
  { intros q Hq. assert (H : q = 0 \/ q = 1 \/ q = 2 \/ q = 3 \/ q = 4 \/ q = 5 \/ q = 6) by lia.
    destruct H as [->|[->|[->|[->|[->|[->| ->]]]]]]; reflexivity || (symmetry; assumption). }
  assert (ER : runnable_slots T = runnable_slots R).
  { unfold runnable_slots. cbn [List.filter]. rewrite !ET by lia. done. }
  assert (Hs6 : 0 <= s < 6).
  { unfold runnable_slots in Hs. apply list_elem_of_In, List.filter_In in Hs as [Hs _]. simpl in Hs. lia. }
  rewrite <- (steps_ext _ R T s ET H6 Hs6), <- ER.
  pose proof (fair_tables (R 0) (R 1) (R 2) (R 3) (R 4)) as F. fold T in F. unfold fair in F. cbv zeta in F.
  rewrite ER in F. apply orb_true_iff in F as [F|F]; [apply Nat.ltb_lt in F; lia|].
  rewrite forallb_forall in F. specialize (F s ltac:(by apply list_elem_of_In)).
  rewrite forallb_forall in F. specialize (F t ltac:(by apply list_elem_of_In)).
  rewrite ER. by apply bool_decide_eq_true_1 in F.
Qed.

(** * Properties *)

(** C11: an interrupt of the timer ends and switches correctly.  From the
    process in slot [s] the scheduler takes the first runnable candidate; if
    there is none the process goes on, with nothing changed but the tick count
    and the acknowledged interrupt.  After a switch the processor is in the
    address space of the chosen process, whose video window is its terminal's,
    with its kernel stack for the next system call, and continues where that
    process was interrupted, or at its entry point if it has not run yet; the
    registers of the process left behind are saved, every other field of every
    PCB is as before, and the interrupt is acknowledged once. *)
Theorem pit_handler_correct `{L : Layout} `{LOk : !LayoutOk L} (k : kernel) (s esp ebp : Z) :
  0 <= s < 6 -> slot_used (kmem k) s = true -> sched_ok (kmem k) ->
  get_pcb_from_slot s < esp <= get_kernel_stack_base_from_slot s -> 0 <= ebp < 0x100000000 ->
  exists k' sw, pit_handler k esp ebp = Some (k', sw) /\
  system_ticks k' = u32 (system_ticks k + 1) /\
  match next_slot (runnable (kmem k)) s with
  | None => sw = Stay /\ kmem k' = kmem k /\ cr3 k' = cr3 k /\ tss_esp0 k' = tss_esp0 k /\
            kpic k' = send_eoi (kpic k) PIT_IRQ
  | Some c => 0 <= c < 6 /\ c <> s /\ slot_used (kmem k) c = true /\
              pcb_get (kmem k) (get_pcb_from_slot c) status = PROCESS_RUNNING /\
              switched (set_ticks k (u32 (system_ticks k + 1))) k' s c esp ebp sw
  end.
Proof.
  intros Hs Hu ok He Hb. unfold pit_handler. set (k0 := set_ticks k _).
  assert (T : forall k' sw, scheduler k0 esp ebp = Some (k', sw) -> system_ticks k' = system_ticks k0).
  { intros k' sw. rewrite (scheduler_unfold k0 s esp ebp Hs Hu ok He).
    destruct (next_slot _ s) as [c|]; [|by intros [= <- <-]].
    unfold context_switch. cbv zeta. destruct (_ =? 0); intros [= <- <-]; reflexivity. }
  destruct (next_slot (runnable (kmem k)) s) as [c|] eqn:En.
  - destruct (scheduler_switches k0 s esp ebp Hs Hu ok He Hb (fun _ => 0) c En)
      as (Hc & Hne & HR & k' & sw & E & W). exists k', sw. split; [exact E|]. split; [exact (T _ _ E)|].
    split; [exact Hc|]. split; [exact Hne|]. split; [exact (runnable_used _ _ HR)|]. split; [|exact W].
    apply andb_true_iff in HR as [_ HR]. by apply Z.eqb_eq in HR.
  - pose proof (scheduler_stays k0 s esp ebp Hs Hu ok He En) as E.
    do 2 eexists. split; [exact E|]. split; [exact (T _ _ E)|]. auto.
Qed.

(** Slots 0, 1 and 3 run; slot 1 has not run yet. *)
Definition example_sched : kernel :=
  let used m q := pcb_set (pcb_set (pcb_set (pcb_set (pcb_set m (get_pcb_from_slot q) in_use 1)
      (get_pcb_from_slot q) status PROCESS_RUNNING) (get_pcb_from_slot q) slot_num q)
      (get_pcb_from_slot q) process_pd_ptr (get_process_pd q)) (get_pcb_from_slot q) entrypoint 0x8048094 in
  example_kernel (Tty (used (used (used ∅ 0) 1) 3) pic_boot
    (fun _ => Terminal (circular_buffer_init 0 1) 0 0 0 0) 0 0 [] 0).

Lemma example_sched_ok : sched_ok (kmem example_sched).
Proof.
  split; [vm_compute; reflexivity|]. intros q Hq.
  assert (H : q = 0 \/ q = 1 \/ q = 2 \/ q = 3 \/ q = 4 \/ q = 5) by lia.
  destruct H as [->|[->|[->|[->|[->| ->]]]]]; intros U; vm_compute in U; try discriminate U;
    split; vm_compute; reflexivity.
Qed.

Lemma pit_handler_correct_witness :
  exists k', pit_handler (L := example_layout) example_sched 0x7FFF00 0x7FFF80
             = Some (k', To_user PROCESS_LINK_START 0x8048094) /\ cr3 k' = get_process_pd 1.
Proof.
  destruct (pit_handler_correct (LOk := example_layout_ok) example_sched 0 0x7FFF00 0x7FFF80)
    as (k' & sw & E & _ & P).
  - lia.
  - vm_compute. reflexivity.
  - exact example_sched_ok.
  - split; vm_compute; congruence.
  - lia.
  - replace (next_slot _ _) with (Some 1) in P by (vm_compute; reflexivity).
    destruct P as (_ & _ & _ & _ & W). exists k'. rewrite E, (sw_target _ _ _ _ _ _ _ W).
    split; [do 2 f_equal; vm_compute; reflexivity|exact (sw_cr3 _ _ _ _ _ _ _ W)].
Defined.

(** C12: scheduling is fair among the first five slots.  With at least three
    runnable processes there (the kernel keeps one per terminal) and none in
    the last slot, whatever process runs and wherever the interrupts find it,
    every runnable process runs within as many timer interrupts as there are
    runnable processes. *)
Theorem scheduler_fair `{L : Layout} `{LOk : !LayoutOk L} (k : kernel) (s t : Z) :
  let rs := runnable_slots (runnable (kmem k)) in
  sched_ok (kmem k) -> runnable (kmem k) 5 = false -> (3 <= length rs)%nat ->
  s ∈ rs -> t ∈ rs ->
  (exists l k', visits k s l k' /\ length l = length rs) /\
  (forall l k', visits k s l k' -> length l = length rs -> t ∈ l).
Proof.
  intros rs ok H5 Hn Hs Ht.
  assert (Hs6 : 0 <= s < 6 /\ slot_used (kmem k) s = true).
  { unfold rs, runnable_slots in Hs. apply list_elem_of_In, List.filter_In in Hs as [Hs HR]. simpl in Hs.
    split; [lia|by apply runnable_used]. }
  destruct Hs6 as [Hs6 Hu]. split; [by apply visits_total|]. intros l k' V Hl. rewrite (visits_steps k s l k' V Hs6 Hu ok), Hl.
  apply round_robin; [done|apply ok|done..].
Qed.

Lemma scheduler_fair_witness :
  exists l k', visits (L := example_layout) example_sched 0 l k' /\ length l = 3%nat /\ 3 ∈ l.
Proof.
  destruct (scheduler_fair (LOk := example_layout_ok) example_sched 0 3) as [(l & k' & V & Hl) F].
  - exact example_sched_ok.
  - vm_compute. reflexivity.
  - apply Nat.leb_le. vm_compute. reflexivity.
  - apply (bool_decide_unpack _). vm_compute. exact I.
  - apply (bool_decide_unpack _). vm_compute. exact I.
  - exists l, k'. split; [exact V|]. split; [rewrite Hl; vm_compute; reflexivity|exact (F l k' V Hl)].
Defined.

(** Finding: the search from slot 5 starts at slot 6 and goes on with slot 1,
    and every search leaves out the slot before the current one.  With the
    runnable processes in slots 0, 4 and 5, slot 5 is never preempted and the
    other two starve. *)
Theorem scheduler_starvation (R : Z -> bool) (n : nat) :
  R 0 = true -> R 4 = true -> R 5 = true ->
  R 1 = false -> R 2 = false -> R 3 = false -> R 6 = false ->
  steps n R 5 = replicate n 5.
Proof.
  intros R0 R4 R5 R1 R2 R3 R6. induction n as [|n IH]; [done|]. cbn [steps replicate].
  assert (E : step R 5 = 5) by (unfold step, next_slot; cbn; by rewrite R6, R1, R2, R3).
  by rewrite E, IH.
Qed.
