(* ===== verification/Boot.v ===== *)
(** The first programs: [kernel_run_first_program] of [arch/x86/task.c], which
    starts the same command in slots 0 to 2, one on each terminal, and then
    enters user mode in slot 0 with the timer running. *)

From S2P Require Import Prelude Memory Layout I8259 LibMem LibString CircularBuffer Paging.
From S2P Require Import Ece391Fs Fs Pcb Terminal Screen LineInput Machine Rtc Syscall FileTable.
From S2P Require Import Process Execute Pit.

Section code.
Context `{L : Layout} (junk : Z -> Z).

(** [for(i = 0; i < MAX_PROCESSES; i++)]: the PCBs are marked free. *)
Definition clear_pcb (m : mem) (i : Z) : mem :=
  let current_pcb := get_pcb_from_slot i in
  let m := pcb_set m current_pcb in_use 0 in
  let m := pcb_set m current_pcb slot_num i in
  pcb_set m current_pcb status PROCESS_NONE.

Definition clear_pcbs (m : mem) : mem := foldl clear_pcb m (seqZ 0 MAX_PROCESSES).

(** The rest of the body of the second loop, once the program was loaded. *)
Definition launch (k : kernel) (i entry : Z) : kernel :=
  let child_pcb := get_pcb_from_slot i in
  let m := pcb_set (kmem k) child_pcb entrypoint entry in
  let vmem_ptr := get_terminal_output_buffer (ktty k) i in
  let slot := pcb_get m child_pcb slot_num in
  let '(m, pd) := setup_process_paging junk m (get_process_page_from_slot slot) slot vmem_ptr in
  let m := pcb_set m child_pcb process_pd_ptr pd in
  let m := pcb_set m child_pcb parent 0 in
  let m := pcb_set m child_pcb child 0 in
  let m := pcb_set m child_pcb in_use 1 in
  let '(k, new_pid) := get_next_pid k in
  let m := pcb_set m child_pcb pid new_pid in
  let m := pcb_set m child_pcb status PROCESS_RUNNING in
  let m := pcb_set m child_pcb terminal_num i in
  set_kmem k (open_stdin_and_stdout m child_pcb).

(** [false]: the function has returned, because there is no such program. *)
Fixpoint launch_loop (n : nat) (k : kernel) (local command i : Z) : kernel * bool :=
  match n with
  | O => (k, true)
  | S n' =>
      let child_pcb := get_pcb_from_slot i in
      let '(m, _) := parse_command (kmem k) command (program_name child_pcb) (args child_pcb) in
      let '(m, entry) := load_program_into_slot m (kfs k) local (program_name child_pcb)
                           (pcb_get m child_pcb slot_num) in
      let k := set_kmem k m in
      if entry =? 0 then (k, false)
      else launch_loop n' (launch k i entry) local command (i + 1)
  end.

(** The function from the second loop on.  [None]: it returns to [entry],
    which halts. *)
Definition start_programs (k : kernel) (local command : Z) : kernel * option outcome :=
  let '(k, started) := launch_loop (Z.to_nat NUM_TERMINALS) k local command 0 in
  if negb started then (k, None)
  else
    let child_pcb := get_pcb_from_slot 0 in
    let k := enable_paging k (pcb_get (kmem k) child_pcb process_pd_ptr) in
    let k := set_kernel_stack k (get_kernel_stack_base_from_slot (pcb_get (kmem k) child_pcb slot_num)) in
    let k := pit_init k 100 in
    let k := set_kpic k (enable_irq (kpic k) PIT_IRQ) in
    (k, Some (Enter_user PROCESS_LINK_START (pcb_get (kmem k) child_pcb entrypoint))).

Definition kernel_run_first_program (k : kernel) (local command : Z) : kernel * option outcome :=
  let k := set_kmem k (clear_pcbs (kmem k)) in
  let k := set_ktty k (multiple_terminal_init (ktty k)) in
  start_programs k local command.
End code.

(** * Clearing the PCBs *)

Lemma clear_pcb_spec m i :
  0 <= i < 6 ->
  let m' := clear_pcb m i in
  pcb_get m' (get_pcb_from_slot i) in_use = 0 /\ pcb_get m' (get_pcb_from_slot i) slot_num = i /\
  pcb_get m' (get_pcb_from_slot i) status = PROCESS_NONE /\
  same_outside m m' (get_pcb_from_slot i + 428) (get_pcb_from_slot i + 452).
Proof.
  intros Hi. unfold clear_pcb. cbv zeta. split_and!.
  - repeat pcb_step. reflexivity.
  - repeat pcb_step. apply Z.mod_small. simpl. lia.
  - repeat pcb_step. reflexivity.
  - intros x Hx. rewrite !load8_pcb_set by (simpl; lia). done.
Qed.

(** Outside the numbers and flags at the end of the six PCBs. *)
Definition off_marks (x : Z) : Prop :=
  forall q, 0 <= q < 6 -> x < get_pcb_from_slot q + 428 \/ get_pcb_from_slot q + 452 <= x.

Lemma clear_pcbs_spec m :
  let m' := clear_pcbs m in
  (forall q, 0 <= q < 6 -> pcb_get m' (get_pcb_from_slot q) in_use = 0 /\
     pcb_get m' (get_pcb_from_slot q) slot_num = q /\ pcb_get m' (get_pcb_from_slot q) status = PROCESS_NONE) /\
  (forall x, off_marks x -> load8 m' x = load8 m x).
Proof.
  cbv zeta. unfold clear_pcbs. change MAX_PROCESSES with 6.
  assert (H : forall l m, NoDup l -> (forall q, q ∈ l -> 0 <= q < 6) ->
    let m' := foldl clear_pcb m l in
    (forall q, q ∈ l -> pcb_get m' (get_pcb_from_slot q) in_use = 0 /\
       pcb_get m' (get_pcb_from_slot q) slot_num = q /\
       pcb_get m' (get_pcb_from_slot q) status = PROCESS_NONE) /\
    (forall x, (forall q, q ∈ l -> x < get_pcb_from_slot q + 428 \/ get_pcb_from_slot q + 452 <= x) ->
       load8 m' x = load8 m x)).
  { induction l as [|i l IH]; intros m1 Hd Hin; cbn [foldl]; [split; [intros q Hq; by apply elem_of_nil in Hq|done]|].
    apply NoDup_cons in Hd as [Hni Hd]. assert (Hi : 0 <= i < 6) by (apply Hin; left).
    destruct (clear_pcb_spec m1 i Hi) as (U & N & S & M). set (m2 := clear_pcb m1 i) in *.
    destruct (IH m2 Hd) as [F O]; [intros q Hq; apply Hin; by right|]. cbv zeta in F, O.
    split.
    - intros q Hq. apply elem_of_cons in Hq as [->|Hq]; [|by apply F].
      assert (E : forall f, in_pcb f = true -> 428 <= pf_offset f ->
                pcb_get (foldl clear_pcb m2 l) (get_pcb_from_slot i) f = pcb_get m2 (get_pcb_from_slot i) f).
      { intros f Hf Ho. apply in_pcb_bounds in Hf. apply load_le_ext. intros x Hx. apply O. intros q Hq.
        assert (Hqi : q <> i) by congruence. pose proof (slot_pcbs_apart q i (Hin q ltac:(by right)) Hi Hqi). lia. }
      rewrite !E by (reflexivity || (simpl; lia)). done.
    - intros x Hx. rewrite O by (intros q Hq; apply Hx; by right). apply M. apply Hx. left. }
  destruct (H (seqZ 0 6) m (NoDup_seqZ 0 6)) as [F O]; [intros q Hq; apply elem_of_seqZ in Hq; lia|].
  split; [intros q Hq; apply F, elem_of_seqZ; lia|].
  intros x Hx. apply O. intros q Hq. apply elem_of_seqZ in Hq. apply Hx. lia.
Qed.

(** * One process *)

(** The PCB of a first process in slot [i]. *)
Record launched (m : mem) (i new_pid entry : Z) (l : list Z) : Prop := {
  la_parent : pcb_get m (get_pcb_from_slot i) parent = 0;
  la_child : pcb_get m (get_pcb_from_slot i) child = 0;
  la_in_use : pcb_get m (get_pcb_from_slot i) in_use = 1;
  la_status : pcb_get m (get_pcb_from_slot i) status = PROCESS_RUNNING;
  la_term : pcb_get m (get_pcb_from_slot i) terminal_num = i;
  la_entry : pcb_get m (get_pcb_from_slot i) entrypoint = entry;
  la_slot : pcb_get m (get_pcb_from_slot i) slot_num = i;
  la_pd : pcb_get m (get_pcb_from_slot i) process_pd_ptr = get_process_pd i;
  la_pid : pcb_get m (get_pcb_from_slot i) pid = u32 new_pid;
  la_name : cstr m (program_name (get_pcb_from_slot i)) (command_name l);
  la_args : cstr m (args (get_pcb_from_slot i)) (command_args l)
}.

#[local] Opaque setup_process_paging pcb_set pcb_get open_stdin_and_stdout.

Section launching.
Context `{L : Layout} `{LOk : !LayoutOk L} (junk : Z -> Z).
Context (k : kernel) (i entry : Z).
Hypotheses (Hi : 0 <= i < 6) (Hslot : pcb_get (kmem k) (get_pcb_from_slot i) slot_num = i)
           (Hentry : 0 <= entry < 0x100000000).
Let C := get_pcb_from_slot i.
Let vmem := get_terminal_output_buffer (ktty k) i.
Let m1 := pcb_set (kmem k) C entrypoint entry.
Let m2 := (setup_process_paging junk m1 (get_process_page_from_slot i) i vmem).1.
Let m3 := pcb_set (pcb_set (pcb_set (pcb_set m2 C process_pd_ptr (get_process_pd i)) C parent 0) C child 0)
            C in_use 1.
Let m4 := pcb_set (pcb_set (pcb_set m3 C pid (next_pid k)) C status PROCESS_RUNNING) C terminal_num i.
Let m5 := open_stdin_and_stdout m4 C.

Lemma launch_eq : launch junk k i entry = set_kmem (set_next_pid k (u32 (next_pid k + 1))) m5.
Proof.
  assert (E : pcb_get m1 C slot_num = i) by (unfold m1; rewrite pcb_get_set_ne by reflexivity; exact Hslot).
  unfold launch. cbv zeta. fold C m1 vmem. rewrite E, setup_pair. fold m2. cbv beta iota.
  cbn [get_next_pid]. cbv beta iota. reflexivity.
Qed.

Lemma launch_tables x :
  C <= x < C + 8192 ->
  (x < get_process_pd i \/ get_process_pd i + 0x2000 <= x) /\ (x < vmem_pt \/ vmem_pt + 4096 <= x).
Proof.
  intros Hx. pose proof (slot_pcb_range i Hi) as R. fold C in R. destruct (slot_tables i Hi) as (_ & Hlo & Hhi & _).
  destruct lay_vmem_pt as [[_ Hv] _]. unfold KERNEL_IMAGE_END in Hv. lia.
Qed.

Lemma launch_field_m2 f : in_pcb f = true -> pcb_get m2 C f = pcb_get m1 C f.
Proof.
  intros Hf. apply pcb_get_ext; [done|]. intros x Hx. destruct (launch_tables x ltac:(lia)) as [T V].
  by apply setup_outside.
Qed.

Lemma launch_fields :
  pcb_get m5 C parent = 0 /\ pcb_get m5 C child = 0 /\ pcb_get m5 C in_use = 1 /\
  pcb_get m5 C status = PROCESS_RUNNING /\ pcb_get m5 C terminal_num = i /\
  pcb_get m5 C entrypoint = entry /\ pcb_get m5 C slot_num = i /\
  pcb_get m5 C process_pd_ptr = get_process_pd i /\ pcb_get m5 C pid = u32 (next_pid k) /\
  pcb_get m5 C regs_esp = pcb_get (kmem k) C regs_esp.
Proof.
  assert (F : forall f, pf_offset f + Z.of_nat (pf_width f) <= 40 \/ 72 <= pf_offset f ->
            pcb_get m5 C f = pcb_get m4 C f).
  { intros f Hf. apply (pcb_get_outside m4 m5 C f _ _ (open_std_outside m4 C)). lia. }
  destruct (slot_tables i Hi) as (_ & Tlo & Thi & _).
  split_and!; (etransitivity; [apply F; side|]); unfold m4, m3; repeat pcb_step; try reflexivity.
  - apply Z.mod_small. simpl. lia.
  - rewrite launch_field_m2 by reflexivity. unfold m1. repeat pcb_step. apply Z.mod_small. simpl. lia.
  - rewrite launch_field_m2 by reflexivity. unfold m1. repeat pcb_step. exact Hslot.
  - apply Z.mod_small. simpl. lia.
  - rewrite launch_field_m2 by reflexivity. unfold m1. repeat pcb_step. reflexivity.
Qed.

(** Outside the fields of the PCB that are not its strings. *)
Lemma launch_outside x :
  x < C \/ C + 72 <= x < C + 424 \/ C + 452 <= x ->
  (x < get_process_pd i \/ get_process_pd i + 0x2000 <= x) -> (x < vmem_pt \/ vmem_pt + 4096 <= x) ->
  load8 m5 x = load8 (kmem k) x.
Proof.
  intros Hx T V. unfold m5. rewrite open_std_outside by lia. unfold m4, m3.
  rewrite !load8_pcb_set by (simpl; lia). unfold m2. rewrite setup_outside by assumption. unfold m1.
  rewrite load8_pcb_set by (simpl; lia). reflexivity.
Qed.

Lemma launch_others q : 0 <= q < 6 -> q <> i -> same_pcb (kmem k) m5 (get_pcb_from_slot q).
Proof.
  intros Hq Hne x Hx. pose proof (slot_pcbs_apart q i Hq Hi Hne) as A. fold C in A.
  pose proof (slot_pcb_range q Hq). destruct (slot_tables i Hi) as (_ & Hlo & Hhi & _).
  destruct lay_vmem_pt as [[_ Hv] _]. unfold KERNEL_IMAGE_END in Hv. apply launch_outside; lia.
Qed.

(** The assignments to the PCB keep page tables. *)
Lemma launch_sets_space q pa va : 0 <= q < 6 -> space_ok m2 q pa va -> space_ok m5 q pa va.
Proof.
  intros Hq. apply space_ok_ext. intros x Hx. pose proof (slot_pcb_range i Hi) as RC. fold C in RC.
  destruct (slot_tables q Hq) as (_ & Tlo & Thi & _), lay_vmem_pt as [[V1 V2] _].
  unfold KERNEL_IMAGE_END in V2. unfold m5. rewrite open_std_outside by lia. unfold m4, m3.
  rewrite !load8_pcb_set by (simpl; lia). reflexivity.
Qed.

Lemma launch_space :
  0 <= vmem < 0x100000000 -> space_ok m5 i (get_process_page_from_slot i) vmem.
Proof.
  intros Hv. apply launch_sets_space; [done|]. pose proof (process_page_eq i Hi) as Ep.
  apply setup_space; [done|lia|rewrite Ep; divlia|done].
Qed.

Lemma launch_other_space q pa va :
  0 <= q < 6 -> q <> i -> space_ok (kmem k) q pa va -> space_ok m5 q pa va.
Proof.
  intros Hq Hne S. apply launch_sets_space; [done|]. apply setup_other; [done..|].
  unfold m1, C. eapply child_pcb_space; [eassumption..|reflexivity|exact S].
Qed.
End launching.

(** * The memory at boot *)

(** The entry point of a file that was found, or 0 for no program. *)
Definition program_entry (file : option (list Z)) : Z :=
  match file with
  | None => 0
  | Some bytes => if zlen bytes <=? 4 then 0 else executable_entry bytes
  end.

(** The header is complete, or it is no program at all. *)
Definition whole_header (file : option (list Z)) : Prop :=
  forall bytes, file = Some bytes ->
    zlen bytes <= 4 \/ 28 <= zlen bytes \/ take 4 bytes <> ELF_MAGIC_HEADER.

Lemma entry_of_program file entry : whole_header file -> entry_of file entry -> entry = program_entry file.
Proof.
  intros H E. destruct file as [bytes|]; [|exact E]. destruct E as [E1 E2]. unfold program_entry.
  destruct (Z.leb_spec (zlen bytes) 4); [apply E1; lia|].
  destruct (H bytes eq_refl) as [?|[?|Hm]]; [lia|by apply E2|].
  rewrite E1 by (by right). unfold executable_entry. by rewrite decide_False.
Qed.

Section boot.
Context `{L : Layout} `{LOk : !LayoutOk L} (junk : Z -> Z).
Context (fs : fs_ptrs) (local command : Z) (l : list Z).

(** Part of the kernel image that starting programs does not write. *)
Definition boot_kept (x : Z) : Prop :=
  0x400000 <= x < 0x7F0000 /\ (x < output_buffer \/ output_buffer + 3 * 8192 <= x) /\
  (x < vmem_pt \/ vmem_pt + 4096 <= x).

(** The file system image, the command and the ELF magic lie in that part; the
    local [dentry_t] is on the boot stack, which is the stack of slot 0. *)
Record boot_mem (m : mem) : Prop := {
  bm_fs : fs_ok m fs;
  bm_image : forall x, fs_boot_ptr fs <= x < image_end m fs -> boot_kept x;
  bm_string : cstr m command l;
  bm_string_at : forall x, command <= x <= command + zlen l -> boot_kept x;
  bm_magic : cstr m elf_magic ELF_MAGIC_HEADER;
  bm_magic_at : forall x, elf_magic <= x < elf_magic + 5 -> boot_kept x;
  bm_local : get_pcb_from_slot 0 + sizeof_pcb_t <= local /\ local + 64 <= 0x800000;
  bm_name : zlen (command_name l) < 128;
  bm_args : zlen (command_args l) < 128;
  bm_inode : forall d, dir_lookup m fs (take 32 (command_name l)) = Some d ->
    inode_ok m fs (dentry_inode_num m (directory_entry fs d))
}.

(** The part of it that is read. *)
Definition boot_read (m : mem) (x : Z) : Prop :=
  fs_boot_ptr fs <= x < image_end m fs \/ command <= x <= command + zlen l \/ elf_magic <= x < elf_magic + 5.

Lemma boot_mem_same m m' :
  boot_mem m -> (forall x, boot_read m x -> load8 m' x = load8 m x) ->
  boot_mem m' /\ find_file m' fs (take 32 (command_name l)) = find_file m fs (take 32 (command_name l)).
Proof.
  intros [Hfs Him Hs Hsa Hm Hma Hl Hn Ha Hin] M.
  assert (I : same_image m m' fs) by (intros x Hx; apply M; by left).
  destruct (image_find_file m m' fs (take 32 (command_name l)) Hfs I Hin) as [F Hin'].
  split; [|exact F]. split; try done.
  - by apply (same_image_fs_ok m).
  - intros x Hx. apply Him. by rewrite (image_end_same m fs Hfs m' I) in Hx.
  - apply (cstr_ext m); [|exact Hs]. intros x Hx. apply M. right. by left.
  - apply (cstr_ext m); [|exact Hm]. intros x Hx. simpl in Hx. apply M. right. right. lia.
Qed.

Lemma boot_mem_ext m m' :
  boot_mem m -> (forall x, boot_kept x -> load8 m' x = load8 m x) ->
  boot_mem m' /\ find_file m' fs (take 32 (command_name l)) = find_file m fs (take 32 (command_name l)).
Proof.
  intros B M. apply boot_mem_same; [exact B|]. destruct B as [_ Him _ Hsa _ Hma _ _ _ _].
  intros x [Hx|[Hx|Hx]]; apply M; [by apply Him|by apply Hsa|by apply Hma].
Qed.

Lemma boot_loadable m j : boot_mem m -> 0 <= j < 3 -> loadable m fs local command j l.
Proof.
  intros [Hfs Him Hs Hsa Hm Hma [Hl1 Hl2] Hn Ha Hin] Hj.
  assert (Hj6 : 0 <= j < 6) by lia. pose proof (slot_pcb_range j Hj6) as R.
  pose proof (Hsa command ltac:(lia)) as [C1 _]. pose proof (Hsa (command + zlen l) ltac:(lia)) as [C2 _].
  pose proof (image_layout m fs Hfs) as IL.
  pose proof (Him (image_end m fs - 1) ltac:(lia)) as [I2 _].
  change (get_pcb_from_slot 0) with 0x7FE000 in Hl1. rewrite pcb_from_slot_eq in * by done.
  unfold sizeof_pcb_t in *. split; unfold off_image, sizeof_pcb_t; rewrite ?pcb_from_slot_eq by done; try done; lia.
Qed.

(** Outside what starting the program in slot [i] writes. *)
Definition off_launch (i x : Z) : Prop :=
  (x < get_pcb_from_slot i \/ get_pcb_from_slot i + sizeof_pcb_t <= x) /\
  (x < get_process_page_from_slot i \/ get_process_page_from_slot i + PROCESS_PAGE_SIZE <= x) /\
  (x < local \/ local + 64 <= x) /\
  (x < get_process_pd i \/ get_process_pd i + 0x2000 <= x) /\ (x < vmem_pt \/ vmem_pt + 4096 <= x).

Lemma boot_kept_off i x : 0x7FE000 <= local -> 0 <= i < 6 -> boot_kept x -> off_launch i x.
Proof.
  intros Hl Hi (X1 & X2 & X3). pose proof (slot_pcb_range i Hi). pose proof (process_page_eq i Hi).
  destruct (slot_tables i Hi) as (_ & Tlo & Thi & _). unfold off_launch, sizeof_pcb_t, PROCESS_PAGE_SIZE. lia.
Qed.

(** * The loop *)

(** Slot [q] runs the program [bytes] on terminal [q]. *)
Record first_process (T : tty) (m : mem) (q new_pid : Z) (bytes : list Z) : Prop := {
  fp_pcb : launched m q new_pid (program_entry (Some bytes)) l;
  fp_space : space_ok m q (get_process_page_from_slot q) (get_terminal_output_buffer T q);
  fp_program : let n := Z.to_nat (Z.min (PROCESS_PAGE_SIZE - PROCESS_LINK_OFFSET) (zlen bytes)) in
    load_bytes m (get_process_page_from_slot q + PROCESS_LINK_OFFSET) n = take n bytes
}.

Lemma launched_same m m' q new_pid entry :
  zlen (command_name l) < 128 -> zlen (command_args l) < 128 ->
  same_pcb m m' (get_pcb_from_slot q) -> launched m q new_pid entry l -> launched m' q new_pid entry l.
Proof.
  intros Hn Ha S [H1 H2 H3 H4 H5 H6 H7 H8 H9 N A].
  split; try (rewrite (same_pcb_get m m') by done; assumption).
  - apply (cstr_ext m); [|exact N]. intros x Hx. apply S.
    unfold program_name, program_name_offset in Hx. lia.
  - apply (cstr_ext m); [|exact A]. intros x Hx. apply S. unfold args, args_offset in Hx. lia.
Qed.

Lemma first_process_tty T T' m q p bytes :
  active_terminal T' = active_terminal T -> first_process T m q p bytes -> first_process T' m q p bytes.
Proof. intros E [F1 F2 F3]. split; [done| |done]. unfold get_terminal_output_buffer in *. by rewrite E. Qed.

Lemma first_process_pid T m q p p' bytes :
  u32 p = u32 p' -> first_process T m q p bytes -> first_process T m q p' bytes.
Proof. intros E [[] ? ?]. split; [split; congruence|done..]. Qed.

(** What one round leaves alone. *)
Record launch_frame (i : Z) (m m' : mem) : Prop := {
  lf_outside : forall x, off_launch i x -> load8 m' x = load8 m x;
  lf_pcbs : forall q, 0 <= q < 6 -> q <> i -> same_pcb m m' (get_pcb_from_slot q);
  lf_spaces : forall q pa va, 0 <= q < 6 -> q <> i -> space_ok m q pa va -> space_ok m' q pa va
}.

Lemma first_process_frame T m m' i q new_pid bytes :
  boot_mem m -> 0 <= i < 6 -> 0 <= q < 6 -> q <> i ->
  launch_frame i m m' -> first_process T m q new_pid bytes -> first_process T m' q new_pid bytes.
Proof.
  intros Hb Hi Hq Hne [O P S] [HP HS HF]. split.
  - apply (launched_same m); [apply (bm_name _ Hb)|apply (bm_args _ Hb)|by apply P|exact HP].
  - by apply S.
  - cbv zeta in *. rewrite <- HF. apply load_bytes_ext. intros x Hx. apply O.
    destruct (bm_local _ Hb) as [Hl1 Hl2]. pose proof (slot_pcb_range i Hi).
    rewrite (process_page_eq q Hq) in Hx. unfold off_launch. rewrite (process_page_eq i Hi).
    destruct (slot_tables i Hi) as (_ & Tlo & Thi & _), lay_vmem_pt as [[V1 V2] _].
    unfold KERNEL_IMAGE_END, sizeof_pcb_t, PROCESS_PAGE_SIZE, PROCESS_LINK_OFFSET in *. lia.
Qed.

(** The part of a round before the check of the entry point. *)
Lemma round_load k i :
  boot_mem (kmem k) -> kfs k = fs -> 0 <= i < 3 ->
  pcb_get (kmem k) (get_pcb_from_slot i) slot_num = i ->
  let file := find_file (kmem k) fs (take 32 (command_name l)) in
  whole_header file ->
  exists m1, (forall n, launch_loop junk (S n) k local command i
    = if program_entry file =? 0 then (set_kmem k m1, false)
      else launch_loop junk n (launch junk (set_kmem k m1) i (program_entry file)) local command (i + 1)) /\
    (forall x, off_load local i x -> load8 m1 x = load8 (kmem k) x) /\
    cstr m1 (program_name (get_pcb_from_slot i)) (command_name l) /\
    cstr m1 (args (get_pcb_from_slot i)) (command_args l) /\
    0 <= program_entry file < 0x100000000 /\
    (forall bytes, file = Some bytes ->
       let n := Z.to_nat (Z.min (PROCESS_PAGE_SIZE - PROCESS_LINK_OFFSET) (zlen bytes)) in
       load_bytes m1 (get_process_page_from_slot i + PROCESS_LINK_OFFSET) n = take n bytes).
Proof.
  intros Hb Hfs Hi Hslot file Hw. pose proof (boot_loadable _ i Hb Hi) as LO.
  destruct (load_command _ _ _ _ _ _ LO) as (m0 & r & m1 & entry & Hp & Hload & E & R & M0 & M1 & N & A & F).
  pose proof (entry_of_program _ _ Hw E) as Ee. fold file in Ee. rewrite Ee in *.
  exists m1. split_and!; try done; [|lia..]. intros n. cbn [launch_loop]. rewrite Hp. cbv beta iota.
  assert (S0 : pcb_get m0 (get_pcb_from_slot i) slot_num = i).
  { rewrite (pcb_get_outside (kmem k) m0 _ slot_num _ _ M0); [exact Hslot|].
    unfold program_name, program_name_offset, args, args_offset. simpl. lia. }
  rewrite S0, Hfs, Hload. reflexivity.
Qed.

(** The part after it. *)
Lemma round_start k i bytes :
  zlen (command_name l) < 128 -> zlen (command_args l) < 128 ->
  0 <= i < 3 -> pcb_get (kmem k) (get_pcb_from_slot i) slot_num = i ->
  cstr (kmem k) (program_name (get_pcb_from_slot i)) (command_name l) ->
  cstr (kmem k) (args (get_pcb_from_slot i)) (command_args l) ->
  0 <= program_entry (Some bytes) < 0x100000000 ->
  (let n := Z.to_nat (Z.min (PROCESS_PAGE_SIZE - PROCESS_LINK_OFFSET) (zlen bytes)) in
   load_bytes (kmem k) (get_process_page_from_slot i + PROCESS_LINK_OFFSET) n = take n bytes) ->
  exists m', launch junk k i (program_entry (Some bytes)) = set_kmem (set_next_pid k (u32 (next_pid k + 1))) m' /\
    first_process (ktty k) m' i (next_pid k) bytes /\
    pcb_get m' (get_pcb_from_slot i) regs_esp = pcb_get (kmem k) (get_pcb_from_slot i) regs_esp /\
    launch_frame i (kmem k) m'.
Proof.
  intros Hn Ha Hi S1 N A R F. assert (Hi6 : 0 <= i < 6) by lia. set (entry := program_entry (Some bytes)) in *.
  pose proof (launch_eq junk k i entry S1) as EL.
  pose proof (launch_fields junk k i entry Hi6 S1 R) as LFd.
  pose proof (launch_outside junk k i entry Hi6) as LO.
  pose proof (launch_others junk k i entry Hi6) as LP.
  pose proof (launch_space junk k i entry Hi6 S1 R (output_buffer_range k i ltac:(lia))) as LS.
  pose proof (launch_other_space junk k i entry Hi6) as LOS.
  set (m' := open_stdin_and_stdout _ _) in *. clearbody m'.
  destruct LFd as (G1 & G2 & G3 & G4 & G5 & G6 & G7 & G8 & G9 & G10).
  pose proof (slot_pcb_range i Hi6) as RC. pose proof (process_page_eq i Hi6) as Ep.
  destruct (slot_tables i Hi6) as (_ & Tlo & Thi & _), lay_vmem_pt as [[V1 V2] _].
  unfold KERNEL_PAGE_START, KERNEL_IMAGE_END in *.
  assert (STR : forall x, get_pcb_from_slot i + 72 <= x < get_pcb_from_slot i + 424 -> load8 m' x = load8 (kmem k) x)
    by (intros x Hx; apply LO; lia).
  exists m'. split; [exact EL|]. split; [|split; [exact G10|]].
  - split; [split; try assumption|exact LS|].
    + apply (cstr_ext (kmem k)); [|exact N]. intros x Hx. apply STR. unfold program_name, program_name_offset in Hx. lia.
    + apply (cstr_ext (kmem k)); [|exact A]. intros x Hx. apply STR. unfold args, args_offset in Hx. lia.
    + cbv zeta. rewrite <- F. apply load_bytes_ext. intros x Hx.
      unfold PROCESS_PAGE_SIZE, PROCESS_LINK_OFFSET in Hx. apply LO; lia.
  - split; [|exact LP|exact LOS]. intros x (X1 & X2 & X3 & X4 & X5). unfold sizeof_pcb_t in X1. apply LO; lia.
Qed.

Lemma load_frame m m1 i :
  boot_mem m -> 0 <= i < 3 -> (forall x, off_load local i x -> load8 m1 x = load8 m x) -> launch_frame i m m1.
Proof.
  intros Hb Hi M1. assert (Hi6 : 0 <= i < 6) by lia. destruct (bm_local _ Hb) as [Hl1 Hl2].
  change (get_pcb_from_slot 0) with 0x7FE000 in Hl1. pose proof (process_page_eq i Hi6) as Ep.
  pose proof (slot_pcb_range i Hi6).
  unfold off_load, program_name, program_name_offset, args, args_offset, sizeof_pcb_t, PROCESS_PAGE_SIZE in *. split.
  - intros x (X1 & X2 & X3 & X4 & X5). unfold sizeof_pcb_t, PROCESS_PAGE_SIZE in *. apply M1. lia.
  - intros q Hq Hqi x Hx. pose proof (slot_pcbs_apart q i Hq Hi6 Hqi). pose proof (slot_pcb_range q Hq).
    apply M1. rewrite (pcb_from_slot_eq q Hq) in *. lia.
  - intros q pa va Hq Hqi. apply space_ok_ext. intros x Hx. apply M1.
    destruct (slot_tables q Hq) as (_ & Qlo & Qhi & _), lay_vmem_pt as [[V1 V2] _].
    unfold KERNEL_IMAGE_END in V2. lia.
Qed.

Lemma launch_frame_trans i m1 m2 m3 : launch_frame i m1 m2 -> launch_frame i m2 m3 -> launch_frame i m1 m3.
Proof.
  intros [O P S] [O' P' S']. split.
  - intros x Hx. by rewrite O', O.
  - intros q Hq Hqi. apply (same_pcb_trans _ m2); auto.
  - auto.
Qed.

(** A whole round. *)
Lemma round_launch k i bytes :
  boot_mem (kmem k) -> kfs k = fs -> 0 <= i < 3 ->
  pcb_get (kmem k) (get_pcb_from_slot i) slot_num = i ->
  find_file (kmem k) fs (take 32 (command_name l)) = Some bytes -> whole_header (Some bytes) ->
  program_entry (Some bytes) <> 0 ->
  exists m', (forall n, launch_loop junk (S n) k local command i
      = launch_loop junk n (set_kmem (set_next_pid k (u32 (next_pid k + 1))) m') local command (i + 1)) /\
    first_process (ktty k) m' i (next_pid k) bytes /\
    pcb_get m' (get_pcb_from_slot i) regs_esp = pcb_get (kmem k) (get_pcb_from_slot i) regs_esp /\
    launch_frame i (kmem k) m'.
Proof.
  intros Hb Hfs Hi Hslot Hfile Hw Hne.
  pose proof (round_load k i Hb Hfs Hi Hslot) as RL. cbv zeta in RL. rewrite Hfile in RL.
  destruct (RL Hw) as (m1 & E & M1 & N & A & R & F). clear RL. specialize (F bytes eq_refl).
  rewrite (proj2 (Z.eqb_neq _ _) Hne) in E. pose proof (load_frame _ _ _ Hb Hi M1) as LF.
  assert (F1 : forall f, f = slot_num \/ f = regs_esp ->
             pcb_get m1 (get_pcb_from_slot i) f = pcb_get (kmem k) (get_pcb_from_slot i) f).
  { destruct (bm_local _ Hb) as [Hl1 Hl2]. unfold sizeof_pcb_t in Hl1.
    change (get_pcb_from_slot 0) with 0x7FE000 in Hl1. intros f Hf. apply pcb_get_agree. intros x Hx. apply M1.
    unfold off_load, program_name, program_name_offset, args, args_offset.
    rewrite process_page_eq, pcb_from_slot_eq in * by lia. destruct Hf; subst f; simpl in Hx; lia. }
  destruct (round_start (set_kmem k m1) i bytes) as (m' & EL & FP & G & LF');
    [apply (bm_name _ Hb)|apply (bm_args _ Hb)|exact Hi|rewrite kmem_set_kmem, F1 by auto; exact Hslot|assumption..|].
  rewrite kmem_set_kmem in *. exists m'. split; [intros n; rewrite E, EL; reflexivity|].
  split; [destruct FP as [P1 P2 P3]; by split|]. split; [by rewrite G, F1 by auto|]. exact (launch_frame_trans _ _ _ _ LF LF').
Qed.

(** All rounds from slot [i] on. *)
Lemma launch_loop_runs n k i bytes :
  boot_mem (kmem k) -> kfs k = fs -> 0 <= i -> i + Z.of_nat n <= 3 ->
  (forall q, i <= q < i + Z.of_nat n -> pcb_get (kmem k) (get_pcb_from_slot q) slot_num = q) ->
  find_file (kmem k) fs (take 32 (command_name l)) = Some bytes -> whole_header (Some bytes) ->
  program_entry (Some bytes) <> 0 ->
  exists m' p', launch_loop junk n k local command i = (set_kmem (set_next_pid k p') m', true) /\
    (forall q, i <= q < i + Z.of_nat n ->
       first_process (ktty k) m' q (next_pid k + (q - i)) bytes /\
       pcb_get m' (get_pcb_from_slot q) regs_esp = pcb_get (kmem k) (get_pcb_from_slot q) regs_esp) /\
    (forall x, (forall q, i <= q < i + Z.of_nat n -> off_launch q x) -> load8 m' x = load8 (kmem k) x) /\
    (forall q, 0 <= q < 6 -> q < i \/ i + Z.of_nat n <= q -> same_pcb (kmem k) m' (get_pcb_from_slot q)) /\
    (forall q new_pid, 0 <= q < i ->
       first_process (ktty k) (kmem k) q new_pid bytes -> first_process (ktty k) m' q new_pid bytes).
Proof.
  revert k i. induction n as [|n IH]; intros k i Hb Hfs Hi Hn Hslots Hfile Hw Hne.
  { exists (kmem k), (next_pid k). split; [by destruct k as [[]]|]. split; [lia|]. split; [done|].
    split; [by intros|done]. }
  destruct (round_launch k i bytes Hb Hfs ltac:(lia) (Hslots i ltac:(lia)) Hfile Hw Hne)
    as (m1 & -> & FP1 & G1 & LF1). set (k1 := set_kmem _ m1).
  destruct (bm_local _ Hb) as [Hl1 _]. change (get_pcb_from_slot 0) with 0x7FE000 in Hl1. unfold sizeof_pcb_t in Hl1.
  destruct (boot_mem_ext (kmem k) m1 Hb) as [Hb1 F1].
  { intros x Hx. apply (lf_outside _ _ _ LF1). apply boot_kept_off; [lia|lia|exact Hx]. }
  destruct (IH k1 (i + 1)) as (m' & p' & -> & R & O & P & K); try done; try lia.
  - intros q Hq. change (kmem k1) with m1.
    rewrite (same_pcb_get _ _ _ slot_num (lf_pcbs _ _ _ LF1 q ltac:(lia) ltac:(lia)) eq_refl). apply Hslots. lia.
  - change (kmem k1) with m1. by rewrite F1.
  - change (kmem k1) with m1 in *. change (ktty k1) with (set_tmem (ktty k) m1) in *.
    assert (T : forall mm q pp, first_process (set_tmem (ktty k) m1) mm q pp bytes <-> first_process (ktty k) mm q pp bytes)
      by (intros mm q pp; split; intros [X1 X2 X3]; by split).
    assert (K0 : forall q pp, 0 <= q < i + 1 -> first_process (ktty k) m1 q pp bytes -> first_process (ktty k) m' q pp bytes)
      by (intros q pp Hq HF; apply T, K, T; assumption).
    exists m', p'. split; [reflexivity|]. split_and!.
    + intros q Hq. destruct (Z.eq_dec q i) as [->|Hqi].
      * split; [rewrite Z.sub_diag, Z.add_0_r; apply K0; [lia|exact FP1]|]. rewrite <- G1.
        apply (same_pcb_get _ _ _ regs_esp); [apply P; lia|reflexivity].
      * destruct (R q ltac:(lia)) as [HF E]. split.
        { apply T in HF. revert HF. apply first_process_pid. cbn [next_pid set_kmem set_ktty set_next_pid k1].
          unfold u32. rewrite Zplus_mod_idemp_l. f_equal. lia. }
        rewrite E.
        apply (same_pcb_get _ _ _ regs_esp); [apply (lf_pcbs _ _ _ LF1); lia|reflexivity].
    + intros x Hx. rewrite O by (intros q Hq; apply Hx; lia). apply (lf_outside _ _ _ LF1), Hx. lia.
    + intros q Hq Hd. apply (same_pcb_trans _ m1); [apply (lf_pcbs _ _ _ LF1); lia|apply P; lia].
    + intros q pp Hq HF. apply K0; [lia|]. apply (first_process_frame _ (kmem k) _ i); try done; lia.
Qed.
End boot.

(** * The whole start *)

(** The last steps do not write memory. *)
Lemma kmem_enable_paging k pd : kmem (enable_paging k pd) = kmem k.
Proof. done. Qed.
Lemma kmem_set_kernel_stack `{L : Layout} k stack : kmem (set_kernel_stack k stack) = kmem k.
Proof. done. Qed.
Lemma kmem_set_kpic k p : kmem (set_kpic k p) = kmem k.
Proof. done. Qed.
Lemma kmem_pit_init k hertz : kmem (pit_init k hertz) = kmem k.
Proof. done. Qed.
#[export] Hint Rewrite kmem_enable_paging @kmem_set_kernel_stack kmem_set_kpic kmem_pit_init : kpcb.

Lemma input_ok_set_tpic `{L : Layout} s p t q :
  input_ok s t q -> input_ok (set_tpic s p) t q /\ screen_of (set_tpic s p) t = screen_of s t.
Proof. intros [[Ha Hv] Ht Hs Hr Hl]. split; [split; [by split|done..]|done]. Qed.

Definition last_steps `{L : Layout} (k : kernel) (pd stack : Z) : kernel :=
  let k := pit_init (set_kernel_stack (enable_paging k pd) stack) 100 in
  set_kpic k (enable_irq (kpic k) PIT_IRQ).

Lemma last_steps_spec `{L : Layout} k pd stack :
  let k' := last_steps k pd stack in
  cr3 k' = pd /\ tss_esp0 k' = u32 stack /\ ktty k' = set_tpic (ktty k) (kpic k') /\
  (forall j, 0 <= j < 16 -> masked (kpic k') j = masked (kpic k) j && negb (j =? 0)).
Proof.
  split_and!; try reflexivity. intros j Hj. unfold last_steps, PIT_IRQ.
  change (kpic (set_kpic ?a ?b)) with b. by rewrite enable_masked by lia.
Qed.

#[local] Opaque multiple_terminal_init clear_pcbs.

(** The state in which the first program starts. *)
Record system_started `{L : Layout} (k0 k : kernel) (l bytes : list Z) : Prop := {
  ss_cr3 : cr3 k = get_process_pd 0;
  ss_stack : tss_esp0 k = get_kernel_stack_base_from_slot 0;
  ss_processes : forall q, 0 <= q < 3 ->
    first_process l (ktty k) (kmem k) q (next_pid k0 + q) bytes /\
    pcb_get (kmem k) (get_pcb_from_slot q) regs_esp = pcb_get (kmem k0) (get_pcb_from_slot q) regs_esp;
  ss_terminals : forall t, 0 <= t < 3 -> input_ok (ktty k) t [] /\ screen_of (ktty k) t = scr_clear;
  ss_sched : sched_ok (kmem k);
  ss_runnable : forall q, 0 <= q <= 6 -> runnable (kmem k) q = (q <? 3);
  ss_masks : forall j, 0 <= j < 16 ->
    masked (kpic k) j = masked (kpic k0) j && negb (j =? 1) && negb (j =? 0);
  ss_gates : idt k = idt k0 /\ ldt_desc k = ldt_desc k0 /\ tss_ldt k = tss_ldt k0
}.

Lemma last_steps_started `{L : Layout} k0 k l bytes :
  (forall q, 0 <= q < 3 -> first_process l (ktty k) (kmem k) q (next_pid k0 + q) bytes /\
     pcb_get (kmem k) (get_pcb_from_slot q) regs_esp = pcb_get (kmem k0) (get_pcb_from_slot q) regs_esp) ->
  (forall t, 0 <= t < 3 -> input_ok (ktty k) t [] /\ screen_of (ktty k) t = scr_clear) ->
  (forall q, 3 <= q < 6 -> slot_used (kmem k) q = false) -> runnable (kmem k) 6 = false ->
  (forall j, 0 <= j < 16 -> masked (kpic k) j = masked (kpic k0) j && negb (j =? 1)) ->
  idt k = idt k0 /\ ldt_desc k = ldt_desc k0 /\ tss_ldt k = tss_ldt k0 ->
  system_started k0 (last_steps k (get_process_pd 0) (get_kernel_stack_base_from_slot 0)) l bytes.
Proof.
  intros R T F E P G0.
  destruct (last_steps_spec k (get_process_pd 0) (get_kernel_stack_base_from_slot 0)) as (X1 & X2 & X3 & X4).
  set (k' := last_steps _ _ _) in *.
  assert (Em : kmem k' = kmem k) by (unfold kmem; rewrite X3; reflexivity).
  split; rewrite ?Em; [exact X1|rewrite X2; reflexivity|..].
  - intros q Hq. destruct (R q Hq) as [FP G]. split; [|exact G].
    apply (first_process_tty l (ktty k)); [rewrite X3; reflexivity|exact FP].
  - intros t Ht. destruct (T t Ht) as [I C]. rewrite X3, <- C. by apply input_ok_set_tpic.
  - split; [exact E|]. intros q Hq Hu. destruct (Z_lt_dec q 3).
    + destruct (R q ltac:(lia)) as [[FP _ _] _]. split; apply FP.
    + rewrite (F q ltac:(lia)) in Hu. discriminate Hu.
  - intros q Hq. destruct (Z.ltb_spec q 3).
    + destruct (R q ltac:(lia)) as [[[_ _ U S _ _ _ _ _ _ _] _ _] _]. unfold runnable. by rewrite U, S.
    + destruct (Z.eq_dec q 6) as [->|]; [exact E|]. specialize (F q ltac:(lia)). unfold runnable, slot_used in *.
      by rewrite F.
  - intros j Hj. rewrite X4 by done. by rewrite P.
  - exact G0.
Qed.

(** What the start relies on, besides the memory at boot: an active terminal
    and no stray runnable process behind the last PCB. *)
Record boot_ok `{L : Layout} (k : kernel) (local command : Z) (l : list Z) : Prop := {
  bt_mem : boot_mem (kfs k) local command l (kmem k);
  bt_header : whole_header (find_file (kmem k) (kfs k) (take 32 (command_name l)));
  bt_active : 0 <= active_terminal (ktty k) < 3;
  bt_end : runnable (kmem k) 6 = false
}.

(** Before the programs are started: terminals are blank, slots are free and
    numbered, the rest of [k0] is as it was. *)
Record prepared `{L : Layout} (k0 k : kernel) (local command : Z) (l : list Z) : Prop := {
  pr_fs : kfs k = kfs k0;
  pr_gates : idt k = idt k0 /\ ldt_desc k = ldt_desc k0 /\ tss_ldt k = tss_ldt k0;
  pr_pid : next_pid k = next_pid k0;
  pr_mem : boot_mem (kfs k) local command l (kmem k);
  pr_file : find_file (kmem k) (kfs k) (take 32 (command_name l))
            = find_file (kmem k0) (kfs k0) (take 32 (command_name l));
  pr_terminals : forall t, 0 <= t < 3 -> input_ok (ktty k) t [] /\ screen_of (ktty k) t = scr_clear;
  pr_masks : forall j, 0 <= j < 16 -> masked (kpic k) j = masked (kpic k0) j && negb (j =? 1);
  pr_slots : forall q, 0 <= q < 6 -> slot_used (kmem k) q = false /\
    pcb_get (kmem k) (get_pcb_from_slot q) slot_num = q /\
    pcb_get (kmem k) (get_pcb_from_slot q) regs_esp = pcb_get (kmem k0) (get_pcb_from_slot q) regs_esp;
  pr_end : forall x, 0x7F2000 <= x < 0x7F4000 -> load8 (kmem k) x = load8 (kmem k0) x
}.

Lemma off_screens_at `{L : Layout} `{LOk : !LayoutOk L} s x :
  0x7F0000 <= x \/ boot_kept x -> off_screens s x.
Proof.
  intros Hx t Ht. destruct (output_rows t Ht) as (O1 & O2 & _), lay_output as [[O3 O4] _].
  unfold KERNEL_IMAGE_END, KERNEL_PAGE_START in *.
  unfold get_terminal_output_buffer, VIDEO_PHYS_ADDR.
  destruct (t =? _); [destruct Hx as [?|[? _]]; lia|]. destruct Hx as [?|(_ & Hx & _)]; [lia|].
  unfold output_row, FOUR_KB_ALIGNED in *. lia.
Qed.

Lemma boot_kept_marks `{L : Layout} x : boot_kept x -> off_marks x.
Proof. intros [Hx _] q Hq. pose proof (slot_pcb_range q Hq). lia. Qed.

Lemma prepare_spec `{L : Layout} `{LOk : !LayoutOk L} k local command l :
  boot_ok k local command l ->
  let k1 := set_kmem k (clear_pcbs (kmem k)) in
  prepared k (set_ktty k1 (multiple_terminal_init (ktty k1))) local command l.
Proof.
  intros ok k1. destruct (clear_pcbs_spec (kmem k)) as [C M1]. cbv zeta in C, M1.
  destruct (multiple_terminal_init_spec (ktty k1) (bt_active _ _ _ _ ok)) as (I & _ & A & P & M2).
  change (tmem (ktty k1)) with (clear_pcbs (kmem k)) in M2. change (tpic (ktty k1)) with (kpic k) in P.
  set (k2 := set_ktty k1 _). change (tmem (multiple_terminal_init (ktty k1))) with (kmem k2) in M2.
  assert (M : forall x, boot_kept x -> load8 (kmem k2) x = load8 (kmem k) x).
  { intros x Hx. rewrite M2 by (apply off_screens_at; by right). by apply M1, boot_kept_marks. }
  destruct (boot_mem_ext _ _ _ _ (kmem k) (kmem k2) (bt_mem _ _ _ _ ok) M) as [Hb Hf].
  split; [reflexivity|done|reflexivity|exact Hb|exact Hf|exact I|exact P| |].
  - intros q Hq. destruct (C q Hq) as (C1 & C2 & _). pose proof (slot_pcb_range q Hq) as R.
    assert (E : forall f, in_pcb f = true ->
              pcb_get (kmem k2) (get_pcb_from_slot q) f = pcb_get (clear_pcbs (kmem k)) (get_pcb_from_slot q) f).
    { intros f Hf'. apply pcb_get_ext; [done|]. intros x Hx. apply M2, off_screens_at. left. lia. }
    unfold slot_used. rewrite !E, C1, C2 by reflexivity. split; [done|]. split; [done|].
    apply pcb_get_agree. intros x Hx. simpl in Hx. apply M1. intros q' Hq'.
    destruct (Z.eq_dec q' q) as [->|Hne]; [lia|]. pose proof (slot_pcbs_apart q' q Hq' Hq Hne). lia.
  - intros x Hx. rewrite M2 by (apply off_screens_at; left; lia). apply M1.
    intros q Hq. pose proof (slot_pcb_range q Hq). lia.
Qed.

Section run.
Context `{L : Layout} `{LOk : !LayoutOk L} (junk : Z -> Z).
Context (k0 k : kernel) (local command : Z) (l : list Z).
Hypotheses (ok : boot_ok k0 local command l) (pr : prepared k0 k local command l).
Let fs := kfs k.

(** A terminal and the page behind the last PCB are not disturbed by the start
    of a program. *)
Lemma off_launch_at q x :
  0 <= q < 3 ->
  (exists t, 0 <= t < 3 /\
    (get_terminal_output_buffer (ktty k) t <= x < get_terminal_output_buffer (ktty k) t + 4000 \/
     input_row t <= x < input_row t + 128)) \/ 0x7F2000 <= x < 0x7F4000 ->
  off_launch local q x.
Proof.
  intros Hq Hx. assert (Hq6 : 0 <= q < 6) by lia. pose proof (slot_pcb_range q Hq6).
  pose proof (process_page_eq q Hq6). destruct (slot_tables q Hq6) as (_ & Tlo & Thi & _).
  destruct (bm_local _ _ _ _ _ (pr_mem _ _ _ _ _ pr)) as [Hl _]. change (get_pcb_from_slot 0) with 0x7FE000 in Hl.
  destruct lay_vmem_pt as [[V1 V2] _], lay_vmem_pt_apart as [W1 W2], lay_input as [N1 N2], lay_output as [[O1 O2] _].
  unfold get_terminal_output_buffer, VIDEO_PHYS_ADDR, output_row, input_row, FOUR_KB_ALIGNED,
    KEYBOARD_BUFFER_SIZE, KERNEL_PAGE_START, KERNEL_IMAGE_END, sizeof_pcb_t in *.
  unfold off_launch, sizeof_pcb_t, PROCESS_PAGE_SIZE. destruct Hx as [(t & Ht & Hx)|Hx]; [|lia].
  destruct (t =? _); lia.
Qed.

(** With no program, nothing is started. *)
Lemma start_fails :
  program_entry (find_file (kmem k0) (kfs k0) (take 32 (command_name l))) = 0 ->
  exists m', start_programs junk k local command = (set_kmem k m', None) /\
    (forall q, 0 <= q < 6 -> slot_used m' q = false).
Proof.
  intros He. pose proof pr as [_ _ _ Hb Hf _ _ Hs _].
  unfold start_programs. change (Z.to_nat NUM_TERMINALS) with (S 2).
  destruct (Hs 0 ltac:(lia)) as (_ & N0 & _).
  destruct (round_load junk fs local command l k 0 Hb eq_refl ltac:(lia) N0) as (m' & E & M & _).
  { unfold fs. rewrite Hf. exact (bt_header _ _ _ _ ok). }
  unfold fs in E. rewrite E, Hf, He. cbn [Z.eqb negb]. exists m'. split; [reflexivity|].
  intros q Hq. destruct (Hs q Hq) as (Hu & _). rewrite <- Hu. unfold slot_used. f_equal.
  destruct (bm_local _ _ _ _ _ Hb) as [Hl _]. change (get_pcb_from_slot 0) with 0x7FE000 in Hl.
  pose proof (slot_pcb_range q Hq). apply pcb_get_agree. intros x Hx. simpl in Hx. apply M.
  unfold off_load, program_name, program_name_offset, args, args_offset, sizeof_pcb_t in *.
  rewrite process_page_eq, pcb_from_slot_eq in * by lia. change (get_pcb_from_slot 0) with 0x7FE000. lia.
Qed.

Lemma start_runs bytes :
  find_file (kmem k0) (kfs k0) (take 32 (command_name l)) = Some bytes -> program_entry (Some bytes) <> 0 ->
  exists k', start_programs junk k local command
    = (k', Some (Enter_user PROCESS_LINK_START (program_entry (Some bytes)))) /\ system_started k0 k' l bytes.
Proof.
  intros Hfile Hne. pose proof pr as [_ Hg Hpid Hb Hf Ht Hp Hs Hend].
  pose proof (bt_header _ _ _ _ ok) as Hw. rewrite Hfile in Hw, Hf.
  destruct (launch_loop_runs junk fs local command l 3 k 0 bytes Hb eq_refl) as (m' & p' & E & R & O & P & _);
    [lia|lia|intros q Hq; apply (Hs q); lia|assumption..|].
  destruct (R 0 ltac:(lia)) as [[F0 _ _] _].
  exists (last_steps (set_kmem (set_next_pid k p') m') (get_process_pd 0) (get_kernel_stack_base_from_slot 0)).
  split; [|apply last_steps_started; [| | | |exact Hp|exact Hg]; rewrite ?kmem_set_kmem].
  - unfold start_programs. change (Z.to_nat NUM_TERMINALS) with 3%nat. rewrite E.
    cbn [negb]. autorewrite with kpcb. rewrite (la_pd _ _ _ _ _ F0), (la_slot _ _ _ _ _ F0).
    by rewrite (la_entry _ _ _ _ _ F0).
  - intros q Hq. destruct (R q ltac:(lia)) as [F G]. rewrite Z.sub_0_r, Hpid in F. split.
    { revert F. by apply first_process_tty. }
    rewrite G. apply (Hs q). lia.
  - intros t Ht3. destruct (Ht t Ht3) as [I C]. rewrite <- C. apply input_ok_set_tmem; [exact I|].
    cbn [terms set_next_pid ktty]. rewrite (vk_video _ (in_video _ _ _ I) t Ht3).
    intros x Hx. apply O. intros q Hq. apply off_launch_at; [lia|]. left. by exists t.
  - intros q Hq. destruct (Hs q ltac:(lia)) as (Hu & _). rewrite <- Hu. unfold slot_used. f_equal.
    apply (same_pcb_get _ _ _ in_use); [apply P; lia|reflexivity].
  - rewrite <- (bt_end _ _ _ _ ok). unfold runnable. change (get_pcb_from_slot 6) with 0x7F2000.
    assert (H : forall x, 0x7F2000 <= x < 0x7F2000 + 452 -> load8 m' x = load8 (kmem k0) x).
    { intros x Hx. rewrite O by (intros q Hq; apply off_launch_at; [lia|right; lia]). apply Hend. lia. }
    rewrite !(pcb_get_ext (kmem k0) m') by (reflexivity || exact H). done.
Qed.
End run.

Lemma kernel_run_first_program_spec `{L : Layout} `{LOk : !LayoutOk L} (junk : Z -> Z) (k : kernel)
    (local command : Z) (l : list Z) :
  boot_ok k local command l ->
  let file := find_file (kmem k) (kfs k) (take 32 (command_name l)) in
  let '(k', out) := kernel_run_first_program junk k local command in
  if program_entry file =? 0 then
    out = None /\ forall q, 0 <= q < 6 -> slot_used (kmem k') q = false
  else exists bytes, file = Some bytes /\
    out = Some (Enter_user PROCESS_LINK_START (program_entry file)) /\ system_started k k' l bytes.
Proof.
  intros ok file. pose proof (prepare_spec k local command l ok) as pr. cbv zeta in pr.
  unfold kernel_run_first_program. cbv zeta. destruct (Z.eqb_spec (program_entry file) 0) as [He|Hne].
  { destruct (start_fails junk k _ local command l ok pr He) as (m' & -> & H). by split. }
  destruct file as [bytes|] eqn:Ef; [|done].
  destruct (start_runs junk k _ local command l ok pr bytes Ef Hne) as (k' & -> & S). eauto.
Qed.

(** C8: the system starts.  Without a program of the given name (or with a
    file that is no program) [kernel_run_first_program] returns with all slots
    free, against its comment.  Otherwise it enters user mode at the program's entry point in the
    address space and on the kernel stack of slot 0; slots 0 to 2 each run the
    program on the terminal of the same number, with a blank screen, no input
    and a pid of their own, in an address space with the program loaded; the
    other slots are free, the scheduler finds exactly the three, and the
    keyboard and timer lines are unmasked. *)
Theorem kernel_run_first_program_correct `{L : Layout} `{LOk : !LayoutOk L} (junk : Z -> Z) (k : kernel)
    (local command : Z) (l : list Z) :
  boot_ok k local command l ->
  let file := find_file (kmem k) (kfs k) (take 32 (command_name l)) in
  let '(k', out) := kernel_run_first_program junk k local command in
  if program_entry file =? 0 then
    out = None /\ forall q, 0 <= q < 6 -> slot_used (kmem k') q = false
  else exists bytes, file = Some bytes /\
    out = Some (Enter_user PROCESS_LINK_START (program_entry file)) /\ system_started k k' l bytes.
Proof. exact (kernel_run_first_program_spec junk k local command l). Qed.

(** A boot with the command "a", whose file is an ELF program. *)
Definition example_boot : kernel :=
  example_kernel (Tty (store_bytes example_program 0x40A000 [97; 0]) pic_boot
    (fun _ => Terminal (circular_buffer_init 0 1) 0 0 0 0) 0 1 [] 0).

Lemma example_boot_kept lo hi x :
  lo <= x <= hi -> 0x408180 <= lo -> hi < 0x7F0000 -> boot_kept (L := example_layout) x.
Proof.
  intros Hx Hlo Hhi. unfold boot_kept.
  change (@output_buffer example_layout) with 0x401000. change (@vmem_pt example_layout) with 0x400000. lia.
Qed.

Lemma example_boot_ok : boot_ok (L := example_layout) example_boot 0x7FF000 0x40A000 [97].
Proof.
  assert (E : image_end (kmem example_boot) (kfs example_boot) = 0x414000) by (vm_compute; reflexivity).
  split; [split|..].
  - split; [reflexivity|vm_compute; reflexivity|]. vm_compute. congruence.
  - intros x Hx. rewrite E in Hx. apply (example_boot_kept 0x410000 0x414000); [|lia|lia].
    change (fs_boot_ptr _) with 0x410000 in Hx. lia.
  - split; [vm_compute; reflexivity|]. split; [|vm_compute; reflexivity].
    apply (bool_decide_unpack _). vm_compute. exact I.
  - intros x Hx. apply (example_boot_kept 0x40A000 0x40A001); [simpl length in Hx; lia|lia|lia].
  - split; [vm_compute; reflexivity|]. split; [|vm_compute; reflexivity].
    apply (bool_decide_unpack _). vm_compute. exact I.
  - intros x Hx. change elf_magic with 0x409050 in Hx. apply (example_boot_kept 0x409050 0x409054); lia.
  - split; vm_compute; congruence.
  - reflexivity.
  - reflexivity.
  - intros d. replace (dir_lookup _ _ _) with (Some 0) by (vm_compute; reflexivity). intros [= <-].
    assert (E0 : dentry_inode_num (kmem example_boot) (directory_entry (kfs example_boot) 0) = 0)
      by (vm_compute; reflexivity).
    assert (E1 : file_length (kmem example_boot) (kfs example_boot) 0 = 28) by (vm_compute; reflexivity).
    rewrite E0. split.
    + split; [lia|]. apply Z.ltb_lt. vm_compute. reflexivity.
    + rewrite E1. lia.
    + intros q Hq. rewrite E1 in Hq. assert (q = 0) as -> by lia. apply Z.ltb_lt. vm_compute. reflexivity.
  - replace (find_file _ _ _) with (Some example_elf) by (vm_compute; reflexivity).
    intros bytes [= <-]. right. left. vm_compute. congruence.
  - simpl. lia.
  - vm_compute. reflexivity.
Qed.

Lemma kernel_run_first_program_correct_witness :
  exists k', kernel_run_first_program (L := example_layout) (fun _ => 0) example_boot 0x7FF000 0x40A000
             = (k', Some (Enter_user PROCESS_LINK_START 0x8048094)) /\
    runnable (kmem k') 2 = true /\ runnable (kmem k') 3 = false.
Proof.
  pose proof (kernel_run_first_program_correct (LOk := example_layout_ok) (fun _ => 0) example_boot
                0x7FF000 0x40A000 [97] example_boot_ok) as P.
  cbv zeta in P.
  assert (Ef : find_file (kmem example_boot) (kfs example_boot) (take 32 (command_name [97])) = Some example_elf)
    by (vm_compute; reflexivity).
  rewrite Ef in P. change (program_entry (Some example_elf)) with 0x8048094 in P.
  destruct (kernel_run_first_program _ _ _ _) as [k' out]. change (0x8048094 =? 0) with false in P.
  destruct P as (bytes & _ & -> & S). exists k'. split; [reflexivity|].
  split; [exact (ss_runnable _ _ _ _ S 2 ltac:(lia))|exact (ss_runnable _ _ _ _ S 3 ltac:(lia))].
Defined.
