(* ===== verification/Entry.v ===== *)
(** The entry point of the kernel, [kernel.c].

    The assembly gives [entry] the multiboot magic and the address of the
    multiboot information.  Addresses the linker chooses and that only this
    file uses are parameters: the boot page tables, the local descriptor table
    and the assembly stubs of the handlers. *)

From Stdlib Require Import String.
From S2P Require Import Prelude Memory Layout I8259 LibMem LibString CircularBuffer Paging.
From S2P Require Import Ece391Fs Fs Pcb Terminal Screen Printf Console LineInput Machine Rtc.
From S2P Require Import Syscall FileTable Process Execute Pit Boot.

#[local] Open Scope Z_scope.
#[local] Notation "a +++ b" := (String.append a b) (at level 60, right associativity).

Definition MULTIBOOT_BOOTLOADER_MAGIC : Z := 0x2BADB002.
Definition NUM_VEC : Z := 256.
Definition SYSCALL_INT : Z := 0x80.
Definition KERNEL_TSS : Z := 0x30.
Definition KERNEL_LDT : Z := 0x38.
Definition CHECK_FLAG (flags bit : Z) : bool := truthy (Z.land flags (Z.shiftl 1 bit)).

(** [multiboot_info_t] at [mbi]. *)
Definition mb_flags (m : mem) (mbi : Z) : Z := load32 m mbi.
Definition mb_mem_lower (m : mem) (mbi : Z) : Z := load32 m (mbi + 4).
Definition mb_mem_upper (m : mem) (mbi : Z) : Z := load32 m (mbi + 8).
Definition mb_boot_device (m : mem) (mbi : Z) : Z := load32 m (mbi + 12).
Definition mb_cmdline (m : mem) (mbi : Z) : Z := load32 m (mbi + 16).
Definition mb_mods_count (m : mem) (mbi : Z) : Z := load32 m (mbi + 20).
Definition mb_mods_addr (m : mem) (mbi : Z) : Z := load32 m (mbi + 24).
Definition mb_elf_sec (mbi i : Z) : Z := mbi + 28 + 4 * i.
Definition mb_mmap_length (m : mem) (mbi : Z) : Z := load32 m (mbi + 44).
Definition mb_mmap_addr (m : mem) (mbi : Z) : Z := load32 m (mbi + 48).

(** Addresses of the handlers' assembly stubs. *)
Record handlers := Handlers {
  interrupt_handler : Z -> Z;        (* interrupt_handler_0 .. interrupt_handler_31 *)
  null_interrupt_handler : Z;
  syscall_handler_wrapper : Z;
  keyboard_handler_wrapper : Z;
  rtc_handler_wrapper : Z;
  pit_handler_wrapper : Z
}.

Section code.
Context `{L : Layout} (junk : Z -> Z) (lit : string -> Z) (sp conv : Z).
Context (ldt kernel_pd kernel_pt : Z) (h : handlers).

(** * Multiboot information *)

Definition say (k : kernel) (format : string) (args : list Z) : option kernel :=
  s ← kprintf lit sp conv (ktty k) format args; Some (set_ktty k s).

(** With paging on, the static pointer to the video page, [VIDEO_VIRT_ADDR],
    goes through the page tables; the screen fits into the page. *)
Definition point_video (k : kernel) (a : Z) : kernel := set_ktty k (set_term (ktty k) 0 (set_video a)).

Definition say_paged (k : kernel) (format : string) (args : list Z) : option kernel :=
  let video := video_memory (terms (ktty k) 0) in
  '(frame, _) ← translate (kmem k) (cr3 k) video;
  k ← say (point_video k frame) format args;
  Some (point_video k video).

(** The first bytes of a module; a [char] is passed as an [int]. *)
Fixpoint print_bytes (n : nat) (k : kernel) (mod_ptr i : Z) : option kernel :=
  match n with
  | O => Some k
  | S n' =>
      k ← say k "0x%x "%string [u32 (s8 (load8 (kmem k) (u32 (load32 (kmem k) mod_ptr + i))))];
      print_bytes n' k mod_ptr (i + 1)
  end.

(** [None] when [fuel] is less than the number of modules. *)
Fixpoint print_modules (fuel : nat) (k : kernel) (mbi mod_count mod_ptr : Z) : option kernel :=
  if mod_count <? mb_mods_count (kmem k) mbi then
    match fuel with
    | O => None
    | S f =>
        k ← say k ("Module %d loaded at address: 0x%#x" +++ nl)%string [mod_count; load32 (kmem k) mod_ptr];
        k ← say k ("Module %d ends at address: 0x%#x" +++ nl)%string [mod_count; load32 (kmem k) (mod_ptr + 4)];
        k ← say k ("First few bytes of module:" +++ nl)%string [];
        k ← print_bytes 16 k mod_ptr 0;
        k ← say k nl [];
        print_modules f k mbi (mod_count + 1) (mod_ptr + 16)
    end
  else Some k.

(** The memory map; its entries do not count their [size] field. *)
Fixpoint print_mmap (fuel : nat) (k : kernel) (mbi mmap : Z) : option kernel :=
  if mmap <? u32 (mb_mmap_addr (kmem k) mbi + mb_mmap_length (kmem k) mbi) then
    match fuel with
    | O => None
    | S f =>
        let w i := load32 (kmem k) (mmap + 4 * i) in
        k ← say k (" size = 0x%x,     base_addr = 0x%#x%#x" +++ nl +++
                   "     type = 0x%x,  length    = 0x%#x%#x" +++ nl)%string
                  [w 0; w 2; w 1; w 5; w 4; w 3];
        print_mmap f k mbi (u32 (mmap + load32 (kmem k) mmap + 4))
    end
  else Some k.

Definition when (b : bool) (k : kernel) (f : kernel -> option kernel) : option kernel :=
  if b then f k else Some k.

(** Lines up to the check of bits 4 and 5, and after it. *)
Definition print_info (fuel : nat) (k : kernel) (mbi : Z) : option kernel :=
  let flag k b := CHECK_FLAG (mb_flags (kmem k) mbi) b in
  k ← say k ("flags = 0x%#x" +++ nl)%string [mb_flags (kmem k) mbi];
  k ← when (flag k 0) k (fun k =>
        say k ("mem_lower = %uKB, mem_upper = %uKB" +++ nl)%string
          [mb_mem_lower (kmem k) mbi; mb_mem_upper (kmem k) mbi]);
  k ← when (flag k 1) k (fun k =>
        say k ("boot_device = 0x%#x" +++ nl)%string [mb_boot_device (kmem k) mbi]);
  k ← when (flag k 2) k (fun k => say k ("cmdline = %s" +++ nl)%string [mb_cmdline (kmem k) mbi]);
  when (flag k 3) k (fun k => print_modules fuel k mbi 0 (mb_mods_addr (kmem k) mbi)).

Definition print_tables (fuel : nat) (k : kernel) (mbi : Z) : option kernel :=
  let flag k b := CHECK_FLAG (mb_flags (kmem k) mbi) b in
  k ← when (flag k 5) k (fun k =>
        let w i := load32 (kmem k) (mb_elf_sec mbi i) in
        say k ("elf_sec: num = %u, size = 0x%#x," +++ " addr = 0x%#x, shndx = 0x%#x" +++ nl)%string
          [w 0; w 1; w 2; w 3]);
  when (flag k 6) k (fun k =>
        k ← say k ("mmap_addr = 0x%#x, mmap_length = 0x%x" +++ nl)%string
              [mb_mmap_addr (kmem k) mbi; mb_mmap_length (kmem k) mbi];
        print_mmap fuel k mbi (mb_mmap_addr (kmem k) mbi)).

(** * Descriptor tables *)

(** [SET_LDT_PARAMS] and [SET_TSS_PARAMS] on a descriptor with the given
    fields. *)
Definition set_params (addr lim type sys dpl present avail reserved opsize granularity : Z) : seg_desc :=
  SegDesc (Z.land lim 0xFFFF) (Z.land (u32 addr) 0xFFFF) (Z.shiftr (Z.land (u32 addr) 0xFF0000) 16)
    type sys dpl present (Z.shiftr (Z.land lim 0xF0000) 16) avail reserved opsize granularity
    (Z.shiftr (Z.land (u32 addr) 0xFF000000) 24).

Definition ldt_size : Z := 31.   (* ldt_bottom - ldt - 1 in x86_desc.S *)

Definition setup_ldt (k : kernel) : kernel := set_ldt k (set_params ldt ldt_size 2 0 0 1 0 0 1 0).

Definition setup_tss (k : kernel) : kernel :=
  let k := set_tss k (tss_ss0 k) (tss_esp0 k) (set_params tss tss_size 9 0 3 1 0 0 0 0) in
  let k := set_tss_ldt k KERNEL_LDT in
  set_tss k KERNEL_DS 0x800000 (tss_desc k).

Definition setup_idt (k : kernel) : kernel :=
  let install k i handler dpl := install_interrupt_handler k i handler KERNEL_CS dpl in
  let k := foldl (fun k i => install k i (null_interrupt_handler h) PRIVILEGE_KERNEL) k
             (seqZ NUM_RESERVED_VEC (NUM_VEC - NUM_RESERVED_VEC)) in
  let k := foldl (fun k i => install k i (interrupt_handler h i) PRIVILEGE_KERNEL) k
             (seqZ 0 NUM_RESERVED_VEC) in
  let k := install k SYSCALL_INT (syscall_handler_wrapper h) PRIVILEGE_USER in
  let k := install k (IRQ_INT_NUM KEYBOARD_IRQ) (keyboard_handler_wrapper h) PRIVILEGE_KERNEL in
  let k := install k (IRQ_INT_NUM RTC_IRQ) (rtc_handler_wrapper h) PRIVILEGE_KERNEL in
  install k (IRQ_INT_NUM PIT_IRQ) (pit_handler_wrapper h) PRIVILEGE_KERNEL.

(** * The entry point *)

(** The second part, once the information is printed. *)
Definition start_system (k : kernel) (local addr : Z) : option (kernel * option outcome) :=
  let k := setup_idt (setup_tss (setup_ldt k)) in
  k ← say k ("Initializing the PIC" +++ nl)%string [];
  let k := set_kpic k (i8259_init (kpic k)) in
  k ← say k ("Initializing ECE391 File System" +++ nl)%string [];
  let mod_ptr := mb_mods_addr (kmem k) addr in
  let k := set_kfs k (ece391_fs_init (kmem k) (load32 (kmem k) mod_ptr)) in
  k ← say k ("Initializing Paging" +++ nl)%string [];
  let k := set_kmem k (initialize_paging_structs junk (kmem k) kernel_pd kernel_pt VIDEO_PHYS_ADDR) in
  let k := enable_paging k kernel_pd in
  k ← say_paged k ("Enabling Interrupts" +++ nl)%string [];
  Some (kernel_run_first_program junk k local (lit "shell"%string)).

(** [Some (k, None)]: the function returned early, or the first programs could
    not be started; the processor then halts. *)
Definition entry (fuel : nat) (k : kernel) (local magic addr : Z) : option (kernel * option outcome) :=
  let k := set_ktty k (clear_terminal (ktty k) 0) in
  if negb (magic =? MULTIBOOT_BOOTLOADER_MAGIC) then
    k ← say k ("Invalid magic number: 0x%#x" +++ nl)%string [magic];
    Some (k, None)
  else
    k ← print_info fuel k addr;
    let flags := mb_flags (kmem k) addr in
    if CHECK_FLAG flags 4 && CHECK_FLAG flags 5 then
      k ← say k ("Both bits 4 and 5 are set." +++ nl)%string [];
      Some (k, None)
    else
      k ← print_tables fuel k addr;
      start_system k local addr.
End code.

(** * The interrupt table *)

(** The handler each vector should have. *)
Definition vector_handler (h : handlers) (v : Z) : Z :=
  if v =? 0x80 then syscall_handler_wrapper h
  else if v =? 0x21 then keyboard_handler_wrapper h
  else if v =? 0x28 then rtc_handler_wrapper h
  else if v =? 0x20 then pit_handler_wrapper h
  else if v <? 32 then interrupt_handler h v
  else null_interrupt_handler h.

(** The stubs are linked below 4 GB. *)
Definition handlers_ok (h : handlers) : Prop :=
  forall v, 0 <= v < 256 -> 0 <= vector_handler h v < 0x100000000.

(** A loop of installations, with handlers that depend on the vector. *)
Lemma install_loop (f : Z -> Z) dpl l k v :
  0 <= dpl < 4 -> NoDup l -> (forall i, i ∈ l -> 0 <= f i < 0x100000000) ->
  let k' := foldl (fun k i => install_interrupt_handler k i (f i) KERNEL_CS dpl) k l in
  (v ∈ l -> gate (idt k' v) (f v) KERNEL_CS dpl) /\ (v ∉ l -> idt k' v = idt k v).
Proof.
  intros Hd Hnd Hf. revert k. induction Hnd as [|i l Hi Hnd IH]; intros k; cbn [foldl].
  { split; [intros H; by apply elem_of_nil in H|done]. }
  destruct (IH ltac:(intros; apply Hf; by right) (install_interrupt_handler k i (f i) KERNEL_CS dpl)) as [IH1 IH2].
  split.
  - intros Hv. destruct (decide (v ∈ l)) as [Hl|Hl]; [by apply IH1|]. rewrite IH2 by done.
    apply elem_of_cons in Hv as [->|]; [|done]. apply install_gate; [apply Hf; by left|unfold KERNEL_CS; lia|done].
  - intros Hv. apply not_elem_of_cons in Hv as [Hvi Hl]. rewrite IH2 by done. by apply install_other.
Qed.

Lemma setup_idt_gates h k v :
  handlers_ok h -> 0 <= v < 256 ->
  gate (idt (setup_idt h k) v) (vector_handler h v) KERNEL_CS (if v =? 0x80 then 3 else 0).
Proof.
  intros Hok Hv. pose proof (Hok v Hv) as Hh. unfold vector_handler in *. unfold setup_idt. cbv zeta.
  change (IRQ_INT_NUM KEYBOARD_IRQ) with 0x21. change (IRQ_INT_NUM RTC_IRQ) with 0x28.
  change (IRQ_INT_NUM PIT_IRQ) with 0x20. change SYSCALL_INT with 0x80.
  set (k1 := foldl _ k _). set (k2 := foldl _ k1 _).
  assert (Hcs : 0 <= KERNEL_CS < 256) by (unfold KERNEL_CS; lia).
  destruct (Z.eqb_spec v 0x20) as [->|H20]; [apply install_gate; done|]. rewrite install_other by done.
  destruct (Z.eqb_spec v 0x28) as [->|H28]; [apply install_gate; done|]. rewrite install_other by done.
  destruct (Z.eqb_spec v 0x21) as [->|H21]; [apply install_gate; done|]. rewrite install_other by done.
  destruct (Z.eqb_spec v 0x80) as [->|H80]; [apply install_gate; done|]. rewrite install_other by done.
  destruct (install_loop (interrupt_handler h) PRIVILEGE_KERNEL (seqZ 0 NUM_RESERVED_VEC) k1 v) as [I1 I2];
    [unfold PRIVILEGE_KERNEL; lia|apply NoDup_seqZ| |].
  { intros i Hi. apply elem_of_seqZ in Hi. unfold NUM_RESERVED_VEC in Hi.
    pose proof (Hok i ltac:(lia)) as Hr. unfold vector_handler in Hr. revert Hr.
    rewrite !(proj2 (Z.eqb_neq _ _)) by lia. by rewrite (proj2 (Z.ltb_lt _ _)) by lia. }
  fold k2 in I1, I2. unfold NUM_RESERVED_VEC in I1, I2. rewrite elem_of_seqZ in I1, I2.
  destruct (Z.ltb_spec v 32) as [Hlt|Hge]; [apply I1; lia|]. rewrite I2 by lia.
  apply (install_loop (fun _ => null_interrupt_handler h) PRIVILEGE_KERNEL
           (seqZ NUM_RESERVED_VEC (NUM_VEC - NUM_RESERVED_VEC)) k v);
    [unfold PRIVILEGE_KERNEL; lia|apply NoDup_seqZ|done|].
  apply elem_of_seqZ. unfold NUM_RESERVED_VEC, NUM_VEC. lia.
Qed.

(** The set-up of the interrupt table changes nothing else. *)
Lemma install_only (f : Z -> Z) dpl l k :
  exists t, foldl (fun k i => install_interrupt_handler k i (f i) KERNEL_CS dpl) k l = set_idt k t.
Proof.
  revert k. induction l as [|i l IH]; intros k; cbn [foldl].
  - exists (idt k). by destruct k.
  - destruct (IH (install_interrupt_handler k i (f i) KERNEL_CS dpl)) as [t ->]. by exists t.
Qed.

Lemma setup_idt_only h k : exists t, setup_idt h k = set_idt k t.
Proof.
  unfold setup_idt. cbv zeta.
  destruct (install_only (fun _ => null_interrupt_handler h) PRIVILEGE_KERNEL
              (seqZ NUM_RESERVED_VEC (NUM_VEC - NUM_RESERVED_VEC)) k) as [t1 ->].
  destruct (install_only (interrupt_handler h) PRIVILEGE_KERNEL (seqZ 0 NUM_RESERVED_VEC) (set_idt k t1)) as [t2 ->].
  by eexists.
Qed.

(** C40: the descriptor tables.  After the set-up every one of the 256 vectors
    has a present 32-bit interrupt gate in the kernel's code segment with the
    right handler; user mode may raise vector 0x80, the system call, and no
    other.  The descriptors of the LDT and the TSS have the base and the limit
    of their tables, and the first kernel stack is the boot stack. *)
Theorem descriptor_tables_correct `{L : Layout} (ldt : Z) (h : handlers) (k : kernel) (v : Z) :
  handlers_ok h -> 0 <= ldt < 0x100000000 -> 0 <= tss < 0x100000000 -> 0 <= v < 256 ->
  let k' := setup_idt h (setup_tss (setup_ldt ldt k)) in
  gate (idt k' v) (vector_handler h v) KERNEL_CS (if v =? 0x80 then 3 else 0) /\
  seg_base (ldt_desc k') = ldt /\ seg_limit (ldt_desc k') = 31 /\
  seg_type (ldt_desc k') = 2 /\ seg_present (ldt_desc k') = 1 /\
  seg_base (tss_desc k') = tss /\ seg_limit (tss_desc k') = TSS_SIZE - 1 /\
  seg_type (tss_desc k') = 9 /\ seg_present (tss_desc k') = 1 /\
  tss_ldt k' = KERNEL_LDT /\ tss_ss0 k' = KERNEL_DS /\ tss_esp0 k' = get_kernel_stack_base_from_slot 0.
Proof.
  intros Hh Hl Ht Hv. cbv zeta. split; [by apply setup_idt_gates|].
  destruct (setup_idt_only h (setup_tss (setup_ldt ldt k))) as [t ->].
  destruct (segment_fields ldt 31 2 0 0 1 0 0 1 0 Hl ltac:(lia)) as [B1 E1].
  destruct (segment_fields tss 103 9 0 3 1 0 0 0 0 Ht ltac:(lia)) as [B2 E2].
  unfold setup_tss, setup_ldt, set_params, set_tss_ldt, set_ldt.
  cbn [ldt_desc tss_desc tss_ldt tss_ss0 tss_esp0 set_tss set_idt].
  rewrite !u32_id by lia. split_and!; done.
Qed.

(** Stubs of sixteen bytes from 0x400100. *)
Definition example_handlers : handlers :=
  Handlers (fun v => 0x400100 + 16 * v) 0x400300 0x400310 0x400320 0x400330 0x400340.

Lemma descriptor_tables_correct_witness :
  let k := example_kernel (Tty ∅ pic_boot (fun _ => Terminal (CircularBuffer.circular_buffer_init 0 1) 0 0 0 0)
                             0 0 [] 0) in
  let k' := setup_idt example_handlers (setup_tss (L := example_layout) (setup_ldt 0x408000 k)) in
  gate (idt k' 0x80) 0x400310 KERNEL_CS 3 /\ gate (idt k' 14) 0x4001E0 KERNEL_CS 0 /\
  seg_base (ldt_desc k') = 0x408000.
Proof.
  intros k.
  assert (Hh : handlers_ok example_handlers).
  { intros v Hv. unfold vector_handler. repeat case_match; cbn; lia. }
  destruct (descriptor_tables_correct (L := example_layout) 0x408000 example_handlers k 0x80)
    as (G & B & _); [done|lia|simpl; lia|lia|].
  destruct (descriptor_tables_correct (L := example_layout) 0x408000 example_handlers k 14)
    as (G2 & _); [done|lia|simpl; lia|lia|].
  split; [exact G|]. split; [exact G2|exact B].
Defined.
