(* ===== verification/Startup.v ===== *)
(** The boot of the system: from [entry] of [kernel.c] to the first
    instruction of the three shells. *)

From Stdlib Require Import String.
From S2P Require Import Prelude Memory Layout I8259 LibMem LibString CircularBuffer Paging.
From S2P Require Import Ece391Fs Fs Pcb Terminal Screen Printf Console LineInput Machine Rtc.
From S2P Require Import Syscall FileTable Process Execute Exception Pit Boot Entry.

#[local] Open Scope Z_scope.
#[local] Notation "a +++ b" := (String.append a b) (at level 60, right associativity).

(** The formats of [entry]. *)
Definition entry_formats : list string :=
  ["Invalid magic number: 0x%#x" +++ nl; "flags = 0x%#x" +++ nl; "mem_lower = %uKB, mem_upper = %uKB" +++ nl;
   "boot_device = 0x%#x" +++ nl; "cmdline = %s" +++ nl; "Module %d loaded at address: 0x%#x" +++ nl;
   "Module %d ends at address: 0x%#x" +++ nl; "First few bytes of module:" +++ nl; "0x%x "; nl;
   "Both bits 4 and 5 are set." +++ nl;
   "elf_sec: num = %u, size = 0x%#x," +++ " addr = 0x%#x, shndx = 0x%#x" +++ nl;
   "mmap_addr = 0x%#x, mmap_length = 0x%x" +++ nl;
   " size = 0x%x,     base_addr = 0x%#x%#x" +++ nl +++ "     type = 0x%x,  length    = 0x%#x%#x" +++ nl;
   "Initializing the PIC" +++ nl; "Initializing ECE391 File System" +++ nl; "Initializing Paging" +++ nl;
   "Enabling Interrupts" +++ nl]%string.

(** * Messages at boot *)

Section talking.
Context (lit : string -> Z) (base sp conv : Z) (m0 : mem).
Hypotheses (Hconv : conv + 64 <= base \/ base + 4000 <= conv)
           (Hsp : forall x, sp <= x < sp + 64 -> stable base conv x).
Hypothesis (Hlit : Forall (literal_ok lit base sp conv m0) entry_formats).

#[local] Abbreviation quiet := (quiet base sp conv).

(** [k] is [k0] after some messages. *)
Definition spoken (k0 k : kernel) : Prop :=
  exists s, k = set_ktty k0 s /\ messaging base sp conv (ktty k0) s /\ calm base sp conv m0 s.

Lemma spoken_load32 k0 k a :
  spoken k0 k -> (forall x, a <= x < a + 4 -> quiet x) -> load32 (kmem k) a = load32 m0 a.
Proof.
  intros (s & -> & _ & [_ M _]) Ha. apply load_le_ext. intros x Hx. simpl in Hx. apply M, Ha. lia.
Qed.

Lemma say_spoken k0 k f ps :
  spoken k0 k -> In f entry_formats -> fits false (bytes_of f) ps = true ->
  Forall (arg_ok base sp conv m0) ps -> Forall no_backspace ps -> (length ps <= 16)%nat ->
  exists k', say lit sp conv k f (arg_word <$> ps) = Some k' /\ spoken k0 k'.
Proof.
  intros (s & -> & M & C) Hin Hf Ha Hb Hl. destruct (fits_message None _ _ Hf Hb) as (t & Et & Bt).
  destruct (scr_puts_total (screen_of s 0) t Bt) as [sc Esc].
  rewrite Forall_forall in Hlit. pose proof (Hlit f (proj2 (list_elem_of_In _ _) Hin)) as Hf'.
  destruct (kprintf_spec lit base sp conv m0 Hconv Hsp s f ps t sc C Hf' Ha Hl Et Esc) as (s' & E & _ & M' & C').
  exists (set_ktty k0 s'). unfold say. change (ktty (set_ktty k0 s)) with s. rewrite E. cbn [mbind option_bind].
  split; [done|]. exists s'. split; [done|]. split; [by eapply messaging_trans|exact C'].
Qed.

(** With numbers only. *)
Lemma say_numbers k0 k f vs :
  spoken k0 k -> existsb (String.eqb f) entry_formats && fits false (bytes_of f) (Num <$> vs) = true ->
  Forall (fun v => 0 <= v < 0x100000000) vs -> (length vs <= 16)%nat ->
  exists k', say lit sp conv k f vs = Some k' /\ spoken k0 k'.
Proof.
  intros S [Hin Hf]%andb_true_iff Hv Hl. apply existsb_exists in Hin as (g & Hin & <-%String.eqb_eq).
  assert (E : arg_word <$> (Num <$> vs) = vs) by (rewrite <- list_fmap_compose; apply list_fmap_id).
  destruct (say_spoken k0 k f (Num <$> vs)) as (k' & E' & S'); [done|done|done| | |by rewrite length_fmap|].
  - apply Forall_fmap. eapply Forall_impl; [exact Hv|]. by split.
  - apply Forall_fmap, Forall_true. done.
  - rewrite E in E'. by exists k'.
Qed.

(** * Multiboot information *)

Section information.
Context (k0 : kernel) (fuel : nat) (mbi : Z).
Let flag b := CHECK_FLAG (mb_flags m0 mbi) b.

(** The loop over the memory map ends within [n] entries. *)
Fixpoint map_ends (n : nat) (lo hi : Z) : Prop :=
  hi <= lo \/
  match n with
  | O => False
  | S n' => (forall x, lo <= x < lo + 4 -> quiet x) /\ map_ends n' (u32 (lo + load32 m0 lo + 4)) hi
  end.

(** What the boot loader promises: the structures are where no message writes,
    the command line is text, the memory map is finite. *)
Record info_ok : Prop := {
  io_info : forall x, mbi <= x < mbi + 52 -> quiet x;
  io_cmdline : flag 2 = true -> exists t, cstr m0 (mb_cmdline m0 mbi) t /\ Forall (fun c => c <> 8) t /\
    forall x, mb_cmdline m0 mbi <= x <= mb_cmdline m0 mbi + zlen t -> quiet x;
  io_modules : flag 3 = true -> mb_mods_count m0 mbi <= Z.of_nat fuel;
  io_mmap : flag 6 = true ->
    map_ends fuel (mb_mmap_addr m0 mbi) (u32 (mb_mmap_addr m0 mbi + mb_mmap_length m0 mbi))
}.
Hypothesis (ok : info_ok).

Lemma info_word k i : spoken k0 k -> 0 <= i < 13 -> load32 (kmem k) (mbi + 4 * i) = load32 m0 (mbi + 4 * i).
Proof. intros S Hi. apply (spoken_load32 k0); [done|]. intros x Hx. apply (io_info ok). lia. Qed.

Lemma info_flags k : spoken k0 k -> mb_flags (kmem k) mbi = mb_flags m0 mbi.
Proof. intros S. unfold mb_flags. rewrite <- (Z.add_0_r mbi). by apply (info_word k 0). Qed.

(** One message of numbers. *)
Ltac speak k S :=
  let k' := fresh "k" in let S' := fresh "S" in let E := fresh "E" in
  match goal with |- context [say lit sp conv k ?f ?vs] => destruct (say_numbers k0 k f vs) as (k' & E & S') end;
    [exact S|reflexivity| |simpl; lia|rewrite E; cbn [mbind option_bind]; clear E];
    [repeat (apply Forall_cons; split; [first [apply load32_range | apply u32_range | lia]|]); constructor|].

Lemma print_bytes_spoken n k mod_ptr i :
  spoken k0 k -> exists k', print_bytes lit sp conv n k mod_ptr i = Some k' /\ spoken k0 k'.
Proof.
  revert k i. induction n as [|n IH]; intros k i S; cbn [print_bytes]; [by exists k|].
  speak k S. by apply IH.
Qed.

Lemma print_modules_spoken f k c mod_ptr :
  spoken k0 k -> 0 <= c -> mb_mods_count m0 mbi <= c + Z.of_nat f ->
  exists k', print_modules lit sp conv f k mbi c mod_ptr = Some k' /\ spoken k0 k'.
Proof.
  revert k c mod_ptr. induction f as [|f IH]; intros k c mod_ptr S Hc Hf; cbn [print_modules];
    change (mb_mods_count (kmem k) mbi) with (load32 (kmem k) (mbi + 4 * 5));
    rewrite info_word by (done || lia); change (load32 m0 (mbi + 4 * 5)) with (mb_mods_count m0 mbi);
    pose proof (load32_range m0 (mbi + 20)) as R; change (load32 m0 (mbi + 20)) with (mb_mods_count m0 mbi) in R;
    (destruct (Z.ltb_spec c (mb_mods_count m0 mbi)); [|by exists k]); [lia|].
  speak k S. speak k1 S0. speak k2 S1.
  destruct (print_bytes_spoken 16 k3 mod_ptr 0 S2) as (k4 & -> & S4). cbn [mbind option_bind].
  speak k4 S4. apply IH; [done|lia|lia].
Qed.

Lemma print_mmap_spoken f k mmap :
  spoken k0 k -> map_ends f mmap (u32 (mb_mmap_addr m0 mbi + mb_mmap_length m0 mbi)) ->
  exists k', print_mmap lit sp conv f k mbi mmap = Some k' /\ spoken k0 k'.
Proof.
  revert k mmap. induction f as [|f IH]; intros k mmap S Hm; cbn [print_mmap map_ends] in *;
    change (mb_mmap_addr (kmem k) mbi) with (load32 (kmem k) (mbi + 4 * 12));
    change (mb_mmap_length (kmem k) mbi) with (load32 (kmem k) (mbi + 4 * 11));
    rewrite !info_word by (done || lia); change (load32 m0 (mbi + 4 * 12)) with (mb_mmap_addr m0 mbi);
    change (load32 m0 (mbi + 4 * 11)) with (mb_mmap_length m0 mbi);
    (destruct (Z.ltb_spec mmap (u32 (mb_mmap_addr m0 mbi + mb_mmap_length m0 mbi))); [|by exists k]);
    (destruct Hm as [Hm|Hm]; [lia|]); [done|].
  destruct Hm as [Hq Hm]. rewrite <- (spoken_load32 k0 k mmap S Hq) in Hm.
  speak k S. apply IH; [done|].
  rewrite (spoken_load32 k0 k1 mmap) by done. by rewrite (spoken_load32 k0 k mmap) in Hm by done.
Qed.

Lemma when_spoken (b : bool) k (f : kernel -> option kernel) :
  spoken k0 k -> (b = true -> exists k', f k = Some k' /\ spoken k0 k') ->
  exists k', when b k f = Some k' /\ spoken k0 k'.
Proof. intros S H. unfold when. destruct b; [by apply H|by exists k]. Qed.

Lemma cmdline_spoken k :
  spoken k0 k -> flag 2 = true ->
  exists k', say lit sp conv k ("cmdline = %s" +++ nl)%string [mb_cmdline (kmem k) mbi] = Some k' /\ spoken k0 k'.
Proof.
  intros S Hfl. destruct (io_cmdline ok Hfl) as (t & Hc & Hb & Hq).
  change (mb_cmdline (kmem k) mbi) with (load32 (kmem k) (mbi + 4 * 4)). rewrite (info_word k 4 S) by lia.
  change (load32 m0 (mbi + 4 * 4)) with (mb_cmdline m0 mbi).
  apply (say_spoken k0 k _ [Str (mb_cmdline m0 mbi) t] S).
  - do 4 right. by left.
  - reflexivity.
  - apply Forall_singleton. split; [apply load32_range|by split].
  - by apply Forall_singleton.
  - simpl. lia.
Qed.

Lemma print_info_spoken k :
  spoken k0 k -> exists k', print_info lit sp conv fuel k mbi = Some k' /\ spoken k0 k'.
Proof.
  intros S. unfold print_info. cbv zeta. speak k S.
  destruct (when_spoken (CHECK_FLAG (mb_flags (kmem k1) mbi) 0) k1 (fun k => say lit sp conv k
    ("mem_lower = %uKB, mem_upper = %uKB" +++ nl)%string [mb_mem_lower (kmem k) mbi; mb_mem_upper (kmem k) mbi]) S0)
    as (k2 & -> & S2); [intros _; speak k1 S0; by eexists|cbn [mbind option_bind]].
  destruct (when_spoken (CHECK_FLAG (mb_flags (kmem k2) mbi) 1) k2 (fun k => say lit sp conv k
    ("boot_device = 0x%#x" +++ nl)%string [mb_boot_device (kmem k) mbi]) S2)
    as (k3 & -> & S3); [intros _; speak k2 S2; by eexists|cbn [mbind option_bind]].
  destruct (when_spoken (CHECK_FLAG (mb_flags (kmem k3) mbi) 2) k3 (fun k => say lit sp conv k
    ("cmdline = %s" +++ nl)%string [mb_cmdline (kmem k) mbi]) S3)
    as (k4 & -> & S4); [rewrite info_flags by done; by apply cmdline_spoken|cbn [mbind option_bind]].
  apply when_spoken; [done|]. rewrite info_flags by done. intros Hf.
  apply print_modules_spoken; [done|lia|]. pose proof (io_modules ok Hf). lia.
Qed.

Lemma print_tables_spoken k :
  spoken k0 k -> exists k', print_tables lit sp conv fuel k mbi = Some k' /\ spoken k0 k'.
Proof.
  intros S. unfold print_tables. cbv zeta.
  destruct (when_spoken (CHECK_FLAG (mb_flags (kmem k) mbi) 5) k (fun k => say lit sp conv k
    ("elf_sec: num = %u, size = 0x%#x," +++ " addr = 0x%#x, shndx = 0x%#x" +++ nl)%string
    [load32 (kmem k) (mb_elf_sec mbi 0); load32 (kmem k) (mb_elf_sec mbi 1);
     load32 (kmem k) (mb_elf_sec mbi 2); load32 (kmem k) (mb_elf_sec mbi 3)]) S)
    as (k1 & -> & S1); [intros _; speak k S; by eexists|cbn [mbind option_bind]].
  apply when_spoken; [done|]. rewrite info_flags by done. intros Hf. speak k1 S1.
  change (mb_mmap_addr (kmem k2) mbi) with (load32 (kmem k2) (mbi + 4 * 12)). rewrite (info_word k2 12 S0) by lia.
  apply print_mmap_spoken; [done|]. exact (io_mmap ok Hf).
Qed.
End information.
End talking.

(** * The page tables of the boot *)

Lemma boot_video `{L : Layout} `{LOk : !LayoutOk L} junk m pd pt :
  pd + 4096 <= pt \/ pt + 4096 <= pd -> pd + 4096 <= vmem_pt \/ vmem_pt + 4096 <= pd ->
  pt + 4096 <= vmem_pt \/ vmem_pt + 4096 <= pt -> 0 <= pt < 0x800000 -> pt mod 4096 = 0 ->
  translate (initialize_paging_structs junk m pd pt VIDEO_PHYS_ADDR) pd VIDEO_VIRT_ADDR = Some (VIDEO_PHYS_ADDR, true).
Proof.
  intros H1 H2 H3 Hp Ha.
  pose proof (init_pd_lookup junk m pd pt VIDEO_PHYS_ADDR H1 H2 H3 33 ltac:(lia)) as D.
  pose proof (init_pt_lookup junk m pd pt VIDEO_PHYS_ADDR H1 H2 H3 0 ltac:(lia)) as T.
  revert D T. decide_zb. generalize (initialize_paging_structs junk m pd pt VIDEO_PHYS_ADDR). intros m' D T.
  assert (Es : Z.shiftr pt ADDRESS_SHIFT = pt / 4096) by (unfold ADDRESS_SHIFT; by rewrite Z.shiftr_div_pow2).
  assert (Ep : 0x1000 * (pt / 4096) = pt) by divlia.
  pose proof (describes_entry (junk (pd + 4 * 33)) (user_vmem_pd_fields pt)) as P.
  pose proof (describes_entry (junk pt) (user_vmem_pt_fields VIDEO_PHYS_ADDR)) as Q.
  cbn [physical_addr_31_to_12 page_size user_accessible present user_vmem_pd_fields user_vmem_pt_fields] in P, Q.
  rewrite <- D, Es in P. rewrite <- T in Q.
  rewrite (translate_small m' pd VIDEO_VIRT_ADDR (pt / 4096) true (Some (false, 0xB8, true))); [reflexivity| |].
  - apply P; [divlia|done].
  - rewrite Ep. apply Q; [|done]. split; vm_compute; congruence.
Qed.

(** * The boot *)

Section booting.
Context `{L : Layout} `{LOk : !LayoutOk L} (junk : Z -> Z) (lit : string -> Z) (sp conv : Z).
Context (ldt kernel_pd kernel_pt : Z) (h : handlers).
Context (k0 : kernel) (fuel : nat) (local mbi : Z).
Let m0 := kmem k0.

Definition shell : list Z := bytes_of "shell".

(** What the kernel finds in memory at boot. *)
Definition boot_fs : fs_ptrs := ece391_fs_init m0 (load32 m0 (mb_mods_addr m0 mbi)).
Definition boot_file : option (list Z) := find_file m0 boot_fs (take 32 (command_name shell)).

(** Outside the three page tables the boot writes. *)
Definition off_tables (x : Z) : Prop :=
  (x < kernel_pd \/ kernel_pd + 4096 <= x) /\ (x < kernel_pt \/ kernel_pt + 4096 <= x) /\
  (x < vmem_pt \/ vmem_pt + 4096 <= x).

Definition apart (a b : Z) : Prop := a + 4096 <= b \/ b + 4096 <= a.

(** The state the boot loader and the linker leave: statics as the sources
    initialise them, frames on the boot stack, distinct objects. *)
Record entry_ok : Prop := {
  eo_video : video_memory (terms (ktty k0) 0) = VIDEO_VIRT_ADDR;
  eo_active : active_terminal (ktty k0) = 0;
  eo_masks : masks (kpic k0) = (EIGHT_BIT_MASK, EIGHT_BIT_MASK);
  eo_stack : 0x7FE200 <= sp /\ sp + 64 <= 0x800000 /\ 0x7FE200 <= conv /\ conv + 64 <= 0x800000;
  eo_frames : conv + 64 <= sp \/ sp + 64 <= conv;
  eo_tables : in_image kernel_pd 4096 /\ in_image kernel_pt 4096 /\ kernel_pt mod 4096 = 0 /\
    apart kernel_pd kernel_pt /\ apart kernel_pd vmem_pt /\ apart kernel_pt vmem_pt;
  eo_formats : Forall (fun f => cstr m0 (lit f) (bytes_of f) /\
    forall x, lit f <= x <= lit f + zlen (bytes_of f) -> 0x400000 <= x < 0x7F0000 /\ off_tables x) entry_formats;
  eo_info : info_ok VIDEO_VIRT_ADDR sp conv m0 fuel mbi;
  eo_module : forall x, mb_mods_addr m0 mbi <= x < mb_mods_addr m0 mbi + 4 -> quiet VIDEO_VIRT_ADDR sp conv x;
  eo_mem : boot_mem boot_fs local (lit "shell") shell m0;
  eo_read : forall x, boot_read boot_fs (lit "shell") shell m0 x -> off_tables x;
  eo_header : whole_header boot_file;
  eo_end : runnable m0 6 = false
}.

Hypothesis (ok : entry_ok).

Lemma image_quiet base x : 0x800000 <= base \/ base + 4000 <= 0x400000 -> 0x400000 <= x < 0x7FE200 -> quiet base sp conv x.
Proof. intros Hb Hx. destruct (eo_stack ok) as (P1 & P2 & P3 & P4). unfold quiet, stable. lia. Qed.

Lemma stack_stable base x : 0x800000 <= base \/ base + 4000 <= 0x400000 -> sp <= x < sp + 64 -> stable base conv x.
Proof. intros Hb Hx. pose proof (eo_frames ok). destruct (eo_stack ok) as (P1 & P2 & P3 & P4). unfold stable. lia. Qed.

Lemma conv_off base : 0x800000 <= base \/ base + 4000 <= 0x400000 -> conv + 64 <= base \/ base + 4000 <= conv.
Proof. destruct (eo_stack ok) as (P1 & P2 & P3 & P4). lia. Qed.

(** The formats stay in place. *)
Lemma formats_ok base m :
  0x800000 <= base \/ base + 4000 <= 0x400000 ->
  (forall x, 0x400000 <= x < 0x7F0000 -> off_tables x -> load8 m x = load8 m0 x) ->
  Forall (literal_ok lit base sp conv m) entry_formats.
Proof.
  intros Hb M. eapply Forall_impl; [exact (eo_formats ok)|]. intros f [Hc Ha]. split.
  - apply (cstr_ext m0); [|exact Hc]. intros x Hx. destruct (Ha x Hx). by apply M.
  - intros x Hx. destruct (Ha x Hx). apply image_quiet; lia.
Qed.

(** * The first part *)

#[local] Abbreviation calm0 := (calm VIDEO_VIRT_ADDR sp conv m0).
#[local] Abbreviation spoken0 := (spoken VIDEO_VIRT_ADDR sp conv m0).

Lemma virt_base : 0x800000 <= VIDEO_VIRT_ADDR \/ VIDEO_VIRT_ADDR + 4000 <= 0x400000.
Proof. unfold VIDEO_VIRT_ADDR. lia. Qed.

Lemma phys_base : 0x800000 <= VIDEO_PHYS_ADDR \/ VIDEO_PHYS_ADDR + 4000 <= 0x400000.
Proof. unfold VIDEO_PHYS_ADDR. lia. Qed.

Let talk_conv := conv_off _ virt_base.
Let talk_sp x (Hx : sp <= x < sp + 64) := stack_stable _ x virt_base Hx.
Let talk_lit := formats_ok _ m0 virt_base (fun x _ _ => eq_refl).

Lemma spoken_refl k : calm0 (ktty k) -> spoken0 k k.
Proof. intros C. exists (ktty k). split; [by destruct k|]. split; [apply messaging_refl|exact C]. Qed.

Lemma spoken_calm k k' : spoken0 k k' -> calm0 (ktty k').
Proof. by intros (s & -> & _ & C). Qed.

(** What a message does not change. *)
Record same_system (k k' : kernel) : Prop := {
  sy_tables : idt k' = idt k /\ ldt_desc k' = ldt_desc k /\ tss_ldt k' = tss_ldt k;
  sy_fs : kfs k' = kfs k;
  sy_pid : next_pid k' = next_pid k;
  sy_active : active_terminal (ktty k') = active_terminal (ktty k);
  sy_masks : masks (kpic k') = masks (kpic k)
}.

Lemma spoken_system base m k k' : spoken base sp conv m k k' -> same_system k k'.
Proof. intros (s & -> & [_ _ _ _ _ A _ P] & _). by split. Qed.

Lemma cleared : let k := set_ktty k0 (clear_terminal (ktty k0) 0) in calm0 (ktty k) /\ same_system k0 k.
Proof.
  destruct (clear_terminal_spec (ktty k0) 0) as [[M _ _ _ V A _ _ _ P] C]. rewrite (eo_video ok) in M, V. split.
  - split; [exact V| |cbn [ktty set_ktty]; rewrite C; exact scr_clear_ok].
    intros x [[Hx _] _]. by apply M.
  - by split.
Qed.

Lemma calm_set_kpic k p : calm0 (ktty k) -> calm0 (ktty (set_kpic k p)).
Proof. intros [V M C]. by split. Qed.

Lemma calm_set_kfs k f : calm0 (ktty k) -> calm0 (ktty (set_kfs k f)).
Proof. done. Qed.

(** Plain messages. *)
Lemma say_plain k f :
  calm0 (ktty k) -> existsb (String.eqb f) entry_formats && fits false (bytes_of f) [] = true ->
  exists k', say lit sp conv k f [] = Some k' /\ calm0 (ktty k') /\ same_system k k'.
Proof.
  intros C Hf. destruct (say_numbers lit VIDEO_VIRT_ADDR sp conv m0 talk_conv talk_sp talk_lit k k f [])
    as (k' & E & S); [by apply spoken_refl|exact Hf|constructor|simpl; lia|].
  exists k'. split; [exact E|]. split; [by eapply spoken_calm|by eapply spoken_system].
Qed.

(** * The second part *)

(** Before the first programs are started. *)
Record system_ready (k : kernel) : Prop := {
  rd_fs : kfs k = boot_fs;
  rd_pid : next_pid k = next_pid k0;
  rd_active : active_terminal (ktty k) = 0;
  rd_masked : forall j, 0 <= j < 16 -> masked (kpic k) j = negb (j =? 2);
  rd_mem : forall x, quiet VIDEO_VIRT_ADDR sp conv x -> quiet VIDEO_PHYS_ADDR sp conv x -> off_tables x ->
    load8 (kmem k) x = load8 m0 x;
  rd_tables : exists k2, let k3 := setup_idt h (setup_tss (setup_ldt ldt k2)) in
    idt k = idt k3 /\ ldt_desc k = ldt_desc k3 /\ tss_ldt k = tss_ldt k3
}.

Lemma init_masked p j :
  masks p = (EIGHT_BIT_MASK, EIGHT_BIT_MASK) -> 0 <= j < 16 -> masked (i8259_init p) j = negb (j =? 2).
Proof.
  destruct p as [ma sl po]. intros [= -> ->] Hj. unfold i8259_init. cbn [master_mask slave_mask ports pic_out].
  assert (H : Forall (fun j => masked (Pic (u8 (Z.land EIGHT_BIT_MASK (Z.lnot ICW3_MASTER))) EIGHT_BIT_MASK []) j
                               = negb (j =? 2)) (seqZ 0 16)) by (apply (bool_decide_unpack _); vm_compute; exact I).
  rewrite Forall_forall in H. apply (H j). apply elem_of_seqZ. lia.
Qed.

Lemma boot_fs_read k : calm0 (ktty k) ->
  ece391_fs_init (kmem k) (load32 (kmem k) (mb_mods_addr (kmem k) mbi)) = boot_fs.
Proof.
  intros C. pose proof (spoken_refl k C) as S. unfold boot_fs.
  assert (E1 : mb_mods_addr (kmem k) mbi = mb_mods_addr m0 mbi).
  { apply (spoken_load32 VIDEO_VIRT_ADDR sp conv m0 k k); [exact S|]. intros x Hx. apply (io_info _ _ _ _ _ _ (eo_info ok)). lia. }
  rewrite E1, (spoken_load32 VIDEO_VIRT_ADDR sp conv m0 k k _ S (eo_module ok)).
  set (p := load32 m0 (mb_mods_addr m0 mbi)). unfold ece391_fs_init. do 2 f_equal. f_equal.
  apply (spoken_load32 VIDEO_VIRT_ADDR sp conv m0 k k _ S). intros x Hx. pose proof (eo_mem ok) as B.
  destruct (bm_image _ _ _ _ _ B x) as [Hr _]; [|apply image_quiet; [apply virt_base|lia]].
  pose proof (image_layout m0 boot_fs (bm_fs _ _ _ _ _ B)). unfold boot_fs, ece391_fs_init in *.
  cbn [fs_boot_ptr fs_inode_ptr] in *. fold p in H |- *. lia.
Qed.

#[local] Opaque setup_idt setup_tss setup_ldt initialize_paging_structs i8259_init ece391_fs_init.

(** The last message goes through the page tables to the real video memory. *)
Lemma last_message k m1 :
  calm0 (ktty k) -> translate m1 kernel_pd VIDEO_VIRT_ADDR = Some (VIDEO_PHYS_ADDR, true) ->
  (forall x, quiet VIDEO_VIRT_ADDR sp conv x -> off_tables x -> load8 m1 x = load8 m0 x) ->
  exists k', say_paged lit sp conv (enable_paging (set_kmem k m1) kernel_pd) ("Enabling Interrupts" +++ nl)%string []
      = Some k' /\ same_system k k' /\
    forall x, quiet VIDEO_VIRT_ADDR sp conv x -> quiet VIDEO_PHYS_ADDR sp conv x -> off_tables x ->
      load8 (kmem k') x = load8 m0 x.
Proof.
  intros C T M. set (k2 := enable_paging (set_kmem k m1) kernel_pd).
  unfold say_paged. change (video_memory (terms (ktty k2) 0)) with (video_memory (terms (ktty k) 0)).
  rewrite (cm_video _ _ _ _ _ C). change (cr3 k2) with kernel_pd. change (kmem k2) with m1.
  rewrite T. cbn [mbind option_bind]. set (k3 := point_video k2 VIDEO_PHYS_ADDR).
  assert (C3 : calm VIDEO_PHYS_ADDR sp conv m1 (ktty k3)).
  { destruct (cm_screen _ _ _ _ _ C) as [_ Hc Hr]. unfold k3, point_video. cbn [ktty set_ktty].
    split; [by rewrite terms_set_term_eq|done|]. unfold screen_of. rewrite terms_set_term_eq.
    split; cbn [cells col row]; [apply length_screen_cells|exact Hc|exact Hr]. }
  destruct (say_numbers lit VIDEO_PHYS_ADDR sp conv m1 (conv_off _ phys_base)
              (fun x Hx => stack_stable _ x phys_base Hx)
              (formats_ok _ m1 phys_base (fun x Hx Ho => M x (image_quiet _ x virt_base ltac:(lia)) Ho))
              k3 k3 ("Enabling Interrupts" +++ nl)%string []) as (k4 & E & S);
    [|reflexivity|constructor|simpl; lia|].
  { exists (ktty k3). split; [by destruct k3|]. split; [apply messaging_refl|exact C3]. }
  rewrite E. cbn [mbind option_bind]. exists (point_video k4 VIDEO_VIRT_ADDR). split; [done|].
  pose proof (spoken_system _ _ _ _ S) as [Y1 Y2 Y3 Y4 Y5]. split; [by split|].
  intros x Hv Hp Ho. rewrite <- (M x Hv Ho). destruct S as (s & -> & _ & C4). exact (cm_mem _ _ _ _ _ C4 x Hp).
Qed.

Lemma tables_written m :
  (forall x, quiet VIDEO_VIRT_ADDR sp conv x -> load8 m x = load8 m0 x) ->
  let m1 := initialize_paging_structs junk m kernel_pd kernel_pt VIDEO_PHYS_ADDR in
  translate m1 kernel_pd VIDEO_VIRT_ADDR = Some (VIDEO_PHYS_ADDR, true) /\
  forall x, quiet VIDEO_VIRT_ADDR sp conv x -> off_tables x -> load8 m1 x = load8 m0 x.
Proof.
  intros M m1. destruct (eo_tables ok) as ([T1 T2] & [T3 T4] & T5 & T6 & T7 & T8).
  unfold KERNEL_PAGE_START, KERNEL_IMAGE_END in *. split.
  - apply boot_video; [exact T6|exact T7|exact T8|lia|exact T5].
  - intros x Hx (O1 & O2 & O3). rewrite <- (M x Hx). by apply init_outside_bytes.
Qed.

Lemma setups_keep k :
  let k3 := setup_idt h (setup_tss (setup_ldt ldt k)) in ktty k3 = ktty k /\ next_pid k3 = next_pid k.
Proof. cbv zeta. destruct (setup_idt_only h (setup_tss (setup_ldt ldt k))) as [t ->]. done. Qed.

(** The boot comes to the start of the first programs in a ready system. *)
Definition starts (o : option (kernel * option outcome)) : Prop :=
  exists K, o = Some (kernel_run_first_program junk K local (lit "shell"%string)) /\ system_ready K.

Lemma starts_say k f (rest : kernel -> option (kernel * option outcome)) :
  calm0 (ktty k) -> existsb (String.eqb f) entry_formats && fits false (bytes_of f) [] = true ->
  (forall k', calm0 (ktty k') -> same_system k k' -> starts (rest k')) ->
  starts (say lit sp conv k f [] ≫= rest).
Proof. intros C Hf H. destruct (say_plain k f C Hf) as (k' & -> & C' & Y). by apply H. Qed.

Lemma starts_last k m1 (rest : kernel -> option (kernel * option outcome)) :
  calm0 (ktty k) -> translate m1 kernel_pd VIDEO_VIRT_ADDR = Some (VIDEO_PHYS_ADDR, true) ->
  (forall x, quiet VIDEO_VIRT_ADDR sp conv x -> off_tables x -> load8 m1 x = load8 m0 x) ->
  (forall k', same_system k k' ->
     (forall x, quiet VIDEO_VIRT_ADDR sp conv x -> quiet VIDEO_PHYS_ADDR sp conv x -> off_tables x ->
        load8 (kmem k') x = load8 m0 x) -> starts (rest k')) ->
  starts (say_paged lit sp conv (enable_paging (set_kmem k m1) kernel_pd) ("Enabling Interrupts" +++ nl)%string []
          ≫= rest).
Proof. intros C T M H. destruct (last_message k m1 C T M) as (k' & -> & Y & M'). by apply H. Qed.

Lemma same_system_trans k1 k2 k3 : same_system k1 k2 -> same_system k2 k3 -> same_system k1 k3.
Proof. intros [(? & ? & ?) ? ? ? ?] [(? & ? & ?) ? ? ? ?]. split; [split_and!|..]; congruence. Qed.

#[local] Opaque kernel_run_first_program say say_paged.

Lemma start_ready k :
  calm0 (ktty k) -> same_system k0 k ->
  starts (start_system junk lit sp conv ldt kernel_pd kernel_pt h k local mbi).
Proof.
  intros C [_ _ Y3 Y4 Y5]. unfold start_system. cbv zeta. destruct (setups_keep k) as [E1 E2]. cbv zeta in E1, E2.
  remember (setup_idt h (setup_tss (setup_ldt ldt k))) as k3 eqn:H3. rewrite <- E1 in C.
  apply starts_say; [exact C|reflexivity|]. intros k4 C4 [A1 _ A3 A4 A5].
  assert (Pm : forall j, 0 <= j < 16 -> masked (i8259_init (kpic k4)) j = negb (j =? 2)).
  { intros j Hj. apply init_masked; [|exact Hj]. rewrite A5. unfold kpic. rewrite E1. unfold kpic in Y5.
    rewrite Y5. exact (eo_masks ok). }
  revert Pm. generalize (i8259_init (kpic k4)). intros p Pm.
  apply starts_say; [by apply calm_set_kpic|reflexivity|]. intros k6 C6 [B1 _ B3 B4 B5].
  pose proof (boot_fs_read k6 C6) as R. revert R.
  generalize (ece391_fs_init (kmem k6) (load32 (kmem k6) (mb_mods_addr (kmem k6) mbi))). intros f R.
  apply starts_say; [by apply calm_set_kfs|reflexivity|]. intros k8 C8 [D1 D2 D3 D4 D5].
  destruct (tables_written (kmem k8) (cm_mem _ _ _ _ _ C8)) as [T M]. cbv zeta in T, M. revert T M.
  generalize (initialize_paging_structs junk (kmem k8) kernel_pd kernel_pt VIDEO_PHYS_ADDR). intros m1 T M.
  apply starts_last; [exact C8|exact T|exact M|]. intros k9 [F1 F2 F3 F4 F5] M9.
  exists k9. split; [reflexivity|].
  assert (P : masks (kpic k9) = masks p) by (rewrite F5, D5; exact B5).
  split; [rewrite F2, D2; exact R| | | |exact M9|].
  - rewrite F3, D3. transitivity (next_pid k6); [done|]. rewrite B3. transitivity (next_pid k4); [done|].
    by rewrite A3, E2.
  - rewrite F4, D4. transitivity (active_terminal (ktty k6)); [done|]. rewrite B4.
    transitivity (active_terminal (ktty k4)); [done|]. rewrite A4, E1, Y4. exact (eo_active ok).
  - intros j Hj. rewrite (masks_masked _ _ j P). by apply Pm.
  - exists k. cbv zeta. rewrite <- H3. destruct A1 as (A & A' & A''), B1 as (B & B' & B''), D1 as (D & D' & D''),
      F1 as (F & F' & F''). cbn [idt ldt_desc tss_ldt set_kfs set_kpic set_ktty] in *.
    split; [by rewrite F, D, B|]. split; [by rewrite F', D', B'|by rewrite F'', D'', B''].
Qed.

Lemma ready_boot_ok k :
  system_ready k -> boot_ok k local (lit "shell"%string) shell /\
  find_file (kmem k) (kfs k) (take 32 (command_name shell)) = boot_file /\
  forall x, 0x7F0000 <= x < 0x7FE200 -> load8 (kmem k) x = load8 m0 x.
Proof.
  intros [R1 R2 R3 _ R5 _].
  assert (Q : forall x, 0x400000 <= x < 0x7FE200 -> off_tables x -> load8 (kmem k) x = load8 m0 x).
  { intros x Hx Ho. apply R5; [| |exact Ho]; apply image_quiet; [apply virt_base|lia|apply phys_base|lia]. }
  assert (Hp : forall x, 0x7F0000 <= x < 0x7FE200 -> load8 (kmem k) x = load8 m0 x).
  { intros x Hx. apply Q; [lia|]. destruct (eo_tables ok) as ([T1 T2] & [T3 T4] & _), lay_vmem_pt as [[V1 V2] _].
    unfold off_tables, KERNEL_PAGE_START, KERNEL_IMAGE_END in *. lia. }
  destruct (boot_mem_same boot_fs local (lit "shell"%string) shell m0 (kmem k) (eo_mem ok)) as [B F].
  { intros x Hx. apply Q; [|by apply (eo_read ok)]. pose proof (eo_mem ok) as E.
    destruct Hx as [Hx|[Hx|Hx]];
      [apply (bm_image _ _ _ _ _ E) in Hx|apply (bm_string_at _ _ _ _ _ E) in Hx|apply (bm_magic_at _ _ _ _ _ E) in Hx];
      destruct Hx as [Hx _]; lia. }
  rewrite R1. split; [|split; [exact F|exact Hp]]. split.
  - rewrite R1. exact B.
  - rewrite R1, F. exact (eo_header ok).
  - rewrite R3. lia.
  - rewrite <- (eo_end ok). unfold runnable. change (get_pcb_from_slot 6) with 0x7F2000.
    assert (H : forall x, 0x7F2000 <= x < 0x7F2000 + 452 -> load8 (kmem k) x = load8 m0 x)
      by (intros x Hx; apply Hp; lia).
    rewrite !(pcb_get_ext m0 (kmem k)) by (reflexivity || exact H). done.
Qed.

(** * The outcome *)

(** The running system, against the state at boot. *)
Record booted (k' : kernel) (bytes : list Z) : Prop := {
  bo_cr3 : cr3 k' = get_process_pd 0;
  bo_stack : tss_esp0 k' = get_kernel_stack_base_from_slot 0;
  bo_shells : forall q, 0 <= q < 3 ->
    first_process shell (ktty k') (kmem k') q (next_pid k0 + q) bytes /\
    pcb_get (kmem k') (get_pcb_from_slot q) regs_esp = pcb_get m0 (get_pcb_from_slot q) regs_esp;
  bo_terminals : forall t, 0 <= t < 3 -> input_ok (ktty k') t [] /\ screen_of (ktty k') t = scr_clear;
  bo_sched : sched_ok (kmem k') /\ forall q, 0 <= q <= 6 -> runnable (kmem k') q = (q <? 3);
  bo_masks : forall j, 0 <= j < 16 -> masked (kpic k') j = (2 <? j);
  bo_gates : handlers_ok h -> forall v, 0 <= v < 256 ->
    gate (idt k' v) (vector_handler h v) KERNEL_CS (if v =? 0x80 then 3 else 0)
}.

Lemma started_booted k k' bytes :
  system_ready k -> system_started k k' shell bytes -> booted k' bytes.
Proof.
  intros R [S1 S2 S3 S4 S5 S6 S7 (S8 & _)]. destruct (ready_boot_ok k R) as (_ & _ & M).
  destruct R as [_ R2 _ R4 _ (k2 & R6 & _)]. split; [exact S1|exact S2| |exact S4|by split| |].
  - intros q Hq. destruct (S3 q Hq) as [F E]. rewrite R2 in F. split; [exact F|]. rewrite E.
    pose proof (slot_pcb_range q ltac:(lia)) as P. rewrite pcb_from_slot_eq in * by lia.
    apply pcb_get_agree. intros x Hx. simpl in Hx. apply M. lia.
  - intros j Hj. rewrite S7, R4 by exact Hj.
    destruct (Z.eqb_spec j 2), (Z.eqb_spec j 1), (Z.eqb_spec j 0), (Z.ltb_spec 2 j); try done; lia.
  - intros Hh v Hv. rewrite S8, R6. by apply setup_idt_gates.
Qed.

(** An early return: nothing but a message at the virtual address of the video
    page, which is not mapped yet. *)
Record gave_up (k' : kernel) : Prop := {
  gu_mem : forall x, quiet VIDEO_VIRT_ADDR sp conv x -> load8 (kmem k') x = load8 m0 x;
  gu_tables : idt k' = idt k0 /\ cr3 k' = cr3 k0;
  gu_masks : masks (kpic k') = masks (kpic k0)
}.

(** How [entry] ends. *)
Definition boot_outcome (magic : Z) (k' : kernel) (out : option outcome) : Prop :=
  let flags := mb_flags m0 mbi in
  if negb (magic =? MULTIBOOT_BOOTLOADER_MAGIC) || CHECK_FLAG flags 4 && CHECK_FLAG flags 5 then
    out = None /\ gave_up k'
  else if program_entry boot_file =? 0 then
    out = None /\ forall q, 0 <= q < 6 -> slot_used (kmem k') q = false
  else exists bytes, boot_file = Some bytes /\
    out = Some (Enter_user PROCESS_LINK_START (program_entry boot_file)) /\ booted k' bytes.

Definition boots (magic : Z) (o : option (kernel * option outcome)) : Prop :=
  exists k' out, o = Some (k', out) /\ boot_outcome magic k' out.

Lemma boots_bind magic (o : option kernel) (rest : kernel -> option (kernel * option outcome)) k :
  (exists k', o = Some k' /\ spoken0 k k') -> (forall k', spoken0 k k' -> boots magic (rest k')) ->
  boots magic (o ≫= rest).
Proof. intros (k' & -> & S) H. by apply H. Qed.

Lemma spoken_gave_up k : spoken0 (set_ktty k0 (clear_terminal (ktty k0) 0)) k -> gave_up k.
Proof.
  destruct cleared as [_ [_ _ _ _ P]]. intros (s & -> & Ms & C). split; [|by split|].
  - exact (cm_mem _ _ _ _ _ C).
  - rewrite <- P. exact (ms_masks _ _ _ _ _ Ms).
Qed.

Lemma starts_boots o :
  CHECK_FLAG (mb_flags m0 mbi) 4 && CHECK_FLAG (mb_flags m0 mbi) 5 = false -> starts o ->
  boots MULTIBOOT_BOOTLOADER_MAGIC o.
Proof.
  intros Hf (K & -> & R). destruct (ready_boot_ok K R) as (Hb & F & _).
  pose proof (kernel_run_first_program_spec junk K local (lit "shell"%string) shell Hb) as Q. cbv zeta in Q.
  rewrite F in Q. destruct (kernel_run_first_program junk K local (lit "shell"%string)) as [k' out].
  exists k', out. split; [reflexivity|]. unfold boot_outcome. cbv zeta. rewrite Hf, Z.eqb_refl. cbn [negb orb].
  destruct (program_entry boot_file =? 0); [exact Q|]. destruct Q as (bytes & E & O & S).
  exists bytes. split; [exact E|]. split; [exact O|]. by apply (started_booted K).
Qed.

#[local] Opaque start_system print_info print_tables clear_terminal.

Lemma entry_spec magic :
  0 <= magic < 0x100000000 ->
  boots magic (entry junk lit sp conv ldt kernel_pd kernel_pt h fuel k0 local magic mbi).
Proof.
  intros Hm. destruct cleared as [C Y]. cbv zeta in C, Y. unfold entry. cbv zeta. pose proof spoken_gave_up as G.
  revert C Y G. generalize (set_ktty k0 (clear_terminal (ktty k0) 0)). intros k1 C Y G.
  pose proof (spoken_refl k1 C) as S1.
  destruct (Z.eqb_spec magic MULTIBOOT_BOOTLOADER_MAGIC) as [->|Hne]; cbn [negb].
  - apply (boots_bind _ _ _ k1).
    { exact (print_info_spoken lit _ sp conv m0 talk_conv talk_sp talk_lit k1 fuel mbi (eo_info ok) k1 S1). }
    intros k2 S2. rewrite (info_flags _ sp conv m0 k1 fuel mbi (eo_info ok) k2 S2).
    destruct (CHECK_FLAG (mb_flags m0 mbi) 4 && CHECK_FLAG (mb_flags m0 mbi) 5) eqn:Hf.
    + apply (boots_bind _ _ _ k1).
      { apply (say_numbers lit _ sp conv m0 talk_conv talk_sp talk_lit k1 k2);
          [exact S2|reflexivity|constructor|simpl; lia]. }
      intros k3 S3. exists k3, None. split; [reflexivity|]. unfold boot_outcome. cbv zeta.
      rewrite Hf, orb_true_r. split; [reflexivity|by apply G].
    + apply (boots_bind _ _ _ k1).
      { exact (print_tables_spoken lit _ sp conv m0 talk_conv talk_sp talk_lit k1 fuel mbi (eo_info ok) k2 S2). }
      intros k3 S3. apply (starts_boots _ Hf), start_ready; [by eapply spoken_calm|].
      eapply same_system_trans; [exact Y|by eapply spoken_system].
  - apply (boots_bind _ _ _ k1).
    { apply (say_numbers lit _ sp conv m0 talk_conv talk_sp talk_lit k1 k1 _ [magic]);
        [exact S1|reflexivity|by apply Forall_singleton|simpl; lia]. }
    intros k2 S2. exists k2, None. split; [reflexivity|]. unfold boot_outcome. cbv zeta.
    rewrite (proj2 (Z.eqb_neq _ _) Hne). cbn [negb orb]. split; [reflexivity|by apply G].
Qed.
End booting.

(** C7: the kernel boots.  With the wrong magic number, or with flags 4 and 5
    both set, [entry] returns: interrupt table, page tables and interrupt masks
    are as before, and the message is at the virtual address of the video page
    and nowhere else.  Without a program "shell" no process exists.  Otherwise
    the processor enters user mode in the shell of slot 0; slots 0 to 2 hold a
    shell each, on a blank terminal of its own and in its own address space;
    exactly these are runnable, exactly the timer, keyboard and cascade lines
    are open, and all 256 vectors have their gates.  The loops over modules and
    memory map end within the fuel. *)
Theorem entry_correct `{L : Layout} `{LOk : !LayoutOk L} (junk : Z -> Z) (lit : string -> Z) (sp conv : Z)
    (ldt kernel_pd kernel_pt : Z) (h : handlers) (k : kernel) (fuel : nat) (local magic mbi : Z) :
  entry_ok lit sp conv kernel_pd kernel_pt k fuel local mbi -> 0 <= magic < 0x100000000 ->
  exists k' out,
    entry junk lit sp conv ldt kernel_pd kernel_pt h fuel k local magic mbi = Some (k', out) /\
    boot_outcome sp conv h k mbi magic k' out.
Proof. intros ok Hm. exact (entry_spec junk lit sp conv ldt kernel_pd kernel_pt h k fuel local mbi ok magic Hm). Qed.

(** * An example *)

Definition boot_lit (f : string) : Z := 0x420000 + 0x100 * literal_index f ("shell"%string :: entry_formats).

(** One module, the file system with the program "shell", and a memory map of
    one entry. *)
Definition example_start : kernel :=
  let m := store_bytes example_program 0x410040 (bytes_of "shell") in
  let m := foldl (fun m f => store_bytes m (boot_lit f) (bytes_of f ++ [0])) m ("shell"%string :: entry_formats) in
  let m := store_words m 0x430000 [0x49; 639; 64512; 0; 0; 1; 0x430100; 0; 0; 0; 0; 24; 0x430200] in
  let m := store_words m 0x430100 [0x410000; 0x414000; 0; 0] in
  let m := store_words m 0x430200 [20; 0; 0; 0x9FC00; 0; 1] in
  example_kernel (Tty m pic_boot (fun _ => Terminal (circular_buffer_init 0 1) 0 0 0 VIDEO_VIRT_ADDR) 0 1 [] 0).

Definition boot_textb (m : mem) (f : string) : bool :=
  let a := boot_lit f in
  let l := bytes_of f in
  bool_decide (load_bytes m a (length l) = l) && bool_decide (Forall (fun b => b <> 0) l) &&
  (load8 m (a + zlen l) =? 0) && (0x420000 <=? a) && (a + zlen l <? 0x430000).

Lemma boot_textb_spec m f :
  boot_textb m f = true ->
  cstr m (boot_lit f) (bytes_of f) /\
  forall x, boot_lit f <= x <= boot_lit f + zlen (bytes_of f) -> 0x420000 <= x < 0x430000.
Proof.
  unfold boot_textb. rewrite !andb_true_iff, !bool_decide_eq_true, Z.eqb_eq, Z.leb_le, Z.ltb_lt.
  intros ((((H1 & H2) & H3) & H4) & H5). split; [by split|]. intros x Hx. lia.
Qed.

Lemma boot_texts : let m := kmem example_start in forallb (boot_textb m) ("shell"%string :: entry_formats) = true.
Proof. vm_compute. reflexivity. Qed.

#[local] Abbreviation start_mem := (kmem example_start).

Lemma start_text f : In f ("shell"%string :: entry_formats) ->
  cstr start_mem (boot_lit f) (bytes_of f) /\
  forall x, boot_lit f <= x <= boot_lit f + zlen (bytes_of f) -> 0x420000 <= x < 0x430000.
Proof. intros Hf. apply boot_textb_spec. pose proof boot_texts as H. cbv zeta in H. rewrite forallb_forall in H. by apply H. Qed.

Lemma start_info : info_ok VIDEO_VIRT_ADDR 0x7FF800 0x7FF700 start_mem 3 0x430000.
Proof.
  assert (Q : forall x, 0x400000 <= x < 0x7F0000 -> quiet VIDEO_VIRT_ADDR 0x7FF800 0x7FF700 x)
    by (intros x Hx; unfold quiet, stable, VIDEO_VIRT_ADDR; lia).
  split.
  - intros x Hx. apply Q. lia.
  - intros Hf. replace (CHECK_FLAG _ 2) with false in Hf by (vm_compute; reflexivity). discriminate Hf.
  - intros _. replace (mb_mods_count start_mem 0x430000) with 1 by (vm_compute; reflexivity). lia.
  - intros _. replace (mb_mmap_addr start_mem 0x430000) with 0x430200 by (vm_compute; reflexivity).
    replace (mb_mmap_length start_mem 0x430000) with 24 by (vm_compute; reflexivity).
    cbn [map_ends]. right. split; [intros x Hx; apply Q; lia|]. left.
    replace (load32 start_mem 0x430200) with 20 by (vm_compute; reflexivity). apply Z.leb_le. reflexivity.
Qed.

Lemma start_fs : boot_fs example_start 0x430000 = Fs_ptrs 0x410000 0x411000 0x412000.
Proof. vm_compute. reflexivity. Qed.

Lemma start_image : image_end start_mem (Fs_ptrs 0x410000 0x411000 0x412000) = 0x414000.
Proof. vm_compute. reflexivity. Qed.

Lemma start_inode :
  inode_ok start_mem (Fs_ptrs 0x410000 0x411000 0x412000) 0.
Proof.
  assert (E1 : file_length start_mem (Fs_ptrs 0x410000 0x411000 0x412000) 0 = 28) by (vm_compute; reflexivity).
  split.
  - split; [lia|]. apply Z.ltb_lt. vm_compute. reflexivity.
  - rewrite E1. lia.
  - intros q Hq. rewrite E1 in Hq. assert (q = 0) as -> by lia. apply Z.ltb_lt. vm_compute. reflexivity.
Qed.

Lemma start_boot_mem :
  boot_mem (L := example_layout) (Fs_ptrs 0x410000 0x411000 0x412000) 0x7FF000 (boot_lit "shell") shell start_mem.
Proof.
  destruct (start_text "shell"%string (or_introl eq_refl)) as [Hc Ha]. split.
  - split; [reflexivity|vm_compute; reflexivity|]. vm_compute. congruence.
  - intros x Hx. rewrite start_image in Hx. cbn [fs_boot_ptr] in Hx.
    apply (example_boot_kept 0x410000 0x414000); lia.
  - exact Hc.
  - intros x Hx. pose proof (Ha x Hx). apply (example_boot_kept 0x420000 0x430000); lia.
  - split; [vm_compute; reflexivity|]. split; [|vm_compute; reflexivity].
    apply (bool_decide_unpack _). vm_compute. exact I.
  - intros x Hx. change (@elf_magic example_layout) with 0x409050 in Hx. apply (example_boot_kept 0x409050 0x409054); lia.
  - split; vm_compute; congruence.
  - reflexivity.
  - reflexivity.
  - intros d. replace (dir_lookup _ _ _) with (Some 0) by (vm_compute; reflexivity). intros [= <-].
    replace (dentry_inode_num _ _) with 0 by (vm_compute; reflexivity). exact start_inode.
Qed.

Lemma start_file : boot_file example_start 0x430000 = Some example_elf.
Proof. vm_compute. reflexivity. Qed.

Lemma start_ok :
  entry_ok (L := example_layout) boot_lit 0x7FF800 0x7FF700 0x440000 0x441000 example_start 3 0x7FF000 0x430000.
Proof.
  assert (O : forall x, 0x401000 <= x < 0x440000 -> off_tables (L := example_layout) 0x440000 0x441000 x).
  { intros x Hx. unfold off_tables. change (@vmem_pt example_layout) with 0x400000. lia. }
  split.
  - reflexivity.
  - reflexivity.
  - reflexivity.
  - lia.
  - lia.
  - unfold in_image, apart, KERNEL_PAGE_START, KERNEL_IMAGE_END. change (@vmem_pt example_layout) with 0x400000.
    split_and!; try reflexivity; lia.
  - apply Forall_forall. intros f Hf. destruct (start_text f (or_intror (proj1 (list_elem_of_In _ _) Hf))) as [Hc Ha].
    split; [exact Hc|]. intros x Hx. pose proof (Ha x Hx). split; [lia|apply O; lia].
  - exact start_info.
  - intros x Hx. replace (mb_mods_addr start_mem 0x430000) with 0x430100 in Hx by (vm_compute; reflexivity).
    unfold quiet, stable, VIDEO_VIRT_ADDR. lia.
  - rewrite start_fs. exact start_boot_mem.
  - rewrite start_fs. intros x [Hx|[Hx|Hx]].
    + rewrite start_image in Hx. cbn [fs_boot_ptr] in Hx. apply O. lia.
    + destruct (start_text "shell"%string (or_introl eq_refl)) as [_ Ha]. pose proof (Ha x Hx). apply O. lia.
    + change (@elf_magic example_layout) with 0x409050 in Hx. apply O. lia.
  - rewrite start_file. intros bytes [= <-]. right. left. vm_compute. congruence.
  - vm_compute. reflexivity.
Qed.

Lemma entry_correct_witness :
  exists k', entry (L := example_layout) (fun _ => 0) boot_lit 0x7FF800 0x7FF700 0x408200 0x440000 0x441000
               example_handlers 3 example_start 0x7FF000 MULTIBOOT_BOOTLOADER_MAGIC 0x430000
             = Some (k', Some (Enter_user PROCESS_LINK_START 0x8048094)) /\
    runnable (kmem k') 2 = true /\ runnable (kmem k') 3 = false /\ masked (kpic k') 8 = true.
Proof.
  destruct (entry_correct (LOk := example_layout_ok) (fun _ => 0) boot_lit 0x7FF800 0x7FF700 0x408200 0x440000 0x441000
              example_handlers example_start 3 0x7FF000 MULTIBOOT_BOOTLOADER_MAGIC 0x430000 start_ok)
    as (k' & out & E & O); [unfold MULTIBOOT_BOOTLOADER_MAGIC; lia|].
  exists k'. rewrite E. unfold boot_outcome in O. rewrite start_file in O. cbv zeta in O.
  replace (mb_flags _ _) with 0x49 in O by (vm_compute; reflexivity).
  change (program_entry (Some example_elf)) with 0x8048094 in O.
  destruct O as (bytes & _ & -> & [_ _ _ _ [_ R] M _]). split; [reflexivity|].
  split; [exact (R 2 ltac:(lia))|]. split; [exact (R 3 ltac:(lia))|exact (M 8 ltac:(lia))].
Defined.
