(* ===== verification/Support.v ===== *)
(** The library of the user programs, [syscalls/ece391support.c], on the memory
    of a program.

    Loops that end at a zero byte run on the fuel of the kernel's string
    routines: a memory has finitely many non-zero bytes. *)

From S2P Require Import Prelude Memory LibString.

(** * The code *)

Fixpoint ece391_strlen_loop (fuel : nat) (m : mem) (s len : Z) : Z :=
  match fuel with
  | O => len
  | S f => if load8 m s =? 0 then len else ece391_strlen_loop f m (s + 1) (len + 1)
  end.

Definition ece391_strlen (m : mem) (s : Z) : Z := ece391_strlen_loop (S (size m)) m s 0.

(** [None]: the copy overwrites the terminator before it is read. *)
Fixpoint ece391_strcpy_loop (fuel : nat) (m : mem) (dst src : Z) : option mem :=
  match fuel with
  | O => None
  | S f =>
      let c := load8 m src in
      let m := store8 m dst c in
      if c =? 0 then Some m else ece391_strcpy_loop f m (dst + 1) (src + 1)
  end.

Definition ece391_strcpy (m : mem) (dst src : Z) : option mem :=
  ece391_strcpy_loop (S (size m)) m dst src.

Fixpoint ece391_strcmp_loop (fuel : nat) (m : mem) (s1 s2 : Z) : Z :=
  match fuel with
  | O => 0
  | S f =>
      let c1 := load8 m s1 in
      let c2 := load8 m s2 in
      if c1 =? c2 then if c1 =? 0 then 0 else ece391_strcmp_loop f m (s1 + 1) (s2 + 1)
      else c1 - c2
  end.

Definition ece391_strcmp (m : mem) (s1 s2 : Z) : Z := ece391_strcmp_loop (S (size m)) m s1 s2.

(** [n] counts the positions left; the loop is entered with at least one. *)
Fixpoint ece391_strncmp_loop (n : nat) (m : mem) (s1 s2 : Z) : Z :=
  match n with
  | O => 0
  | S n' =>
      let c1 := load8 m s1 in
      let c2 := load8 m s2 in
      if c1 =? c2 then if c1 =? 0 then 0 else ece391_strncmp_loop n' m (s1 + 1) (s2 + 1)
      else c1 - c2
  end.

Definition ece391_strncmp (m : mem) (s1 s2 n : Z) : Z := ece391_strncmp_loop (Z.to_nat n) m s1 s2.

Fixpoint ece391_strrev_loop (fuel : nat) (m : mem) (s beg end_ : Z) : mem :=
  match fuel with
  | O => m
  | S f =>
      if beg <? end_ then
        let tmp := load8 m (s + end_) in
        let m := store8 m (s + end_) (load8 m (s + beg)) in
        let m := store8 m (s + beg) tmp in
        ece391_strrev_loop f m s (beg + 1) (end_ - 1)
      else m
  end.

Definition ece391_strrev (m : mem) (s : Z) : mem :=
  let end_ := ece391_strlen m s - 1 in
  if end_ <=? 0 then m else ece391_strrev_loop (Z.to_nat (end_ + 1)) m s 0 end_.

(** The digits of [lookup]. *)
Definition ece391_lookup (i : Z) : Z := if i <? 10 then 48 + i else 55 + i.

Fixpoint ece391_itoa_loop (fuel : nat) (m : mem) (newbuf newval radix : Z) : option (mem * Z) :=
  match fuel with
  | O => None
  | S f =>
      if newval >? 0 then
        let i := newval mod radix in
        ece391_itoa_loop f (store8 m newbuf (ece391_lookup i)) (newbuf + 1) (newval / radix) radix
      else Some (m, newbuf)
  end.

Definition ece391_itoa (m : mem) (value buf radix : Z) : option mem :=
  if value =? 0 then Some (store8 (store8 m buf 48) (buf + 1) 0)
  else
    '(m, newbuf) ← ece391_itoa_loop 33 m buf value radix;
    Some (ece391_strrev (store8 m newbuf 0) buf).

(** * Equivalence with the kernel's routines *)

Lemma ece391_strlen_eq m s : ece391_strlen m s = strlen m s.
Proof.
  unfold ece391_strlen, strlen. rewrite <- (Z.add_0_r s) at 1. generalize (S (size m)) as f, 0 as len.
  intros f. induction f as [|f IH]; intros len; cbn [ece391_strlen_loop strlen_loop]; [done|].
  destruct (_ =? 0); [done|]. by rewrite <- Z.add_assoc, IH.
Qed.

Lemma ece391_strcpy_eq m dst src : ece391_strcpy m dst src = strcpy m dst src.
Proof.
  unfold ece391_strcpy, strcpy. rewrite <- (Z.add_0_r dst), <- (Z.add_0_r src) at 1.
  generalize (S (size m)) as f. intros f. generalize 0 as i. revert m.
  induction f as [|f IH]; intros m i; cbn [ece391_strcpy_loop strcpy_loop]; [done|].
  destruct (Z.eqb_spec (load8 m (src + i)) 0) as [->|]; [done|]. by rewrite <- !Z.add_assoc, IH.
Qed.

Lemma ece391_strrev_eq m s : ece391_strrev m s = strrev m s.
Proof.
  unfold ece391_strrev, strrev. rewrite ece391_strlen_eq. set (len := strlen m s).
  replace (len - 1 + 1) with len by lia.
  assert (E : forall f m b e, ece391_strrev_loop f m s b e = strrev_loop f m s b e).
  { intros f. induction f as [|f IH]; intros m1 b e; cbn [ece391_strrev_loop strrev_loop]; [done|].
    destruct (b <? e); [apply IH|done]. }
  rewrite E. destruct (Z.leb_spec (len - 1) 0) as [Hl|]; [|done].
  destruct (Z.to_nat len) as [|f]; cbn [strrev_loop]; [done|]. by destruct (Z.ltb_spec 0 (len - 1)); [lia|].
Qed.

Lemma ece391_itoa_eq m value buf radix : ece391_itoa m value buf radix = itoa m value buf radix.
Proof.
  unfold ece391_itoa, itoa. destruct (value =? 0); [done|].
  assert (E : forall f m b v, ece391_itoa_loop f m b v radix = itoa_loop f m b v radix).
  { intros f. induction f as [|f IH]; intros m1 b v; cbn [ece391_itoa_loop itoa_loop]; [done|].
    destruct (v >? 0); [apply IH|done]. }
  rewrite E. destruct (itoa_loop 33 m buf value radix) as [[m1 nb]|]; [|done].
  cbn [mbind option_bind]. by rewrite ece391_strrev_eq.
Qed.

(** * Comparison *)

(** The order of two texts as unsigned bytes, the shorter first: the
    difference at the first position where they differ. *)
Fixpoint text_order (l k : list Z) : Z :=
  match l, k with
  | [], [] => 0
  | a :: _, [] => a
  | [], b :: _ => - b
  | a :: l', b :: k' => if a =? b then text_order l' k' else a - b
  end.

Lemma text_order_zero l k :
  Forall (fun b => 0 < b) l -> Forall (fun b => 0 < b) k -> text_order l k = 0 <-> l = k.
Proof.
  intros Hl. revert k. induction Hl as [|a l Ha Hl IH]; intros k Hk; destruct Hk as [|b k Hb Hk]; cbn [text_order];
    try (split; [intros; lia|done]); [done|].
  destruct (Z.eqb_spec a b) as [->|Hne].
  - rewrite (IH k Hk). split; [by intros ->|by intros [= ->]].
  - split; [lia|by intros [= -> ->]].
Qed.

Lemma ece391_strncmp_spec m s1 s2 n : ece391_strncmp m s1 s2 n = text_order (chars m s1 n) (chars m s2 n).
Proof.
  unfold ece391_strncmp, chars. generalize (Z.to_nat n). intros f. revert s1 s2.
  induction f as [|f IH]; intros s1 s2; cbn [ece391_strncmp_loop]; [done|].
  rewrite !load_bytes_S. cbn [cut]. rewrite IH.
  pose proof (load8_range m s1). pose proof (load8_range m s2).
  destruct (Z.eqb_spec (load8 m s1) (load8 m s2)) as [->|Hne].
  - destruct (_ =? 0); [done|]. cbn [text_order]. by rewrite Z.eqb_refl.
  - destruct (Z.eqb_spec (load8 m s1) 0) as [E1|], (Z.eqb_spec (load8 m s2) 0) as [E2|]; cbn [text_order]; try lia.
    destruct (Z.eqb_spec (load8 m s1) (load8 m s2)); [done|lia].
Qed.

Lemma ece391_strcmp_loop_spec f m s1 s2 l1 l2 :
  cstr m s1 l1 -> cstr m s2 l2 -> (length l1 < f)%nat ->
  ece391_strcmp_loop f m s1 s2 = text_order l1 l2.
Proof.
  revert s1 s2 l1 l2. induction f as [|f IH]; intros s1 s2 l1 l2 H1 H2 Hf; [lia|]. cbn [ece391_strcmp_loop].
  destruct H1 as (E1 & F1 & Z1), H2 as (E2 & F2 & Z2).
  destruct l1 as [|a l1], l2 as [|b l2]; cbn [length text_order] in *;
    rewrite ?load_bytes_S in *; rewrite ?Z.add_0_r in *; try injection E1 as Ea E1; try injection E2 as Eb E2;
    rewrite ?Forall_cons in *.
  - by rewrite Z1, Z2.
  - rewrite Z1, Eb. destruct (Z.eqb_spec 0 b); [by destruct F2|lia].
  - rewrite Z2, Ea. destruct (Z.eqb_spec a 0); [by destruct F1|lia].
  - rewrite Ea, Eb. destruct (Z.eqb_spec a b) as [->|]; [|done].
    destruct (Z.eqb_spec b 0); [by destruct F2|].
    apply IH; [split_and!; [done|apply F1|]|split_and!; [done|apply F2|]|lia].
    + rewrite <- Z1. f_equal. lia.
    + rewrite <- Z2. f_equal. lia.
Qed.

Lemma cstr_length_bounded m s l : cstr m s l -> (length l <= size m)%nat.
Proof. intros H. apply nonzero_run_bounded with s. intros i Hi. by apply (cstr_nonzero m s l). Qed.

Lemma cstr_positive m s l : cstr m s l -> Forall (fun b => 0 < b) l.
Proof.
  intros H. apply Forall_lookup. intros i b Hb. pose proof (lookup_lt_Some _ _ _ Hb) as Hi.
  pose proof (cstr_lookup m s l i H Hi) as E. apply list_lookup_total_correct in Hb. rewrite Hb in E.
  pose proof (load8_range m (s + Z.of_nat i)). pose proof (cstr_nonzero m s l (Z.of_nat i) H ltac:(lia)). lia.
Qed.

Lemma ece391_strcmp_spec m s1 s2 l1 l2 :
  cstr m s1 l1 -> cstr m s2 l2 -> ece391_strcmp m s1 s2 = text_order l1 l2.
Proof.
  intros H1 H2. apply ece391_strcmp_loop_spec; [done|done|].
  pose proof (cstr_length_bounded m s1 l1 H1). lia.
Qed.

(** The bytes at the first position where two texts differ, 0 standing for the
    end of a text. *)
Fixpoint first_difference (l k : list Z) : option (Z * Z) :=
  match l, k with
  | [], [] => None
  | a :: _, [] => Some (a, 0)
  | [], b :: _ => Some (0, b)
  | a :: l', b :: k' => if a =? b then first_difference l' k' else Some (a, b)
  end.

Lemma text_order_difference l k :
  text_order l k = match first_difference l k with None => 0 | Some (a, b) => a - b end.
Proof.
  revert k. induction l as [|a l IH]; intros [|b k]; cbn [text_order first_difference]; try lia.
  destruct (a =? b); [apply IH|done].
Qed.

Lemma str_order_difference l k :
  str_order l k = match first_difference l k with None => 0 | Some (a, b) => s8 a - s8 b end.
Proof.
  revert k. induction l as [|a l IH]; intros [|b k]; cbn [str_order first_difference];
    change (s8 0) with 0; try lia.
  destruct (a =? b); [apply IH|done].
Qed.

(** For 7-bit texts the two differences are the same number. *)
Lemma orders_agree l k :
  Forall (fun b => 0 < b < 128) l -> Forall (fun b => 0 < b < 128) k -> str_order l k = text_order l k.
Proof.
  assert (S : forall c, 0 < c < 128 -> s8 c = c) by (intros c Hc; unfold s8; divlia).
  intros Hl. revert k. induction Hl as [|a l Ha Hl IH]; intros k Hk; destruct Hk as [|b k Hb Hk];
    cbn [str_order text_order]; rewrite ?S by done; try done.
  destruct (a =? b); [by apply IH|done].
Qed.

(** C32: where the user library agrees with the kernel's.  [ece391_strlen] and
    [ece391_strrev] return the length and the memory the kernel's routines
    return; so does [ece391_strcpy] whenever the destination does not start
    inside the source string, where both copies end, and [ece391_itoa] in the
    bases 2 to 36, where both end.  [ece391_strncmp] and [strncmp] look at the
    same two bytes, the first ones that differ: the user routine returns their
    difference as unsigned bytes, the kernel's as signed ones.  So they are zero
    together, exactly on equal texts, and the same number on 7-bit texts, but
    not in general ([strncmp_signs]).  [ece391_strcmp], which the kernel does not
    have, orders whole strings the same way and is zero exactly on equal
    ones. *)
Theorem support_equivalent (m : mem) (a b n value radix : Z) (l1 l2 : list Z) :
  cstr m a l1 -> cstr m b l2 -> 2 <= radix <= 36 -> 0 <= value < 0x100000000 ->
  (ece391_strlen m a = zlen l1 /\ strlen m a = zlen l1) /\
  ece391_strrev m a = strrev m a /\
  (a <= b \/ b + zlen l2 < a -> exists m', ece391_strcpy m a b = Some m' /\ strcpy m a b = Some m') /\
  (exists m', ece391_itoa m value a radix = Some m' /\ itoa m value a radix = Some m') /\
  match first_difference (chars m a n) (chars m b n) with
  | None => ece391_strncmp m a b n = 0 /\ strncmp m a b n = 0
  | Some (c1, c2) => ece391_strncmp m a b n = c1 - c2 /\ strncmp m a b n = s8 c1 - s8 c2
  end /\
  (ece391_strncmp m a b n = 0 <-> chars m a n = chars m b n) /\
  (strncmp m a b n = 0 <-> chars m a n = chars m b n) /\
  (Forall (fun c => c < 128) (chars m a n ++ chars m b n) -> ece391_strncmp m a b n = strncmp m a b n) /\
  ece391_strcmp m a b = text_order l1 l2 /\ (ece391_strcmp m a b = 0 <-> l1 = l2).
Proof.
  intros H1 H2 Hr Hv. pose proof (ece391_strcmp_spec m a b l1 l2 H1 H2) as E.
  assert (P : forall s, Forall (fun b => 0 < b) (chars m s n)).
  { intros s. eapply Forall_impl; [apply chars_range|]. simpl. lia. }
  rewrite ece391_strlen_eq, (strlen_cstr m a l1 H1), ece391_strrev_eq, ece391_strcpy_eq, ece391_itoa_eq.
  rewrite strncmp_zero, ece391_strncmp_spec, strncmp_spec. split; [by split|]. split; [done|].
  split; [intros Hd; eexists; split; by apply (strcpy_spec m a b l2 H2)|]. split; [|split; [|split; [|split; [done|split]]]].
  - destruct (itoa_spec radix Hr m value a Hv) as (l & m' & _ & -> & _). by exists m'.
  - rewrite text_order_difference, str_order_difference. by destruct (first_difference _ _) as [[c1 c2]|].
  - by apply text_order_zero.
  - intros [F1 F2]%Forall_app. symmetry. apply orders_agree; [pose proof (P a) as Q|pose proof (P b) as Q];
      rewrite Forall_forall in F1, F2, Q |- *; intros x Hx; split; auto.
  - split; [exact E|]. rewrite E. apply text_order_zero; by eapply cstr_positive.
Qed.

Lemma support_equivalent_witness :
  let m := store_bytes (store_bytes ∅ 0x100 [97; 98; 0]) 0x200 [97; 99; 0] in
  ece391_strcmp m 0x100 0x200 = -1 /\ ece391_strncmp m 0x100 0x200 2 = strncmp m 0x100 0x200 2.
Proof.
  intros m. destruct (support_equivalent m 0x100 0x200 2 10 10 [97; 98] [97; 99])
    as (_ & _ & _ & _ & _ & _ & _ & N & C & _).
  - split; [reflexivity|]. split; [repeat constructor; lia|reflexivity].
  - split; [reflexivity|]. split; [repeat constructor; lia|reflexivity].
  - lia.
  - lia.
  - split; [rewrite C; reflexivity|]. apply N. apply (bool_decide_unpack _). vm_compute. exact I.
Defined.

(** Finding: above 127 the two comparisons disagree even in sign.  For the byte
    0x80 against "a" the kernel's is negative and the user library's
    positive. *)
Theorem strncmp_signs :
  let m := store_bytes (store_bytes ∅ 0x100 [128; 0]) 0x200 [97; 0] in
  strncmp m 0x100 0x200 1 = -225 /\ ece391_strncmp m 0x100 0x200 1 = 31.
Proof. vm_compute. by split. Qed.
