(* ===== verification/UserSys.v ===== *)
(** What the kernel promises to a user program.

    [UserSystem] is the program's side of the system calls, the wrappers of
    [syscalls/ece391syscall.S]: a world with the memory of the program, as the
    program addresses it, and the calls.  [UserSystemOk] states the contract in
    terms of what the program can observe: its screen, what was typed, its
    descriptors, its arguments and the files.  The programs are verified against
    the contract; the kernel implements it. *)

From S2P Require Import Prelude Memory LibString Screen LineInput Support.

(** [None]: the call never returns. *)
Class UserSystem (W : Type) := {
  umem : W -> mem;
  uset : W -> mem -> W;
  ece391_read : W -> Z -> Z -> Z -> option (W * Z);
  ece391_write : W -> Z -> Z -> Z -> option (W * Z);
  ece391_open : W -> Z -> option (W * Z);
  ece391_close : W -> Z -> option (W * Z);
  ece391_getargs : W -> Z -> Z -> option (W * Z)
}.

(** An open descriptor, and an entry of the directory. *)
Inductive handle := Reading (bytes : list Z) (pos : Z) | Listing (pos : Z) | Keyboard | Display | Clock.
Inductive on_disk := Regular (bytes : list Z) | Folder | Device.

Definition opens (e : on_disk) : handle :=
  match e with Regular bytes => Reading bytes 0 | Folder => Listing 0 | Device => Clock end.

(** [n] bytes in the page of the program. *)
Definition USER_PAGE : Z := 0x8000000.
Definition USER_PAGE_END : Z := 0x8400000.
Definition paged (a n : Z) : Prop := USER_PAGE <= a < USER_PAGE_END /\ 0 <= n /\ a + n <= USER_PAGE_END.

(** The memory of the program is the same outside [[a, a + n)]. *)
Definition untouched_but (m m' : mem) (a n : Z) : Prop :=
  forall x, USER_PAGE <= x < USER_PAGE_END -> x < a \/ a + n <= x -> load8 m' x = load8 m x.

Class UserSystemOk (W : Type) `{U : UserSystem W} := {
  healthy : W -> Prop;
  display : W -> screen;
  typed : W -> list Z;
  handles : W -> Z -> option handle;
  arguments : W -> list Z;
  disk : W -> list Z -> option on_disk;
  names : W -> list (list Z);
  (** Nothing that belongs to other processes changed. *)
  beyond : W -> W -> Prop;

  (** What no call changes. *)
  lasting (w w' : W) : Prop :=
    healthy w' /\ arguments w' = arguments w /\ (forall n, disk w' n = disk w n) /\ names w' = names w /\ beyond w w';

  us_beyond_refl w : beyond w w;
  us_beyond_trans w1 w2 w3 : beyond w1 w2 -> beyond w2 w3 -> beyond w1 w3;

  (** The program's own stores. *)
  us_mem w m : umem (uset w m) = m;
  us_set w m :
    healthy w -> (forall x, x < USER_PAGE \/ USER_PAGE_END <= x -> load8 m x = load8 (umem w) x) ->
    lasting w (uset w m) /\ display (uset w m) = display w /\ typed (uset w m) = typed w /\
    forall fd, handles (uset w m) fd = handles w fd;

  (** Writing on the terminal. *)
  us_write w fd buf n sc :
    healthy w -> handles w fd = Some Display -> paged buf n ->
    scr_puts (display w) (load_bytes (umem w) buf (Z.to_nat n)) = Some sc ->
    exists w', ece391_write w fd buf n = Some (w', n) /\ lasting w w' /\ display w' = sc /\
      typed w' = typed w /\ (forall q, handles w' q = handles w q) /\ untouched_but (umem w) (umem w') buf 0;

  (** Reading from an open file. *)
  us_read w fd buf n bytes pos :
    healthy w -> handles w fd = Some (Reading bytes pos) -> paged buf n ->
    let got := take (Z.to_nat n) (drop (Z.to_nat pos) bytes) in
    exists w', ece391_read w fd buf n = Some (w', zlen got) /\ lasting w w' /\ display w' = display w /\
      typed w' = typed w /\ load_bytes (umem w') buf (length got) = got /\
      untouched_but (umem w) (umem w') buf (zlen got) /\
      handles w' fd = Some (Reading bytes (pos + zlen got)) /\
      (forall q, q <> fd -> handles w' q = handles w q);

  (** Reading the directory. *)
  us_list w fd buf n pos :
    healthy w -> handles w fd = Some (Listing pos) -> paged buf n -> 0 < n ->
    let got := match names w !! Z.to_nat pos with
               | Some name => take (Z.to_nat n) (zero_pad 32 name)
               | None => []
               end in
    exists w', ece391_read w fd buf n = Some (w', zlen got) /\ lasting w w' /\ display w' = display w /\
      typed w' = typed w /\ load_bytes (umem w') buf (length got) = got /\
      untouched_but (umem w) (umem w') buf (zlen got) /\
      handles w' fd = Some (Listing (if bool_decide (got = []) then pos else pos + 1)) /\
      (forall q, q <> fd -> handles w' q = handles w q);

  (** Reading a complete line from the keyboard. *)
  us_line w fd buf n :
    healthy w -> handles w fd = Some Keyboard -> paged buf n -> 0 < newlines (typed w) ->
    let line := first_line (typed w) in
    zlen line <= n ->
    exists w', ece391_read w fd buf n = Some (w', zlen line) /\ lasting w w' /\ display w' = display w /\
      typed w' = drop (length line) (typed w) /\ load_bytes (umem w') buf (length line) = line /\
      untouched_but (umem w) (umem w') buf (zlen line) /\ (forall q, handles w' q = handles w q);

  (** Opening: the lowest free descriptor, if there is one and the file
      exists. *)
  us_open w a s :
    healthy w -> cstr (umem w) a s -> paged a 32 ->
    exists w' r, ece391_open w a = Some (w', r) /\ lasting w w' /\ display w' = display w /\ typed w' = typed w /\
      untouched_but (umem w) (umem w') a 0 /\
      match disk w (take 32 s) with
      | None => r = -1 /\ forall q, handles w' q = handles w q
      | Some e =>
          (r = -1 /\ (forall q, 0 <= q < 8 -> handles w q <> None) /\ (forall q, handles w' q = handles w q)) \/
          (0 <= r < 8 /\ handles w r = None /\ (forall q, 0 <= q < r -> handles w q <> None) /\
           handles w' r = Some (opens e) /\ (forall q, q <> r -> handles w' q = handles w q))
      end;

  us_close w fd h :
    healthy w -> 0 <= fd < 8 -> handles w fd = Some h -> h <> Keyboard -> h <> Display ->
    exists w', ece391_close w fd = Some (w', 0) /\ lasting w w' /\ display w' = display w /\ typed w' = typed w /\
      untouched_but (umem w) (umem w') 0 0 /\ handles w' fd = None /\
      (forall q, q <> fd -> handles w' q = handles w q);

  us_getargs w buf n :
    healthy w -> paged buf n -> zlen (arguments w) < n ->
    exists w', ece391_getargs w buf n = Some (w', 0) /\ lasting w w' /\ display w' = display w /\
      typed w' = typed w /\ cstr (umem w') buf (arguments w) /\
      untouched_but (umem w) (umem w') buf (zlen (arguments w) + 1) /\ (forall q, handles w' q = handles w q)
}.

Section interface.
Context `{US : UserSystemOk W}.

Lemma lasting_trans w1 w2 w3 : lasting w1 w2 -> lasting w2 w3 -> lasting w1 w3.
Proof.
  intros (H1 & A1 & D1 & N1 & B1) (H2 & A2 & D2 & N2 & B2).
  split_and!; [done|congruence| |congruence|by eapply us_beyond_trans]. intros n. by rewrite D2.
Qed.

Lemma lasting_refl w : healthy w -> lasting w w.
Proof. intros H. split_and!; try done. apply us_beyond_refl. Qed.
End interface.
