(* ===== verification/Programs.v ===== *)
(** User programs of [syscalls/]: [cat], [ls], [hello], [counter] and
    [testprint], over the system-call interface.

    [main] returns the exit status.  Locals are at the stack addresses [buf];
    string literals are at the addresses [lit] the linker chose.  The loops of
    [cat], [ls] and [counter] run on fuel; [None] is also the result of a call
    that never returns. *)

From Stdlib Require Import String.
From S2P Require Import Prelude Memory LibString CircularBuffer Screen LineInput Printf Console Support UserSys.

#[local] Open Scope Z_scope.
#[local] Notation "a +++ b" := (String.append a b) (at level 60, right associativity).

(** * The code *)

Section code.
Context `{U : UserSystem W} (lit : string -> Z).

Definition ece391_fdputs (w : W) (fd s : Z) : option W :=
  '(w, _) ← ece391_write w fd s (ece391_strlen (umem w) s); Some w.

(** An assignment to a byte. *)
Definition set_byte (w : W) (a v : Z) : W := uset w (store8 (umem w) a v).

(** ece391testprint.c *)
Definition testprint_main (w : W) : option (W * Z) :=
  w ← ece391_fdputs w 1 (lit ("Hello, if this ran, the program was correct. Yay!" +++ nl)%string);
  Some (w, 0).

(** ece391cat.c *)
Fixpoint cat_loop (fuel : nat) (w : W) (fd buf : Z) : option (W * Z) :=
  match fuel with
  | O => None
  | S f =>
      '(w, cnt) ← ece391_read w fd buf 1024;
      if negb (0 =? cnt) then
        if -1 =? cnt then
          w ← ece391_fdputs w 1 (lit ("file read failed" +++ nl)%string);
          Some (w, 3)
        else
          '(w, r) ← ece391_write w 1 buf cnt;
          if -1 =? r then Some (w, 3) else cat_loop f w fd buf
      else Some (w, 0)
  end.

Definition cat_main (fuel : nat) (w : W) (buf : Z) : option (W * Z) :=
  '(w, r) ← ece391_getargs w buf 1024;
  if negb (0 =? r) then
    w ← ece391_fdputs w 1 (lit ("could not read arguments" +++ nl)%string);
    Some (w, 3)
  else
    '(w, fd) ← ece391_open w buf;
    if -1 =? fd then
      w ← ece391_fdputs w 1 (lit ("file not found" +++ nl)%string);
      Some (w, 2)
    else cat_loop fuel w fd buf.

(** ece391ls.c *)
Definition SBUFSIZE : Z := 33.

Fixpoint ls_loop (fuel : nat) (w : W) (fd buf : Z) : option (W * Z) :=
  match fuel with
  | O => None
  | S f =>
      '(w, cnt) ← ece391_read w fd buf (SBUFSIZE - 1);
      if negb (0 =? cnt) then
        if -1 =? cnt then
          w ← ece391_fdputs w 1 (lit ("directory entry read failed" +++ nl)%string);
          Some (w, 3)
        else
          let w := set_byte w (buf + cnt) 10 in
          '(w, r) ← ece391_write w 1 buf (cnt + 1);
          if -1 =? r then Some (w, 3) else ls_loop f w fd buf
      else Some (w, 0)
  end.

Definition ls_main (fuel : nat) (w : W) (buf : Z) : option (W * Z) :=
  '(w, fd) ← ece391_open w (lit "."%string);
  if -1 =? fd then
    w ← ece391_fdputs w 1 (lit ("directory open failed" +++ nl)%string);
    Some (w, 2)
  else ls_loop fuel w fd buf.

(** ece391hello.c *)
Definition BUFSIZE : Z := 1024.

Definition hello_main (w : W) (buf : Z) : option (W * Z) :=
  w ← ece391_fdputs w 1 (lit "Hi, what's your name? "%string);
  '(w, cnt) ← ece391_read w 0 buf (BUFSIZE - 1);
  if -1 =? cnt then
    w ← ece391_fdputs w 1 (lit ("Can't read name from keyboard." +++ nl)%string);
    Some (w, 3)
  else
    let w := set_byte w (buf + cnt) 0 in
    w ← ece391_fdputs w 1 (lit "Hello, "%string);
    w ← ece391_fdputs w 1 buf;
    Some (w, 0).

(** ece391counter.c *)
Fixpoint counter_loop (fuel : nat) (w : W) (i max buf : Z) : option W :=
  if i <? max then
    match fuel with
    | O => None
    | S f =>
        m ← ece391_itoa (umem w) (u32 (i + 1)) buf 10;
        w ← ece391_fdputs (uset w m) 1 buf;
        w ← ece391_fdputs w 1 (lit nl);
        counter_loop f w (i + 1) max buf
    end
  else Some w.

(** The switch on the first character. *)
Definition counter_max (c : Z) : Z :=
  if c =? 48 then 100 else if c =? 49 then 10000 else if c =? 50 then 100000 else 0.

Definition counter_main (fuel : nat) (w : W) (buf : Z) : option (W * Z) :=
  w ← ece391_fdputs w 1 (lit ("Enter the Test Number: (0): 100, (1): 10000, (2): 100000" +++ nl)%string);
  '(w, cnt) ← ece391_read w 0 buf (BUFSIZE - 1);
  if -1 =? cnt then
    w ← ece391_fdputs w 1 (lit ("Can't read the number from keyboard." +++ nl)%string);
    Some (w, 3)
  else
    let w := set_byte w (buf + u32 cnt) 0 in
    let len := ece391_strlen (umem w) buf in
    let c := load8 (umem w) buf in
    if (2 <? len) || ((len =? 2) && ((c <? 48) || (50 <? c))) then
      w ← ece391_fdputs w 1 (lit ("Wrong Choice!" +++ nl)%string);
      Some (w, 0)
    else
      w ← counter_loop fuel w 0 (counter_max c) buf;
      Some (w, 0).
End code.

(** * Specifications *)

Section specs.
Context `{US : UserSystemOk W} (lit : string -> Z).

(** Nothing but the screen changed. *)
Definition quietly (w w' : W) : Prop :=
  lasting w w' /\ typed w' = typed w /\ (forall q, handles w' q = handles w q) /\
  untouched_but (umem w) (umem w') 0 0.

(** A literal of the program, apart from the buffer. *)
Definition literal (w : W) (buf n : Z) (s : string) : Prop :=
  cstr (umem w) (lit s) (bytes_of s) /\ paged (lit s) (zlen (bytes_of s) + 1) /\
  (lit s + zlen (bytes_of s) < buf \/ buf + n <= lit s).

Lemma literal_same w w' buf n s :
  untouched_but (umem w) (umem w') buf n -> literal w buf n s -> literal w' buf n s.
Proof.
  intros Hm (Hc & [Hp1 Hp2] & Ha). split; [|split; [done|exact Ha]].
  apply (cstr_ext (umem w)); [|exact Hc]. intros x Hx. apply Hm; unfold USER_PAGE, USER_PAGE_END in *; lia.
Qed.

Lemma untouched_weaken m m' a n b k :
  untouched_but m m' a n -> n = 0 \/ b <= a /\ a + n <= b + k -> untouched_but m m' b k.
Proof. intros H Hb x Hx Ho. apply H; [done|]. lia. Qed.

Lemma untouched_trans m1 m2 m3 a n : untouched_but m1 m2 a n -> untouched_but m2 m3 a n -> untouched_but m1 m3 a n.
Proof. intros H1 H2 x Hx Ho. rewrite H2 by done. by apply H1. Qed.

Lemma quietly_trans w1 w2 w3 : quietly w1 w2 -> quietly w2 w3 -> quietly w1 w3.
Proof.
  intros (L1 & T1 & H1 & M1) (L2 & T2 & H2 & M2). split; [by eapply lasting_trans|]. split; [congruence|].
  split; [intros q; by rewrite H2|by eapply untouched_trans].
Qed.

Lemma fdputs_spec w a l sc :
  healthy w -> handles w 1 = Some Display -> cstr (umem w) a l -> paged a (zlen l) ->
  scr_puts (display w) l = Some sc ->
  exists w', ece391_fdputs w 1 a = Some w' /\ quietly w w' /\ display w' = sc.
Proof.
  intros Hh Hd Hc Hp Hs. unfold ece391_fdputs. rewrite ece391_strlen_eq, (strlen_cstr _ _ _ Hc).
  destruct (us_write w 1 a (zlen l) sc Hh Hd Hp) as (w' & -> & La & D & T & H & M).
  - rewrite Nat2Z.id. destruct Hc as [-> _]. exact Hs.
  - cbn [mbind option_bind]. exists w'. split; [done|]. split; [|exact D]. split_and!; try done.
    apply (untouched_weaken _ _ a 0); [exact M|by left].
Qed.

(** * testprint *)

Lemma literal_paged w buf n s : literal w buf n s -> paged (lit s) (zlen (bytes_of s)).
Proof. intros (_ & Hp & _). unfold paged in *. lia. Qed.

Lemma fdputs_literal w buf n s sc :
  healthy w -> handles w 1 = Some Display -> literal w buf n s -> scr_puts (display w) (bytes_of s) = Some sc ->
  exists w', ece391_fdputs w 1 (lit s) = Some w' /\ quietly w w' /\ display w' = sc.
Proof. intros Hh Hd Hl Hs. apply (fdputs_spec w _ (bytes_of s)); [done|done|apply Hl|by eapply literal_paged|done]. Qed.

(** * cat *)

Lemma cat_loop_spec fuel w fd buf bytes pos sc :
  healthy w -> handles w 1 = Some Display -> fd <> 1 -> paged buf 1024 ->
  handles w fd = Some (Reading bytes pos) -> 0 <= pos <= zlen bytes ->
  scr_puts (display w) (drop (Z.to_nat pos) bytes) = Some sc -> zlen bytes - pos < Z.of_nat fuel ->
  exists w', cat_loop lit fuel w fd buf = Some (w', 0) /\ lasting w w' /\ display w' = sc /\ typed w' = typed w /\
    forall q, q <> fd -> handles w' q = handles w q.
Proof.
  revert w pos. induction fuel as [|f IH]; intros w pos Hh Hd Hfd Hp Hr Hpos Hs Hf; [lia|]. cbn [cat_loop].
  destruct (us_read w fd buf 1024 bytes pos Hh Hr Hp) as (w1 & -> & L1 & D1 & T1 & B1 & M1 & H1 & H1').
  set (got := take (Z.to_nat 1024) (drop (Z.to_nat pos) bytes)) in *. cbn [mbind option_bind].
  assert (Lg : zlen got = Z.min 1024 (zlen bytes - pos)) by (unfold got; rewrite length_take, length_drop; lia).
  destruct (Z.eqb_spec 0 (zlen got)) as [E0|E0]; cbn [negb].
  - exists w1. split; [done|]. split; [exact L1|]. split; [|by split].
    rewrite D1. rewrite drop_ge in Hs by lia. by injection Hs as ->.
  - destruct (Z.eqb_spec (-1) (zlen got)); [lia|].
    pose proof (read_split 1024 pos bytes Hpos) as Es. fold got in Es.
    rewrite Es, scr_puts_app in Hs. destruct (scr_puts (display w) got) as [sc1|] eqn:E1; [|discriminate].
    cbn [mbind option_bind] in Hs.
    pose proof (proj1 L1) as Hh1.
    assert (Pb : paged buf (zlen got)) by (unfold paged in *; lia).
    destruct (us_write w1 1 buf (zlen got) sc1 Hh1) as (w2 & -> & L2 & D2 & T2 & H2 & M2);
      [by rewrite H1' by done|exact Pb|by rewrite Nat2Z.id, B1, D1|].
    cbn [mbind option_bind]. destruct (Z.eqb_spec (-1) (zlen got)); [lia|].
    destruct (IH w2 (pos + zlen got)) as (w3 & E3 & L3 & D3 & T3 & H3).
    + apply L2.
    + rewrite H2, H1' by done. exact Hd.
    + done.
    + exact Hp.
    + by rewrite H2.
    + lia.
    + by rewrite D2.
    + lia.
    + exists w3. split; [exact E3|].
      split; [exact (lasting_trans _ _ _ (lasting_trans _ _ _ L1 L2) L3)|].
      split; [exact D3|]. split; [congruence|]. intros q Hq. rewrite H3, H2, H1' by done. done.
Qed.

Definition not_found : string := "file not found" +++ nl.

Lemma cat_spec fuel w buf :
  healthy w -> handles w 1 = Some Display -> paged buf 1024 -> (exists q, 0 <= q < 8 /\ handles w q = None) ->
  zlen (arguments w) < 1024 -> literal w buf 1024 not_found ->
  match disk w (take 32 (arguments w)) with
  | None => forall sc, scr_puts (display w) (bytes_of not_found) = Some sc ->
      exists w', cat_main lit fuel w buf = Some (w', 2) /\ lasting w w' /\ display w' = sc /\ typed w' = typed w /\
        forall q, handles w' q = handles w q
  | Some (Regular bytes) => forall sc, scr_puts (display w) bytes = Some sc -> zlen bytes < Z.of_nat fuel ->
      exists w', cat_main lit fuel w buf = Some (w', 0) /\ lasting w w' /\ display w' = sc /\ typed w' = typed w
  | Some _ => True
  end.
Proof.
  intros Hh Hd Hp (q0 & Hq0 & Hfree) Ha Hl. unfold cat_main.
  destruct (us_getargs w buf 1024 Hh Hp Ha) as (w1 & -> & L1 & D1 & T1 & C1 & M1 & H1).
  cbn [mbind option_bind]. change (negb (0 =? 0)) with false. cbv iota. pose proof L1 as (Hh1 & A1 & K1 & N1 & _).
  destruct (us_open w1 buf (arguments w) Hh1 C1) as (w2 & r & -> & L2 & D2 & T2 & M2 & R2); [unfold paged in *; lia|].
  cbn [mbind option_bind]. rewrite K1 in R2. pose proof (lasting_trans _ _ _ L1 L2) as L12.
  destruct (disk w (take 32 (arguments w))) as [[bytes| |]|]; [|exact I|exact I|].
  - intros sc Hs Hf. destruct R2 as [(_ & Hno & _)|(Hr & Hn & _ & H2 & H2')].
    { exfalso. apply (Hno q0 Hq0). by rewrite H1. }
    destruct (Z.eqb_spec (-1) r); [lia|].
    assert (Hr1 : r <> 1) by (intros ->; rewrite H1 in Hn; congruence).
    destruct (cat_loop_spec fuel w2 r buf bytes 0 sc) as (w3 & E3 & L3 & D3 & T3 & _);
      [apply L2|rewrite H2', H1 by done; exact Hd|exact Hr1|exact Hp|exact H2|lia|by rewrite D2, D1|lia|].
    exists w3. split; [exact E3|]. split; [by eapply lasting_trans|]. split; [exact D3|congruence].
  - destruct R2 as [-> H2]. intros sc Hs. change (-1 =? -1) with true. cbv iota.
    assert (Ml : untouched_but (umem w) (umem w2) buf 1024).
    { eapply untouched_trans; eapply untouched_weaken; [exact M1|right; lia|exact M2|by left]. }
    destruct (fdputs_literal w2 buf 1024 not_found sc) as (w3 & E3 & (L3 & T3 & H3 & M3) & D3);
      [apply L2|rewrite H2, H1; exact Hd|by apply (literal_same w)|by rewrite D2, D1|].
    fold not_found. rewrite E3. cbn [mbind option_bind]. exists w3. split; [done|].
    split; [by eapply lasting_trans|]. split; [exact D3|]. split; [congruence|]. intros q. by rewrite H3, H2, H1.
Qed.

(** * ls *)

(** A line of the listing. *)
Definition listed (name : list Z) : list Z := zero_pad 32 name ++ [10].

Lemma set_byte_spec w a v :
  healthy w -> USER_PAGE <= a < USER_PAGE_END -> 0 <= v < 256 ->
  let w' := set_byte w a v in
  lasting w w' /\ display w' = display w /\ typed w' = typed w /\ (forall q, handles w' q = handles w q) /\
  untouched_but (umem w) (umem w') a 1 /\ load8 (umem w') a = v.
Proof.
  intros Hh Ha Hv w'. unfold w', set_byte.
  destruct (us_set w (store8 (umem w) a v) Hh) as (L & D & T & H).
  { intros x Hx. apply load8_store8_ne. lia. }
  split; [exact L|]. split; [exact D|]. split; [exact T|]. split; [exact H|]. rewrite us_mem. split.
  - intros x _ Hx. apply load8_store8_ne. lia.
  - rewrite load8_store8_eq. by apply u8_id.
Qed.

Lemma ls_loop_spec fuel w fd buf pos sc :
  healthy w -> handles w 1 = Some Display -> fd <> 1 -> paged buf 33 ->
  handles w fd = Some (Listing pos) -> 0 <= pos <= Z.of_nat (length (names w)) ->
  Forall (fun n => (length n <= 32)%nat) (names w) ->
  scr_puts (display w) (concat (listed <$> drop (Z.to_nat pos) (names w))) = Some sc ->
  Z.of_nat (length (names w)) - pos < Z.of_nat fuel ->
  exists w', ls_loop lit fuel w fd buf = Some (w', 0) /\ lasting w w' /\ display w' = sc /\ typed w' = typed w /\
    forall q, q <> fd -> handles w' q = handles w q.
Proof.
  revert w pos. induction fuel as [|f IH]; intros w pos Hh Hd Hfd Hp Hr Hpos Hn Hs Hf; [lia|]. cbn [ls_loop].
  change (SBUFSIZE - 1) with 32. assert (Pb : paged buf 32) by (unfold paged in *; lia).
  destruct (us_list w fd buf 32 pos Hh Hr Pb ltac:(lia)) as (w1 & -> & L1 & D1 & T1 & B1 & M1 & H1 & H1').
  cbn [mbind option_bind]. destruct (names w !! Z.to_nat pos) as [name|] eqn:En.
  - assert (Hl : (length name <= 32)%nat) by (rewrite Forall_lookup in Hn; by eapply Hn).
    change (Z.to_nat 32) with 32%nat in *.
    rewrite take_ge in * by (rewrite length_zero_pad; lia). rewrite length_zero_pad in * by exact Hl.
    change (negb (0 =? Z.of_nat 32)) with true. change (-1 =? Z.of_nat 32) with false. cbv iota.
    change (Z.of_nat 32) with 32 in *. change (32 + 1) with 33.
    rewrite bool_decide_eq_false_2 in H1 by (intros E; apply (f_equal length) in E; rewrite length_zero_pad in E; simpl in E; lia).
    rewrite (drop_S _ _ _ En) in Hs. cbn [fmap list_fmap concat] in Hs. rewrite scr_puts_app in Hs.
    destruct (scr_puts (display w) (listed name)) as [sc1|] eqn:E1; [|discriminate]. cbn [mbind option_bind] in Hs.
    pose proof L1 as (Hh1 & A1 & K1 & N1 & _).
    destruct (set_byte_spec w1 (buf + 32) 10 Hh1) as (L2 & D2 & T2 & H2 & M2 & V2);
      [unfold paged in *; lia|lia|]. set (w2 := set_byte w1 (buf + 32) 10) in *.
    assert (B2 : load_bytes (umem w2) buf 33 = listed name).
    { change 33%nat with (32 + 1)%nat. rewrite load_bytes_app. unfold listed. f_equal.
      - rewrite <- B1. apply load_bytes_ext. intros x Hx. apply M2; unfold paged in *; lia.
      - rewrite load_bytes_S. cbn [load_bytes]. by rewrite <- V2. }
    destruct (us_write w2 1 buf 33 sc1) as (w3 & -> & L3 & D3 & T3 & H3 & M3);
      [apply L2|rewrite H2, H1' by done; exact Hd|exact Hp|rewrite D2, D1; change (Z.to_nat 33) with 33%nat; by rewrite B2|].
    cbn [mbind option_bind]. change (-1 =? 33) with false. cbv iota. pose proof (lasting_trans _ _ _ L1 (lasting_trans _ _ _ L2 L3)) as L13.
    pose proof L13 as (_ & _ & _ & N3 & _). pose proof (lookup_lt_Some _ _ _ En).
    destruct (IH w3 (pos + 1)) as (w4 & E4 & L4 & D4 & T4 & H4).
    + apply L13.
    + rewrite H3, H2, H1' by done. exact Hd.
    + done.
    + exact Hp.
    + rewrite H3, H2. exact H1.
    + rewrite N3. lia.
    + by rewrite N3.
    + rewrite D3, N3. replace (Z.to_nat (pos + 1)) with (S (Z.to_nat pos)) by lia. exact Hs.
    + rewrite N3. lia.
    + exists w4. split; [exact E4|]. split; [by eapply lasting_trans|]. split; [exact D4|].
      split; [congruence|]. intros q Hq. by rewrite H4, H3, H2, H1'.
  - cbn [length]. change (negb (0 =? Z.of_nat 0)) with false. cbv iota. exists w1. split; [done|].
    split; [exact L1|]. split; [|by split].
    apply lookup_ge_None in En. rewrite drop_ge in Hs by exact En. injection Hs as <-. exact D1.
Qed.

Lemma ls_spec fuel w buf sc :
  healthy w -> handles w 1 = Some Display -> paged buf 33 -> (exists q, 0 <= q < 8 /\ handles w q = None) ->
  literal w buf 33 "." -> paged (lit "."%string) 32 -> disk w (bytes_of ".") = Some Folder ->
  Forall (fun n => (length n <= 32)%nat) (names w) ->
  scr_puts (display w) (concat (listed <$> names w)) = Some sc -> (length (names w) < fuel)%nat ->
  exists w', ls_main lit fuel w buf = Some (w', 0) /\ lasting w w' /\ display w' = sc /\ typed w' = typed w.
Proof.
  intros Hh Hd Hp (q0 & Hq0 & Hfree) (Hc & _ & _) Hdot Hf Hn Hs Hfuel. unfold ls_main.
  destruct (us_open w (lit "."%string) (bytes_of ".") Hh Hc Hdot) as (w1 & r & -> & L1 & D1 & T1 & M1 & R1).
  cbn [mbind option_bind]. change (take 32 (bytes_of ".")) with (bytes_of ".") in R1. rewrite Hf in R1.
  destruct R1 as [(_ & Hno & _)|(Hr & Hfr & _ & H1 & H1')]; [by exfalso; apply (Hno q0 Hq0)|].
  destruct (Z.eqb_spec (-1) r); [lia|].
  assert (Hr1 : r <> 1) by (intros ->; congruence). pose proof L1 as (Hh1 & _ & _ & N1 & _).
  destruct (ls_loop_spec fuel w1 r buf 0 sc) as (w2 & E2 & L2 & D2 & T2 & _);
    [exact Hh1|rewrite H1' by done; exact Hd|exact Hr1|exact Hp|exact H1|lia|by rewrite N1|by rewrite D1, N1|rewrite N1; lia|].
  exists w2. split; [exact E2|]. split; [by eapply lasting_trans|]. split; [exact D2|congruence].
Qed.

(** * Programs that read a line *)

Lemma testprint_spec w buf sc :
  healthy w -> handles w 1 = Some Display ->
  literal w buf 0 ("Hello, if this ran, the program was correct. Yay!" +++ nl) ->
  scr_puts (display w) (bytes_of ("Hello, if this ran, the program was correct. Yay!" +++ nl)) = Some sc ->
  exists w', testprint_main lit w = Some (w', 0) /\ quietly w w' /\ display w' = sc.
Proof.
  intros Hh Hd Hl Hs. unfold testprint_main.
  destruct (fdputs_literal w buf 0 _ sc Hh Hd Hl Hs) as (w' & -> & Q & D). cbn [mbind option_bind]. eauto.
Qed.

(** A prompt, a line, and the zero byte behind it. *)
Lemma prompt_spec w buf prompt sc :
  healthy w -> handles w 0 = Some Keyboard -> handles w 1 = Some Display -> paged buf 1024 ->
  literal w buf 1024 prompt -> scr_puts (display w) (bytes_of prompt) = Some sc ->
  0 < newlines (typed w) -> let line := first_line (typed w) in
  zlen line < 1024 -> Forall (fun c => c <> 0) line ->
  exists w1 w2, ece391_fdputs w 1 (lit prompt) = Some w1 /\
    ece391_read w1 0 buf (BUFSIZE - 1) = Some (w2, zlen line) /\
    let w3 := set_byte w2 (buf + zlen line) 0 in
    lasting w w3 /\ display w3 = sc /\ typed w3 = drop (length line) (typed w) /\
    (forall q, handles w3 q = handles w q) /\ cstr (umem w3) buf line /\ untouched_but (umem w) (umem w3) buf 1024.
Proof.
  intros Hh Hk Hd Hp Hl Hs Hn line Hlen Hz.
  destruct (fdputs_literal w buf 1024 prompt sc Hh Hd Hl Hs) as (w1 & E1 & (L1 & T1 & H1 & M1) & D1).
  destruct (us_line w1 0 buf (BUFSIZE - 1)) as (w2 & E2 & L2 & D2 & T2 & B2 & M2 & H2);
    [apply L1|by rewrite H1|unfold paged, BUFSIZE in *; lia|by rewrite T1|rewrite T1; unfold BUFSIZE; fold line; lia|].
  rewrite T1 in E2, T2, B2, M2. fold line in E2, T2, B2, M2.
  exists w1, w2. split; [exact E1|]. split; [exact E2|]. cbv zeta.
  destruct (set_byte_spec w2 (buf + zlen line) 0) as (L3 & D3 & T3 & H3 & M3 & V3);
    [apply L2|unfold paged in *; lia|lia|]. set (w3 := set_byte w2 (buf + zlen line) 0) in *.
  split; [exact (lasting_trans _ _ _ L1 (lasting_trans _ _ _ L2 L3))|]. split; [congruence|]. split; [congruence|].
  split; [intros q; by rewrite H3, H2, H1|]. split.
  - split; [|split; [exact Hz|exact V3]]. rewrite <- B2 at 2. apply load_bytes_ext. intros x Hx.
    apply M3; unfold paged in *; lia.
  - eapply untouched_trans; [|eapply untouched_trans]; eapply untouched_weaken;
      [exact M1|by left|exact M2|right; lia|exact M3|right; lia].
Qed.

Lemma hello_spec w buf sc :
  healthy w -> handles w 0 = Some Keyboard -> handles w 1 = Some Display -> paged buf 1024 ->
  literal w buf 1024 "Hi, what's your name? " -> literal w buf 1024 "Hello, " ->
  0 < newlines (typed w) -> let line := first_line (typed w) in
  zlen line < 1024 -> Forall (fun c => c <> 0) line ->
  scr_puts (display w) (bytes_of "Hi, what's your name? " ++ bytes_of "Hello, " ++ line) = Some sc ->
  exists w', hello_main lit w buf = Some (w', 0) /\ lasting w w' /\ display w' = sc /\
    typed w' = drop (length line) (typed w).
Proof.
  intros Hh Hk Hd Hp Hl1 Hl2 Hn line Hlen Hz Hs. rewrite scr_puts_app in Hs.
  destruct (scr_puts (display w) _) as [sc1|] eqn:E1; [|discriminate]. cbn [mbind option_bind] in Hs.
  rewrite scr_puts_app in Hs. destruct (scr_puts sc1 _) as [sc2|] eqn:E2; [|discriminate]. cbn [mbind option_bind] in Hs.
  destruct (prompt_spec w buf "Hi, what's your name? " sc1 Hh Hk Hd Hp Hl1 E1 Hn Hlen Hz)
    as (w1 & w2 & F1 & F2 & L3 & D3 & T3 & H3 & C3 & M3). fold line in F2, L3, D3, T3, H3, C3, M3.
  unfold hello_main. rewrite F1. cbn [mbind option_bind]. rewrite F2. cbn [mbind option_bind].
  destruct (Z.eqb_spec (-1) (zlen line)); [lia|].
  destruct (fdputs_literal (set_byte w2 (buf + zlen line) 0) buf 1024 "Hello, " sc2)
    as (w4 & -> & (L4 & T4 & H4 & M4) & D4);
    [apply L3|by rewrite H3|by apply (literal_same w)|by rewrite D3|]. cbn [mbind option_bind].
  destruct (fdputs_spec w4 buf line sc) as (w5 & -> & (L5 & T5 & _) & D5).
  - apply L4.
  - by rewrite H4, H3.
  - apply (cstr_ext (umem (set_byte w2 (buf + zlen line) 0))); [|exact C3]. intros x Hx. apply M4; unfold paged in *; lia.
  - unfold paged in *. lia.
  - by rewrite D4.
  - cbn [mbind option_bind]. exists w5. split; [done|]. split; [|split; [exact D5|congruence]].
    exact (lasting_trans _ _ _ L3 (lasting_trans _ _ _ L4 L5)).
Qed.

(** * counter *)

(** The lines of the numbers [i + 1 .. i + n]. *)
Fixpoint count_text (n : nat) (i : Z) : list Z :=
  match n with
  | O => []
  | S n' => number 10 (i + 1) ++ [10] ++ count_text n' (i + 1)
  end.

Lemma counter_loop_spec n fuel w i max buf sc :
  (n <= fuel)%nat -> healthy w -> handles w 1 = Some Display -> paged buf 1024 -> literal w buf 1024 nl ->
  0 <= i -> i + Z.of_nat n = max -> max < 0x100000000 ->
  scr_puts (display w) (count_text n i) = Some sc ->
  exists w', counter_loop lit fuel w i max buf = Some w' /\ lasting w w' /\ display w' = sc /\ typed w' = typed w.
Proof.
  revert fuel w i. induction n as [|n IH]; intros fuel w i Hn Hh Hd Hp Hl Hi Hm Hmax Hs; cbn [count_text] in *.
  { exists w. split; [|injection Hs as <-; split; [by apply lasting_refl|done]].
    destruct fuel; cbn [counter_loop]; (destruct (Z.ltb_spec i max); [lia|done]). }
  destruct fuel as [|f]; [lia|]. cbn [counter_loop].
  destruct (Z.ltb_spec i max); [|lia]. rewrite scr_puts_app in Hs.
  destruct (scr_puts (display w) (number 10 (i + 1))) as [sc1|] eqn:E1; [|discriminate]. cbn [mbind option_bind] in Hs.
  rewrite scr_puts_app in Hs. destruct (scr_puts sc1 [10]) as [sc2|] eqn:E2; [|discriminate]. cbn [mbind option_bind] in Hs.
  rewrite u32_id by lia. rewrite ece391_itoa_eq.
  destruct (itoa_spec 10 ltac:(lia) (umem w) (i + 1) buf) as (l & m' & El & -> & Hc & Ho & Hlen & _); [lia|].
  subst l. cbn [mbind option_bind].
  destruct (us_set w m' Hh) as (L1 & D1 & T1 & H1).
  { intros x Hx. apply Ho. unfold paged in *. lia. }
  assert (M1 : untouched_but (umem w) (umem (uset w m')) buf 1024).
  { rewrite us_mem. intros x _ Hx. apply Ho. lia. }
  destruct (fdputs_spec (uset w m') buf (number 10 (i + 1)) sc1) as (w2 & -> & (L2 & T2 & H2 & M2) & D2);
    [apply L1|by rewrite H1|by rewrite us_mem|unfold paged in *; lia|by rewrite D1|]. cbn [mbind option_bind].
  assert (M12 : untouched_but (umem w) (umem w2) buf 1024)
    by (eapply untouched_trans; [exact M1|eapply untouched_weaken; [exact M2|by left]]).
  destruct (fdputs_literal w2 buf 1024 nl sc2) as (w3 & -> & (L3 & T3 & H3 & M3) & D3);
    [apply L2|by rewrite H2, H1|by apply (literal_same w)|by rewrite D2|]. cbn [mbind option_bind].
  destruct (IH f w3 (i + 1)) as (w4 & E4 & L4 & D4 & T4).
  - lia.
  - apply L3.
  - by rewrite H3, H2, H1.
  - exact Hp.
  - apply (literal_same w); [|exact Hl]. eapply untouched_trans; [exact M12|eapply untouched_weaken; [exact M3|by left]].
  - lia.
  - lia.
  - exact Hmax.
  - by rewrite D3.
  - exists w4. split; [exact E4|]. split; [|split; [exact D4|congruence]].
    exact (lasting_trans _ _ _ L1 (lasting_trans _ _ _ L2 (lasting_trans _ _ _ L3 L4))).
Qed.

(** Whether the line is no choice, and what the program prints. *)
Definition wrong_choice (line : list Z) : bool :=
  let c := hd 0 line in (2 <? zlen line) || ((zlen line =? 2) && ((c <? 48) || (50 <? c))).

(** How far each choice of the prompt counts: "0" to 100, "1" to 10000, "2" to
    100000; anything else that gets this far (an empty line) to nothing. *)
Definition choices : list (Z * nat) := [(48, Z.to_nat 100); (49, Z.to_nat 10000); (50, Z.to_nat 100000)].

Definition choice_bound (c : Z) : nat :=
  default 0%nat (snd <$> List.find (fun '(key, _) => key =? c) choices).

Definition counter_text (line : list Z) : list Z :=
  if wrong_choice line then bytes_of ("Wrong Choice!" +++ nl)
  else count_text (choice_bound (hd 0 line)) 0.

(** The code's [switch] implements the table. *)
Lemma counter_max_choice c : Z.to_nat (counter_max c) = choice_bound c.
Proof.
  unfold counter_max, choice_bound, choices. cbn [List.find]. rewrite !(Z.eqb_sym _ c).
  destruct (c =? 48); [reflexivity|]. destruct (c =? 49); [reflexivity|]. by destruct (c =? 50).
Qed.

Lemma counter_max_range c : 0 <= counter_max c <= 100000.
Proof. unfold counter_max. repeat case_match; lia. Qed.

Lemma count_text_no_backspace n i : Forall (fun c => c <> 8) (count_text n i).
Proof.
  revert i. induction n as [|n IH]; intros i; cbn [count_text]; [by apply Forall_nil|].
  apply Forall_app. split; [apply number_no_backspace; lia|]. apply Forall_app. split; [by repeat constructor|apply IH].
Qed.

Lemma counter_text_no_backspace line : Forall (fun c => c <> 8) (counter_text line).
Proof.
  unfold counter_text. destruct (wrong_choice line); [|apply count_text_no_backspace].
  apply (bool_decide_unpack _). vm_compute. exact I.
Qed.

Lemma first_line_nonempty q : 0 < newlines q -> first_line q <> [].
Proof.
  intros H E. destruct (index_of_some q H) as [k Hk]. pose proof (index_of_bound _ _ _ Hk).
  unfold first_line in E. rewrite Hk in E. apply (f_equal length) in E. rewrite length_take in E. simpl in E. lia.
Qed.

#[local] Abbreviation choice_prompt :=
  ("Enter the Test Number: (0): 100, (1): 10000, (2): 100000" +++ nl)%string.

Lemma counter_spec fuel w buf sc :
  healthy w -> handles w 0 = Some Keyboard -> handles w 1 = Some Display -> paged buf 1024 ->
  literal w buf 1024 choice_prompt -> literal w buf 1024 ("Wrong Choice!" +++ nl) -> literal w buf 1024 nl ->
  0 < newlines (typed w) -> let line := first_line (typed w) in
  zlen line < 1024 -> Forall (fun c => c <> 0) line ->
  scr_puts (display w) (bytes_of choice_prompt ++ counter_text line) = Some sc ->
  (Z.to_nat (counter_max (hd 0%Z line)) <= fuel)%nat ->
  exists w', counter_main lit fuel w buf = Some (w', 0) /\ lasting w w' /\ display w' = sc /\
    typed w' = drop (length line) (typed w).
Proof.
  intros Hh Hk Hd Hp Hl1 Hl2 Hl3 Hn line Hlen Hz Hs Hf. rewrite scr_puts_app in Hs.
  destruct (scr_puts (display w) (bytes_of choice_prompt)) as [sc1|] eqn:E1; [|discriminate].
  cbn [mbind option_bind] in Hs.
  destruct (prompt_spec w buf choice_prompt sc1 Hh Hk Hd Hp Hl1 E1 Hn Hlen Hz)
    as (w1 & w2 & F1 & F2 & L3 & D3 & T3 & H3 & C3 & M3). fold line in F2, L3, D3, T3, H3, C3, M3.
  unfold counter_main. rewrite F1. cbn [mbind option_bind]. rewrite F2. cbn [mbind option_bind].
  destruct (Z.eqb_spec (-1) (zlen line)); [lia|]. rewrite u32_id by lia.
  set (w3 := set_byte w2 (buf + zlen line) 0) in *. rewrite ece391_strlen_eq, (strlen_cstr _ _ _ C3).
  assert (Ec : load8 (umem w3) buf = hd 0 line).
  { pose proof (first_line_nonempty _ Hn) as Hne. fold line in Hne. clear -C3 Hne. destruct C3 as (E & _ & _).
    destruct line as [|c l]; [done|]. cbn [length] in E. rewrite load_bytes_S in E. by injection E as ->. }
  rewrite Ec. unfold counter_text, wrong_choice in Hs. cbv zeta in Hs. destruct (_ || _).
  - destruct (fdputs_literal w3 buf 1024 ("Wrong Choice!" +++ nl) sc) as (w4 & E4 & (L4 & T4 & _) & D4);
      [apply L3|by rewrite H3|by apply (literal_same w)|by rewrite D3|].
    rewrite E4. cbn [mbind option_bind]. exists w4. split; [done|]. split; [by eapply lasting_trans|].
    split; [exact D4|congruence].
  - pose proof (counter_max_range (hd 0 line)).
    rewrite <- counter_max_choice in Hs.
    destruct (counter_loop_spec (Z.to_nat (counter_max (hd 0 line))) fuel w3 0 (counter_max (hd 0 line)) buf sc)
      as (w4 & E4 & L4 & D4 & T4);
      [exact Hf|apply L3|by rewrite H3|exact Hp|by apply (literal_same w)|lia|lia|lia|by rewrite D3|].
    rewrite E4. cbn [mbind option_bind]. exists w4. split; [done|]. split; [by eapply lasting_trans|].
    split; [exact D4|congruence].
Qed.
End specs.
