(* ===== verification/Shell.v ===== *)
(** The shell of [syscalls/ece391shell.c], over the system-call interface
    extended by [execute].

    [ShellSystemOk] says what [execute] promises to its caller: the call
    returns when the command ends, with its status; the caller's memory,
    descriptors and files are as before, the screen and the typed characters
    are what the command left.  What a command does is the interface's
    [command].  [session] is what the user sees of the shell. *)

From Stdlib Require Import String.
From S2P Require Import Prelude Memory LibString CircularBuffer Pcb Screen LineInput Printf Console Support UserSys Programs.

#[local] Open Scope Z_scope.
#[local] Notation "a +++ b" := (String.append a b) (at level 60, right associativity).

(** [None]: the command never ends. *)
Class ShellSystem (W : Type) := {
  ece391_execute : W -> Z -> option (W * Z)
}.

(** * The code *)

Section code.
Context `{U : UserSystem W} `{X : ShellSystem W} (lit : string -> Z).

Fixpoint shell_loop (fuel : nat) (w : W) (buf : Z) : option (W * Z) :=
  match fuel with
  | O => None
  | S f =>
      w ← ece391_fdputs w 1 (lit "391OS> "%string);
      '(w, cnt) ← ece391_read w 0 buf (BUFSIZE - 1);
      if -1 =? cnt then
        w ← ece391_fdputs w 1 (lit ("read from keyboard failed" +++ nl)%string);
        Some (w, 3)
      else
        let cnt := if (0 <? cnt) && (10 =? load8 (umem w) (buf + (cnt - 1))) then cnt - 1 else cnt in
        let w := set_byte w (buf + cnt) 0 in
        if 0 =? ece391_strcmp (umem w) buf (lit "exit"%string) then Some (w, 0)
        else if 0 =? load8 (umem w) buf then shell_loop f w buf
        else
          '(w, rval) ← ece391_execute w buf;
          w ← (if -1 =? rval then ece391_fdputs w 1 (lit ("no such command" +++ nl)%string)
               else if 256 =? rval then ece391_fdputs w 1 (lit ("program terminated by exception" +++ nl)%string)
               else if negb (0 =? rval) then ece391_fdputs w 1 (lit ("program terminated abnormally" +++ nl)%string)
               else Some w);
          shell_loop f w buf
  end.

Definition shell_main (fuel : nat) (w : W) (buf : Z) : option (W * Z) :=
  w ← ece391_fdputs w 1 (lit ("Starting 391 Shell" +++ nl)%string);
  shell_loop fuel w buf.
End code.

(** * The contract of [execute] *)

Class ShellSystemOk (W : Type) `{US : UserSystemOk W} `{X : !ShellSystem W} := {
  ready : W -> Prop;
  (** The screen, the typed characters and the status when the command ends. *)
  command : W -> screen -> list Z -> list Z -> option (screen * list Z * Z);

  (** The caller's state across a call. *)
  resumed (w w' : W) : Prop :=
    healthy w' /\ ready w' /\ (forall fd, handles w' fd = handles w fd) /\ arguments w' = arguments w /\
    (forall n, disk w' n = disk w n) /\ names w' = names w /\
    (forall sc q s, command w' sc q s = command w sc q s);

  us_ready w w' : healthy w -> ready w -> lasting w w' -> (forall fd, handles w' fd = handles w fd) -> resumed w w';

  us_execute w a s sc q r :
    healthy w -> ready w -> cstr (umem w) a s -> paged a (zlen s + 1) ->
    zlen (command_name s) < 128 -> zlen (command_args s) < 128 ->
    command w (display w) (typed w) s = Some (sc, q, r) ->
    exists w', ece391_execute w a = Some (w', r) /\ resumed w w' /\ display w' = sc /\ typed w' = q /\
      untouched_but (umem w) (umem w') a 0
}.

(** * What the user sees *)

Definition result_message (r : Z) : list Z :=
  if -1 =? r then bytes_of ("no such command" +++ nl)
  else if 256 =? r then bytes_of ("program terminated by exception" +++ nl)
  else if negb (0 =? r) then bytes_of ("program terminated abnormally" +++ nl)
  else [].

(** A command the shell can pass on: no zero byte, and parts that fit. *)
Definition passable (s : list Z) : bool :=
  bool_decide (Forall (fun c => c <> 0) s) && (zlen (command_name s) <? 128) && (zlen (command_args s) <? 128) &&
  (zlen s <? 1023).

(** The session on a screen with typed characters [q]: a prompt, a line, the
    command and its result, and again, until the line "exit".  [None]: a line
    is missing, or a command does not end. *)
Fixpoint session (fuel : nat) (cmd : screen -> list Z -> list Z -> option (screen * list Z * Z))
    (sc : screen) (q : list Z) : option (screen * list Z * Z) :=
  match fuel with
  | O => None
  | S f =>
      sc ← scr_puts sc (bytes_of "391OS> ");
      let line := first_line q in
      let q := drop (length line) q in
      let s := take (length line - 1) line in
      if bool_decide (line = []) || negb (passable s) then None
      else if bool_decide (s = bytes_of "exit") then Some (sc, q, 0)
      else if bool_decide (s = []) then session f cmd sc q
      else
        '(sc, q, r) ← cmd sc q s;
        sc ← scr_puts sc (result_message r);
        session f cmd sc q
  end.

Definition shell_session (fuel : nat) (cmd : screen -> list Z -> list Z -> option (screen * list Z * Z))
    (sc : screen) (q : list Z) : option (screen * list Z * Z) :=
  sc ← scr_puts sc (bytes_of ("Starting 391 Shell" +++ nl)); session fuel cmd sc q.

Lemma session_ext fuel cmd cmd' sc q :
  (forall sc q s, cmd sc q s = cmd' sc q s) -> session fuel cmd sc q = session fuel cmd' sc q.
Proof.
  intros E. revert sc q. induction fuel as [|f IH]; intros sc q; [done|]. cbn [session].
  destruct (scr_puts sc _) as [sc1|]; [|done]. cbn [mbind option_bind]. destruct (_ || _); [done|].
  destruct (bool_decide _); [done|]. destruct (bool_decide _); [apply IH|]. rewrite E.
  destruct (cmd' _ _ _) as [[[sc2 q2] r]|]; [|done]. cbn [mbind option_bind].
  destruct (scr_puts sc2 _); [|done]. cbn [mbind option_bind]. apply IH.
Qed.

Lemma first_line_split q : first_line q <> [] -> exists s, first_line q = s ++ [10] /\ 0 < newlines q.
Proof.
  unfold first_line. destruct (index_of 10 q) as [k|] eqn:E; [|done]. intros _.
  pose proof (index_of_bound _ _ _ E). destruct (index_of_newline q k E) as (N & L & _).
  replace (Z.to_nat (k + 1)) with (S (Z.to_nat k)) by lia. rewrite (take_S_r _ _ _ L). eexists. split; [reflexivity|].
  unfold newlines in *. rewrite <- (take_drop (Z.to_nat (k + 1)) q), filter_app, length_app. lia.
Qed.

(** * The specification *)

Section specs.
Context `{SS : ShellSystemOk W} (lit : string -> Z) (buf : Z).

(** The literals of the shell. *)
Definition shell_texts : list string :=
  ["Starting 391 Shell" +++ nl; "391OS> "; "exit"; "no such command" +++ nl;
   "program terminated by exception" +++ nl; "program terminated abnormally" +++ nl]%string.

Definition shell_literals (w : W) : Prop := Forall (literal lit w buf 1024) shell_texts.

Lemma shell_literals_same w w' :
  untouched_but (umem w) (umem w') buf 1024 -> shell_literals w -> shell_literals w'.
Proof. intros M H. eapply Forall_impl; [exact H|]. intros s. by apply literal_same. Qed.

Lemma shell_literal w s : shell_literals w -> s ∈ shell_texts -> literal lit w buf 1024 s.
Proof. unfold shell_literals. rewrite Forall_forall. auto. Qed.

Lemma resumed_trans w1 w2 w3 : resumed w1 w2 -> resumed w2 w3 -> resumed w1 w3.
Proof.
  intros (A1 & A2 & A3 & A4 & A5 & A6 & A7) (B1 & B2 & B3 & B4 & B5 & B6 & B7).
  split_and!; try done; try congruence; intros; by rewrite ?B3, ?B5, ?B7.
Qed.

(** A line of output. *)
Lemma shell_puts w s sc :
  healthy w -> ready w -> handles w 1 = Some Display -> shell_literals w -> s ∈ shell_texts ->
  scr_puts (display w) (bytes_of s) = Some sc ->
  exists w', ece391_fdputs w 1 (lit s) = Some w' /\ resumed w w' /\ display w' = sc /\ typed w' = typed w /\
    shell_literals w'.
Proof.
  intros Hh Hr Hd Hl Hs Hp.
  destruct (fdputs_literal lit w buf 1024 s sc Hh Hd (shell_literal w s Hl Hs) Hp) as (w' & E & (La & T & H & M) & D).
  exists w'. split; [exact E|]. split; [by apply us_ready|]. split; [exact D|]. split; [exact T|].
  apply (shell_literals_same w); [|exact Hl]. eapply untouched_weaken; [exact M|by left].
Qed.

(** The message about the result of a command. *)
Lemma shell_report w r sc :
  healthy w -> ready w -> handles w 1 = Some Display -> shell_literals w ->
  scr_puts (display w) (result_message r) = Some sc ->
  exists w', (if -1 =? r then ece391_fdputs w 1 (lit ("no such command" +++ nl)%string)
              else if 256 =? r then ece391_fdputs w 1 (lit ("program terminated by exception" +++ nl)%string)
              else if negb (0 =? r) then ece391_fdputs w 1 (lit ("program terminated abnormally" +++ nl)%string)
              else Some w) = Some w' /\
    resumed w w' /\ display w' = sc /\ typed w' = typed w /\ shell_literals w'.
Proof.
  intros Hh Hr Hd Hl. unfold result_message.
  destruct (-1 =? r); [apply shell_puts; try done; unfold shell_texts; set_solver|].
  destruct (256 =? r); [apply shell_puts; try done; unfold shell_texts; set_solver|].
  destruct (negb (0 =? r)); [apply shell_puts; try done; unfold shell_texts; set_solver|].
  intros [= <-]. exists w. split; [done|]. split; [|done]. split_and!; done.
Qed.

(** Reading a line and ending it with a zero byte. *)
Lemma shell_line w s :
  healthy w -> ready w -> handles w 0 = Some Keyboard -> shell_literals w -> paged buf 1024 ->
  first_line (typed w) = s ++ [10] -> 0 < newlines (typed w) -> zlen s < 1023 -> Forall (fun c => c <> 0) s ->
  exists w1, ece391_read w 0 buf (BUFSIZE - 1) = Some (w1, zlen s + 1) /\
    load8 (umem w1) (buf + zlen s) = 10 /\
    let w2 := set_byte w1 (buf + zlen s) 0 in
    resumed w w2 /\ display w2 = display w /\ typed w2 = drop (length s + 1) (typed w) /\
    cstr (umem w2) buf s /\ shell_literals w2.
Proof.
  intros Hh Hr Hk Hl Hp El Hn Hs Hz. change (BUFSIZE - 1) with 1023.
  destruct (us_line w 0 buf 1023 Hh Hk) as (w1 & E & La & D & T & B & M & H);
    [unfold paged in *; lia|exact Hn|rewrite El, length_app; simpl; lia|].
  rewrite El, length_app in *. cbn [length] in *.
  exists w1. split; [rewrite E; do 2 f_equal; lia|].
  rewrite load_bytes_app in B. apply app_inj_1 in B as [B1 B2]; [|by rewrite length_load_bytes].
  rewrite load_bytes_S in B2. split; [by injection B2|]. cbv zeta.
  destruct (set_byte_spec w1 (buf + zlen s) 0) as (L2 & D2 & T2 & H2 & M2 & V2); [apply La|unfold paged in *; lia|lia|].
  set (w2 := set_byte w1 (buf + zlen s) 0) in *. split; [|split; [|split; [|split]]].
  - apply us_ready; [done|done|by eapply lasting_trans|]. intros fd. by rewrite H2.
  - congruence.
  - congruence.
  - split; [|by split]. rewrite <- B1 at 2. apply load_bytes_ext. intros x Hx. apply M2; unfold paged in *; lia.
  - apply (shell_literals_same w); [|exact Hl]. eapply untouched_trans; eapply untouched_weaken;
      [exact M|right; lia|exact M2|right; lia].
Qed.

Lemma shell_loop_spec fuel w sc q r :
  healthy w -> ready w -> handles w 0 = Some Keyboard -> handles w 1 = Some Display -> paged buf 1024 ->
  shell_literals w -> session fuel (command w) (display w) (typed w) = Some (sc, q, r) ->
  exists w', shell_loop lit fuel w buf = Some (w', r) /\ resumed w w' /\ display w' = sc /\ typed w' = q.
Proof.
  revert w. induction fuel as [|f IH]; intros w Hh Hr Hk Hd Hp Hl Hs; [done|]. cbn [session shell_loop] in *.
  destruct (scr_puts (display w) (bytes_of "391OS> ")) as [sc1|] eqn:E1; [|discriminate]. cbn [mbind option_bind] in Hs.
  destruct (shell_puts w "391OS> " sc1) as (w1 & -> & R1 & D1 & T1 & L1); [done..|unfold shell_texts; set_solver|done|].
  cbn [mbind option_bind]. pose proof R1 as (Hh1 & Hr1 & H1 & _ & _ & _ & C1).
  destruct (bool_decide_reflect (first_line (typed w) = [])) as [|Hne]; [discriminate|]. cbn [orb] in Hs.
  destruct (first_line_split (typed w) Hne) as (s & El & Hn). rewrite El, length_app in Hs. cbn [length] in Hs.
  replace (length s + 1 - 1)%nat with (length s) in Hs by lia. rewrite take_app_length in Hs.
  destruct (passable s) eqn:Ep; [|discriminate]. cbn [negb] in Hs.
  unfold passable in Ep. rewrite !andb_true_iff, bool_decide_eq_true, !Z.ltb_lt in Ep. destruct Ep as (((Hz & Hna) & Har) & Hsh).
  destruct (shell_line w1 s) as (w2 & -> & V2 & R2 & D2 & T2 & Cs & L3);
    [done|done|by rewrite H1|done|done|by rewrite T1|by rewrite T1|done|done|].
  cbn [mbind option_bind]. destruct (Z.eqb_spec (-1) (zlen s + 1)); [lia|].
  replace (buf + (zlen s + 1 - 1)) with (buf + zlen s) by lia. rewrite V2.
  replace (0 <? zlen s + 1) with true by (symmetry; apply Z.ltb_lt; lia).
  change (true && (10 =? 10)) with true. cbv iota. replace (zlen s + 1 - 1) with (zlen s) by lia. cbv zeta.
  set (w3 := set_byte w2 (buf + zlen s) 0) in *. pose proof R2 as (Hh3 & Hr3 & H3 & _ & _ & _ & C3).
  pose proof (resumed_trans _ _ _ R1 R2) as R13. rewrite D1 in D2. rewrite T1 in T2.
  pose proof (shell_literal w3 "exit" L3 ltac:(unfold shell_texts; set_solver)) as (Ce & _ & _).
  rewrite (ece391_strcmp_spec _ _ _ s (bytes_of "exit") Cs Ce).
  pose proof (text_order_zero s (bytes_of "exit") ltac:(by eapply cstr_positive) ltac:(by eapply cstr_positive)) as Tz.
  assert (H13 : forall fd, handles w3 fd = handles w fd) by (intros fd; by rewrite H3, H1).
  destruct (bool_decide_reflect (s = bytes_of "exit")) as [Ee|Ee].
  { destruct (Z.eqb_spec 0 (text_order s (bytes_of "exit"))) as [_|N]; [|by rewrite (proj2 Tz Ee) in N].
    injection Hs as <- <- <-. exists w3. split; [done|]. split; [exact R13|]. by split. }
  destruct (Z.eqb_spec 0 (text_order s (bytes_of "exit"))) as [N|_]; [by rewrite (proj1 Tz (eq_sym N)) in Ee|].
  destruct (bool_decide_reflect (s = [])) as [->|Hs0].
  { destruct Cs as (_ & _ & V). cbn [length] in V. rewrite Z.add_0_r in V.
    rewrite V. change (0 =? 0) with true. cbv iota. destruct (IH w3) as (w' & E & R' & D' & T'); try done; try by rewrite H13.
    - rewrite <- Hs, D2, T2. apply session_ext. intros. rewrite C3, C1. done.
    - exists w'. split; [exact E|]. split; [by eapply resumed_trans|]. by split. }
  destruct (Z.eqb_spec 0 (load8 (umem w3) buf)) as [N|_].
  { exfalso. destruct s as [|c s']; [done|]. rewrite <- (Z.add_0_r buf) in N. symmetry in N. revert N.
    apply (cstr_nonzero _ _ _ 0 Cs). simpl. lia. }
  destruct (command w sc1 (drop (length s + 1) (typed w)) s) as [[[sc2 q2] r2]|] eqn:Ec; [|discriminate].
  cbn [mbind option_bind] in Hs. destruct (scr_puts sc2 (result_message r2)) as [sc4|] eqn:E4; [|discriminate].
  cbn [mbind option_bind] in Hs.
  destruct (us_execute w3 buf s sc2 q2 r2) as (w4 & -> & R4 & D4 & T4 & M4);
    [done|done|done|unfold paged in *; lia|done|done|by rewrite C3, C1, D2, T2|].
  cbn [mbind option_bind]. pose proof R4 as (Hh4 & Hr4 & H4 & _ & _ & _ & C4).
  destruct (shell_report w4 r2 sc4) as (w5 & -> & R5 & D5 & T5 & L5); [done|done|by rewrite H4, H13| |by rewrite D4|].
  { apply (shell_literals_same w3); [|exact L3]. eapply untouched_weaken; [exact M4|by left]. }
  cbn [mbind option_bind]. pose proof R5 as (Hh5 & Hr5 & H5 & _ & _ & _ & C5).
  destruct (IH w5) as (w' & E & R' & D' & T'); try done; try by rewrite H5, H4, H13.
  - rewrite <- Hs, D5, T5, T4. apply session_ext. intros. rewrite C5, C4, C3, C1. done.
  - exists w'. split; [exact E|]. split; [|by split].
    exact (resumed_trans _ _ _ R13 (resumed_trans _ _ _ R4 (resumed_trans _ _ _ R5 R'))).
Qed.

Lemma shell_spec fuel w sc q r :
  healthy w -> ready w -> handles w 0 = Some Keyboard -> handles w 1 = Some Display -> paged buf 1024 ->
  shell_literals w -> shell_session fuel (command w) (display w) (typed w) = Some (sc, q, r) ->
  exists w', shell_main lit fuel w buf = Some (w', r) /\ resumed w w' /\ display w' = sc /\ typed w' = q.
Proof.
  intros Hh Hr Hk Hd Hp Hl Hs. unfold shell_session, shell_main in *.
  destruct (scr_puts (display w) _) as [sc1|] eqn:E1; [|discriminate]. cbn [mbind option_bind] in Hs.
  destruct (shell_puts w ("Starting 391 Shell" +++ nl) sc1) as (w1 & -> & R1 & D1 & T1 & L1);
    [done..|unfold shell_texts; set_solver|done|].
  cbn [mbind option_bind]. pose proof R1 as (Hh1 & Hr1 & H1 & _ & _ & _ & C1).
  destruct (shell_loop_spec fuel w1 sc q r) as (w' & E & R & D & T); try done; try by rewrite H1.
  - rewrite <- Hs, D1, T1. apply session_ext. done.
  - exists w'. split; [exact E|]. split; [by eapply resumed_trans|]. by split.
Qed.
End specs.
