(* ===== verification/SysErr.v ===== *)
(** The tests of error behaviour in [syscalls/ece391syserr.c]: wrong
    descriptors, too many open files, wrong names, pointers and call numbers.

    [ErrorSystemOk] is the contract of refused calls: -1, and nothing changes.
    Against it every test passes. *)

From Stdlib Require Import String.
From S2P Require Import Prelude Memory LibString CircularBuffer Screen LineInput Printf Console Support UserSys Programs.

#[local] Open Scope Z_scope.
#[local] Notation "a +++ b" := (String.append a b) (at level 60, right associativity).

(** [vidmap], and a call with any number in the register. *)
Class ErrorSystem (W : Type) := {
  ece391_vidmap : W -> Z -> option (W * Z);
  call_sys : W -> Z -> option (W * Z)
}.

(** * The code *)

Definition NEG_FD : Z := -1073741823.
Definition BIG_FD : Z := 1073741823.
Definition BIG_NUM : Z := 1073741823.
Definition NEG_NUM : Z := -1073741823.

Section code.
Context `{U : UserSystem W} `{X : ErrorSystem W} (lit : string -> Z).

Definition puts1 (w : W) (s : string) : option W := ece391_fdputs w 1 (lit s).

(** [if (-1 != call) { fail = 2; ece391_fdputs (1, text); }] *)
Definition expect (fail : Z) (call : option (W * Z)) (text : string) : option (W * Z) :=
  '(w, r) ← call;
  if negb (-1 =? r) then w ← puts1 w text; Some (w, 2) else Some (w, fail).

(** [if (fail) ... FAIL ... else ... PASS ...; return fail;] *)
Definition report (w : W) (fail : Z) (name : string) : option (W * Z) :=
  w ← (if negb (fail =? 0) then puts1 w (name +++ ": FAIL" +++ nl) else puts1 w (name +++ ": PASS" +++ nl));
  Some (w, fail).

Definition err_neg_fd (w : W) (buf : Z) : option (W * Z) :=
  '(w, fail) ← expect 0 (ece391_read w NEG_FD buf 31) ("read fail" +++ nl);
  '(w, fail) ← expect fail (ece391_write w NEG_FD buf 31) ("write fail" +++ nl);
  '(w, fail) ← expect fail (ece391_close w NEG_FD) ("close fail" +++ nl);
  report w fail "err_neg_fd".

Definition err_big_fd (w : W) (buf : Z) : option (W * Z) :=
  '(w, fail) ← expect 0 (ece391_read w BIG_FD buf 31) ("read fail" +++ nl);
  '(w, fail) ← expect fail (ece391_write w BIG_FD buf 31) ("write fail" +++ nl);
  '(w, fail) ← expect fail (ece391_close w BIG_FD) ("close fail" +++ nl);
  report w fail "err_big_fd".

(** [for (i = 0; i < 7; i++)]: how many opens failed. *)
Fixpoint open_lots (n : nat) (w : W) (cnt : Z) : option (W * Z) :=
  match n with
  | O => Some (w, cnt)
  | S n' =>
      '(w, r) ← ece391_open w (lit "."%string);
      open_lots n' w (if -1 =? r then cnt + 1 else cnt)
  end.

(** [for (i = 2; i < 8; i++) ece391_close(i);] *)
Fixpoint close_lots (n : nat) (w : W) (i : Z) : option W :=
  match n with
  | O => Some w
  | S n' => '(w, _) ← ece391_close w i; close_lots n' w (i + 1)
  end.

Definition err_open_lots (w : W) : option (W * Z) :=
  '(w, cnt) ← open_lots 7 w 0;
  w ← close_lots 6 w 2;
  if cnt =? 1 then w ← puts1 w ("err_open_lots: PASS" +++ nl); Some (w, 0)
  else w ← puts1 w ("err_open_lots: FAIL" +++ nl); Some (w, 2).

Definition err_open (w : W) : option (W * Z) :=
  '(w, fail) ← expect 0 (ece391_open w (lit "helloo"%string)) ("'helloo' fail" +++ nl);
  '(w, fail) ← expect fail (ece391_open w (lit "shel"%string)) ("'shel' fail" +++ nl);
  '(w, fail) ← expect fail (ece391_open w (lit ""%string)) ("empty string fail" +++ nl);
  report w fail "err_open".

(** A loop over descriptors [i], [i + 1], ... *)
Fixpoint expect_loop (n : nat) (w : W) (fail i : Z) (call : W -> Z -> option (W * Z)) (text : string) :
    option (W * Z) :=
  match n with
  | O => Some (w, fail)
  | S n' => '(w, fail) ← expect fail (call w i) text; expect_loop n' w fail (i + 1) call text
  end.

Definition err_unopened (w : W) (buf : Z) : option (W * Z) :=
  '(w, fail) ← expect_loop 8 w 0 0 (fun w i => ece391_close w i) ("close unopened or invalid fd fail" +++ nl);
  '(w, fail) ← expect_loop 6 w fail 2 (fun w i => ece391_read w i buf 31) ("read from unopened fd fail" +++ nl);
  '(w, fail) ← expect_loop 6 w fail 2 (fun w i => ece391_write w i buf 31) ("write to unopened fd fail" +++ nl);
  report w fail "err_unopened".

Definition err_vidmap (w : W) : option (W * Z) :=
  '(w, fail) ← expect 0 (ece391_vidmap w 0) ("Null pointer fail" +++ nl);
  '(w, fail) ← expect fail (ece391_vidmap w 0x400000) ("Kernel pointer fail fail" +++ nl);
  report w fail "err_vidmap".

Definition err_stdin_out (w : W) (buf : Z) : option (W * Z) :=
  '(w, fail) ← expect 0 (ece391_write w 0 buf 31) ("write to stdin fail" +++ nl);
  '(w, fail) ← expect fail (ece391_read w 1 buf 31) ("read from stdout fail" +++ nl);
  report w fail "err_stdin_out".

Definition err_syscall_num (w : W) : option (W * Z) :=
  '(w, fail) ← expect 0 (call_sys w BIG_NUM) ("syscall 0 fail" +++ nl);
  '(w, fail) ← expect fail (call_sys w NEG_NUM) ("big num syscall fail" +++ nl);
  '(w, fail) ← expect fail (call_sys w 0) ("neg num syscall fail" +++ nl);
  report w fail "err_syscall_num".

(** [fail += test();] *)
Definition add_result (fail : Z) (test : option (W * Z)) : option (W * Z) :=
  '(w, r) ← test; Some (w, fail + r).

(** [buf] is the local of [main], [tbuf] that of the test that runs. *)
Definition syserr_main (w : W) (buf tbuf : Z) : option (W * Z) :=
  w ← puts1 w "Choose from tests 1-8. 0 to run all: ";
  '(w, cnt) ← ece391_read w 0 buf 127;
  if -1 =? cnt then w ← puts1 w ("Can't read test #" +++ nl); Some (w, 2)
  else
    let select := load8 (umem w) buf - 48 in
    if select =? 0 then
      '(w, fail) ← add_result 0 (err_neg_fd w tbuf);
      '(w, fail) ← add_result fail (err_big_fd w tbuf);
      '(w, fail) ← add_result fail (err_open_lots w);
      '(w, fail) ← add_result fail (err_open w);
      '(w, fail) ← add_result fail (err_unopened w tbuf);
      '(w, fail) ← add_result fail (err_vidmap w);
      '(w, fail) ← add_result fail (err_stdin_out w tbuf);
      '(w, fail) ← add_result fail (err_syscall_num w);
      w ← (if negb (fail =? 0) then puts1 w (nl +++ "Overall Tests: FAIL" +++ nl)
           else puts1 w (nl +++ "Overall Tests: PASS" +++ nl));
      Some (w, fail)
    else if select =? 1 then err_neg_fd w tbuf
    else if select =? 2 then err_big_fd w tbuf
    else if select =? 3 then err_open_lots w
    else if select =? 4 then err_open w
    else if select =? 5 then err_unopened w tbuf
    else if select =? 6 then err_vidmap w
    else if select =? 7 then err_stdin_out w tbuf
    else if select =? 8 then err_syscall_num w
    else w ← puts1 w "Invalid test number. Choose from tests 1-8 or 0"; Some (w, 0).
End code.

(** * The contract of refused calls *)

Class ErrorSystemOk (W : Type) `{US : UserSystemOk W} `{X : !ErrorSystem W} := {
  (** Nothing changed. *)
  refused (w w' : W) : Prop := quietly w w' /\ display w' = display w;

  us_bad_read w fd buf n :
    healthy w -> paged buf n -> handles w fd = None \/ handles w fd = Some Display ->
    exists w', ece391_read w fd buf n = Some (w', -1) /\ refused w w';
  us_bad_write w fd buf n :
    healthy w -> paged buf n -> handles w fd = None \/ handles w fd = Some Keyboard ->
    exists w', ece391_write w fd buf n = Some (w', -1) /\ refused w w';
  us_bad_close w fd :
    healthy w -> handles w fd = None \/ handles w fd = Some Keyboard \/ handles w fd = Some Display ->
    exists w', ece391_close w fd = Some (w', -1) /\ refused w w';
  us_bad_vidmap w a :
    healthy w -> 0 <= a < USER_PAGE -> exists w', ece391_vidmap w a = Some (w', -1) /\ refused w w';
  us_bad_call w n :
    healthy w -> - 0x80000000 <= n < 0x80000000 -> n < 1 \/ 10 < n ->
    exists w', call_sys w n = Some (w', -1) /\ refused w w'
}.

(** * The specification *)

Definition test_names : list string :=
  ["err_neg_fd"; "err_big_fd"; "err_open_lots"; "err_open"; "err_unopened"; "err_vidmap"; "err_stdin_out"; "err_syscall_num"]%string.
Definition passed (name : string) : string := name +++ ": PASS" +++ nl.
Definition all_passed : string := nl +++ "Overall Tests: PASS" +++ nl.
Definition syserr_prompt : string := "Choose from tests 1-8. 0 to run all: ".
Definition syserr_invalid : string := "Invalid test number. Choose from tests 1-8 or 0".

(** What is printed after the first character of the line. *)
Definition syserr_text (c : Z) : list Z :=
  if c =? 48 then concat ((fun n => bytes_of (passed n)) <$> test_names) ++ bytes_of all_passed
  else match test_names !! Z.to_nat (c - 49) with
       | Some n => if 49 <=? c then bytes_of (passed n) else bytes_of syserr_invalid
       | None => bytes_of syserr_invalid
       end.

Section specs.
Context `{ES : ErrorSystemOk W} (lit : string -> Z) (buf tbuf : Z).

(** The texts of passing runs, and the names that are opened. *)
Definition syserr_texts : list string := syserr_prompt :: syserr_invalid :: all_passed :: (passed <$> test_names).
Definition syserr_files : list string := ["."; "helloo"; "shel"; ""]%string.

Record tested (w : W) : Prop := {
  te_healthy : healthy w;
  te_stdin : handles w 0 = Some Keyboard;
  te_stdout : handles w 1 = Some Display;
  te_rest : forall fd, fd <> 0 -> fd <> 1 -> handles w fd = None;
  te_dot : disk w (bytes_of ".") = Some Folder;
  te_absent : Forall (fun f => disk w (bytes_of f) = None) ["helloo"; "shel"; ""]%string;
  te_texts : Forall (literal lit w buf 128) syserr_texts;
  te_files : Forall (fun f => literal lit w buf 128 f /\ paged (lit f) 32) syserr_files
}.

Lemma refused_refl w : healthy w -> refused w w.
Proof. intros H. split; [|done]. split_and!; try done. by apply lasting_refl. Qed.

Lemma refused_trans w1 w2 w3 : refused w1 w2 -> refused w2 w3 -> refused w1 w3.
Proof. intros [Q1 D1] [Q2 D2]. split; [by eapply quietly_trans|congruence]. Qed.

(** The tests keep their precondition. *)
Lemma tested_keep w w' :
  tested w -> lasting w w' -> (forall fd, handles w' fd = handles w fd) -> untouched_but (umem w) (umem w') buf 128 ->
  tested w'.
Proof.
  intros [Hh Hk Hd Hr Hf Ha Ht Hn] (Hh' & _ & D & _) H M. split.
  - done.
  - by rewrite H.
  - by rewrite H.
  - intros fd. rewrite H. apply Hr.
  - by rewrite D.
  - eapply Forall_impl; [exact Ha|]. intros f. simpl. by rewrite D.
  - eapply Forall_impl; [exact Ht|]. intros f. by apply literal_same.
  - eapply Forall_impl; [exact Hn|]. intros f [Hl Hp]. split; [by eapply literal_same|done].
Qed.

Lemma tested_quietly w w' : tested w -> quietly w w' -> tested w'.
Proof. intros T (L & _ & H & M). apply (tested_keep w); try done. eapply untouched_weaken; [exact M|by left]. Qed.

Lemma puts1_spec w s sc :
  tested w -> s ∈ syserr_texts -> scr_puts (display w) (bytes_of s) = Some sc ->
  exists w', puts1 lit w s = Some w' /\ quietly w w' /\ display w' = sc.
Proof.
  intros T Hs. pose proof (te_texts w T) as Ht. rewrite Forall_forall in Ht.
  apply (fdputs_literal lit w buf 128 s sc (te_healthy w T) (te_stdout w T) (Ht s Hs)).
Qed.

Lemma expect_spec w fail call text :
  (exists w', call = Some (w', -1) /\ refused w w') ->
  exists w', expect lit fail call text = Some (w', fail) /\ refused w w'.
Proof. intros (w' & -> & R). unfold expect. cbn [mbind option_bind]. eauto. Qed.

Lemma expect_loop_spec n w fail i call text :
  tested w ->
  (forall w fd, tested w -> i <= fd < i + Z.of_nat n -> exists w', call w fd = Some (w', -1) /\ refused w w') ->
  exists w', expect_loop lit n w fail i call text = Some (w', fail) /\ refused w w'.
Proof.
  revert w i. induction n as [|n IH]; intros w i T Hc; cbn [expect_loop].
  { exists w. split; [done|]. apply refused_refl, T. }
  destruct (expect_spec w fail (call w i) text) as (w1 & -> & R1); [apply Hc; [done|lia]|]. cbn [mbind option_bind].
  destruct (IH w1 (i + 1)) as (w2 & -> & R2).
  - apply (tested_quietly w); [done|apply R1].
  - intros w' fd T' Hfd. apply Hc; [done|lia].
  - exists w2. split; [done|]. by eapply refused_trans.
Qed.

Lemma report_spec w name sc :
  tested w -> name ∈ test_names -> scr_puts (display w) (bytes_of (passed name)) = Some sc ->
  exists w', report lit w 0 name = Some (w', 0) /\ quietly w w' /\ display w' = sc.
Proof.
  intros T Hn Hs. unfold report. change (negb (0 =? 0)) with false. cbv iota.
  destruct (puts1_spec w (passed name) sc T) as (w' & E & Q & D); [|done|].
  { unfold syserr_texts. do 3 apply list_elem_of_further. by apply list_elem_of_fmap_2. }
  unfold passed in E. rewrite E. cbn [mbind option_bind]. eauto.
Qed.

(** What a passing test does. *)
Definition passes (w : W) (test : option (W * Z)) (name : string) : Prop :=
  forall sc, scr_puts (display w) (bytes_of (passed name)) = Some sc ->
  exists w', test = Some (w', 0) /\ quietly w w' /\ display w' = sc.

(** A test is a refused part and the report. *)
Lemma passes_report w w1 name :
  tested w -> refused w w1 -> name ∈ test_names -> passes w (report lit w1 0 name) name.
Proof.
  intros T [Q D] Hn sc Hs. destruct (report_spec w1 name sc) as (w' & E & Q' & D');
    [by apply (tested_quietly w)|done|by rewrite D|]. exists w'. split; [done|]. split; [by eapply quietly_trans|done].
Qed.

Hypothesis (Htbuf : paged tbuf 32).

Lemma tbuf_31 : paged tbuf 31.
Proof. unfold paged in *. lia. Qed.

(** The next refused call after a refused part. *)
Lemma next_refused w w1 fail call text :
  tested w -> refused w w1 ->
  (tested w1 -> exists w2, call = Some (w2, -1) /\ refused w1 w2) ->
  exists w2, expect lit fail call text = Some (w2, fail) /\ refused w w2.
Proof.
  intros T R H. destruct (expect_spec w1 fail call text) as (w2 & E & R2);
    [exact (H (tested_quietly w w1 T (proj1 R)))|]. exists w2. split; [done|]. by eapply refused_trans.
Qed.

Lemma closed_fd w fd : tested w -> fd <> 0 -> fd <> 1 -> handles w fd = None.
Proof. intros T. apply (te_rest w T). Qed.

Lemma bad_fd_passes w fd name :
  tested w -> fd <> 0 -> fd <> 1 -> name ∈ test_names ->
  passes w ('(w, fail) ← expect lit 0 (ece391_read w fd tbuf 31) ("read fail" +++ nl);
            '(w, fail) ← expect lit fail (ece391_write w fd tbuf 31) ("write fail" +++ nl);
            '(w, fail) ← expect lit fail (ece391_close w fd) ("close fail" +++ nl);
            report lit w fail name) name.
Proof.
  intros T H0 H1 Hn. pose proof (refused_refl w (te_healthy w T)) as R0.
  destruct (next_refused w w 0 (ece391_read w fd tbuf 31) ("read fail" +++ nl)%string T R0) as (w1 & -> & R1).
  { intros T1. apply us_bad_read; [apply T1|apply tbuf_31|left; by apply closed_fd]. }
  cbn [mbind option_bind].
  destruct (next_refused w w1 0 (ece391_write w1 fd tbuf 31) ("write fail" +++ nl)%string T R1) as (w2 & -> & R2).
  { intros T1. apply us_bad_write; [apply T1|apply tbuf_31|left; by apply closed_fd]. }
  cbn [mbind option_bind].
  destruct (next_refused w w2 0 (ece391_close w2 fd) ("close fail" +++ nl)%string T R2) as (w3 & -> & R3).
  { intros T1. apply us_bad_close; [apply T1|left; by apply closed_fd]. }
  cbn [mbind option_bind]. by apply passes_report.
Qed.

Lemma err_neg_fd_passes w : tested w -> passes w (err_neg_fd lit w tbuf) "err_neg_fd".
Proof. intros T. apply bad_fd_passes; [done|discriminate|discriminate|unfold test_names; in_list]. Qed.

Lemma err_big_fd_passes w : tested w -> passes w (err_big_fd lit w tbuf) "err_big_fd".
Proof. intros T. apply bad_fd_passes; [done|discriminate|discriminate|unfold test_names; in_list]. Qed.

Lemma absent_refused w f :
  tested w -> f ∈ ["helloo"; "shel"; ""]%string -> (length (bytes_of f) <= 32)%nat ->
  exists w', ece391_open w (lit f) = Some (w', -1) /\ refused w w'.
Proof.
  intros T Hf Hlen. pose proof (te_absent w T) as Ha. pose proof (te_files w T) as Hn. rewrite Forall_forall in Ha, Hn.
  destruct (Hn f) as [(Hc & _ & _) Hp]; [unfold syserr_files; by apply list_elem_of_further|].
  destruct (us_open w (lit f) (bytes_of f) (te_healthy w T) Hc Hp) as (w' & r & E & L & D & Ty & M & R).
  rewrite take_ge, (Ha f Hf) in R by exact Hlen. destruct R as [-> H]. exists w'. split; [exact E|].
  split; [|exact D]. split; [exact L|]. split; [exact Ty|]. split; [exact H|]. eapply untouched_weaken; [exact M|by left].
Qed.

Lemma err_open_passes w : tested w -> passes w (err_open lit w) "err_open".
Proof.
  intros T. unfold err_open. pose proof (refused_refl w (te_healthy w T)) as R0.
  destruct (next_refused w w 0 (ece391_open w (lit "helloo"%string)) ("'helloo' fail" +++ nl)%string T R0) as (w1 & -> & R1);
    [intros T1; apply absent_refused; [done|in_list|simpl; lia]|]. cbn [mbind option_bind].
  destruct (next_refused w w1 0 (ece391_open w1 (lit "shel"%string)) ("'shel' fail" +++ nl)%string T R1) as (w2 & -> & R2);
    [intros T1; apply absent_refused; [done|in_list|simpl; lia]|]. cbn [mbind option_bind].
  destruct (next_refused w w2 0 (ece391_open w2 (lit ""%string)) ("empty string fail" +++ nl)%string T R2) as (w3 & -> & R3);
    [intros T1; apply absent_refused; [done|in_list|simpl; lia]|]. cbn [mbind option_bind].
  apply passes_report; [done|done|unfold test_names; in_list].
Qed.

Lemma err_unopened_passes w : tested w -> passes w (err_unopened lit w tbuf) "err_unopened".
Proof.
  intros T. unfold err_unopened.
  destruct (expect_loop_spec 8 w 0 0 (fun w i => ece391_close w i) ("close unopened or invalid fd fail" +++ nl)%string T)
    as (w1 & -> & R1).
  { intros w' fd T' _. apply us_bad_close; [apply T'|]. destruct (Z.eq_dec fd 0) as [->|]; [right; left; apply T'|].
    destruct (Z.eq_dec fd 1) as [->|]; [right; right; apply T'|left; by apply closed_fd]. }
  cbn [mbind option_bind]. pose proof (tested_quietly w w1 T (proj1 R1)) as T1.
  destruct (expect_loop_spec 6 w1 0 2 (fun w i => ece391_read w i tbuf 31) ("read from unopened fd fail" +++ nl)%string T1)
    as (w2 & -> & R2).
  { intros w' fd T' Hfd. apply us_bad_read; [apply T'|apply tbuf_31|left; apply closed_fd; [done|lia|lia]]. }
  cbn [mbind option_bind]. pose proof (tested_quietly w1 w2 T1 (proj1 R2)) as T2.
  destruct (expect_loop_spec 6 w2 0 2 (fun w i => ece391_write w i tbuf 31) ("write to unopened fd fail" +++ nl)%string T2)
    as (w3 & -> & R3).
  { intros w' fd T' Hfd. apply us_bad_write; [apply T'|apply tbuf_31|left; apply closed_fd; [done|lia|lia]]. }
  cbn [mbind option_bind]. apply passes_report; [done| |unfold test_names; in_list].
  exact (refused_trans _ _ _ R1 (refused_trans _ _ _ R2 R3)).
Qed.

Lemma err_vidmap_passes w : tested w -> passes w (err_vidmap lit w) "err_vidmap".
Proof.
  intros T. unfold err_vidmap. pose proof (refused_refl w (te_healthy w T)) as R0.
  destruct (next_refused w w 0 (ece391_vidmap w 0) ("Null pointer fail" +++ nl)%string T R0) as (w1 & -> & R1);
    [intros T1; apply us_bad_vidmap; [apply T1|unfold USER_PAGE; lia]|]. cbn [mbind option_bind].
  destruct (next_refused w w1 0 (ece391_vidmap w1 0x400000) ("Kernel pointer fail fail" +++ nl)%string T R1) as (w2 & -> & R2);
    [intros T1; apply us_bad_vidmap; [apply T1|unfold USER_PAGE; lia]|]. cbn [mbind option_bind].
  apply passes_report; [done|done|unfold test_names; in_list].
Qed.

Lemma err_stdin_out_passes w : tested w -> passes w (err_stdin_out lit w tbuf) "err_stdin_out".
Proof.
  intros T. unfold err_stdin_out. pose proof (refused_refl w (te_healthy w T)) as R0.
  destruct (next_refused w w 0 (ece391_write w 0 tbuf 31) ("write to stdin fail" +++ nl)%string T R0) as (w1 & -> & R1);
    [intros T1; apply us_bad_write; [apply T1|apply tbuf_31|right; apply T1]|]. cbn [mbind option_bind].
  destruct (next_refused w w1 0 (ece391_read w1 1 tbuf 31) ("read from stdout fail" +++ nl)%string T R1) as (w2 & -> & R2);
    [intros T1; apply us_bad_read; [apply T1|apply tbuf_31|right; apply T1]|]. cbn [mbind option_bind].
  apply passes_report; [done|done|unfold test_names; in_list].
Qed.

Lemma err_syscall_num_passes w : tested w -> passes w (err_syscall_num lit w) "err_syscall_num".
Proof.
  intros T. unfold err_syscall_num. pose proof (refused_refl w (te_healthy w T)) as R0.
  destruct (next_refused w w 0 (call_sys w BIG_NUM) ("syscall 0 fail" +++ nl)%string T R0) as (w1 & -> & R1);
    [intros T1; apply us_bad_call; [apply T1|unfold BIG_NUM; lia..]|]. cbn [mbind option_bind].
  destruct (next_refused w w1 0 (call_sys w1 NEG_NUM) ("big num syscall fail" +++ nl)%string T R1) as (w2 & -> & R2);
    [intros T1; apply us_bad_call; [apply T1|unfold NEG_NUM; lia..]|]. cbn [mbind option_bind].
  destruct (next_refused w w2 0 (call_sys w2 0) ("neg num syscall fail" +++ nl)%string T R2) as (w3 & -> & R3);
    [intros T1; apply us_bad_call; [apply T1|lia..]|]. cbn [mbind option_bind].
  apply passes_report; [done|done|unfold test_names; in_list].
Qed.

(** ** Opening until the table is full *)

(** Descriptors 2 to [c - 1] list the directory; the rest is as in [w]. *)
Record filled (w w' : W) (c : Z) : Prop := {
  fi_lasting : lasting w w';
  fi_display : display w' = display w;
  fi_typed : typed w' = typed w;
  fi_mem : untouched_but (umem w) (umem w') 0 0;
  fi_open : forall q, 2 <= q < c -> handles w' q = Some (Listing 0);
  fi_rest : forall q, q < 2 \/ c <= q -> handles w' q = handles w q
}.

Lemma filled_keep w w' c : tested w -> filled w w' c ->
  cstr (umem w') (lit "."%string) (bytes_of ".") /\ paged (lit "."%string) 32 /\ disk w' (bytes_of ".") = Some Folder.
Proof.
  intros T [(_ & _ & D & _) _ _ M _ _]. pose proof (te_files w T) as Hn. rewrite Forall_forall in Hn.
  destruct (Hn "."%string) as [Hl Hp]; [unfold syserr_files; in_list|].
  assert (Hl' : literal lit w' buf 128 ".") by (eapply literal_same; [|exact Hl]; eapply untouched_weaken; [exact M|by left]).
  split; [apply Hl'|]. split; [exact Hp|]. rewrite D. apply (te_dot w T).
Qed.

Lemma open_lots_spec n w w' c cnt :
  tested w -> 2 <= c <= 8 -> filled w w' c ->
  exists w'', open_lots lit n w' cnt = Some (w'', cnt + Z.max 0 (c + Z.of_nat n - 8)) /\
    filled w w'' (Z.min 8 (c + Z.of_nat n)).
Proof.
  intros T. revert w' c cnt. induction n as [|n IH]; intros w' c cnt Hc F; cbn [open_lots].
  { exists w'. split; [do 2 f_equal; lia|]. by replace (Z.min 8 (c + Z.of_nat 0)) with c by lia. }
  destruct (filled_keep w w' c T F) as (Hcs & Hp & Hd). destruct F as [L D Ty M O Rst].
  destruct (us_open w' (lit "."%string) (bytes_of ".") (proj1 L) Hcs Hp) as (w1 & r & -> & L1 & D1 & T1 & M1 & R).
  cbn [mbind option_bind]. change (take 32 (bytes_of ".")) with (bytes_of ".") in R. rewrite Hd in R.
  assert (M' : untouched_but (umem w) (umem w1) 0 0).
  { eapply untouched_trans; [exact M|]. eapply untouched_weaken; [exact M1|by left]. }
  destruct R as [(-> & Full & H1)|(Hr & Hfr & Hlow & Hnew & H1)].
  - change (-1 =? -1) with true. cbv iota. assert (c = 8).
    { destruct (Z.eq_dec c 8); [done|]. exfalso. apply (Full c ltac:(lia)). rewrite Rst by lia.
      apply (te_rest w T); lia. }
    subst c. destruct (IH w1 8 (cnt + 1)) as (w2 & -> & F2).
    + lia.
    + split; [by eapply lasting_trans|congruence|congruence|exact M'| |]; intros q Hq; rewrite H1; auto.
    + exists w2. split; [do 2 f_equal; lia|]. by replace (Z.min 8 (8 + Z.of_nat (S n))) with (Z.min 8 (8 + Z.of_nat n)) by lia.
  - destruct (Z.eqb_spec (-1) r); [lia|].
    assert (Hrc : r = c).
    { destruct (Z.lt_trichotomy r c) as [Hlt|[|Hgt]]; [|done|].
      - exfalso. destruct (Z.eq_dec r 0) as [->|]; [rewrite Rst, (te_stdin w T) in Hfr by lia; discriminate|].
        destruct (Z.eq_dec r 1) as [->|]; [rewrite Rst, (te_stdout w T) in Hfr by lia; discriminate|].
        rewrite O in Hfr by lia. discriminate.
      - exfalso. apply (Hlow c ltac:(lia)). rewrite Rst by lia. apply (te_rest w T); lia. }
    subst r. destruct (IH w1 (c + 1) cnt) as (w2 & -> & F2).
    + lia.
    + split; [by eapply lasting_trans|congruence|congruence|exact M'| |]; intros q Hq.
      * destruct (Z.eq_dec q c) as [->|]; [exact Hnew|]. rewrite H1 by done. apply O. lia.
      * rewrite H1 by lia. apply Rst. lia.
    + exists w2. split; [do 2 f_equal; lia|].
      by replace (Z.min 8 (c + Z.of_nat (S n))) with (Z.min 8 (c + 1 + Z.of_nat n)) by lia.
Qed.

(** Descriptors [i] to 7 are closed again. *)
Lemma close_lots_spec n w w' i :
  tested w -> 2 <= i -> i + Z.of_nat n = 8 -> lasting w w' -> display w' = display w -> typed w' = typed w ->
  untouched_but (umem w) (umem w') 0 0 -> (forall q, i <= q < 8 -> handles w' q = Some (Listing 0)) ->
  (forall q, q < i \/ 8 <= q -> handles w' q = handles w q) ->
  exists w'', close_lots n w' i = Some w'' /\ refused w w''.
Proof.
  intros T. revert w' i. induction n as [|n IH]; intros w' i Hi Hn L D Ty M O Rst; cbn [close_lots].
  { exists w'. split; [done|]. split; [|done]. split; [done|]. split; [done|]. split; [|done].
    intros q. destruct (Z.lt_ge_cases q i); apply Rst; lia. }
  destruct (us_close w' i (Listing 0) (proj1 L)) as (w1 & -> & L1 & D1 & T1 & M1 & H0 & H1);
    [lia|apply O; lia|done|done|]. cbn [mbind option_bind].
  apply (IH w1 (i + 1)); [lia|lia|by eapply lasting_trans|congruence|congruence|by eapply untouched_trans| |].
  - intros q Hq. rewrite H1 by lia. apply O. lia.
  - intros q Hq. destruct (Z.eq_dec q i) as [->|]; [|rewrite H1 by done; apply Rst; lia].
    rewrite H0. symmetry. apply (te_rest w T); lia.
Qed.

Lemma err_open_lots_passes w : tested w -> passes w (err_open_lots lit w) "err_open_lots".
Proof.
  intros T sc Hs. unfold err_open_lots.
  destruct (open_lots_spec 7 w w 2 0 T) as (w1 & -> & [L D Ty M O Rst]).
  { lia. }
  { split; try done; [apply lasting_refl, T|]. intros q Hq. lia. }
  cbn [mbind option_bind]. change (Z.min 8 (2 + Z.of_nat 7)) with 8 in *. change (0 + Z.max 0 (2 + Z.of_nat 7 - 8)) with 1.
  destruct (close_lots_spec 6 w w1 2 T) as (w2 & -> & [Q D2]); try done. cbn [mbind option_bind].
  change (1 =? 1) with true. cbv iota.
  destruct (puts1_spec w2 (passed "err_open_lots") sc) as (w3 & E3 & Q3 & D3).
  - by apply (tested_quietly w).
  - unfold syserr_texts. do 3 apply list_elem_of_further. apply list_elem_of_fmap_2. unfold test_names. in_list.
  - by rewrite D2.
  - change (puts1 lit w2 ("err_open_lots: PASS" +++ nl)) with (puts1 lit w2 (passed "err_open_lots")). rewrite E3.
    cbn [mbind option_bind]. exists w3. split; [done|]. split; [by eapply quietly_trans|done].
Qed.

(** ** main *)

Lemma run_test w fail test name rest sc :
  tested w -> passes w test name -> scr_puts (display w) (bytes_of (passed name) ++ rest) = Some sc ->
  exists w', add_result fail test = Some (w', fail) /\ quietly w w' /\ tested w' /\ scr_puts (display w') rest = Some sc.
Proof.
  intros T P. rewrite scr_puts_app. destruct (scr_puts (display w) (bytes_of (passed name))) as [sc1|] eqn:E; [|done].
  cbn [mbind option_bind]. intros Hs. destruct (P sc1 E) as (w' & -> & Q & D). exists w'. unfold add_result.
  cbn [mbind option_bind]. rewrite Z.add_0_r. split; [done|]. split; [done|]. split; [by apply (tested_quietly w)|by rewrite D].
Qed.

(** All tests, and the overall result. *)
Lemma run_all w sc :
  tested w -> scr_puts (display w) (syserr_text 48) = Some sc ->
  exists w',
    ('(w, fail) ← add_result 0 (err_neg_fd lit w tbuf);
     '(w, fail) ← add_result fail (err_big_fd lit w tbuf);
     '(w, fail) ← add_result fail (err_open_lots lit w);
     '(w, fail) ← add_result fail (err_open lit w);
     '(w, fail) ← add_result fail (err_unopened lit w tbuf);
     '(w, fail) ← add_result fail (err_vidmap lit w);
     '(w, fail) ← add_result fail (err_stdin_out lit w tbuf);
     '(w, fail) ← add_result fail (err_syscall_num lit w);
     w ← (if negb (fail =? 0) then puts1 lit w (nl +++ "Overall Tests: FAIL" +++ nl)
          else puts1 lit w (nl +++ "Overall Tests: PASS" +++ nl));
     Some (w, fail)) = Some (w', 0) /\ quietly w w' /\ display w' = sc.
Proof.
  intros T. change (syserr_text 48) with (concat ((fun n => bytes_of (passed n)) <$> test_names) ++ bytes_of all_passed).
  unfold test_names. cbn [fmap list_fmap concat]. rewrite <- !app_assoc, app_nil_l. intros Hs.
  destruct (run_test w 0 _ "err_neg_fd" _ sc T (err_neg_fd_passes w T) Hs) as (w1 & -> & Q1 & T1 & H1). cbn [mbind option_bind].
  destruct (run_test w1 0 _ "err_big_fd" _ sc T1 (err_big_fd_passes w1 T1) H1) as (w2 & -> & Q2 & T2 & H2). cbn [mbind option_bind].
  destruct (run_test w2 0 _ "err_open_lots" _ sc T2 (err_open_lots_passes w2 T2) H2) as (w3 & -> & Q3 & T3 & H3). cbn [mbind option_bind].
  destruct (run_test w3 0 _ "err_open" _ sc T3 (err_open_passes w3 T3) H3) as (w4 & -> & Q4 & T4 & H4). cbn [mbind option_bind].
  destruct (run_test w4 0 _ "err_unopened" _ sc T4 (err_unopened_passes w4 T4) H4) as (w5 & -> & Q5 & T5 & H5). cbn [mbind option_bind].
  destruct (run_test w5 0 _ "err_vidmap" _ sc T5 (err_vidmap_passes w5 T5) H5) as (w6 & -> & Q6 & T6 & H6). cbn [mbind option_bind].
  destruct (run_test w6 0 _ "err_stdin_out" _ sc T6 (err_stdin_out_passes w6 T6) H6) as (w7 & -> & Q7 & T7 & H7). cbn [mbind option_bind].
  destruct (run_test w7 0 _ "err_syscall_num" _ sc T7 (err_syscall_num_passes w7 T7) H7) as (w8 & -> & Q8 & T8 & H8).
  cbn [mbind option_bind]. change (negb (0 =? 0)) with false. cbv iota.
  destruct (puts1_spec w8 all_passed sc T8) as (w9 & E9 & Q9 & D9); [unfold syserr_texts; in_list|exact H8|].
  change (nl +++ "Overall Tests: PASS" +++ nl)%string with all_passed. rewrite E9. cbn [mbind option_bind].
  exists w9. split; [done|]. split; [|done].
  eapply quietly_trans; [exact Q1|]. eapply quietly_trans; [exact Q2|]. eapply quietly_trans; [exact Q3|].
  eapply quietly_trans; [exact Q4|]. eapply quietly_trans; [exact Q5|]. eapply quietly_trans; [exact Q6|].
  eapply quietly_trans; [exact Q7|]. eapply quietly_trans; [exact Q8|exact Q9].
Qed.

(** The switch. *)
Lemma syserr_select w c sc :
  tested w -> scr_puts (display w) (syserr_text c) = Some sc ->
  exists w',
    (let select := c - 48 in
     if select =? 0 then
       '(w, fail) ← add_result 0 (err_neg_fd lit w tbuf);
       '(w, fail) ← add_result fail (err_big_fd lit w tbuf);
       '(w, fail) ← add_result fail (err_open_lots lit w);
       '(w, fail) ← add_result fail (err_open lit w);
       '(w, fail) ← add_result fail (err_unopened lit w tbuf);
       '(w, fail) ← add_result fail (err_vidmap lit w);
       '(w, fail) ← add_result fail (err_stdin_out lit w tbuf);
       '(w, fail) ← add_result fail (err_syscall_num lit w);
       w ← (if negb (fail =? 0) then puts1 lit w (nl +++ "Overall Tests: FAIL" +++ nl)
            else puts1 lit w (nl +++ "Overall Tests: PASS" +++ nl));
       Some (w, fail)
     else if select =? 1 then err_neg_fd lit w tbuf
     else if select =? 2 then err_big_fd lit w tbuf
     else if select =? 3 then err_open_lots lit w
     else if select =? 4 then err_open lit w
     else if select =? 5 then err_unopened lit w tbuf
     else if select =? 6 then err_vidmap lit w
     else if select =? 7 then err_stdin_out lit w tbuf
     else if select =? 8 then err_syscall_num lit w
     else w ← puts1 lit w "Invalid test number. Choose from tests 1-8 or 0"; Some (w, 0)) = Some (w', 0) /\
    quietly w w' /\ display w' = sc.
Proof.
  intros T Hs. cbv zeta. destruct (Z.eqb_spec (c - 48) 0) as [E|N0].
  { assert (c = 48) as -> by lia. exact (run_all w sc T Hs). }
  destruct (Z.eqb_spec (c - 48) 1) as [E|N1]; [assert (c = 49) as -> by lia; exact (err_neg_fd_passes w T sc Hs)|].
  destruct (Z.eqb_spec (c - 48) 2) as [E|N2]; [assert (c = 50) as -> by lia; exact (err_big_fd_passes w T sc Hs)|].
  destruct (Z.eqb_spec (c - 48) 3) as [E|N3]; [assert (c = 51) as -> by lia; exact (err_open_lots_passes w T sc Hs)|].
  destruct (Z.eqb_spec (c - 48) 4) as [E|N4]; [assert (c = 52) as -> by lia; exact (err_open_passes w T sc Hs)|].
  destruct (Z.eqb_spec (c - 48) 5) as [E|N5]; [assert (c = 53) as -> by lia; exact (err_unopened_passes w T sc Hs)|].
  destruct (Z.eqb_spec (c - 48) 6) as [E|N6]; [assert (c = 54) as -> by lia; exact (err_vidmap_passes w T sc Hs)|].
  destruct (Z.eqb_spec (c - 48) 7) as [E|N7]; [assert (c = 55) as -> by lia; exact (err_stdin_out_passes w T sc Hs)|].
  destruct (Z.eqb_spec (c - 48) 8) as [E|N8]; [assert (c = 56) as -> by lia; exact (err_syscall_num_passes w T sc Hs)|].
  assert (Et : syserr_text c = bytes_of syserr_invalid).
  { unfold syserr_text. destruct (Z.eqb_spec c 48); [lia|]. destruct (Z.leb_spec 49 c).
    - assert (E : test_names !! Z.to_nat (c - 49) = None) by (apply lookup_ge_None; unfold test_names; simpl; lia).
      by rewrite E.
    - by destruct (test_names !! _). }
  rewrite Et in Hs. destruct (puts1_spec w syserr_invalid sc T) as (w' & E & Q & D); [unfold syserr_texts; in_list|exact Hs|].
  change (puts1 lit w "Invalid test number. Choose from tests 1-8 or 0") with (puts1 lit w syserr_invalid).
  rewrite E. cbn [mbind option_bind]. eauto.
Qed.

Lemma syserr_spec w sc :
  tested w -> paged buf 128 -> 0 < newlines (typed w) -> let line := first_line (typed w) in zlen line <= 127 ->
  scr_puts (display w) (bytes_of syserr_prompt ++ syserr_text (hd 0 line)) = Some sc ->
  exists w', syserr_main lit w buf tbuf = Some (w', 0) /\ lasting w w' /\ display w' = sc /\
    typed w' = drop (length line) (typed w) /\ forall fd, handles w' fd = handles w fd.
Proof.
  intros T Hb Hn line Hlen. rewrite scr_puts_app.
  destruct (scr_puts (display w) (bytes_of syserr_prompt)) as [sc1|] eqn:E1; [|done]. cbn [mbind option_bind]. intros Hs.
  destruct (puts1_spec w syserr_prompt sc1 T) as (w1 & F1 & Q1 & D1); [unfold syserr_texts; in_list|exact E1|].
  unfold syserr_main. change "Choose from tests 1-8. 0 to run all: "%string with syserr_prompt. rewrite F1.
  cbn [mbind option_bind]. pose proof (tested_quietly w w1 T Q1) as T1. pose proof Q1 as (L1 & Ty1 & H1 & M1).
  destruct (us_line w1 0 buf 127) as (w2 & -> & L2 & D2 & Ty2 & B2 & M2 & H2);
    [apply T1|apply T1|unfold paged in *; lia|by rewrite Ty1|by rewrite Ty1|].
  cbn [mbind option_bind]. rewrite Ty1 in *. fold line in Ty2, B2, M2 |- *.
  destruct (Z.eqb_spec (-1) (zlen line)); [lia|].
  assert (T2 : tested w2).
  { apply (tested_keep w1); [done|done|done|]. eapply untouched_weaken; [exact M2|right; lia]. }
  assert (Ec : load8 (umem w2) buf = hd 0 line).
  { destruct line as [|c l] eqn:El; [exfalso; by apply (first_line_nonempty (typed w) Hn)|].
    cbn [length] in B2. rewrite load_bytes_S in B2. by injection B2. }
  rewrite Ec. destruct (syserr_select w2 (hd 0 line) sc T2) as (w3 & E3 & Q3 & D3); [by rewrite D2, D1|].
  cbv zeta in E3. rewrite E3. destruct Q3 as (L3 & Ty3 & H3 & _). exists w3. split; [done|].
  split; [exact (lasting_trans _ _ _ L1 (lasting_trans _ _ _ L2 L3))|]. split; [done|]. split; [congruence|].
  intros fd. by rewrite H3, H2, H1.
Qed.
End specs.
