(* ===== verification/Utility.v ===== *)
(** A program as the shell sees it: its code, polymorphic in the system it
    runs on, what it needs in memory, and what it does to the screen and the
    typed characters, with the proof that the code does it on every system that
    keeps the contract. *)

From Stdlib Require Import String.
From S2P Require Import Prelude Memory LibString CircularBuffer Screen LineInput Printf Console Support UserSys Programs.

#[local] Open Scope Z_scope.
#[local] Notation "a +++ b" := (String.append a b) (at level 60, right associativity).

(** A process that has just been started: its terminal is open, nothing else. *)
Record fresh `{US : UserSystemOk W} (w : W) : Prop := {
  fr_healthy : healthy w;
  fr_stdin : handles w 0 = Some Keyboard;
  fr_stdout : handles w 1 = Some Display;
  fr_rest : forall fd, 2 <= fd < 8 -> handles w fd = None;
  fr_args : zlen (arguments w) < 128
}.

(** Bytes at an address of the program. *)
Definition present `{U : UserSystem W} (w : W) (d : Z * list Z) : Prop :=
  load_bytes (umem w) d.1 (length d.2) = d.2.

Record utility := Utility {
  ut_main : forall W, UserSystem W -> W -> option (W * Z);
  ut_data : list (Z * list Z);
  (** From the screen, the typed characters, the arguments and the files to the
      screen, the characters left and the status. *)
  ut_spec : screen -> list Z -> list Z -> (list Z -> option on_disk) -> list (list Z) ->
            option (screen * list Z * Z);
  ut_ext : forall sc q a d d' n, (forall x, d x = d' x) -> ut_spec sc q a d n = ut_spec sc q a d' n;
  ut_correct : forall W (U : UserSystem W) (US : UserSystemOk W) w sc q r,
    fresh w -> Forall (present w) ut_data ->
    ut_spec (display w) (typed w) (arguments w) (disk w) (names w) = Some (sc, q, r) ->
    exists w', ut_main W U w = Some (w', r) /\ lasting w w' /\ display w' = sc /\ typed w' = q /\ 0 <= r < 256
}.

(** A literal and its place. *)
Definition text_data (lit : string -> Z) (s : string) : Z * list Z := (lit s, bytes_of s ++ [0]).

Definition placed (lit : string -> Z) (buf n : Z) (s : string) : Prop :=
  paged (lit s) (zlen (bytes_of s) + 1) /\ (lit s + zlen (bytes_of s) < buf \/ buf + n <= lit s) /\
  Forall (fun b => b <> 0) (bytes_of s).

Lemma literal_present `{US : UserSystemOk W} lit buf n s (w : W) :
  placed lit buf n s -> present w (text_data lit s) -> literal lit w buf n s.
Proof.
  intros (Hp & Ha & Hz) H. unfold present, text_data in H. cbn [fst snd] in H.
  rewrite length_app, load_bytes_app in H. apply app_inj_1 in H as [H1 H2]; [|by rewrite length_load_bytes].
  cbn [length] in H2. rewrite load_bytes_S in H2. injection H2 as H2. split; [by split|by split].
Qed.

Section utilities.
Context (lit : string -> Z) (buf : Z).

(** * cat *)

Section cat.
Context (fuel : nat).
Hypotheses (Hbuf : paged buf 1024) (Hlit : placed lit buf 1024 not_found).

Definition cat_effect (sc : screen) (q a : list Z) (d : list Z -> option on_disk) (n : list (list Z)) :
    option (screen * list Z * Z) :=
  match d (take 32 a) with
  | None => sc ← scr_puts sc (bytes_of not_found); Some (sc, q, 2)
  | Some (Regular bytes) =>
      if zlen bytes <? Z.of_nat fuel then sc ← scr_puts sc bytes; Some (sc, q, 0) else None
  | Some _ => None
  end.

Definition cat_utility : utility.
Proof.
  refine (Utility (fun W U w => cat_main lit fuel w buf) [text_data lit not_found] cat_effect _ _).
  - intros sc q a d d' n E. unfold cat_effect. by rewrite E.
  - intros W U US w sc q r [Hh _ Hd Hr Ha] [Hl _]%Forall_cons_1. unfold cat_effect.
    assert (Ha' : zlen (arguments w) < 1024) by lia.
    assert (Hq : exists fd, 0 <= fd < 8 /\ handles w fd = None) by (exists 2; split; [lia|apply Hr; lia]).
    pose proof (cat_spec lit fuel w buf Hh Hd Hbuf Hq Ha'
                  (literal_present lit buf 1024 not_found w Hlit Hl)) as P.
    destruct (disk w _) as [[bytes| |]|]; [|done|done|].
    + destruct (Z.ltb_spec (zlen bytes) (Z.of_nat fuel)) as [Hf|]; [|done].
      destruct (scr_puts (display w) bytes) as [sc'|] eqn:E; [|done]. intros [= <- <- <-].
      destruct (P sc' eq_refl Hf) as (w' & E' & La & D & T). exists w'. split_and!; done.
    + destruct (scr_puts (display w) _) as [sc'|] eqn:E; [|done]. intros [= <- <- <-].
      destruct (P sc' eq_refl) as (w' & E' & La & D & T & _). exists w'. split_and!; done.
Defined.
End cat.

(** * ls *)

Section ls.
Context (fuel : nat).
Hypotheses (Hbuf : paged buf 33) (Hlit : placed lit buf 33 ".") (Hdot : paged (lit "."%string) 32).

Definition ls_effect (sc : screen) (q a : list Z) (d : list Z -> option on_disk) (n : list (list Z)) :
    option (screen * list Z * Z) :=
  match d (bytes_of ".") with
  | Some Folder =>
      if bool_decide (Forall (fun x => (length x <= 32)%nat) n) && (length n <? fuel)%nat then
        sc ← scr_puts sc (concat (listed <$> n)); Some (sc, q, 0)
      else None
  | _ => None
  end.

Definition ls_utility : utility.
Proof.
  refine (Utility (fun W U w => ls_main lit fuel w buf) [text_data lit "."] ls_effect _ _).
  - intros sc q a d d' n E. unfold ls_effect. by rewrite E.
  - intros W U US w sc q r [Hh _ Hd Hr Ha] [Hl _]%Forall_cons_1. unfold ls_effect.
    destruct (disk w _) as [[| |]|] eqn:Ed; try done.
    destruct (bool_decide_reflect (Forall (fun x : list Z => (length x <= 32)%nat) (names w))) as [Hn|]; [|done].
    destruct (Nat.ltb_spec (length (names w)) fuel) as [Hf|]; [|done]. cbn [andb].
    destruct (scr_puts (display w) _) as [sc'|] eqn:E; [|done]. intros [= <- <- <-].
    assert (Hq : exists fd, 0 <= fd < 8 /\ handles w fd = None) by (exists 2; split; [lia|apply Hr; lia]).
    destruct (ls_spec lit fuel w buf sc' Hh Hd Hbuf Hq
                (literal_present lit buf 33 "." w Hlit Hl) Hdot Ed Hn E Hf) as (w' & E' & La & D & T).
    exists w'. split_and!; done.
Defined.
End ls.

(** * Programs that read a line *)

(** A complete line without zero bytes, and the rest. *)
Definition next_line (q : list Z) : option (list Z * list Z) :=
  let line := first_line q in
  if (0 <? newlines q) && (zlen line <? 1024) && bool_decide (Forall (fun c => c <> 0) line) then
    Some (line, drop (length line) q)
  else None.

Lemma next_line_spec q line rest :
  next_line q = Some (line, rest) ->
  line = first_line q /\ rest = drop (length line) q /\ 0 < newlines q /\ zlen line < 1024 /\ Forall (fun c => c <> 0) line.
Proof.
  unfold next_line. cbv zeta. destruct (Z.ltb_spec 0 (newlines q)); [|done].
  destruct (Z.ltb_spec (zlen (first_line q)) 1024); [|done].
  destruct (bool_decide_reflect (Forall (fun c => c <> 0) (first_line q))); [|done]. by intros [= <- <-].
Qed.

Section hello.
Hypotheses (Hbuf : paged buf 1024) (Hlit1 : placed lit buf 1024 "Hi, what's your name? ")
  (Hlit2 : placed lit buf 1024 "Hello, ").

Definition hello_effect (sc : screen) (q a : list Z) (d : list Z -> option on_disk) (n : list (list Z)) :
    option (screen * list Z * Z) :=
  '(line, rest) ← next_line q;
  sc ← scr_puts sc (bytes_of "Hi, what's your name? " ++ bytes_of "Hello, " ++ line);
  Some (sc, rest, 0).

Definition hello_utility : utility.
Proof.
  refine (Utility (fun W U w => hello_main lit w buf)
            [text_data lit "Hi, what's your name? "; text_data lit "Hello, "] hello_effect _ _).
  - done.
  - intros W U US w sc q r [Hh Hk Hd Hr Ha] [Hl1 [Hl2 _]%Forall_cons_1]%Forall_cons_1. unfold hello_effect.
    destruct (next_line (typed w)) as [[line rest]|] eqn:En; [|done]. cbn [mbind option_bind].
    apply next_line_spec in En as (-> & -> & Hn & Hlen & Hz).
    destruct (scr_puts (display w) _) as [sc'|] eqn:E; [|done]. intros [= <- <- <-].
    destruct (hello_spec lit w buf sc' Hh Hk Hd Hbuf (literal_present lit buf 1024 _ w Hlit1 Hl1)
                (literal_present lit buf 1024 _ w Hlit2 Hl2) Hn Hlen Hz E) as (w' & E' & La & D & T).
    exists w'. split_and!; done.
Defined.
End hello.

Definition counter_prompt : string := "Enter the Test Number: (0): 100, (1): 10000, (2): 100000" +++ nl.

Section counter.
Context (fuel : nat).
Hypotheses (Hbuf : paged buf 1024) (Hfuel : (Z.to_nat 100000 <= fuel)%nat).
Hypotheses (Hlit1 : placed lit buf 1024 counter_prompt)
  (Hlit2 : placed lit buf 1024 ("Wrong Choice!" +++ nl)) (Hlit3 : placed lit buf 1024 nl).

Definition counter_effect (sc : screen) (q a : list Z) (d : list Z -> option on_disk) (n : list (list Z)) :
    option (screen * list Z * Z) :=
  '(line, rest) ← next_line q;
  sc ← scr_puts sc (bytes_of counter_prompt ++ counter_text line);
  Some (sc, rest, 0).

Definition counter_utility : utility.
Proof.
  refine (Utility (fun W U w => counter_main lit fuel w buf)
            [text_data lit counter_prompt; text_data lit ("Wrong Choice!" +++ nl); text_data lit nl] counter_effect _ _).
  - done.
  - intros W U US w sc q r [Hh Hk Hd Hr Ha] [Hl1 [Hl2 [Hl3 _]%Forall_cons_1]%Forall_cons_1]%Forall_cons_1.
    unfold counter_effect. destruct (next_line (typed w)) as [[line rest]|] eqn:En; [|done]. cbn [mbind option_bind].
    apply next_line_spec in En as (-> & -> & Hn & Hlen & Hz).
    destruct (scr_puts (display w) _) as [sc'|] eqn:E; [|done]. intros [= <- <- <-].
    destruct (counter_spec lit fuel w buf sc' Hh Hk Hd Hbuf (literal_present lit buf 1024 _ w Hlit1 Hl1)
                (literal_present lit buf 1024 _ w Hlit2 Hl2) (literal_present lit buf 1024 _ w Hlit3 Hl3) Hn Hlen Hz E)
      as (w' & E' & La & D & T).
    + etransitivity; [|exact Hfuel]. apply Z2Nat.inj_le; [apply counter_max_range|lia|apply counter_max_range].
    + exists w'. split_and!; done.
Defined.
End counter.

(** * testprint *)

Definition testprint_text : string := "Hello, if this ran, the program was correct. Yay!" +++ nl.

Section testprint.
Hypothesis (Hlit : placed lit buf 0 testprint_text).

Definition testprint_effect (sc : screen) (q a : list Z) (d : list Z -> option on_disk) (n : list (list Z)) :
    option (screen * list Z * Z) :=
  sc ← scr_puts sc (bytes_of testprint_text); Some (sc, q, 0).

Definition testprint_utility : utility.
Proof.
  refine (Utility (fun W U w => testprint_main lit w) [text_data lit testprint_text] testprint_effect _ _).
  - done.
  - intros W U US w sc q r [Hh Hk Hd Hr Ha] [Hl _]%Forall_cons_1. unfold testprint_effect.
    destruct (scr_puts (display w) _) as [sc'|] eqn:E; [|done]. intros [= <- <- <-].
    destruct (testprint_spec lit w buf sc' Hh Hd (literal_present lit buf 0 _ w Hlit Hl) E) as (w' & E' & (La & T & _) & D).
    exists w'. split_and!; done.
Defined.
End testprint.
End utilities.
