(* ===== verification/Grep.v ===== *)
(** The program [syscalls/ece391grep.c], over the system-call interface: its
    buffered line scanner, against the lines of the files.

    [do_one_file] reads a file in blocks into [data], searches the complete
    lines and carries the start of an incomplete one over to the next block.
    Locals are at the stack addresses [data], [buf] and [search].  The scan of a
    block runs on a fuel of one more than its bytes, which is enough; the loops
    over the blocks and over the directory run on a fuel argument. *)

From Stdlib Require Import String.
From S2P Require Import Prelude Memory LibString CircularBuffer Pcb Screen LineInput Printf Console Support UserSys Programs.

#[local] Open Scope Z_scope.
#[local] Notation "a +++ b" := (String.append a b) (at level 60, right associativity).

(** * The code *)

Section code.
Context `{U : UserSystem W} (lit : string -> Z).

(** The loop that looks for the end of a line; [n] positions are left. *)
Fixpoint line_end_loop (n : nat) (m : mem) (data line_end : Z) : Z :=
  match n with
  | O => line_end
  | S n' => if negb (10 =? load8 m (data + line_end)) then line_end_loop n' m data (line_end + 1) else line_end
  end.

(** The loop that searches a line; [n] positions are left.  [s] is an array of
    signed characters, [data] one of bytes. *)
Fixpoint search_loop (n : nat) (w : W) (s s_len fname data line_start check : Z) : option W :=
  match n with
  | O => Some w
  | S n' =>
      if (s8 (load8 (umem w) s) =? load8 (umem w) (data + check)) &&
         (0 =? ece391_strncmp (umem w) (data + check) s s_len)
      then
        w ← ece391_fdputs w 1 fname;
        w ← ece391_fdputs w 1 (lit ":"%string);
        w ← ece391_fdputs w 1 (data + line_start);
        w ← ece391_fdputs w 1 (lit nl);
        Some w
      else search_loop n' w s s_len fname data line_start (check + 1)
  end.

(** The loop over the lines of a block; it returns the new [last]. *)
Fixpoint scan_loop (fuel : nat) (w : W) (s s_len fname data cnt last line_start : Z) : option (W * Z) :=
  match fuel with
  | O => None
  | S f =>
      let line_end := line_end_loop (Z.to_nat (last - line_start)) (umem w) data line_start in
      if negb (10 =? load8 (umem w) (data + line_end)) && negb (0 =? cnt) && negb (line_start =? 0) then
        let w := set_byte w (data + line_end) 0 in
        m ← ece391_strcpy (umem w) data (data + line_start);
        Some (uset w m, last - line_start)
      else
        let w := set_byte w (data + line_end) 0 in
        w ← search_loop (Z.to_nat (line_end - line_start)) w s s_len fname data line_start line_start;
        let line_start := line_end + 1 in
        if last <=? line_start then Some (w, 0) else scan_loop f w s s_len fname data cnt last line_start
  end.

(** The loop over the blocks; [true]: it was left by its [break]. *)
Fixpoint block_loop (fuel : nat) (w : W) (fd s s_len fname data last : Z) : option (W * bool) :=
  match fuel with
  | O => None
  | S f =>
      '(w, cnt) ← ece391_read w fd (data + last) (BUFSIZE - last);
      if -1 =? cnt then
        w ← ece391_fdputs w 1 (lit ("file read failed" +++ nl)%string);
        Some (w, false)
      else
        let last := last + cnt in
        '(w, last) ← scan_loop (S (Z.to_nat last)) w s s_len fname data cnt last 0;
        if 0 =? cnt then Some (w, true) else block_loop f w fd s s_len fname data last
  end.

Definition do_one_file (fuel : nat) (w : W) (s fname data : Z) : option (W * Z) :=
  let s_len := ece391_strlen (umem w) s in
  '(w, fd) ← ece391_open w fname;
  if -1 =? fd then
    w ← ece391_fdputs w 1 (lit ("file open failed" +++ nl)%string);
    Some (w, -1)
  else
    '(w, ok) ← block_loop fuel w fd s s_len fname data 0;
    if negb ok then Some (w, -1)
    else
      '(w, r) ← ece391_close w fd;
      if -1 =? r then
        w ← ece391_fdputs w 1 (lit ("file close failed" +++ nl)%string);
        Some (w, -1)
      else Some (w, 0).

(** The loop of [main] over the directory. *)
Fixpoint grep_loop (fuel blocks : nat) (w : W) (fd buf search data : Z) : option (W * Z) :=
  match fuel with
  | O => None
  | S f =>
      '(w, cnt) ← ece391_read w fd buf (SBUFSIZE - 1);
      if negb (0 =? cnt) then
        if -1 =? cnt then
          w ← ece391_fdputs w 1 (lit ("directory entry read failed" +++ nl)%string);
          Some (w, 3)
        else if 46 =? load8 (umem w) buf then grep_loop f blocks w fd buf search data
        else
          let w := set_byte w (buf + cnt) 0 in
          '(w, r) ← do_one_file blocks w search buf data;
          if negb (0 =? r) then Some (w, 3) else grep_loop f blocks w fd buf search data
      else Some (w, 0)
  end.

Definition grep_main (fuel blocks : nat) (w : W) (buf search data : Z) : option (W * Z) :=
  '(w, r) ← ece391_getargs w search BUFSIZE;
  if negb (0 =? r) then
    w ← ece391_fdputs w 1 (lit ("could not read argument" +++ nl)%string);
    Some (w, 3)
  else
    '(w, fd) ← ece391_open w (lit "."%string);
    if -1 =? fd then
      w ← ece391_fdputs w 1 (lit ("directory open failed" +++ nl)%string);
      Some (w, 2)
    else grep_loop fuel blocks w fd buf search data.
End code.

(** * What it should print *)

(** The lines of a text; the last one need not be ended. *)
Fixpoint lines (l : list Z) : list (list Z) :=
  match l with
  | [] => [[]]
  | c :: l' =>
      if c =? 10 then [] :: lines l'
      else match lines l' with [] => [[c]] | h :: t => (c :: h) :: t end
  end.

(** [pat] is a part of [l]. *)
Fixpoint occurs (pat l : list Z) : bool :=
  match l with
  | [] => false
  | _ :: l' => bool_decide (take (length pat) l = pat) || occurs pat l'
  end.

(** The lines that are reported: the pattern begins with an ASCII character
    (the program compares it as a signed one) and occurs. *)
Definition reported (pat l : list Z) : bool := (0 <? hd 0 pat) && (hd 0 pat <? 128) && occurs pat l.

Definition line_report (pat name l : list Z) : list Z := if reported pat l then name ++ [58] ++ l ++ [10] else [].

Definition grep_text (pat name text : list Z) : list Z := concat (line_report pat name <$> lines text).

Lemma occurs_spec pat l : pat <> [] -> occurs pat l = true <-> exists u v, l = u ++ pat ++ v.
Proof.
  intros Hp. induction l as [|c l IH]; cbn [occurs].
  - split; [done|]. intros (u & v & E). destruct u, pat; done.
  - rewrite orb_true_iff, bool_decide_eq_true, IH. split.
    + intros [E|(u & v & ->)]; [|by exists (c :: u), v].
      exists [], (drop (length pat) (c :: l)). rewrite app_nil_l. rewrite <- E at 1. by rewrite take_drop.
    + intros ([|d u] & v & E); [left|right].
      * rewrite E, app_nil_l. by rewrite take_app_length.
      * injection E as -> ->. by exists u, v.
Qed.

Lemma lines_free a : ~ In 10 a -> lines a = [a].
Proof.
  induction a as [|c a IH]; intros H; [done|]. cbn [lines]. rewrite IH by (intros ?; apply H; by right).
  destruct (Z.eqb_spec c 10) as [->|]; [exfalso; apply H; by left|done].
Qed.

Lemma lines_step a b : ~ In 10 a -> lines (a ++ 10 :: b) = a :: lines b.
Proof.
  induction a as [|c a IH]; intros H; [done|]. rewrite <- app_comm_cons. cbn [lines].
  rewrite IH by (intros ?; apply H; by right).
  destruct (Z.eqb_spec c 10) as [->|]; [exfalso; apply H; by left|done].
Qed.

(** The first line of a text, if it is ended. *)
Lemma split_line l : ~ In 10 l \/ exists a b, l = a ++ 10 :: b /\ ~ In 10 a.
Proof.
  induction l as [|c l IH]; [left; intros []|]. destruct (Z.eqb_spec c 10) as [->|Hc].
  - right. exists [], l. split; [done|]. intros [].
  - destruct IH as [H|(a & b & -> & H)].
    + left. by intros [E|E].
    + right. exists (c :: a), b. split; [done|]. by intros [E|E].
Qed.

Lemma lines_head l r : ~ In 10 l -> exists h t, lines (l ++ r) = (l ++ h) :: t.
Proof.
  intros Hl. destruct (split_line r) as [Hr|(a & b & -> & Ha)].
  - exists r, []. apply lines_free. rewrite in_app_iff. tauto.
  - exists a, (lines b). rewrite app_assoc. apply lines_step. rewrite in_app_iff. tauto.
Qed.

Lemma line_end_loop_spec n m data k a :
  load_bytes m (data + k) (length a) = a -> ~ In 10 a ->
  n = length a \/ (length a < n)%nat /\ load8 m (data + k + zlen a) = 10 ->
  line_end_loop n m data k = k + zlen a.
Proof.
  revert n k. induction a as [|c a IH]; intros n k Hl Ha Hn.
  - cbn [length] in *. rewrite !Z.add_0_r in *.
    destruct Hn as [->|[Hn E]]; [done|]. destruct n as [|n]; [lia|]. cbn [line_end_loop]. by rewrite E.
  - cbn [length] in *. rewrite load_bytes_S in Hl. injection Hl as Hc Hl. destruct n as [|n]; [lia|]. cbn [line_end_loop].
    rewrite Hc. destruct (Z.eqb_spec 10 c) as [<-|]; [by exfalso; apply Ha; left|]. cbn [negb].
    rewrite (IH n (k + 1)); [lia| |intros ?; apply Ha; by right|].
    + rewrite <- Hl at 2. f_equal. lia.
    + destruct Hn as [Hn|[Hn E]]; [left; lia|right]. split; [lia|]. rewrite <- E. f_equal. lia.
Qed.

(** * Specifications *)

Section specs.
Context `{US : UserSystemOk W} (lit : string -> Z) (s fname data : Z) (pat name : list Z).

(** Where the program has its data: the buffer [data], and apart from it the
    pattern and the name. *)
Hypotheses (Hdata : paged data 1025).
Hypotheses (Hs : paged s (zlen pat + 1)) (Hs_data : s + zlen pat < data \/ data + 1025 <= s).
Hypotheses (Hf : paged fname 33) (Hf_data : fname + 32 < data \/ data + 1025 <= fname) (Hname : zlen name <= 32).

Record scene (w : W) : Prop := {
  sc_ok : healthy w;
  sc_out : handles w 1 = Some Display;
  sc_pat : cstr (umem w) s pat;
  sc_name : cstr (umem w) fname name;
  sc_colon : literal lit w data 1025 ":";
  sc_nl : literal lit w data 1025 nl;
  sc_end : load8 (umem w) (data + 1024) <> 10
}.

(** Only the buffer and the screen changed. *)
Definition scanned (w w' : W) : Prop :=
  lasting w w' /\ typed w' = typed w /\ (forall q, handles w' q = handles w q) /\
  untouched_but (umem w) (umem w') data 1025.

Lemma scanned_trans w1 w2 w3 : scanned w1 w2 -> scanned w2 w3 -> scanned w1 w3.
Proof.
  intros (L1 & T1 & H1 & M1) (L2 & T2 & H2 & M2). split; [by eapply lasting_trans|]. split; [congruence|].
  split; [intros q; by rewrite H2|by eapply untouched_trans].
Qed.

Lemma scanned_quietly w w' : quietly w w' -> scanned w w'.
Proof. intros (L & T & H & M). split_and!; try done. eapply untouched_weaken; [exact M|by left]. Qed.

Lemma scene_kept w w' :
  lasting w w' -> handles w' 1 = handles w 1 -> untouched_but (umem w) (umem w') data 1025 ->
  load8 (umem w') (data + 1024) <> 10 -> scene w -> scene w'.
Proof.
  intros L H M E [_ P2 P3 P4 P5 P6 P7]. split.
  - apply L.
  - congruence.
  - apply (cstr_ext (umem w)); [|done]. intros x Hx. apply M; unfold paged in *; lia.
  - apply (cstr_ext (umem w)); [|done]. intros x Hx. apply M; unfold paged in *; lia.
  - by apply (literal_same lit w).
  - by apply (literal_same lit w).
  - exact E.
Qed.

Lemma scene_quietly w w' : scene w -> quietly w w' -> scene w'.
Proof.
  intros S Q. pose proof Q as (_ & _ & _ & M). pose proof (scanned_quietly w w' Q) as (L & _ & H & M').
  apply (scene_kept w); [done|done|done| |done]. rewrite M; [apply S|unfold paged in *; lia|unfold paged, USER_PAGE in *; lia].
Qed.

(** Storing a byte of the buffer. *)
Lemma scene_byte w i v :
  scene w -> 0 <= i <= 1024 -> 0 <= v < 256 -> v <> 10 ->
  let w' := set_byte w (data + i) v in
  scene w' /\ scanned w w' /\ display w' = display w /\
  (forall x, x <> data + i -> load8 (umem w') x = load8 (umem w) x) /\ load8 (umem w') (data + i) = v.
Proof.
  intros S Hi Hv Hne w'.
  destruct (set_byte_spec w (data + i) v (sc_ok w S)) as (L & D & T & H & M & V); [unfold paged in *; lia|done|].
  fold w' in L, D, T, H, M, V.
  assert (O : forall x, x <> data + i -> load8 (umem w') x = load8 (umem w) x).
  { intros x Hx. unfold w', set_byte. rewrite us_mem. by apply load8_store8_ne. }
  assert (M' : untouched_but (umem w) (umem w') data 1025) by (eapply untouched_weaken; [exact M|right; lia]).
  split; [|by split_and!]. apply (scene_kept w); [done|by rewrite H|done| |done].
  destruct (decide (i = 1024)) as [->|]; [by rewrite V|]. rewrite O by lia. apply S.
Qed.

(** The four writes of a report. *)
Lemma line_report_spec w line_start a sc :
  scene w -> 0 <= line_start -> line_start + zlen a <= 1024 -> cstr (umem w) (data + line_start) a ->
  scr_puts (display w) (name ++ [58] ++ a ++ [10]) = Some sc ->
  exists w', (w ← ece391_fdputs w 1 fname; w ← ece391_fdputs w 1 (lit ":"%string);
              w ← ece391_fdputs w 1 (data + line_start); w ← ece391_fdputs w 1 (lit nl); Some w) = Some w' /\
    quietly w w' /\ display w' = sc.
Proof.
  intros S H0 H1 Hc Hsc. rewrite scr_puts_app in Hsc.
  destruct (scr_puts (display w) name) as [s1|] eqn:E1; [|done]. cbn [mbind option_bind] in Hsc. rewrite scr_puts_app in Hsc.
  destruct (scr_puts s1 [58]) as [s2|] eqn:E2; [|done]. cbn [mbind option_bind] in Hsc. rewrite scr_puts_app in Hsc.
  destruct (scr_puts s2 a) as [s3|] eqn:E3; [|done]. cbn [mbind option_bind] in Hsc.
  destruct (fdputs_spec w fname name s1) as (w1 & -> & Q1 & D1); [apply S|apply S|apply S|unfold paged in *; lia|done|].
  cbn [mbind option_bind]. pose proof (scene_quietly _ _ S Q1) as S1.
  destruct (fdputs_literal lit w1 data 1025 ":" s2) as (w2 & -> & Q2 & D2); [apply S1|apply S1|apply S1|by rewrite D1|].
  cbn [mbind option_bind]. pose proof (scene_quietly _ _ S1 Q2) as S2.
  destruct (fdputs_spec w2 (data + line_start) a s3) as (w3 & -> & Q3 & D3);
    [apply S2|apply S2| |unfold paged in *; lia|by rewrite D2|].
  { apply (cstr_ext (umem w)); [|done]. intros x Hx. destruct Q1 as (_ & _ & _ & M1), Q2 as (_ & _ & _ & M2).
    rewrite M2, M1; [done|unfold paged, USER_PAGE in *; lia..]. }
  cbn [mbind option_bind]. pose proof (scene_quietly _ _ S2 Q3) as S3.
  destruct (fdputs_literal lit w3 data 1025 nl sc) as (w4 & -> & Q4 & D4); [apply S3|apply S3|apply S3|by rewrite D3|].
  cbn [mbind option_bind]. exists w4. split; [done|]. split; [|done].
  exact (quietly_trans _ _ _ (quietly_trans _ _ _ Q1 Q2) (quietly_trans _ _ _ Q3 Q4)).
Qed.

(** The test of the search at a position. *)
Lemma test_spec m a c l :
  cstr m s pat -> cstr m a (c :: l) ->
  (s8 (load8 m s) =? load8 m a) && (0 =? ece391_strncmp m a s (zlen pat)) =
  (0 <? hd 0 pat) && (hd 0 pat <? 128) && bool_decide (take (length pat) (c :: l) = pat).
Proof.
  intros Hp Hc. rewrite ece391_strncmp_spec, (cstr_chars_take m s pat), (cstr_chars_take m a (c :: l)) by (done || lia).
  rewrite !Nat2Z.id, firstn_all.
  assert (Ec : load8 m a = c) by (destruct Hc as (E & _); cbn [length] in E; rewrite load_bytes_S in E; by injection E).
  assert (Ep : load8 m s = hd 0 pat).
  { destruct Hp as (E & _ & Z0). destruct pat as [|h t]; [cbn [length] in Z0; by rewrite Z.add_0_r in Z0|].
    cbn [length] in E. rewrite load_bytes_S in E. by injection E. }
  pose proof (load8_range m s) as Rs. pose proof (load8_range m a) as Ra. rewrite Ec in Ra. rewrite Ec, Ep. rewrite Ep in Rs.
  assert (Hc0 : c <> 0) by (destruct Hc as (_ & F & _); by inversion F).
  assert (E : (0 =? text_order (take (length pat) (c :: l)) pat) = bool_decide (take (length pat) (c :: l) = pat)).
  { pose proof (text_order_zero (take (length pat) (c :: l)) pat) as P.
    apply eq_bool_prop_intro. rewrite bool_decide_spec. rewrite <- P;
      [|apply Forall_take; by eapply cstr_positive|by eapply cstr_positive].
    split; [intros E%Is_true_true%Z.eqb_eq; lia|intros ->; done]. }
  rewrite E. unfold s8. destruct (Z.ltb_spec 0 (hd 0 pat)) as [H0|H0]; cbn [andb].
  - destruct (Z.ltb_spec (hd 0 pat) 128) as [H1|H1]; cbn [andb].
    + rewrite Z.mod_small by lia. destruct (bool_decide_reflect (take (length pat) (c :: l) = pat)) as [Et|]; [|apply andb_false_r].
      destruct pat as [|h t]; [cbn [hd] in H0; lia|]. cbn [length firstn] in Et. injection Et as <- _. cbn [hd].
      rewrite andb_true_r. apply Z.eqb_eq. lia.
    + rewrite (Z.mod_eq _ 256) by lia. replace ((hd 0 pat + 128) / 256) with 1 by (apply Z.div_unique with (hd 0 pat - 128); lia).
      destruct (Z.eqb_spec (hd 0 pat + 128 - 256 * 1 - 128) c); [lia|done].
  - replace (hd 0 pat) with 0 by lia. change ((0 + 128) mod 256 - 128) with 0.
    by destruct (Z.eqb_spec 0 c) as [<-|].
Qed.

Lemma search_loop_spec n w line_start a i sc :
  scene w -> 0 <= line_start -> line_start + zlen a <= 1024 -> cstr (umem w) (data + line_start) a ->
  (i + n)%nat = length a ->
  scr_puts (display w) (if reported pat (drop i a) then name ++ [58] ++ a ++ [10] else []) = Some sc ->
  exists w', search_loop lit n w s (zlen pat) fname data line_start (line_start + Z.of_nat i) = Some w' /\
    quietly w w' /\ display w' = sc.
Proof.
  intros Sw H0 H1 Hc. revert i. induction n as [|n IH]; intros i Hi Hsc; cbn [search_loop].
  - rewrite drop_ge in Hsc by lia. unfold reported in Hsc. cbn [occurs] in Hsc. rewrite andb_false_r in Hsc.
    injection Hsc as <-. exists w. split; [done|]. split; [|done].
    split; [apply lasting_refl, Sw|]. by split_and!.
  - destruct (lookup_lt_is_Some_2 a i) as [c Ec]; [lia|]. rewrite (drop_S _ _ _ Ec) in Hsc.
    assert (Hd : cstr (umem w) (data + (line_start + Z.of_nat i)) (c :: drop (S i) a)).
    { rewrite <- (drop_S _ _ _ Ec). rewrite <- (take_drop i a) in Hc. apply cstr_app in Hc.
      rewrite length_take_le in Hc by lia. by rewrite Z.add_assoc. }
    rewrite (test_spec _ _ _ _ (sc_pat w Sw) Hd). unfold reported in Hsc. cbn [occurs] in Hsc.
    set (A := (0 <? hd 0 pat) && (hd 0 pat <? 128)) in *. destruct (bool_decide _) eqn:Eb.
    + rewrite orb_true_l, andb_true_r in Hsc. rewrite andb_true_r. destruct A eqn:EA; [by apply (line_report_spec w line_start a)|].
      injection Hsc as <-.
      replace (line_start + Z.of_nat i + 1) with (line_start + Z.of_nat (S i)) by lia.
      apply IH; [lia|]. unfold reported. fold A. by rewrite EA.
    + rewrite orb_false_l in Hsc. rewrite andb_false_r.
      replace (line_start + Z.of_nat i + 1) with (line_start + Z.of_nat (S i)) by lia.
      apply IH; [lia|exact Hsc].
Qed.

(** Searching a whole line. *)
Lemma search_line w line_start a sc :
  scene w -> 0 <= line_start -> line_start + zlen a <= 1024 -> cstr (umem w) (data + line_start) a ->
  scr_puts (display w) (line_report pat name a) = Some sc ->
  exists w', search_loop lit (Z.to_nat (zlen a)) w s (zlen pat) fname data line_start line_start = Some w' /\
    quietly w w' /\ display w' = sc.
Proof.
  intros Sw H0 H1 Hc Hsc. rewrite Nat2Z.id.
  pose proof (search_loop_spec (length a) w line_start a 0 sc Sw H0 H1 Hc eq_refl Hsc) as P. by rewrite Z.add_0_r in P.
Qed.

(** * The scan of a block *)

(** What a scan of [rest] leaves: the lines [done] were searched and [t] is
    carried over.  Only the last block of a file, which does not fill the buffer,
    may have an unended line searched. *)
Record split_block (last cnt : Z) (rest : list Z) (done : list (list Z)) (t : list Z) : Prop := {
  sb_lines : (forall more, lines (rest ++ more) = done ++ lines (t ++ more)) \/
             (last < 1024 /\ t = [] /\ done = lines rest);
  sb_free : ~ In 10 t;
  sb_short : zlen t <= 1023;
  sb_nonzero : Forall (fun b => b <> 0) t;
  sb_end : cnt = 0 -> t = []
}.

Definition block_read (w : W) (line_start : Z) (rest : list Z) : Prop :=
  load_bytes (umem w) (data + line_start) (length rest) = rest.

(** Ending the line at [line_start] by a zero. *)
Lemma end_line w line_start a :
  scene w -> 0 <= line_start -> line_start + zlen a <= 1024 -> block_read w line_start a ->
  Forall (fun b => b <> 0) a ->
  let w' := set_byte w (data + (line_start + zlen a)) 0 in
  scene w' /\ scanned w w' /\ display w' = display w /\ cstr (umem w') (data + line_start) a /\
  (forall x, x <> data + (line_start + zlen a) -> load8 (umem w') x = load8 (umem w) x).
Proof.
  intros Sw H0 H1 Hb Hz w'.
  destruct (scene_byte w (line_start + zlen a) 0 Sw) as (S' & Q & D & O & V); [lia|lia|lia|]. fold w' in S', Q, D, O, V.
  split; [done|]. split; [done|]. split; [done|]. split; [|done]. split; [|split; [done|]].
  - etransitivity; [|exact Hb]. apply load_bytes_ext. intros x Hx. apply O. lia.
  - rewrite <- V. f_equal. lia.
Qed.

(** Carrying the last line over to the start of the buffer. *)
Lemma carry_spec w line_start t :
  scene w -> 0 < line_start -> line_start + zlen t <= 1024 -> block_read w line_start t ->
  Forall (fun b => b <> 0) t ->
  let w1 := set_byte w (data + (line_start + zlen t)) 0 in
  exists m, ece391_strcpy (umem w1) data (data + line_start) = Some m /\
    let w' := uset w1 m in
    scene w' /\ scanned w w' /\ display w' = display w /\ block_read w' 0 t.
Proof.
  intros Sw H0 H1 Hb Hz w1.
  destruct (end_line w line_start t Sw) as (S1 & Q1 & D1 & C1 & O1); [lia|done|done|done|]. fold w1 in S1, Q1, D1, C1, O1.
  rewrite ece391_strcpy_eq, (strcpy_spec _ _ _ t C1) by lia. eexists. split; [done|]. cbv zeta.
  set (m := store_bytes (umem w1) data (t ++ [0])).
  assert (Lt : zlen (t ++ [0]) = zlen t + 1) by (rewrite length_app; simpl; lia).
  assert (Om : forall x, x < data \/ data + zlen t < x -> load8 m x = load8 (umem w1) x).
  { intros x Hx. unfold m. apply load8_store_bytes_out. lia. }
  destruct (us_set w1 m (sc_ok w1 S1)) as (L2 & D2 & T2 & H2); [intros x Hx; apply Om; unfold paged in *; lia|].
  assert (M2 : untouched_but (umem w1) (umem (uset w1 m)) data 1025).
  { rewrite us_mem. intros x _ Hx. apply Om. lia. }
  split; [|split; [|split]].
  - apply (scene_kept w1); [done|by rewrite H2|done| |done]. rewrite us_mem, Om by lia. apply S1.
  - eapply scanned_trans; [exact Q1|]. by split_and!.
  - congruence.
  - unfold block_read. rewrite us_mem, Z.add_0_r. unfold m.
    rewrite (load_bytes_take _ _ _ (length (t ++ [0]))) by (rewrite length_app; lia).
    rewrite load_store_bytes; [by rewrite take_app_length|].
    apply Forall_app. split; [|by repeat constructor]. unfold block_read in Hb. rewrite <- Hb. apply load_bytes_range.
Qed.

(** The outcome of a scan. *)
Definition scans (w : W) (r : option (W * Z)) (sc : screen) (t : list Z) : Prop :=
  exists w', r = Some (w', zlen t) /\ scene w' /\ scanned w w' /\ display w' = sc /\ block_read w' 0 t.

(** A line that is searched. *)
Lemma scan_line w line_start a sc :
  scene w -> 0 <= line_start -> line_start + zlen a <= 1024 -> block_read w line_start a ->
  Forall (fun b => b <> 0) a -> scr_puts (display w) (line_report pat name a) = Some sc ->
  let w1 := set_byte w (data + (line_start + zlen a)) 0 in
  exists w', search_loop lit (Z.to_nat (line_start + zlen a - line_start)) w1 s (zlen pat) fname data line_start line_start = Some w' /\
    scene w' /\ scanned w w' /\ display w' = sc /\
    forall x, data + (line_start + zlen a) < x <= data + 1024 -> load8 (umem w') x = load8 (umem w) x.
Proof.
  intros Sw H0 H1 Hb Hz Hsc w1.
  destruct (end_line w line_start a Sw H0 H1 Hb Hz) as (S1 & Q1 & D1 & C1 & O1). fold w1 in S1, Q1, D1, C1, O1.
  replace (line_start + zlen a - line_start) with (zlen a) by lia.
  destruct (search_line w1 line_start a sc S1 H0 H1 C1) as (w' & E & Q & D); [by rewrite D1|].
  exists w'. split; [exact E|]. split; [by eapply scene_quietly|].
  split; [eapply scanned_trans; [exact Q1|by apply scanned_quietly]|]. split; [exact D|]. intros x Hx.
  destruct Q as (_ & _ & _ & M). rewrite M; [apply O1; lia|unfold paged, USER_PAGE in *; lia..].
Qed.

(** A block that begins with an ended line. *)
Lemma block_line w line_start a b :
  ~ In 10 a -> block_read w line_start (a ++ 10 :: b) ->
  block_read w line_start a /\ block_read w (line_start + zlen a + 1) b /\
  line_end_loop (length a + S (length b)) (umem w) data line_start = line_start + zlen a /\
  (10 =? load8 (umem w) (data + (line_start + zlen a))) = true.
Proof.
  intros Hfree Hb. unfold block_read in *. rewrite length_app, load_bytes_app in Hb.
  cbn [length] in Hb. apply app_inj_1 in Hb as [Ha Hb]; [|apply length_load_bytes].
  rewrite load_bytes_S in Hb. injection Hb as H10 Hb. split; [done|]. split; [rewrite <- Hb at 2; f_equal; lia|].
  rewrite (line_end_loop_spec _ (umem w) data line_start a) by (done || (right; split; [lia|done])).
  split; [done|]. by rewrite Z.add_assoc, H10.
Qed.

(** The last line of a block, which is not ended; [x] is the byte behind it. *)
Lemma scan_last f cnt last line_start rest x :
  0 <= line_start -> last = line_start + zlen rest -> last <= 1024 -> Forall (fun b => b <> 0) rest -> ~ In 10 rest ->
  (last = 1024 -> x <> 10 /\ cnt <> 0 /\ (line_start <> 0 \/ In 10 rest)) ->
  exists done t, split_block last cnt rest done t /\
    forall w sc, scene w -> block_read w line_start rest -> load8 (umem w) (data + last) = x ->
      scr_puts (display w) (concat (line_report pat name <$> done)) = Some sc ->
      scans w (scan_loop lit (S f) w s (zlen pat) fname data cnt last line_start) sc t.
Proof.
  intros H0 El Hl Hz Hfree Hfull. cbn [scan_loop]. replace (Z.to_nat (last - line_start)) with (length rest) by lia.
  destruct (negb (10 =? x) && negb (0 =? cnt) && negb (line_start =? 0)) eqn:Et.
  + exists [], rest. pose proof Et as Et'. rewrite !andb_true_iff, !negb_true_iff, !Z.eqb_neq in Et'.
    destruct Et' as [[_ Hc] Hls]. split; [split; [by left|done|lia|done|by intros ->]|].
    intros w sc Sw Hb Hx [= <-].
    rewrite (line_end_loop_spec (length rest) (umem w) data line_start rest) by (done || by left).
    rewrite <- El, Hx, Et. destruct (carry_spec w line_start rest Sw) as (m & E & P); [lia|lia|done|done|].
    rewrite <- El in E, P. rewrite E. cbn [mbind option_bind]. eexists. split; [f_equal; f_equal; lia|]. exact P.
  + exists [rest], []. split.
    * split; [right|by intros []|simpl; lia|done|done]. rewrite lines_free by done. split; [|done].
      destruct (decide (last = 1024)) as [E|]; [exfalso|lia]. destruct (Hfull E) as (Hx & Hc & [Hls|]); [|done].
      apply Z.eqb_neq in Hc, Hls, Hx. by rewrite (Z.eqb_sym 0 cnt), (Z.eqb_sym 10 x), Hc, Hls, Hx in Et.
    * intros w sc Sw Hb Hx Hsc. cbn [fmap list_fmap concat] in Hsc. rewrite app_nil_r in Hsc.
      rewrite (line_end_loop_spec (length rest) (umem w) data line_start rest) by (done || by left).
      rewrite <- El, Hx, Et. destruct (scan_line w line_start rest sc Sw) as (w' & E & S' & Q & D & _); [done|lia|done|done|done|].
      rewrite <- El in E. rewrite E. cbn [mbind option_bind]. destruct (Z.leb_spec last (last + 1)); [|lia].
      exists w'. by split_and!.
Qed.

(** [x] is the byte behind the block. *)
Lemma scan_loop_spec fuel cnt last line_start rest x :
  0 <= line_start -> last = line_start + zlen rest -> last <= 1024 ->
  Forall (fun b => b <> 0) rest -> (length rest < fuel)%nat ->
  (last = 1024 -> x <> 10 /\ cnt <> 0 /\ (line_start <> 0 \/ In 10 rest)) ->
  exists done t, split_block last cnt rest done t /\
    forall w sc, scene w -> block_read w line_start rest -> load8 (umem w) (data + last) = x ->
      scr_puts (display w) (concat (line_report pat name <$> done)) = Some sc ->
      scans w (scan_loop lit fuel w s (zlen pat) fname data cnt last line_start) sc t.
Proof.
  revert line_start rest. induction fuel as [|f IH]; intros line_start rest H0 El Hl Hz Hfuel Hfull; [lia|].
  destruct (split_line rest) as [Hfree|(a & b & -> & Hfree)].
  - by apply scan_last.
  - cbn [scan_loop]. replace (Z.to_nat (last - line_start)) with (length (a ++ 10 :: b)) by lia.
    rewrite length_app in *. cbn [length] in *. apply Forall_app in Hz as [Hza [_ Hzb]%Forall_cons_1].
    assert (Hla : line_start + zlen a <= 1024) by lia.
    destruct (decide (b = [])) as [->|Hne].
    + exists [a], []. split.
      * split; [left; intros more; rewrite <- app_assoc; by apply lines_step|by intros []|simpl; lia|done|done].
      * intros w sc Sw Hb Hx Hsc. cbn [fmap list_fmap concat] in Hsc. rewrite app_nil_r in Hsc.
        destruct (block_line w line_start a _ Hfree Hb) as (Ha & _ & -> & ->). cbn [negb andb].
        destruct (scan_line w line_start a sc Sw H0 Hla Ha Hza Hsc) as (w' & E & S' & Q & D & _).
        rewrite E. cbn [mbind option_bind length] in *.
        destruct (Z.leb_spec last (line_start + zlen a + 1)); [|lia]. exists w'. by split_and!.
    + assert (0 < zlen b) by (destruct b; [done|simpl; lia]).
      destruct (IH (line_start + zlen a + 1) b) as (ds & t & [Sl Sf Ss Sn Se] & P);
        [lia|lia|done|done|lia|intros E; destruct (Hfull E) as (? & ? & _); split_and!; [done|done|left; lia]|].
      exists (a :: ds), t. split.
      * split; [|done..]. destruct Sl as [Sl|(Hlt & -> & ->)]; [left; intros more|right].
        -- rewrite <- app_assoc, <- app_comm_cons, lines_step, Sl by done. done.
        -- split; [done|]. split; [done|]. by rewrite lines_step.
      * intros w sc Sw Hb Hx Hsc. cbn [fmap list_fmap concat] in Hsc. rewrite scr_puts_app in Hsc.
        destruct (scr_puts (display w) (line_report pat name a)) as [sc1|] eqn:E1; [|done]. cbn [mbind option_bind] in Hsc.
        destruct (block_line w line_start a _ Hfree Hb) as (Ha & Hb' & -> & ->). cbn [negb andb].
        destruct (scan_line w line_start a sc1 Sw H0 Hla Ha Hza E1) as (w1 & E & S1 & Q1 & D1 & O1).
        rewrite E. cbn [mbind option_bind]. destruct (Z.leb_spec last (line_start + zlen a + 1)); [lia|].
        destruct (P w1 sc S1) as (w2 & E2 & S2 & Q2 & D2 & B2).
        -- unfold block_read in *. etransitivity; [|exact Hb']. apply load_bytes_ext. intros y Hy. apply O1. lia.
        -- rewrite O1 by lia. exact Hx.
        -- by rewrite D1.
        -- exists w2. split; [exact E2|]. split; [done|]. split; [by eapply scanned_trans|by split].
Qed.

(** * The file *)

(** Reading a block behind the carried line [p]. *)
Lemma read_block w fd p bytes pos :
  scene w -> fd <> 1 -> handles w fd = Some (Reading bytes pos) -> 0 <= pos <= zlen bytes ->
  zlen p <= 1023 -> block_read w 0 p ->
  let got := take (Z.to_nat (1024 - zlen p)) (drop (Z.to_nat pos) bytes) in
  exists w', ece391_read w fd (data + zlen p) (1024 - zlen p) = Some (w', zlen got) /\ scene w' /\
    lasting w w' /\ display w' = display w /\ typed w' = typed w /\ untouched_but (umem w) (umem w') data 1025 /\
    block_read w' 0 (p ++ got) /\ handles w' fd = Some (Reading bytes (pos + zlen got)) /\
    (forall q, q <> fd -> handles w' q = handles w q).
Proof.
  intros Sw Hfd Hr Hpos Hp Hb got.
  destruct (us_read w fd (data + zlen p) (1024 - zlen p) bytes pos (sc_ok w Sw) Hr) as (w' & E & L & D & T & B & M & H & H');
    [unfold paged in *; lia|]. fold got in E, B, M, H.
  assert (Lg : zlen got <= 1024 - zlen p) by (unfold got; rewrite length_take; lia).
  assert (M' : untouched_but (umem w) (umem w') data 1025) by (eapply untouched_weaken; [exact M|right; lia]).
  exists w'. split; [exact E|]. split.
  { apply (scene_kept w); [done|by apply H'|done| |done]. rewrite M; [apply Sw|unfold paged in *; lia|lia]. }
  split; [done|]. split; [done|]. split; [done|]. split; [done|]. split; [|by split].
  unfold block_read in *. rewrite Z.add_0_r in *. rewrite length_app, load_bytes_app, B. f_equal.
  etransitivity; [|exact Hb]. apply load_bytes_ext. intros x Hx. apply M; unfold paged in *; lia.
Qed.

(** Lines that fit in the buffer with their end. *)
Definition short_lines (text : list Z) : Prop :=
  Forall (fun b => b <> 0) text /\ Forall (fun l => zlen l <= 1023) (lines text).

Lemma short_lines_head l r : short_lines (l ++ r) -> ~ In 10 l -> zlen l <= 1023.
Proof.
  intros [_ H] Hl. destruct (lines_head l r Hl) as (h & t & E). rewrite E in H. apply Forall_cons_1 in H as [H _].
  rewrite length_app in H. lia.
Qed.

Lemma In_dec_10 l : In 10 l \/ ~ In 10 l.
Proof. destruct (in_dec Z.eq_dec 10 l); auto. Qed.

Lemma report_nil : line_report pat name [] = [].
Proof. unfold line_report, reported. cbn [occurs]. by rewrite andb_false_r. Qed.

Lemma grep_text_nil : grep_text pat name [] = [].
Proof. unfold grep_text. cbn [lines fmap list_fmap concat]. by rewrite report_nil. Qed.

Lemma split_text last cnt rest more ds t :
  split_block last cnt rest ds t -> (last < 1024 -> more = []) -> short_lines (rest ++ more) ->
  grep_text pat name (rest ++ more) = concat (line_report pat name <$> ds) ++ grep_text pat name (t ++ more) /\ short_lines (t ++ more).
Proof.
  intros [Sl _ _ Sn _] Hm [Hz Hfit]. apply Forall_app in Hz as [_ Hz]. unfold grep_text.
  destruct Sl as [Sl|(Hlt & -> & ->)].
  - rewrite Sl in Hfit |- *. rewrite fmap_app, concat_app. split; [done|]. apply Forall_app in Hfit as [_ Hfit].
    split; [by apply Forall_app|done].
  - rewrite (Hm Hlt), !app_nil_r. split; [|by repeat constructor; simpl; lia].
    fold (grep_text pat name []). by rewrite grep_text_nil, app_nil_r.
Qed.

Lemma block_loop_spec fuel w fd p bytes pos sc :
  scene w -> fd <> 1 -> handles w fd = Some (Reading bytes pos) -> 0 <= pos <= zlen bytes ->
  zlen p <= 1023 -> block_read w 0 p -> short_lines (p ++ drop (Z.to_nat pos) bytes) ->
  zlen bytes - pos < Z.of_nat fuel ->
  scr_puts (display w) (grep_text pat name (p ++ drop (Z.to_nat pos) bytes)) = Some sc ->
  exists w', block_loop lit fuel w fd s (zlen pat) fname data (zlen p) = Some (w', true) /\ scene w' /\
    lasting w w' /\ display w' = sc /\ typed w' = typed w /\ untouched_but (umem w) (umem w') data 1025 /\
    (exists k, handles w' fd = Some (Reading bytes k)) /\ (forall q, q <> fd -> handles w' q = handles w q).
Proof.
  revert w p pos. induction fuel as [|f IH]; intros w p pos Sw Hfd Hr Hpos Hp Hb Hfit Hfuel Hsc; [lia|].
  cbn [block_loop]. change BUFSIZE with 1024.
  destruct (read_block w fd p bytes pos Sw Hfd Hr Hpos Hp Hb) as (w1 & -> & S1 & L1 & D1 & T1 & M1 & B1 & H1 & H1').
  set (got := take (Z.to_nat (1024 - zlen p)) (drop (Z.to_nat pos) bytes)) in *. cbn [mbind option_bind].
  destruct (Z.eqb_spec (-1) (zlen got)); [lia|].
  pose proof (read_split (1024 - zlen p) pos bytes Hpos) as Es. fold got in Es. rewrite Es in Hfit, Hsc.
  set (rest := drop (Z.to_nat (pos + zlen got)) bytes) in *. rewrite app_assoc in Hfit, Hsc.
  assert (Lg : zlen got = Z.min (1024 - zlen p) (zlen bytes - pos)) by (unfold got; rewrite length_take, length_drop; lia).
  assert (Hrest : zlen (p ++ got) < 1024 -> rest = []).
  { intros H. apply drop_ge. rewrite length_app in H. lia. }
  assert (Hz : Forall (fun b => b <> 0) (p ++ got)) by (destruct Hfit as [Hz _]; by apply Forall_app in Hz as [Hz _]).
  assert (Ll : zlen (p ++ got) = zlen p + zlen got) by (rewrite length_app; lia).
  destruct (scan_loop_spec (S (Z.to_nat (zlen (p ++ got)))) (zlen got) (zlen (p ++ got)) 0 (p ++ got)
              (load8 (umem w1) (data + zlen (p ++ got)))) as (ds & t & Sp & P);
    [lia|lia|lia|done|lia| |].
  { intros E. split; [rewrite E; apply S1|]. split; [lia|]. right. destruct (In_dec_10 (p ++ got)) as [|Hn]; [done|].
    pose proof (short_lines_head _ _ Hfit Hn). lia. }
  destruct (split_text _ _ _ rest _ _ Sp Hrest Hfit) as [Hds Hfit'].
  destruct Sp as [_ _ Ss _ Se]. rewrite Hds, scr_puts_app in Hsc.
  destruct (scr_puts (display w) (concat (line_report pat name <$> ds))) as [sc1|] eqn:E1; [|done]. cbn [mbind option_bind] in Hsc.
  destruct (P w1 sc1 S1 B1 eq_refl) as (w2 & E2 & S2 & (L2 & T2 & H2 & M2) & D2 & B2); [by rewrite D1|].
  rewrite <- Ll, E2. cbn [mbind option_bind].
  assert (M12 : untouched_but (umem w) (umem w2) data 1025) by (by eapply untouched_trans).
  pose proof (lasting_trans _ _ _ L1 L2) as L12. destruct (Z.eqb_spec 0 (zlen got)) as [E0|E0].
  - rewrite (Se (eq_sym E0)), (Hrest ltac:(lia)), app_nil_r, grep_text_nil in Hsc. exists w2. split; [done|]. split; [done|]. split; [done|].
    split; [rewrite D2; by injection Hsc|]. split; [congruence|]. split; [done|]. split; [rewrite H2, H1; by eexists|].
    intros q Hq. by rewrite H2, H1'.
  - destruct (IH w2 t (pos + zlen got)) as (w3 & E3 & S3 & L3 & D3 & T3 & M3 & H3 & H3');
      [done|done|by rewrite H2|lia|done|done|done|lia|by rewrite D2|].
    exists w3. split; [exact E3|]. split; [done|]. split; [by eapply lasting_trans|]. split; [done|]. split; [congruence|].
    split; [by eapply untouched_trans|]. split; [done|]. intros q Hq. by rewrite H3', H2, H1'.
Qed.

Lemma do_one_file_spec fuel w bytes sc :
  scene w -> (exists q, 0 <= q < 8 /\ handles w q = None) -> disk w name = Some (Regular bytes) -> short_lines bytes ->
  zlen bytes < Z.of_nat fuel -> scr_puts (display w) (grep_text pat name bytes) = Some sc ->
  exists w', do_one_file lit fuel w s fname data = Some (w', 0) /\ scene w' /\ scanned w w' /\ display w' = sc.
Proof.
  intros Sw (q0 & Hq0 & Hfree) Hd Hfit Hfuel Hsc. unfold do_one_file.
  rewrite ece391_strlen_eq, (strlen_cstr _ _ _ (sc_pat w Sw)).
  destruct (us_open w fname name (sc_ok w Sw) (sc_name w Sw)) as (w1 & r & -> & L1 & D1 & T1 & M1 & R1);
    [unfold paged in *; lia|]. cbn [mbind option_bind]. rewrite take_ge, Hd in R1 by lia.
  destruct R1 as [(_ & Hno & _)|(Hr & Hn & _ & H1 & H1')]; [by exfalso; apply (Hno q0 Hq0)|].
  destruct (Z.eqb_spec (-1) r); [lia|]. assert (Hr1 : r <> 1) by (intros ->; rewrite (sc_out w Sw) in Hn; done).
  assert (M1' : untouched_but (umem w) (umem w1) data 1025) by (eapply untouched_weaken; [exact M1|by left]).
  assert (S1 : scene w1).
  { apply (scene_kept w); [done|by apply H1'|done| |done]. rewrite M1; [apply Sw|unfold paged in *; lia|lia]. }
  destruct (block_loop_spec fuel w1 r [] bytes 0 sc) as (w2 & E2 & S2 & L2 & D2 & T2 & M2 & (k & H2) & H2');
    [done|done|done|lia|simpl; lia|done|done|lia|by rewrite D1|].
  change (zlen []) with 0 in E2. rewrite E2. cbn [mbind option_bind negb].
  destruct (us_close w2 r _ (sc_ok w2 S2) Hr H2) as (w3 & -> & L3 & D3 & T3 & M3 & H3 & H3'); [done|done|].
  cbn [mbind option_bind]. change (-1 =? 0) with false. cbv iota.
  assert (M3' : untouched_but (umem w2) (umem w3) data 1025) by (eapply untouched_weaken; [exact M3|by left]).
  exists w3. split; [done|]. split.
  { apply (scene_kept w2); [done|by apply H3'|done| |done].
    rewrite M3; [apply S2|unfold paged in *; lia|unfold paged, USER_PAGE in *; lia]. }
  split; [|congruence]. split; [exact (lasting_trans _ _ _ L1 (lasting_trans _ _ _ L2 L3))|]. split; [congruence|].
  split; [|exact (untouched_trans _ _ _ _ _ M1' (untouched_trans _ _ _ _ _ M2 M3'))].
  intros q. destruct (decide (q = r)) as [->|Hq]; [by rewrite H3|]. by rewrite H3', H2', H1'.
Qed.
End specs.

(** * The directory *)

(** The locals, in the stack frames at [lo]. *)
Record grep_frame (lo n buf search data : Z) : Prop := {
  gf_paged : paged lo n;
  gf_buf : lo <= buf /\ buf + 33 <= lo + n;
  gf_search : lo <= search /\ search + 1024 <= lo + n;
  gf_data : lo <= data /\ data + 1025 <= lo + n;
  gf_buf_search : buf + 33 <= search \/ search + 1024 <= buf;
  gf_buf_data : buf + 33 <= data \/ data + 1025 <= buf;
  gf_search_data : search + 1024 <= data \/ data + 1025 <= search
}.

(** What [grep] prints for an entry that it skips, because it begins with a dot,
    or that is a text file.  Programs and the clock, which it opens all the same,
    are left open here. *)
Definition entry_report (pat : list Z) (d : list Z -> option on_disk) (name : list Z) : list Z :=
  if 46 =? hd 0 name then []
  else match d name with Some (Regular bytes) => grep_text pat name bytes | _ => [] end.

Definition searchable (blocks : nat) (d : list Z -> option on_disk) (name : list Z) : Prop :=
  zlen name <= 32 /\ Forall (fun b => b <> 0) name /\
  (hd 0 name = 46 \/
   exists bytes, d name = Some (Regular bytes) /\ short_lines bytes /\ zlen bytes < Z.of_nat blocks).

Section main.
Context `{US : UserSystemOk W} (lit : string -> Z) (lo n buf search data : Z) (pat : list Z).
Hypotheses (F : grep_frame lo n buf search data) (Hpat : zlen pat < 1024).

Record grep_ready (w : W) : Prop := {
  rd_ok : healthy w;
  rd_out : handles w 1 = Some Display;
  rd_pat : cstr (umem w) search pat;
  rd_colon : literal lit w lo n ":";
  rd_nl : literal lit w lo n nl;
  rd_end : load8 (umem w) (data + 1024) <> 10
}.

Lemma literal_within w b k t : literal lit w lo n t -> lo <= b -> b + k <= lo + n -> literal lit w b k t.
Proof. intros (Hc & Hp & Ha) H1 H2. split; [done|]. split; [done|]. lia. Qed.

Lemma ready_kept w w' b k :
  lasting w w' -> handles w' 1 = handles w 1 -> untouched_but (umem w) (umem w') b k -> lo <= b -> b + k <= lo + n ->
  b + k <= search \/ search + 1024 <= b -> load8 (umem w') (data + 1024) <> 10 -> grep_ready w -> grep_ready w'.
Proof.
  intros L H M Hb1 Hb2 Hs E [P1 P2 P3 P4 P5 P6]. pose proof (gf_paged _ _ _ _ _ F). pose proof (gf_search _ _ _ _ _ F).
  assert (M' : untouched_but (umem w) (umem w') lo n) by (intros x Hx Ho; apply M; [done|lia]).
  split; [apply L|congruence| |by apply (literal_same lit w)|by apply (literal_same lit w)|done].
  apply (cstr_ext (umem w)); [|done]. intros x Hx. apply M; unfold paged in *; lia.
Qed.

Lemma ready_scene w name :
  grep_ready w -> cstr (umem w) buf name -> scene lit search buf data pat name w.
Proof.
  intros R Hn. pose proof (gf_data _ _ _ _ _ F) as [Hd1 Hd2].
  split; [apply R|apply R|apply R|done|apply literal_within; [apply R|done..]|apply literal_within; [apply R|done..]|apply R].
Qed.

Lemma hd_zero_pad name : hd 0 (zero_pad 32 name) = hd 0 name.
Proof. by destruct name. Qed.

(** Reading the next entry, and the zero behind the name. *)
Lemma read_entry w fd pos name :
  grep_ready w -> fd <> 1 -> handles w fd = Some (Listing pos) -> names w !! Z.to_nat pos = Some name -> zlen name <= 32 ->
  exists w1, ece391_read w fd buf 32 = Some (w1, 32) /\ grep_ready w1 /\ lasting w w1 /\ display w1 = display w /\
    typed w1 = typed w /\ handles w1 fd = Some (Listing (pos + 1)) /\ (forall q, q <> fd -> handles w1 q = handles w q) /\
    load_bytes (umem w1) buf 32 = zero_pad 32 name /\ load8 (umem w1) buf = hd 0 name.
Proof.
  intros R Hfd Hh Hn Hlen. pose proof (gf_paged _ _ _ _ _ F) as Pg. pose proof (gf_buf _ _ _ _ _ F) as Pb.
  pose proof (gf_data _ _ _ _ _ F) as Pd. pose proof (gf_buf_data _ _ _ _ _ F) as Pbd.
  pose proof (gf_buf_search _ _ _ _ _ F) as Pbs.
  destruct (us_list w fd buf 32 pos (rd_ok w R) Hh) as (w1 & E & L & D & T & B & M & H & H'); [unfold paged in *; lia|lia|].
  rewrite Hn in E, B, M, H. change (Z.to_nat 32) with 32%nat in *.
  rewrite take_ge in E, B, M, H by (rewrite length_zero_pad; lia). rewrite length_zero_pad in E, B, M by lia.
  rewrite bool_decide_eq_false_2 in H by (intros E0; apply (f_equal length) in E0; rewrite length_zero_pad in E0; simpl in E0; lia).
  exists w1. split; [exact E|]. split.
  { apply (ready_kept w w1 buf 32); [done|by apply H'|done|lia|lia|lia| |done].
    rewrite M; [apply R|unfold paged in *; lia|lia]. }
  split; [done|]. split; [done|]. split; [done|]. split; [done|]. split; [done|]. split; [done|].
  rewrite <- hd_zero_pad, <- B. change 32%nat with (S 31). by rewrite load_bytes_S.
Qed.

Lemma name_ended w name :
  grep_ready w -> zlen name <= 32 -> Forall (fun b => b <> 0) name -> load_bytes (umem w) buf 32 = zero_pad 32 name ->
  let w' := set_byte w (buf + 32) 0 in
  grep_ready w' /\ lasting w w' /\ display w' = display w /\ typed w' = typed w /\
  (forall q, handles w' q = handles w q) /\ cstr (umem w') buf name.
Proof.
  intros R Hlen Hz Hb w'. pose proof (gf_paged _ _ _ _ _ F) as Pg. pose proof (gf_buf _ _ _ _ _ F) as Pb.
  pose proof (gf_data _ _ _ _ _ F) as Pd. pose proof (gf_buf_data _ _ _ _ _ F) as Pbd.
  pose proof (gf_buf_search _ _ _ _ _ F) as Pbs.
  destruct (set_byte_spec w (buf + 32) 0 (rd_ok w R)) as (L & D & T & H & M & V); [unfold paged in *; lia|lia|].
  fold w' in L, D, T, H, M, V.
  split; [|split; [done|split; [done|split; [done|split; [done|]]]]].
  { apply (ready_kept w w' (buf + 32) 1); [done|by rewrite H|done|lia|lia|lia| |done].
    rewrite M; [apply R|unfold paged in *; lia|lia]. }
  assert (B : load_bytes (umem w') buf 32 = zero_pad 32 name).
  { rewrite <- Hb. apply load_bytes_ext. intros x Hx. apply M; unfold paged in *; lia. }
  apply (cstr_zero_pad 32); [exact B|lia|exact Hz|exact V].
Qed.

Lemma search_file blocks w name bytes sc :
  grep_ready w -> cstr (umem w) buf name -> zlen name <= 32 -> (exists q, 0 <= q < 8 /\ handles w q = None) ->
  disk w name = Some (Regular bytes) -> short_lines bytes -> zlen bytes < Z.of_nat blocks ->
  scr_puts (display w) (grep_text pat name bytes) = Some sc ->
  exists w', do_one_file lit blocks w search buf data = Some (w', 0) /\ grep_ready w' /\ lasting w w' /\ display w' = sc /\
    typed w' = typed w /\ (forall q, handles w' q = handles w q).
Proof.
  intros R Hc Hlen Hfree Hd Hfit Hbl Hsc. pose proof F as [Pg Pb Ps Pd Pbs Pbd Psd].
  destruct (do_one_file_spec lit search buf data pat name) with (fuel := blocks) (w := w) (bytes := bytes) (sc := sc)
    as (w' & E & Sw & (L & T & H & M) & D); try done; try (unfold paged in *; lia).
  { by apply ready_scene. }
  exists w'. split; [exact E|]. split; [|by split_and!].
  apply (ready_kept w w' data 1025); [done|done|done|lia|lia|lia|apply Sw|done].
Qed.

(** The directory and the files do not depend on what was done. *)
Lemma searchable_kept blocks w w' l :
  lasting w w' -> Forall (searchable blocks (disk w)) l ->
  Forall (searchable blocks (disk w')) l /\ (entry_report pat (disk w') <$> l) = (entry_report pat (disk w) <$> l).
Proof.
  intros (_ & _ & K & _ & _) Hall. split.
  - eapply Forall_impl; [exact Hall|]. intros x. unfold searchable. by rewrite K.
  - apply list_fmap_ext. intros _ x _. unfold entry_report. by rewrite K.
Qed.

(** One round of the loop over the directory, for an entry that is skipped or is
    a text file; what else the directory holds does not matter. *)
Lemma grep_round fuel blocks w fd pos name sc :
  grep_ready w -> fd <> 1 -> handles w fd = Some (Listing pos) -> (exists q, 0 <= q < 8 /\ handles w q = None) ->
  names w !! Z.to_nat pos = Some name -> searchable blocks (disk w) name ->
  scr_puts (display w) (entry_report pat (disk w) name) = Some sc ->
  exists w', grep_loop lit (S fuel) blocks w fd buf search data = grep_loop lit fuel blocks w' fd buf search data /\
    grep_ready w' /\ lasting w w' /\ display w' = sc /\ typed w' = typed w /\
    handles w' fd = Some (Listing (pos + 1)) /\ (forall q, q <> fd -> handles w' q = handles w q).
Proof.
  intros R Hfd Hh (q0 & Hq0 & Hfree) En (Hlen & Hz & Hent) Hsc. cbn [grep_loop]. change (SBUFSIZE - 1) with 32.
  destruct (read_entry w fd pos name R Hfd Hh En Hlen) as (w1 & -> & R1 & L1 & D1 & T1 & H1 & H1' & B1 & E1).
  cbn [mbind option_bind]. change (negb (0 =? 32)) with true. change (-1 =? 32) with false. cbv iota. rewrite E1.
  unfold entry_report in Hsc. destruct (Z.eqb_spec 46 (hd 0 name)) as [E46|E46].
  - exists w1. injection Hsc as <-. by split_and!.
  - destruct Hent as [Hent|(bytes & Hd & Hfit & Hbl)]; [by rewrite Hent in E46|]. rewrite Hd in Hsc.
    destruct (name_ended w1 name R1 Hlen Hz B1) as (R2 & L2 & D2 & T2 & H2 & C2). set (w2 := set_byte w1 (buf + 32) 0) in *.
    pose proof (lasting_trans _ _ _ L1 L2) as (_ & _ & K2 & _).
    destruct (search_file blocks w2 name bytes sc R2 C2 Hlen) as (w3 & -> & R3 & L3 & D3 & T3 & H3);
      [exists q0; split; [done|by rewrite H2, H1' by congruence]|by rewrite K2|done|done|by rewrite D2, D1|].
    cbn [mbind option_bind]. change (negb (0 =? 0)) with false. cbv iota.
    exists w3. split; [done|]. split; [done|]. split; [exact (lasting_trans _ _ _ L1 (lasting_trans _ _ _ L2 L3))|].
    split; [done|]. split; [congruence|]. split; [by rewrite H3, H2|]. intros q Hq. by rewrite H3, H2, H1'.
Qed.

(** A run of [k] such entries, wherever in the directory: the loop prints their
    reports in order and goes on behind them. *)
Lemma grep_loop_segment k fuel blocks w fd pos sc :
  let segment := take k (drop (Z.to_nat pos) (names w)) in
  grep_ready w -> fd <> 1 -> handles w fd = Some (Listing pos) -> (exists q, 0 <= q < 8 /\ handles w q = None) ->
  0 <= pos -> length segment = k -> Forall (searchable blocks (disk w)) segment ->
  scr_puts (display w) (concat (entry_report pat (disk w) <$> segment)) = Some sc ->
  exists w', grep_loop lit (k + fuel) blocks w fd buf search data = grep_loop lit fuel blocks w' fd buf search data /\
    grep_ready w' /\ lasting w w' /\ display w' = sc /\ typed w' = typed w /\
    handles w' fd = Some (Listing (pos + Z.of_nat k)) /\ (forall q, q <> fd -> handles w' q = handles w q).
Proof.
  revert w pos sc. induction k as [|k IH]; intros w pos sc segment R Hfd Hh Hfree Hpos Hlen Hall Hsc; unfold segment in *.
  - injection Hsc as <-. exists w. rewrite Z.add_0_r. split; [done|]. split; [done|].
    split; [apply lasting_refl, R|]. by split_and!.
  - destruct (drop (Z.to_nat pos) (names w)) as [|name l] eqn:Ed; [discriminate Hlen|].
    assert (En : names w !! Z.to_nat pos = Some name) by (rewrite <- (Nat.add_0_r (Z.to_nat pos)), <- lookup_drop, Ed; done).
    assert (Ed' : drop (Z.to_nat (pos + 1)) (names w) = l).
    { rewrite (drop_S _ _ _ En) in Ed. replace (Z.to_nat (pos + 1)) with (S (Z.to_nat pos)) by lia. by injection Ed. }
    cbn [take length] in Hlen. rewrite firstn_cons in Hall, Hsc. injection Hlen as Hlen. apply Forall_cons_1 in Hall as [Hn Hall].
    cbn [fmap list_fmap concat] in Hsc. rewrite scr_puts_app in Hsc.
    destruct (scr_puts (display w) (entry_report pat (disk w) name)) as [sc1|] eqn:E1; [|discriminate]. cbn [mbind option_bind] in Hsc.
    destruct (grep_round (k + fuel) blocks w fd pos name sc1 R Hfd Hh Hfree En Hn E1) as (w1 & E & R1 & L1 & D1 & T1 & H1 & H1').
    destruct (searchable_kept blocks w w1 (take k l) L1 Hall) as [Hall1 Er]. pose proof L1 as (_ & _ & _ & N1 & _).
    destruct Hfree as (q0 & Hq0 & Hq).
    destruct (IH w1 (pos + 1) sc) as (w2 & E2 & R2 & L2 & D2 & T2 & H2 & H2'); try done.
    + exists q0. split; [done|]. by rewrite H1' by congruence.
    + lia.
    + by rewrite N1, Ed'.
    + by rewrite N1, Ed'.
    + rewrite N1, Ed', D1. change (list_fmap _ _ ?f ?x) with (f <$> x) in Hsc. by rewrite Er.
    + exists w2. split; [change (S k + fuel)%nat with (S (k + fuel)); by rewrite E|]. split; [done|].
      split; [by eapply lasting_trans|]. split; [done|]. split; [congruence|].
      split; [rewrite H2; do 2 f_equal; lia|]. intros q Hq'. by rewrite H2', H1'.
Qed.

(** Behind the last entry the program ends. *)
Lemma grep_loop_end fuel blocks w fd pos :
  grep_ready w -> handles w fd = Some (Listing pos) -> Z.of_nat (length (names w)) <= pos ->
  exists w', grep_loop lit (S fuel) blocks w fd buf search data = Some (w', 0) /\ lasting w w' /\ display w' = display w /\
    typed w' = typed w.
Proof.
  intros R Hh Hpos. cbn [grep_loop]. change (SBUFSIZE - 1) with 32.
  destruct (us_list w fd buf 32 pos (rd_ok w R) Hh) as (w1 & E & L & D & T & _).
  { pose proof F as [Pg Pb _ _ _ _ _]. unfold paged in *. lia. }
  { lia. }
  rewrite (proj2 (lookup_ge_None _ _)) in E by lia. rewrite E. cbn [mbind option_bind length].
  change (negb (0 =? Z.of_nat 0)) with false. cbv iota. by exists w1.
Qed.
(** The whole program up to its [k]-th entry: it reads the pattern, opens the
    directory and prints the reports of the first [k] entries, if these are
    skipped or text files; then it goes on behind them. *)
Lemma grep_main_segment k fuel blocks w sc :
  let segment := take k (names w) in
  healthy w -> handles w 1 = Some Display -> pat = arguments w ->
  (exists q q', 0 <= q < 8 /\ 0 <= q' < 8 /\ q <> q' /\ handles w q = None /\ handles w q' = None) ->
  literal lit w lo n "." -> literal lit w lo n ":" -> literal lit w lo n nl -> paged (lit "."%string) 32 ->
  load8 (umem w) (data + 1024) <> 10 -> disk w (bytes_of ".") = Some Folder ->
  length segment = k -> Forall (searchable blocks (disk w)) segment ->
  scr_puts (display w) (concat (entry_report pat (disk w) <$> segment)) = Some sc ->
  exists w' fd, grep_main lit (k + fuel) blocks w buf search data = grep_loop lit fuel blocks w' fd buf search data /\
    grep_ready w' /\ lasting w w' /\ display w' = sc /\ typed w' = typed w /\ handles w' fd = Some (Listing (Z.of_nat k)).
Proof.
  intros segment Hh Ho Ep (q & q' & Hq & Hq' & Hne & Fq & Fq') Hdot Hcol Hnl Hpd Hend Hfol Hlen Hall Hsc. unfold grep_main.
  pose proof F as [Pg Pb Ps Pd Pbs Pbd Psd]. change BUFSIZE with 1024.
  destruct (us_getargs w search 1024 Hh) as (w1 & -> & L1 & D1 & T1 & C1 & M1 & H1); [unfold paged in *; lia|by rewrite <- Ep|].
  cbn [mbind option_bind]. change (negb (0 =? 0)) with false. cbv iota. rewrite <- Ep in C1, M1.
  assert (M1' : untouched_but (umem w) (umem w1) lo n) by (eapply untouched_weaken; [exact M1|right; lia]).
  assert (R1 : grep_ready w1).
  { split; [apply L1|by rewrite H1|done|by apply (literal_same lit w)|by apply (literal_same lit w)|].
    rewrite M1; [done|unfold paged in *; lia|lia]. }
  destruct (us_open w1 (lit "."%string) (bytes_of ".") (rd_ok w1 R1)) as (w2 & r & -> & L2 & D2 & T2 & M2 & R2);
    [exact (proj1 (literal_same lit w w1 lo n _ M1' Hdot))|done|]. cbn [mbind option_bind]. pose proof L1 as (_ & _ & K1 & N1 & _).
  change (take 32 (bytes_of ".")) with (bytes_of ".") in R2. rewrite K1, Hfol in R2.
  destruct R2 as [(_ & Hno & _)|(Hr & Hn & _ & H2 & H2')]; [exfalso; apply (Hno q Hq); by rewrite H1|].
  destruct (Z.eqb_spec (-1) r); [lia|].
  assert (Hr1 : r <> 1) by (intros ->; rewrite (rd_out w1 R1) in Hn; done). pose proof (lasting_trans _ _ _ L1 L2) as L12.
  destruct (searchable_kept blocks w w2 segment L12 Hall) as [Ha Er]. pose proof L12 as (_ & _ & _ & N2 & _).
  destruct (grep_loop_segment k fuel blocks w2 r 0 sc) as (w3 & E3 & R3 & L3 & D3 & T3 & H3 & _).
  - apply (ready_kept w1 w2 lo 0); [done|by rewrite H2'| |lia|lia|lia| |done].
    + eapply untouched_weaken; [exact M2|by left].
    + rewrite M2; [apply R1|unfold paged in *; lia|lia].
  - done.
  - exact H2.
  - destruct (decide (q = r)) as [->|]; [exists q'|exists q]; (split; [done|]); by rewrite H2', H1 by done.
  - lia.
  - by rewrite N2, drop_0.
  - by rewrite N2, drop_0.
  - rewrite N2, drop_0. fold segment. by rewrite Er, D2, D1.
  - exists w3, r. split; [exact E3|]. split; [done|]. split; [by eapply lasting_trans|]. split; [done|]. split; [congruence|done].
Qed.
End main.
