(* ===== verification/UserKernel.v ===== *)
(** The kernel implements the system-call interface: [UserSystemOk] for a
    process in a slot.

    The program's memory is the physical memory seen through the process's
    page, at a constant distance.  A world also has what arrives from outside
    during each call: interrupts and the stack addresses of locals. *)

From S2P Require Import Prelude Memory Layout I8259 LibMem LibString CircularBuffer Paging Ece391Fs Fs Pcb.
From S2P Require Import Terminal Screen Printf Console LineInput Machine Rtc Syscall FileTable Process Boot.
From S2P Require Import Support UserSys.

Record world := World {
  w_kernel : kernel;
  w_env : Z -> env;      (* of the n-th call *)
  w_calls : Z
}.

(** A memory moved by [d]. *)
Definition shift (d : Z) (m : mem) : mem := kmap (fun x => x + d) m.

Lemma lookup_shift d m x : shift d m !! x = m !! (x - d).
Proof.
  assert (Inj (=) (=) (fun x => x + d)) by (intros a b; lia).
  replace x with ((fun x => x + d) (x - d)) at 1 by lia. apply (lookup_kmap (fun x => x + d)).
Qed.

Lemma load8_shift d m x : load8 (shift d m) x = load8 m (x - d).
Proof. unfold load8. by rewrite lookup_shift. Qed.

Lemma load_bytes_shift d m x n : load_bytes (shift d m) x n = load_bytes m (x - d) n.
Proof.
  revert x. induction n as [|n IH]; intros x; [done|]. rewrite !load_bytes_S, load8_shift, IH. do 2 f_equal. lia.
Qed.

Lemma shift_shift d d' m : d + d' = 0 -> shift d (shift d' m) = m.
Proof. intros Hd. apply map_eq. intros x. rewrite !lookup_shift. f_equal. lia. Qed.

(** * The directory *)

Lemma names_lookup m fs pos :
  fs_ok m fs -> 0 <= pos ->
  dir_names m fs !! Z.to_nat pos = if pos <? num_directory_entries m fs then Some (dir_name m fs pos) else None.
Proof.
  intros Hfs Hp. pose proof (image_layout m fs Hfs). unfold dir_names. rewrite list_lookup_fmap.
  destruct (Z.ltb_spec pos (num_directory_entries m fs)).
  - rewrite lookup_seqZ_lt by lia. replace (0 + Z.of_nat (Z.to_nat pos)) with pos by lia. reflexivity.
  - rewrite lookup_seqZ_ge by lia. done.
Qed.

Lemma dir_name_length m fs j : (length (dir_name m fs j) <= 32)%nat.
Proof.
  unfold dir_name, chars. etransitivity; [apply length_cut|]. rewrite length_load_bytes.
  unfold MAX_FILE_NAME_LENGTH. lia.
Qed.

(** A terminal whose state and memory did not change. *)
Lemma input_same `{L : Layout} s s' t q :
  input_ok s t q -> terms s' = terms s -> active_terminal s' = active_terminal s ->
  (forall x, video_memory (terms s t) <= x < video_memory (terms s t) + 4000 \/ input_row t <= x < input_row t + 128 ->
     load8 (tmem s') x = load8 (tmem s) x) ->
  input_ok s' t q /\ screen_of s' t = screen_of s t.
Proof.
  intros Hin F3 F4 M. destruct (input_ok_set_tmem s (tmem s') t q Hin M) as [Hin' Es]. split.
  - destruct Hin' as [[Va Vv] Ht Hs Hr Hl]. cbn [terms set_tmem tmem active_terminal] in *. split; [split|done| | |].
    + by rewrite F4.
    + intros t' Ht'. rewrite F3. unfold get_terminal_output_buffer in *. rewrite F4. by apply Vv.
    + destruct Hs as [Hs1 Hs2 Hs3]. unfold screen_of in *. cbn [terms set_tmem tmem cells col row] in *. rewrite F3.
      split; [apply length_screen_cells|exact Hs2|exact Hs3].
    + rewrite F3. exact Hr.
    + rewrite F3. exact Hl.
  - rewrite <- Es. unfold screen_of. cbn [terms set_tmem tmem]. by rewrite F3.
Qed.

Section implementation.
Context `{L : Layout} `{LOk : !LayoutOk L}.
Context (test_suite : tty -> Z -> tty) (rtc_handler_wrapper : Z).
(** The process is in slot [i]; its calls run on its kernel stack. *)
Context (i esp : Z).

Let pcb := get_pcb_from_slot i.
Let page := get_process_page_from_slot i.

(** Distance of the physical page from the program's. *)
Definition page_shift : Z := page - USER_PAGE.

Definition call (w : world) (f : kernel -> env -> option (kernel * Z)) : option (world * Z) :=
  '(k, r) ← f (w_kernel w) (w_env w (w_calls w)); Some (World k (w_env w) (w_calls w + 1), r).

Definition kernel_system : UserSystem world := {|
  umem w := shift (- page_shift) (kmem (w_kernel w));
  uset w m := World (set_kmem (w_kernel w) (shift page_shift m)) (w_env w) (w_calls w);
  ece391_read w fd buf n := call w (fun k e => syscall_read test_suite k esp e fd buf n);
  ece391_write w fd buf n := call w (fun k e => syscall_write k esp fd buf n);
  ece391_open w a := call w (fun k e => syscall_open rtc_handler_wrapper k esp e a);
  ece391_close w fd := call w (fun k e => syscall_close k esp fd);
  ece391_getargs w buf n := call w (fun k e => syscall_getargs k esp buf n)
|}.
#[local] Existing Instance kernel_system.

(** * The state of the process *)

Hypotheses (Hi : 0 <= i < 6) (Hesp : pcb < esp <= get_kernel_stack_base_from_slot i).

Definition process_term (k : kernel) : Z := pcb_get (kmem k) pcb terminal_num.

(** The files behind descriptors stay within their lengths; only 0 and 1 are
    the terminal. *)
Definition fd_ok (m : mem) (fs : fs_ptrs) (fd : Z) : Prop :=
  exists o, fops_at (f_fops m (fa pcb fd)) = Some o /\
    (2 <= fd -> o <> Stdin_fops /\ o <> Stdout_fops) /\
    (o = File_fops -> inode_ok m fs (f_inode m (fa pcb fd)) /\
                      f_position m (fa pcb fd) <= file_length m fs (f_inode m (fa pcb fd))).

Definition handle_at (m : mem) (fs : fs_ptrs) (fd : Z) : option handle :=
  match fd_ops m pcb fd with
  | Some File_fops => Some (Reading (file_bytes m fs (f_inode m (fa pcb fd))) (f_position m (fa pcb fd)))
  | Some Dir_fops => Some (Listing (f_position m (fa pcb fd)))
  | Some Rtc_fops => Some Clock
  | Some Stdin_fops => Some Keyboard
  | Some Stdout_fops => Some Display
  | None => None
  end.

Definition disk_at (m : mem) (fs : fs_ptrs) (name : list Z) : option on_disk :=
  j ← dir_lookup m fs name;
  let d := directory_entry fs j in
  if dentry_file_type m d =? RTC_FT then Some Device
  else if dentry_file_type m d =? DIRECTORY_FT then Some Folder
  else if dentry_file_type m d =? FILE_FT then Some (Regular (file_bytes m fs (dentry_inode_num m d)))
  else None.

Record process_ok (w : world) : Prop := {
  po_cr3 : cr3 (w_kernel w) = get_process_pd i;
  po_space : exists va, va mod 0x1000 = 0 /\ space_ok (kmem (w_kernel w)) i page va;
  po_local : forall n, pcb + sizeof_pcb_t <= e_local (w_env w n) /\
                       e_local (w_env w n) + 64 <= get_kernel_stack_base_from_slot i;
  po_fs : fs_ok (kmem (w_kernel w)) (kfs (w_kernel w));
  po_image : forall x, fs_boot_ptr (kfs (w_kernel w)) <= x < image_end (kmem (w_kernel w)) (kfs (w_kernel w)) ->
    boot_kept x;
  po_files : forall j, 0 <= j < num_directory_entries (kmem (w_kernel w)) (kfs (w_kernel w)) ->
    dentry_file_type (kmem (w_kernel w)) (directory_entry (kfs (w_kernel w)) j) = FILE_FT ->
    inode_ok (kmem (w_kernel w)) (kfs (w_kernel w))
      (dentry_inode_num (kmem (w_kernel w)) (directory_entry (kfs (w_kernel w)) j));
  po_single : single_terminal (ktty (w_kernel w)) = 0;
  po_input : exists q, input_ok (ktty (w_kernel w)) (process_term (w_kernel w)) q;
  po_args : zlen (string_at (kmem (w_kernel w)) (args pcb)) < 128;
  po_fds : forall fd, 0 <= fd < 8 -> fd_used (kmem (w_kernel w)) pcb fd = true ->
    fd_ok (kmem (w_kernel w)) (kfs (w_kernel w)) fd
}.

Definition process_typed (w : world) : list Z :=
  let k := w_kernel w in contents (input_buffer (terms (ktty k) (process_term k))) (kmem k).

(** What the process relies on, besides its descriptors: the image and its
    PCB; and then the page tables and the typed characters. *)
Definition core (k : kernel) (x : Z) : Prop :=
  fs_boot_ptr (kfs k) <= x < image_end (kmem k) (kfs k) \/ pcb + 168 <= x < pcb + 438.

Definition firm (k : kernel) (x : Z) : Prop :=
  core k x \/ get_process_pd i <= x < get_process_pd i + 0x2000 \/ vmem_pt <= x < vmem_pt + 4096 \/
  input_row (process_term k) <= x < input_row (process_term k) + 128.

Record same_core (w w' : world) : Prop := {
  sc_env : w_env w' = w_env w;
  sc_fs : kfs (w_kernel w') = kfs (w_kernel w);
  sc_cr3 : cr3 (w_kernel w') = cr3 (w_kernel w);
  sc_single : single_terminal (ktty (w_kernel w')) = single_terminal (ktty (w_kernel w));
  sc_mem : forall x, core (w_kernel w) x -> load8 (kmem (w_kernel w')) x = load8 (kmem (w_kernel w)) x
}.

(** * Memory *)

Lemma load8_umem w v : load8 (umem w) v = load8 (kmem (w_kernel w)) (v + page_shift).
Proof. cbn [umem kernel_system]. rewrite load8_shift. f_equal. lia. Qed.

Lemma load_bytes_umem w v n : load_bytes (umem w) v n = load_bytes (kmem (w_kernel w)) (v + page_shift) n.
Proof. cbn [umem kernel_system]. rewrite load_bytes_shift. f_equal. lia. Qed.

Lemma umem_uset w m : umem (uset w m) = m.
Proof. cbn [umem uset kernel_system w_kernel]. rewrite kmem_set_kmem. apply shift_shift. lia. Qed.

Lemma user_addr_page w v :
  process_ok w -> USER_PAGE <= v < USER_PAGE_END -> user_addr (w_kernel w) v = Some (v + page_shift).
Proof.
  intros ok Hv. destruct (po_space w ok) as (va & Hva & Hs). unfold user_addr. rewrite (po_cr3 w ok).
  pose proof (process_page_eq i Hi) as Ep. fold page in Ep. unfold USER_PAGE, USER_PAGE_END in *.
  rewrite (translate_space _ i page va); [|exact Hs|done|rewrite Ep; divlia|exact Hva|lia].
  unfold address_space. destruct (Z.leb_spec 0x8000000 v), (Z.ltb_spec v 0x8400000); try lia. cbn [andb fmap option_fmap option_map fst].
  f_equal. unfold page_shift, USER_PAGE. lia.
Qed.

(** * What a process keeps *)

(** The directory, while the image stays. *)
Lemma image_entry w m' j :
  let m := kmem (w_kernel w) in
  let fs := kfs (w_kernel w) in
  process_ok w -> same_image m m' fs -> 0 <= j < num_directory_entries m fs ->
  dentry_file_type m' (directory_entry fs j) = dentry_file_type m (directory_entry fs j) /\
  dentry_inode_num m' (directory_entry fs j) = dentry_inode_num m (directory_entry fs j) /\
  dir_name m' fs j = dir_name m fs j.
Proof.
  intros m fs ok Is Hj. pose proof (image_layout m fs (po_fs w ok)) as IL.
  split; [|split].
  - unfold dentry_file_type. apply (image_load32 m fs m' Is); unfold directory_entry; lia.
  - by apply (image_dentry_inode m m' fs j (po_fs w ok) Is).
  - unfold dir_name, chars. f_equal. apply load_bytes_ext. intros x Hx. apply Is.
    unfold directory_entry, MAX_FILE_NAME_LENGTH in *. lia.
Qed.

Lemma image_names w m' :
  let m := kmem (w_kernel w) in
  let fs := kfs (w_kernel w) in
  process_ok w -> same_image m m' fs -> dir_names m' fs = dir_names m fs.
Proof.
  intros m fs ok Is. unfold dir_names. destruct (image_counts m fs (po_fs w ok) m' Is) as (-> & _ & _).
  apply list_fmap_ext. intros j x Hx. apply lookup_seqZ in Hx as [-> Hx]. apply (image_entry w m' _ ok Is).
  fold m fs. lia.
Qed.

Lemma image_disk w m' name :
  let m := kmem (w_kernel w) in
  let fs := kfs (w_kernel w) in
  process_ok w -> same_image m m' fs -> disk_at m' fs name = disk_at m fs name.
Proof.
  intros m fs ok Is. unfold disk_at. rewrite (image_dir_lookup m m' fs name (po_fs w ok) Is).
  destruct (dir_lookup m fs name) as [j|] eqn:Ej; [|done]. cbn [mbind option_bind].
  destruct (dir_lookup_bounds _ _ _ _ Ej) as (Hj & _ & _).
  destruct (image_entry w m' j ok Is Hj) as (E1 & E2 & _). fold fs m in E1, E2. rewrite E1, E2.
  destruct (_ =? RTC_FT); [done|]. destruct (_ =? DIRECTORY_FT); [done|].
  destruct (Z.eqb_spec (dentry_file_type m (directory_entry fs j)) FILE_FT) as [Ef|]; [|done].
  rewrite (image_file_bytes m fs (po_fs w ok) m' Is); [done|]. by apply (po_files w ok).
Qed.

Section keeping.
Context (w w' : world).
Hypotheses (ok : process_ok w) (sc : same_core w w').
Let k := w_kernel w.
Let k' := w_kernel w'.
Let m := kmem k.
Let m' := kmem k'.
Let fs := kfs k.

Lemma core_image : same_image m m' fs.
Proof. intros x Hx. apply (sc_mem _ _ sc). by left. Qed.

Lemma core_term : process_term k' = process_term k.
Proof.
  unfold process_term. apply pcb_get_agree. intros x Hx. simpl in Hx. apply (sc_mem _ _ sc).
  right. lia.
Qed.

Lemma core_args : string_at m' (args pcb) = string_at m (args pcb).
Proof.
  destruct (cstr_string_at m (args pcb)) as [Hc _], (cstr_string_at m' (args pcb)) as [Hc' _].
  apply (cstr_inj m' (args pcb)); [exact Hc'|]. apply (cstr_ext m); [|exact Hc]. intros x Hx.
  apply (sc_mem _ _ sc). right. pose proof (po_args w ok).
  unfold args, args_offset in *. fold k m in H. lia.
Qed.

Lemma core_names : dir_names m' fs = dir_names m fs.
Proof. exact (image_names w m' ok core_image). Qed.

Lemma core_disk name : disk_at m' fs name = disk_at m fs name.
Proof. exact (image_disk w m' name ok core_image). Qed.

(** A descriptor whose bytes did not change. *)
Lemma core_handle fd :
  0 <= fd < 8 -> (forall x, fa pcb fd <= x < fa pcb fd + 16 -> load8 m' x = load8 m x) ->
  handle_at m' fs fd = handle_at m fs fd /\ (fd_used m' pcb fd = true -> fd_ok m' fs fd).
Proof.
  intros Hfd M. pose proof (po_fds w ok fd Hfd) as F. fold k m fs in F.
  assert (E : forall a, 0 <= a <= 12 -> load32 m' (fa pcb fd + a) = load32 m (fa pcb fd + a)).
  { intros a Ha. apply load_le_ext. intros x Hx. simpl in Hx. apply M. lia. }
  assert (E0 : f_fops m' (fa pcb fd) = f_fops m (fa pcb fd)).
  { unfold f_fops. rewrite <- (Z.add_0_r (fa pcb fd)). apply E. lia. }
  assert (Eu : fd_used m' pcb fd = fd_used m pcb fd).
  { unfold fd_used, flags_in_use, f_flags. by rewrite E by lia. }
  assert (Ei : f_inode m' (fa pcb fd) = f_inode m (fa pcb fd)) by (apply E; lia).
  assert (Ep : f_position m' (fa pcb fd) = f_position m (fa pcb fd)) by (apply E; lia).
  unfold handle_at, fd_ops, fd_ok. rewrite Eu, E0, Ei, Ep. destruct (fd_used m pcb fd) eqn:U.
  - destruct (F eq_refl) as (o & Ho & Hk & Hino). rewrite Ho. split.
    + destruct (negb (bad_fd fd)); cbn [andb]; [|done]. destruct o; try done.
      destruct (Hino eq_refl) as [Hi' _]. by rewrite (image_file_bytes m fs (po_fs w ok) m' core_image).
    + intros _. exists o. split; [exact eq_refl|]. split; [exact Hk|]. intros ->. destruct (Hino eq_refl) as [Hi' Hp].
      split; [by apply (same_image_inode_ok m fs (po_fs w ok) m' core_image)|].
      rewrite (image_file_length m fs (po_fs w ok) m' core_image) by apply Hi'. exact Hp.
  - split; [|discriminate]. by rewrite andb_false_r.
Qed.

Lemma handle_range m1 fs1 fd : ~ 0 <= fd < 8 -> handle_at m1 fs1 fd = None.
Proof.
  intros Hfd. unfold handle_at, fd_ops. destruct (bad_fd fd) eqn:E; [done|].
  by apply bad_fd_range in E.
Qed.

Lemma core_ok :
  (exists va, va mod 0x1000 = 0 /\ space_ok m' i page va) -> (exists q, input_ok (ktty k') (process_term k') q) ->
  (forall fd, 0 <= fd < 8 -> fd_used m' pcb fd = true -> fd_ok m' fs fd) -> process_ok w'.
Proof.
  intros Hs Hin Hfd. pose proof ok as [C1 _ C3 C4 C5 C6 C7 C8 C9 C10].
  pose proof sc as [S1 S2 S3 S4 M].
  split; rewrite ?S1, ?S2, ?S3, ?S4; try done.
  - exact (same_image_fs_ok m fs C4 m' core_image).
  - intros x Hx. apply C5. pose proof (image_end_same m fs C4 m' core_image) as E. unfold m, m', fs, k, k' in E.
    by rewrite E in Hx.
  - intros j Hj. destruct (image_counts m fs C4 m' core_image) as (E & _ & _). unfold m, m', fs, k, k' in E.
    rewrite E in Hj. destruct (image_entry w m' j ok core_image Hj) as (E1 & E2 & _). unfold m', k' in E1, E2. rewrite E1, E2.
    intros Hf. apply (same_image_inode_ok m fs C4 m' core_image). by apply C6.
  - pose proof core_args as E. unfold m, m', k, k' in E. by rewrite E.
Qed.
End keeping.

Definition video_base (k : kernel) : Z := video_memory (terms (ktty k) (process_term k)).

(** Memory that no call of the process writes: all but its page, its
    descriptors, the clock fields of its PCB, its kernel stack and its screen. *)
Definition off_process (k : kernel) (x : Z) : Prop :=
  (x < page \/ page + 0x400000 <= x) /\ (x < pcb + 40 \/ pcb + 168 <= x) /\
  (x < pcb + 438 \/ pcb + 448 <= x < pcb + 452 \/ pcb + 8192 <= x) /\
  (x < video_base k \/ video_base k + 4000 <= x).

(** The contract's "beyond". *)
Record elsewhere (w w' : world) : Prop := {
  el_env : w_env w' = w_env w;
  el_fs : kfs (w_kernel w') = kfs (w_kernel w);
  el_cr3 : cr3 (w_kernel w') = cr3 (w_kernel w);
  el_single : single_terminal (ktty (w_kernel w')) = single_terminal (ktty (w_kernel w));
  el_active : active_terminal (ktty (w_kernel w')) = active_terminal (ktty (w_kernel w));
  el_term : process_term (w_kernel w') = process_term (w_kernel w);
  el_terms : forall t, t <> process_term (w_kernel w) ->
    terms (ktty (w_kernel w')) t = terms (ktty (w_kernel w)) t;
  el_video : video_base (w_kernel w') = video_base (w_kernel w);
  el_mem : forall x, off_process (w_kernel w) x -> load8 (kmem (w_kernel w')) x = load8 (kmem (w_kernel w)) x
}.

Lemma elsewhere_refl w : elsewhere w w.
Proof. by split. Qed.

Lemma elsewhere_trans w1 w2 w3 : elsewhere w1 w2 -> elsewhere w2 w3 -> elsewhere w1 w3.
Proof.
  intros [A1 A2 A3 A4 A5 A6 A7 A8 A9] [B1 B2 B3 B4 B5 B6 B7 B8 B9]. split; try congruence.
  - intros t Ht. rewrite B7 by congruence. by apply A7.
  - intros x Hx. rewrite B9; [by apply A9|]. unfold off_process in *. by rewrite A8.
Qed.

Lemma firm_space w w' :
  process_ok w -> (forall x, firm (w_kernel w) x -> load8 (kmem (w_kernel w')) x = load8 (kmem (w_kernel w)) x) ->
  exists va, va mod 0x1000 = 0 /\ space_ok (kmem (w_kernel w')) i page va.
Proof.
  intros ok M. destruct (po_space w ok) as (va & Hva & Hs). exists va. split; [exact Hva|].
  apply (space_ok_ext (kmem (w_kernel w))); [|exact Hs]. intros x Hx. apply M. unfold firm. tauto.
Qed.

(** The contract's "lasting", for this implementation. *)
Definition kept (w w' : world) : Prop :=
  process_ok w' /\
  string_at (kmem (w_kernel w')) (args pcb) = string_at (kmem (w_kernel w)) (args pcb) /\
  (forall n, disk_at (kmem (w_kernel w')) (kfs (w_kernel w')) n = disk_at (kmem (w_kernel w)) (kfs (w_kernel w)) n) /\
  dir_names (kmem (w_kernel w')) (kfs (w_kernel w')) = dir_names (kmem (w_kernel w)) (kfs (w_kernel w)) /\
  elsewhere w w'.

Lemma kept_intro w w' :
  process_ok w -> same_core w w' -> elsewhere w w' ->
  (forall x, firm (w_kernel w) x -> load8 (kmem (w_kernel w')) x = load8 (kmem (w_kernel w)) x) ->
  (exists q, input_ok (ktty (w_kernel w')) (process_term (w_kernel w')) q) ->
  (forall fd, 0 <= fd < 8 -> fd_used (kmem (w_kernel w')) pcb fd = true ->
     fd_ok (kmem (w_kernel w')) (kfs (w_kernel w)) fd) -> kept w w'.
Proof.
  intros ok sc el Mf Hin Hfd. split; [apply (core_ok w); [done|done|by apply (firm_space w)|done|done]|]. rewrite (sc_fs _ _ sc).
  split; [by apply core_args|]. split; [intros n; by apply core_disk|]. split; [by apply core_names|exact el].
Qed.

(** The screen of the process. *)
Definition process_screen (w : world) : screen := screen_of (ktty (w_kernel w)) (process_term (w_kernel w)).

Definition solid (k : kernel) (x : Z) : Prop := firm k x \/ video_base k <= x < video_base k + 4000.

Lemma process_video w : process_ok w ->
  0 <= process_term (w_kernel w) < 3 /\
  (0xB8000 <= video_base (w_kernel w) /\ video_base (w_kernel w) + 4000 <= 0xBA000 \/
   output_buffer <= video_base (w_kernel w) /\ video_base (w_kernel w) + 4000 <= output_buffer + 3 * 8192).
Proof.
  intros ok. destruct (po_input w ok) as (q & [[_ Hv] Ht _ _ _]). split; [exact Ht|].
  unfold video_base. rewrite Hv by exact Ht.
  unfold get_terminal_output_buffer, VIDEO_PHYS_ADDR, output_row, FOUR_KB_ALIGNED. destruct (_ =? _); lia.
Qed.

Lemma firm_range w x : process_ok w -> firm (w_kernel w) x ->
  0x400000 <= x < 0x7F0000 \/ pcb + 168 <= x < pcb + 438 \/ 0x7C00000 <= x < 0x8000000.
Proof.
  intros ok Hx. destruct (process_video w ok) as [Ht _]. destruct (slot_tables i Hi) as (_ & T1 & T2 & _).
  destruct lay_vmem_pt as [[V1 V2] _], lay_input as [N1 N2]. unfold KERNEL_PAGE_START, KERNEL_IMAGE_END in *.
  destruct Hx as [[Hx|Hx]|[Hx|[Hx|Hx]]]; [apply (po_image w ok) in Hx as [Hx _]; lia|lia|lia|lia|].
  unfold input_row, KEYBOARD_BUFFER_SIZE in Hx. lia.
Qed.

Lemma solid_range w x : process_ok w -> solid (w_kernel w) x ->
  x < 0x7F0000 \/ pcb + 168 <= x < pcb + 438 \/ 0x7C00000 <= x < 0x8000000.
Proof.
  intros ok [Hx|Hx]; [pose proof (firm_range w x ok Hx); lia|]. destruct (process_video w ok) as [_ Hv].
  destruct lay_output as [[O1 O2] _]. unfold KERNEL_PAGE_START, KERNEL_IMAGE_END in *. lia.
Qed.

(** The screen is no part of it. *)
Lemma firm_off_screen w x : process_ok w -> firm (w_kernel w) x ->
  x < video_base (w_kernel w) \/ video_base (w_kernel w) + 4000 <= x.
Proof.
  intros ok Hx. destruct (process_video w ok) as [Ht Hv]. pose proof (firm_range w x ok Hx) as R.
  pose proof (slot_pcb_range i Hi). fold pcb in H. destruct (slot_tables i Hi) as (_ & T1 & T2 & _). destruct lay_output as [[O1 O2] _], lay_vmem_pt_apart as [W1 W2].
  destruct lay_buffers_apart as [B|B]; unfold KERNEL_PAGE_START, KERNEL_IMAGE_END in *;
    (destruct Hx as [[Hx|Hx]|[Hx|[Hx|Hx]]]; [apply (po_image w ok) in Hx as (_ & Hx & _); lia|lia|lia|lia|];
     unfold input_row, KEYBOARD_BUFFER_SIZE in Hx; lia).
Qed.

(** Calls that change memory only. *)
Lemma change_mem w k' n :
  process_ok w -> same_tty (w_kernel w) k' ->
  (forall x, solid (w_kernel w) x -> load8 (kmem k') x = load8 (kmem (w_kernel w)) x) ->
  (forall x, off_process (w_kernel w) x -> load8 (kmem k') x = load8 (kmem (w_kernel w)) x) ->
  (forall fd, 0 <= fd < 8 -> fd_used (kmem k') pcb fd = true -> fd_ok (kmem k') (kfs (w_kernel w)) fd) ->
  let w' := World k' (w_env w) n in
  same_core w w' /\ kept w w' /\ process_screen w' = process_screen w /\ process_typed w' = process_typed w.
Proof.
  intros ok [F1 F2 F3 F4 F5] M Mo Hfd w'.
  assert (sc : same_core w w').
  { split; try done. intros x Hx. apply M. left. by left. }
  pose proof (core_term w w' sc) as Et. cbn [w_kernel w'] in Et. destruct (po_input w ok) as (q & Hin).
  destruct (input_same (ktty (w_kernel w)) (ktty k') (process_term (w_kernel w)) q Hin F3 F4) as [Hin2 Es].
  { intros x [Hx|Hx]; apply M; [by right|left; unfold firm; tauto]. }
  rewrite <- Et in Hin2.
  assert (el : elsewhere w w').
  { split; cbn [w_kernel w_env w']; try done; [by rewrite F3|]. unfold video_base. by rewrite F3, Et. }
  split; [exact sc|]. split; [apply kept_intro; [done|done|exact el|intros x Hx; apply M; by left|by exists q|exact Hfd]|]. split.
  - unfold process_screen. cbn [w_kernel w']. by rewrite Et.
  - unfold process_typed. cbn [w_kernel w']. rewrite Et. destruct (in_ring _ _ _ Hin2) as (_ & _ & _ & E2).
    destruct (in_ring _ _ _ Hin) as (_ & _ & _ & E1). rewrite Et in E2. unfold kmem. by rewrite E2, E1.
Qed.

(** A process that runs again after others did. *)
Lemma resume w k' n q :
  process_ok w -> kfs k' = kfs (w_kernel w) -> cr3 k' = cr3 (w_kernel w) ->
  single_terminal (ktty k') = single_terminal (ktty (w_kernel w)) ->
  (exists va, va mod 0x1000 = 0 /\ space_ok (kmem k') i page va) ->
  (forall x, fs_boot_ptr (kfs (w_kernel w)) <= x < image_end (kmem (w_kernel w)) (kfs (w_kernel w)) \/
             pcb + 40 <= x < pcb + 438 \/ page <= x < page + 0x400000 ->
     load8 (kmem k') x = load8 (kmem (w_kernel w)) x) ->
  input_ok (ktty k') (process_term (w_kernel w)) q ->
  let w' := World k' (w_env w) n in
  process_ok w' /\ process_typed w' = q /\ process_screen w' = screen_of (ktty k') (process_term (w_kernel w)) /\
  string_at (kmem k') (args pcb) = string_at (kmem (w_kernel w)) (args pcb) /\
  (forall n, disk_at (kmem k') (kfs k') n = disk_at (kmem (w_kernel w)) (kfs (w_kernel w)) n) /\
  dir_names (kmem k') (kfs k') = dir_names (kmem (w_kernel w)) (kfs (w_kernel w)) /\
  (forall fd, handle_at (kmem k') (kfs k') fd = handle_at (kmem (w_kernel w)) (kfs (w_kernel w)) fd) /\
  untouched_but (umem w) (umem w') USER_PAGE 0.
Proof.
  intros ok F1 F2 F5 Hs M Hin w'.
  assert (sc : same_core w w') by (split; try done; intros x [Hx|Hx]; apply M; [by left|right; left; lia]).
  assert (Mf : forall fd, 0 <= fd < 8 -> forall x, fa pcb fd <= x < fa pcb fd + 16 ->
            load8 (kmem k') x = load8 (kmem (w_kernel w)) x).
  { intros fd Hfd x Hx. apply M. right. left. unfold fa, fa_offset, sizeof_file_t in Hx. lia. }
  pose proof (core_term w w' sc) as Et. cbn [w_kernel w'] in Et. rewrite F1. split_and!.
  - apply (core_ok w); [done|done|exact Hs|exists q; cbn [w_kernel w']; by rewrite Et|].
    intros fd Hfd. exact (proj2 (core_handle w w' ok sc fd Hfd (Mf fd Hfd))).
  - unfold process_typed. cbn [w_kernel w']. rewrite Et. by destruct (in_ring _ _ _ Hin) as (_ & _ & _ & E).
  - unfold process_screen. cbn [w_kernel w']. by rewrite Et.
  - exact (core_args w w' ok sc).
  - exact (core_disk w w' ok sc).
  - exact (core_names w w' ok sc).
  - intros fd. destruct (decide (0 <= fd < 8)) as [Hfd|Hfd]; [|by rewrite !handle_range].
    exact (proj1 (core_handle w w' ok sc fd Hfd (Mf fd Hfd))).
  - intros x Hx _. rewrite !load8_umem. apply M. right. right. unfold page_shift, USER_PAGE, USER_PAGE_END in *. lia.
Qed.

(** * The contract *)

#[local] Abbreviation kmem_of w := (kmem (w_kernel w)).
#[local] Abbreviation handles_of w fd := (handle_at (kmem (w_kernel w)) (kfs (w_kernel w)) fd).

Lemma page_range : 0x800000 <= page /\ page + 0x400000 <= 0x2000000.
Proof. unfold page. rewrite process_page_eq by exact Hi. lia. Qed.

Lemma pcb_range : 0x7F4000 <= pcb /\ pcb + 8192 <= 0x800000.
Proof. exact (slot_pcb_range i Hi). Qed.

Lemma fa_range fd : 0 <= fd < 8 -> pcb + 40 <= fa pcb fd /\ fa pcb fd + 16 <= pcb + 168.
Proof. unfold fa, fa_offset, sizeof_file_t. lia. Qed.

(** Memory changes in a part of the page of the program, in the descriptors
    [changed], the clock fields of the PCB and the kernel stack behind it. *)
Lemma call_change w k' n a len (changed : Z -> bool) :
  process_ok w -> same_tty (w_kernel w) k' -> USER_PAGE <= a -> 0 <= len -> a + len <= USER_PAGE_END ->
  (forall x, x < a + page_shift \/ a + len + page_shift <= x ->
     (forall fd, 0 <= fd < 8 -> changed fd = true -> x < fa pcb fd \/ fa pcb fd + 16 <= x) ->
     x < pcb + 438 \/ pcb + 448 <= x < pcb + 452 \/ pcb + 8192 <= x -> load8 (kmem k') x = load8 (kmem_of w) x) ->
  (forall fd, 0 <= fd < 8 -> changed fd = true -> fd_used (kmem k') pcb fd = true ->
     fd_ok (kmem k') (kfs (w_kernel w)) fd) ->
  let w' := World k' (w_env w) n in
  kept w w' /\ process_screen w' = process_screen w /\ process_typed w' = process_typed w /\
  (forall fd, changed fd = false -> handles_of w' fd = handles_of w fd) /\ untouched_but (umem w) (umem w') a len.
Proof.
  intros ok T Ha Hl Hb M Hc w'. pose proof page_range as Hp. pose proof pcb_range as Hq.
  assert (Ms' : forall x, x < page \/ page + 0x400000 <= x -> x < pcb + 40 \/ pcb + 168 <= x ->
            x < pcb + 438 \/ pcb + 448 <= x < pcb + 452 \/ pcb + 8192 <= x -> load8 (kmem k') x = load8 (kmem_of w) x).
  { intros x Hx Hf Ho. apply M; [unfold page_shift, USER_PAGE, USER_PAGE_END in *; lia| |lia].
    intros fd Hfd _. pose proof (fa_range fd Hfd). lia. }
  assert (Mk : forall x, solid (w_kernel w) x -> load8 (kmem k') x = load8 (kmem_of w) x).
  { intros x Hx. pose proof (solid_range w x ok Hx). apply Ms'; lia. }
  assert (sc : same_core w w').
  { destruct T. split; try done. intros x Hx. apply Mk. left. by left. }
  assert (Mf : forall fd, 0 <= fd < 8 -> changed fd = false ->
            forall x, fa pcb fd <= x < fa pcb fd + 16 -> load8 (kmem k') x = load8 (kmem_of w) x).
  { intros fd Hfd Hn x Hx. pose proof (fa_range fd Hfd).
    apply M; [unfold page_shift, USER_PAGE, USER_PAGE_END in *; lia| |lia].
    intros fd' Hfd' Hc'. assert (fd' <> fd) by (intros ->; congruence).
    unfold fa, fa_offset, sizeof_file_t in *. lia. }
  destruct (change_mem w k' n ok T Mk) as (_ & K & S & Ty); [intros x (X1 & X2 & X3 & _); by apply Ms'| |].
  { intros fd Hfd. destruct (changed fd) eqn:E; [by apply Hc|].
    exact (proj2 (core_handle w w' ok sc fd Hfd (Mf fd Hfd E))). }
  split; [exact K|]. split; [exact S|]. split; [exact Ty|]. split.
  - intros fd Hn. rewrite (sc_fs _ _ sc). destruct (decide (0 <= fd < 8)) as [Hfd|Hfd].
    + exact (proj1 (core_handle w w' ok sc fd Hfd (Mf fd Hfd Hn))).
    + by rewrite !handle_range.
  - intros x Hx Ho. rewrite !load8_umem. apply M; [lia| |unfold page_shift, USER_PAGE, USER_PAGE_END in *; lia].
    intros fd Hfd _. pose proof (fa_range fd Hfd). unfold page_shift, USER_PAGE, USER_PAGE_END in *. lia.
Qed.

Lemma page_change w k' n a len :
  process_ok w -> same_tty (w_kernel w) k' -> USER_PAGE <= a -> 0 <= len -> a + len <= USER_PAGE_END ->
  (forall x, x < a + page_shift \/ a + len + page_shift <= x -> load8 (kmem k') x = load8 (kmem_of w) x) ->
  let w' := World k' (w_env w) n in
  kept w w' /\ process_screen w' = process_screen w /\ process_typed w' = process_typed w /\
  (forall fd, handles_of w' fd = handles_of w fd) /\ untouched_but (umem w) (umem w') a len.
Proof.
  intros ok T Ha Hl Hb M w'.
  destruct (call_change w k' n a len (fun _ => false) ok T Ha Hl Hb) as (K & S & Ty & H & U); [by intros; apply M|done|].
  split_and!; try done. intros fd. by apply H.
Qed.

Lemma law_set w m :
  process_ok w -> (forall x, x < USER_PAGE \/ USER_PAGE_END <= x -> load8 m x = load8 (umem w) x) ->
  kept w (uset w m) /\ process_screen (uset w m) = process_screen w /\
  process_typed (uset w m) = process_typed w /\ forall fd, handles_of (uset w m) fd = handles_of w fd.
Proof.
  intros ok M.
  destruct (page_change w (set_kmem (w_kernel w) (shift page_shift m)) (w_calls w) USER_PAGE 0x400000)
    as (K & S & T & H & _); [done|apply same_tty_set_kmem|lia|lia|unfold USER_PAGE, USER_PAGE_END; lia| |by split_and!].
  intros x Hx. rewrite kmem_set_kmem, load8_shift, M by (unfold USER_PAGE, USER_PAGE_END in *; lia).
  rewrite load8_umem. f_equal. lia.
Qed.

Lemma cstr_umem w a l : cstr (umem w) a l <-> cstr (kmem_of w) (a + page_shift) l.
Proof.
  unfold cstr. rewrite load_bytes_umem, load8_umem. replace (a + zlen l + page_shift) with (a + page_shift + zlen l) by lia.
  done.
Qed.

Lemma target_ok buf n : paged buf n -> in_target_page (u32 buf) n = true.
Proof.
  intros (Hb & Hn & He). unfold USER_PAGE, USER_PAGE_END in *. rewrite u32_id by lia.
  unfold in_target_page, PROCESS_VIRT_PAGE_START, PROCESS_PAGE_SIZE. rewrite u32_id by lia.
  rewrite andb_true_iff, Z.leb_le, Z.ltb_lt. lia.
Qed.

Lemma current_pcb : get_current_pcb esp = pcb.
Proof. exact (pcb_from_esp_eq i Hi esp Hesp). Qed.

Lemma law_getargs w buf n :
  process_ok w -> paged buf n -> zlen (string_at (kmem_of w) (args pcb)) < n ->
  let l := string_at (kmem_of w) (args pcb) in
  exists w', ece391_getargs w buf n = Some (w', 0) /\ kept w w' /\ process_screen w' = process_screen w /\
    process_typed w' = process_typed w /\ cstr (umem w') buf l /\
    untouched_but (umem w) (umem w') buf (zlen l + 1) /\ (forall q, handles_of w' q = handles_of w q).
Proof.
  intros ok Hb Hlen l. pose proof page_range as Hp. pose proof pcb_range as Hq.
  destruct (cstr_string_at (kmem_of w) (args pcb)) as [Hc El]. fold l in Hc, El, Hlen. pose proof (po_args w ok) as Ha. fold l in Ha.
  cbn [ece391_getargs kernel_system]. unfold call, syscall_getargs. rewrite current_pcb, (target_ok buf n Hb).
  destruct Hb as (Hb1 & Hn & Hb2). cbn [negb]. cbv zeta. rewrite <- El. unfold USER_PAGE, USER_PAGE_END in *.
  rewrite !u32_id by lia. destruct (Z.ltb_spec n (zlen l + 1)); [lia|].
  rewrite (user_addr_page w buf ok) by (unfold USER_PAGE, USER_PAGE_END; lia). cbn [mbind option_bind].
  set (dst := buf + page_shift).
  assert (Hd : page <= dst /\ dst + n <= page + 0x400000) by (unfold dst, page_shift, USER_PAGE; lia).
  rewrite (strcpy_spec (kmem_of w) dst (args pcb) l Hc) by (unfold args, args_offset; lia).
  cbn [mbind option_bind]. set (m' := store_bytes _ _ _).
  assert (M : forall x, x < dst \/ dst + (zlen l + 1) <= x -> load8 m' x = load8 (kmem_of w) x).
  { intros x Hx. apply load8_store_bytes_out. rewrite length_app. simpl. lia. }
  destruct (page_change w (set_kmem (w_kernel w) m') (w_calls w + 1) buf (zlen l + 1)) as (K & S & T & H' & U);
    [done|apply same_tty_set_kmem|unfold USER_PAGE; lia|lia|unfold USER_PAGE_END; lia|intros x Hx; apply M; unfold dst; lia|].
  eexists. split; [reflexivity|]. split; [exact K|]. split; [exact S|]. split; [exact T|]. split; [|by split].
  apply cstr_umem. cbn [w_kernel]. rewrite kmem_set_kmem. fold dst. destruct Hc as (Hc1 & Hc2 & Hc3).
  assert (B : load_bytes m' dst (length (l ++ [0])) = l ++ [0]).
  { apply load_store_bytes. apply Forall_app. split; [|repeat constructor; lia]. rewrite <- Hc1. apply load_bytes_range. }
  rewrite length_app in B. simpl length in B. rewrite load_bytes_app in B. apply app_inj_1 in B as [B1 B2];
    [|by rewrite length_load_bytes].
  split; [exact B1|]. split; [exact Hc2|]. rewrite load_bytes_S in B2. by injection B2 as ->.
Qed.

Definition handle_kind (m : mem) (fs : fs_ptrs) (fd : Z) (o : fops) : handle :=
  match o with
  | File_fops => Reading (file_bytes m fs (f_inode m (fa pcb fd))) (f_position m (fa pcb fd))
  | Dir_fops => Listing (f_position m (fa pcb fd))
  | Rtc_fops => Clock
  | Stdin_fops => Keyboard
  | Stdout_fops => Display
  end.

Lemma handle_inv m fs fd hd :
  handle_at m fs fd = Some hd ->
  exists o, 0 <= fd < 8 /\ bad_fd fd = false /\ flags_in_use m (fa pcb fd) = true /\
    (f_fops m (fa pcb fd) =? 0) = false /\ fops_at (f_fops m (fa pcb fd)) = Some o /\ hd = handle_kind m fs fd o.
Proof.
  unfold handle_at, fd_ops. destruct (bad_fd fd) eqn:Eb; [discriminate|]. cbn [negb andb].
  destruct (fd_used m pcb fd) eqn:Eu; [|discriminate].
  destruct (fops_at (f_fops m (fa pcb fd))) as [o|] eqn:Eo; [|discriminate]. intros H. exists o.
  split; [by apply bad_fd_range|]. split; [done|]. split; [exact Eu|].
  split; [apply Z.eqb_neq; by apply (fops_nonzero _ o)|]. split; [done|]. by destruct o; injection H as <-.
Qed.

Lemma terminal_of w : process_ok w -> get_process_terminal (ktty (w_kernel w)) esp = process_term (w_kernel w).
Proof. intros ok. unfold get_process_terminal. rewrite (po_single w ok), current_pcb. done. Qed.

Lemma law_write w fd buf n sc :
  process_ok w -> handles_of w fd = Some Display -> paged buf n ->
  scr_puts (process_screen w) (load_bytes (umem w) buf (Z.to_nat n)) = Some sc ->
  exists w', ece391_write w fd buf n = Some (w', n) /\ kept w w' /\ process_screen w' = sc /\
    process_typed w' = process_typed w /\ (forall q, handles_of w' q = handles_of w q) /\
    untouched_but (umem w) (umem w') buf 0.
Proof.
  intros ok Hh Hb Hs. destruct (handle_inv _ _ _ _ Hh) as (o & Hfd & E1 & E2 & E3 & E4 & E5).
  destruct o; try discriminate E5. cbn [ece391_write kernel_system]. unfold call, syscall_write.
  rewrite (target_ok buf n Hb), E1, current_pcb, E2, E3, E4. cbn [negb has_write call_write]. cbv zeta.
  destruct Hb as (Hb1 & Hn & Hb2). rewrite (user_addr_page w buf ok) by done. cbn [mbind option_bind].
  pose proof page_range as Hp. pose proof pcb_range as Hq. destruct (process_video w ok) as [Ht Hv].
  destruct lay_output as [[O1 O2] _]. unfold KERNEL_PAGE_START, KERNEL_IMAGE_END in *.
  destruct (po_input w ok) as (q & Hin). pose proof Hin as [Hvid _ Hsc Hr Hl].
  unfold terminal_write. rewrite current_pcb. cbv zeta. set (s := ktty (w_kernel w)) in *.
  set (s' := terminal_write_loop _ _ _ _).
  destruct (terminal_write_loop_spec (Z.to_nat n) s pcb (buf + page_shift) (process_term (w_kernel w)) sc) as [O C].
  - done.
  - change (video_memory (terms s (process_term (w_kernel w)))) with (video_base (w_kernel w)). lia.
  - change (video_memory (terms s (process_term (w_kernel w)))) with (video_base (w_kernel w)). unfold page_shift, USER_PAGE, USER_PAGE_END in *. lia.
  - exact Hsc.
  - unfold process_screen in Hs. by rewrite load_bytes_umem in Hs.
  - fold s' in O, C. pose proof O as [OM OT OI ON OV OA OS _ _ _].
    change (video_memory (terms s (process_term (w_kernel w)))) with (video_base (w_kernel w)) in OM.
    change (tmem s) with (kmem_of w) in OM. cbn [mbind option_bind].
    set (w' := World (set_ktty (w_kernel w) s') (w_env w) (w_calls w + 1)). exists w'. split; [reflexivity|].
    assert (sc' : same_core w w').
    { split; try done. intros x Hx. apply OM. apply firm_off_screen; [done|by left]. }
    pose proof (core_term w w' sc') as Et.
    assert (Hin' : input_ok s' (process_term (w_kernel w)) q).
    { apply (only_screen_input s s' _ q O); [rewrite C; by eapply scr_puts_ok|exact Hin]. }
    assert (Mf : forall fd, 0 <= fd < 8 -> forall x, fa pcb fd <= x < fa pcb fd + 16 -> load8 (tmem s') x = load8 (kmem_of w) x).
    { intros fd' Hfd' x Hx. pose proof (fa_range fd' Hfd'). apply OM. lia. }
    assert (el : elsewhere w w').
    { split; try done; [unfold video_base; rewrite Et; exact OV|]. intros x (_ & _ & _ & X). by apply OM. }
    split; [|split; [|split; [|split]]].
    + apply kept_intro; [done|done|exact el|intros x Hx; apply OM; by apply firm_off_screen|exists q; rewrite Et; exact Hin'|].
      intros fd' Hfd'. exact (proj2 (core_handle w w' ok sc' fd' Hfd' (Mf fd' Hfd'))).
    + unfold process_screen. rewrite Et. exact C.
    + unfold process_typed. rewrite Et. change (kmem (w_kernel w')) with (tmem s').
      change (ktty (w_kernel w')) with s'. destruct (in_ring _ _ _ Hin') as (_ & _ & _ & ->), Hr as (_ & _ & _ & H).
      symmetry. exact H.
    + intros fd'. change (kfs (w_kernel w')) with (kfs (w_kernel w)).
      destruct (decide (0 <= fd' < 8)) as [Hf|Hf]; [|by rewrite !handle_range].
      exact (proj1 (core_handle w w' ok sc' fd' Hf (Mf fd' Hf))).
    + intros x Hx _. rewrite !load8_umem. apply OM. unfold page_shift, USER_PAGE, USER_PAGE_END in *. lia.
Qed.

Lemma image_low w : process_ok w -> image_end (kmem_of w) (kfs (w_kernel w)) <= 0x7F0000.
Proof.
  intros ok. pose proof (image_layout _ _ (po_fs w ok)).
  destruct (po_image w ok (image_end (kmem_of w) (kfs (w_kernel w)) - 1)) as [Hx _]; lia.
Qed.

(** What a read of a file takes. *)
Lemma read_count_got m fs ino pos n :
  0 <= pos <= file_length m fs ino -> 0 <= n ->
  let got := take (Z.to_nat n) (drop (Z.to_nat pos) (file_bytes m fs ino)) in
  read_count m fs ino pos n = zlen got /\ file_slice m fs ino pos (zlen got) = got.
Proof.
  intros Hpos Hn got. pose proof (length_file_bytes m fs ino) as Lb.
  assert (Ec : read_count m fs ino pos n = zlen got) by (unfold read_count, got; rewrite length_take, length_drop; lia).
  split; [exact Ec|]. unfold file_slice. destruct (Z.leb_spec n (file_length m fs ino - pos)).
  - unfold got. f_equal. rewrite length_take, length_drop. lia.
  - assert (Eg : got = drop (Z.to_nat pos) (file_bytes m fs ino)) by (apply take_ge; rewrite length_drop; lia).
    rewrite Eg at 2. rewrite Nat2Z.id, Eg. apply firstn_all.
Qed.

(** A descriptor whose position moves on. *)
Lemma position_moved m m1 f v :
  (forall x, f <= x < f + 16 -> load8 m1 x = load8 m x) -> 0 <= v < 0x100000000 ->
  let m' := store32 m1 (f + 4) v in
  f_fops m' f = f_fops m f /\ flags_in_use m' f = flags_in_use m f /\ f_inode m' f = f_inode m f /\ f_position m' f = v.
Proof.
  intros M Hv m'.
  assert (Fw : forall a, a = 0 \/ a = 8 \/ a = 12 -> load32 m' (f + a) = load32 m (f + a)).
  { intros a Ha. apply load_le_ext. intros x Hx. simpl in Hx. unfold m'. rewrite load8_store32_ne by lia. apply M. lia. }
  split; [unfold f_fops; rewrite <- (Z.add_0_r f); apply Fw; by left|].
  split; [unfold flags_in_use, f_flags; by rewrite Fw by tauto|].
  split; [unfold f_inode; apply Fw; tauto|]. unfold f_position, m'. by rewrite load32_store32_eq, u32_id.
Qed.

Lemma law_read w fd buf n bytes pos :
  process_ok w -> handles_of w fd = Some (Reading bytes pos) -> paged buf n ->
  let got := take (Z.to_nat n) (drop (Z.to_nat pos) bytes) in
  exists w', ece391_read w fd buf n = Some (w', zlen got) /\ kept w w' /\ process_screen w' = process_screen w /\
    process_typed w' = process_typed w /\ load_bytes (umem w') buf (length got) = got /\
    untouched_but (umem w) (umem w') buf (zlen got) /\
    handles_of w' fd = Some (Reading bytes (pos + zlen got)) /\
    (forall q, q <> fd -> handles_of w' q = handles_of w q).
Proof.
  intros ok Hh Hb got. destruct (handle_inv _ _ _ _ Hh) as (o & Hfd & E1 & E2 & E3 & E4 & E5).
  destruct o; try discriminate E5. injection E5 as Ebytes Epos.
  destruct (po_fds w ok fd Hfd E2) as (o & Eo & Hino). rewrite E4 in Eo. injection Eo as <-.
  destruct Hino as [Hkind Hino]. destruct (Hino eq_refl) as [Hin Hpos]. cbn [ece391_read kernel_system]. unfold call, syscall_read.
  rewrite (target_ok buf n Hb), E1, current_pcb, E2, E3, E4. cbn [negb has_read call_read]. cbv zeta.
  destruct Hb as (Hb1 & Hn & Hb2). rewrite (user_addr_page w buf ok) by done. cbn [mbind option_bind].
  pose proof page_range as Hp. pose proof pcb_range as Hq. pose proof (fa_range fd Hfd) as Hf.
  set (m := kmem_of w) in *. set (fs := kfs (w_kernel w)) in *. set (f := fa pcb fd) in *.
  set (ino := f_inode m f) in *. set (dst := buf + page_shift).
  assert (Hd : page <= dst /\ dst + n <= page + 0x400000)
    by (unfold dst, page_shift, USER_PAGE, USER_PAGE_END in *; lia).
  pose proof (image_low w ok) as Him. fold m fs in Him.
  assert (Hc : client_ok m fs f dst n).
  { split; [exact (po_fs w ok)|exact Hin|right; lia|right; lia|unfold sizeof_file_t; lia]. }
  pose proof (ok_length _ _ _ Hin) as Hlen. pose proof (load32_range m (f + 4)) as Rp. fold (f_position m f) in Rp.
  rewrite file_read_spec by (assumption || (unfold USER_PAGE, USER_PAGE_END in *; lia)). fold ino.
  rewrite <- Epos in *. destruct (read_count_got m fs ino pos n ltac:(lia) Hn) as [Ecnt Eslice].
  rewrite <- Ebytes in Ecnt, Eslice. fold got in Ecnt, Eslice. rewrite Ecnt, Eslice.
  set (m1 := store_bytes m dst got). set (m' := store32 m1 (f + 4) (pos + zlen got)).
  assert (Hgot : zlen got <= n /\ pos + zlen got <= file_length m fs ino) by (rewrite <- Ecnt; unfold read_count; lia).
  assert (M1 : forall x, x < dst \/ dst + zlen got <= x -> load8 m1 x = load8 m x)
    by (intros x Hx; apply load8_store_bytes_out; lia).
  assert (M : forall x, x < dst \/ dst + zlen got <= x -> x < f + 4 \/ f + 8 <= x -> load8 m' x = load8 m x).
  { intros x Hx Hx'. unfold m'. rewrite load8_store32_ne by lia. by apply M1. }
  destruct (position_moved m m1 f (pos + zlen got)) as (F0 & F8 & F12 & F4); [intros x Hx; apply M1; lia|lia|].
  fold m' ino in F0, F8, F12, F4.
  assert (Is : same_image m m' fs) by (intros x Hx; apply M; lia).
  pose proof (same_image_inode_ok m fs (po_fs w ok) m' Is ino Hin) as Hin'.
  pose proof (image_file_length m fs (po_fs w ok) m' Is ino (ok_inode _ _ _ Hin)) as El.
  cbn [mbind option_bind].
  destruct (call_change w (set_kmem (w_kernel w) m') (w_calls w + 1) buf (zlen got) (fun q => q =? fd))
    as (K & S & T & H & U); [done|apply same_tty_set_kmem|lia|lia|lia| | |].
  - intros x Hx Hx' _. rewrite kmem_set_kmem. apply M; [unfold dst; lia|].
    pose proof (Hx' fd Hfd (Z.eqb_refl fd)). fold f in H. lia.
  - intros q Hq' ->%Z.eqb_eq _. rewrite kmem_set_kmem. exists File_fops. fold f fs. rewrite F0, F12, F4, El.
    split; [exact E4|]. split; [exact Hkind|]. intros _. split; [exact Hin'|]. lia.
  - eexists. split; [reflexivity|]. split; [exact K|]. split; [exact S|]. split; [exact T|]. split; [|split; [exact U|split]].
    + rewrite load_bytes_umem. cbn [w_kernel]. rewrite kmem_set_kmem. fold dst.
      rewrite (load_bytes_ext m1) by (intros x Hx; apply load8_store32_ne; lia).
      apply load_store_bytes. unfold got. rewrite Ebytes.
      apply Forall_take, Forall_drop, Forall_fmap, Forall_true. intros. apply load8_range.
    + cbn [w_kernel]. rewrite kmem_set_kmem, kfs_set_kmem. fold fs. unfold handle_at, fd_ops, fd_used. rewrite E1. fold f.
      rewrite F8, E2, F0, E4, F12, F4, (image_file_bytes m fs (po_fs w ok) m' Is) by exact Hin. cbn [negb andb].
      by rewrite Ebytes.
    + intros q Hne. apply H. by apply Z.eqb_neq.
Qed.

Lemma law_list w fd buf n pos :
  process_ok w -> handles_of w fd = Some (Listing pos) -> paged buf n -> 0 < n ->
  let got := match dir_names (kmem_of w) (kfs (w_kernel w)) !! Z.to_nat pos with
             | Some name => take (Z.to_nat n) (zero_pad 32 name)
             | None => []
             end in
  exists w', ece391_read w fd buf n = Some (w', zlen got) /\ kept w w' /\ process_screen w' = process_screen w /\
    process_typed w' = process_typed w /\ load_bytes (umem w') buf (length got) = got /\
    untouched_but (umem w) (umem w') buf (zlen got) /\
    handles_of w' fd = Some (Listing (if bool_decide (got = []) then pos else pos + 1)) /\
    (forall q, q <> fd -> handles_of w' q = handles_of w q).
Proof.
  intros ok Hh Hb Hn0. destruct (handle_inv _ _ _ _ Hh) as (o & Hfd & E1 & E2 & E3 & E4 & E5).
  destruct o; try discriminate E5. injection E5 as Epos.
  cbn [ece391_read kernel_system]. unfold call, syscall_read.
  rewrite (target_ok buf n Hb), E1, current_pcb, E2, E3, E4. cbn [negb has_read call_read]. cbv zeta.
  destruct Hb as (Hb1 & Hn & Hb2). rewrite (user_addr_page w buf ok) by done. cbn [mbind option_bind].
  pose proof page_range as Hp. pose proof pcb_range as Hq. pose proof (fa_range fd Hfd) as Hf.
  pose proof (image_low w ok) as Him. destruct (po_local w ok (w_calls w)) as [Hl1 Hl2].
  rewrite stack_base_eq in Hl2 by exact Hi. fold pcb in Hl2. unfold sizeof_pcb_t in Hl1.
  set (m := kmem_of w) in *. set (fs := kfs (w_kernel w)) in *. set (f := fa pcb fd) in *.
  set (local := e_local (w_env w (w_calls w))) in *. set (dst := buf + page_shift).
  assert (Hd : page <= dst /\ dst + n <= page + 0x400000)
    by (unfold dst, page_shift, USER_PAGE, USER_PAGE_END in *; lia).
  pose proof (load32_range m (f + 4)) as Rp. fold (f_position m f) in Rp. rewrite <- Epos in Rp.
  pose proof (dir_read_spec m fs local f dst n (po_fs w ok)) as P. cbv zeta in P. rewrite <- Epos in P.
  unfold off_image, sizeof_file_t in P. specialize (P ltac:(lia) ltac:(lia) ltac:(lia) ltac:(lia) ltac:(lia)).
  rewrite (names_lookup m fs pos (po_fs w ok)) by lia.
  destruct (dir_read m fs local f dst n) as [m' r]. cbn [mbind option_bind].
  destruct (Z.ltb_spec pos (num_directory_entries m fs)) as [Hlt|Hge].
  - destruct P as (-> & P2 & P3 & M). set (got := take (Z.to_nat n) (zero_pad 32 (dir_name m fs pos))).
    assert (Lz : length (zero_pad 32 (dir_name m fs pos)) = 32%nat) by (apply length_zero_pad, dir_name_length).
    assert (Lg : zlen got = Z.min 32 n) by (unfold got; rewrite length_take; lia).
    assert (Eg : take (Z.to_nat (Z.min 32 n)) (zero_pad 32 (dir_name m fs pos)) = got).
    { unfold got. destruct (Z.leb_spec n 32); [by replace (Z.min 32 n) with n by lia|].
      rewrite !take_ge by (rewrite Lz; lia). done. }
    rewrite bool_decide_eq_false_2 by (intros E; rewrite E in Lg; simpl in Lg; lia).
    rewrite <- Lg in *. rewrite Nat2Z.id in P3, Eg. rewrite Eg in P3.
    assert (F0 : f_fops m' f = f_fops m f) by (apply load_le_ext; intros x Hx; simpl in Hx; apply M; lia).
    assert (F8 : flags_in_use m' f = flags_in_use m f).
    { unfold flags_in_use. do 2 f_equal. apply load_le_ext; intros x Hx; simpl in Hx; apply M; lia. }
    destruct (call_change w (set_kmem (w_kernel w) m') (w_calls w + 1) buf (zlen got) (fun q => q =? fd))
      as (K & S & T & H & U); [done|apply same_tty_set_kmem|lia|lia|lia| | |].
    + intros x Hx Hx' Ho. rewrite kmem_set_kmem. pose proof (Hx' fd Hfd (Z.eqb_refl fd)) as X. fold f in X.
      apply M; [lia|lia|unfold dst; lia].
    + intros q Hq' ->%Z.eqb_eq _. rewrite kmem_set_kmem. exists Dir_fops. fold f. rewrite F0. by repeat split.
    + eexists. split; [reflexivity|]. split; [exact K|]. split; [exact S|]. split; [exact T|].
      split; [|split; [exact U|split]].
      * rewrite load_bytes_umem. cbn [w_kernel]. rewrite kmem_set_kmem. exact P3.
      * cbn [w_kernel]. rewrite kmem_set_kmem, kfs_set_kmem. unfold handle_at, fd_ops, fd_used. rewrite E1. fold f.
        rewrite F8, E2, F0, E4. cbn [negb andb]. by rewrite P2.
      * intros q Hne. apply H. by apply Z.eqb_neq.
  - destruct P as [-> ->]. rewrite bool_decide_eq_true_2 by done.
    destruct (page_change w (set_kmem (w_kernel w) m) (w_calls w + 1) buf 0) as (K & S & T & H & U);
      [done|apply same_tty_set_kmem|lia|lia|lia|done|].
    eexists. split; [reflexivity|]. split; [exact K|]. split; [exact S|]. split; [exact T|].
    split; [done|]. split; [exact U|]. split; [|intros q _; apply H]. rewrite H. exact Hh.
Qed.

Lemma terminal_take_single s t buf n : single_terminal (terminal_take s t buf n).1 = single_terminal s.
Proof. unfold terminal_take. repeat case_match; reflexivity. Qed.

Lemma terminal_read_single s local f buf n keys s' r :
  0 < new_line_ready (terms s (get_process_terminal s esp)) ->
  terminal_read test_suite s esp local f buf n keys = Some (s', r) -> single_terminal s' = single_terminal s.
Proof.
  intros Hn. unfold terminal_read. destruct keys; cbn [terminal_wait];
    unfold truthy; (destruct (Z.eqb_spec (new_line_ready (terms s (get_process_terminal s esp))) 0); [lia|]);
    cbn [negb mbind option_bind]; intros [= H]; rewrite <- (terminal_take_single s (get_process_terminal s esp) buf n);
    by rewrite H.
Qed.

Lemma law_line w fd buf n :
  process_ok w -> handles_of w fd = Some Keyboard -> paged buf n -> 0 < newlines (process_typed w) ->
  let line := first_line (process_typed w) in
  zlen line <= n ->
  exists w', ece391_read w fd buf n = Some (w', zlen line) /\ kept w w' /\ process_screen w' = process_screen w /\
    process_typed w' = drop (length line) (process_typed w) /\ load_bytes (umem w') buf (length line) = line /\
    untouched_but (umem w) (umem w') buf (zlen line) /\ (forall q, handles_of w' q = handles_of w q).
Proof.
  intros ok Hh Hb Hnl line Hlen. destruct (handle_inv _ _ _ _ Hh) as (o & Hfd & E1 & E2 & E3 & E4 & E5).
  destruct o; try discriminate E5. cbn [ece391_read kernel_system]. unfold call, syscall_read.
  rewrite (target_ok buf n Hb), E1, current_pcb, E2, E3, E4. cbn [negb has_read call_read]. cbv zeta.
  destruct Hb as (Hb1 & Hn & Hb2). rewrite (user_addr_page w buf ok) by done. cbn [mbind option_bind].
  pose proof page_range as Hp. pose proof pcb_range as Hq. destruct (process_video w ok) as [Ht Hv].
  destruct lay_output as [[O1 O2] _], lay_input as [N1 N2]. unfold KERNEL_PAGE_START, KERNEL_IMAGE_END in *.
  destruct (po_input w ok) as (q & Hin). set (s := ktty (w_kernel w)) in *. set (t := process_term (w_kernel w)) in *.
  assert (Eq : process_typed w = q) by apply (in_ring _ _ _ Hin). unfold line in *. rewrite Eq in *. clear line.
  set (line := first_line q) in *. set (dst := buf + page_shift).
  assert (Hd : page <= dst /\ dst + n <= page + 0x400000)
    by (unfold dst, page_shift, USER_PAGE, USER_PAGE_END in *; lia).
  set (e := w_env w (w_calls w)). set (f := fa pcb fd).
  pose proof (terminal_of w ok) as Et. fold s t in Et.
  pose proof (terminal_read_spec test_suite s esp (e_local e) f dst n (e_keys e) q) as P. cbv zeta in P.
  rewrite Et in P. fold line in P. pose proof (in_lines _ _ _ Hin) as Hnr.
  destruct P as (s' & E & B & _ & _ & Hin' & M & T & A & V & X & Y);
    [exact Hin|exact Hnl|unfold USER_PAGE, USER_PAGE_END in *; lia|unfold input_row, KEYBOARD_BUFFER_SIZE; lia|].
  assert (Sg : single_terminal s' = single_terminal s).
  { eapply terminal_read_single; [|exact E]. rewrite Et, Hnr. exact Hnl. }
  rewrite E. cbn [mbind option_bind].
  set (w' := World (set_ktty (w_kernel w) s') (w_env w) (w_calls w + 1)). exists w'. split; [reflexivity|].
  assert (Mk : forall x, x < page \/ page + 0x400000 <= x -> load8 (kmem_of w') x = load8 (kmem_of w) x).
  { intros x Hx. apply M. lia. }
  assert (Ms : forall x, solid (w_kernel w) x -> load8 (kmem_of w') x = load8 (kmem_of w) x).
  { intros x Hx. apply Mk. pose proof (solid_range w x ok Hx). lia. }
  assert (sc' : same_core w w').
  { split; try done. intros x Hx. apply Ms. left. by left. }
  pose proof (core_term w w' sc') as Et'.
  assert (Mf : forall fd, 0 <= fd < 8 -> forall x, fa pcb fd <= x < fa pcb fd + 16 ->
            load8 (kmem_of w') x = load8 (kmem_of w) x).
  { intros fd' Hfd' x Hx. pose proof (fa_range fd' Hfd'). apply Mk. lia. }
  assert (el : elsewhere w w').
  { split; try done; [unfold video_base; rewrite Et'; exact V|]. intros x (X1 & _). by apply Mk. }
  split; [|split; [|split; [|split; [|split]]]].
  - apply kept_intro; [done|done|exact el|intros x Hx; apply Ms; by left|eexists; rewrite Et'; exact Hin'|].
    intros fd' Hfd'. exact (proj2 (core_handle w w' ok sc' fd' Hfd' (Mf fd' Hfd'))).
  - unfold process_screen. rewrite Et'. change (ktty (w_kernel w')) with s'. fold s t. unfold screen_of.
    rewrite V, X, Y. f_equal. apply screen_cells_ext. intros j Hj. apply load_le_ext. intros x Hx. simpl in Hx.
    apply Ms. right. unfold video_base. fold s t. lia.
  - unfold process_typed. rewrite Et'. apply (in_ring _ _ _ Hin').
  - rewrite load_bytes_umem. exact B.
  - intros x Hx Ho. rewrite !load8_umem. apply M. unfold dst. lia.
  - intros fd'. change (kfs (w_kernel w')) with (kfs (w_kernel w)).
    destruct (decide (0 <= fd' < 8)) as [Hf|Hf]; [|by rewrite !handle_range].
    exact (proj1 (core_handle w w' ok sc' fd' Hf (Mf fd' Hf))).
Qed.

Lemma handle_free w fd : process_ok w -> 0 <= fd < 8 -> (handles_of w fd = None <-> fd_used (kmem_of w) pcb fd = false).
Proof.
  intros ok Hfd. unfold handle_at, fd_ops. rewrite (proj2 (bad_fd_range fd) Hfd). cbn [negb andb].
  destruct (fd_used (kmem_of w) pcb fd) eqn:E; [|done].
  destruct (po_fds w ok fd Hfd E) as (o & -> & _). split; [|discriminate]. by destruct o.
Qed.

Lemma page_mapped : USER_PAGE <= USER_PAGE /\ USER_PAGE + 0 <= USER_PAGE_END.
Proof. unfold USER_PAGE, USER_PAGE_END. lia. Qed.

(** The entry behind a name. *)
Lemma disk_entry w name j :
  dir_lookup (kmem_of w) (kfs (w_kernel w)) name = Some j ->
  let d := directory_entry (kfs (w_kernel w)) j in
  let ft := dentry_file_type (kmem_of w) d in
  0 <= ft /\
  disk_at (kmem_of w) (kfs (w_kernel w)) name
  = if ft =? 0 then Some Device else if ft =? 1 then Some Folder
    else if ft =? 2 then Some (Regular (file_bytes (kmem_of w) (kfs (w_kernel w)) (dentry_inode_num (kmem_of w) d)))
    else None.
Proof. intros E d ft. split; [apply load32_range|]. unfold disk_at. by rewrite E. Qed.

(** The descriptor [open] sets up. *)
Lemma opened_entry w k' r name j :
  process_ok w -> dir_lookup (kmem_of w) (kfs (w_kernel w)) name = Some j ->
  let d := directory_entry (kfs (w_kernel w)) j in
  dentry_file_type (kmem_of w) d <= FILE_FT ->
  opened (kmem_of w) (kmem k') pcb r d -> same_image (kmem_of w) (kmem k') (kfs (w_kernel w)) ->
  fd_ok (kmem k') (kfs (w_kernel w)) r /\
  exists e, disk_at (kmem_of w) (kfs (w_kernel w)) name = Some e /\
    handle_at (kmem k') (kfs (w_kernel w)) r = Some (opens e).
Proof.
  intros ok Ej d Hft [Hr Hfree _ Hu Hpos Hino Hops _ _ _] Is. destruct (disk_entry w name j Ej) as [Hft0 ->].
  fold d in Hft0 |- *. set (m := kmem_of w) in *. set (fs := kfs (w_kernel w)) in *.
  destruct (dir_lookup_bounds _ _ _ _ Ej) as (Hj & _ & _). unfold FILE_FT in Hft.
  set (ft := dentry_file_type m d) in *. destruct (fops_at_table ft ltac:(lia)) as [Eo _].
  unfold handle_at, fd_ops, fd_ok. rewrite (proj2 (bad_fd_range r) Hr), Hu, Hops, Eo, Hpos, Hino. cbn [negb andb].
  destruct (Z.eqb_spec ft 0) as [E0|]; [split; [exists Rtc_fops; by repeat split|by exists Device]|].
  destruct (Z.eqb_spec ft 1) as [E1|]; [split; [exists Dir_fops; by repeat split|by exists Folder]|].
  destruct (Z.eqb_spec ft 2) as [E2|]; [|lia].
  assert (Hin : inode_ok m fs (dentry_inode_num m d)) by (by apply (po_files w ok)).
  split.
  - exists File_fops. split; [done|]. split; [done|]. intros _.
    split; [by apply (same_image_inode_ok m fs (po_fs w ok) (kmem k') Is)|apply load32_range].
  - eexists. split; [reflexivity|]. cbn [opens].
    by rewrite (image_file_bytes m fs (po_fs w ok) (kmem k') Is).
Qed.

Lemma law_open w a s :
  process_ok w -> cstr (umem w) a s -> paged a 32 ->
  exists w' r, ece391_open w a = Some (w', r) /\ kept w w' /\ process_screen w' = process_screen w /\
    process_typed w' = process_typed w /\ untouched_but (umem w) (umem w') a 0 /\
    match disk_at (kmem_of w) (kfs (w_kernel w)) (take 32 s) with
    | None => r = -1 /\ forall q, handles_of w' q = handles_of w q
    | Some e =>
        (r = -1 /\ (forall q, 0 <= q < 8 -> handles_of w q <> None) /\ (forall q, handles_of w' q = handles_of w q)) \/
        (0 <= r < 8 /\ handles_of w r = None /\ (forall q, 0 <= q < r -> handles_of w q <> None) /\
         handles_of w' r = Some (opens e) /\ (forall q, q <> r -> handles_of w' q = handles_of w q))
    end.
Proof.
  intros ok Hc Ha. pose proof page_range as Hp. pose proof pcb_range as Hq. pose proof (image_low w ok) as Him.
  destruct (po_local w ok (w_calls w)) as [Hl1 Hl2]. pose proof Hl2 as Hl3. rewrite stack_base_eq in Hl3 by exact Hi. fold pcb in Hl3.
  unfold sizeof_pcb_t in Hl1. set (e := w_env w (w_calls w)) in *.
  assert (Hoo : open_ok (w_kernel w) i esp e).
  { split; [exact Hi|exact Hesp|exact (po_fs w ok)|split; [unfold sizeof_pcb_t; fold pcb; lia|exact Hl2]|].
    right. unfold KERNEL_STACK_SIZE. fold pcb. lia. }
  assert (Ec : chars (kmem_of w) (a + page_shift) 32 = take 32 s).
  { change 32%nat with (Z.to_nat 32). apply cstr_chars_take; [by apply cstr_umem|lia]. }
  destruct (syscall_open_spec rtc_handler_wrapper (w_kernel w) i esp e Hoo a (a + page_shift))
    as (k' & r & E & T & P); [apply user_addr_page; [exact ok|apply Ha]|].
  rewrite Ec in P. fold pcb in P. cbn [ece391_open kernel_system]. unfold call. fold e. rewrite E. cbn [mbind option_bind].
  exists (World k' (w_env w) (w_calls w + 1)), r. split; [reflexivity|].
  destruct P as [(-> & M & Why)|(j & Ej & Hft & Op)].
  - destruct (call_change w k' (w_calls w + 1) USER_PAGE 0 (fun _ => false)) as (K & S & Ty & H & U);
      [done|exact T|apply page_mapped|lia|apply page_mapped|intros x _ _ Hx; apply M; lia|done|].
    split; [exact K|]. split; [exact S|]. split; [exact Ty|].
    split; [intros x Hx _; apply U; [exact Hx|lia]|].
    assert (Hs : forall q, handles_of (World k' (w_env w) (w_calls w + 1)) q = handles_of w q) by (intros q; by apply H).
    destruct Why as [Full|None_]; [destruct (disk_at _ _ _); [left|by split]; split; [done|]; split; [|exact Hs]|].
    + intros q Hq8 Hn. apply (handle_free w q ok Hq8) in Hn. rewrite Full in Hn by done. discriminate.
    + destruct (dir_lookup (kmem_of w) (kfs (w_kernel w)) (take 32 s)) as [j|] eqn:Ej.
      * destruct (disk_entry w (take 32 s) j Ej) as [_ ->]. unfold FILE_FT in None_.
        rewrite !(proj2 (Z.eqb_neq _ _)) by lia. by split.
      * unfold disk_at. rewrite Ej. by split.
  - destruct (dir_lookup_bounds _ _ _ _ Ej) as (Hj & _ & _). pose proof Op as [Hr Hfree Hlow _ _ _ _ Oth Out Pcb].
    pose proof (fa_range r Hr) as Hf.
    assert (Is : same_image (kmem_of w) (kmem k') (kfs (w_kernel w))).
    { intros x Hx. apply Out. left. lia. }
    destruct (opened_entry w k' r (take 32 s) j ok Ej Hft Op Is) as [Fo (en & -> & Hn)].
    destruct (call_change w k' (w_calls w + 1) USER_PAGE 0 (fun q => q =? r)) as (K & S & Ty & H & U);
      [done|exact T|apply page_mapped|lia|apply page_mapped| | |].
    + intros x _ Hx Hx'. pose proof (Hx r Hr (Z.eqb_refl r)) as X.
      destruct (Z_lt_dec x pcb); [apply Out; by left|]. destruct (Z_le_dec (pcb + 8192) x); [apply Out; by right|].
      apply Pcb; [unfold sizeof_pcb_t; lia|exact X|lia].
    + intros q Hq' ->%Z.eqb_eq _. exact Fo.
    + split; [exact K|]. split; [exact S|]. split; [exact Ty|]. split; [intros x Hx _; apply U; [exact Hx|lia]|].
      right. split; [exact Hr|]. split; [by apply handle_free|]. split; [|split].
      * intros q Hq' Hn'. apply (handle_free w q ok ltac:(lia)) in Hn'. rewrite Hlow in Hn' by lia. discriminate.
      * cbn [w_kernel]. rewrite (sm_fs _ _ T). exact Hn.
      * intros q Hne. apply H. by apply Z.eqb_neq.
Qed.

Lemma law_close w fd hd :
  process_ok w -> 0 <= fd < 8 -> handles_of w fd = Some hd -> hd <> Keyboard -> hd <> Display ->
  exists w', ece391_close w fd = Some (w', 0) /\ kept w w' /\ process_screen w' = process_screen w /\
    process_typed w' = process_typed w /\ untouched_but (umem w) (umem w') 0 0 /\ handles_of w' fd = None /\
    (forall q, q <> fd -> handles_of w' q = handles_of w q).
Proof.
  intros ok Hfd Hh Hk Hd. destruct (handle_inv _ _ _ _ Hh) as (o & _ & E1 & E2 & E3 & E4 & E5).
  pose proof pcb_range as Hq. pose proof (fa_range fd Hfd) as Hf.
  destruct (syscall_close_spec (w_kernel w) i esp fd Hi Hesp) as (m' & E & P); [intros _ _ _; by exists o|]. fold pcb in E, P.
  assert (Hc : closes (kmem_of w) pcb fd = true).
  { unfold closes, fd_ops, fd_used. rewrite E1, E2, E4. cbn [negb andb]. destruct o; try done; subst hd; done. }
  rewrite Hc in E, P. destruct P as [Hu M]. cbn [ece391_close kernel_system]. unfold call. rewrite E. cbn [mbind option_bind].
  destruct (call_change w (set_kmem (w_kernel w) m') (w_calls w + 1) USER_PAGE 0 (fun q => q =? fd)) as (K & S & Ty & H & U);
    [done|apply same_tty_set_kmem|apply page_mapped|lia|apply page_mapped| | |].
  - intros x _ Hx Hx'. rewrite kmem_set_kmem. pose proof (Hx fd Hfd (Z.eqb_refl fd)). apply M; lia.
  - intros q Hq' ->%Z.eqb_eq. rewrite kmem_set_kmem, Hu. discriminate.
  - eexists. split; [reflexivity|]. split; [exact K|]. split; [exact S|]. split; [exact Ty|].
    split; [intros x Hx _; apply U; [exact Hx|lia]|]. split.
    + cbn [w_kernel]. rewrite kmem_set_kmem. unfold handle_at, fd_ops. rewrite Hu. by rewrite andb_false_r.
    + intros q Hne. apply H. by apply Z.eqb_neq.
Qed.

(** The kernel keeps the contract. *)
Definition kernel_system_ok : UserSystemOk world.
Proof.
  refine {|
    healthy := process_ok;
    display := process_screen;
    typed := process_typed;
    handles w fd := handles_of w fd;
    arguments w := string_at (kmem_of w) (args pcb);
    disk w n := disk_at (kmem_of w) (kfs (w_kernel w)) n;
    names w := dir_names (kmem_of w) (kfs (w_kernel w));
    beyond := elsewhere;
    us_beyond_refl := elsewhere_refl;
    us_beyond_trans := elsewhere_trans;
    us_mem := umem_uset;
    us_set := law_set;
    us_write := law_write;
    us_read := law_read;
    us_list := law_list;
    us_line := law_line;
    us_open := law_open;
    us_close := law_close;
    us_getargs := law_getargs
  |}.
Defined.
End implementation.
