(* ===== verification/UserLevel.v ===== *)
(** User programs on the kernel: the specifications of [Programs], discharged
    by the kernel's implementation of the system calls.  A run goes from the
    program through the call, the descriptor table and the file system or the
    terminal to the bytes of the image and the cells of the screen. *)

From Stdlib Require Import String.
From S2P Require Import Prelude Memory Layout I8259 LibMem LibString CircularBuffer Paging Ece391Fs Fs Pcb.
From S2P Require Import Terminal Screen Printf Console LineInput Machine Rtc Syscall FileTable Process Boot.
From S2P Require Import Exception Support UserSys Programs Shell SysErr Grep UserKernel.

#[local] Open Scope Z_scope.
#[local] Notation "a +++ b" := (String.append a b) (at level 60, right associativity).

(** A process in slot [i] with its standard descriptors and one to spare. *)
Record running `{L : Layout} (i esp : Z) (w : world) : Prop := {
  rn_slot : 0 <= i < 6;
  rn_esp : get_pcb_from_slot i < esp <= get_kernel_stack_base_from_slot i;
  rn_ok : process_ok i w;
  rn_stdin : handle_at i (kmem (w_kernel w)) (kfs (w_kernel w)) 0 = Some Keyboard;
  rn_stdout : handle_at i (kmem (w_kernel w)) (kfs (w_kernel w)) 1 = Some Display;
  rn_free : exists q, 0 <= q < 8 /\ handle_at i (kmem (w_kernel w)) (kfs (w_kernel w)) q = None
}.

(** The name [cat] is given, and the entry it names. *)
Definition cat_entry (i : Z) (w : world) : option on_disk :=
  let m := kmem (w_kernel w) in
  disk_at m (kfs (w_kernel w)) (take 32 (string_at m (args (get_pcb_from_slot i)))).

(** What the rest of the system sees of a program that only prints. *)
Record only_printed `{L : Layout} (i : Z) (w w' : world) (sc : screen) : Prop := {
  opr_ok : process_ok i w';
  opr_screen : process_screen i w' = sc;
  opr_disk : forall n, disk_at (kmem (w_kernel w')) (kfs (w_kernel w')) n = disk_at (kmem (w_kernel w)) (kfs (w_kernel w)) n
}.

Section programs.
Context `{L : Layout} `{LOk : !LayoutOk L} (test_suite : tty -> Z -> tty) (wrapper : Z).
Context (i esp : Z) (lit : string -> Z) (w : world) (buf : Z).
Hypothesis (run : running i esp w).
Let U := kernel_system test_suite wrapper i esp.
Let US := kernel_system_ok test_suite wrapper i esp (rn_slot i esp w run) (rn_esp i esp w run).

Lemma printed w' sc :
  lasting (UserSystemOk := US) w w' -> process_screen i w' = sc -> only_printed i w w' sc.
Proof. intros (H & _ & D & _) E. by split. Qed.

Lemma cat_runs fuel sc :
  paged buf 1024 -> literal (U := U) lit w buf 1024 not_found ->
  match cat_entry i w with
  | None => scr_puts (process_screen i w) (bytes_of not_found) = Some sc ->
      exists w', cat_main (U := U) lit fuel w buf = Some (w', 2) /\ only_printed i w w' sc
  | Some (Regular bytes) => scr_puts (process_screen i w) bytes = Some sc -> zlen bytes < Z.of_nat fuel ->
      exists w', cat_main (U := U) lit fuel w buf = Some (w', 0) /\ only_printed i w w' sc
  | Some _ => True
  end.
Proof.
  intros Hb Hl. pose proof run as [_ _ Hok _ Hout Hfree].
  pose proof (cat_spec (US := US) lit fuel w buf Hok Hout Hb Hfree) as P.
  change (@arguments _ _ US w) with (string_at (kmem (w_kernel w)) (args (get_pcb_from_slot i))) in P.
  change (@disk _ _ US w) with (disk_at (kmem (w_kernel w)) (kfs (w_kernel w))) in P. fold (cat_entry i w) in P.
  pose proof (po_args i w Hok). specialize (P ltac:(lia) Hl).
  destruct (cat_entry i w) as [[bytes| |]|]; [|exact I|exact I|].
  - intros Hs Hf. destruct (P sc Hs Hf) as (w' & E & La & D & _). exists w'. split; [exact E|by apply printed].
  - intros Hs. destruct (P sc Hs) as (w' & E & La & D & _). exists w'. split; [exact E|by apply printed].
Qed.

Lemma ls_runs fuel sc :
  let m := kmem (w_kernel w) in
  let fs := kfs (w_kernel w) in
  paged buf 33 -> literal (U := U) lit w buf 33 "." -> paged (lit "."%string) 32 ->
  disk_at m fs (bytes_of ".") = Some Folder ->
  scr_puts (process_screen i w) (concat (listed <$> dir_names m fs)) = Some sc ->
  num_directory_entries m fs < Z.of_nat fuel ->
  exists w', ls_main (U := U) lit fuel w buf = Some (w', 0) /\ only_printed i w w' sc.
Proof.
  intros m fs Hb Hl Hp Hd Hs Hf. pose proof run as [_ _ Hok _ Hout Hfree].
  pose proof (image_layout m fs (po_fs i w Hok)) as IL.
  destruct (ls_spec (US := US) lit fuel w buf sc Hok Hout Hb Hfree Hl Hp Hd) as (w' & E & La & D & _).
  - apply Forall_forall. intros n Hn. change (@names _ _ US w) with (dir_names m fs) in Hn.
    apply list_elem_of_fmap in Hn as (j & -> & _). apply dir_name_length.
  - exact Hs.
  - change (@names _ _ US w) with (dir_names m fs). unfold dir_names. rewrite length_fmap, length_seqZ. lia.
  - exists w'. split; [exact E|by apply printed].
Qed.

Lemma hello_runs sc :
  let line := first_line (process_typed i w) in
  paged buf 1024 -> literal (U := U) lit w buf 1024 "Hi, what's your name? " -> literal (U := U) lit w buf 1024 "Hello, " ->
  0 < newlines (process_typed i w) -> zlen line < 1024 -> Forall (fun c => c <> 0) line ->
  scr_puts (process_screen i w) (bytes_of "Hi, what's your name? " ++ bytes_of "Hello, " ++ line) = Some sc ->
  exists w', hello_main (U := U) lit w buf = Some (w', 0) /\ only_printed i w w' sc /\
    process_typed i w' = drop (length line) (process_typed i w).
Proof.
  intros line Hb Hl1 Hl2 Hn Hlen Hz Hs. pose proof run as [_ _ Hok Hin Hout _].
  destruct (hello_spec (US := US) lit w buf sc Hok Hin Hout Hb Hl1 Hl2 Hn Hlen Hz Hs) as (w' & E & La & D & T).
  exists w'. split; [exact E|]. split; [by apply printed|exact T].
Qed.

Definition choice_prompt : string := "Enter the Test Number: (0): 100, (1): 10000, (2): 100000" +++ nl.

Lemma counter_runs fuel sc :
  let line := first_line (process_typed i w) in
  paged buf 1024 -> literal (U := U) lit w buf 1024 choice_prompt ->
  literal (U := U) lit w buf 1024 ("Wrong Choice!" +++ nl) -> literal (U := U) lit w buf 1024 nl ->
  0 < newlines (process_typed i w) -> zlen line < 1024 -> Forall (fun c => c <> 0) line ->
  scr_puts (process_screen i w) (bytes_of choice_prompt ++ counter_text line) = Some sc ->
  (Z.to_nat 100000 <= fuel)%nat ->
  exists w', counter_main (U := U) lit fuel w buf = Some (w', 0) /\ only_printed i w w' sc /\
    process_typed i w' = drop (length line) (process_typed i w).
Proof.
  intros line Hb Hl1 Hl2 Hl3 Hn Hlen Hz Hs Hf. pose proof run as [_ _ Hok Hin Hout _].
  destruct (counter_spec (US := US) lit fuel w buf sc Hok Hin Hout Hb Hl1 Hl2 Hl3 Hn Hlen Hz Hs) as (w' & E & La & D & T).
  - fold line. etransitivity; [|exact Hf]. apply Z2Nat.inj_le; [apply counter_max_range|lia|apply counter_max_range].
  - exists w'. split; [exact E|]. split; [by apply printed|exact T].
Qed.

End programs.

(** * Properties *)

(** C17: [cat] prints files.  A process whose argument names a regular file
    ends with status 0 and its terminal shows exactly the bytes of the file in
    the image; if there is no such file it prints "file not found" and ends
    with status 2.  The file system is unchanged and the run ends: the fuel of
    the loop exceeds the length of the file. *)
Theorem cat_on_kernel `{L : Layout} `{LOk : !LayoutOk L} test_suite wrapper (i esp : Z) (lit : string -> Z)
    (fuel : nat) (w : world) (buf : Z) (sc : screen) :
  let U := kernel_system test_suite wrapper i esp in
  running i esp w -> paged buf 1024 -> literal (U := U) lit w buf 1024 not_found ->
  match cat_entry i w with
  | None => scr_puts (process_screen i w) (bytes_of not_found) = Some sc ->
      exists w', cat_main (U := U) lit fuel w buf = Some (w', 2) /\ only_printed i w w' sc
  | Some (Regular bytes) => scr_puts (process_screen i w) bytes = Some sc -> zlen bytes < Z.of_nat fuel ->
      exists w', cat_main (U := U) lit fuel w buf = Some (w', 0) /\ only_printed i w w' sc
  | Some _ => True
  end.
Proof. intros U run Hb Hl. by apply (cat_runs test_suite wrapper i esp lit w buf run). Qed.

(** C20: [ls] lists the directory.  Its terminal then shows the names of all
    entries of the image in order, each as its 32 bytes in the image and a line
    feed, and it ends with status 0. *)
Theorem ls_on_kernel `{L : Layout} `{LOk : !LayoutOk L} test_suite wrapper (i esp : Z) (lit : string -> Z)
    (fuel : nat) (w : world) (buf : Z) (sc : screen) :
  let U := kernel_system test_suite wrapper i esp in
  let m := kmem (w_kernel w) in
  let fs := kfs (w_kernel w) in
  running i esp w -> paged buf 33 -> literal (U := U) lit w buf 33 "." -> paged (lit "."%string) 32 ->
  disk_at m fs (bytes_of ".") = Some Folder ->
  scr_puts (process_screen i w) (concat (listed <$> dir_names m fs)) = Some sc ->
  num_directory_entries m fs < Z.of_nat fuel ->
  exists w', ls_main (U := U) lit fuel w buf = Some (w', 0) /\ only_printed i w w' sc.
Proof. intros U m fs run. by apply (ls_runs test_suite wrapper i esp lit w buf run). Qed.

(** C21: [counter] reads a choice and counts.  With a complete line typed on
    its terminal it takes exactly that line, prints the prompt and then, for the
    choices 0, 1 and 2, the decimal numerals from 1 to 100, 10000 or 100000, a
    line each, and for other lines of two or more characters "Wrong Choice!". *)
Theorem counter_on_kernel `{L : Layout} `{LOk : !LayoutOk L} test_suite wrapper (i esp : Z) (lit : string -> Z)
    (fuel : nat) (w : world) (buf : Z) (sc : screen) :
  let U := kernel_system test_suite wrapper i esp in
  let line := first_line (process_typed i w) in
  running i esp w -> paged buf 1024 -> literal (U := U) lit w buf 1024 choice_prompt ->
  literal (U := U) lit w buf 1024 ("Wrong Choice!" +++ nl) -> literal (U := U) lit w buf 1024 nl ->
  0 < newlines (process_typed i w) -> zlen line < 1024 -> Forall (fun c => c <> 0) line ->
  scr_puts (process_screen i w) (bytes_of choice_prompt ++ counter_text line) = Some sc ->
  (Z.to_nat 100000 <= fuel)%nat ->
  exists w', counter_main (U := U) lit fuel w buf = Some (w', 0) /\ only_printed i w w' sc /\
    process_typed i w' = drop (length line) (process_typed i w).
Proof. intros U line run. by apply (counter_runs test_suite wrapper i esp lit w buf run). Qed.


(** * An example *)

Definition user_literals : list string :=
  [not_found; "."%string; choice_prompt; ("Wrong Choice!" +++ nl)%string; nl] ++ shell_texts ++ syserr_texts ++ syserr_files ++ [":"%string].

Definition user_lit (f : string) : Z := 0x8050000 + 0x100 * literal_index f user_literals.

(** An executable: an ELF header and the message of [cat]. *)
Definition cat_file : list Z := example_elf ++ bytes_of not_found ++ [0].

(** The image: the file "a", ".", and the executable "cat".  In slot 0 a
    process with an argument. *)
Definition user_image (count : Z) (file_a arg : list Z) : mem :=
  let m := store32 (store32 (store32 ∅ 0x410000 count) 0x410004 2) 0x410008 2 in
  let m := store32 (store32 (store8 m 0x410040 97) 0x410060 2) 0x410064 0 in
  let m := store32 (store32 (store8 m 0x410080 46) 0x4100A0 1) 0x4100A4 0 in
  let m := store32 (store32 (store_bytes m 0x4100C0 [99; 97; 116]) 0x4100E0 2) 0x4100E4 1 in
  let m := store32 (store32 m 0x411000 (zlen file_a)) 0x411004 1 in
  let m := store32 (store32 m 0x412000 (zlen cat_file)) 0x412004 0 in
  let m := store_bytes (store_bytes m 0x413000 cat_file) 0x414000 file_a in
  let m := store_bytes m 0x409050 (ELF_MAGIC_HEADER ++ [0]) in
  let P := get_pcb_from_slot 0 in
  let m := pcb_set (pcb_set (pcb_set m P slot_num 0) P in_use 1) P process_pd_ptr (get_process_pd 0) in
  let m := store_bytes m (args P) (arg ++ [0]) in
  let m := store32 (store32 m (fa P 0) 0x409030) (fa P 0 + 8) 1 in
  let m := store32 (store32 m (fa P 1) 0x409040) (fa P 1 + 8) 1 in
  foldl (fun m f => store_bytes m (user_lit f - 0x7800000) (bytes_of f ++ [0])) m user_literals.

(** A process on a given memory, with keys typed on its terminal. *)
Definition image_tty (image : mem) (keys : list Z) : tty :=
  let s := Tty image pic_boot
             (fun t => Terminal (circular_buffer_init (0x408000 + 128 * t) 128) 0 0 0
                         (if t =? 0 then 0xB8000 else 0x401000 + 8192 * t))
             0 0 (replicate 128 0) 0 in
  foldl (fun s ch => (keyboard_putc s 0 ch).1) s keys.

#[local] Abbreviation user_fs := (Fs_ptrs 0x410000 0x411000 0x413000).

Definition image_kernel (image : mem) (keys : list Z) : kernel :=
  let s := image_tty image keys in
  let k := set_cr3 (set_kmem (example_kernel s)
             (setup_process_paging (L := example_layout) (fun _ => 0) (tmem s)
                (get_process_page_from_slot 0) 0 0xB8000).1) (get_process_pd 0) in
  Kernel (ktty k) user_fs (idt k) (tss_ss0 k) (tss_esp0 k) (tss_desc k) (cr3 k) (next_pid k)
    (rtc_test_enabled k) (system_ticks k) (ldt_desc k) (tss_ldt k).

Definition image_world (image : mem) (keys : list Z) : world :=
  World (image_kernel image keys) (fun _ => Env 0x7FF000 [] 0 0 0) 0.

(** Checking it: files of one block, the terminal, and the descriptors. *)
Definition inode_check (m : mem) (fs : fs_ptrs) (n : Z) : bool :=
  (0 <=? n) && (n <? num_inodes m fs) && (file_length m fs n <=? 4096) && (data_blocks m fs n 0 <? num_data_blocks m fs).

Definition files_check (m : mem) (fs : fs_ptrs) : bool :=
  (fs_data_ptr fs =? fs_inode_ptr fs + 4096 * num_inodes m fs) && (num_directory_entries m fs <=? 63) &&
  (image_end m fs <=? 0x7E0000) &&
  forallb (fun j => inode_check m fs (dentry_inode_num m (directory_entry fs j))) (seqZ 0 (num_directory_entries m fs)).

Definition input_check (s : tty) (keys : list Z) : bool :=
  let t := terms s 0 in
  let b := input_buffer t in
  (active_terminal s =? 0) &&
  forallb (fun t => video_memory (terms s t) =? get_terminal_output_buffer (L := example_layout) s t) [0; 1; 2] &&
  (0 <=? col (screen_of s 0)) && (col (screen_of s 0) <? 80) && (0 <=? row (screen_of s 0)) && (row (screen_of s 0) <? 25) &&
  (data_start b =? 0x408000) && (data_end b =? 0x408080) && (max_len b =? 128) &&
  (0 <=? current_len b) && (current_len b <=? 128) && (0x408000 <=? head b) && (head b <? 0x408080) &&
  (CircularBuffer.tail b =? slot b (head_off b + current_len b)) &&
  bool_decide (contents b (tmem s) = keys) && (new_line_ready t =? newlines keys).

Definition terminal_fdb (m : mem) (fd : Z) : bool :=
  let P := get_pcb_from_slot 0 in
  negb (fd_used m P fd) ||
  match fops_at (L := example_layout) (f_fops m (fa P fd)) with
  | Some Stdin_fops | Some Stdout_fops => fd <? 2
  | _ => false
  end.

Definition world_check (w : world) (keys : list Z) : bool :=
  let k := w_kernel w in
  files_check (kmem k) (kfs k) && (single_terminal (ktty k) =? 0) && (process_term 0 k =? 0) &&
  input_check (ktty k) keys && (zlen (string_at (kmem k) (args (get_pcb_from_slot 0))) <? 128) &&
  forallb (terminal_fdb (kmem k)) (seqZ 0 8).

Lemma inode_check_spec m fs n : inode_check m fs n = true -> inode_ok m fs n.
Proof.
  unfold inode_check. rewrite !andb_true_iff, !Z.leb_le, !Z.ltb_lt. intros [[[H1 H2] H3] H4].
  split; [done|lia|]. intros k Hk. by assert (k = 0) as -> by lia.
Qed.

Lemma seqZ_forallb (f : Z -> bool) lo n x : forallb f (seqZ lo n) = true -> lo <= x < lo + n -> f x = true.
Proof. rewrite forallb_forall. intros H Hx. apply H, list_elem_of_In, elem_of_seqZ. lia. Qed.

Lemma input_check_spec s keys : input_check s keys = true -> input_ok (L := example_layout) s 0 keys.
Proof.
  unfold input_check. cbv zeta. rewrite !andb_true_iff, bool_decide_eq_true, !Z.eqb_eq, !Z.leb_le, !Z.ltb_lt.
  intros [[[[[[[[[[[[[[[A V] C1] C2] R1] R2] S1] S2] S3] L1] L2] H1] H2] T] C] N].
  split; [split|lia|split|split; [split|]|done]; rewrite ?S1, ?S2, ?S3; try lia.
  - intros t Ht. rewrite forallb_forall in V. apply Z.eqb_eq, V.
    assert (t = 0 \/ t = 1 \/ t = 2) as [->|[->| ->]] by lia; simpl; tauto.
  - apply length_screen_cells.
  - by split_and!.
Qed.

Lemma terminal_fdb_spec m fs fd :
  terminal_fdb m fd = true -> fd_used m (get_pcb_from_slot 0) fd = true -> fd_ok (L := example_layout) 0 m fs fd.
Proof.
  unfold terminal_fdb. cbv zeta. intros H Hu. rewrite Hu in H. cbn [negb orb] in H.
  destruct (fops_at _) as [[| | | |]|] eqn:E; try discriminate H; apply Z.ltb_lt in H;
    eexists; (split; [exact E|]); (split; [lia|discriminate]).
Qed.

Lemma image_entries w keys j :
  world_check w keys = true -> 0 <= j < num_directory_entries (kmem (w_kernel w)) (kfs (w_kernel w)) ->
  inode_ok (kmem (w_kernel w)) (kfs (w_kernel w)) (dentry_inode_num (kmem (w_kernel w)) (directory_entry (kfs (w_kernel w)) j)).
Proof.
  unfold world_check, files_check. cbv zeta. rewrite !andb_true_iff. intros [[[[[[_ C] _] _] _] _] _] Hj.
  apply inode_check_spec. exact (seqZ_forallb _ _ _ j C ltac:(lia)).
Qed.

Lemma world_process w keys m :
  cr3 (w_kernel w) = get_process_pd 0 -> kfs (w_kernel w) = user_fs -> (forall n, e_local (w_env w n) = 0x7FF000) ->
  kmem (w_kernel w) = (setup_process_paging (L := example_layout) (fun _ => 0) m (get_process_page_from_slot 0) 0 0xB8000).1 ->
  world_check w keys = true -> process_ok (L := example_layout) 0 w.
Proof.
  intros F1 F2 F3 F4 H. pose proof (fun j => image_entries _ keys j H) as Hent. unfold world_check, files_check in H. cbv zeta in H.
  rewrite !andb_true_iff, !Z.eqb_eq, !Z.leb_le, !Z.ltb_lt in H. destruct H as [[[[[[[[D E] I] _] S] T] In] A] Fd].
  split.
  - exact F1.
  - exists 0xB8000. split; [reflexivity|]. rewrite F4.
    apply (setup_space (LOk := example_layout_ok)); [lia| |reflexivity|lia]. rewrite process_page_eq; lia.
  - intros n. rewrite F3. split; vm_compute; congruence.
  - split; [by rewrite F2|exact D|exact E].
  - intros x Hx. rewrite F2 in Hx at 1. cbn [fs_boot_ptr] in Hx. apply (example_boot_kept 0x410000 0x7E0000); lia.
  - intros j Hj _. exact (Hent j Hj).
  - exact S.
  - exists keys. rewrite T. by apply input_check_spec.
  - exact A.
  - intros fd Hfd. apply terminal_fdb_spec. exact (seqZ_forallb _ _ _ fd Fd ltac:(lia)).
Qed.

Lemma image_cr3 image keys : cr3 (w_kernel (image_world image keys)) = get_process_pd 0.
Proof. reflexivity. Qed.
Lemma image_fs image keys : kfs (w_kernel (image_world image keys)) = user_fs.
Proof. reflexivity. Qed.
Lemma image_local image keys n : e_local (w_env (image_world image keys) n) = 0x7FF000.
Proof. reflexivity. Qed.
Lemma image_kmem image keys :
  kmem (w_kernel (image_world image keys)) = (setup_process_paging (L := example_layout) (fun _ => 0)
    (tmem (image_tty image keys)) (get_process_page_from_slot 0) 0 0xB8000).1.
Proof. reflexivity. Qed.

Lemma image_process image keys :
  world_check (image_world image keys) keys = true -> process_ok (L := example_layout) 0 (image_world image keys).
Proof.
  exact (world_process (image_world image keys) keys (tmem (image_tty image keys)) (image_cr3 image keys)
           (image_fs image keys) (image_local image keys) (image_kmem image keys)).
Qed.

(** The lines "0", "cat a" and "exit" were typed. *)
Definition user_keys : list Z := [48; 10; 99; 97; 116; 32; 97; 10; 101; 120; 105; 116; 10].

Definition user_world : world :=
  image_world (user_image 3 [104; 101; 108; 108; 111; 119; 111; 114; 108; 100] [97]) user_keys.

#[local] Abbreviation user_kmem := (kmem (w_kernel user_world)).

Lemma user_check : world_check user_world user_keys = true.
Proof. vm_compute. reflexivity. Qed.

Lemma user_entries j :
  0 <= j < num_directory_entries user_kmem user_fs ->
  inode_ok user_kmem user_fs (dentry_inode_num user_kmem (directory_entry user_fs j)).
Proof. exact (image_entries user_world user_keys j user_check). Qed.

Lemma user_running : running (L := example_layout) 0 0x7FFF00 user_world.
Proof.
  split; [lia|split; vm_compute; congruence|exact (image_process _ _ user_check)|vm_compute; reflexivity|vm_compute; reflexivity|].
  exists 2. split; [lia|vm_compute; reflexivity].
Qed.

(** The literals, against a buffer at 0x8060000. *)
Definition user_textb (m : mem) (f : string) : bool :=
  let a := user_lit f in
  let l := bytes_of f in
  bool_decide (load_bytes m a (length l) = l) && bool_decide (Forall (fun b => b <> 0) l) &&
  (load8 m (a + zlen l) =? 0) && (USER_PAGE <=? a) && (a + zlen l <? 0x8060000).

#[local] Abbreviation user_system := (kernel_system (L := example_layout) (fun s _ => s) 0 0 0x7FFF00).

Lemma user_texts : let m := umem (UserSystem := user_system) user_world in forallb (user_textb m) user_literals = true.
Proof. vm_compute. reflexivity. Qed.

Lemma user_textb_spec m n f :
  user_textb m f = true ->
  cstr m (user_lit f) (bytes_of f) /\ paged (user_lit f) (zlen (bytes_of f) + 1) /\
  (user_lit f + zlen (bytes_of f) < 0x8060000 \/ 0x8060000 + n <= user_lit f).
Proof.
  unfold user_textb. cbv zeta. rewrite !andb_true_iff, !bool_decide_eq_true, Z.eqb_eq, Z.leb_le, Z.ltb_lt.
  intros ((((H1 & H2) & H3) & H4) & H5). split; [by split|]. unfold paged, USER_PAGE_END. lia.
Qed.

Lemma user_literal n f : In f user_literals -> literal (U := user_system) user_lit user_world 0x8060000 n f.
Proof.
  intros Hf. pose proof user_texts as H. cbv zeta in H.
  exact (user_textb_spec _ n f (proj1 (forallb_forall _ _) H f Hf)).
Qed.

Lemma user_buffer n : 0 <= n <= 0x1000 -> paged 0x8060000 n.
Proof. intros Hn. unfold paged, USER_PAGE, USER_PAGE_END. lia. Qed.

Lemma cat_on_kernel_witness :
  exists w', cat_main (U := user_system) user_lit 11 user_world 0x8060000 = Some (w', 0) /\
    process_ok (L := example_layout) 0 w'.
Proof.
  destruct (scr_puts_total (process_screen 0 user_world) [104; 101; 108; 108; 111; 119; 111; 114; 108; 100])
    as [sc Hsc]; [repeat constructor; lia|].
  pose proof (cat_on_kernel (LOk := example_layout_ok) (fun s _ => s) 0 0 0x7FFF00 user_lit 11 user_world 0x8060000 sc
                user_running (user_buffer 1024 ltac:(lia)) (user_literal 1024 not_found (or_introl eq_refl))) as P.
  replace (cat_entry 0 user_world) with (Some (Regular [104; 101; 108; 108; 111; 119; 111; 114; 108; 100])) in P
    by (vm_compute; reflexivity).
  destruct (P Hsc) as (w' & E & [O _ _]); [simpl; lia|]. exists w'. split; [exact E|exact O].
Defined.

Lemma ls_on_kernel_witness :
  exists w', ls_main (U := user_system) user_lit 4 user_world 0x8060000 = Some (w', 0) /\
    process_ok (L := example_layout) 0 w'.
Proof.
  assert (En : dir_names user_kmem (kfs (w_kernel user_world)) = [[97]; [46]; [99; 97; 116]]) by (vm_compute; reflexivity).
  destruct (scr_puts_total (process_screen 0 user_world) (concat (listed <$> [[97]; [46]; [99; 97; 116]]))) as [sc Hsc].
  { apply (bool_decide_unpack _). vm_compute. exact I. }
  destruct (ls_on_kernel (LOk := example_layout_ok) (fun s _ => s) 0 0 0x7FFF00 user_lit 4 user_world 0x8060000 sc)
    as (w' & E & [O _ _]).
  - exact user_running.
  - exact (user_buffer 33 ltac:(lia)).
  - apply user_literal. right. by left.
  - vm_compute. split; [split; congruence|]. split; congruence.
  - vm_compute. reflexivity.
  - rewrite En. exact Hsc.
  - vm_compute. reflexivity.
  - exists w'. split; [exact E|exact O].
Defined.

Lemma counter_on_kernel_witness :
  exists w', counter_main (U := user_system) user_lit (Z.to_nat 100000) user_world 0x8060000 = Some (w', 0) /\
    process_ok (L := example_layout) 0 w' /\ process_typed 0 w' = [99; 97; 116; 32; 97; 10; 101; 120; 105; 116; 10].
Proof.
  assert (Et : process_typed 0 user_world = user_keys) by (vm_compute; reflexivity).
  destruct (scr_puts_total (process_screen 0 user_world) (bytes_of choice_prompt ++ counter_text [48; 10])) as [sc Hsc].
  { apply Forall_app. split; [apply (bool_decide_unpack _); vm_compute; exact I|apply counter_text_no_backspace]. }
  destruct (counter_on_kernel (LOk := example_layout_ok) (fun s _ => s) 0 0 0x7FFF00 user_lit (Z.to_nat 100000)
              user_world 0x8060000 sc) as (w' & E & [O _ _] & T).
  - exact user_running.
  - exact (user_buffer 1024 ltac:(lia)).
  - apply user_literal. do 2 right. by left.
  - apply user_literal. do 3 right. by left.
  - apply user_literal. do 4 right. by left.
  - rewrite Et. reflexivity.
  - rewrite Et. reflexivity.
  - rewrite Et. repeat constructor; lia.
  - rewrite Et. exact Hsc.
  - reflexivity.
  - exists w'. split; [exact E|]. split; [exact O|]. rewrite T, Et. reflexivity.
Defined.




