(* ===== verification/KernelShell.v ===== *)
(** The kernel implements [execute] for the shell: [ShellSystemOk] for a
    process in a slot.

    The call goes through [syscall_execute] into the new process, whose program
    runs over the system calls of its own slot, and back through
    [syscall_halt].  The executables of the image are the compiled programs, so
    [programs] says which [utility] a name stands for.  Only this chain of
    processes runs: the timer is not part of the model. *)

From S2P Require Import Prelude Memory Layout I8259 LibMem LibString CircularBuffer Paging Ece391Fs Fs Pcb.
From S2P Require Import Terminal Screen Printf Console LineInput Machine Rtc Syscall FileTable Process Execute Boot.
From S2P Require Import Support UserSys Programs Shell Utility UserKernel.

Section shell.
Context `{L : Layout} `{LOk : !LayoutOk L}.
Context (test_suite : tty -> Z -> tty) (rtc_handler_wrapper : Z) (junk : Z -> Z).
(** The shell is in slot [i]; [stack j] and [envs j] are the stack pointer and
    the outside events of the calls in slot [j]. *)
Context (i esp ebp : Z) (stack : Z -> Z) (envs : Z -> Z -> env) (programs : list Z -> option utility).

Let P := get_pcb_from_slot i.
Let page := get_process_page_from_slot i.

(** * The call *)

Definition child_system (j : Z) : UserSystem world := kernel_system test_suite rtc_handler_wrapper j (stack j).

Definition run_command (w : world) (command : Z) : option (world * Z) :=
  let back k := World k (w_env w) (w_calls w + 1) in
  let '(k1, out) := syscall_execute junk (w_kernel w) esp ebp (w_env w (w_calls w)) command in
  match out with
  | Return r => Some (back k1, r)
  | Enter_user _ _ =>
      let C := pcb_get (kmem k1) (get_current_pcb esp) child in
      let j := pcb_get (kmem k1) C slot_num in
      u ← programs (string_at (kmem k1) (program_name C));
      '(w2, status) ← ut_main u world (child_system j) (World k1 (envs j) 0);
      '(k3, out) ← syscall_halt (w_kernel w2) (stack j) status;
      match out with
      | Resume_kernel esp' ebp' r => if (esp' =? esp) && (ebp' =? ebp) then Some (back k3, r) else None
      | _ => None
      end
  | _ => None
  end.

Definition kernel_shell : ShellSystem world := {| ece391_execute := run_command |}.

(** * What a command does *)

(** The data of a program in the file that is loaded. *)
Definition contains (u : utility) (file : list Z) : bool :=
  forallb (fun d => (PROCESS_LINK_START <=? d.1) &&
    (d.1 - PROCESS_LINK_START + zlen d.2 <=? Z.min (PROCESS_PAGE_SIZE - PROCESS_LINK_OFFSET) (zlen file)) &&
    bool_decide (take (length d.2) (drop (Z.to_nat (d.1 - PROCESS_LINK_START)) file) = d.2)) (ut_data u).

Definition command_at (w : world) (sc : screen) (q s : list Z) : option (screen * list Z * Z) :=
  let m := kmem (w_kernel w) in
  let fs := kfs (w_kernel w) in
  if forallb (slot_used m) (seqZ 0 6) then Some (sc, q, -1)
  else
    match find_file m fs (take 32 (command_name s)) with
    | None => Some (sc, q, -1)
    | Some file =>
        if (zlen file <=? 4) || negb (bool_decide (take 4 file = ELF_MAGIC_HEADER)) then Some (sc, q, -1)
        else if zlen file <? 28 then None
        else if executable_entry file =? 0 then Some (sc, q, -1)
        else
          u ← programs (command_name s);
          if contains u file then ut_spec u sc q (command_args s) (disk_at m fs) (dir_names m fs) else None
    end.

(** * The state in which the shell runs *)

Hypotheses (Hi : 0 <= i < 6) (Hesp : P < esp <= get_kernel_stack_base_from_slot i) (Hebp : 0 <= ebp < 0x100000000).
Hypothesis (Hstack : forall j, 0 <= j < 6 -> get_pcb_from_slot j < stack j <= get_kernel_stack_base_from_slot j).
Hypothesis (Henvs : forall j n, 0 <= j < 6 -> get_pcb_from_slot j + sizeof_pcb_t <= e_local (envs j n) /\
                                              e_local (envs j n) + 64 <= get_kernel_stack_base_from_slot j).

Record shell_ready (w : world) : Prop := {
  rd_used : slot_used (kmem (w_kernel w)) i = true;
  rd_slot : pcb_get (kmem (w_kernel w)) P slot_num = i;
  rd_pd : pcb_get (kmem (w_kernel w)) P process_pd_ptr = get_process_pd i;
  rd_magic : cstr (kmem (w_kernel w)) elf_magic ELF_MAGIC_HEADER;
  rd_magic_at : forall x, elf_magic <= x < elf_magic + 5 -> boot_kept x;
  rd_inodes : forall d, 0 <= d < num_directory_entries (kmem (w_kernel w)) (kfs (w_kernel w)) ->
    inode_ok (kmem (w_kernel w)) (kfs (w_kernel w))
      (dentry_inode_num (kmem (w_kernel w)) (directory_entry (kfs (w_kernel w)) d));
  (** Free slots have no open files. *)
  rd_clean : forall q fd, 0 <= q < 6 -> slot_used (kmem (w_kernel w)) q = false -> 2 <= fd < 8 ->
    fd_used (kmem (w_kernel w)) (get_pcb_from_slot q) fd = false
}.

(** Memory that commands leave alone: the image, the ELF magic. *)
Definition lasting_byte (w : world) (x : Z) : Prop :=
  fs_boot_ptr (kfs (w_kernel w)) <= x < image_end (kmem (w_kernel w)) (kfs (w_kernel w)) \/
  elf_magic <= x < elf_magic + 5.

Lemma lasting_byte_kept w x : process_ok i w -> shell_ready w -> lasting_byte w x -> boot_kept x.
Proof. intros ok rd [Hx|Hx]; [by apply (po_image i w ok)|by apply (rd_magic_at w rd)]. Qed.

Lemma ready_same w w' :
  process_ok i w -> shell_ready w -> kfs (w_kernel w') = kfs (w_kernel w) ->
  (forall x, lasting_byte w x -> load8 (kmem (w_kernel w')) x = load8 (kmem (w_kernel w)) x) ->
  (forall f, f ∈ [slot_num; process_pd_ptr] ->
     pcb_get (kmem (w_kernel w')) P f = pcb_get (kmem (w_kernel w)) P f) ->
  (forall q, 0 <= q < 6 -> slot_used (kmem (w_kernel w')) q = slot_used (kmem (w_kernel w)) q) ->
  (forall q fd, 0 <= q < 6 -> slot_used (kmem (w_kernel w)) q = false -> 2 <= fd < 8 ->
    fd_used (kmem (w_kernel w')) (get_pcb_from_slot q) fd = false) ->
  shell_ready w'.
Proof.
  intros ok rd F M Fp Us Hc. pose proof (po_fs i w ok) as Hfs.
  assert (Is : same_image (kmem (w_kernel w)) (kmem (w_kernel w')) (kfs (w_kernel w))) by (intros x Hx; apply M; by left).
  split.
  - rewrite Us by exact Hi. apply (rd_used w rd).
  - rewrite Fp by in_list. apply (rd_slot w rd).
  - rewrite Fp by in_list. apply (rd_pd w rd).
  - apply (cstr_ext (kmem (w_kernel w))); [|apply (rd_magic w rd)]. intros x Hx. simpl in Hx. apply M. right. lia.
  - apply (rd_magic_at w rd).
  - rewrite F. intros d Hd. destruct (image_counts _ _ Hfs _ Is) as (E & _ & _). rewrite E in Hd.
    rewrite (image_dentry_inode _ _ _ d Hfs Is Hd). apply (same_image_inode_ok _ _ Hfs _ Is). by apply (rd_inodes w rd).
  - intros q fd Hq Hu. rewrite Us in Hu by exact Hq. by apply Hc.
Qed.

Lemma command_same w w' sc q s :
  process_ok i w -> shell_ready w -> kfs (w_kernel w') = kfs (w_kernel w) ->
  same_image (kmem (w_kernel w)) (kmem (w_kernel w')) (kfs (w_kernel w)) ->
  (forall q, 0 <= q < 6 -> slot_used (kmem (w_kernel w')) q = slot_used (kmem (w_kernel w)) q) ->
  (forall n, disk_at (kmem (w_kernel w')) (kfs (w_kernel w')) n = disk_at (kmem (w_kernel w)) (kfs (w_kernel w)) n) ->
  dir_names (kmem (w_kernel w')) (kfs (w_kernel w')) = dir_names (kmem (w_kernel w)) (kfs (w_kernel w)) ->
  command_at w' sc q s = command_at w sc q s.
Proof.
  intros ok rd F Is Us D N. unfold command_at. cbv zeta.
  assert (E : forallb (slot_used (kmem (w_kernel w'))) (seqZ 0 6) = forallb (slot_used (kmem (w_kernel w))) (seqZ 0 6)).
  { change (seqZ 0 6) with [0; 1; 2; 3; 4; 5]. cbn [forallb].
    rewrite (Us 0), (Us 1), (Us 2), (Us 3), (Us 4), (Us 5) by lia. done. }
  rewrite E, N, F. destruct (forallb (slot_used (kmem (w_kernel w))) (seqZ 0 6)); [reflexivity|].
  destruct (image_find_file (kmem (w_kernel w)) (kmem (w_kernel w')) (kfs (w_kernel w)) (take 32 (command_name s))
              (po_fs i w ok) Is) as [-> _].
  { intros d Hd. apply (rd_inodes w rd). exact (proj1 (dir_lookup_bounds _ _ _ _ Hd)). }
  destruct (find_file _ _ _) as [file|]; [|done]. destruct (_ || _); [done|]. destruct (zlen file <? 28); [done|].
  destruct (_ =? 0); [done|]. destruct (programs _) as [u|]; [|done]. cbn [mbind option_bind].
  destruct (contains u file); [|done]. apply ut_ext. intros n. rewrite F in D. exact (D n).
Qed.

(** The call is well-formed. *)
Lemma shell_exec_ok w a s :
  process_ok i w -> shell_ready w -> cstr (umem (UserSystem := kernel_system test_suite rtc_handler_wrapper i esp) w) a s ->
  paged a (zlen s + 1) -> zlen (command_name s) < 128 -> zlen (command_args s) < 128 ->
  exists va, exec_ok (w_kernel w) i esp ebp (w_env w (w_calls w)) a s va.
Proof.
  intros ok rd Hc Ha Hn Har. destruct (po_space i w ok) as (va & Hva & Hs). exists va.
  pose proof (image_low i w ok) as Him. apply cstr_umem in Hc. unfold page_shift in Hc.
  split; try done.
  - apply (rd_used w rd).
  - apply (po_cr3 i w ok).
  - apply (po_fs i w ok).
  - apply (po_local i w ok).
  - right. lia.
  - right. lia.
  - apply (rd_magic w rd).
  - unfold paged, USER_PAGE, USER_PAGE_END, PROCESS_VIRT_PAGE_START, PROCESS_PAGE_SIZE in *. lia.
  - unfold PROCESS_VIRT_PAGE_START, USER_PAGE in *.
    by replace (get_process_page_from_slot i + (a - 0x8000000)) with (a + (get_process_page_from_slot i - 0x8000000)) by lia.
  - intros d Hd. apply (rd_inodes w rd). exact (proj1 (dir_lookup_bounds _ _ _ _ Hd)).
Qed.

Lemma stack_local w :
  process_ok i w -> let e := w_env w (w_calls w) in P + 452 <= e_local e /\ e_local e + 64 <= P + 8192.
Proof.
  intros ok e. destruct (po_local i w ok (w_calls w)) as [H1 H2]. rewrite stack_base_eq in H2 by exact Hi.
  unfold sizeof_pcb_t in H1. fold P e in H1, H2. clear - H1 H2. lia.
Qed.

(** The contract's "resumed", for this implementation. *)
Definition resumed_at (w w' : world) : Prop :=
  process_ok i w' /\ shell_ready w' /\
  (forall fd, handle_at i (kmem (w_kernel w')) (kfs (w_kernel w')) fd = handle_at i (kmem (w_kernel w)) (kfs (w_kernel w)) fd) /\
  string_at (kmem (w_kernel w')) (args P) = string_at (kmem (w_kernel w)) (args P) /\
  (forall n, disk_at (kmem (w_kernel w')) (kfs (w_kernel w')) n = disk_at (kmem (w_kernel w)) (kfs (w_kernel w)) n) /\
  dir_names (kmem (w_kernel w')) (kfs (w_kernel w')) = dir_names (kmem (w_kernel w)) (kfs (w_kernel w)) /\
  (forall sc q s, command_at w' sc q s = command_at w sc q s).

#[local] Abbreviation shell_umem := (umem (UserSystem := kernel_system test_suite rtc_handler_wrapper i esp)).

Lemma resumed_intro w k' q :
  process_ok i w -> shell_ready w -> kfs k' = kfs (w_kernel w) -> cr3 k' = cr3 (w_kernel w) ->
  single_terminal (ktty k') = single_terminal (ktty (w_kernel w)) ->
  (exists va, va mod 0x1000 = 0 /\ space_ok (kmem k') i page va) ->
  (forall x, lasting_byte w x \/ P + 40 <= x < P + 438 \/ page <= x < page + 0x400000 ->
     load8 (kmem k') x = load8 (kmem (w_kernel w)) x) ->
  input_ok (ktty k') (process_term i (w_kernel w)) q ->
  pcb_get (kmem k') P process_pd_ptr = get_process_pd i ->
  (forall q, 0 <= q < 6 -> slot_used (kmem k') q = slot_used (kmem (w_kernel w)) q) ->
  (forall q fd, 0 <= q < 6 -> slot_used (kmem (w_kernel w)) q = false -> 2 <= fd < 8 ->
    fd_used (kmem k') (get_pcb_from_slot q) fd = false) ->
  let w' := World k' (w_env w) (w_calls w + 1) in
  resumed_at w w' /\ process_typed i w' = q /\ process_screen i w' = screen_of (ktty k') (process_term i (w_kernel w)) /\
  untouched_but (shell_umem w) (shell_umem w') USER_PAGE 0.
Proof.
  intros ok rd F1 F2 F5 Sp M Hin Hpd Us Cl w'.
  destruct (resume test_suite rtc_handler_wrapper i esp w k' (w_calls w + 1) q ok F1 F2 F5 Sp)
    as (R1 & R2 & R3 & R4 & R5 & R6 & R7 & R8).
  { intros x [Hx|Hx]; apply M; [left; by left|by right]. }
  { exact Hin. }
  fold w' in R1, R2, R3, R8. split; [|split; [exact R2|split; [exact R3|exact R8]]]. split; [exact R1|]. split.
  - apply (ready_same w w' ok rd F1); [| |exact Us|exact Cl].
    + intros x Hx. apply M. by left.
    + intros f Hf. rewrite !elem_of_cons, elem_of_nil in Hf. destruct Hf as [->|[->|[]]].
      * apply load_le_ext. intros x Hx. simpl in Hx. apply M. right. left. lia.
      * cbn [w_kernel w']. rewrite Hpd. symmetry. apply (rd_pd w rd).
  - split; [exact R7|]. split; [exact R4|]. split; [exact R5|]. split; [exact R6|]. intros sc' q' s'.
    apply (command_same w w' sc' q' s' ok rd F1); [|exact Us|exact R5|exact R6]. intros x Hx. apply M. left. by left.
Qed.

(** * The child *)

#[local] Opaque start_child.

Section child.
Context (w : world) (a va : Z) (s : list Z) (m' : mem) (j entry : Z).
Let k := w_kernel w.
Let m := kmem k.
Let e := w_env w (w_calls w).
Let C := get_pcb_from_slot j.
Hypotheses (ok : process_ok i w) (rd : shell_ready w) (ex : exec_ok k i esp ebp e a s va).
Hypotheses (Hj : 0 <= j < 6) (Hij : i <> j) (Hfree : slot_used m j = false) (Hen : 0 <= entry < 0x100000000).
(** The memory when the program has been loaded. *)
Hypotheses (M' : forall x, untouched e j x -> load8 m' x = load8 m x) (Hs : pcb_get m' C slot_num = j)
  (Hname : cstr m' (program_name C) (command_name s)) (Hargs : cstr m' (args C) (command_args s))
  (Hfds : forall x, C <= x < C + 168 -> load8 m' x = load8 m x).

Let k1 := start_child junk (set_kmem k m') P C entry esp ebp.
Definition child_world : world := World k1 (envs j) 0.

(** What the start of the child writes. *)
Definition off_start (x : Z) : Prop :=
  (x < P \/ P + 20 <= x < P + 448 \/ P + 452 <= x) /\ (x < C \/ C + 452 <= x) /\
  (x < get_process_page_from_slot j \/ get_process_page_from_slot j + 0x400000 <= x) /\
  (x < get_process_pd j \/ get_process_pd j + 0x2000 <= x) /\ (x < vmem_pt \/ vmem_pt + 4096 <= x) /\
  (x < e_local e \/ e_local e + 64 <= x).

Lemma start_mem x : off_start x -> load8 (kmem k1) x = load8 m x.
Proof.
  intros (X1 & X2 & X3 & X4 & X5 & X6).
  assert (E : load8 m' x = load8 m x) by (apply M'; unfold untouched, sizeof_pcb_t, PROCESS_PAGE_SIZE; fold C; lia).
  rewrite <- E. destruct (decide (P + 20 <= x < P + 448)) as [Hx|Hx].
  - exact (start_child_parent_bytes junk (set_kmem k m') i j entry esp ebp Hi Hj Hij Hs x Hx).
  - refine (start_child_outside junk (set_kmem k m') i j entry esp ebp Hi Hj Hij Hs x _ _ X4 X5); fold P C; lia.
Qed.

Lemma local_range : P + 452 <= e_local e /\ e_local e + 64 <= P + 8192.
Proof. exact (stack_local w ok). Qed.

Lemma low_off_start x :
  0 <= x < 0x7F0000 -> x < vmem_pt \/ vmem_pt + 4096 <= x -> off_start x.
Proof.
  intros Hx Hv. pose proof (slot_pcb_range i Hi). pose proof (slot_pcb_range j Hj). fold P in H. fold C in H0.
  pose proof (process_page_eq j Hj). destruct (slot_tables j Hj) as (_ & T1 & T2 & _). pose proof local_range.
  unfold off_start. lia.
Qed.

Lemma lasting_off_start x : lasting_byte w x -> off_start x.
Proof. intros Hx. apply lasting_byte_kept in Hx as (Hx & _ & Hv); [|done|done]. apply low_off_start; lia. Qed.

Lemma child_image : same_image m (kmem k1) (kfs k).
Proof. intros x Hx. apply start_mem, lasting_off_start. by left. Qed.

(** The terminal is off the page table of the video memory. *)
Lemma term_off_start x :
  video_base i k <= x < video_base i k + 4000 \/ input_row (process_term i k) <= x < input_row (process_term i k) + 128 ->
  off_start x.
Proof.
  destruct (process_video i w ok) as [Ht Hv]. fold k in Ht, Hv. destruct lay_output as [[O1 O2] _], lay_vmem_pt_apart as [W1 W2].
  destruct lay_input as [N1 N2], lay_vmem_pt as [[V1 V2] _].
  unfold KERNEL_PAGE_START, KERNEL_IMAGE_END, input_row, KEYBOARD_BUFFER_SIZE in *. intros Hx. apply low_off_start; lia.
Qed.

Lemma start_facts :
  started (kmem k1) i j (process_term i k) (next_pid k) entry s /\ waiting m (kmem k1) i j esp ebp /\
  cr3 k1 = get_process_pd j /\ kfs k1 = kfs k /\ terms (ktty k1) = terms (ktty k) /\
  active_terminal (ktty k1) = active_terminal (ktty k) /\ single_terminal (ktty k1) = single_terminal (ktty k) /\
  (exists va, va mod 0x1000 = 0 /\ space_ok (kmem k1) j (get_process_page_from_slot j) va) /\
  (exists va, va mod 0x1000 = 0 /\ space_ok (kmem k1) i page va) /\
  (forall q, 0 <= q < 6 -> q <> i -> q <> j -> same_pcb m (kmem k1) (get_pcb_from_slot q)) /\
  (forall x, get_process_page_from_slot j <= x < get_process_page_from_slot j + PROCESS_PAGE_SIZE ->
     load8 (kmem k1) x = load8 m' x).
Proof.
  destruct (execute_started junk k i esp ebp e a s va ex m' j entry Hj Hij Hen M' Hs Hname Hargs)
    as (X1 & X2 & X3 & _ & X5 & X6 & X7 & X8).
  fold P C k1 in X1, X2, X3, X5, X6, X7, X8.
  destruct (start_child_eq junk (set_kmem k m') i j entry esp ebp Hi Hj Hij Hs) as (_ & _ & _ & _ & _ & F1).
  destruct (start_child_tty junk (set_kmem k m') i j entry esp ebp) as (F2 & F3 & F4). fold P C k1 in F1, F2, F3, F4.
  split; [exact X1|]. split; [exact X2|]. split; [exact X3|]. split; [exact F1|]. split; [exact F2|]. split; [exact F3|].
  split; [exact F4|]. split; [eexists; split; [|exact X5]|].
  - unfold get_terminal_output_buffer, VIDEO_PHYS_ADDR, output_row, FOUR_KB_ALIGNED.
    destruct lay_output as [_ O]. destruct (_ =? _); [reflexivity|divlia].
  - split; [|by split]. destruct (po_space i w ok) as (va' & Hva & Sp). exists va'. split; [exact Hva|].
    by apply X7.
Qed.

(** The descriptors of the child. *)
Lemma child_fds fd :
  0 <= fd < 8 ->
  handle_at j (kmem k1) (kfs k) fd = (if fd =? 0 then Some Keyboard else if fd =? 1 then Some Display else None) /\
  (fd_used (kmem k1) C fd = true -> fd_ok j (kmem k1) (kfs k) fd).
Proof.
  intros Hfd. destruct (start_child_std junk (set_kmem k m') i j entry esp ebp Hi Hj Hij Hs) as (S1 & S2 & S3 & S4).
  fold P C k1 in S1, S2, S3, S4. unfold handle_at, fd_ops. rewrite (proj2 (bad_fd_range fd) Hfd). cbn [negb andb]. fold C.
  destruct fops_at_std as [A1 A2].
  destruct (Z.eqb_spec fd 0) as [->|N0].
  { unfold fd_used, flags_in_use, fd_ok. fold C. rewrite S2, S1, A1. split; [reflexivity|]. intros _.
    exists Stdin_fops. split; [done|]. split; [lia|done]. }
  destruct (Z.eqb_spec fd 1) as [->|N1].
  { unfold fd_used, flags_in_use, fd_ok. fold C. rewrite S4, S3, A2. split; [reflexivity|]. intros _.
    exists Stdout_fops. split; [done|]. split; [lia|done]. }
  assert (U : fd_used (kmem k1) C fd = false).
  { assert (Ef : f_flags (kmem k1) (fa C fd) = f_flags m (fa C fd)).
    { apply load_le_ext. intros x Hx. simpl in Hx. unfold fa, fa_offset, sizeof_file_t in Hx.
      transitivity (load8 m' x); [|apply Hfds; lia].
      refine (start_child_strings junk (set_kmem k m') i j entry esp ebp Hi Hj Hij Hs x _). fold C. lia. }
    pose proof (rd_clean w rd j fd Hj Hfree ltac:(lia)) as U. fold k m C in U. unfold fd_used, flags_in_use in *.
    rewrite Ef. exact U. }
  rewrite U. by split.
Qed.

Lemma child_input q : input_ok (ktty k) (process_term i k) q ->
  input_ok (ktty k1) (process_term i k) q /\ screen_of (ktty k1) (process_term i k) = screen_of (ktty k) (process_term i k).
Proof.
  intros Hin. destruct start_facts as (_ & _ & _ & _ & F2 & F3 & _).
  refine (input_same _ _ _ _ Hin F2 F3 _). intros x Hx. apply start_mem, term_off_start. exact Hx.
Qed.

Lemma child_args : string_at (kmem k1) (args C) = command_args s.
Proof.
  destruct start_facts as (St & _). destruct (cstr_string_at (kmem k1) (args C)) as [Hc _].
  exact (cstr_inj _ _ _ _ Hc (st_args _ _ _ _ _ _ _ St)).
Qed.

Lemma child_ok : process_ok j child_world.
Proof.
  destruct start_facts as (St & _ & F0 & F1 & F2 & F3 & F4 & Sp & _ & _ & _).
  pose proof (po_fs i w ok) as Hfs. fold k m in Hfs. pose proof child_image as Is.
  pose proof (st_term _ _ _ _ _ _ _ St) as Et. split; cbn [w_kernel w_env child_world]; rewrite ?F1.
  - exact F0.
  - exact Sp.
  - intros n. by apply Henvs.
  - exact (same_image_fs_ok m (kfs k) Hfs (kmem k1) Is).
  - rewrite (image_end_same m (kfs k) Hfs (kmem k1) Is). apply (po_image i w ok).
  - destruct (image_counts m (kfs k) Hfs (kmem k1) Is) as (-> & _ & _). intros d Hd _.
    rewrite (image_dentry_inode m (kmem k1) (kfs k) d Hfs Is Hd).
    apply (same_image_inode_ok m (kfs k) Hfs (kmem k1) Is). by apply (rd_inodes w rd).
  - rewrite F4. apply (po_single i w ok).
  - destruct (po_input i w ok) as (q & Hin). exists q.
    replace (process_term j k1) with (process_term i k) by (symmetry; exact Et). exact (proj1 (child_input q Hin)).
  - fold C. rewrite child_args. apply (ex_args _ _ _ _ _ _ _ _ ex).
  - intros fd Hfd. exact (proj2 (child_fds fd Hfd)).
Qed.

(** The child sees the terminal and the files of its parent. *)
Lemma child_view :
  process_screen j child_world = process_screen i w /\ process_typed j child_world = process_typed i w /\
  process_term j k1 = process_term i k /\
  (forall n, disk_at (kmem k1) (kfs k1) n = disk_at m (kfs k) n) /\ dir_names (kmem k1) (kfs k1) = dir_names m (kfs k).
Proof.
  destruct start_facts as (St & _ & F0 & F1 & F2 & F3 & F4 & _). pose proof (st_term _ _ _ _ _ _ _ St) as Et.
  assert (Et' : process_term j k1 = process_term i k) by exact Et.
  destruct (po_input i w ok) as (q & Hin). destruct (child_input q Hin) as [Hin' Es]. rewrite F1.
  split; [|split; [|split; [exact Et'|]]].
  - unfold process_screen. cbn [w_kernel child_world]. rewrite Et'. exact Es.
  - unfold process_typed. cbn [w_kernel child_world]. rewrite Et'. fold k m.
    destruct (in_ring _ _ _ Hin) as (_ & _ & _ & E1), (in_ring _ _ _ Hin') as (_ & _ & _ & E2).
    transitivity q; [exact E2|symmetry; exact E1].
  - pose proof (po_fs i w ok) as Hfs. fold k m in Hfs. pose proof child_image as Is.
    split; [intros n; exact (image_disk i w (kmem k1) n ok Is)|exact (image_names i w (kmem k1) ok Is)].
Qed.

(** ** Its run *)

Section run.
Context (u : utility) (file : list Z) (sc : screen) (q : list Z) (r : Z).
Hypothesis (Hfile : let n := Z.to_nat (Z.min (PROCESS_PAGE_SIZE - PROCESS_LINK_OFFSET) (zlen file)) in
  load_bytes m' (get_process_page_from_slot j + PROCESS_LINK_OFFSET) n = take n file).
Hypotheses (Hhas : contains u file = true)
  (Hspec : ut_spec u (process_screen i w) (process_typed i w) (command_args s) (disk_at m (kfs k)) (dir_names m (kfs k))
           = Some (sc, q, r)).
Let US := kernel_system_ok test_suite rtc_handler_wrapper j (stack j) Hj (Hstack j Hj).

Lemma child_present : Forall (present (U := child_system j) child_world) (ut_data u).
Proof.
  apply Forall_forall. intros [d l] Hd. unfold contains in Hhas. rewrite forallb_forall in Hhas.
  specialize (Hhas (d, l) (proj1 (list_elem_of_In _ _) Hd)). cbn [fst snd] in Hhas.
  rewrite !andb_true_iff, bool_decide_eq_true, !Z.leb_le in Hhas. destruct Hhas as ((H1 & H2) & H3).
  unfold present. cbn [fst snd]. unfold child_system. rewrite load_bytes_umem. cbn [w_kernel child_world].
  destruct start_facts as (_ & _ & _ & _ & _ & _ & _ & _ & _ & _ & Pg). cbv zeta in Hfile.
  change PROCESS_LINK_START with 0x8048000 in *. unfold PROCESS_PAGE_SIZE, PROCESS_LINK_OFFSET in *.
  set (n := Z.to_nat (Z.min (0x400000 - 0x48000) (zlen file))) in *.
  set (off := Z.to_nat (d - 0x8048000)) in *.
  assert (En : n = (off + (length l + (n - off - length l)))%nat) by (unfold n, off; lia).
  assert (Ed : d + page_shift j = get_process_page_from_slot j + 0x48000 + Z.of_nat off)
    by (unfold page_shift, USER_PAGE, off; lia).
  rewrite Ed, (load_bytes_ext m') by (intros x Hx; apply Pg; lia).
  rewrite En in Hfile at 1. rewrite !load_bytes_app in Hfile.
  rewrite <- H3 at 2. rewrite take_drop_commute.
  replace (take (off + length l) file) with (take (off + length l) (take n file)) by (rewrite take_take; f_equal; lia).
  rewrite <- Hfile, app_assoc, take_app_le by (rewrite length_app, !length_load_bytes; lia).
  rewrite take_ge by (rewrite length_app, !length_load_bytes; lia).
  rewrite drop_app_length'; [done|by rewrite length_load_bytes].
Qed.

Lemma child_fresh : fresh (US := US) child_world.
Proof.
  destruct start_facts as (_ & _ & _ & F1 & _).
  assert (H : forall fd, 0 <= fd < 8 -> handle_at j (kmem k1) (kfs k1) fd =
    (if fd =? 0 then Some Keyboard else if fd =? 1 then Some Display else None)).
  { intros fd Hfd. rewrite F1. exact (proj1 (child_fds fd Hfd)). }
  split.
  - exact child_ok.
  - exact (H 0 ltac:(lia)).
  - exact (H 1 ltac:(lia)).
  - intros fd Hfd. etransitivity; [exact (H fd ltac:(lia))|].
    destruct (Z.eqb_spec fd 0); [lia|]. destruct (Z.eqb_spec fd 1); [lia|reflexivity].
  - change (@arguments _ _ US child_world) with (string_at (kmem k1) (args C)). rewrite child_args.
    apply (ex_args _ _ _ _ _ _ _ _ ex).
Qed.

Lemma child_runs :
  exists w2, ut_main u world (child_system j) child_world = Some (w2, r) /\ kept j child_world w2 /\
    process_screen j w2 = sc /\ process_typed j w2 = q /\ 0 <= r < 256.
Proof.
  destruct child_view as (V1 & V2 & _ & V4 & V5).
  apply (ut_correct u world (child_system j) US child_world sc q r child_fresh child_present).
  change (@display _ _ US child_world) with (process_screen j child_world).
  change (@typed _ _ US child_world) with (process_typed j child_world).
  change (@arguments _ _ US child_world) with (string_at (kmem k1) (args C)).
  change (@disk _ _ US child_world) with (disk_at (kmem k1) (kfs k1)).
  change (@names _ _ US child_world) with (dir_names (kmem k1) (kfs k1)).
  rewrite V1, V2, child_args, V5. rewrite <- Hspec. apply ut_ext. exact V4.
Qed.
End run.

(** ** Its end *)

Section return_.
Context (w2 : world) (q : list Z) (r : Z).
Hypotheses (K : kept j child_world w2) (Hq : process_typed j w2 = q) (Hr : 0 <= r < 256).
Let k2 := w_kernel w2.

Lemma child_term : process_term j k2 = process_term i k /\ video_base j k1 = video_base i k.
Proof.
  destruct K as (_ & _ & _ & _ & El). destruct child_view as (_ & _ & E & _).
  destruct start_facts as (_ & _ & _ & _ & F2 & _).
  split; [exact (eq_trans (el_term _ _ _ El) E)|]. unfold video_base. by rewrite F2, E.
Qed.

(** The child wrote its own block, its page and the screen. *)
Lemma run_mem x :
  x < C \/ C + 8192 <= x -> x < get_process_page_from_slot j \/ get_process_page_from_slot j + 0x400000 <= x ->
  x < video_base i k \/ video_base i k + 4000 <= x -> load8 (kmem k2) x = load8 (kmem k1) x.
Proof.
  intros X1 X2 X3. destruct K as (_ & _ & _ & _ & El). apply (el_mem _ _ _ El).
  cbn [w_kernel child_world]. unfold off_process. fold C. destruct child_term as [_ ->]. lia.
Qed.

(** Bytes the whole command leaves alone. *)
Lemma command_mem x :
  lasting_byte w x \/ P + 20 <= x < P + 448 \/ page <= x < page + 0x400000 \/
  (exists q, 0 <= q < 6 /\ q <> i /\ q <> j /\ get_pcb_from_slot q <= x < get_pcb_from_slot q + 452) ->
  (forall m3, (forall x, x < C \/ C + sizeof_pcb_t <= x -> x < P + 448 \/ P + 452 <= x ->
     load8 m3 x = load8 (kmem k2) x) -> load8 m3 x = load8 m x).
Proof.
  intros Hx m3 M3. pose proof (slot_pcb_range i Hi) as RP. pose proof (slot_pcb_range j Hj) as RC. fold P in RP. fold C in RC.
  pose proof (process_page_eq j Hj) as Ej. pose proof (process_page_eq i Hi) as Ei. fold page in Ei.
  pose proof (slot_pcbs_apart i j Hi Hj Hij) as A. fold P C in A. destruct (process_video i w ok) as [_ Hv]. fold k in Hv.
  destruct lay_output as [[O1 O2] _], lay_vmem_pt as [[V1 V2] _]. unfold KERNEL_PAGE_START, KERNEL_IMAGE_END in *.
  destruct (slot_tables j Hj) as (_ & T1 & T2 & _). pose proof local_range as Hl.
  assert (H : off_start x /\ (x < C \/ C + 8192 <= x) /\
              (x < get_process_page_from_slot j \/ get_process_page_from_slot j + 0x400000 <= x) /\
              (x < video_base i k \/ video_base i k + 4000 <= x) /\ (x < P + 448 \/ P + 452 <= x)).
  { destruct Hx as [Hx|[Hx|[Hx|(n & Hn & Hni & Hnj & Hx)]]].
    - split; [by apply lasting_off_start|]. apply lasting_byte_kept in Hx as (X1 & X2 & X3); [|done|done]. lia.
    - unfold off_start. lia.
    - unfold off_start. lia.
    - pose proof (slot_pcb_range n Hn). pose proof (slot_pcbs_apart n i Hn Hi Hni) as A1.
      pose proof (slot_pcbs_apart n j Hn Hj Hnj) as A2. fold P in A1. fold C in A2. unfold off_start. lia. }
  destruct H as (H1 & H2 & H3 & H4 & H5).
  rewrite M3 by (unfold sizeof_pcb_t; lia). rewrite run_mem by assumption. by apply start_mem.
Qed.

(** The parent's page tables. *)
Lemma return_space m3 :
  (forall x, x < C \/ C + sizeof_pcb_t <= x -> x < P + 448 \/ P + 452 <= x -> load8 m3 x = load8 (kmem k2) x) ->
  exists va, va mod 0x1000 = 0 /\ space_ok m3 i page va.
Proof.
  intros M3. destruct start_facts as (_ & _ & _ & _ & _ & _ & _ & _ & (va' & Hva & Sp) & _). exists va'. split; [exact Hva|].
  apply (space_ok_ext (kmem k1)); [|exact Sp]. intros x Hx.
  pose proof (slot_pcb_range i Hi) as RP. pose proof (slot_pcb_range j Hj) as RC. fold P in RP. fold C in RC.
  pose proof (process_page_eq j Hj) as Ej. destruct (process_video i w ok) as [_ Hv]. fold k in Hv.
  destruct lay_output as [[O1 O2] _], lay_vmem_pt as [[V1 V2] _], lay_vmem_pt_apart as [W1 W2].
  destruct (slot_tables i Hi) as (_ & T1 & T2 & _). unfold KERNEL_PAGE_START, KERNEL_IMAGE_END in *.
  rewrite M3 by (unfold sizeof_pcb_t; lia). apply run_mem; lia.
Qed.

(** The kernel's links between the two. *)
Lemma return_links :
  pcb_get (kmem k2) C parent = P /\ pcb_get (kmem k2) P slot_num = i /\ pcb_get (kmem k2) P process_pd_ptr = get_process_pd i /\
  pcb_get (kmem k2) P regs_esp = esp /\ pcb_get (kmem k2) P regs_ebp = ebp /\ fds_ok (kmem k2) C.
Proof.
  destruct start_facts as (St & Wt & _). pose proof (slot_pcb_range i Hi) as RP. pose proof (slot_pcb_range j Hj) as RC.
  fold P in RP. fold C in RC. pose proof (process_page_eq j Hj) as Ej. pose proof (slot_pcbs_apart i j Hi Hj Hij) as A. fold P C in A.
  destruct (process_video i w ok) as [_ Hv]. fold k in Hv. destruct lay_output as [[O1 O2] _].
  unfold KERNEL_PAGE_START, KERNEL_IMAGE_END in *.
  assert (G : forall f, in_pcb f = true -> pcb_get (kmem k2) P f = pcb_get (kmem k1) P f).
  { intros f Hf. apply pcb_get_ext; [exact Hf|]. intros x Hx. apply run_mem; lia. }
  assert (W : forall f, f ∈ kept_fields -> pcb_get (kmem k2) P f = pcb_get m P f).
  { intros f Hf. rewrite G by (by apply kept_fields_in_pcb). exact (wt_rest _ _ _ _ _ _ Wt f Hf). }
  pose proof K as (Pok & _ & _ & _ & El). destruct child_term as [_ Evb]. unfold kept_fields in W. split_and!.
  - transitivity (pcb_get (kmem k1) C parent); [|exact (st_parent _ _ _ _ _ _ _ St)].
    apply load_le_ext. intros x Hx. simpl in Hx. apply (el_mem _ _ _ El). cbn [w_kernel child_world].
    unfold off_process. fold C. rewrite Evb. lia.
  - rewrite W by in_list. apply (rd_slot w rd).
  - rewrite W by in_list. apply (rd_pd w rd).
  - rewrite G by reflexivity. exact (wt_esp _ _ _ _ _ _ Wt).
  - rewrite G by reflexivity. exact (wt_ebp _ _ _ _ _ _ Wt).
  - intros fd Hfd Hu. destruct (po_fds j w2 Pok fd Hfd Hu) as (o & Ho & _). by exists o.
Qed.

(** The open files of the child are closed. *)
Lemma return_clean m3 fd :
  2 <= fd < 8 ->
  (forall q, 0 <= q < 8 -> fd_used m3 C q = fd_used (kmem k2) C q && negb (closes (kmem k2) C q)) ->
  fd_used m3 C fd = false.
Proof.
  intros Hfd ->; [|lia]. destruct (fd_used (kmem k2) C fd) eqn:E; [|done]. cbn [andb].
  pose proof K as (Pok & _). destruct (po_fds j w2 Pok fd ltac:(lia) E) as (o & Ho & Hk & _). fold C k2 in Ho.
  unfold closes, fd_ops. rewrite (proj2 (bad_fd_range fd)) by lia. rewrite E, Ho. cbn [negb andb].
  destruct (Hk ltac:(lia)) as [N1 N2]. by destruct o.
Qed.

Lemma child_returns :
  exists k3, syscall_halt k2 (stack j) r = Some (k3, Resume_kernel esp ebp r) /\
    let w' := World k3 (w_env w) (w_calls w + 1) in
    resumed_at w w' /\ process_typed i w' = q /\ process_screen i w' = process_screen j w2 /\
    untouched_but (shell_umem w) (shell_umem w') USER_PAGE 0.
Proof.
  destruct return_links as (L1 & L2 & L3 & L4 & L5 & L6).
  destruct (halt_program_spec k2 i j (stack j) r Hi Hj Hij (Hstack j Hj) L1 L2 L6) as (m3 & E & U & _ & _ & M3 & D).
  fold P C in E, U, M3, D. rewrite L3, L4, L5 in E.
  assert (Er : Z.land r 0xFF = r).
  { change 0xFF with (Z.ones 8). rewrite Z.land_ones by lia. apply Z.mod_small. change (2 ^ 8) with 256. lia. }
  unfold syscall_halt. rewrite Er, E. set (k3 := set_kernel_stack _ _). exists k3. split; [reflexivity|].
  pose proof K as (Pok & _ & _ & _ & El). destruct child_term as [Et _]. destruct start_facts as (St & Wt & X).
  destruct X as (_ & F1 & _ & _ & F4 & _ & _ & Oth & _).
  pose proof (slot_pcb_range i Hi) as RP. pose proof (slot_pcb_range j Hj) as RC. fold P in RP. fold C in RC.
  destruct (po_input j w2 Pok) as (q' & Hin). fold k2 in Hin. rewrite Et in Hin.
  assert (Eq : q' = q).
  { rewrite <- Hq. unfold process_typed. fold k2. rewrite Et. symmetry. apply (in_ring _ _ _ Hin). }
  rewrite Eq in Hin. destruct (process_video j w2 Pok) as [Ht Hv]. fold k2 in Ht, Hv. unfold video_base in Hv. rewrite Et in Ht, Hv.
  destruct lay_output as [[O1 O2] _], lay_input as [N1 N2]. unfold KERNEL_PAGE_START, KERNEL_IMAGE_END in *.
  destruct (input_same (ktty k2) (ktty k3) (process_term i k) q Hin eq_refl eq_refl) as [Hin3 Es].
  { intros x Hx. apply (M3 x); unfold sizeof_pcb_t, input_row, KEYBOARD_BUFFER_SIZE in *; lia. }
  assert (CM : forall x, lasting_byte w x \/ P + 20 <= x < P + 448 \/ page <= x < page + 0x400000 \/
    (exists q, 0 <= q < 6 /\ q <> i /\ q <> j /\ get_pcb_from_slot q <= x < get_pcb_from_slot q + 452) ->
    load8 m3 x = load8 m x) by (intros x Hx; by apply command_mem).
  destruct (resumed_intro w k3 q ok rd) as (R1 & R2 & R3 & R4).
  - exact (eq_trans (el_fs _ _ _ El) F1).
  - exact (eq_sym (po_cr3 i w ok)).
  - exact (eq_trans (el_single _ _ _ El) F4).
  - by apply return_space.
  - intros x Hx. apply (CM x). destruct Hx as [Hx|[Hx|Hx]]; [by left|right; left; lia|right; right; left; lia].
  - exact Hin3.
  - change (kmem k3) with m3. rewrite <- L3. apply load_le_ext. intros x Hx. simpl in Hx.
    pose proof (slot_pcbs_apart i j Hi Hj Hij) as A. fold P C in A. apply M3; unfold sizeof_pcb_t; lia.
  - intros n Hn. change (kmem k3) with m3. destruct (Z.eq_dec n j) as [->|Hnj].
    { transitivity false; [exact (f_equal truthy U)|symmetry; exact Hfree]. }
    unfold slot_used. f_equal. apply load_le_ext. intros x Hx. simpl in Hx. apply CM.
    destruct (Z.eq_dec n i) as [->|Hni]; [right; left; fold P in Hx; lia|]. right. right. right. exists n. lia.
  - intros n fd Hn Hu Hfd. change (kmem k3) with m3. destruct (Z.eq_dec n j) as [->|Hnj]; [by apply return_clean|].
    assert (Hni : n <> i) by (intros ->; rewrite (rd_used w rd) in Hu; discriminate).
    pose proof (rd_clean w rd n fd Hn Hu Hfd) as Cl. unfold fd_used, flags_in_use, f_flags in *.
    replace (load32 m3 (fa (get_pcb_from_slot n) fd + 8)) with (load32 (kmem (w_kernel w)) (fa (get_pcb_from_slot n) fd + 8));
      [exact Cl|]. symmetry. apply load_le_ext. intros x Hx. simpl in Hx. unfold fa, fa_offset, sizeof_file_t in Hx.
    apply CM. right. right. right. exists n. lia.
  - split; [exact R1|]. split; [exact R2|]. split; [|exact R4]. etransitivity; [exact R3|].
    etransitivity; [exact Es|]. unfold process_screen. fold k2. by rewrite Et.
Qed.
End return_.
End child.

(** * The contract *)

(** A command that is not started. *)
Lemma refused w a va s m' j :
  let k := w_kernel w in
  let C := get_pcb_from_slot j in
  process_ok i w -> shell_ready w -> exec_ok k i esp ebp (w_env w (w_calls w)) a s va -> 0 <= j < 6 -> i <> j ->
  (forall x, untouched (w_env w (w_calls w)) j x -> load8 m' x = load8 (kmem k) x) ->
  pcb_get m' C in_use = pcb_get (kmem k) C in_use -> (forall x, C <= x < C + 168 -> load8 m' x = load8 (kmem k) x) ->
  let w' := World (set_kmem k m') (w_env w) (w_calls w + 1) in
  resumed_at w w' /\ process_typed i w' = process_typed i w /\ process_screen i w' = process_screen i w /\
  untouched_but (shell_umem w) (shell_umem w') USER_PAGE 0.
Proof.
  intros k C ok rd ex Hj Hij M U Cb. cbv zeta. pose proof (stack_local w ok) as Hl.
  pose proof (slot_pcb_range i Hi) as RP. pose proof (slot_pcb_range j Hj) as RC. fold P in RP. fold C in RC.
  pose proof (slot_pcbs_apart i j Hi Hj Hij) as A. fold P C in A. pose proof (process_page_eq j Hj) as Ej.
  pose proof (process_page_eq i Hi) as Ei. fold page in Ei. destruct (process_video i w ok) as [Ht Hv]. fold k in Ht, Hv.
  destruct lay_output as [[O1 O2] _], lay_input as [N1 N2]. unfold KERNEL_PAGE_START, KERNEL_IMAGE_END in *.
  set (e := w_env w (w_calls w)) in *.
  assert (UL : forall x, 0 <= x < 0x7F0000 -> untouched e j x).
  { intros x Hx. unfold untouched, sizeof_pcb_t, PROCESS_PAGE_SIZE. fold C. lia. }
  assert (UP : forall n x, 0 <= n < 6 -> n <> j -> get_pcb_from_slot n <= x < get_pcb_from_slot n + 452 -> untouched e j x).
  { intros n x Hn Hnj Hx. pose proof (slot_pcb_range n Hn). pose proof (slot_pcbs_apart n j Hn Hj Hnj) as A1. fold C in A1.
    unfold untouched, sizeof_pcb_t, PROCESS_PAGE_SIZE. fold C. destruct (Z.eq_dec n i) as [->|Hni]; [fold P in Hx, A1; lia|].
    pose proof (slot_pcbs_apart n i Hn Hi Hni) as A2. fold P in A2. lia. }
  destruct (po_input i w ok) as (q & Hin). fold k in Hin.
  assert (Eq : process_typed i w = q) by apply (in_ring _ _ _ Hin).
  destruct (input_same (ktty k) (ktty (set_kmem k m')) (process_term i k) q Hin eq_refl eq_refl) as [Hin' Es].
  { intros x Hx. apply (M x), UL. unfold video_base in Hv. unfold input_row, KEYBOARD_BUFFER_SIZE in Hx. lia. }
  rewrite Eq. destruct (resumed_intro w (set_kmem k m') q ok rd) as (R1 & R2 & R3 & R4); try reflexivity.
  - destruct (po_space i w ok) as (va' & Hva & Sp). exists va'. split; [exact Hva|].
    exact (untouched_space k i esp ebp e a s va ex m' j i page va' Hj Hi M Sp).
  - intros x Hx. apply (M x). destruct Hx as [Hx|[Hx|Hx]].
    + apply lasting_byte_kept in Hx as (Hx & _); [|exact ok|exact rd]. apply UL. lia.
    + apply (UP i); [exact Hi|exact Hij|fold P; lia].
    + unfold untouched, sizeof_pcb_t, PROCESS_PAGE_SIZE. fold C. lia.
  - exact Hin'.
  - rewrite <- (rd_pd w rd). apply load_le_ext. intros x Hx. simpl in Hx. apply (M x).
    apply (UP i); [exact Hi|exact Hij|fold P; lia].
  - intros n Hn. unfold slot_used. f_equal. destruct (Z.eq_dec n j) as [->|Hnj]; [exact U|].
    apply load_le_ext. intros x Hx. simpl in Hx. apply (M x). apply (UP n); [exact Hn|exact Hnj|lia].
  - intros n fd Hn Hu Hfd. pose proof (rd_clean w rd n fd Hn Hu Hfd) as Cl. unfold fd_used, flags_in_use, f_flags in *.
    replace (load32 (kmem (set_kmem k m')) (fa (get_pcb_from_slot n) fd + 8))
      with (load32 (kmem (w_kernel w)) (fa (get_pcb_from_slot n) fd + 8)); [exact Cl|].
    symmetry. apply load_le_ext. intros x Hx. simpl in Hx. unfold fa, fa_offset, sizeof_file_t in Hx.
    destruct (Z.eq_dec n j) as [->|Hnj]; [apply (Cb x); fold C in Hx; lia|]. apply (M x).
    apply (UP n); [exact Hn|exact Hnj|lia].
  - split; [exact R1|]. split; [exact R2|]. split; [|exact R4]. etransitivity; [exact R3|]. exact Es.
Qed.

(** No free slot. *)
Lemma unchanged w :
  process_ok i w -> shell_ready w ->
  let w' := World (w_kernel w) (w_env w) (w_calls w + 1) in
  resumed_at w w' /\ process_typed i w' = process_typed i w /\ process_screen i w' = process_screen i w /\
  untouched_but (shell_umem w) (shell_umem w') USER_PAGE 0.
Proof.
  intros ok rd w'. destruct (po_input i w ok) as (q & Hin).
  assert (Eq : process_typed i w = q) by apply (in_ring _ _ _ Hin). rewrite Eq.
  destruct (resumed_intro w (w_kernel w) q ok rd) as (R1 & R2 & R3 & R4); try reflexivity.
  - apply (po_space i w ok).
  - exact Hin.
  - apply (rd_pd w rd).
  - apply (rd_clean w rd).
  - split; [exact R1|]. split; [exact R2|]. split; [exact R3|exact R4].
Qed.

Lemma run_refused w a k1 r :
  syscall_execute junk (w_kernel w) esp ebp (w_env w (w_calls w)) a = (k1, Return r) ->
  run_command w a = Some (World k1 (w_env w) (w_calls w + 1), r).
Proof. intros E. unfold run_command. cbv zeta. rewrite E. reflexivity. Qed.

Lemma run_started w a k1 x y C j u w2 k3 r :
  syscall_execute junk (w_kernel w) esp ebp (w_env w (w_calls w)) a = (k1, Enter_user x y) ->
  pcb_get (kmem k1) P child = C -> pcb_get (kmem k1) C slot_num = j ->
  programs (string_at (kmem k1) (program_name C)) = Some u ->
  ut_main u world (child_system j) (World k1 (envs j) 0) = Some (w2, r) ->
  syscall_halt (w_kernel w2) (stack j) r = Some (k3, Resume_kernel esp ebp r) ->
  run_command w a = Some (World k3 (w_env w) (w_calls w + 1), r).
Proof.
  intros E Ec Ej Eu Em Eh. unfold run_command. cbv zeta. rewrite E. unfold get_current_pcb.
  rewrite (pcb_from_esp_eq i Hi esp Hesp). fold P. rewrite Ec, Ej, Eu. cbn [mbind option_bind]. rewrite Em.
  cbn [mbind option_bind]. rewrite Eh. cbn [mbind option_bind]. rewrite !Z.eqb_refl. reflexivity.
Qed.

(** A command that is started. *)
Lemma accepted w a va s m' j entry u file sc q r :
  let k := w_kernel w in
  let C := get_pcb_from_slot j in
  let k1 := start_child junk (set_kmem k m') P C entry esp ebp in
  process_ok i w -> shell_ready w -> exec_ok k i esp ebp (w_env w (w_calls w)) a s va -> 0 <= j < 6 -> i <> j ->
  slot_used (kmem k) j = false -> 0 <= entry < 0x100000000 ->
  (forall x, untouched (w_env w (w_calls w)) j x -> load8 m' x = load8 (kmem k) x) ->
  pcb_get m' C slot_num = j -> cstr m' (program_name C) (command_name s) -> cstr m' (args C) (command_args s) ->
  (forall x, C <= x < C + 168 -> load8 m' x = load8 (kmem k) x) ->
  (let n := Z.to_nat (Z.min (PROCESS_PAGE_SIZE - PROCESS_LINK_OFFSET) (zlen file)) in
   load_bytes m' (get_process_page_from_slot j + PROCESS_LINK_OFFSET) n = take n file) ->
  syscall_execute junk k esp ebp (w_env w (w_calls w)) a
    = (k1, Enter_user PROCESS_LINK_START (pcb_get (kmem k1) C entrypoint)) ->
  programs (command_name s) = Some u -> contains u file = true ->
  ut_spec u (process_screen i w) (process_typed i w) (command_args s) (disk_at (kmem k) (kfs k)) (dir_names (kmem k) (kfs k))
    = Some (sc, q, r) ->
  exists w', run_command w a = Some (w', r) /\ resumed_at w w' /\ process_screen i w' = sc /\ process_typed i w' = q /\
    untouched_but (shell_umem w) (shell_umem w') USER_PAGE 0.
Proof.
  intros k C k1 ok rd ex Hj Hij Hfree Hen M S N A Cb Hfile E Hu Hc Hspec.
  destruct (start_facts w a va s m' j entry ok ex Hj Hij Hen M S N A) as (St & Wt & _).
  destruct (child_runs w a va s m' j entry ok rd ex Hj Hij Hfree Hen M S N A Cb u file sc q r Hfile Hc Hspec)
    as (w2 & Em & K & D2 & T2 & Hr).
  destruct (child_returns w a va s m' j entry ok rd ex Hj Hij Hfree Hen M S N A w2 q r K T2 Hr)
    as (k3 & Eh & R1 & R2 & R3 & R4).
  exists (World k3 (w_env w) (w_calls w + 1)). split; [|split; [exact R1|split; [exact (eq_trans R3 D2)|by split]]].
  refine (run_started w a k1 _ _ C j u w2 k3 r E _ _ _ Em Eh).
  - exact (wt_child _ _ _ _ _ _ Wt).
  - exact (st_slot _ _ _ _ _ _ _ St).
  - rewrite <- Hu. f_equal. destruct (cstr_string_at (kmem k1) (program_name C)) as [Hn _].
    exact (cstr_inj _ _ _ _ Hn (st_name _ _ _ _ _ _ _ St)).
Qed.

Lemma untouched_nowhere m m' a : untouched_but m m' USER_PAGE 0 -> untouched_but m m' a 0.
Proof. intros H x Hx _. apply H; [exact Hx|lia]. Qed.

Lemma law_execute w a s sc q r :
  process_ok i w -> shell_ready w -> cstr (shell_umem w) a s -> paged a (zlen s + 1) ->
  zlen (command_name s) < 128 -> zlen (command_args s) < 128 ->
  command_at w (process_screen i w) (process_typed i w) s = Some (sc, q, r) ->
  exists w', run_command w a = Some (w', r) /\ resumed_at w w' /\ process_screen i w' = sc /\ process_typed i w' = q /\
    untouched_but (shell_umem w) (shell_umem w') a 0.
Proof.
  intros ok rd Hc Ha Hn Har. destruct (shell_exec_ok w a s ok rd Hc Ha Hn Har) as [va ex].
  unfold command_at. cbv zeta. destruct (first_free_slot (kmem (w_kernel w))) as [Full|(j & Hj & Hf & Hlow)].
  { rewrite (proj2 (forallb_forall _ _)) by (intros x Hx; apply Full; apply list_elem_of_In, elem_of_seqZ in Hx; lia).
    intros [= <- <- <-]. destruct (unchanged w ok rd) as (R1 & R2 & R3 & R4).
    eexists. split; [|split; [exact R1|split; [exact R3|split; [exact R2|by apply untouched_nowhere]]]].
    apply run_refused. unfold syscall_execute. cbv zeta. by rewrite (find_slot_full _ Full). }
  assert (Hij : i <> j) by (intros <-; rewrite (rd_used w rd) in Hf; discriminate).
  assert (Ef : forallb (slot_used (kmem (w_kernel w))) (seqZ 0 6) = false).
  { apply not_true_iff_false. rewrite forallb_forall. intros H. rewrite (H j) in Hf; [discriminate|].
    apply list_elem_of_In, elem_of_seqZ. lia. }
  rewrite Ef. destruct (execute_load junk (w_kernel w) i esp ebp _ a s va ex j Hj Hf Hlow)
    as (m' & entry & E & Een & Ren & M & S & U & N & A & F & Cb).
  assert (No : entry = 0 -> Some (process_screen i w, process_typed i w, -1) = Some (sc, q, r) ->
    exists w', run_command w a = Some (w', r) /\ resumed_at w w' /\ process_screen i w' = sc /\ process_typed i w' = q /\
      untouched_but (shell_umem w) (shell_umem w') a 0).
  { intros -> [= <- <- <-]. destruct (refused w a va s m' j ok rd ex Hj Hij M U Cb) as (R1 & R2 & R3 & R4).
    eexists. split; [|split; [exact R1|split; [exact R3|split; [exact R2|by apply untouched_nowhere]]]].
    apply run_refused. exact E. }
  destruct (find_file _ _ _) as [file|]; [|by apply No]. destruct Een as [Ez Ee].
  destruct ((zlen file <=? 4) || negb (bool_decide (take 4 file = ELF_MAGIC_HEADER))) eqn:Eb.
  { apply No, Ez. rewrite orb_true_iff, Z.leb_le, negb_true_iff, bool_decide_eq_false in Eb. exact Eb. }
  destruct (Z.ltb_spec (zlen file) 28) as [|H28]; [discriminate|]. specialize (Ee H28).
  destruct (Z.eqb_spec (executable_entry file) 0) as [E0|E0]; [apply No; congruence|].
  destruct (programs (command_name s)) as [u|] eqn:Hu; [|discriminate]. cbn [mbind option_bind].
  destruct (contains u file) eqn:Hcon; [|discriminate]. intros Hspec.
  rewrite (proj2 (Z.eqb_neq entry 0)) in E by congruence.
  destruct (accepted w a va s m' j entry u file sc q r ok rd ex Hj Hij Hf Ren M S N A Cb (F file eq_refl) E Hu Hcon Hspec)
    as (w' & R0 & R1 & R2 & R3 & R4).
  exists w'. split; [exact R0|]. split; [exact R1|]. split; [exact R2|]. split; [exact R3|by apply untouched_nowhere].
Qed.

(** Calls other than [execute] keep the shell's state. *)
Lemma law_ready w w' :
  shell_ready w -> kept i w w' ->
  (forall fd, handle_at i (kmem (w_kernel w')) (kfs (w_kernel w')) fd = handle_at i (kmem (w_kernel w)) (kfs (w_kernel w)) fd) ->
  process_ok i w -> resumed_at w w'.
Proof.
  intros rd (ok' & Ea & Ed & En & El) Eh ok. pose proof (slot_pcb_range i Hi) as RP. fold P in RP.
  destruct (process_video i w ok) as [_ Hv]. destruct lay_output as [[O1 O2] _]. unfold KERNEL_PAGE_START, KERNEL_IMAGE_END in *.
  pose proof (process_page_eq i Hi) as Ei. fold page in Ei. pose proof (el_mem _ _ _ El) as M. unfold off_process in M. fold P page in M.
  assert (Ml : forall x, lasting_byte w x -> load8 (kmem (w_kernel w')) x = load8 (kmem (w_kernel w)) x).
  { intros x Hx. apply lasting_byte_kept in Hx as (X1 & X2 & X3); [|exact ok|exact rd]. apply M. lia. }
  assert (Mp : forall n x, 0 <= n < 6 -> n <> i -> get_pcb_from_slot n <= x < get_pcb_from_slot n + 452 ->
    load8 (kmem (w_kernel w')) x = load8 (kmem (w_kernel w)) x).
  { intros n x Hn Hni Hx. pose proof (slot_pcb_range n Hn). pose proof (slot_pcbs_apart n i Hn Hi Hni) as A. fold P in A.
    apply M. lia. }
  assert (Us : forall n, 0 <= n < 6 -> slot_used (kmem (w_kernel w')) n = slot_used (kmem (w_kernel w)) n).
  { intros n Hn. unfold slot_used. f_equal. apply load_le_ext. intros x Hx. simpl in Hx.
    destruct (Z.eq_dec n i) as [->|Hni]; [fold P in Hx; apply M; lia|]. apply (Mp n); lia. }
  split; [exact ok'|]. split.
  - apply (ready_same w w' ok rd (el_fs _ _ _ El) Ml); [|exact Us|].
    + intros f Hf. rewrite !elem_of_cons, elem_of_nil in Hf.
      destruct Hf as [->|[->|[]]]; apply load_le_ext; intros x Hx; simpl in Hx; apply M; lia.
    + intros n fd Hn Hu Hfd. assert (Hni : n <> i) by (intros ->; rewrite (rd_used w rd) in Hu; discriminate).
      pose proof (rd_clean w rd n fd Hn Hu Hfd) as Cl. unfold fd_used, flags_in_use, f_flags in *.
      replace (load32 (kmem (w_kernel w')) (fa (get_pcb_from_slot n) fd + 8))
        with (load32 (kmem (w_kernel w)) (fa (get_pcb_from_slot n) fd + 8)); [exact Cl|].
      symmetry. apply load_le_ext. intros x Hx. simpl in Hx. unfold fa, fa_offset, sizeof_file_t in Hx. apply (Mp n); lia.
  - split; [exact Eh|]. split; [exact Ea|]. split; [exact Ed|]. split; [exact En|]. intros sc q s.
    apply (command_same w w' sc q s ok rd (el_fs _ _ _ El)); [|exact Us|exact Ed|exact En].
    intros x Hx. apply Ml. by left.
Qed.

(** The kernel keeps the contract of [execute]. *)
Definition kernel_shell_ok :
  ShellSystemOk (US := kernel_system_ok test_suite rtc_handler_wrapper i esp Hi Hesp) (X := kernel_shell) world.
Proof.
  refine (Build_ShellSystemOk world _ (kernel_system_ok test_suite rtc_handler_wrapper i esp Hi Hesp) kernel_shell
            shell_ready command_at _ _).
  - intros w w' ok rd K H. exact (law_ready w w' rd K H ok).
  - intros w a s sc q r ok rd Hc Ha Hn Har Hs. exact (law_execute w a s sc q r ok rd Hc Ha Hn Har Hs).
Defined.
End shell.
