(* ===== verification/ShellLevel.v ===== *)
(** The shell on the kernel: a session at a terminal, from the typed lines
    through [execute], the programs, [halt] and back to the prompt. *)

From Stdlib Require Import String.
From S2P Require Import Prelude Memory Layout I8259 LibMem LibString CircularBuffer Paging Ece391Fs Fs Pcb.
From S2P Require Import Terminal Screen Printf Console LineInput Machine Rtc Syscall FileTable Process Execute Boot.
From S2P Require Import Support UserSys Programs Shell Utility UserKernel UserLevel KernelShell.

#[local] Open Scope Z_scope.

(** The calls of each slot run on its kernel stack, with their locals there. *)
Record stacks_ok (stack : Z -> Z) (envs : Z -> Z -> env) : Prop := {
  sk_esp : forall j, 0 <= j < 6 -> get_pcb_from_slot j < stack j <= get_kernel_stack_base_from_slot j;
  sk_local : forall j n, 0 <= j < 6 -> get_pcb_from_slot j + sizeof_pcb_t <= e_local (envs j n) /\
                                       e_local (envs j n) + 64 <= get_kernel_stack_base_from_slot j
}.

(** * Properties *)

(** C16: the shell runs a session.  A shell in slot [i], with the literals of
    its program in memory and free slots clean, prints its banner and then, for
    each typed line, the prompt and what the command does: a file that is no
    program, or none at all, gives "no such command"; an executable is loaded
    into a free slot, runs there on the same terminal and with the arguments of
    the line, and returns to the shell, whose memory, descriptors and page
    tables are as before; a status other than zero is reported.  The line
    "exit" ends the shell with status 0 and leaves the rest of the input. *)
Theorem shell_on_kernel `{L : Layout} `{LOk : !LayoutOk L} test_suite wrapper (junk : Z -> Z) (i esp ebp : Z)
    (stack : Z -> Z) (envs : Z -> Z -> env) (programs : list Z -> option utility) (lit : string -> Z) (fuel : nat)
    (w : world) (buf : Z) (sc : screen) (q : list Z) (r : Z) :
  let U := kernel_system test_suite wrapper i esp in
  let X := kernel_shell test_suite wrapper junk esp ebp stack envs programs in
  running i esp w -> shell_ready i w -> 0 <= ebp < 0x100000000 ->
  stacks_ok stack envs -> paged buf 1024 -> shell_literals (U := U) lit buf w ->
  shell_session fuel (command_at programs w) (process_screen i w) (process_typed i w) = Some (sc, q, r) ->
  exists w', shell_main (U := U) (X := X) lit fuel w buf = Some (w', r) /\
    process_ok i w' /\ shell_ready i w' /\ process_screen i w' = sc /\ process_typed i w' = q.
Proof.
  intros U X [Hi Hesp Hok Hin Hout _] Hrd Hebp [Hst Henv] Hb Hl Hs.
  set (SS := kernel_shell_ok test_suite wrapper junk i esp ebp stack envs programs Hi Hesp Hebp Hst Henv).
  destruct (shell_spec (SS := SS) lit buf fuel w sc q r Hok Hrd Hin Hout Hb Hl Hs) as (w' & E & (R1 & R2 & _) & D & T).
  exists w'. split; [exact E|]. split; [exact R1|]. split; [exact R2|]. split; [exact D|exact T].
Qed.

(** * An example *)

Definition cat_lit (f : string) : Z := 0x804801C.

Lemma cat_buffer : paged 0x8040000 1024.
Proof. unfold paged, USER_PAGE, USER_PAGE_END. lia. Qed.

Lemma cat_placed : placed cat_lit 0x8040000 1024 not_found.
Proof.
  split; [unfold paged, USER_PAGE, USER_PAGE_END, cat_lit; vm_compute; intuition congruence|].
  split; [right; vm_compute; congruence|]. apply (bool_decide_unpack _). vm_compute. exact I.
Qed.

Definition example_programs (name : list Z) : option utility :=
  if bool_decide (name = [99; 97; 116]) then Some (cat_utility cat_lit 0x8040000 100 cat_buffer cat_placed) else None.

#[local] Abbreviation user_kmem := (kmem (w_kernel user_world)).
#[local] Abbreviation user_system := (kernel_system (L := example_layout) (fun s _ => s) 0 0 0x7FFF00).

(** The stack pointer and the locals of the calls in a slot. *)
Definition example_stack (j : Z) : Z := get_pcb_from_slot j + 8000.
Definition example_envs (j n : Z) : env := Env (get_pcb_from_slot j + 4096) [] 0 0 0.

Lemma example_stacks : stacks_ok example_stack example_envs.
Proof.
  split; [intros j Hj|intros j n Hj]; rewrite stack_base_eq by exact Hj.
  - unfold example_stack. lia.
  - cbn [e_local example_envs]. unfold sizeof_pcb_t. lia.
Qed.

Lemma user_ready : shell_ready (L := example_layout) 0 user_world.
Proof.
  split.
  - vm_compute. reflexivity.
  - vm_compute. reflexivity.
  - vm_compute. reflexivity.
  - split; [vm_compute; reflexivity|]. split; [repeat constructor; lia|vm_compute; reflexivity].
  - intros x Hx. change (@elf_magic example_layout) with 0x409050 in Hx. apply (example_boot_kept 0x409050 0x409055); lia.
  - exact user_entries.
  - intros n fd Hn _ Hfd.
    assert (F : forallb (fun n => forallb (fun fd => negb (fd_used user_kmem (get_pcb_from_slot n) fd)) (seqZ 2 6)) (seqZ 0 6)
                = true) by (vm_compute; reflexivity).
    assert (I1 : n ∈ seqZ 0 6) by (apply elem_of_seqZ; lia). assert (I2 : fd ∈ seqZ 2 6) by (apply elem_of_seqZ; lia).
    rewrite list_elem_of_In in I1, I2. rewrite forallb_forall in F. specialize (F n I1).
    rewrite forallb_forall in F. specialize (F fd I2).
    by apply negb_true_iff in F.
Qed.

Lemma user_shell_literals : shell_literals (U := user_system) user_lit 0x8060000 user_world.
Proof.
  apply Forall_forall. intros f Hf. apply user_literal. apply in_or_app. right. apply in_or_app. left. by apply list_elem_of_In.
Qed.

(** The characters of a part of the screen. *)
Definition shown (sc : screen) (from n : nat) : list Z := (fun c => c mod 256) <$> take n (drop from (cells sc)).

(** "0" is no command, "cat a" prints the file, "exit" ends the session. *)
Lemma example_session :
  (fun x => (shown x.1.1 320 22, shown x.1.1 400 24, x.1.2, x.2)) <$>
  shell_session 4 (command_at example_programs user_world) (process_screen 0 user_world) (process_typed 0 user_world)
  = Some (bytes_of "391OS> no such command", bytes_of "391OS> helloworld391OS> ", [], 0).
Proof. vm_compute. reflexivity. Qed.

Lemma shell_on_kernel_witness :
  exists w', shell_main (U := user_system)
      (X := kernel_shell (L := example_layout) (fun s _ => s) 0 (fun _ => 0) 0x7FFF00 0x7FFF80 example_stack example_envs
              example_programs) user_lit 4 user_world 0x8060000 = Some (w', 0) /\
    process_typed 0 w' = [] /\ shown (process_screen 0 w') 400 24 = bytes_of "391OS> helloworld391OS> ".
Proof.
  pose proof example_session as E.
  destruct (shell_session 4 _ _ _) as [[[sc q] r]|] eqn:Es; [|discriminate E].
  cbn [fmap option_fmap option_map fst snd] in E. injection E as _ E1 E2 E3.
  destruct (shell_on_kernel (LOk := example_layout_ok) (fun s _ => s) 0 (fun _ => 0) 0 0x7FFF00 0x7FFF80 example_stack
              example_envs example_programs user_lit 4 user_world 0x8060000 sc q r) as (w' & M & _ & _ & S & T).
  - exact user_running.
  - exact user_ready.
  - lia.
  - exact example_stacks.
  - exact (user_buffer 1024 ltac:(lia)).
  - exact user_shell_literals.
  - exact Es.
  - exists w'. split; [rewrite M, E3; reflexivity|]. split; [rewrite T; exact E2|]. rewrite S. exact E1.
Defined.
