(* ===== verification/KernelErrors.v ===== *)
(** The kernel refuses wrong calls: [ErrorSystemOk] for a process in a slot, and
    the tests of [syscalls/ece391syserr.c] on the kernel. *)

From Stdlib Require Import String.
From S2P Require Import Prelude Memory Layout I8259 LibMem LibString CircularBuffer Paging Ece391Fs Fs Pcb.
From S2P Require Import Terminal Screen Printf Console LineInput Machine Rtc Syscall Dispatch FileTable Process Boot.
From S2P Require Import Support UserSys Programs Shell SysErr UserKernel UserLevel.

#[local] Open Scope Z_scope.

Section errors.
Context `{L : Layout} `{LOk : !LayoutOk L}.
Context (test_suite : tty -> Z -> tty) (rtc_handler_wrapper : Z) (junk : Z -> Z).
(** The process, and what is in the registers that [call_sys] does not set. *)
Context (i esp ebp ebx ecx edx : Z).
Let pcb := get_pcb_from_slot i.

Definition kernel_errors : ErrorSystem world := {|
  ece391_vidmap w a := call w (fun k e => syscall_vidmap k esp a);
  call_sys w n :=
    '(k, out) ← syscall_handler_wrapper test_suite rtc_handler_wrapper junk (w_kernel w) esp ebp (w_env w (w_calls w))
                  n ebx ecx edx;
    match out with
    | Return r => Some (World k (w_env w) (w_calls w + 1), r)
    | _ => None
    end
|}.

Hypotheses (Hi : 0 <= i < 6) (Hesp : pcb < esp <= get_kernel_stack_base_from_slot i).
#[local] Existing Instance kernel_errors.
#[local] Instance U : UserSystem world := kernel_system test_suite rtc_handler_wrapper i esp.
#[local] Instance US : UserSystemOk world := kernel_system_ok test_suite rtc_handler_wrapper i esp Hi Hesp.

(** A call that returned without an effect. *)
Lemma no_effect w :
  process_ok i w -> let w' := World (w_kernel w) (w_env w) (w_calls w + 1) in quietly w w' /\ display w' = display w.
Proof.
  intros ok w'.
  destruct (page_change test_suite rtc_handler_wrapper i esp Hi Hesp w (w_kernel w) (w_calls w + 1) USER_PAGE 0)
    as (K & S & T & H & M); [exact ok|by split|lia|lia|unfold USER_PAGE, USER_PAGE_END; lia|done|].
  split; [|exact S]. split; [exact K|]. split; [exact T|]. split; [exact H|]. intros x Hx _. apply M; [exact Hx|lia].
Qed.

(** No descriptor, or one without the operation. *)
Lemma no_handle w fd :
  process_ok i w -> handles w fd = None ->
  bad_fd fd = true \/ bad_fd fd = false /\ flags_in_use (kmem (w_kernel w)) (fa pcb fd) = false.
Proof.
  intros ok Hn. destruct (bad_fd fd) eqn:E; [by left|]. right. split; [done|].
  apply bad_fd_range in E. by apply (handle_free i w fd ok E) in Hn.
Qed.

Lemma law_bad_read w fd buf n :
  process_ok i w -> paged buf n -> handles w fd = None \/ handles w fd = Some Display ->
  exists w', ece391_read w fd buf n = Some (w', -1) /\ quietly w w' /\ display w' = display w.
Proof.
  intros ok Hb Hh. exists (World (w_kernel w) (w_env w) (w_calls w + 1)). split; [|by apply no_effect].
  cbn [ece391_read U kernel_system]. unfold call, syscall_read. rewrite (target_ok i buf n Hb), (current_pcb i esp Hi Hesp).
  fold pcb. cbn [negb]. destruct Hh as [Hn|Hd].
  - destruct (no_handle w fd ok Hn) as [->|[-> ->]]; reflexivity.
  - destruct (handle_inv i _ _ _ _ Hd) as (o & _ & E1 & E2 & E3 & E4 & E5). fold pcb in E2, E3, E4.
    rewrite E1, E2, E3, E4. by destruct o.
Qed.

Lemma law_bad_write w fd buf n :
  process_ok i w -> paged buf n -> handles w fd = None \/ handles w fd = Some Keyboard ->
  exists w', ece391_write w fd buf n = Some (w', -1) /\ quietly w w' /\ display w' = display w.
Proof.
  intros ok Hb Hh. exists (World (w_kernel w) (w_env w) (w_calls w + 1)). split; [|by apply no_effect].
  cbn [ece391_write U kernel_system]. unfold call, syscall_write. rewrite (target_ok i buf n Hb), (current_pcb i esp Hi Hesp).
  fold pcb. cbn [negb]. destruct Hh as [Hn|Hd].
  - destruct (no_handle w fd ok Hn) as [->|[-> ->]]; reflexivity.
  - destruct (handle_inv i _ _ _ _ Hd) as (o & _ & E1 & E2 & E3 & E4 & E5). fold pcb in E2, E3, E4.
    rewrite E1, E2, E3, E4. by destruct o.
Qed.

Lemma law_bad_close w fd :
  process_ok i w -> handles w fd = None \/ handles w fd = Some Keyboard \/ handles w fd = Some Display ->
  exists w', ece391_close w fd = Some (w', -1) /\ quietly w w' /\ display w' = display w.
Proof.
  intros ok Hh. exists (World (w_kernel w) (w_env w) (w_calls w + 1)). split; [|by apply no_effect].
  cbn [ece391_close U kernel_system]. unfold call, syscall_close. rewrite (current_pcb i esp Hi Hesp). fold pcb.
  destruct Hh as [Hn|[Hd|Hd]].
  - destruct (no_handle w fd ok Hn) as [->|[-> ->]]; reflexivity.
  - destruct (handle_inv i _ _ _ _ Hd) as (o & _ & E1 & E2 & E3 & E4 & E5). fold pcb in E2, E3, E4.
    rewrite E1, E2, E3, E4. by destruct o.
  - destruct (handle_inv i _ _ _ _ Hd) as (o & _ & E1 & E2 & E3 & E4 & E5). fold pcb in E2, E3, E4.
    rewrite E1, E2, E3, E4. by destruct o.
Qed.

Lemma law_bad_vidmap w a :
  process_ok i w -> 0 <= a < USER_PAGE ->
  exists w', ece391_vidmap w a = Some (w', -1) /\ quietly w w' /\ display w' = display w.
Proof.
  intros ok Ha. exists (World (w_kernel w) (w_env w) (w_calls w + 1)). split; [|by apply no_effect].
  cbn [ece391_vidmap kernel_errors]. unfold call, syscall_vidmap, in_target_page, PROCESS_VIRT_PAGE_START.
  unfold USER_PAGE in Ha. rewrite u32_id by lia. destruct (Z.leb_spec 0x8000000 a); [lia|]. reflexivity.
Qed.

Lemma law_bad_call w n :
  process_ok i w -> - 0x80000000 <= n < 0x80000000 -> n < 1 \/ 10 < n ->
  exists w', call_sys w n = Some (w', -1) /\ quietly w w' /\ display w' = display w.
Proof.
  intros ok Hr Hn. exists (World (w_kernel w) (w_env w) (w_calls w + 1)). split; [|by apply no_effect].
  cbn [call_sys kernel_errors]. rewrite wrapper_refuses by assumption. reflexivity.
Qed.

Definition kernel_errors_ok : ErrorSystemOk world.
Proof.
  refine (Build_ErrorSystemOk world U US kernel_errors law_bad_read law_bad_write law_bad_close law_bad_vidmap law_bad_call).
Defined.
End errors.

(** * Properties *)

(** C18: the kernel passes its error tests.  The program of [ece391syserr.c],
    run on a fresh process with a line typed, prints its prompt and then, for
    the choice 0, that each of the eight tests and the whole passed, for 1 to 8
    that the chosen test passed: reads, writes and closes of wrong, unopened and
    unsuitable descriptors, an open with all descriptors used, opens of absent
    names, [vidmap] with bad pointers and calls with bad numbers all return -1
    and change nothing.  It ends with status 0 and its descriptors as before. *)
Theorem syserr_on_kernel `{L : Layout} `{LOk : !LayoutOk L} test_suite wrapper (junk : Z -> Z)
    (i esp ebp ebx ecx edx : Z) (lit : string -> Z) (w : world) (buf tbuf : Z) (sc : screen) :
  let U := kernel_system test_suite wrapper i esp in
  let X := kernel_errors test_suite wrapper junk esp ebp ebx ecx edx in
  let m := kmem (w_kernel w) in
  let fs := kfs (w_kernel w) in
  let line := first_line (process_typed i w) in
  running i esp w -> (forall fd, fd <> 0 -> fd <> 1 -> handle_at i m fs fd = None) ->
  disk_at m fs (bytes_of ".") = Some Folder ->
  Forall (fun f => disk_at m fs (bytes_of f) = None) ["helloo"; "shel"; ""]%string ->
  Forall (literal (U := U) lit w buf 128) syserr_texts ->
  Forall (fun f => literal (U := U) lit w buf 128 f /\ paged (lit f) 32) syserr_files ->
  paged buf 128 -> paged tbuf 32 -> 0 < newlines (process_typed i w) -> zlen line <= 127 ->
  scr_puts (process_screen i w) (bytes_of syserr_prompt ++ syserr_text (hd 0 line)) = Some sc ->
  exists w', syserr_main (U := U) (X := X) lit w buf tbuf = Some (w', 0) /\ only_printed i w w' sc /\
    process_typed i w' = drop (length line) (process_typed i w) /\
    forall fd, handle_at i (kmem (w_kernel w')) (kfs (w_kernel w')) fd = handle_at i m fs fd.
Proof.
  intros U X m fs line [Hi Hesp Hok Hin Hout _] Hfd Hdot Habs Ht Hf Hb Htb Hn Hlen Hs.
  set (ES := kernel_errors_ok test_suite wrapper junk i esp ebp ebx ecx edx Hi Hesp).
  destruct (syserr_spec (ES := ES) lit buf tbuf Htb w sc) as (w' & E & (L1 & _ & L3 & _) & D & T & H).
  - split; [exact Hok|exact Hin|exact Hout|exact Hfd|exact Hdot|exact Habs|exact Ht|exact Hf].
  - exact Hb.
  - exact Hn.
  - exact Hlen.
  - exact Hs.
  - exists w'. split; [exact E|]. split; [split; [exact L1|exact D|exact L3]|]. split; [exact T|exact H].
Qed.

#[local] Abbreviation user_system := (kernel_system (L := example_layout) (fun s _ => s) 0 0 0x7FFF00).

Lemma syserr_on_kernel_witness :
  exists w', syserr_main (U := user_system)
      (X := kernel_errors (L := example_layout) (fun s _ => s) 0 (fun _ => 0) 0x7FFF00 0x7FFF80 0 0 0)
      user_lit user_world 0x8060000 0x8061000 = Some (w', 0) /\ process_ok (L := example_layout) 0 w'.
Proof.
  assert (Et : process_typed 0 user_world = user_keys) by (vm_compute; reflexivity).
  destruct (scr_puts_total (process_screen 0 user_world) (bytes_of syserr_prompt ++ syserr_text 48)) as [sc Hsc].
  { apply (bool_decide_unpack _). vm_compute. exact I. }
  destruct (syserr_on_kernel (LOk := example_layout_ok) (fun s _ => s) 0 (fun _ => 0) 0 0x7FFF00 0x7FFF80 0 0 0 user_lit
              user_world 0x8060000 0x8061000 sc) as (w' & E & [O _ _] & _).
  - exact user_running.
  - intros fd H0 H1. destruct (decide (0 <= fd < 8)) as [Hfd|Hfd]; [|by apply handle_range].
    assert (fd = 2 \/ fd = 3 \/ fd = 4 \/ fd = 5 \/ fd = 6 \/ fd = 7) as [->|[->|[->|[->|[->| ->]]]]] by lia;
      vm_compute; reflexivity.
  - vm_compute. reflexivity.
  - repeat constructor; vm_compute; reflexivity.
  - apply Forall_forall. intros f Hf. apply user_literal. apply in_or_app. right. apply in_or_app. right.
    apply in_or_app. left. by apply list_elem_of_In.
  - apply Forall_forall. intros f Hf. split.
    + apply user_literal. apply in_or_app. right. apply in_or_app. right. apply in_or_app. right.
      apply in_or_app. left. by apply list_elem_of_In.
    + revert f Hf. apply Forall_forall. repeat constructor; vm_compute; congruence.
  - exact (user_buffer 128 ltac:(lia)).
  - unfold paged, USER_PAGE, USER_PAGE_END. lia.
  - rewrite Et. reflexivity.
  - rewrite Et. apply Z.leb_le. reflexivity.
  - rewrite Et. exact Hsc.
  - exists w'. split; [exact E|exact O].
Defined.
